(* ===== verification/_CoqProject ===== *)
-Q . S2P
Prelude.v
Memory.v
Format.v
Screen.v
PhysicalMemory.v
Radix.v
Paging.v
PagingInit.v
GuestPaging.v
Apic.v
Ept.v
Ring.v
SortSearch.v
Vmm.v
Registry.v
Devices.v
Event.v
Schedule.v
Decode.v
Exit.v
Typed.v
Vmcs.v
BringUp.v
Drivers.v
Spinlock.v
Descriptors.v
Segments.v
Percpu.v
Panic.v
Dump.v
VmDump.v
Boot.v
Tetris.v
Grid.v
Game.v
GuestKernel.v
