(* ===== verification/Prelude.v ===== *)
(** * ZeldaOS: a monitor kernel and the guest it runs

    The repository is an x86-64 kernel that boots, takes over physical memory
    and paging, becomes a VT-x monitor and runs one guest, an image linked into
    the kernel. The guest is a small kernel of its own that plays Tetris on a
    screen the monitor emulates. This development models both programs and the
    boundary between them, and proves what makes each part correct.

    ** The program and the files that model it

    Kernel ([src/lib64], [src/memory], [src/x86_64], [src/device]):
    - [Memory]: byte-addressed memory; [memset], [memcpy] of [lib64/string.c].
    - [Format]: [printk] and [sprintf] ([lib64/printk.c], [lib64/string.c]), one
      walk of the format string over an emitter.
    - [Screen]: the text screen and its banner ([device/video.c]), and the set-up of
      the serial chip ([device/serial.c]).
    - [Panic]: what a failing assertion reports ([lib64/logging.c],
      [x86_64/panic.c]).
    - [Dump]: [printk] with its lock, and the dump of an interrupt frame
      ([lib64/printk.c], [x86_64/cpu_state.c]).
    - [PhysicalMemory]: the boot-time memory list, the page bitmap and the bump
      allocator ([memory/physical_memory.c]). Everything else takes its pages from
      it; clients are proved against the class [PageSource].
    - [Radix]: theory of four-level radix tables in memory, shared by [Paging] and
      [Ept]: an ownership map makes the pages of a table a tree.
    - [Paging], [PagingInit]: [map_address], [pa], [paging_init]
      ([memory/paging.c]).
    - [Ring], [SortSearch]: [ring.h], [sort.h], [search.h] of [lib64/include].
    - [Spinlock]: [x86_64/spinlock.c], interleaved memory accesses of the CPUs.
    - [Descriptors]: task and interrupt descriptors, the task register and the
      interrupt dispatcher ([x86_64/gdt.c], [tss.c], [interrupt.c]).
    - [Segments]: the code and data descriptors of the kernel and of the guest
      ([gdt.c], [guest/gdt64.c]), and the reloads on another processor.
    - [Apic]: the drivers of the local and the I/O APIC ([lapic.c], [ioapic.c]),
      over the class [Chips] of the chips' registers; what the manuals say of those
      registers are the laws of [ChipsSpec], which [SampleChips] shows can hold.
    - [Percpu]: storage local to a processor ([processor_local_storage.c],
      [per_cpu.h]).
    - [Boot]: [kernel_main] and [kernel_ap_main] ([init/kernel_main.c]): the other
      files' initialisers composed in one machine, with the feature checks
      ([cpuid.c]) and the switch into VMX operation ([vmx_misc.c]).

    Monitor ([src/vm_monitor]):
    - [Vmm]: the state: VMCS, guest registers, [struct vmcs_blob], the devices of
      the VM, and the input streams of the hardware (time stamps, scancodes).
    - [Ept]: the guest's extended page table ([vmx_ept.c]).
    - [Registry]: the tables of ports and MMIO regions ([vmx_pio.c], [vmx_mmio.c]).
    - [Devices]: one Module per device: [Pic], [Pit], [Serial], [Keyboard],
      [Video] ([device_*.c]).
    - [Event]: interrupt requests and their injection ([vmx_event.c]).
    - [Schedule]: host timer and keyboard interrupts while the guest runs, and
      [rdtsc] ([vmx_schedule.c], [vmx_rdtsc.c], [device/keyboard.c]).
    - [Decode]: the instruction decoder ([vmx_instruction_decoding.c]).
    - [Exit]: the dispatcher of guest exits and its handlers ([vmx_exit.c],
      [vmx_ept_misconfig.c], [vmx_pio.c], [vmx_misc.c]).
    - [Typed]: the widths and ranges of the monitor's state, an invariant of every
      exit handler.
    - [Vmcs], [BringUp]: allocation and initialisation of the VMCS, control words,
      I/O bitmap, guest memory and image, up to [vmlaunch] ([vmx_vmcs.c]).
    - [VmDump]: [dump_vm] and [PANIC_EXIT] ([vmx_vmcs.c], [vmx_exit.h]).

    Guest ([src/guest]):
    - [Drivers]: serial line, [printk], interrupt controllers, timer and the
      acknowledgement of interrupts ([serial.c], [printk.c], [pit.c],
      [interrupt.c]), over the class [Ports]; the monitor is an instance of its
      laws, [PortsSpec].
    - [Tetris]: the game ([tetris.c]), its screen ([video.c]) and the two interrupt
      handlers that drive it ([keyboard.c], [timer.c]), with the scancodes as a stream
      and the calls of [printk] recorded; [Grid] and [Game] are its theory.
    - [GuestPaging]: the guest's page tables ([trivial_paging.c], and the early
      table of [init32.S]).
    - [GuestKernel]: the guest from its 32-bit entry to its interrupt loop
      ([init32.S], [init.c], [interrupt.c]), composed of the other four: here the
      keyboard handler reads its port and what the game prints is sent.

    ** How a definition corresponds to the code

    A definition has the name of the function, macro or type it translates. A C
    integer is a [Z]; an operation that can leave its type is followed by [u8],
    [u16], [u32], [u64] or [s32]; a bit-field of a packed structure is a position
    in its storage word ([bitfield]). Code that changes state is a computation of
    the monad [M]: it answers a value and a new state, or stops with a [fault].
    [ASSERT], [PANIC_EXIT] and [__not_reach] are [Halted] ([ASSERT_assert] of [Panic]
    and [PANIC_EXIT_halts] of [VmDump] show that the report in between finishes); an integer division by
    zero is [DivideError]; an access outside an array is [BadAccess]; an
    instruction the processor refuses is [ProtectionFault]. Pointers into tables
    are addresses of the memory map, so aliasing is the program's own. Function
    pointers in tables are names of callbacks, run by [Exit].

    What the source does not define is a parameter or part of the state: the
    processor's registers and the linker's addresses are the records [host_env] of
    [Vmcs] and [symbols] of [Boot]; [CPUID] is a function of processor and leaf; time
    stamps and scancodes are streams; the interrupt controllers are any state that
    keeps the laws of [ChipsSpec].

    ** Bounds and fuel

    A loop that the source bounds by a counter is [mfor], structural in its count.
    The others take fuel, and the theorems prove that the fuel given is enough:
    - [memory_list_fuel] is 171, what fits between the list and the next
      structure: 24-byte entries in one page with their terminator;
      [base_pages_fuel] counts the pages of the image.
    - [ept_memory_loop] and [image_loop] get one step per guest page
      ([image_fuel]); the guest has [GUEST_PAGES] = 4097 pages.
    - [search_loop] gets the length of the array.
    - [PREFIX_FUEL] = 4096: the decoder never scans further than a page; an
      instruction is at most 15 bytes.
    - [format_loop] and [emit_string] get the length of the format and of a string
      argument.
    - [backtrace_loop] is bounded by the code's 32 frames and [show_frames] gets one
      step more than that; the loops over a stored text ([print_loop],
      [truncate_line]) get more than its length.
    - [wait_transmit] polls the serial port; the laws of [PortsSpec] make one poll
      enough, and the theorems hold for every positive fuel.
    - [wait_delivered] polls the local APIC; the laws of [ChipsSpec] bound the polls
      by a [delay], and the result is the same for every fuel above it.

    ** What the theorems show

    - Memory: the segments detected at boot are the last usable ones of the loader's
      list ([physical_memory_init_spec]); page requests never overlap
      ([page_allocations_disjoint]); mapping a
      page is insertion into an address map ([map_address_refines]); the kernel's
      map is the identity on 2 GiB ([paging_init_identity]); every guest page has
      its own zeroed host page and nothing else is reachable
      ([guest_memory_isolated]); device pages trap ([setup_io_memory_traps]).
    - The start: from the loader to the running guest ([kernel_main_starts_guest]),
      what every initialiser builds is intact at the end and the guest's memory
      holds the image; application processors start in any order
      ([all_processors_start], [cpuid_answers]); the interrupt controllers are set
      up as meant ([controllers_initialised], [start_other_processors_delivers]).
    - The monitor: bring-up completes and leaves the VM as meant
      ([vm_brought_up]); whatever the guest does, every exit keeps the types of the
      state ([exits_keep_types]); every exit reason has its effect ([vm_exit_dispatch]); port
      and memory accesses are emulated and the guest resumes behind them
      ([port_io], [mmio_emulates]); the decoder inverts an encoder
      ([decode_encode]); the registries are finite maps
      ([port_table_refines_map], [mmio_table_finds_region]); the control words are
      adjusted to what the processor supports ([controls_adjusted]).
    - Interrupts: the window handler implements a delivery state machine
      ([interrupt_window_refines]); scancodes reach the guest in order
      ([scancodes_reach_guest]); when the guest's timer ticks and when it starves
      ([timer_tick], [fast_ticks_starve_timer]); host gates and handlers
      ([interrupts_delivered]).
    - Devices: what any sequence of accesses does to each ([pic_programming],
      [pit_programming], [serial_stream], [video_write_read]).
    - Reporting: [sprintf] renders its format ([sprintf_renders]); the screen at
      start-up ([video_init_banner]); what a failing assertion prints, shows and
      records, and that it writes nothing else ([assertion_report]); the text of the
      two dumps ([dump_cpu_state_text], [dump_vm_text]); [printk] entered again on a
      processor that holds its lock does not come back ([printk_reentered]); what the
      serial chip is programmed to ([serial_init_programs]).
    - Segments: the selectors the kernel and the guest load find flat descriptors of
      the kind meant ([segments_selected], [guest_segments_selected]).
    - Concurrency: mutual exclusion and absence of deadlock of the spinlock, by
      rule induction over the machine's steps.
    - The guest: its boot runs on the monitor's devices
      ([guest_boots_on_devices]); from its entry it serves any sequence of interrupts,
      and the serial line carries exactly the boot messages and what each interrupt
      makes it say ([guest_runs]), in the address space its tables build ([guest_address_space]);
      no sequence of interrupts crashes the game ([game_never_crashes]); the in-place purge of rows is a filter
      ([purge_grid_spec]); what a key does ([arrow_down_spec]).
    - Errors: where the code does something else than it means to, the theorem
      states what it does ([map_4k_in_large_page_overwrites_memory],
      [guestpa_to_hostpa_unmapped_leaf], [movzx_rex_halts],
      [task_register_of_cpu], [pit_programming]).

    ** Not modelled

    - Assembly: boot sector, mode switches, saving and restoring of registers at
      exits and interrupts.
    - What an application processor and the bootstrap processor do at the same time:
      [Boot] runs [kernel_ap_main] after [init1], one processor after the other; only
      the spinlock is modelled under every interleaving. [loop_and_wait] only
      takes time.
    - The constructors [pre_init] runs, other than the port registry's and the local
      storage's, are parameters of [Boot] that leave those two alone; the order of
      the linker's table is arbitrary.
    - The tail of [kernel_main]: the launch does not come back.
    - The messages the kernel logs as it runs: a message has no effect on the state
      of the models. What is modelled of the kernel's output is the text of a failing
      assertion ([Panic]), the dumps ([Dump], [VmDump]) and the guest's serial lines
      ([Devices]). The guest's own messages are all modelled: those of its
      initialisation in [Drivers] and [GuestKernel], those of the game as a record of
      its [printk] calls in [Tetris] that [GuestKernel] sends when the handler is done.
    - [serial_init] of the guest and [vmx_clear] are defined but never called. *)
From Stdlib Require Import ZArith Lia Bool.
From stdpp Require Import base tactics list numbers gmap.
Local Open Scope Z_scope.

(** * Shared foundations *)

(** ** Machine integers

    A C integer of width [w] is a [Z]; every operation that can leave the
    range of its type is followed by the wrap the language prescribes. *)
Definition wrap (w z : Z) : Z := z mod 2 ^ w.
Definition u8 (z : Z) : Z := wrap 8 z.
Definition u16 (z : Z) : Z := wrap 16 z.
Definition u32 (z : Z) : Z := wrap 32 z.
Definition u64 (z : Z) : Z := wrap 64 z.

(** Two's complement reading of the low [w] bits. *)
Definition signed (w z : Z) : Z :=
  let r := wrap w z in if r <? 2 ^ (w - 1) then r else r - 2 ^ w.
Definition s32 (z : Z) : Z := signed 32 z.
Definition s64 (z : Z) : Z := signed 64 z.

(** [!!x] and [if (x)] on an integer. *)
Definition truthy (z : Z) : bool := negb (z =? 0).
Definition b2z (b : bool) : Z := if b then 1 else 0.

(** ** Bit fields

    [struct { uint64_t f : len; ... }]: a field is a position and a length
    in a storage word. *)
Record bitfield := BitField { bf_lo : Z; bf_len : Z }.

Definition get_bits (w : Z) (f : bitfield) : Z :=
  Z.land (Z.shiftr w (bf_lo f)) (Z.ones (bf_len f)).
Definition set_bits (w : Z) (f : bitfield) (v : Z) : Z :=
  Z.lor (Z.ldiff w (Z.shiftl (Z.ones (bf_len f)) (bf_lo f)))
        (Z.shiftl (Z.land v (Z.ones (bf_len f))) (bf_lo f)).

(** The lengths of the fields of a packed struct, in order. *)
Fixpoint fields_at (pos : Z) (lens : list Z) : list bitfield :=
  match lens with
  | [] => []
  | n :: ns => BitField pos n :: fields_at (pos + n) ns
  end.
Definition nth_field (lens : list Z) (i : nat) : bitfield :=
  nth i (fields_at 0 lens) (BitField 0 0).
Definition layout_bits (lens : list Z) : Z := foldr Z.add 0 lens.

(** [field << n] where the field is an unsigned bit-field wider than [int]:
    gcc gives the expression the field's own width, so the shifted value is
    cut to that width. *)
Definition shl_field (f : bitfield) (v n : Z) : Z := wrap (bf_len f) (Z.shiftl v n).

(** ** Outcomes and the state monad

    A failed [ASSERT], a [__not_reach] or a [PANIC_EXIT] stops the machine in
    a [cli; hlt] loop; an integer division by zero raises #DE; [BadAccess] is
    an access outside an array or through a pointer to no object;
    [ProtectionFault] is an instruction the processor refuses; [OutOfFuel] marks a
    loop whose model bound was too small. *)
Inductive fault := Halted | DivideError | BadAccess | ProtectionFault | OutOfFuel.
Inductive outcome (A : Type) : Type :=
| Ret (a : A)
| Stop (f : fault).
Arguments Ret {A} a.
Arguments Stop {A} f.

#[export] Instance fault_eq_dec : EqDecision fault.
Proof. solve_decision. Defined.

Definition M (S A : Type) : Type := S -> outcome (A * S).

Definition ret {S A} (a : A) : M S A := fun s => Ret (a, s).
Definition stop {S A} (f : fault) : M S A := fun _ => Stop f.
Definition bind {S A B} (c : M S A) (k : A -> M S B) : M S B :=
  fun s => match c s with
           | Ret (a, s') => k a s'
           | Stop f => Stop f
           end.
Definition gets {S A} (f : S -> A) : M S A := fun s => Ret (f s, s).
Definition modify {S} (f : S -> S) : M S unit := fun s => Ret (tt, f s).
(** [ASSERT(cond)]: [__log_level] never exceeds [LOG_ASSERT], so the
    condition is always evaluated. *)
Definition assert {S} (b : bool) : M S unit := if b then ret tt else stop Halted.
Definition lift {S A} (o : outcome A) : M S A :=
  fun s => match o with Ret a => Ret (a, s) | Stop f => Stop f end.

(** A command on a part of the state: read with [get], put back with [put]. *)
Definition zoom {S T A} (get : S -> T) (put : T -> S -> S) (c : M T A) : M S A :=
  fun s => match c (get s) with Ret (a, t) => Ret (a, put t s) | Stop f => Stop f end.

(** What an observer sees of a finished run. *)
Definition observe {S A B} (f : S -> B) (o : outcome (A * S)) : option (A * B) :=
  match o with Ret (a, s) => Some (a, f s) | Stop _ => None end.

Declare Scope zelda_scope.
Delimit Scope zelda_scope with zelda.
Notation "'let!' x ':=' c 'in' k" := (bind c (fun x => k))
  (at level 10, x name, c at level 100, k at level 200)
  : zelda_scope.
Notation "c ';;;' k" := (bind c (fun _ => k))
  (at level 199, right associativity) : zelda_scope.
Open Scope zelda_scope.

(** [for (i = from; i < from + n; i++) body(i)]. *)
Fixpoint mfor {S} (n : nat) (from : Z) (body : Z -> M S unit) : M S unit :=
  match n with
  | O => ret tt
  | S k => body from ;;; mfor k (from + 1) body
  end.

Fixpoint miter {S A} (f : A -> M S unit) (l : list A) : M S unit :=
  match l with
  | [] => ret tt
  | x :: xs => f x ;;; miter f xs
  end.

(** ** Record update

    [r <| f := v |>] is [r] with field [f] replaced. A record type declares
    its eta expansion once; the setter of a field is found from it. *)
Class Eta (R : Type) := eta : R -> R.
Class Setter {R T : Type} (proj : R -> T) := update : (T -> T) -> R -> R.
Arguments update {R T} proj {_} _ _.

Ltac build_setter :=
  lazymatch goal with
  | |- @Setter ?R ?T ?proj =>
      let e := eval cbv beta delta [eta] in (@eta R _) in
      let e := (match e with ?c => eval unfold c in c | _ => e end) in
      lazymatch (eval pattern proj in e) with
      | ?g _ => exact (fun (f : T -> T) (r : R) => g (fun x => f (proj x)) r)
      end
  end.
#[export] Hint Extern 1 (Setter _) => build_setter : typeclass_instances.

Notation "r '<|' p ':=' v '|>'" := (update p (fun _ => v) r)
  (at level 1, left associativity, p at level 9) : zelda_scope.
Notation "r '<|' p '::=' f '|>'" := (update p f r)
  (at level 1, left associativity, p at level 9) : zelda_scope.

(** ** Tactics *)

(** Unfold the monad operators of a goal and run them. *)
Ltac mstep := cbv [bind ret gets modify lift stop assert].

(** Split a successful run into the runs of its parts. *)
Ltac simplify_run :=
  repeat match goal with
  | H : Ret _ = Ret _ |- _ => injection H as H; subst
  | H : (_, _) = (_, _) |- _ => injection H as H; subst
  | H : Ret _ = Stop _ |- _ => discriminate H
  | H : Stop _ = Ret _ |- _ => discriminate H
  end.

(** A closed arithmetic fact. *)
Ltac by_compute := vm_compute; intuition congruence.

(** Linear arithmetic with quotients and remainders. *)
Ltac zdiv := Z.to_euclidean_division_equations; lia.

Lemma bind_Ret {S A B} (c : M S A) (k : A -> M S B) s b s' :
  bind c k s = Ret (b, s') <->
  exists a s1, c s = Ret (a, s1) /\ k a s1 = Ret (b, s').
Proof.
  unfold bind. destruct (c s) as [[a s1]|f]; split; intros H.
  - eauto.
  - destruct H as (a' & s1' & [= <- <-] & H). exact H.
  - discriminate.
  - destruct H as (? & ? & [=] & _).
Qed.

Lemma bind_run {S A B} (c : M S A) (k : A -> M S B) s a s1 :
  c s = Ret (a, s1) -> bind c k s = k a s1.
Proof. intros H. unfold bind. by rewrite H. Qed.

Lemma assert_run {S B} (b : bool) (k : M S B) s :
  b = true -> (assert b ;;; k) s = k s.
Proof. intros ->. reflexivity. Qed.

Lemma bind_gets {S A B} (f : S -> A) (k : A -> M S B) s : bind (gets f) k s = k (f s) s.
Proof. reflexivity. Qed.
Lemma bind_modify {S B} (f : S -> S) (k : unit -> M S B) s : bind (modify f) k s = k tt (f s).
Proof. reflexivity. Qed.
Lemma bind_ret {S A B} (a : A) (k : A -> M S B) s : bind (ret a) k s = k a s.
Proof. reflexivity. Qed.
Lemma bind_stop {S A B} (f : fault) (k : A -> M S B) s : bind (stop f) k s = Stop f.
Proof. reflexivity. Qed.
Lemma bind_assoc {S A B C} (c : M S A) (k : A -> M S B) (k' : B -> M S C) s :
  bind (bind c k) k' s = bind c (fun a => bind (k a) k') s.
Proof. unfold bind. by destruct (c s) as [[a s1]|]. Qed.
Lemma bind_if {S A B} (b : bool) (c d : M S A) (k : A -> M S B) s :
  bind (if b then c else d) k s = if b then bind c k s else bind d k s.
Proof. by destruct b. Qed.

Lemma bind_ext {S A B} (c : M S A) (k k' : A -> M S B) s :
  (forall a s, k a s = k' a s) -> bind c k s = bind c k' s.
Proof. intros H. unfold bind. by destruct (c s) as [[a s1]|]. Qed.
Lemma bind_unit {S} (c : M S unit) s : bind c (fun _ => ret tt) s = c s.
Proof. unfold bind, ret. by destruct (c s) as [[[] s1]|]. Qed.

(** [runs c s Q]: the command finishes from [s], in a result and a state that
    satisfy [Q]. *)
Definition runs {S A} (c : M S A) (s : S) (Q : A -> S -> Prop) : Prop :=
  exists a s', c s = Ret (a, s') /\ Q a s'.

Lemma runs_ret {S A} (a : A) (s : S) (Q : A -> S -> Prop) : Q a s -> runs (ret a) s Q.
Proof. intros H. by exists a, s. Qed.
Lemma runs_gets {S A} (f : S -> A) s (Q : A -> S -> Prop) : Q (f s) s -> runs (gets f) s Q.
Proof. intros H. by exists (f s), s. Qed.
Lemma runs_modify {S} (f : S -> S) s (Q : unit -> S -> Prop) : Q tt (f s) -> runs (modify f) s Q.
Proof. intros H. by exists tt, (f s). Qed.
Lemma runs_bind {S A B} (c : M S A) (k : A -> M S B) s (Q : B -> S -> Prop) :
  runs c s (fun a s' => runs (k a) s' Q) -> runs (bind c k) s Q.
Proof. intros (a & s1 & H & b & s2 & H2 & HQ). exists b, s2. unfold bind. by rewrite H. Qed.
Lemma runs_zoom {S T A} (get : S -> T) (put : T -> S -> S) (c : M T A) s (Q : A -> S -> Prop) :
  runs c (get s) (fun a t => Q a (put t s)) -> runs (zoom get put c) s Q.
Proof. intros (a & t & H & HQ). exists a, (put t s). unfold zoom. by rewrite H. Qed.
Lemma runs_mono {S A} (c : M S A) s (Q Q' : A -> S -> Prop) :
  runs c s Q -> (forall a s', Q a s' -> Q' a s') -> runs c s Q'.
Proof. intros (a & s1 & H & HQ) HQ'. exists a, s1. auto. Qed.
Lemma runs_miter {S A} (f : A -> M S unit) (l : list A) (I : S -> Prop) s :
  (forall x s, x ∈ l -> I s -> runs (f x) s (fun _ => I)) -> I s -> runs (miter f l) s (fun _ => I).
Proof.
  revert s. induction l as [|x l IH]; intros s Hf Hs; cbn [miter]; [by apply runs_ret|].
  apply runs_bind. eapply runs_mono; [apply Hf; [left|done]|].
  intros [] s' Hs'. apply IH; [|done]. intros y s2 Hy. apply Hf. by right.
Qed.
(** A counting loop with an invariant of the counter. *)
Lemma runs_mfor_counter {S} (body : Z -> M S unit) (I : Z -> S -> Prop) n from s :
  (forall i s, from <= i < from + Z.of_nat n -> I i s -> runs (body i) s (fun _ => I (i + 1))) ->
  I from s -> runs (mfor n from body) s (fun _ => I (from + Z.of_nat n)).
Proof.
  revert from s. induction n as [|n IH]; intros from s Hf Hs; cbn [mfor].
  { apply runs_ret. by rewrite Z.add_0_r. }
  apply runs_bind. eapply runs_mono; [apply Hf; [lia|done]|].
  intros [] s' Hs'. replace (from + Z.of_nat (Datatypes.S n)) with (from + 1 + Z.of_nat n) by lia.
  apply IH; [|done]. intros i s2 Hi. apply Hf. lia.
Qed.
Lemma runs_mfor {S} (body : Z -> M S unit) (I : S -> Prop) n from s :
  (forall i s, from <= i < from + Z.of_nat n -> I s -> runs (body i) s (fun _ => I)) ->
  I s -> runs (mfor n from body) s (fun _ => I).
Proof. apply (runs_mfor_counter body (fun _ => I)). Qed.

(** Run the leading [gets], [modify] and [ret] commands of a goal. *)
Ltac run_steps :=
  repeat (first [rewrite bind_assoc | rewrite bind_gets | rewrite bind_modify | rewrite bind_ret];
          cbv beta zeta).

(** Run the first command of a goal with the equation that describes it. *)
Ltac run_with H := rewrite (bind_run _ _ _ _ _ H); cbv beta.

(** ** Wraps *)
Lemma wrap_range w z : 0 <= w -> 0 <= wrap w z < 2 ^ w.
Proof. intros. apply Z.mod_pos_bound. lia. Qed.
Lemma wrap_small w z : 0 <= z < 2 ^ w -> wrap w z = z.
Proof. intros. by apply Z.mod_small. Qed.
Lemma wrap_wrap w z : 0 <= w -> wrap w (wrap w z) = wrap w z.
Proof. intros. apply wrap_small, wrap_range; lia. Qed.
Lemma u64_small z : 0 <= z < 2 ^ 64 -> u64 z = z.
Proof. apply wrap_small. Qed.
Lemma u32_small z : 0 <= z < 2 ^ 32 -> u32 z = z.
Proof. apply wrap_small. Qed.
Lemma u8_small z : 0 <= z < 2 ^ 8 -> u8 z = z.
Proof. apply wrap_small. Qed.
Lemma u8_range z : 0 <= u8 z < 256.
Proof. apply (wrap_range 8). lia. Qed.
Lemma u64_range z : 0 <= u64 z < 2 ^ 64.
Proof. apply wrap_range. lia. Qed.
Lemma s32_small z : - 2 ^ 31 <= z < 2 ^ 31 -> s32 z = z.
Proof.
  intros H. unfold s32, signed, wrap.
  destruct (Z.ltb_spec (z mod 2 ^ 32) (2 ^ (32 - 1))); zdiv.
Qed.

(** ** Bits *)
Lemma truthy_true z : truthy z = true <-> z <> 0.
Proof. unfold truthy. destruct (Z.eqb_spec z 0); naive_solver. Qed.
Lemma truthy_false z : truthy z = false <-> z = 0.
Proof. unfold truthy. destruct (Z.eqb_spec z 0); naive_solver. Qed.

Lemma testbit_ones n m : 0 <= n -> Z.testbit (Z.ones n) m = (0 <=? m) && (m <? n).
Proof. intros. by apply Z.testbit_ones. Qed.

Lemma testbit_shiftl a n m : Z.testbit (Z.shiftl a n) m = (0 <=? m) && Z.testbit a (m - n).
Proof.
  destruct (Z.leb_spec 0 m).
  - by apply Z.shiftl_spec.
  - by rewrite Z.testbit_neg_r by done.
Qed.

Lemma testbit_wrap w z m : 0 <= w -> Z.testbit (wrap w z) m = (m <? w) && Z.testbit z m.
Proof. intros. unfold wrap. rewrite Z.testbit_mod_pow2; [done|lia]. Qed.

Create Rewrite HintDb zbits.
#[export] Hint Rewrite Z.lor_spec Z.land_spec Z.ldiff_spec Z.lxor_spec testbit_shiftl
  Z.bits_0 : zbits.
#[export] Hint Rewrite Z.shiftr_spec testbit_ones testbit_wrap using lia : zbits.

(** Equality of integers bit by bit. *)
Ltac zbits :=
  apply Z.bits_inj'; intros ?n ?Hn; autorewrite with zbits;
  repeat match goal with
  | |- context [?a <=? ?b] => destruct (Z.leb_spec a b); try lia
  | |- context [?a <? ?b] => destruct (Z.ltb_spec a b); try lia
  end; rewrite ?andb_true_l, ?andb_true_r, ?andb_false_r, ?orb_false_r, ?orb_false_l;
  cbn [andb orb negb]; try reflexivity.

Lemma get_bits_spec w f :
  0 <= bf_lo f -> 0 <= bf_len f -> get_bits w f = (w / 2 ^ bf_lo f) mod 2 ^ bf_len f.
Proof.
  intros. unfold get_bits. by rewrite Z.land_ones, Z.shiftr_div_pow2 by done.
Qed.

Lemma get_bits_range w f : 0 <= bf_len f -> 0 <= get_bits w f < 2 ^ bf_len f.
Proof.
  intros. unfold get_bits. rewrite Z.land_ones by done. apply Z.mod_pos_bound. lia.
Qed.

Lemma get_bits_0 f : get_bits 0 f = 0.
Proof. unfold get_bits. by rewrite Z.shiftr_0_l. Qed.

Lemma get_set_same w f v :
  0 <= bf_lo f -> 0 <= bf_len f -> get_bits (set_bits w f v) f = wrap (bf_len f) v.
Proof.
  intros. unfold get_bits, set_bits. zbits.
  replace (n + bf_lo f - bf_lo f) with n by lia.
  autorewrite with zbits.
  repeat match goal with |- context [?a <? ?b] => destruct (Z.ltb_spec a b); try lia end.
  destruct (Z.leb_spec 0 n); [|lia]. cbn. rewrite ?andb_false_r, ?andb_true_r.
  reflexivity.
Qed.

Definition disjoint_fields (f g : bitfield) : Prop :=
  bf_lo f + bf_len f <= bf_lo g \/ bf_lo g + bf_len g <= bf_lo f.

Lemma get_set_other w f g v :
  0 <= bf_lo f -> 0 <= bf_len f -> 0 <= bf_lo g -> 0 <= bf_len g ->
  disjoint_fields f g -> get_bits (set_bits w f v) g = get_bits w g.
Proof.
  intros Hf Hfl Hg Hgl D. unfold disjoint_fields in D. unfold get_bits, set_bits. zbits.
  all: autorewrite with zbits.
  all: repeat match goal with |- context [?a <? ?b] => destruct (Z.ltb_spec a b); try lia
         | |- context [?a <=? ?b] => destruct (Z.leb_spec a b); try lia end.
  all: cbn; rewrite ?andb_false_r, ?andb_true_r, ?orb_false_r; reflexivity.
Qed.

Lemma small_testbit a n : 0 <= n -> 0 <= a -> (forall m, n <= m -> Z.testbit a m = false) ->
  a < 2 ^ n.
Proof.
  intros Hn Ha H. destruct (Z.eq_dec a 0) as [->|Hz]; [lia|].
  apply Z.log2_lt_pow2; [lia|]. apply Z.nle_gt. intros Hle.
  specialize (H _ Hle). rewrite Z.bit_log2 in H by lia. discriminate.
Qed.

Lemma testbit_high a n m : 0 <= a < 2 ^ n -> n <= m -> Z.testbit a m = false.
Proof.
  intros Ha Hm. destruct (Z.eq_dec a 0) as [->|Hz]; [apply Z.bits_0|].
  apply Z.bits_above_log2; [lia|]. apply Z.lt_le_trans with n; [|done].
  apply Z.log2_lt_pow2; lia.
Qed.

Lemma lor_range a b n : 0 <= a < 2 ^ n -> 0 <= b < 2 ^ n -> 0 <= Z.lor a b < 2 ^ n.
Proof.
  intros Ha Hb. destruct (Z.lt_ge_cases n 0) as [Hn|Hn].
  { rewrite Z.pow_neg_r in Ha by done. lia. }
  split; [apply Z.lor_nonneg; lia|].
  apply small_testbit; [done|apply Z.lor_nonneg; lia|].
  intros m Hm. rewrite Z.lor_spec.
  by rewrite (testbit_high a n), (testbit_high b n) by done.
Qed.

Lemma set_bits_range w f v n :
  0 <= bf_lo f -> 0 <= bf_len f -> bf_lo f + bf_len f <= n ->
  0 <= w < 2 ^ n -> 0 <= set_bits w f v < 2 ^ n.
Proof.
  intros Hlo Hlen Hn Hw. unfold set_bits. apply lor_range.
  - split; [apply Z.ldiff_nonneg; lia|].
    apply small_testbit; [lia|apply Z.ldiff_nonneg; lia|].
    intros m Hm. rewrite Z.ldiff_spec. by rewrite (testbit_high w n).
  - rewrite Z.land_ones by done. split.
    + apply Z.shiftl_nonneg, Z.mod_pos_bound. lia.
    + rewrite Z.shiftl_mul_pow2 by done.
      pose proof (Z.mod_pos_bound v (2 ^ bf_len f) ltac:(lia)).
      apply Z.lt_le_trans with (2 ^ (bf_len f + bf_lo f)).
      * rewrite Z.pow_add_r by done. nia.
      * apply Z.pow_le_mono_r; lia.
Qed.

(** A disjoint bitwise or is a sum. *)
Lemma land_shiftl_low a b n : 0 <= n -> 0 <= b < 2 ^ n -> Z.land (Z.shiftl a n) b = 0.
Proof.
  intros Hn Hb. apply Z.bits_inj'. intros k Hk. rewrite Z.land_spec, Z.bits_0.
  destruct (Z.lt_ge_cases k n).
  - by rewrite Z.shiftl_spec_low by done.
  - by rewrite (testbit_high b n), andb_false_r by done.
Qed.

Lemma lor_add_low a b n : 0 <= n -> 0 <= b < 2 ^ n -> Z.lor (Z.shiftl a n) b = a * 2 ^ n + b.
Proof.
  intros Hn Hb. rewrite <- Z.shiftl_mul_pow2 by done.
  pose proof (land_shiftl_low a b n Hn Hb) as H0.
  rewrite Z.add_nocarry_lxor by done. symmetry. by apply Z.lxor_lor.
Qed.

Lemma land_mask_mod a n : 0 <= n -> Z.land a (2 ^ n - 1) = a mod 2 ^ n.
Proof.
  intros. rewrite <- Z.land_ones by done. f_equal. rewrite Z.ones_equiv. lia.
Qed.

(** Testing a bit with a mask. *)
Lemma truthy_bit a n : 0 <= n -> truthy (Z.land a (Z.shiftl 1 n)) = Z.testbit a n.
Proof.
  intros Hn. rewrite Z.shiftl_1_l. destruct (Z.testbit a n) eqn:E.
  - apply truthy_true. intros H0. assert (Hb : Z.testbit (Z.land a (2 ^ n)) n = false) by (rewrite H0; apply Z.bits_0).
    rewrite Z.land_spec, E, Z.pow2_bits_true in Hb by done. discriminate.
  - apply truthy_false. apply Z.bits_inj'. intros m Hm. rewrite Z.land_spec, Z.pow2_bits_eqb, Z.bits_0 by done.
    destruct (Z.eqb_spec n m) as [->|]; [by rewrite E|apply andb_false_r].
Qed.

Lemma land_lt_pow2 a b n : 0 <= n -> 0 <= a < 2 ^ n -> 0 <= b -> 0 <= Z.land a b < 2 ^ n.
Proof.
  intros Hn Ha Hb. assert (0 <= Z.land a b) by (apply Z.land_nonneg; lia). split; [done|].
  apply small_testbit; [done|done|]. intros m Hm. by rewrite Z.land_spec, (testbit_high a n).
Qed.
(** Read fields back from a word built with [set_bits]. *)
Ltac bits_simpl :=
  repeat match goal with
  | |- context [get_bits (set_bits ?w ?f ?v) ?f] =>
      rewrite (get_set_same w f v) by (cbn; lia)
  | |- context [get_bits (set_bits ?w ?f ?v) ?g] =>
      rewrite (get_set_other w f g v) by (unfold disjoint_fields; cbn; lia)
  end.
