(* ===== verification/Memory.v ===== *)
(** * Memory: byte-addressed physical memory and [lib64/string.c]'s block
    operations.

    The kernel runs with its first 2 GiB identity mapped, so an address is a
    physical address. Memory is a finite map from addresses to cells; a cell
    that was never written holds some byte, and since a physical memory is
    finite every content is such a map (reading takes the low eight bits of a
    cell, so no well-formedness of the map is needed). *)
From Stdlib Require Import ZArith Lia.
From stdpp Require Import base tactics list numbers gmap.
From S2P Require Import Prelude.
Local Open Scope Z_scope.

Abbreviation memory := (gmap Z Z).

Definition rd8 (m : memory) (a : Z) : Z := u8 (default 0 (m !! a)).
Definition wr8 (m : memory) (a v : Z) : memory := <[a := u8 v]> m.

(** Little-endian access of [n] bytes. *)
Fixpoint load (n : nat) (m : memory) (a : Z) : Z :=
  match n with
  | O => 0
  | S k => rd8 m a + 256 * load k m (a + 1)
  end.
Fixpoint store (n : nat) (m : memory) (a v : Z) : memory :=
  match n with
  | O => m
  | S k => store k (wr8 m a v) (a + 1) (v / 256)
  end.

Definition load16 := load 2.
Definition load32 := load 4.
Definition load64 := load 8.
Definition store16 := store 2.
Definition store32 := store 4.
Definition store64 := store 8.

(** [void memset(void * dst, uint8_t val, uint64_t size)]. *)
Fixpoint memset_loop (n : nat) (m : memory) (ptr val : Z) : memory :=
  match n with
  | O => m
  | S k => memset_loop k (wr8 m ptr val) (ptr + 1) val
  end.
Definition memset (m : memory) (dst val size : Z) : memory :=
  memset_loop (Z.to_nat (u64 size)) m dst val.

(** [void memcpy(void * dst, const void * src, int length)]: bytes are copied
    in increasing order, a negative length copies nothing. *)
Fixpoint memcpy_loop (n : nat) (m : memory) (dst src : Z) : memory :=
  match n with
  | O => m
  | S k => memcpy_loop k (wr8 m dst (rd8 m src)) (dst + 1) (src + 1)
  end.
Definition memcpy (m : memory) (dst src length : Z) : memory :=
  memcpy_loop (Z.to_nat (s32 length)) m dst src.

(** A bit-field of the 64-bit word at [p]. *)
Definition fget (m : memory) (p : Z) (f : bitfield) : Z := get_bits (load64 m p) f.
Definition fset (m : memory) (p : Z) (f : bitfield) (v : Z) : memory :=
  store64 m p (set_bits (load64 m p) f v).

(** ** Reads over writes *)
Lemma rd8_range m a : 0 <= rd8 m a < 256.
Proof. apply u8_range. Qed.

Lemma rd8_wr8 m a b v : rd8 (wr8 m a v) b = if decide (a = b) then u8 v else rd8 m b.
Proof.
  unfold rd8, wr8. rewrite lookup_insert. case_decide; [|done].
  cbn. apply wrap_wrap. lia.
Qed.

Lemma rd8_wr8_ne m a b v : a <> b -> rd8 (wr8 m a v) b = rd8 m b.
Proof. intros. rewrite rd8_wr8. by rewrite decide_False. Qed.

Lemma rd8_store n m a v b :
  rd8 (store n m a v) b =
  if decide (a <= b < a + Z.of_nat n) then u8 (v / 256 ^ (b - a)) else rd8 m b.
Proof.
  revert m a v. induction n as [|n IH]; intros m a v.
  { cbn. rewrite decide_False by lia. done. }
  cbn [store]. rewrite IH, rd8_wr8. destruct (decide (a = b)) as [->|Hne].
  - rewrite decide_False by lia. rewrite decide_True by lia.
    by rewrite Z.sub_diag, Z.pow_0_r, Z.div_1_r.
  - case_decide.
    + rewrite decide_True by lia. f_equal.
      rewrite Z.div_div by lia. f_equal.
      replace (b - a) with (Z.succ (b - (a + 1))) by lia.
      rewrite Z.pow_succ_r by lia. lia.
    + by rewrite decide_False by lia.
Qed.

Lemma rd8_store_out n m a v b :
  b < a \/ a + Z.of_nat n <= b -> rd8 (store n m a v) b = rd8 m b.
Proof. intros. rewrite rd8_store. by rewrite decide_False by lia. Qed.

Lemma load_range n m a : 0 <= load n m a < 256 ^ Z.of_nat n.
Proof.
  revert a. induction n as [|n IH]; intros a; [cbn; lia|].
  cbn [load]. pose proof (rd8_range m a). specialize (IH (a + 1)).
  rewrite Nat2Z.inj_succ, Z.pow_succ_r by lia. lia.
Qed.

Lemma load64_range m a : 0 <= load64 m a < 2 ^ 64.
Proof. apply (load_range 8). Qed.

Lemma load_ext n m m' a :
  (forall b, a <= b < a + Z.of_nat n -> rd8 m b = rd8 m' b) -> load n m a = load n m' a.
Proof.
  revert a. induction n as [|n IH]; intros a H; [done|].
  cbn [load]. rewrite (H a) by lia. f_equal. f_equal. apply IH.
  intros b Hb. apply H. lia.
Qed.

Lemma load_store_out n k m a b v :
  b + Z.of_nat n <= a \/ a + Z.of_nat k <= b -> load n (store k m a v) b = load n m b.
Proof. intros. apply load_ext. intros. apply rd8_store_out. lia. Qed.

Lemma load_split n k m a :
  load (n + k) m a = load n m a + 256 ^ Z.of_nat n * load k m (a + Z.of_nat n).
Proof.
  revert a. induction n as [|n IH]; intros a.
  { cbn [load Nat.add]. rewrite Z.add_0_r. change (256 ^ Z.of_nat 0) with 1. lia. }
  cbn [load Nat.add]. rewrite IH, Nat2Z.inj_succ, Z.pow_succ_r by lia.
  replace (a + 1 + Z.of_nat n) with (a + Z.succ (Z.of_nat n)) by lia. lia.
Qed.

Lemma load_store n m a v : load n (store n m a v) a = v mod 256 ^ Z.of_nat n.
Proof.
  revert m a v. induction n as [|n IH]; intros m a v.
  { cbn. by rewrite Z.mod_1_r. }
  cbn [load store]. rewrite IH, rd8_store_out, rd8_wr8, decide_True by (done || lia).
  rewrite Nat2Z.inj_succ, Z.pow_succ_r by lia.
  unfold u8, wrap. change (2 ^ 8) with 256.
  rewrite Z.rem_mul_r by lia. done.
Qed.

Lemma load64_store64 m a v : 0 <= v < 2 ^ 64 -> load64 (store64 m a v) a = v.
Proof. intros. unfold load64, store64. rewrite load_store. by apply Z.mod_small. Qed.

Lemma load64_store64_ne m a b v :
  b + 8 <= a \/ a + 8 <= b -> load64 (store64 m a v) b = load64 m b.
Proof. intros. apply load_store_out. lia. Qed.

(** ** Block operations *)
Lemma rd8_memset_loop n m p v b :
  rd8 (memset_loop n m p v) b =
  if decide (p <= b < p + Z.of_nat n) then u8 v else rd8 m b.
Proof.
  revert m p. induction n as [|n IH]; intros m p.
  { cbn. by rewrite decide_False by lia. }
  cbn [memset_loop]. rewrite IH, rd8_wr8.
  repeat case_decide; (done || lia).
Qed.

Lemma rd8_memset m p v n b : 0 <= n < 2 ^ 64 ->
  rd8 (memset m p v n) b = if decide (p <= b < p + n) then u8 v else rd8 m b.
Proof.
  intros Hn. unfold memset. rewrite rd8_memset_loop, u64_small by done.
  by rewrite Z2Nat.id by lia.
Qed.

Lemma load_memset_out k m p v n b : 0 <= n < 2 ^ 64 ->
  b + Z.of_nat k <= p \/ p + n <= b -> load k (memset m p v n) b = load k m b.
Proof.
  intros Hn Hb. apply load_ext. intros c Hc. rewrite rd8_memset by done.
  by rewrite decide_False by lia.
Qed.

Lemma load_zeros k m b :
  (forall c, b <= c < b + Z.of_nat k -> rd8 m c = 0) -> load k m b = 0.
Proof.
  revert b. induction k as [|k IH]; intros b H; [done|].
  cbn [load]. rewrite H, IH by (intros; try apply H; lia). done.
Qed.

Lemma load_memset_in k m p n b : 0 <= n < 2 ^ 64 ->
  p <= b -> b + Z.of_nat k <= p + n -> load k (memset m p 0 n) b = 0.
Proof.
  intros Hn H1 H2. apply load_zeros. intros c Hc. rewrite rd8_memset by done.
  by rewrite decide_True by lia.
Qed.

Lemma load64_zeros m b : (forall c, b <= c < b + 8 -> rd8 m c = 0) -> load64 m b = 0.
Proof. apply (load_zeros 8). Qed.
Lemma load64_memset_out m p v n b : 0 <= n < 2 ^ 64 ->
  b + 8 <= p \/ p + n <= b -> load64 (memset m p v n) b = load64 m b.
Proof. apply (load_memset_out 8). Qed.
Lemma load64_memset_in m p n b : 0 <= n < 2 ^ 64 ->
  p <= b -> b + 8 <= p + n -> load64 (memset m p 0 n) b = 0.
Proof. apply (load_memset_in 8). Qed.

Lemma rd8_memcpy_loop n m d s b :
  d <= s \/ s + Z.of_nat n <= d ->
  rd8 (memcpy_loop n m d s) b =
  if decide (d <= b < d + Z.of_nat n) then rd8 m (s + (b - d)) else rd8 m b.
Proof.
  revert m d s. induction n as [|n IH]; intros m d s Hds.
  { cbn. by rewrite decide_False by lia. }
  cbn [memcpy_loop]. rewrite IH by lia. rewrite !rd8_wr8.
  assert (Hu : u8 (rd8 m s) = rd8 m s) by (apply u8_small, rd8_range).
  repeat case_decide; try lia; subst; try done.
  - f_equal. lia.
  - rewrite Hu. f_equal. lia.
Qed.

(** [memcpy] moves [n] bytes when the destination starts below the source or
    does not meet it, and touches nothing else. *)
Lemma rd8_memcpy m d s n b : 0 <= n < 2 ^ 31 ->
  d <= s \/ s + n <= d ->
  rd8 (memcpy m d s n) b =
  if decide (d <= b < d + n) then rd8 m (s + (b - d)) else rd8 m b.
Proof.
  intros Hn Hds. unfold memcpy. rewrite s32_small by lia.
  rewrite rd8_memcpy_loop by lia. by rewrite Z2Nat.id by lia.
Qed.

Lemma load_memcpy_out k m d s n b : 0 <= n < 2 ^ 31 -> d <= s \/ s + n <= d ->
  b + Z.of_nat k <= d \/ d + n <= b -> load k (memcpy m d s n) b = load k m b.
Proof.
  intros Hn Hds Hb. apply load_ext. intros c Hc. rewrite rd8_memcpy by done.
  by rewrite decide_False by lia.
Qed.

(** ** Fields of a 64-bit word *)
Definition field_ok (f : bitfield) : Prop :=
  0 <= bf_lo f /\ 0 <= bf_len f /\ bf_lo f + bf_len f <= 64.

Lemma load64_fset m p f v : field_ok f ->
  load64 (fset m p f v) p = set_bits (load64 m p) f v.
Proof.
  intros (?&?&?). unfold fset. apply load64_store64, set_bits_range; auto.
  apply load64_range.
Qed.

Lemma load64_fset_ne m p q f v : q + 8 <= p \/ p + 8 <= q ->
  load64 (fset m p f v) q = load64 m q.
Proof. apply load64_store64_ne. Qed.

Lemma rd8_fset_out m p f v b : b < p \/ p + 8 <= b -> rd8 (fset m p f v) b = rd8 m b.
Proof. intros. apply rd8_store_out. lia. Qed.
