(* ===== verification/Format.v ===== *)
(** * Format: [printk] ([lib64/printk.c]) and [sprintf] ([lib64/string.c]).

    Both walk a format string and emit characters, [printk] to the serial line,
    [sprintf] to a buffer in memory. The walk is written once over the emitter.
    The format is read through [fmt], the byte at each offset (a string literal,
    which no emitter writes); a [%s] argument is a pointer into memory. *)
From Stdlib Require Import ZArith Lia String Ascii.
From stdpp Require Import base tactics list numbers gmap.
From S2P Require Import Prelude Memory.
Local Open Scope Z_scope.

(** ** Digits *)
Definition DEFAULT_RESOLVE_STACK : Z := 128.
Definition lower (mod_ : Z) : Z := if mod_ <? 10 then 48 + mod_ else 97 + (mod_ - 10).
Definition upper (mod_ : Z) : Z := if mod_ <? 10 then 48 + mod_ else 65 + (mod_ - 10).

(** The stack the loops fill, top first: at most [n] more pushes fit. *)
Fixpoint push_decimal (n : nat) (qword : Z) (stack : list Z) : list Z :=
  match n with
  | O => stack
  | S k => if qword =? 0 then stack
           else push_decimal k (qword / 10) (u8 (48 + qword mod 10) :: stack)
  end.
Fixpoint push_hexadecimal (n : nat) (is_lowercase : bool) (qword : Z) (stack : list Z) : list Z :=
  match n with
  | O => stack
  | S k => if qword =? 0 then stack
           else let mod_ := Z.land qword 0xf in
                push_hexadecimal k is_lowercase (Z.shiftr qword 4)
                  ((if is_lowercase then lower mod_ else upper mod_) :: stack)
  end.
Definition or_zero (stack : list Z) : list Z :=
  match stack with [] => [48] | _ => stack end.

(** The characters [resolve_decimal] and [resolve_hexadecimal] emit. *)
Definition decimal (qword : Z) : list Z :=
  or_zero (push_decimal (Z.to_nat DEFAULT_RESOLVE_STACK) qword []).
Definition hexadecimal (is_lowercase : bool) (qword : Z) : list Z :=
  or_zero (push_hexadecimal (Z.to_nat DEFAULT_RESOLVE_STACK) is_lowercase qword []).

(** ** The walk *)
Section Walk.
Context {St : Type} (putc : Z -> M St unit) (mem : St -> memory).

Definition resolve_decimal (qword : Z) : M St unit := miter putc (decimal qword).
Definition resolve_hexadecimal (qword : Z) (is_lowercase : bool) : M St unit :=
  miter putc (hexadecimal is_lowercase qword).

(** [for (; *string_ptr; string_ptr++) ...]. *)
Fixpoint emit_string (fuel : nat) (string_ptr : Z) : M St unit :=
  match fuel with
  | O => stop OutOfFuel
  | S k =>
      let! c := gets (fun s => rd8 (mem s) string_ptr) in
      if c =? 0 then ret tt else putc c ;;; emit_string k (string_ptr + 1)
  end.

(** The [switch] on the character after a [%]: s, c, d, q, x and X take an
    argument, anything else is skipped. *)
Definition takes_argument (c : Z) : bool :=
  bool_decide (c ∈ [115; 99; 100; 113; 120; 88]).
Definition emit_directive (sfuel : nat) (c arg : Z) : M St unit :=
  if c =? 115 then emit_string sfuel arg
  else if c =? 99 then putc (u8 arg)
  else if c =? 100 then
    let dword_arg := s32 arg in
    if dword_arg <? 0 then putc 45 ;;; resolve_decimal (u64 (s32 (- dword_arg)))
    else resolve_decimal (u64 dword_arg)
  else if c =? 113 then
    let qword_arg := s64 arg in
    if qword_arg <? 0 then putc 45 ;;; resolve_decimal (u64 (s64 (- qword_arg)))
    else resolve_decimal (u64 qword_arg)
  else if c =? 120 then resolve_hexadecimal (u64 arg) true
  else if c =? 88 then resolve_hexadecimal (u64 arg) false
  else ret tt.

Fixpoint format_loop (fuel sfuel : nat) (fmt : Z -> Z) (ptr : Z) (args : list Z) : M St unit :=
  match fuel with
  | O => stop OutOfFuel
  | S k =>
      let c := fmt ptr in
      if c =? 0 then ret tt
      else if negb (c =? 37) then putc c ;;; format_loop k sfuel fmt (ptr + 1) args
      else
        let c := fmt (ptr + 1) in
        if takes_argument c then
          emit_directive sfuel c (hd 0 args) ;;; format_loop k sfuel fmt (ptr + 2) (tl args)
        else format_loop k sfuel fmt (ptr + 2) args
  end.
End Walk.

(** A string literal, its bytes and the byte at an offset. *)
Definition chars (s : string) : list Z :=
  (fun a => Z.of_N (N_of_ascii a)) <$> list_ascii_of_string s.
Definition literal (l : list Z) (i : Z) : Z := nth (Z.to_nat i) l 0.

(** ** [printk]: the emitter appends to the console *)
Record console_state := Console { con_mem : memory; con_out : list Z }.
#[export] Instance eta_console : Eta console_state := fun c => Console (con_mem c) (con_out c).

Definition write_serial (a : Z) : M console_state unit :=
  modify (fun c => c <| con_out ::= fun o => o ++ [u8 a] |>).
Definition printk_mp_raw (fuel sfuel : nat) (fmt : Z -> Z) (args : list Z) : M console_state unit :=
  format_loop write_serial con_mem fuel sfuel fmt 0 args.

(** ** [sprintf]: the emitter stores at [buff + iptr] *)
Record buffer_state := Buffer { buf_mem : memory; buf_iptr : Z }.
#[export] Instance eta_buffer : Eta buffer_state := fun c => Buffer (buf_mem c) (buf_iptr c).

Definition buff_put (buff a : Z) : M buffer_state unit :=
  modify (fun b => b <| buf_mem ::= fun m => wr8 m (buff + buf_iptr b) a |>
                     <| buf_iptr ::= fun i => i + 1 |>).
Definition sprintf_raw (fuel sfuel : nat) (buff : Z) (fmt : Z -> Z) (args : list Z) (m : memory) :
  outcome memory :=
  match format_loop (buff_put buff) buf_mem fuel sfuel fmt 0 args (Buffer m 0) with
  | Ret (_, b) => Ret (wr8 (buf_mem b) (buff + buf_iptr b) 0)
  | Stop f => Stop f
  end.

(** * Properties *)

(** ** Numerals *)

(** The number a string of digits denotes. *)
Definition digit_value (c : Z) : Z :=
  if c <? 58 then c - 48 else if c <? 91 then c - 55 else c - 87.
Definition digits_value (base : Z) (l : list Z) : Z :=
  foldl (fun a c => a * base + digit_value c) 0 l.

Lemma digits_value_acc base a l :
  foldl (fun a c => a * base + digit_value c) a l = a * base ^ Z.of_nat (List.length l) + digits_value base l.
Proof.
  revert a. unfold digits_value. induction l as [|c l IH]; intros a; cbn [foldl List.length]; [cbn; lia|].
  rewrite IH, (IH (0 * base + _)), Nat2Z.inj_succ, Z.pow_succ_r by lia. ring.
Qed.

(** A loop that pushes the digits of [q], lowest first. *)
Fixpoint push_digits (base : Z) (digit : Z -> Z) (n : nat) (q : Z) (stack : list Z) : list Z :=
  match n with
  | O => stack
  | S k => if q =? 0 then stack else push_digits base digit k (q / base) (digit (q mod base) :: stack)
  end.

Section Digits.
Context (base : Z) (digit : Z -> Z).
Hypothesis Hbase : 2 <= base.
Hypothesis Hdigit : forall d, 0 <= d < base -> digit_value (digit d) = d.

Lemma push_digits_value n q stack : 0 <= q < base ^ Z.of_nat n ->
  digits_value base (push_digits base digit n q stack) =
  q * base ^ Z.of_nat (List.length stack) + digits_value base stack.
Proof.
  revert q stack. induction n as [|n IH]; intros q stack Hq.
  { change (base ^ Z.of_nat 0) with 1 in Hq. cbn [push_digits]. replace q with 0 by lia. lia. }
  rewrite Nat2Z.inj_succ, Z.pow_succ_r in Hq by lia. cbn [push_digits].
  destruct (Z.eqb_spec q 0) as [->|Hz]; [lia|].
  pose proof (Z.mod_pos_bound q base ltac:(lia)) as Hm.
  rewrite IH by (split; [apply Z.div_pos; lia|apply Z.div_lt_upper_bound; lia]).
  unfold digits_value at 1. cbn [foldl List.length]. rewrite digits_value_acc, Hdigit by lia.
  rewrite Nat2Z.inj_succ, Z.pow_succ_r by lia.
  rewrite (Z.div_mod q base) at 3 by lia. ring.
Qed.

(** One more digit never hurts: enough room is enough. *)
Lemma push_digits_length n q stack (len : nat) : 0 <= q < base ^ Z.of_nat len ->
  (List.length (push_digits base digit n q stack) <= len + List.length stack)%nat.
Proof.
  revert q stack len. induction n as [|n IH]; intros q stack len Hq; cbn [push_digits]; [lia|].
  destruct (Z.eqb_spec q 0) as [->|Hz]; [lia|].
  destruct len as [|len]; [change (base ^ Z.of_nat 0) with 1 in Hq; lia|].
  rewrite Nat2Z.inj_succ, Z.pow_succ_r in Hq by lia.
  etrans; [apply (IH _ _ len); split; [apply Z.div_pos; lia|apply Z.div_lt_upper_bound; lia]|].
  cbn [List.length]. lia.
Qed.

Lemma push_digits_leading n q stack : 0 < q < base ^ Z.of_nat n ->
  exists d l, push_digits base digit n q stack = digit d :: l /\ 0 < d < base.
Proof.
  revert q stack. induction n as [|n IH]; intros q stack Hq.
  { change (base ^ Z.of_nat 0) with 1 in Hq. lia. }
  rewrite Nat2Z.inj_succ, Z.pow_succ_r in Hq by lia. cbn [push_digits].
  destruct (Z.eqb_spec q 0) as [->|Hz]; [lia|].
  pose proof (Z.mod_pos_bound q base ltac:(lia)) as Hm.
  destruct (Z.eq_dec (q / base) 0) as [E|E].
  - rewrite E. exists (q mod base), stack. split.
    + destruct n; [done|]. done.
    + pose proof (Z.div_mod q base ltac:(lia)). rewrite E in *. lia.
  - apply IH. pose proof (Z.div_pos q base ltac:(lia) ltac:(lia)).
    split; [lia|apply Z.div_lt_upper_bound; lia].
Qed.

Lemma push_digits_all (P : Z -> Prop) n q stack : (forall d, 0 <= d < base -> P (digit d)) ->
  Forall P stack -> Forall P (push_digits base digit n q stack).
Proof.
  intros HP. revert q stack. induction n as [|n IH]; intros q stack Hs; cbn [push_digits]; [done|].
  case_match; [done|]. apply IH. constructor; [|done]. apply HP, Z.mod_pos_bound. lia.
Qed.
End Digits.

Lemma push_decimal_digits n q stack : 0 <= q ->
  push_decimal n q stack = push_digits 10 (fun d => 48 + d) n q stack.
Proof.
  revert q stack. induction n as [|n IH]; intros q stack Hq; cbn [push_decimal push_digits]; [done|].
  destruct (q =? 0); [done|]. pose proof (Z.mod_pos_bound q 10 ltac:(lia)).
  rewrite u8_small by lia. apply IH, Z.div_pos; lia.
Qed.

Lemma push_hexadecimal_digits n low q stack : 0 <= q ->
  push_hexadecimal n low q stack = push_digits 16 (if low then lower else upper) n q stack.
Proof.
  revert q stack. induction n as [|n IH]; intros q stack Hq; cbn [push_hexadecimal push_digits]; [done|].
  destruct (q =? 0); [done|]. rewrite IH by (apply Z.shiftr_nonneg; lia).
  rewrite Z.shiftr_div_pow2 by lia. change 0xf with (Z.ones 4). rewrite Z.land_ones by lia.
  by destruct low.
Qed.

Definition is_decimal_digit (c : Z) : Prop := 48 <= c <= 57.
Definition is_hex_digit (low : bool) (c : Z) : Prop :=
  48 <= c <= 57 \/ if low then 97 <= c <= 102 else 65 <= c <= 70.

Lemma hex_digit low d : 0 <= d < 16 ->
  is_hex_digit low ((if low then lower else upper) d) /\
  digit_value ((if low then lower else upper) d) = d.
Proof.
  intros Hd. unfold is_hex_digit, digit_value, lower, upper.
  destruct low; destruct (Z.ltb_spec d 10); split; try lia;
    repeat match goal with |- context [?a <? ?b] => destruct (Z.ltb_spec a b) end; lia.
Qed.

(** The numerals of [n] digits or fewer for [q] in a base. *)
Record numeral (base : Z) (ok : Z -> Prop) (len : nat) (q : Z) (l : list Z) : Prop := {
  num_value : digits_value base l = q;
  num_digits : Forall ok l;
  num_length : (1 <= List.length l <= len)%nat;
  num_leading : hd 0 l = 48 -> l = [48] }.

Lemma push_digits_numeral base digit ok len q : 2 <= base ->
  (forall d, 0 <= d < base -> ok (digit d) /\ digit_value (digit d) = d) -> digit 0 = 48 ->
  (1 <= len <= 128)%nat -> 0 <= q < base ^ Z.of_nat len ->
  numeral base ok len q (or_zero (push_digits base digit 128 q [])).
Proof.
  intros Hb Hd H0 Hlen Hq.
  assert (Hq' : 0 <= q < base ^ Z.of_nat 128).
  { pose proof (Z.pow_le_mono_r base (Z.of_nat len) (Z.of_nat 128)). lia. }
  destruct (Z.eq_dec q 0) as [->|Hz].
  { cbn. split; cbn; [done| |lia|done]. constructor; [|constructor]. rewrite <- H0. apply Hd. lia. }
  destruct (push_digits_leading base digit Hb 128 q []) as (d & l & E & Hdl); [lia|].
  pose proof (push_digits_value base digit Hb (fun d H => proj2 (Hd d H)) 128 q [] Hq') as Hv.
  pose proof (push_digits_length base digit Hb 128 q [] len Hq) as Hl.
  pose proof (push_digits_all base digit Hb ok 128 q [] (fun d H => proj1 (Hd d H)) (Forall_nil_2 _)) as Ha.
  rewrite E in *. cbn [or_zero]. split; [|done|cbn [List.length] in *; lia|].
  - rewrite Hv. change (digits_value base []) with 0. cbn [List.length]. change (Z.of_nat 0) with 0. lia.
  - cbn [hd]. intros Ed. pose proof (proj2 (Hd d ltac:(lia))) as E1. rewrite Ed in E1.
    cbn in E1. lia.
Qed.

Lemma decimal_numeral q : 0 <= q < 2 ^ 64 -> numeral 10 is_decimal_digit 20 q (decimal q).
Proof.
  intros Hq. unfold decimal. rewrite push_decimal_digits by lia. apply push_digits_numeral; [lia| |done|lia|].
  - intros d Hd. unfold is_decimal_digit, digit_value. split; [lia|].
    destruct (Z.ltb_spec (48 + d) 58); lia.
  - change (10 ^ Z.of_nat 20) with 100000000000000000000. lia.
Qed.

Lemma hexadecimal_numeral q low : 0 <= q < 2 ^ 64 ->
  numeral 16 (is_hex_digit low) 16 q (hexadecimal low q).
Proof.
  intros Hq. unfold hexadecimal. rewrite push_hexadecimal_digits by lia.
  apply push_digits_numeral; [lia|apply hex_digit|by destruct low|lia|].
  change (16 ^ Z.of_nat 16) with (2 ^ 64). done.
Qed.

(** Numerals round trip: the characters emitted for a 64-bit number are one to
    twenty decimal digits (one to sixteen hexadecimal digits), without leading
    zeros, and read back as the number; the digit stack of 128 entries never
    fills. *)
Theorem numeral_roundtrip (q : Z) : 0 <= q < 2 ^ 64 ->
  numeral 10 is_decimal_digit 20 q (decimal q) /\
  forall low, numeral 16 (is_hex_digit low) 16 q (hexadecimal low q).
Proof. intros Hq. split; [by apply decimal_numeral|intros low; by apply hexadecimal_numeral]. Qed.

Lemma numeral_roundtrip_witness :
  digits_value 10 (decimal 1193182) = 1193182 /\ digits_value 16 (hexadecimal true 0xb8000) = 0xb8000.
Proof.
  split.
  - exact (num_value _ _ _ _ _ (proj1 (numeral_roundtrip 1193182 ltac:(lia)))).
  - exact (num_value _ _ _ _ _ (proj2 (numeral_roundtrip 0xb8000 ltac:(lia)) true)).
Defined.

(** ** What a format produces *)

(** The C string [l] is stored at [p]. *)
Record string_at (m : memory) (p : Z) (l : list Z) : Prop := {
  sa_chars : forall i, (i < List.length l)%nat -> rd8 m (p + Z.of_nat i) = l !!! i;
  sa_nonzero : Forall (fun c => c <> 0) l;
  sa_end : rd8 m (p + Z.of_nat (List.length l)) = 0 }.

Lemma string_at_frame m m' p l : (forall a, p <= a <= p + Z.of_nat (List.length l) -> rd8 m' a = rd8 m a) ->
  string_at m p l -> string_at m' p l.
Proof.
  intros Hm [Hc Hn He]. split; [|done|].
  - intros i Hi. rewrite Hm by lia. by apply Hc.
  - by rewrite Hm by lia.
Qed.

(** Deciding what memory holds, for concrete memories. *)
Definition holds_text (m : memory) (p : Z) (l : list Z) : bool :=
  forallb (fun i => rd8 m (p + Z.of_nat i) =? l !!! i) (seq 0 (List.length l)) &&
  forallb (fun c => negb (c =? 0)) l && (rd8 m (p + Z.of_nat (List.length l)) =? 0).
Lemma holds_text_sound m p l : holds_text m p l = true -> string_at m p l.
Proof.
  unfold holds_text. rewrite !andb_true_iff, !forallb_forall, Z.eqb_eq. intros [[Hc Hn] He]. split; [..|done].
  - intros i Hi. apply Z.eqb_eq, Hc, in_seq. lia.
  - apply Forall_forall. intros c Hin. apply list_elem_of_In in Hin. specialize (Hn c Hin).
    by rewrite negb_true_iff, Z.eqb_neq in Hn.
Qed.
Definition store_text (m : memory) (p : Z) (l : list Z) : memory :=
  foldl (fun m i => wr8 m (p + Z.of_nat i) (l !!! i)) (wr8 m (p + Z.of_nat (List.length l)) 0) (seq 0 (List.length l)).

Definition int_text (v : Z) : list Z := if v <? 0 then 45 :: decimal (- v) else decimal v.

(** The text of one directive; [strs] holds the strings pointers may refer to.
    Negating the smallest [int32_t] overflows: its digits are those of the
    sign-extended word. *)
Definition directive_text (strs : gmap Z (list Z)) (c arg : Z) : option (list Z) :=
  if c =? 115 then strs !! arg
  else if c =? 99 then Some [u8 arg]
  else if c =? 100 then
    Some (if s32 arg =? - 2 ^ 31 then 45 :: decimal (2 ^ 64 - 2 ^ 31) else int_text (s32 arg))
  else if c =? 113 then Some (int_text (s64 arg))
  else if c =? 120 then Some (hexadecimal true (u64 arg))
  else Some (hexadecimal false (u64 arg)).

Fixpoint render (strs : gmap Z (list Z)) (fmt args : list Z) : option (list Z) :=
  match fmt with
  | [] => Some []
  | c :: fmt' =>
      if c =? 37 then
        match fmt' with
        | [] => None
        | d :: fmt'' =>
            if takes_argument d then
              t ← directive_text strs d (hd 0 args); r ← render strs fmt'' (tl args); Some (t ++ r)
            else render strs fmt'' args
        end
      else r ← render strs fmt' args; Some (c :: r)
  end.

(** Rendering a literal piece and a directive. *)
Lemma render_literal strs l fmt args : forallb (fun c => negb (c =? 37)) l = true ->
  render strs (l ++ fmt) args = r ← render strs fmt args; Some (l ++ r).
Proof.
  induction l as [|c l IH]; intros Hl; cbn [app].
  { by destruct (render strs fmt args). }
  cbn [forallb app render] in *. apply andb_true_iff in Hl as [Hc Hl]. destruct (c =? 37); [done|].
  rewrite IH by done. by destruct (render strs fmt args).
Qed.
Lemma render_directive strs d fmt arg args : takes_argument d = true ->
  render strs (37 :: d :: fmt) (arg :: args) =
  t ← directive_text strs d arg; r ← render strs fmt args; Some (t ++ r).
Proof. intros Hd. cbn [render]. by rewrite Hd. Qed.

Lemma miter_app {S A} (f : A -> M S unit) l1 l2 s :
  miter f (l1 ++ l2) s = (miter f l1 ;;; miter f l2) s.
Proof.
  revert s. induction l1 as [|x l1 IH]; intros s; [done|]. cbn [miter app]. unfold bind.
  destruct (f x s) as [[? s1]|]; [apply IH|done].
Qed.

Lemma s64_small z : - 2 ^ 63 <= z < 2 ^ 63 -> s64 z = z.
Proof.
  intros H. unfold s64, signed, wrap.
  destruct (Z.ltb_spec (z mod 2 ^ 64) (2 ^ (64 - 1))); zdiv.
Qed.
Lemma s32_range z : - 2 ^ 31 <= s32 z < 2 ^ 31.
Proof.
  unfold s32, signed. pose proof (wrap_range 32 z ltac:(lia)).
  destruct (Z.ltb_spec (wrap 32 z) (2 ^ (32 - 1))); lia.
Qed.
Lemma s64_range z : - 2 ^ 63 <= s64 z < 2 ^ 63.
Proof.
  unfold s64, signed. pose proof (wrap_range 64 z ltac:(lia)).
  destruct (Z.ltb_spec (wrap 64 z) (2 ^ (64 - 1))); lia.
Qed.

Section Rendering.
Context {St : Type} (putc : Z -> M St unit) (mem : St -> memory).
Context (strs : gmap Z (list Z)) (sfuel : nat).
(** [Inv n s]: [n] more characters can be emitted from [s], and the strings can be read. *)
Context (Inv : nat -> St -> Prop).
Hypothesis Hputc : forall c n s, Inv (S n) s -> exists s', putc c s = Ret (tt, s') /\ Inv n s'.
Hypothesis Hstrs : forall n s p l, Inv n s -> strs !! p = Some l ->
  string_at (mem s) p l /\ (List.length l < sfuel)%nat.

Lemma emit_all l n s : Inv (List.length l + n) s ->
  exists s', miter putc l s = Ret (tt, s') /\ Inv n s'.
Proof.
  revert s. induction l as [|c l IH]; intros s HI; [by exists s|].
  destruct (Hputc c (List.length l + n) s HI) as (s1 & E1 & H1).
  destruct (IH s1 H1) as (s2 & E2 & H2). exists s2. split; [|done]. cbn [miter]. by run_with E1.
Qed.

Lemma emit_string_suffix p l i k n s : strs !! p = Some l -> (i <= List.length l)%nat ->
  (List.length l - i < k)%nat -> Inv (List.length l - i + n) s ->
  emit_string putc mem k (p + Z.of_nat i) s = miter putc (drop i l) s.
Proof.
  intros Hp. revert i s. induction k as [|k IH]; intros i s Hi Hk HI; [lia|].
  destruct (Hstrs _ _ _ _ HI Hp) as [[Hc Hnz He] _]. cbn [emit_string].
  rewrite (bind_run _ _ _ _ _ eq_refl); cbv beta.
  destruct (decide (i = List.length l)) as [->|Hne].
  - rewrite He, drop_all. done.
  - rewrite Hc by lia. assert (Hx : l !! i = Some (l !!! i)) by (apply list_lookup_lookup_total_lt; lia).
    rewrite (drop_S l _ i Hx). cbn [miter]. rewrite Forall_lookup in Hnz.
    destruct (Z.eqb_spec (l !!! i) 0) as [E|_]; [by destruct (Hnz i _ Hx)|].
    destruct (Hputc (l !!! i) (List.length l - S i + n) s) as (s1 & E1 & H1).
    { replace (S (List.length l - S i + n)) with (List.length l - i + n)%nat by lia. done. }
    run_with E1. rewrite (bind_run _ _ _ _ _ E1); cbv beta.
    replace (p + Z.of_nat i + 1) with (p + Z.of_nat (S i)) by lia. apply IH; [lia|lia|done].
Qed.

Lemma emit_signed w v s : 0 < w <= 64 -> - 2 ^ (w - 1) < v < 2 ^ (w - 1) ->
  (if v <? 0 then putc 45 ;;; resolve_decimal putc (u64 (signed w (- v)))
   else resolve_decimal putc (u64 v)) s = miter putc (int_text v) s.
Proof.
  intros Hw Hv. unfold int_text. pose proof (Z.pow_le_mono_r 2 (w - 1) 63).
  assert (Hs : forall z, 0 <= z < 2 ^ (w - 1) -> u64 (signed w z) = z /\ u64 z = z).
  { intros z Hz. assert (u64 z = z) by (apply u64_small; lia). split; [|done].
    unfold signed. pose proof (Z.pow_lt_mono_r 2 (w - 1) w). rewrite wrap_small by lia.
    destruct (Z.ltb_spec z (2 ^ (w - 1))); [done|lia]. }
  destruct (Z.ltb_spec v 0).
  - destruct (Hs (- v)) as [-> _]; [lia|]. done.
  - destruct (Hs v) as [_ ->]; [lia|]. done.
Qed.

Lemma emit_directive_run c arg t n s : takes_argument c = true ->
  directive_text strs c arg = Some t -> Inv (List.length t + n) s ->
  emit_directive putc mem sfuel c arg s = miter putc t s.
Proof.
  intros Hc Ht HI. unfold takes_argument in Hc. rewrite bool_decide_eq_true in Hc.
  unfold emit_directive, directive_text in *. rewrite !elem_of_cons in Hc.
  destruct (Z.eqb_spec c 115).
  { destruct (Hstrs _ _ _ _ HI Ht) as [_ Hl].
    pose proof (emit_string_suffix arg t 0 sfuel n s Ht ltac:(lia) ltac:(lia)) as H.
    rewrite Z.add_0_r, Nat.sub_0_r in H. by rewrite H. }
  destruct (Z.eqb_spec c 99).
  { injection Ht as <-. cbn [miter]. unfold bind, ret. cbn [List.length] in HI.
    by destruct (Hputc (u8 arg) n s HI) as (s1 & -> & _). }
  destruct (Z.eqb_spec c 100).
  { injection Ht as <-. destruct (Z.eqb_spec (s32 arg) (- 2 ^ 31)) as [E|E].
    - cbv zeta. rewrite E. done.
    - apply (emit_signed 32); [lia|]. pose proof (s32_range arg). lia. }
  destruct (Z.eqb_spec c 113).
  { injection Ht as <-. destruct (Z.eq_dec (s64 arg) (- 2 ^ 63)) as [E|E].
    - cbv zeta. rewrite E. done.
    - apply (emit_signed 64); [lia|]. pose proof (s64_range arg). lia. }
  destruct (Z.eqb_spec c 120); [by injection Ht as <-|].
  destruct (Z.eqb_spec c 88); [by injection Ht as <-|].
  exfalso. rewrite elem_of_nil in Hc. naive_solver.
Qed.

(** The walk emits the rendering of the format. *)
Lemma format_loop_run f fmt pos args out n fuel s :
  (List.length f < fuel)%nat -> Forall (fun c => c <> 0) f ->
  (forall i, (i < List.length f)%nat -> fmt (pos + Z.of_nat i) = f !!! i) -> fmt (pos + Z.of_nat (List.length f)) = 0 ->
  render strs f args = Some out -> Inv (List.length out + n) s ->
  format_loop putc mem fuel sfuel fmt pos args s = miter putc out s.
Proof.
  revert f pos args out n s. induction fuel as [|k IH]; intros f pos args out n s Hk Hnz Hf He Hr HI; [lia|].
  destruct f as [|c f]; cbn [format_loop].
  { cbn in He, Hr. rewrite Z.add_0_r in He. rewrite He. by injection Hr as <-. }
  pose proof (Hf 0%nat ltac:(cbn; lia)) as Hc. cbn in Hc. rewrite Z.add_0_r in Hc. rewrite Hc.
  apply Forall_cons in Hnz as [Hc0 Hnz]. destruct (Z.eqb_spec c 0) as [|_]; [done|].
  assert (Hf1 : forall i, (i < List.length f)%nat -> fmt (pos + 1 + Z.of_nat i) = f !!! i).
  { intros i Hi. change (f !!! i) with ((c :: f) !!! S i). rewrite <- Hf by (cbn; lia). f_equal. lia. }
  cbn [List.length] in Hk, He. rewrite Nat2Z.inj_succ in He. cbn [render] in Hr.
  destruct (Z.eqb_spec c 37) as [->|_]; cbn [negb].
  - destruct f as [|d f]; [done|]. pose proof (Hf1 0%nat ltac:(cbn; lia)) as Hd. cbn in Hd.
    rewrite Z.add_0_r in Hd. rewrite Hd. apply Forall_cons in Hnz as [_ Hnz]. cbn [List.length] in Hk, He.
    assert (Hf2 : forall i, (i < List.length f)%nat -> fmt (pos + 2 + Z.of_nat i) = f !!! i).
    { intros i Hi. change (f !!! i) with ((d :: f) !!! S i). rewrite <- Hf1 by (cbn; lia). f_equal. lia. }
    assert (He2 : fmt (pos + 2 + Z.of_nat (List.length f)) = 0) by (rewrite <- He; f_equal; lia).
    destruct (takes_argument d) eqn:Ed.
    + destruct (directive_text strs d (hd 0 args)) as [t|] eqn:Et; [|done].
      destruct (render strs f (tl args)) as [r|] eqn:Er; [|done]. cbn in Hr. injection Hr as <-.
      rewrite length_app in HI. rewrite miter_app.
      rewrite <- Nat.add_assoc in HI. destruct (emit_all t (List.length r + n) s HI) as (s1 & E1 & H1).
      pose proof (emit_directive_run d _ t _ s Ed Et HI) as Hd1. rewrite E1 in Hd1.
      run_with Hd1. run_with E1. by apply (IH f _ _ r n); [lia|..].
    + by apply (IH f _ _ out n); [lia|..].
  - destruct (render strs f args) as [r|] eqn:Er; [|done]. cbn in Hr. injection Hr as <-. cbn [List.length] in HI.
    destruct (Hputc c (List.length r + n) s HI) as (s1 & E1 & H1). cbn [miter]. run_with E1.
    rewrite (bind_run _ _ _ _ _ E1); cbv beta. apply (IH f _ _ r n); [lia|done|done| |done|done].
    rewrite <- He. f_equal. lia.
Qed.
End Rendering.

(** ** [printk] *)
Lemma write_serial_all l c :
  miter write_serial l c = Ret (tt, Console (con_mem c) (con_out c ++ (u8 <$> l))).
Proof.
  revert c. induction l as [|x l IH]; intros c; cbn [miter]; [by destruct c; rewrite app_nil_r|].
  rewrite (bind_run _ _ _ _ _ eq_refl); cbv beta. rewrite IH. cbn. by rewrite <- app_assoc.
Qed.

Lemma literal_lookup l : Forall (fun c => c <> 0) l ->
  (forall i, (i < List.length l)%nat -> literal l (0 + Z.of_nat i) = l !!! i) /\
  literal l (0 + Z.of_nat (List.length l)) = 0.
Proof.
  intros _. unfold literal. split.
  - intros i Hi. rewrite Z.add_0_l, Nat2Z.id. rewrite nth_lookup, list_lookup_total_alt.
    by destruct (lookup_lt_is_Some_2 l i Hi) as [x ->].
  - rewrite Z.add_0_l, Nat2Z.id. by apply nth_overflow.
Qed.

(** For a format that does not end in a lone [%] and string arguments
    that are stored in memory, the characters appended to the console are exactly
    those of the format with each directive replaced by its argument's text, and
    memory is unchanged. *)
Lemma printk_run (f args out : list Z) (strs : gmap Z (list Z)) (fuel sfuel : nat)
    (c : console_state) :
  (List.length f < fuel)%nat -> Forall (fun c => c <> 0) f ->
  map_Forall (fun p l => string_at (con_mem c) p l /\ (List.length l < sfuel)%nat) strs ->
  render strs f args = Some out ->
  printk_mp_raw fuel sfuel (literal f) args c =
    Ret (tt, Console (con_mem c) (con_out c ++ (u8 <$> out))).
Proof.
  intros Hfuel Hnz Hs Hr. unfold printk_mp_raw. destruct (literal_lookup f Hnz) as [Hf He].
  rewrite (format_loop_run write_serial con_mem strs sfuel (fun _ s => con_mem s = con_mem c))
    with (f := f) (out := out) (n := 0%nat); [apply write_serial_all| | |done..].
  - intros x n s HI. eexists. split; [reflexivity|done].
  - intros n s p l HI Hp. rewrite HI. exact (Hs p l Hp).
Qed.

(** The text of a small non-negative [%d]. *)
Lemma directive_small_decimal strs v : 0 <= v < 2 ^ 31 -> directive_text strs 100 v = Some (decimal v).
Proof.
  intros Hv. change (directive_text strs 100 v) with
    (Some (if s32 v =? - 2 ^ 31 then 45 :: decimal (2 ^ 64 - 2 ^ 31) else int_text (s32 v))).
  unfold int_text. rewrite s32_small by lia. destruct (Z.eqb_spec v (- 2 ^ 31)); [lia|].
  by destruct (Z.ltb_spec v 0); [lia|].
Qed.

(** The text of an integer consists of bytes. *)
Lemma decimal_bytes q : 0 <= q < 2 ^ 64 -> Forall (fun c => 0 <= c < 256) (decimal q).
Proof.
  intros Hq. eapply Forall_impl; [apply (num_digits _ _ _ _ _ (decimal_numeral q Hq))|].
  unfold is_decimal_digit. intros c Hc. cbv beta in Hc. lia.
Qed.
Lemma hexadecimal_bytes low q : 0 <= q < 2 ^ 64 -> Forall (fun c => 0 <= c < 256) (hexadecimal low q).
Proof.
  intros Hq. eapply Forall_impl; [apply (num_digits _ _ _ _ _ (hexadecimal_numeral q low Hq))|].
  unfold is_hex_digit. intros c Hc. cbv beta in Hc. destruct low; lia.
Qed.
Lemma chars_bytes str : Forall (fun c => 0 <= c < 256) (chars str).
Proof.
  unfold chars. induction (list_ascii_of_string str) as [|a l IH]; [constructor|].
  cbn. constructor; [|exact IH]. pose proof (N_ascii_bounded a). lia.
Qed.
Lemma u8_bytes l : Forall (fun c => 0 <= c < 256) l -> u8 <$> l = l.
Proof. induction 1; cbn; [done|]. rewrite u8_small by lia. congruence. Qed.

Definition sample_strings : memory := <[0x100 := 104]> (<[0x101 := 105]> ∅).

(** ** [sprintf] *)
Lemma buff_put_all buff l b : exists m',
  miter (buff_put buff) l b = Ret (tt, Buffer m' (buf_iptr b + Z.of_nat (List.length l))) /\
  (forall i, (i < List.length l)%nat -> rd8 m' (buff + buf_iptr b + Z.of_nat i) = u8 (l !!! i)) /\
  (forall a, a < buff + buf_iptr b \/ buff + buf_iptr b + Z.of_nat (List.length l) <= a ->
     rd8 m' a = rd8 (buf_mem b) a).
Proof.
  revert b. induction l as [|x l IH]; intros b; cbn [miter List.length].
  { exists (buf_mem b). split; [rewrite Z.add_0_r; by destruct b|]. split; [intros i Hi; lia|done]. }
  rewrite (bind_run _ _ _ _ _ eq_refl); cbv beta.
  destruct (IH (b <| buf_mem ::= fun m => wr8 m (buff + buf_iptr b) x |> <| buf_iptr ::= fun i => i + 1 |>))
    as (m' & E & Hin & Hout). cbv [update] in E, Hin, Hout. cbn [buf_mem buf_iptr] in E, Hin, Hout.
  exists m'. split; [|split].
  - cbv [update]. cbn [buf_mem buf_iptr]. rewrite E. do 3 f_equal. lia.
  - intros [|i] Hi.
    + rewrite Hout by lia. rewrite Z.add_0_r, rd8_wr8, decide_True by done. done.
    + change ((x :: l) !!! S i) with (l !!! i). rewrite <- Hin by lia. f_equal. lia.
  - intros a Ha. rewrite Hout by lia. apply rd8_wr8_ne. lia.
Qed.

(** The rendering of a format in the buffer: what [sprintf] stores. *)
Lemma sprintf_run (f args out : list Z) (strs : gmap Z (list Z)) (fuel sfuel : nat)
    (buff : Z) (m : memory) :
  (List.length f < fuel)%nat -> Forall (fun c => c <> 0) f ->
  map_Forall (fun p l => string_at m p l /\ (List.length l < sfuel)%nat /\
    (p + Z.of_nat (List.length l) < buff \/ buff + Z.of_nat (List.length out) <= p)) strs ->
  render strs f args = Some out ->
  exists m', sprintf_raw fuel sfuel buff (literal f) args m = Ret m' /\
    (forall i, (i < List.length out)%nat -> rd8 m' (buff + Z.of_nat i) = u8 (out !!! i)) /\
    rd8 m' (buff + Z.of_nat (List.length out)) = 0 /\
    (forall a, a < buff \/ buff + Z.of_nat (List.length out) < a -> rd8 m' a = rd8 m a).
Proof.
  intros Hfuel Hnz Hs Hr. unfold sprintf_raw. destruct (literal_lookup f Hnz) as [Hf He].
  set (Inv := fun n b => buf_iptr b + Z.of_nat n <= Z.of_nat (List.length out) /\ 0 <= buf_iptr b /\
    forall a, a < buff \/ buff + Z.of_nat (List.length out) <= a -> rd8 (buf_mem b) a = rd8 m a).
  rewrite (format_loop_run (buff_put buff) buf_mem strs sfuel Inv)
    with (f := f) (out := out) (n := 0%nat); [| | |done..|].
  - destruct (buff_put_all buff out (Buffer m 0)) as (m' & -> & Hin & Hout). cbn [buf_mem buf_iptr] in *.
    rewrite Z.add_0_r in Hin, Hout. rewrite Z.add_0_l. eexists. split; [reflexivity|]. split; [|split].
    + intros i Hi. rewrite rd8_wr8_ne by lia. by apply Hin.
    + by rewrite rd8_wr8, decide_True by done.
    + intros a Ha. rewrite rd8_wr8_ne by lia. apply Hout. lia.
  - intros c n b (H1 & H2 & H3). eexists. split; [reflexivity|].
    unfold Inv. cbv [update]. cbn [buf_mem buf_iptr]. split; [lia|]. split; [lia|].
    intros a Ha. rewrite rd8_wr8_ne by lia. by apply H3.
  - intros n b p l (H1 & H2 & H3) Hp. destruct (Hs p l Hp) as ([Hc Hz Hend] & Hl & Hd).
    split; [|done]. split; [|done|].
    + intros i Hi. rewrite H3 by lia. by apply Hc.
    + rewrite H3 by lia. done.
  - unfold Inv. cbn [buf_mem buf_iptr]. split; [lia|]. split; [lia|done].
Qed.

(** C20 [sprintf]: when the string arguments are stored away from the buffer, the
    buffer receives the rendering of the format followed by a terminating zero, and
    no byte outside [buff .. buff + List.length] changes. *)
Theorem sprintf_renders (f args out : list Z) (strs : gmap Z (list Z)) (fuel sfuel : nat)
    (buff : Z) (m : memory) :
  (List.length f < fuel)%nat -> Forall (fun c => c <> 0) f ->
  map_Forall (fun p l => string_at m p l /\ (List.length l < sfuel)%nat /\
    (p + Z.of_nat (List.length l) < buff \/ buff + Z.of_nat (List.length out) <= p)) strs ->
  render strs f args = Some out ->
  exists m', sprintf_raw fuel sfuel buff (literal f) args m = Ret m' /\
    (forall i, (i < List.length out)%nat -> rd8 m' (buff + Z.of_nat i) = u8 (out !!! i)) /\
    rd8 m' (buff + Z.of_nat (List.length out)) = 0 /\
    (forall a, a < buff \/ buff + Z.of_nat (List.length out) < a -> rd8 m' a = rd8 m a).
Proof. apply sprintf_run. Qed.

Lemma sprintf_renders_witness :
  exists m', sprintf_raw 20 10 0x200 (literal (chars "%s:%X")) [0x100; 175] sample_strings = Ret m' /\
    rd8 m' 0x203 = 65 /\ rd8 m' 0x205 = 0.
Proof.
  destruct (sprintf_renders (chars "%s:%X") [0x100; 175] (chars "hi:AF")
    {[0x100 := [104; 105]]} 20 10 0x200 sample_strings) as (m' & Hr & Hin & Hend & _).
  - cbn. lia.
  - cbn. repeat constructor; lia.
  - apply map_Forall_singleton. split; [|cbn; lia]. split.
    + intros [|[|i]] Hi; [reflexivity..|cbn in Hi; lia].
    + repeat constructor; lia.
    + reflexivity.
  - reflexivity.
  - exists m'. split; [exact Hr|]. split; [exact (Hin 3%nat ltac:(cbn; lia))|exact Hend].
Defined.
