(* ===== verification/Screen.v ===== *)
(** * Screen: the kernel's text screen and the set-up of its serial line
    ([device/video.c], [device/serial.c]).

    The screen is 25 rows of 80 cells at [VIDEO_BUFFER_BASE], a character byte and
    an attribute byte each. The operations are commands on memory, so a text that
    is longer than its row runs on into the next one and a text below the last row
    is stored in the video memory behind the screen, as in the code. *)
From Stdlib Require Import ZArith Lia String.
From stdpp Require Import base tactics list numbers gmap.
From S2P Require Import Prelude.
From S2P Require Import Memory.
From S2P Require Import Format.
Local Open Scope Z_scope.

Definition VIDEO_BUFFER_BASE : Z := 0xb8000.
Definition VIDEO_BUFFER_ROW : Z := 25.
Definition VIDEO_BUFFER_COL : Z := 80.
Definition COLOR_BLACK : Z := 0x0.
Definition COLOR_GREEN : Z := 0x2.
Definition COLOR_PURPLE : Z := 0x5.
Definition COLOR_WHITE : Z := 0xf.

(** The cell at a row and a column. *)
Definition video_ptr (idx_row idx_col : Z) : Z :=
  VIDEO_BUFFER_BASE + idx_row * VIDEO_BUFFER_COL * 2 + idx_col * 2.
Definition CHAR_VIDEO_ADDR (row col : Z) : Z := VIDEO_BUFFER_BASE + 2 * (row * VIDEO_BUFFER_COL + col).

Definition poke (a v : Z) : M memory unit := modify (fun m => wr8 m a v).

(** The two loops over the cells. *)
Definition for_cells (body : Z -> M memory unit) : M memory unit :=
  mfor (Z.to_nat VIDEO_BUFFER_ROW) 0 (fun idx_row =>
    mfor (Z.to_nat VIDEO_BUFFER_COL) 0 (fun idx_col => body (video_ptr idx_row idx_col))).
Definition set_font_color (background_color front_color : Z) : M memory unit :=
  for_cells (fun ptr => poke (ptr + 1) (Z.lor (Z.shiftl background_color 4) front_color)).
Definition reset_text : M memory unit := for_cells (fun ptr => poke ptr 0x0).

Fixpoint print_loop (fuel : nat) (text_ptr ptr : Z) : M memory unit :=
  match fuel with
  | O => stop OutOfFuel
  | S k =>
      let! c := gets (fun m => rd8 m text_ptr) in
      if c =? 0 then ret tt else poke ptr c ;;; print_loop k (text_ptr + 1) (ptr + 2)
  end.
Definition print_text (fuel : nat) (idx_row idx_col text : Z) : M memory unit :=
  print_loop fuel text (video_ptr idx_row idx_col).

(** ** [video_init]: [banner] is an array of pointers; the writes to the cursor's
    registers go to ports. *)
Record video_state := Video { v_mem : memory; v_ports : list (Z * Z) }.
#[export] Instance eta_video : Eta video_state := fun s => Video (v_mem s) (v_ports s).
Definition on_screen {A} : M memory A -> M video_state A := zoom v_mem (fun m s => s <| v_mem := m |>).
Definition outb (port val : Z) : M video_state unit := modify (fun s => s <| v_ports ::= fun l => l ++ [(port, val)] |>).

Definition BANNER_LINES : nat := 10.
Definition disable_cursor : M video_state unit := outb 0x3d4 0x0a ;;; outb 0x3d5 0x20.
Definition video_init (fuel : nat) (banner : Z) : M video_state unit :=
  disable_cursor ;;;
  on_screen (set_font_color COLOR_BLACK COLOR_GREEN) ;;;
  on_screen reset_text ;;;
  mfor BANNER_LINES 0 (fun idx =>
    let! text := gets (fun s => load64 (v_mem s) (banner + idx * 8)) in
    on_screen (print_text fuel (idx + 4) 15 text)).

(** ** [serial_init] *)
Definition COM1_PORT : Z := 0x3f8.
Definition serial_init : M video_state unit :=
  outb (COM1_PORT + 1) 0x01 ;;;
  outb (COM1_PORT + 3) 0x80 ;;;
  outb (COM1_PORT + 0) 0x03 ;;;
  outb (COM1_PORT + 1) 0x00 ;;;
  outb (COM1_PORT + 3) 0x03 ;;;
  outb (COM1_PORT + 2) 0xC7 ;;;
  outb (COM1_PORT + 4) 0x0B.

Definition banner_text : list (list Z) := chars <$> [
  "________________________________________________"%string;
  "     ___                               __       "%string;
  "        /          /       /         /    )     "%string;
  "-------/-----__---/----__-/----__---/----/---__-"%string;
  "      /    /___) /   /   /   /   ) /    /   (_ `"%string;
  "____(_____(___ _/___(___/___(___(_(____/___(__)_"%string;
  "    /                                           "%string;
  "(_ /   Copyright (c) 2019 Jie Zheng             "%string;
  ""%string;
  "https://github.com/chillancezen/ZeldaOS.x86_64"%string ].

(** * Properties *)

(** What a screen shows: the character and the attribute of the [i]th cell, the
    cells behind the screen included, and the rest of memory. *)
Definition CELLS : Z := 16384.
Definition WINDOW_END : Z := VIDEO_BUFFER_BASE + 2 * CELLS.
Definition text_cell (m : memory) (i : Z) : Z := rd8 m (VIDEO_BUFFER_BASE + 2 * i).
Definition color_cell (m : memory) (i : Z) : Z := rd8 m (VIDEO_BUFFER_BASE + 2 * i + 1).

(** A text laid over the cells from [pos] on. *)
Definition overlay (pos : Z) (l : list Z) (cells : Z -> Z) (i : Z) : Z :=
  if decide (pos <= i < pos + Z.of_nat (List.length l)) then l !!! Z.to_nat (i - pos) else cells i.

(** [displays m0 text color m]: the screen shows [text] in [color], and outside the
    video memory [m] is [m0]. *)
Record displays (m0 : memory) (text color : Z -> Z) (m : memory) : Prop := {
  dp_text : forall i, 0 <= i < CELLS -> text_cell m i = text i;
  dp_color : forall i, 0 <= i < CELLS -> color_cell m i = color i;
  dp_frame : forall a, a < VIDEO_BUFFER_BASE \/ WINDOW_END <= a -> rd8 m a = rd8 m0 a }.

Ltac cells := unfold text_cell, color_cell, video_ptr, CHAR_VIDEO_ADDR, WINDOW_END, CELLS, VIDEO_BUFFER_BASE,
  VIDEO_BUFFER_ROW, VIDEO_BUFFER_COL in *; lia.

Lemma displays_start m : displays m (text_cell m) (color_cell m) m.
Proof. by split. Qed.

Lemma displays_ext m0 f g f' g' m : (forall i, 0 <= i < CELLS -> f i = f' i) -> (forall i, 0 <= i < CELLS -> g i = g' i) ->
  displays m0 f g m -> displays m0 f' g' m.
Proof.
  intros Hf Hg [Ht Hc Ho]. split; [..|done]; intros i Hi.
  - by rewrite <- Hf, Ht.
  - by rewrite <- Hg, Hc.
Qed.

(** Writing the character of one cell, or its attribute. *)
Lemma displays_char m0 f g m i v : 0 <= i < CELLS -> displays m0 f g m ->
  displays m0 (fun j => if decide (j = i) then u8 v else f j) g (wr8 m (VIDEO_BUFFER_BASE + 2 * i) v).
Proof.
  intros Hi [Ht Hc Ho]. split.
  - intros j Hj. unfold text_cell. rewrite rd8_wr8. repeat case_decide; try lia; try done. by apply Ht.
  - intros j Hj. unfold color_cell. rewrite rd8_wr8_ne by lia. by apply Hc.
  - intros a Ha. rewrite rd8_wr8_ne by cells. by apply Ho.
Qed.
Lemma displays_attribute m0 f g m i v : 0 <= i < CELLS -> displays m0 f g m ->
  displays m0 f (fun j => if decide (j = i) then u8 v else g j) (wr8 m (VIDEO_BUFFER_BASE + 2 * i + 1) v).
Proof.
  intros Hi [Ht Hc Ho]. split.
  - intros j Hj. unfold text_cell. rewrite rd8_wr8_ne by lia. by apply Ht.
  - intros j Hj. unfold color_cell. rewrite rd8_wr8. repeat case_decide; try lia; try done. by apply Hc.
  - intros a Ha. rewrite rd8_wr8_ne by cells. by apply Ho.
Qed.

(** The loops visit cells [0 .. 1999] in order. *)
Lemma for_cells_run (body : Z -> M memory unit) (I : Z -> memory -> Prop) m :
  (forall i m, 0 <= i < VIDEO_BUFFER_ROW * VIDEO_BUFFER_COL -> I i m ->
     runs (body (VIDEO_BUFFER_BASE + 2 * i)) m (fun _ => I (i + 1))) ->
  I 0 m -> runs (for_cells body) m (fun _ => I (VIDEO_BUFFER_ROW * VIDEO_BUFFER_COL)).
Proof.
  intros Hb H0. unfold for_cells.
  apply (runs_mfor_counter _ (fun row => I (row * VIDEO_BUFFER_COL))); [|done].
  intros row s Hrow Hs. eapply runs_mono; [apply (runs_mfor_counter _ (fun col => I (row * VIDEO_BUFFER_COL + col)))|].
  - intros col s' Hcol Hs'. replace (video_ptr row col) with (VIDEO_BUFFER_BASE + 2 * (row * VIDEO_BUFFER_COL + col)) by cells.
    rewrite Z.add_assoc. apply Hb; [cells|done].
  - by rewrite Z.add_0_r.
  - intros [] s' Hs'. cbv beta in Hs'. replace ((row + 1) * VIDEO_BUFFER_COL) with
      (row * VIDEO_BUFFER_COL + (0 + Z.of_nat (Z.to_nat VIDEO_BUFFER_COL))) by cells. exact Hs'.
Qed.

(** The first [n] cells hold [v]. *)
Definition fill (n v : Z) (cells : Z -> Z) (i : Z) : Z := if decide (i < n) then v else cells i.
Definition on_25_rows : Z -> (Z -> Z) -> Z -> Z := fill (VIDEO_BUFFER_ROW * VIDEO_BUFFER_COL).

Lemma set_font_color_displays m0 f g m bg fg : displays m0 f g m ->
  runs (set_font_color bg fg) m (fun _ => displays m0 f (on_25_rows (u8 (Z.lor (Z.shiftl bg 4) fg)) g)).
Proof.
  intros Hd. set (v := Z.lor (Z.shiftl bg 4) fg).
  apply (for_cells_run _ (fun k => displays m0 f (fill k (u8 v) g))).
  - intros i m' Hi Hm. apply runs_modify. eapply displays_ext; [| |apply displays_attribute; [cells|exact Hm]]; [done|].
    intros j Hj. unfold fill. repeat case_decide; (done || lia).
  - eapply displays_ext; [| |exact Hd]; [done|]. intros j Hj. unfold fill. by rewrite decide_False by lia.
Qed.

Lemma reset_text_displays m0 f g m : displays m0 f g m ->
  runs reset_text m (fun _ => displays m0 (on_25_rows 0 f) g).
Proof.
  intros Hd. apply (for_cells_run _ (fun k => displays m0 (fill k 0 f) g)).
  - intros i m' Hi Hm. apply runs_modify. eapply displays_ext; [| |apply displays_char; [cells|exact Hm]]; [|done].
    intros j Hj. unfold fill. repeat case_decide; (done || lia).
  - eapply displays_ext; [| |exact Hd]; [|done]. intros j Hj. unfold fill. by rewrite decide_False by lia.
Qed.

(** Text outside the video memory is not affected by what the screen shows. *)
Definition off_screen (p : Z) (l : list Z) : Prop :=
  p + Z.of_nat (List.length l) < VIDEO_BUFFER_BASE \/ WINDOW_END <= p.
Lemma displays_string m0 f g m p l : displays m0 f g m -> off_screen p l -> string_at m0 p l -> string_at m p l.
Proof.
  intros [_ _ Ho] Hp. apply string_at_frame. intros a Ha. apply Ho. unfold off_screen in Hp. cells.
Qed.

(** A stored text consists of bytes. *)
Lemma string_at_bytes m p l : string_at m p l -> Forall (fun c => 0 <= c < 256) l.
Proof.
  intros [Hc _ _]. apply Forall_lookup. intros i c Hi. rewrite <- (list_lookup_total_correct _ _ _ Hi).
  rewrite <- Hc by (by eapply lookup_lt_Some). apply rd8_range.
Qed.

Lemma print_loop_displays m0 p l fuel g : off_screen p l -> string_at m0 p l ->
  forall n f m pos, (n <= List.length l)%nat -> (List.length l - n < fuel)%nat ->
  0 <= pos -> pos + Z.of_nat (List.length l - n) <= CELLS -> displays m0 f g m ->
  runs (print_loop fuel (p + Z.of_nat n) (VIDEO_BUFFER_BASE + 2 * pos)) m
    (fun _ => displays m0 (overlay pos (drop n l) f) g).
Proof.
  intros Hp Hs. induction fuel as [|k IH]; intros n f m pos Hn Hk Hpos Hend Hd; [lia|].
  cbn [print_loop]. apply runs_bind, runs_gets. destruct (displays_string _ _ _ _ _ _ Hd Hp Hs) as [Hc Hnz He].
  destruct (decide (n = List.length l)) as [->|Hne].
  { rewrite He. cbn [Z.eqb]. apply runs_ret. eapply displays_ext; [| |exact Hd]; [|done].
    intros i Hi. unfold overlay. rewrite drop_all. cbn [List.length]. by rewrite decide_False by lia. }
  rewrite Hc by lia. assert (Hx : l !! n = Some (l !!! n)) by (apply list_lookup_lookup_total_lt; lia).
  destruct (Z.eqb_spec (l !!! n) 0) as [E|_]; [by destruct (Forall_lookup_1 _ _ _ _ Hnz Hx)|].
  apply runs_bind, runs_modify.
  replace (p + Z.of_nat n + 1) with (p + Z.of_nat (S n)) by lia.
  replace (VIDEO_BUFFER_BASE + 2 * pos + 2) with (VIDEO_BUFFER_BASE + 2 * (pos + 1)) by lia.
  eapply runs_mono; [apply IH; [lia..|apply displays_char; [lia|exact Hd]]|].
  intros [] m' Hm'. eapply displays_ext; [| |exact Hm']; [|done].
  pose proof (Forall_lookup_1 _ _ _ _ (string_at_bytes _ _ _ Hs) Hx) as Hb.
  intros i Hi. unfold overlay. rewrite (drop_S l _ n Hx). cbn [List.length]. rewrite length_drop.
  destruct (decide (i = pos)) as [->|Hip].
  - rewrite decide_False, decide_True by lia. rewrite Z.sub_diag. by apply u8_small.
  - repeat case_decide; try lia; try done.
    replace (Z.to_nat (i - pos)) with (S (Z.to_nat (i - (pos + 1)))) by lia. done.
Qed.

(** [print_text] lays its text over the cells from the given one on and changes
    nothing else. *)
Lemma print_text_displays m0 f g m fuel row col p l :
  off_screen p l -> string_at m0 p l -> (List.length l < fuel)%nat ->
  0 <= row * VIDEO_BUFFER_COL + col -> row * VIDEO_BUFFER_COL + col + Z.of_nat (List.length l) <= CELLS ->
  displays m0 f g m ->
  runs (print_text fuel row col p) m (fun _ => displays m0 (overlay (row * VIDEO_BUFFER_COL + col) l f) g).
Proof.
  intros Hp Hs Hl H0 H1 Hd. unfold print_text.
  replace (video_ptr row col) with (VIDEO_BUFFER_BASE + 2 * (row * VIDEO_BUFFER_COL + col)) by cells.
  pose proof (print_loop_displays m0 p l fuel g Hp Hs 0 f m (row * VIDEO_BUFFER_COL + col)) as H.
  rewrite Z.add_0_r, Nat.sub_0_r in H. apply H; (done || lia).
Qed.

(** Lines on consecutive rows. *)
Fixpoint overlay_rows (row col : Z) (ls : list (list Z)) (f : Z -> Z) : Z -> Z :=
  match ls with
  | [] => f
  | l :: ls => overlay_rows (row + 1) col ls (overlay (row * VIDEO_BUFFER_COL + col) l f)
  end.

Lemma overlay_rows_snoc row col ls l f :
  overlay_rows row col (ls ++ [l]) f =
  overlay ((row + Z.of_nat (List.length ls)) * VIDEO_BUFFER_COL + col) l (overlay_rows row col ls f).
Proof.
  revert row f. induction ls as [|x ls IH]; intros row f; cbn [overlay_rows app List.length].
  - by rewrite Z.add_0_r.
  - rewrite IH. by replace (row + 1 + Z.of_nat (List.length ls)) with (row + Z.of_nat (S (List.length ls))) by lia.
Qed.

(** The array [banner] as the program is loaded. *)
Record banner_at (m : memory) (banner : Z) (fuel : nat) (from : Z) (ls : list (list Z)) : Prop := {
  ba_array : banner + 8 * (from + Z.of_nat (List.length ls)) <= VIDEO_BUFFER_BASE \/ WINDOW_END <= banner + 8 * from;
  ba_lines : forall i l, ls !! i = Some l -> exists p, load64 m (banner + 8 * (from + Z.of_nat i)) = p /\
    string_at m p l /\ off_screen p l /\ (List.length l < fuel)%nat /\ Z.of_nat (List.length l) <= VIDEO_BUFFER_COL }.

Lemma banner_tail m banner fuel from l ls : banner_at m banner fuel from (l :: ls) -> banner_at m banner fuel (from + 1) ls.
Proof.
  intros [Ha Hl]. split; [cbn [List.length] in Ha; lia|]. intros i x Hi.
  replace (from + 1 + Z.of_nat i) with (from + Z.of_nat (S i)) by lia. by apply (Hl (S i)).
Qed.

Definition banner_line (fuel : nat) (banner idx : Z) : M video_state unit :=
  let! text := gets (fun s => load64 (v_mem s) (banner + idx * 8)) in
  on_screen (print_text fuel (idx + 4) 15 text).

Lemma banner_loop m0 banner fuel g ls : forall from f s,
  0 <= from -> from + Z.of_nat (List.length ls) <= 20 -> banner_at m0 banner fuel from ls -> displays m0 f g (v_mem s) ->
  runs (mfor (List.length ls) from (banner_line fuel banner)) s
    (fun _ s' => displays m0 (overlay_rows (from + 4) 15 ls f) g (v_mem s') /\ v_ports s' = v_ports s).
Proof.
  induction ls as [|l ls IH]; intros from f s H0 H1 Hb Hd; cbn [List.length mfor overlay_rows] in *.
  { by apply runs_ret. }
  destruct (ba_lines _ _ _ _ _ Hb 0%nat l eq_refl) as (p & Hp & Hs & Ho & Hf & Hc). rewrite Z.add_0_r in Hp.
  assert (E : load64 (v_mem s) (banner + from * 8) = p).
  { rewrite <- Hp. replace (banner + from * 8) with (banner + 8 * from) by lia. apply load_ext. intros a Ha.
    apply (dp_frame _ _ _ _ Hd). pose proof (ba_array _ _ _ _ _ Hb). cbn [List.length] in *. lia. }
  apply runs_bind. unfold banner_line at 1. apply runs_bind, runs_gets. rewrite E.
  apply runs_zoom. eapply runs_mono; [apply (print_text_displays m0 f g) with (l := l); (done || cells)|].
  intros [] m' Hm'. eapply runs_mono; [apply IH; [lia|lia|by eapply banner_tail|exact Hm']|].
  intros [] s' [Hd' Hp']. split; [|exact Hp']. replace (from + 4 + 1) with (from + 1 + 4) by lia. done.
Qed.

(** [video_init], for the banner as it is loaded: the cursor is disabled, the 25
    rows are green on black and blank but for the ten lines of the banner in rows 4
    to 13 from column 15; the cells behind the screen and the rest of memory keep
    what they held. *)
Theorem video_init_banner (m0 : memory) (banner : Z) (fuel : nat) :
  banner_at m0 banner fuel 0 banner_text ->
  runs (video_init fuel banner) (Video m0 []) (fun _ s =>
    v_ports s = [(0x3d4, 0x0a); (0x3d5, 0x20)] /\
    displays m0 (overlay_rows 4 15 banner_text (on_25_rows 0 (text_cell m0)))
      (on_25_rows COLOR_GREEN (color_cell m0)) (v_mem s)).
Proof.
  intros Hb. unfold video_init, disable_cursor, outb. apply runs_bind, runs_bind, runs_modify, runs_modify.
  apply runs_bind, runs_zoom. cbv [update]. cbn [v_mem v_ports app].
  eapply runs_mono; [by apply set_font_color_displays, displays_start|]. intros [] m1 H1.
  apply runs_bind, runs_zoom. cbn [v_mem v_ports].
  eapply runs_mono; [by eapply reset_text_displays|]. intros [] m2 H2. cbn [v_mem v_ports].
  eapply runs_mono; [apply (banner_loop m0 banner fuel (on_25_rows COLOR_GREEN (color_cell m0)) banner_text 0); [lia|by_compute|exact Hb|exact H2]|].
  intros [] s [Hd Hp]. split; [exact Hp|exact Hd].
Qed.

Definition sample_banner : memory :=
  foldl (fun m i => store64 (store_text m (0x200000 + 64 * Z.of_nat i) (banner_text !!! i))
    (0x300000 + 8 * Z.of_nat i) (0x200000 + 64 * Z.of_nat i)) ∅ (seq 0 BANNER_LINES).

Definition banner_line_ok (i : nat) : bool :=
  let l := banner_text !!! i in let p := load64 sample_banner (0x300000 + 8 * Z.of_nat i) in
  holds_text sample_banner p l && (WINDOW_END <=? p) && (Z.of_nat (List.length l) <? 64).

Lemma sample_banner_at : banner_at sample_banner 0x300000 64 0 banner_text.
Proof.
  split; [right; by_compute|]. intros i l Hi. assert (Hlt : (i < BANNER_LINES)%nat) by exact (lookup_lt_Some _ _ _ Hi).
  assert (Hall : forallb banner_line_ok (seq 0 BANNER_LINES) = true) by (vm_compute; reflexivity).
  rewrite forallb_forall in Hall. specialize (Hall i ltac:(apply in_seq; lia)). unfold banner_line_ok in Hall. cbv zeta in Hall.
  rewrite (list_lookup_total_correct _ _ _ Hi), !andb_true_iff, Z.leb_le, Z.ltb_lt in Hall.
  destruct Hall as [[Hs Hp] Hl]. eexists. split; [reflexivity|]. rewrite Z.add_0_l.
  split; [by apply holds_text_sound|]. split; [by right|]. split; [lia|].
  unfold VIDEO_BUFFER_COL. lia.
Qed.

Lemma video_init_banner_witness : exists s, video_init 64 0x300000 (Video sample_banner []) = Ret (tt, s) /\
  text_cell (v_mem s) (11 * 80 + 22) = 67 /\ color_cell (v_mem s) 1999 = 2.
Proof.
  destruct (video_init_banner sample_banner 0x300000 64 sample_banner_at) as ([] & s & Hr & _ & Hd).
  exists s. split; [exact Hr|]. clear Hr. split.
  - rewrite (dp_text _ _ _ _ Hd) by (unfold CELLS; lia). vm_compute. reflexivity.
  - rewrite (dp_color _ _ _ _ Hd) by (unfold CELLS; lia). vm_compute. reflexivity.
Defined.

(** ** The serial line

    The registers of a 16550 that writes program: with the latch bit of the line
    control register set, ports 0 and 1 are the baud-rate divisor. *)
Record uart := Uart { divisor : Z; ier : Z; fcr : Z; lcr : Z; mcr : Z; sent : list Z }.
#[export] Instance eta_uart : Eta uart := fun u => Uart (divisor u) (ier u) (fcr u) (lcr u) (mcr u) (sent u).
Definition uart_write (u : uart) (w : Z * Z) : uart :=
  let '(port, v) := w in
  let latch := Z.testbit (lcr u) 7 in
  match port - COM1_PORT with
  | 0 => if latch then u <| divisor ::= fun d => Z.lor (Z.land d 0xff00) v |> else u <| sent ::= fun l => l ++ [v] |>
  | 1 => if latch then u <| divisor ::= fun d => Z.lor (Z.land d 0xff) (Z.shiftl v 8) |> else u <| ier := v |>
  | 2 => u <| fcr := v |>
  | 3 => u <| lcr := v |>
  | 4 => u <| mcr := v |>
  | _ => u
  end.

Lemma divisor_low d v : 0 <= v < 256 -> Z.land (Z.lor (Z.land d 0xff00) v) 0xff = v.
Proof.
  intros Hv. rewrite Z.land_lor_distr_l, <- Z.land_assoc. change (Z.land 0xff00 0xff) with 0. rewrite Z.land_0_r, Z.lor_0_l.
  change 0xff with (Z.ones 8). rewrite Z.land_ones by lia. by apply Z.mod_small.
Qed.

(** The writes, register by register. *)
Section Registers.
Context (d i f l mc v : Z) (st : list Z).
Lemma write_line : uart_write (Uart d i f l mc st) (0x3fb, v) = Uart d i f v mc st.
Proof. reflexivity. Qed.
Lemma write_fifo : uart_write (Uart d i f l mc st) (0x3fa, v) = Uart d i v l mc st.
Proof. reflexivity. Qed.
Lemma write_modem : uart_write (Uart d i f l mc st) (0x3fc, v) = Uart d i f l v st.
Proof. reflexivity. Qed.
Lemma write_interrupts : Z.testbit l 7 = false -> uart_write (Uart d i f l mc st) (0x3f9, v) = Uart d v f l mc st.
Proof. intros Hl. change (uart_write (Uart d i f l mc st) (0x3f9, v)) with
  (if Z.testbit l 7 then Uart (Z.lor (Z.land d 0xff) (Z.shiftl v 8)) i f l mc st else Uart d v f l mc st). by rewrite Hl. Qed.
Lemma write_divisor_low : uart_write (Uart d i f 0x80 mc st) (0x3f8, v) = Uart (Z.lor (Z.land d 0xff00) v) i f 0x80 mc st.
Proof. reflexivity. Qed.
Lemma write_divisor_high : uart_write (Uart d i f 0x80 mc st) (0x3f9, v) = Uart (Z.lor (Z.land d 0xff) (Z.shiftl v 8)) i f 0x80 mc st.
Proof. reflexivity. Qed.
End Registers.

(** [serial_init] on a chip whose divisor latch is closed: 115200 / 3 = 38400 baud,
    eight bits without parity and one stop bit, the FIFOs enabled and cleared,
    the receive interrupt enabled; no byte is sent. *)
Theorem serial_init_programs m u : Z.testbit (lcr u) 7 = false ->
  exists ports, serial_init (Video m []) = Ret (tt, Video m ports) /\
    foldl uart_write u ports = Uart 3 0x01 0xC7 0x03 0x0B (sent u).
Proof.
  intros Hl. exists [(0x3f9, 0x01); (0x3fb, 0x80); (0x3f8, 0x03); (0x3f9, 0x00); (0x3fb, 0x03); (0x3fa, 0xC7); (0x3fc, 0x0B)].
  split; [reflexivity|]. destruct u as [d i f l mc st]. cbn [foldl sent]. cbn [lcr] in Hl.
  rewrite write_interrupts by exact Hl.
  rewrite write_line, write_divisor_low, write_divisor_high, write_line, write_fifo, write_modem.
  by rewrite divisor_low by lia.
Qed.
