(* ===== verification/PhysicalMemory.v ===== *)
(** * PhysicalMemory: [memory/physical_memory.c].

    The boot-time memory map, the page bitmap and the bump allocator every
    other component takes its 4 KiB pages from. *)
From Stdlib Require Import ZArith Lia.
From stdpp Require Import base tactics list numbers gmap sorting.
From S2P Require Import Prelude Memory.
Local Open Scope Z_scope.

Definition PAGE_SIZE_4K : Z := 0x1000.
Definition PAGE_SIZE_2M : Z := 0x200000.
Definition PAGE_MASK_4K : Z := PAGE_SIZE_4K - 1.
Definition PAGE_MASK_2M : Z := PAGE_SIZE_2M - 1.
Definition PAGE_SHIFT_4K : Z := 12.
Definition PAGE_SHIFT_2M : Z := 21.

(** [enum memory_segment_type]. *)
Definition TYPE_NORMAL : Z := 1.
Definition TYPE_RESERVED : Z := 2.

(** [struct physical_memory_segment], as read from memory. *)
Record physical_memory_segment := Segment {
  seg_address : Z; seg_length : Z; seg_type : Z; seg_reserved0 : Z }.
Definition SEGMENT_SIZE : Z := 24.
Definition read_segment (m : memory) (p : Z) : physical_memory_segment :=
  Segment (load64 m p) (load64 m (p + 8)) (load32 m (p + 16)) (load32 m (p + 20)).

(** The static variables of the file. *)
Record phys_state := Phys {
  addr_low4G : Z; addr_high4G : Z; length_low4G : Z; length_high4G : Z;
  current_avail_page : Z }.
#[export] Instance eta_phys : Eta phys_state := fun s =>
  Phys (addr_low4G s) (addr_high4G s) (length_low4G s) (length_high4G s)
       (current_avail_page s).

(** What the memory components share: physical memory, the allocator's
    variables and [memory/paging.c]'s [pml4_base]. *)
Record kernel := Kernel { k_mem : memory; k_phys : phys_state; pml4_base : Z }.
#[export] Instance eta_kernel : Eta kernel := fun k =>
  Kernel (k_mem k) (k_phys k) (pml4_base k).

Definition MEMORY_LIST_BASE : Z := 0x8400.
Definition MEMORY_LIST_LONG_MODE_BASE : Z := 0x7c00 + MEMORY_LIST_BASE.
Definition MAX_MEMORY_CAPACITY_IN_GIGABYTE : Z := 64.
Definition PAGING_BITMAP_LENGTH_IN_BYTE : Z :=
  MAX_MEMORY_CAPACITY_IN_GIGABYTE * 1024 * 1024 / 4 / 8.
Definition PAGING_BITMAP_LENGTH_IN_PAGE : Z := PAGING_BITMAP_LENGTH_IN_BYTE / 4096.

Definition address_to_byte_index (addr : Z) : Z := Z.shiftr (Z.shiftr addr 12) 3.
Definition address_to_bit_index (addr : Z) : Z := u8 (Z.land (Z.shiftr addr 12) 0x7).

(** [image_end] is the address of the linker symbol [_kernel64_image_end],
    where the bitmap lies. *)
Definition is_page_free (image_end : Z) (m : memory) (addr : Z) : bool :=
  let byte_index := address_to_byte_index addr in
  let bit_index := address_to_bit_index addr in
  if PAGING_BITMAP_LENGTH_IN_BYTE <=? byte_index then false
  else negb (truthy (Z.land (Z.shiftr (rd8 m (image_end + byte_index)) bit_index) 0x1)).

Definition mark_page_as_occupied (image_end : Z) (m : memory) (addr : Z) : memory :=
  let byte_index := address_to_byte_index addr in
  let bit_index := address_to_bit_index addr in
  wr8 m (image_end + byte_index)
      (Z.lor (rd8 m (image_end + byte_index)) (Z.shiftl 1 bit_index)).

(** [for (; page < base_pages_end; page += PAGE_SIZE_4K)]. *)
Fixpoint mark_base_pages (fuel : nat) (image_end base_pages_end page : Z)
    : M kernel unit :=
  if page <? base_pages_end then
    match fuel with
    | O => stop OutOfFuel
    | S k =>
        modify (fun s => s <| k_mem ::= fun m => mark_page_as_occupied image_end m page |>) ;;;
        let! m := gets k_mem in
        assert (negb (is_page_free image_end m page)) ;;;
        mark_base_pages k image_end base_pages_end (u64 (page + PAGE_SIZE_4K))
    end
  else ret tt.

Definition base_pages_end (image_end : Z) : Z :=
  u64 (PAGING_BITMAP_LENGTH_IN_PAGE * PAGE_SIZE_4K + image_end).

(** Iterations the marking loop needs. *)
Definition base_pages_fuel (image_end : Z) : nat :=
  Z.to_nat ((base_pages_end image_end + PAGE_SIZE_4K - 1) / PAGE_SIZE_4K).

Definition physical_page_bitmap_init (image_end : Z) : M kernel unit :=
  modify (fun s => s <| k_mem ::= fun m =>
    memset m image_end 0x0 PAGING_BITMAP_LENGTH_IN_BYTE |>) ;;;
  let last := base_pages_end image_end in
  mark_base_pages (base_pages_fuel image_end) image_end last 0 ;;;
  modify (fun s => s <| k_phys ::= fun p =>
    p <| current_avail_page := u64 (last + PAGE_SIZE_4K) |> |>).

(** The macro [PHYSICAL_PAGE_VALID]. *)
Definition PHYSICAL_PAGE_VALID (p : phys_state) (addr : Z) : bool :=
  ((addr_low4G p <=? addr) && (addr <? u64 (addr_low4G p + length_low4G p))) ||
  ((addr_high4G p <=? addr) && (addr <? u64 (addr_high4G p + length_high4G p))).

Definition get_physical_pages (nr_pages : Z) : M kernel Z :=
  let! p := gets k_phys in
  let first_page := current_avail_page p in
  let last_page := u64 (current_avail_page p + s32 (PAGE_SIZE_4K * (nr_pages - 1))) in
  assert (0 <? nr_pages) ;;;
  if negb (PHYSICAL_PAGE_VALID p first_page) || negb (PHYSICAL_PAGE_VALID p last_page)
  then ret 0
  else
    let next_page := u64 (current_avail_page p + s32 (PAGE_SIZE_4K * nr_pages)) in
    let next_page :=
      if negb (PHYSICAL_PAGE_VALID p next_page) && (next_page <? addr_high4G p)
      then addr_high4G p else next_page in
    modify (fun s => s <| k_phys ::= fun p => p <| current_avail_page := next_page |> |>) ;;;
    ret first_page.

Definition get_physical_page : M kernel Z := get_physical_pages 1.

(** One segment of the memory list. *)
Definition detect_segment (seg : physical_memory_segment) (p : phys_state) : phys_state :=
  if negb (seg_type seg =? TYPE_NORMAL) then p
  else if seg_address seg =? 0x100000 then
    p <| addr_low4G := seg_address seg |> <| length_low4G := seg_length seg |>
  else if 0x100000000 <=? seg_address seg then
    p <| addr_high4G := seg_address seg |> <| length_high4G := seg_length seg |>
  else p.

(** [for (; seg->length; seg = seg + 1)]; [fuel] bounds the list's length. *)
Fixpoint detect_memory (fuel : nat) (seg : Z) : M kernel unit :=
  let! m := gets k_mem in
  let s := read_segment m seg in
  if truthy (seg_length s) then
    match fuel with
    | O => stop OutOfFuel
    | S k =>
        modify (fun st => st <| k_phys ::= detect_segment s |>) ;;;
        detect_memory k (seg + SEGMENT_SIZE)
    end
  else ret tt.

(** The bootloader stores the list in one 4 KiB page. *)
Definition memory_list_fuel : nat := 171.

Definition physical_memory_init (image_end : Z) : M kernel unit :=
  detect_memory memory_list_fuel MEMORY_LIST_LONG_MODE_BASE ;;;
  physical_page_bitmap_init image_end.

(** ** The allocator *)

(** Physical addresses below [2^40] are the ones an EPT entry can hold; the
    kernel supports 64 GiB. *)
Definition PHYS_LIMIT : Z := 2 ^ 40.

Definition phys_ok (p : phys_state) : Prop :=
  0 <= addr_low4G p /\ 0 <= length_low4G p /\
  addr_low4G p + length_low4G p <= PHYS_LIMIT - PAGE_SIZE_4K /\
  0 <= addr_high4G p /\ 0 <= length_high4G p /\
  addr_high4G p + length_high4G p <= PHYS_LIMIT - PAGE_SIZE_4K /\
  addr_high4G p mod PAGE_SIZE_4K = 0 /\
  current_avail_page p mod PAGE_SIZE_4K = 0 /\
  PAGE_SIZE_4K <= current_avail_page p < 2 ^ 63.

Definition segment_page (p : phys_state) (a : Z) : Prop :=
  addr_low4G p <= a < addr_low4G p + length_low4G p \/
  addr_high4G p <= a < addr_high4G p + length_high4G p.

Ltac unfold_consts :=
  unfold PHYS_LIMIT, PAGE_SIZE_4K, PAGE_SIZE_2M, PAGE_MASK_4K, PAGE_MASK_2M,
    PAGE_SHIFT_4K, PAGE_SHIFT_2M in *.

Lemma page_valid_spec p a : phys_ok p -> PHYSICAL_PAGE_VALID p a = true <-> segment_page p a.
Proof.
  intros H. unfold phys_ok in H. unfold PHYSICAL_PAGE_VALID, segment_page. unfold_consts.
  rewrite !u64_small by lia. lia.
Qed.

(** The whole behaviour of [get_physical_pages] on a request of a positive
    number of pages that does not overflow [int]. *)
Lemma get_physical_pages_run n s :
  phys_ok (k_phys s) -> 0 < n < 2 ^ 19 ->
  let p := k_phys s in
  let first := current_avail_page p in
  let last := first + PAGE_SIZE_4K * (n - 1) in
  (get_physical_pages n s = Ret (0, s) /\ ~ (segment_page p first /\ segment_page p last)) \/
  (exists next,
     get_physical_pages n s =
       Ret (first, s <| k_phys ::= fun p => p <| current_avail_page := next |> |>) /\
     segment_page p first /\ segment_page p last /\
     first + PAGE_SIZE_4K * n <= next /\
     phys_ok (p <| current_avail_page := next |>)).
Proof.
  destruct s as [m p b]. cbn [k_phys]. intros Hok Hn.
  set (first := current_avail_page p). set (last := first + _).
  assert (Hc : 0 <= first < 2 ^ 63) by (unfold phys_ok in Hok; unfold_consts; lia).
  unfold get_physical_pages. mstep. cbn [k_phys].
  destruct (Z.ltb_spec 0 n) as [_|]; [|lia].
  unfold_consts. rewrite !s32_small by lia. rewrite (u64_small (_ + _ * (n - 1))) by lia.
  fold first. fold last.
  destruct (PHYSICAL_PAGE_VALID p first) eqn:E1; cycle 1.
  { left. cbn. split; [done|]. rewrite <- !page_valid_spec by done. intros []; congruence. }
  destruct (PHYSICAL_PAGE_VALID p last) eqn:E2; cycle 1.
  { left. cbn. split; [done|]. rewrite <- !page_valid_spec by done. intros []; congruence. }
  right. cbn -[u64]. eexists. split; [reflexivity|].
  rewrite page_valid_spec in E1, E2 by done. split; [done|]. split; [done|].
  rewrite u64_small by lia.
  unfold phys_ok in Hok |- *. cbv [update]. cbn. unfold_consts.
  unfold segment_page in E1, E2. subst last.
  destruct (negb _ && _) eqn:E3.
  - apply andb_true_iff in E3 as [_ E3]. apply Z.ltb_lt in E3. lia.
  - split; [lia|]. repeat split; try lia; try zdiv.
Qed.

Lemma get_physical_page_room s : phys_ok (k_phys s) ->
  addr_low4G (k_phys s) <= current_avail_page (k_phys s) ->
  current_avail_page (k_phys s) + 2 * PAGE_SIZE_4K <=
    addr_low4G (k_phys s) + length_low4G (k_phys s) ->
  get_physical_pages 1 s = Ret (current_avail_page (k_phys s), s <| k_phys ::= fun p =>
    p <| current_avail_page := current_avail_page p + PAGE_SIZE_4K |> |>).
Proof.
  destruct s as [m p b]. cbn [k_phys]. intros Hok H1 H2.
  assert (Hv : forall a, addr_low4G p <= a < addr_low4G p + length_low4G p ->
            PHYSICAL_PAGE_VALID p a = true).
  { intros a Ha. apply page_valid_spec; [done|]. by left. }
  unfold get_physical_pages. mstep. cbn [k_phys]. unfold phys_ok in Hok.
  change (s32 (PAGE_SIZE_4K * (1 - 1))) with 0. change (s32 (PAGE_SIZE_4K * 1)) with PAGE_SIZE_4K.
  rewrite Z.add_0_r, !u64_small by (unfold_consts; lia).
  rewrite !Hv by (unfold_consts; lia). cbv [update]. reflexivity.
Qed.

(** What the page-table code relies on: a source of zeroable pages that hands
    out increasing, page-aligned, non-null addresses and touches nothing but
    its own variables. [mark] is the first address not handed out yet. With
    [room] for two pages in the low segment a request succeeds and moves the
    mark by one page. *)
Definition room (s : kernel) : Prop :=
  addr_low4G (k_phys s) <= current_avail_page (k_phys s) /\
  current_avail_page (k_phys s) + 2 * PAGE_SIZE_4K <=
    addr_low4G (k_phys s) + length_low4G (k_phys s).

Class PageSource (get : M kernel Z) (ok : kernel -> Prop) (mark : kernel -> Z) := {
  page_source_run : forall s, ok s ->
    get s = Ret (0, s) \/
    exists s', get s = Ret (mark s, s') /\ k_mem s' = k_mem s /\
      pml4_base s' = pml4_base s /\ ok s' /\
      mark s mod PAGE_SIZE_4K = 0 /\ PAGE_SIZE_4K <= mark s /\
      mark s + PAGE_SIZE_4K <= mark s' /\ mark s + PAGE_SIZE_4K <= PHYS_LIMIT;
  page_source_room : forall s, ok s -> room s ->
    exists s', get s = Ret (mark s, s') /\
      k_phys s' = (k_phys s) <| current_avail_page := mark s + PAGE_SIZE_4K |>;
  page_source_local : forall s s', k_phys s' = k_phys s -> ok s ->
    ok s' /\ mark s' = mark s }.

Definition kernel_ok (s : kernel) : Prop := phys_ok (k_phys s).
Definition next_page (s : kernel) : Z := current_avail_page (k_phys s).

#[export] Instance physical_page_source : PageSource get_physical_page kernel_ok next_page.
Proof.
  split.
  - intros s Hok.
    destruct (get_physical_pages_run 1 s Hok ltac:(lia)) as [[H _]|(next&H&Hf&_&Hn&Hok')].
    + by left.
    + right. unfold get_physical_page, next_page. rewrite H.
      eexists. split; [reflexivity|]. cbv [update]. cbn.
      unfold kernel_ok, phys_ok, segment_page in *. unfold_consts. cbn in *.
      repeat split; try (by destruct_and!); lia.
  - intros s Hok [Hr1 Hr2]. unfold get_physical_page. rewrite get_physical_page_room by done.
    eexists. split; [reflexivity|]. by destruct s.
  - intros s s' E. unfold kernel_ok, next_page. by rewrite E.
Qed.

(** A sequence of requests; the result pairs each request with its answer. *)
Fixpoint alloc_seq (requests : list Z) : M kernel (list (Z * Z)) :=
  match requests with
  | [] => ret []
  | n :: ns =>
      let! a := get_physical_pages n in
      let! rest := alloc_seq ns in
      ret ((a, n) :: rest)
  end.

Definition request_ok (n : Z) : Prop := 0 < n < 2 ^ 19.

Lemma alloc_seq_run ns s :
  phys_ok (k_phys s) -> Forall request_ok ns ->
  exists rs s', alloc_seq ns s = Ret (rs, s') /\ k_mem s' = k_mem s /\
    phys_ok (k_phys s') /\ next_page s <= next_page s' /\
    Forall (fun '(a, n) => a <> 0 -> next_page s <= a /\ a + PAGE_SIZE_4K * n <= next_page s' /\
       a mod PAGE_SIZE_4K = 0) rs /\
    StronglySorted (fun x y => x.1 <> 0 -> y.1 <> 0 -> x.1 + PAGE_SIZE_4K * x.2 <= y.1) rs.
Proof.
  intros Hok Hns. revert s Hok. induction Hns as [|n ns Hn Hns IH]; intros s Hok.
  { exists [], s. cbn. split_and!; try done; try lia; constructor. }
  cbn [alloc_seq]. unfold next_page.
  destruct (get_physical_pages_run n s Hok Hn) as [[H _]|(next&H&Hf&Hl&Hnx&Hok')].
  - destruct (IH s Hok) as (rs&s'&Hr&Hm&Ho&Hle&Hall&Hss). unfold next_page in *.
    run_with H. run_with Hr.
    exists ((0, n) :: rs), s'. split; [done|]. do 3 (split; [done|]). split.
    + constructor; [by intros []|done].
    + constructor; [done|]. apply Forall_forall. by intros x _ [].
  - set (s1 := s <| k_phys ::= _ |>) in H.
    destruct (IH s1 Hok') as (rs&s'&Hr&Hm&Ho&Hle&Hall&Hss).
    run_with H. run_with Hr. eexists _, s'. split; [reflexivity|].
    assert (E : next_page s1 = next) by reflexivity. rewrite E in *. clear E.
    unfold next_page in *. unfold request_ok, phys_ok in *. unfold_consts.
    split; [done|]. split; [done|]. split; [lia|]. split.
    + constructor; [lia|]. eapply Forall_impl; [done|]. intros [a k] Ha Hz.
      specialize (Ha Hz). lia.
    + constructor; [done|]. eapply Forall_impl; [done|]. intros [a k] Ha. cbn.
      intros Hz Hz'. specialize (Ha Hz'). lia.
Qed.

(** ** The page bitmap *)
Lemma byte_index_spec a : address_to_byte_index a = a / 2 ^ 15.
Proof.
  unfold address_to_byte_index. rewrite !Z.shiftr_div_pow2, Z.div_div by lia. done.
Qed.

Lemma bit_index_spec a : address_to_bit_index a = (a / 2 ^ 12) mod 8.
Proof.
  unfold address_to_bit_index. rewrite Z.shiftr_div_pow2 by lia.
  change 0x7 with (Z.ones 3). rewrite Z.land_ones by lia.
  change (2 ^ 3) with 8. apply u8_small. zdiv.
Qed.

Lemma land_shiftr_1 x n : 0 <= n -> truthy (Z.land (Z.shiftr x n) 0x1) = Z.testbit x n.
Proof.
  intros Hn. change 0x1 with (Z.ones 1). rewrite Z.land_ones by lia.
  change (2 ^ 1) with 2. rewrite <- Z.bit0_mod, Z.shiftr_spec, Z.add_0_l by lia.
  by destruct (Z.testbit x n).
Qed.

(** The bitmap covers the first 64 GiB. *)
Definition BITMAP_LIMIT : Z := 2 ^ 36.

Lemma is_page_free_bit e m a : 0 <= a < BITMAP_LIMIT ->
  is_page_free e m a = negb (Z.testbit (rd8 m (e + a / 2 ^ 15)) ((a / 2 ^ 12) mod 8)).
Proof.
  intros Ha. unfold BITMAP_LIMIT in Ha. unfold is_page_free.
  rewrite byte_index_spec, bit_index_spec.
  destruct (Z.leb_spec PAGING_BITMAP_LENGTH_IN_BYTE (a / 2 ^ 15)) as [H|_].
  { change PAGING_BITMAP_LENGTH_IN_BYTE with (2 ^ 21) in H. exfalso. zdiv. }
  rewrite land_shiftr_1; [done|]. apply Z.mod_pos_bound. lia.
Qed.

Lemma is_page_free_mark e m p a :
  0 <= p < BITMAP_LIMIT -> 0 <= a < BITMAP_LIMIT ->
  is_page_free e (mark_page_as_occupied e m p) a =
  is_page_free e m a && negb (bool_decide (a / PAGE_SIZE_4K = p / PAGE_SIZE_4K)).
Proof.
  intros Hp Ha. rewrite !is_page_free_bit by done. rewrite <- negb_orb. f_equal.
  unfold mark_page_as_occupied. rewrite byte_index_spec, bit_index_spec, rd8_wr8.
  unfold_consts. change 0x1000 with (2 ^ 12).
  pose proof (Z.mod_pos_bound (p / 2 ^ 12) 8 ltac:(lia)) as Hb.
  pose proof (Z.mod_pos_bound (a / 2 ^ 12) 8 ltac:(lia)) as Hb'.
  case_decide as E.
  - unfold u8. rewrite testbit_wrap, Z.lor_spec, Z.shiftl_1_l, Z.pow2_bits_eqb by lia.
    destruct (Z.ltb_spec ((a / 2 ^ 12) mod 8) 8); [|lia]. cbn [andb].
    replace (e + a / 2 ^ 15) with (e + p / 2 ^ 15) by lia. f_equal.
    apply eq_bool_prop_intro. rewrite bool_decide_spec, Is_true_true, Z.eqb_eq.
    split; intros; zdiv.
  - rewrite bool_decide_eq_false_2, orb_false_r; [done|]. intros H. apply E. f_equal. zdiv.
Qed.

Lemma is_page_free_marked e m p :
  0 <= p < BITMAP_LIMIT -> is_page_free e (mark_page_as_occupied e m p) p = false.
Proof.
  intros Hp. rewrite is_page_free_mark by done.
  by rewrite bool_decide_eq_true_2, andb_false_r.
Qed.

(** Memory outside the bitmap's 2 MiB is unchanged. *)
Definition outside_bitmap (e : Z) (m m' : memory) : Prop :=
  forall b, b < e \/ e + 2 ^ 21 <= b -> rd8 m' b = rd8 m b.

Lemma mark_page_out e m p : 0 <= p < BITMAP_LIMIT -> outside_bitmap e m (mark_page_as_occupied e m p).
Proof.
  intros Hp b Hb. unfold mark_page_as_occupied. rewrite byte_index_spec. apply rd8_wr8_ne.
  unfold BITMAP_LIMIT in Hp. zdiv.
Qed.

Lemma mark_base_pages_run fuel e last k s :
  0 <= k -> last <= BITMAP_LIMIT -> last mod PAGE_SIZE_4K = 0 ->
  last <= PAGE_SIZE_4K * (k + Z.of_nat fuel) ->
  exists m', mark_base_pages fuel e last (PAGE_SIZE_4K * k) s = Ret (tt, s <| k_mem := m' |>) /\
    (forall a, 0 <= a < BITMAP_LIMIT ->
      is_page_free e m' a =
      is_page_free e (k_mem s) a && negb ((PAGE_SIZE_4K * k <=? a) && (a <? last))) /\
    outside_bitmap e (k_mem s) m'.
Proof.
  revert k s. induction fuel as [|fuel IH]; intros k s Hk Hl Hal Hf; cbn [mark_base_pages].
  - destruct (Z.ltb_spec (PAGE_SIZE_4K * k) last); [unfold_consts; lia|].
    exists (k_mem s). split; [by destruct s|]. split; [|by intros b]. intros a Ha. unfold_consts.
    replace ((0x1000 * k <=? a) && (a <? last)) with false by lia. by rewrite andb_true_r.
  - destruct (Z.ltb_spec (PAGE_SIZE_4K * k) last) as [Hlt|Hge].
    + set (m1 := mark_page_as_occupied e (k_mem s) (PAGE_SIZE_4K * k)).
      set (s1 := s <| k_mem := m1 |>).
      assert (Hb : 0 <= PAGE_SIZE_4K * k < BITMAP_LIMIT) by (unfold_consts; lia).
      assert (Hu : u64 (PAGE_SIZE_4K * k + PAGE_SIZE_4K) = PAGE_SIZE_4K * (k + 1)).
      { unfold BITMAP_LIMIT in *. unfold_consts. rewrite u64_small; lia. }
      destruct (IH (k + 1) s1) as (m'&Hr&Hfree&Hout); [lia|done|done|lia|].
      exists m'. split.
      * etransitivity; [|exact Hr]. rewrite <- Hu. mstep. cbv [update]. cbn [k_mem].
        rewrite is_page_free_marked by done. reflexivity.
      * split; [|intros b Ho; rewrite Hout by done; by apply mark_page_out]. intros a Ha. rewrite Hfree by done. cbn [k_mem]. unfold s1, m1. cbv [update]. cbn [k_mem].
        rewrite is_page_free_mark by done. rewrite <- andb_assoc. f_equal.
        rewrite <- negb_orb. f_equal. apply eq_bool_prop_intro.
        rewrite orb_True, bool_decide_spec, !Is_true_true, !andb_true_iff.
        rewrite !Z.leb_le, !Z.ltb_lt. unfold_consts. split; intros; zdiv.
    + exists (k_mem s). split; [by destruct s|]. split; [|by intros b]. intros a Ha. unfold_consts.
      replace ((0x1000 * k <=? a) && (a <? last)) with false by lia. by rewrite andb_true_r.
Qed.

Lemma base_pages_end_spec e : 0 <= e < 2 ^ 35 -> base_pages_end e = e + 2 ^ 21.
Proof.
  intros. unfold base_pages_end.
  change (PAGING_BITMAP_LENGTH_IN_PAGE * PAGE_SIZE_4K) with (2 ^ 21).
  rewrite u64_small; lia.
Qed.

(** ** The memory list *)

(** The segments of a list of [n] entries followed by an empty one. *)
Fixpoint segments (n : nat) (m : memory) (p : Z) : list physical_memory_segment :=
  match n with
  | O => []
  | S k => read_segment m p :: segments k m (p + SEGMENT_SIZE)
  end.
Fixpoint memory_list (n : nat) (m : memory) (p : Z) : Prop :=
  match n with
  | O => seg_length (read_segment m p) = 0
  | S k => seg_length (read_segment m p) <> 0 /\ memory_list k m (p + SEGMENT_SIZE)
  end.

Lemma detect_memory_run n fuel p s :
  memory_list n (k_mem s) p -> (n <= fuel)%nat ->
  detect_memory fuel p s =
  Ret (tt, s <| k_phys ::= fun ph => fold_left (fun ph sg => detect_segment sg ph)
                                       (segments n (k_mem s) p) ph |>).
Proof.
  revert fuel p s. induction n as [|n IH]; intros fuel p s Hl Hf.
  - cbn [memory_list] in Hl. destruct fuel; cbn [detect_memory]; mstep; rewrite Hl; by destruct s.
  - destruct Hl as [Hne Hl]. destruct fuel as [|fuel]; [lia|].
    cbn [detect_memory]. mstep. apply truthy_true in Hne. rewrite Hne.
    etransitivity; [apply (IH fuel); [exact Hl|lia]|]. reflexivity.
Qed.

(** What the list means, entry by entry: [l] holds base, length and type of each
    segment, and the first of length 0 ends it. *)
Fixpoint lists (m : memory) (p : Z) (l : list (Z * Z * Z)) : Prop :=
  match l with
  | [] => load64 m (p + 8) = 0
  | (base, len, type) :: l' =>
      load64 m p = base /\ load64 m (p + 8) = len /\ load32 m (p + 16) = type /\ len <> 0 /\
      lists m (p + 24) l'
  end.

(** Base and length of the last usable segment (type 1) whose base satisfies [P]. *)
Definition usable_last (P : Z -> bool) (l : list (Z * Z * Z)) (old : Z * Z) : Z * Z :=
  match last (List.filter (fun '(base, _, type) => (type =? 1) && P base) l) with
  | Some (base, len, _) => (base, len)
  | None => old
  end.

Lemma lists_segments m l : forall p, lists m p l ->
  memory_list (List.length l) m p /\
  map (fun sg => (seg_address sg, seg_length sg, seg_type sg)) (segments (List.length l) m p) = l.
Proof.
  induction l as [|[[base len] type] l IH]; intros p H; cbn [List.length memory_list segments map].
  - done.
  - destruct H as (Hb & Hl & Ht & Hne & H). destruct (IH _ H) as [Hm Hs].
    change (p + 24) with (p + SEGMENT_SIZE) in *. cbn [read_segment seg_address seg_length seg_type].
    split; [split; [congruence|done]|]. rewrite Hs. congruence.
Qed.

Lemma usable_last_snoc P l base len type old :
  usable_last P (l ++ [(base, len, type)]) old =
  if (type =? 1) && P base then (base, len) else usable_last P l old.
Proof.
  unfold usable_last. rewrite List.filter_app. cbn [List.filter].
  destruct ((type =? 1) && P base); [by rewrite last_snoc | by rewrite app_nil_r].
Qed.

(** The loop's effect on the recorded segments. *)
Lemma detect_segments_last segs p :
  let l := map (fun sg => (seg_address sg, seg_length sg, seg_type sg)) segs in
  let p' := fold_left (fun p seg => detect_segment seg p) segs p in
  (addr_low4G p', length_low4G p') =
    usable_last (fun base => base =? 0x100000) l (addr_low4G p, length_low4G p) /\
  (addr_high4G p', length_high4G p') =
    usable_last (fun base => 2 ^ 32 <=? base) l (addr_high4G p, length_high4G p).
Proof.
  induction segs as [|sg segs IH] using rev_ind; [done|]. cbn zeta in *.
  rewrite map_app, fold_left_app. cbn [map fold_left]. rewrite !usable_last_snoc.
  destruct IH as [<- <-]. set (q := fold_left _ segs p). unfold detect_segment.
  change TYPE_NORMAL with 1. change (2 ^ 32) with 0x100000000.
  destruct (seg_type sg =? 1); cbn [negb andb]; [|done].
  destruct (Z.eqb_spec (seg_address sg) 0x100000) as [->|_]; [done|].
  destruct (0x100000000 <=? seg_address sg); done.
Qed.

Lemma is_page_free_zeroed e m a : 0 <= a < BITMAP_LIMIT ->
  is_page_free e (memset m e 0x0 PAGING_BITMAP_LENGTH_IN_BYTE) a = true.
Proof.
  intros Ha. rewrite is_page_free_bit by done.
  change PAGING_BITMAP_LENGTH_IN_BYTE with (2 ^ 21).
  rewrite rd8_memset by lia. unfold BITMAP_LIMIT in Ha. rewrite decide_True by zdiv.
  by rewrite Z.bits_0.
Qed.

Lemma physical_page_bitmap_init_run e s :
  0 <= e < 2 ^ 35 -> e mod PAGE_SIZE_4K = 0 ->
  exists m', physical_page_bitmap_init e s =
    Ret (tt, Kernel m' ((k_phys s) <| current_avail_page := e + 2 ^ 21 + PAGE_SIZE_4K |>)
               (pml4_base s)) /\
    (forall a, 0 <= a < BITMAP_LIMIT -> is_page_free e m' a = negb (a <? e + 2 ^ 21)) /\
    outside_bitmap e (k_mem s) m'.
Proof.
  intros He Hal. unfold physical_page_bitmap_init. rewrite (bind_run _ _ _ _ _ eq_refl).
  set (s1 := s <| k_mem ::= _ |>). rewrite base_pages_end_spec by done.
  destruct (mark_base_pages_run (base_pages_fuel e) e (e + 2 ^ 21) 0 s1) as (m'&Hr&Hfree&Hout).
  - lia.
  - unfold BITMAP_LIMIT. lia.
  - unfold_consts. zdiv.
  - unfold base_pages_fuel. rewrite base_pages_end_spec by done. unfold_consts. zdiv.
  - run_with Hr. exists m'. split.
    + mstep. cbv [update]. cbn. rewrite u64_small by (unfold_consts; lia). done.
    + split; [|intros b Hb; rewrite Hout by done; subst s1; cbv [update]; cbn [k_mem];
        rewrite rd8_memset by (vm_compute; intuition congruence); by rewrite decide_False by (change PAGING_BITMAP_LENGTH_IN_BYTE with (2 ^ 21); lia)].
      intros a Ha. rewrite Hfree by done. subst s1. cbv [update]. cbn [k_mem].
      rewrite is_page_free_zeroed by done. cbn [andb]. f_equal. unfold_consts. lia.
Qed.

Lemma physical_memory_init_run n image_end s :
  memory_list n (k_mem s) MEMORY_LIST_LONG_MODE_BASE -> (n <= 171)%nat ->
  0 <= image_end < 2 ^ 35 -> image_end mod PAGE_SIZE_4K = 0 ->
  exists m', physical_memory_init image_end s = Ret (tt, Kernel m'
      ((fold_left (fun p seg => detect_segment seg p)
         (segments n (k_mem s) MEMORY_LIST_LONG_MODE_BASE) (k_phys s))
       <| current_avail_page := image_end + 2 ^ 21 + PAGE_SIZE_4K |>) (pml4_base s)) /\
    (forall a, 0 <= a < BITMAP_LIMIT -> is_page_free image_end m' a = negb (a <? image_end + 2 ^ 21)) /\
    outside_bitmap image_end (k_mem s) m'.
Proof.
  intros Hl Hn He Hal. unfold physical_memory_init.
  rewrite (bind_run _ _ _ _ _ (detect_memory_run n memory_list_fuel _ s Hl Hn)). cbv beta.
  set (s1 := s <| k_phys ::= _ |>).
  destruct (physical_page_bitmap_init_run image_end s1 He Hal) as (m'&Hr&Hfree&Hout).
  exists m'. split; [exact Hr|]. by split.
Qed.

(** ** Properties *)

(** C16 Any sequence of page requests runs to completion (it never halts the
    machine), leaves memory untouched and keeps the allocator's invariant; every
    non-null answer is page aligned, and the blocks handed out by different
    requests never overlap: each starts at or above the end of every earlier one. *)
Theorem page_allocations_disjoint (requests : list Z) (s : kernel) :
  phys_ok (k_phys s) -> Forall request_ok requests ->
  exists answers s',
    alloc_seq requests s = Ret (answers, s') /\ k_mem s' = k_mem s /\
    phys_ok (k_phys s') /\
    Forall (fun '(a, n) => a <> 0 -> a mod PAGE_SIZE_4K = 0) answers /\
    forall i j a n b k, (i < j)%nat -> answers !! i = Some (a, n) -> answers !! j = Some (b, k) ->
      a <> 0 -> b <> 0 -> a + PAGE_SIZE_4K * n <= b.
Proof.
  intros Hok Hreq. destruct (alloc_seq_run requests s Hok Hreq)
    as (rs&s'&Hr&Hm&Hok'&_&Hall&Hss).
  exists rs, s'. do 3 (split; [done|]). split.
  - eapply Forall_impl; [done|]. intros [a n] H Hz. by apply H.
  - clear Hall Hr. intros i j a n b k Hij Hi Hj. revert i j Hij Hi Hj.
    induction Hss as [|x l Hl IH Hx]; intros [|i] [|j] Hij Hi Hj; try done; try lia; cbn in *.
    + injection Hi as ->. rewrite Forall_lookup in Hx. exact (Hx j (b, k) Hj).
    + apply (IH i j); [lia|done|done].
Qed.

Definition sample_phys : phys_state := Phys 0x100000 0 0x7ff00000 0 0x601000.
Definition sample_kernel : kernel := Kernel ∅ sample_phys 0.

Lemma page_allocations_disjoint_witness :
  exists answers s', alloc_seq [1; 8; 1024] sample_kernel = Ret (answers, s') /\
    answers = [(0x601000, 1); (0x602000, 8); (0x60a000, 1024)] /\
    k_mem s' = k_mem sample_kernel.
Proof.
  destruct (page_allocations_disjoint [1; 8; 1024] sample_kernel) as (rs & s' & H & Hm & _).
  - by_compute.
  - unfold request_ok. repeat constructor; lia.
  - exists rs, s'. vm_compute in H. injection H as <- <-. repeat split.
Defined.

(** [get_physical_pages] on every branch: it answers 0 and changes nothing
    exactly when the first or the last requested page lies in no detected
    segment; otherwise it answers the old [current_avail_page] and moves it past
    the block. In particular a one-page request succeeds exactly when the
    current page lies in a segment. *)
Theorem get_physical_pages_spec (n : Z) (s : kernel) :
  phys_ok (k_phys s) -> request_ok n ->
  let p := k_phys s in
  let first := current_avail_page p in
  let last := first + PAGE_SIZE_4K * (n - 1) in
  exists a s', get_physical_pages n s = Ret (a, s') /\ k_mem s' = k_mem s /\
    phys_ok (k_phys s') /\
    (a = 0 <-> ~ (segment_page p first /\ segment_page p last)) /\
    (a = 0 -> s' = s) /\
    (a <> 0 -> a = first /\ first + PAGE_SIZE_4K * n <= current_avail_page (k_phys s')).
Proof.
  intros Hok Hn p first last.
  destruct (get_physical_pages_run n s Hok Hn) as [[H Hno]|(next&H&Hf&Hl&Hnx&Hok')].
  - exists 0, s. split_and!; done.
  - assert (first <> 0) by (unfold phys_ok in Hok; unfold_consts; subst first p; lia).
    eexists _, _. split; [exact H|]. split_and!; try done.
    split; [done|]. intros Hno. exfalso. by apply Hno.
Qed.

Lemma get_physical_pages_spec_witness :
  get_physical_pages 8 sample_kernel =
    Ret (0x601000, Kernel ∅ (sample_phys <| current_avail_page := 0x609000 |>) 0) /\
  0x601000 + PAGE_SIZE_4K * 8 <= 0x609000.
Proof.
  destruct (get_physical_pages_spec 8 sample_kernel) as (a & s' & H & _ & _ & _ & _ & Hnz).
  - by_compute.
  - unfold request_ok. lia.
  - vm_compute in H. injection H as <- <-. split; [reflexivity|]. apply Hnz. done.
Defined.

(** C30 Boot-time memory detection: when the memory at 0x10000 lists the
    segments [l] (base, length and type of each, at most 171 of them: all that
    fit the page), [physical_memory_init] completes without a failed assertion;
    the low segment it records is the last one of type 1 at 1 MiB, the high one
    the last of type 1 at or above 4 GiB, each unchanged where there is none;
    segments of another type and at other addresses are ignored. It marks every page
    below the end of the kernel image and its bitmap as occupied, leaves every
    other page of the first 64 GiB free, writes no memory outside the bitmap and
    starts allocating one page above it. *)
Theorem physical_memory_init_spec (l : list (Z * Z * Z)) (image_end : Z) (s : kernel) :
  lists (k_mem s) 0x10000 l -> (List.length l <= 171)%nat ->
  0 <= image_end < 2 ^ 35 -> image_end mod PAGE_SIZE_4K = 0 ->
  let p := k_phys s in
  exists s', physical_memory_init image_end s = Ret (tt, s') /\
    let p' := k_phys s' in
    (addr_low4G p', length_low4G p') =
      usable_last (fun base => base =? 0x100000) l (addr_low4G p, length_low4G p) /\
    (addr_high4G p', length_high4G p') =
      usable_last (fun base => 2 ^ 32 <=? base) l (addr_high4G p, length_high4G p) /\
    current_avail_page p' = image_end + 2 ^ 21 + PAGE_SIZE_4K /\
    (forall a, 0 <= a < 64 * 2 ^ 30 ->
      is_page_free image_end (k_mem s') a = negb (a <? image_end + 2 ^ 21)) /\
    outside_bitmap image_end (k_mem s) (k_mem s').
Proof.
  intros Hl Hn He Hal p. destruct (lists_segments (k_mem s) l 0x10000 Hl) as [Hm Hs].
  destruct (physical_memory_init_run (List.length l) image_end s Hm Hn He Hal) as (m'&Hr&Hfree&Hout).
  destruct (detect_segments_last (segments (List.length l) (k_mem s) 0x10000) p) as (El & Eh).
  rewrite Hs in El, Eh.
  eexists. split; [exact Hr|]. split; [exact El|]. split; [exact Eh|]. by split.
Qed.

Definition store_segment (m : memory) (p base len type : Z) : memory :=
  store32 (store64 (store64 m p base) (p + 8) len) (p + 16) type.

(** The low segment [0x100000 .. 0x80000000), one at 5 GiB that is reserved and one
    above 4 GiB. *)
Definition sample_list : memory :=
  store_segment (store_segment (store_segment ∅ 0x10000 0x100000 0x7ff00000 1)
    0x10018 0x140000000 0x1000000 2) 0x10030 0x100000000 0x40000000 1.

Lemma physical_memory_init_spec_witness :
  exists s', physical_memory_init 0x400000 (Kernel sample_list (Phys 0 0 0 0 0) 0) = Ret (tt, s') /\
    k_phys s' = Phys 0x100000 0x100000000 0x7ff00000 0x40000000 0x601000 /\
    is_page_free 0x400000 (k_mem s') 0x5ff000 = false.
Proof.
  destruct (physical_memory_init_spec
      [(0x100000, 0x7ff00000, 1); (0x140000000, 0x1000000, 2); (0x100000000, 0x40000000, 1)]
      0x400000 (Kernel sample_list (Phys 0 0 0 0 0) 0)) as (s' & Hr & Hlo & Hhi & Hc & Hf & _).
  - vm_compute. intuition congruence.
  - cbn. lia.
  - lia.
  - reflexivity.
  - exists s'. split; [exact Hr|]. clear Hr. split; [|rewrite Hf by lia; reflexivity].
    destruct (k_phys s') as [al ah ll lh c]. vm_compute in Hlo, Hhi, Hc.
    injection Hlo as -> ->. injection Hhi as -> ->. by rewrite Hc.
Defined.
