(* ===== verification/Radix.v ===== *)
(** * Radix: four-level radix tables in memory.

    The kernel's page table ([memory/paging.c]) and the guest's extended page
    table ([vm_monitor/vmx_ept.c]) have one shape: 512 eight-byte entries per
    4 KiB page, four levels, 9 bits of the address per level. This file is the
    theory the two share: an ownership map that makes the pages of a table a
    tree, the walk, and what a write to one entry can and cannot change. The
    entry format is a parameter, [link]. *)
From Stdlib Require Import ZArith Lia.
From stdpp Require Import base tactics list numbers gmap.
From S2P Require Import Prelude Memory PhysicalMemory.
Local Open Scope Z_scope.

(** The macros [LEVEL_4_INDEX] .. [LEVEL_1_INDEX]. *)
Definition LEVEL_4_INDEX (addr : Z) : Z := Z.land (Z.shiftr (u64 addr) 39) 0x1ff.
Definition LEVEL_3_INDEX (addr : Z) : Z := Z.land (Z.shiftr (u64 addr) 30) 0x1ff.
Definition LEVEL_2_INDEX (addr : Z) : Z := Z.land (Z.shiftr (u64 addr) 21) 0x1ff.
Definition LEVEL_1_INDEX (addr : Z) : Z := Z.land (Z.shiftr (u64 addr) 12) 0x1ff.

(** The addresses the four levels distinguish. *)
Definition VA_LIMIT : Z := 2 ^ 48.

(** Index of an address at level [l] and the part of it above level [l]. *)
Definition index (l a : Z) : Z := (a / 2 ^ (12 + 9 * (l - 1))) mod 512.
Definition prefix (l a : Z) : Z := a / 2 ^ (12 + 9 * l).

Lemma level_index l a : 1 <= l <= 4 -> 0 <= a < VA_LIMIT ->
  Z.land (Z.shiftr (u64 a) (12 + 9 * (l - 1))) 0x1ff = index l a.
Proof.
  intros Hl Ha. unfold VA_LIMIT in Ha. rewrite u64_small by lia.
  change 0x1ff with (Z.ones 9). rewrite Z.land_ones, Z.shiftr_div_pow2 by lia. done.
Qed.
Lemma level_4_index a : 0 <= a < VA_LIMIT -> LEVEL_4_INDEX a = index 4 a.
Proof. intros Ha. exact (level_index 4 a ltac:(lia) Ha). Qed.
Lemma level_3_index a : 0 <= a < VA_LIMIT -> LEVEL_3_INDEX a = index 3 a.
Proof. intros Ha. exact (level_index 3 a ltac:(lia) Ha). Qed.
Lemma level_2_index a : 0 <= a < VA_LIMIT -> LEVEL_2_INDEX a = index 2 a.
Proof. intros Ha. exact (level_index 2 a ltac:(lia) Ha). Qed.
Lemma level_1_index a : 0 <= a < VA_LIMIT -> LEVEL_1_INDEX a = index 1 a.
Proof. intros Ha. exact (level_index 1 a ltac:(lia) Ha). Qed.

Lemma index_range l a : 0 <= index l a < 512.
Proof. apply Z.mod_pos_bound. lia. Qed.

Lemma prefix_index l a : 1 <= l <= 4 -> prefix (l - 1) a = prefix l a * 512 + index l a.
Proof.
  intros Hl. unfold prefix, index.
  replace (12 + 9 * l) with ((12 + 9 * (l - 1)) + 9) by lia.
  rewrite (Z.pow_add_r 2 _ 9), <- Z.div_div by lia.
  change (2 ^ 9) with 512. generalize (a / 2 ^ (12 + 9 * (l - 1))). intros. zdiv.
Qed.

Lemma prefix_4 a : 0 <= a < VA_LIMIT -> prefix 4 a = 0.
Proof. intros. by apply Z.div_small. Qed.

Section Radix.
(** [link l w]: the table page the entry [w] of a level-[l] table leads to. *)
Variable link : Z -> Z -> option Z.
Hypothesis link_empty : forall l, link l 0 = None.

(** The address of the entry that the walk of [a] reads after [d] steps. *)
Fixpoint slot (m : memory) (root a : Z) (d : nat) : option Z :=
  match d with
  | O => Some (root + 8 * index 4 a)
  | S k =>
      match slot m root a k with
      | Some e =>
          match link (4 - Z.of_nat k) (load64 m e) with
          | Some q => Some (q + 8 * index (4 - Z.of_nat d) a)
          | None => None
          end
      | None => None
      end
  end.

(** [T] maps the pages of the table to their level and address prefix. *)
Record tree (m : memory) (root : Z) (T : gmap Z (Z * Z)) : Prop := {
  tree_root : T !! root = Some (4, 0);
  tree_page : forall p l x, T !! p = Some (l, x) -> p mod PAGE_SIZE_4K = 0 /\ 1 <= l <= 4;
  tree_link : forall p l x i q, T !! p = Some (l, x) -> 0 <= i < 512 ->
    link l (load64 m (p + 8 * i)) = Some q -> T !! q = Some (l - 1, x * 512 + i) }.

Lemma slot_owned m root T a d e :
  tree m root T -> 0 <= a < VA_LIMIT -> (d < 4)%nat -> slot m root a d = Some e ->
  exists p, T !! p = Some (4 - Z.of_nat d, prefix (4 - Z.of_nat d) a) /\
            e = p + 8 * index (4 - Z.of_nat d) a.
Proof.
  intros Ht Ha. revert e. induction d as [|d IH]; intros e Hd He.
  - injection He as <-. exists root. rewrite Z.sub_0_r, prefix_4 by done. by destruct Ht.
  - cbn [slot] in He. destruct (slot m root a d) as [e'|] eqn:E; [|done].
    destruct (IH e' ltac:(lia) eq_refl) as (p & Hp & ->).
    destruct (link _ _) as [q|] eqn:L; [|done]. injection He as <-.
    exists q. split; [|done].
    rewrite (tree_link _ _ _ Ht _ _ _ _ _ Hp (index_range _ _) L).
    replace (4 - Z.of_nat (S d)) with (4 - Z.of_nat d - 1) by lia.
    rewrite <- prefix_index by lia. done.
Qed.

(** The addresses whose walk passes through entry [i] of a page at [(l, x)]. *)
Definition covers (l x i a : Z) : Prop := prefix (l - 1) a = x * 512 + i.

#[export] Instance covers_dec l x i a : Decision (covers l x i a).
Proof. unfold covers. apply _. Defined.

(** [m'] differs from [m], on the pages of [T], at most in entry [i] of [p]. *)
Definition same_but (T : gmap Z (Z * Z)) (p i : Z) (m m' : memory) : Prop :=
  forall q l x j, T !! q = Some (l, x) -> 0 <= j < 512 -> (q, j) <> (p, i) ->
    load64 m' (q + 8 * j) = load64 m (q + 8 * j).

(** The entries above level [l], and those of addresses [i] does not cover, are
    read as before. *)
Lemma slot_same m m' root T p l x i a d :
  tree m root T -> T !! p = Some (l, x) -> same_but T p i m m' ->
  0 <= a < VA_LIMIT -> (d < 4)%nat -> ~ covers l x i a \/ Z.of_nat d <= 4 - l ->
  slot m' root a d = slot m root a d.
Proof.
  intros Ht Hp Hs Ha. induction d as [|d IH]; intros Hd Hc; [done|].
  cbn [slot]. rewrite IH; [|lia|destruct Hc; [by left|right; lia]].
  destruct (slot m root a d) as [e|] eqn:E; [|done].
  destruct (slot_owned _ _ _ _ d _ Ht Ha ltac:(lia) E) as (q & Hq & ->).
  rewrite (Hs _ _ _ _ Hq (index_range _ _)); [done|].
  intros [= -> Hi]. rewrite Hq in Hp. injection Hp as Hl Hx.
  destruct Hc as [Hc|Hc]; [|lia]. apply Hc. unfold covers.
  rewrite <- Hl, <- Hx, <- Hi. apply prefix_index. lia.
Qed.

Lemma load_slot_same m m' root T p l x i a d e :
  tree m root T -> T !! p = Some (l, x) -> same_but T p i m m' ->
  0 <= a < VA_LIMIT -> (d < 4)%nat -> ~ covers l x i a -> slot m root a d = Some e ->
  load64 m' e = load64 m e.
Proof.
  intros Ht Hp Hs Ha Hd Hc E.
  destruct (slot_owned _ _ _ _ _ _ Ht Ha Hd E) as (q & Hq & ->).
  apply (Hs _ _ _ _ Hq (index_range _ _)). intros [= -> Hi]. rewrite Hq in Hp.
  injection Hp as Hl Hx. apply Hc. unfold covers. rewrite <- Hl, <- Hx, <- Hi.
  apply prefix_index. lia.
Qed.

(** Rewriting an entry that leads nowhere keeps the tree. *)
Lemma tree_write_leaf m m' root T p l x i :
  tree m root T -> T !! p = Some (l, x) -> 0 <= i < 512 -> same_but T p i m m' ->
  link l (load64 m' (p + 8 * i)) = None -> tree m' root T.
Proof.
  intros Ht Hp Hi Hs Hw. split; try apply Ht.
  intros q l' x' j r Hq Hj L. destruct (decide ((q, j) = (p, i))) as [[= -> ->]|Hne].
  - rewrite Hp in Hq. injection Hq as <- <-. congruence.
  - rewrite (Hs _ _ _ _ Hq Hj Hne) in L. by apply (tree_link _ _ _ Ht _ _ _ _ _ Hq Hj).
Qed.

(** Hanging a fresh zeroed page below an entry that led nowhere keeps it too. *)
Lemma tree_new_table m m' root T p l x i q :
  tree m root T -> T !! p = Some (l, x) -> 0 <= i < 512 -> 2 <= l -> T !! q = None ->
  q mod PAGE_SIZE_4K = 0 -> same_but T p i m m' ->
  (forall j, 0 <= j < 512 -> load64 m' (q + 8 * j) = 0) ->
  link l (load64 m' (p + 8 * i)) = Some q ->
  tree m' root (<[q := (l - 1, x * 512 + i)]> T).
Proof.
  intros Ht Hp Hi Hl Hq Hal Hs Hz Hw. destruct (tree_page _ _ _ Ht _ _ _ Hp) as [_ Hl4].
  split.
  - rewrite lookup_insert_ne; [apply Ht|]. intros ->.
    by rewrite (tree_root _ _ _ Ht) in Hq.
  - intros r l' x' Hr. destruct (decide (q = r)) as [<-|Hne].
    + rewrite lookup_insert_eq in Hr. injection Hr as <- <-. lia.
    + rewrite lookup_insert_ne in Hr by done. by apply (tree_page _ _ _ Ht _ _ _ Hr).
  - intros r l' x' j s Hr Hj L. destruct (decide (q = r)) as [<-|Hne].
    + rewrite Hz, link_empty in L by done. discriminate.
    + rewrite lookup_insert_ne in Hr by done.
      destruct (decide ((r, j) = (p, i))) as [[= -> ->]|Hne'].
      * rewrite Hp in Hr. injection Hr as <- <-. rewrite L in Hw. injection Hw as ->.
        apply lookup_insert_eq.
      * rewrite (Hs _ _ _ _ Hr Hj Hne') in L.
        pose proof (tree_link _ _ _ Ht _ _ _ _ _ Hr Hj L) as Hsq.
        rewrite lookup_insert_ne; [done|]. intros ->. congruence.
Qed.

(** A table whose pages all lie below [mark] does not change when memory does
    elsewhere. *)
Lemma tree_frame m m' root T :
  tree m root T ->
  (forall p l x b, T !! p = Some (l, x) -> p <= b < p + PAGE_SIZE_4K -> rd8 m' b = rd8 m b) ->
  tree m' root T /\
  forall a d, 0 <= a < VA_LIMIT -> (d < 4)%nat -> slot m' root a d = slot m root a d /\
    (forall e, slot m root a d = Some e -> load64 m' e = load64 m e).
Proof.
  intros Ht Hf.
  assert (Hld : forall p l x j, T !! p = Some (l, x) -> 0 <= j < 512 ->
    load64 m' (p + 8 * j) = load64 m (p + 8 * j)).
  { intros p l x j Hp Hj. apply load_ext. intros b Hb. apply (Hf p l x); [done|].
    unfold_consts. lia. }
  split.
  - split; try apply Ht. intros p l x i q Hp Hi L. rewrite (Hld _ _ _ _ Hp Hi) in L.
    by apply (tree_link _ _ _ Ht _ _ _ _ _ Hp Hi).
  - intros a d Ha. induction d as [|d IH]; intros Hd.
    + cbn. split; [done|]. intros e [= <-].
      apply (Hld _ _ _ _ (tree_root _ _ _ Ht) (index_range _ _)).
    + destruct (IH ltac:(lia)) as [E1 E2]. split.
      * cbn [slot]. rewrite E1. destruct (slot m root a d) as [e|] eqn:E; [|done].
        by rewrite (E2 e eq_refl).
      * intros e He. destruct (slot_owned _ _ _ _ _ _ Ht Ha Hd He) as (q & Hq & ->).
        apply (Hld _ _ _ _ Hq (index_range _ _)).
Qed.

End Radix.

(** ** More on walks *)
Section Walks.
Context (link : Z -> Z -> option Z).

Lemma index_prefix l a : index l a = prefix (l - 1) a mod 512.
Proof. reflexivity. Qed.

Lemma prefix_up k l a b : 0 <= l <= k -> prefix l a = prefix l b -> prefix k a = prefix k b.
Proof.
  intros Hkl E. unfold prefix in *.
  replace (12 + 9 * k) with ((12 + 9 * l) + 9 * (k - l)) by lia.
  rewrite (Z.pow_add_r 2 (12 + 9 * l)), <- !Z.div_div by lia. by rewrite E.
Qed.

(** Addresses that agree above a level reach the same entry of that level. *)
Lemma slot_prefix m root a b d : (d < 4)%nat ->
  prefix (3 - Z.of_nat d) a = prefix (3 - Z.of_nat d) b ->
  slot link m root a d = slot link m root b d.
Proof.
  intros Hd E. induction d as [|d IH].
  - cbn [slot]. rewrite !index_prefix. change (4 - 1) with (3 - Z.of_nat 0). by rewrite E.
  - cbn [slot]. rewrite IH; [|lia|].
    + rewrite !index_prefix. replace (4 - Z.of_nat (S d) - 1) with (3 - Z.of_nat (S d)) by lia.
      by rewrite E.
    + revert E. apply prefix_up. lia.
Qed.

Lemma slot_succ m root a d e : slot link m root a (S d) = Some e ->
  exists e' q, slot link m root a d = Some e' /\ link (4 - Z.of_nat d) (load64 m e') = Some q /\
    e = q + 8 * index (4 - Z.of_nat (S d)) a.
Proof.
  cbn [slot]. destruct (slot link m root a d) as [e'|] eqn:E; [|done].
  destruct (link _ _) as [q|] eqn:L; [|done]. intros [= <-]. by exists e', q.
Qed.

Lemma slot_step m root a d e q : slot link m root a d = Some e ->
  link (4 - Z.of_nat d) (load64 m e) = Some q ->
  slot link m root a (S d) = Some (q + 8 * index (4 - Z.of_nat (S d)) a).
Proof. intros E L. cbn [slot]. by rewrite E, L. Qed.

Lemma slot_dead m root a d e : slot link m root a d = Some e ->
  link (4 - Z.of_nat d) (load64 m e) = None -> forall k, slot link m root a (d + S k) = None.
Proof.
  intros E L k. induction k as [|k IH].
  - rewrite Nat.add_1_r. cbn [slot]. by rewrite E, L.
  - rewrite Nat.add_succ_r. cbn [slot]. by rewrite IH.
Qed.
End Walks.

(** ** Growing a table by one page *)
Section Grow.
Context (link : Z -> Z -> option Z) (link_empty : forall l, link l 0 = None).

(** A walk of [b] that reads the same entries with the same contents. *)
Definition same_walk (m m' : memory) (root b : Z) : Prop := forall k, (k < 4)%nat ->
  slot link m' root b k = slot link m root b k /\
  forall e, slot link m root b k = Some e -> load64 m' e = load64 m e.

(** [m'] is [m] with the fresh zeroed page [q] hung below the entry [e], which
    led nowhere: the walks through [e] now end in an empty entry of [q], the
    others are the same. *)
Lemma grow_table m m' root T a d e q :
  tree link m root T -> 0 <= a < VA_LIMIT -> (d < 3)%nat -> slot link m root a d = Some e ->
  T !! q = None -> q mod PAGE_SIZE_4K = 0 ->
  link (4 - Z.of_nat d) (load64 m' e) = Some q ->
  (forall b, q <= b < q + PAGE_SIZE_4K -> rd8 m' b = 0) ->
  (forall b, ~ (e <= b < e + 8) -> ~ (q <= b < q + PAGE_SIZE_4K) -> rd8 m' b = rd8 m b) ->
  tree link m' root (<[q := (3 - Z.of_nat d, prefix (3 - Z.of_nat d) a)]> T) /\
  forall b, 0 <= b < VA_LIMIT ->
    if decide (prefix (3 - Z.of_nat d) b = prefix (3 - Z.of_nat d) a) then
      slot link m root b d = Some e /\
      slot link m' root b (S d) = Some (q + 8 * index (3 - Z.of_nat d) b) /\
      load64 m' (q + 8 * index (3 - Z.of_nat d) b) = 0
    else same_walk m m' root b.
Proof.
  intros Ht Ha Hd E Hq Hal L Hz Hfr.
  destruct (slot_owned link _ _ _ _ d _ Ht Ha ltac:(lia) E) as (p & Hp & He).
  set (l := 4 - Z.of_nat d) in *. set (i := index l a) in *.
  assert (Hl : 3 - Z.of_nat d = l - 1) by lia. rewrite Hl.
  pose proof (prefix_index l a ltac:(lia)) as Hpx. fold i in Hpx.
  assert (Hs : same_but T p i m m').
  { intros r l' x' j Hr Hj Hne. apply load_ext. intros b Hb.
    destruct (tree_page _ _ _ _ Ht _ _ _ Hr) as [Hr4 _].
    destruct (tree_page _ _ _ _ Ht _ _ _ Hp) as [Hp4 _].
    assert (Hrq : r <> q) by congruence. unfold_consts.
    apply Hfr; subst e; [|zdiv]. pose proof (index_range l a). fold i in H.
    intros Hin. assert (r = p) by zdiv. subst r. apply Hne. f_equal. lia. }
  assert (Hz8 : forall j, 0 <= j < 512 -> load64 m' (q + 8 * j) = 0).
  { intros j Hj. apply load_zeros. intros b Hb. apply Hz. unfold_consts. lia. }
  split.
  - rewrite Hpx. apply (tree_new_table link link_empty m m' root T p l _ i q);
      try done; try apply index_range; try lia. by rewrite <- He.
  - intros b Hb. case_decide as Hc.
    + assert (Eb : slot link m root b d = Some e).
      { rewrite <- E. apply slot_prefix; [lia|]. by rewrite Hl. }
      split; [done|]. split; [|apply Hz8, index_range].
      rewrite <- Hl. replace (3 - Z.of_nat d) with (4 - Z.of_nat (S d)) by lia.
      apply (slot_step link _ _ _ d e); [|done].
      rewrite <- Eb. apply (slot_same link m m' root T p l (prefix l a) i); try done; try lia; right; lia.
    + assert (Hnc : ~ covers l (prefix l a) i b) by (unfold covers; congruence).
      intros k Hk. split.
      * apply (slot_same link m m' root T p l (prefix l a) i); try done. by left.
      * intros e' Ee. by apply (load_slot_same link m m' root T p l (prefix l a) i b k).
Qed.

(** Writing a last-level entry changes no slot, and the contents of that slot
    only. *)
Lemma write_leaf m m' root T a e :
  tree link m root T -> 0 <= a < VA_LIMIT -> slot link m root a 3 = Some e ->
  link 1 (load64 m' e) = None -> (forall b, ~ (e <= b < e + 8) -> rd8 m' b = rd8 m b) ->
  tree link m' root T /\
  forall b, 0 <= b < VA_LIMIT ->
    if decide (prefix 0 b = prefix 0 a) then slot link m' root b 3 = Some e
    else same_walk m m' root b.
Proof.
  intros Ht Ha E L Hfr.
  destruct (slot_owned link _ _ _ _ 3 _ Ht Ha ltac:(lia) E) as (p & Hp & He).
  change (4 - Z.of_nat 3) with 1 in *. set (i := index 1 a) in *.
  pose proof (prefix_index 1 a ltac:(lia)) as Hpx. fold i in Hpx. change (1 - 1) with 0 in Hpx.
  assert (Hs : same_but T p i m m').
  { intros r l' x' j Hr Hj Hne. apply load_ext. intros b Hb.
    destruct (tree_page _ _ _ _ Ht _ _ _ Hr) as [Hr4 _].
    destruct (tree_page _ _ _ _ Ht _ _ _ Hp) as [Hp4 _].
    apply Hfr; subst e. pose proof (index_range 1 a). fold i in H. unfold_consts.
    intros Hin. assert (r = p) by zdiv. subst r. apply Hne. f_equal. lia. }
  split.
  - apply (tree_write_leaf link m m' root T p 1 (prefix 1 a) i); try done; [apply index_range|].
    by rewrite <- He.
  - intros b Hb. case_decide as Hc.
    + rewrite (slot_same link m m' root T p 1 (prefix 1 a) i) by (done || lia || (right; lia)).
      rewrite <- E. by apply slot_prefix; [lia|].
    + assert (Hnc : ~ covers 1 (prefix 1 a) i b) by (unfold covers; change (1 - 1) with 0; congruence).
      intros k Hk. split.
      * apply (slot_same link m m' root T p 1 (prefix 1 a) i); try done. by left.
      * intros e' Ee. by apply (load_slot_same link m m' root T p 1 (prefix 1 a) i b k).
Qed.
End Grow.
