(* ===== verification/Paging.v ===== *)
(** * Paging: [memory/paging.c], the kernel's four-level page table.

    [map_address] installs a 4 KiB or a 2 MiB mapping, [pa] translates, and
    [paging_init] identity-maps the first 2 GiB. The main results say that
    [map_address] implements insertion into an abstract address map: the new
    page translates as asked, every other address translates as before, and the
    error codes mean what they say. *)
From Stdlib Require Import ZArith Lia.
From stdpp Require Import base tactics list numbers gmap.
From S2P Require Import Prelude Memory PhysicalMemory Radix.
Local Open Scope Z_scope.

(** [enum ERROR_CODE] of [lib64/include/type.h]. *)
Definition ERROR_OK : Z := 0.
Definition ERROR_INVALID : Z := 1.
Definition ERROR_NOT_NECESSARY : Z := 2.
Definition ERROR_DUPLICATION : Z := 3.
Definition ERROR_OUT_OF_MEMORY : Z := 4.
Definition ERROR_OUT_OF_RESOURCE : Z := 5.

(** ** Entry formats: the packed bit-field structs of [paging.h]. *)
Definition pml4_entry : list Z := [1; 1; 1; 1; 1; 7; 52].
Definition pdp_entry : list Z := [1; 1; 1; 1; 1; 7; 52].
Definition pd_2mb_entry : list Z := [1; 1; 1; 1; 1; 2; 1; 13; 43].
Definition pd_table_entry : list Z := [1; 1; 1; 1; 1; 7; 52].
Definition pt_entry : list Z := [1; 1; 1; 1; 1; 7; 52].

Definition present : bitfield := nth_field pml4_entry 0.
Definition writable : bitfield := nth_field pml4_entry 1.
Definition pdp_entry_address : bitfield := nth_field pml4_entry 6.
Definition pd_entry_address : bitfield := nth_field pdp_entry 6.
Definition page_size : bitfield := nth_field pd_2mb_entry 6.
Definition page_2m_address : bitfield := nth_field pd_2mb_entry 8.
Definition pt_entry_address : bitfield := nth_field pd_table_entry 6.
Definition page_address : bitfield := nth_field pt_entry 6.

(** The entry [idx] of the table at [base]: an entry is eight bytes wide. *)
Definition entry_at (base idx : Z) : Z := base + 8 * idx.

Definition put_mem (f : memory -> memory) : M kernel unit :=
  modify (fun s => s <| k_mem ::= f |>).

(** ** Operations *)
Definition translation_error : Z := u64 (-1).

Definition pa (s : kernel) (va : Z) : Z :=
  let m := k_mem s in
  let l4_entry := entry_at (pml4_base s) (LEVEL_4_INDEX va) in
  if negb (truthy (fget m l4_entry present)) then translation_error else
  let l3_entry := entry_at (shl_field pdp_entry_address (fget m l4_entry pdp_entry_address)
                              PAGE_SHIFT_4K) (LEVEL_3_INDEX va) in
  if negb (truthy (fget m l3_entry present)) then translation_error else
  let l2_2mb_entry := entry_at (shl_field pd_entry_address (fget m l3_entry pd_entry_address)
                                  PAGE_SHIFT_4K) (LEVEL_2_INDEX va) in
  if truthy (fget m l2_2mb_entry present) && truthy (fget m l2_2mb_entry page_size) then
    Z.lor (shl_field page_2m_address (fget m l2_2mb_entry page_2m_address) PAGE_SHIFT_2M)
          (Z.land va PAGE_MASK_2M)
  else
  let l2_table_entry := entry_at (shl_field pd_entry_address (fget m l3_entry pd_entry_address)
                                    PAGE_SHIFT_4K) (LEVEL_2_INDEX va) in
  if negb (truthy (fget m l2_table_entry present)) then translation_error else
  let l1_entry := entry_at (shl_field pt_entry_address (fget m l2_table_entry pt_entry_address)
                              PAGE_SHIFT_4K) (LEVEL_1_INDEX va) in
  if negb (truthy (fget m l1_entry present)) then translation_error else
  Z.lor (shl_field page_address (fget m l1_entry page_address) PAGE_SHIFT_4K)
        (Z.land va PAGE_MASK_4K).

(** "Try to install level 4 entry"; the answer is [false] when no page is left. *)
Definition install_level_4 (l4_entry : Z) : M kernel bool :=
  let! m := gets k_mem in
  if negb (truthy (fget m l4_entry present)) then
    let! pdp_address := get_physical_page in
    if negb (truthy pdp_address) then ret false else
    put_mem (fun m => memset m pdp_address 0x0 PAGE_SIZE_4K) ;;;
    put_mem (fun m => memset m l4_entry 0x0 8) ;;;
    put_mem (fun m => fset m l4_entry present 1) ;;;
    put_mem (fun m => fset m l4_entry writable 1) ;;;
    put_mem (fun m => fset m l4_entry pdp_entry_address (Z.shiftr pdp_address PAGE_SHIFT_4K)) ;;;
    ret true
  else ret true.

Definition install_level_3 (l3_entry : Z) : M kernel bool :=
  let! m := gets k_mem in
  if negb (truthy (fget m l3_entry present)) then
    let! pd_address := get_physical_page in
    if negb (truthy pd_address) then ret false else
    put_mem (fun m => memset m pd_address 0x0 PAGE_SIZE_4K) ;;;
    put_mem (fun m => memset m l3_entry 0x0 8) ;;;
    put_mem (fun m => fset m l3_entry present 1) ;;;
    put_mem (fun m => fset m l3_entry writable 1) ;;;
    put_mem (fun m => fset m l3_entry pd_entry_address (Z.shiftr pd_address PAGE_SHIFT_4K)) ;;;
    ret true
  else ret true.

Definition install_level_2_table (l2_table_entry : Z) : M kernel bool :=
  let! m := gets k_mem in
  if negb (truthy (fget m l2_table_entry present)) then
    let! pt_addr := get_physical_page in
    if negb (truthy pt_addr) then ret false else
    put_mem (fun m => memset m l2_table_entry 0x0 8) ;;;
    put_mem (fun m => memset m pt_addr 0x0 PAGE_SIZE_4K) ;;;
    put_mem (fun m => fset m l2_table_entry present 1) ;;;
    put_mem (fun m => fset m l2_table_entry writable 1) ;;;
    put_mem (fun m => fset m l2_table_entry pt_entry_address (Z.shiftr pt_addr PAGE_SHIFT_4K)) ;;;
    ret true
  else ret true.

Definition install_2mb_page (l2_2mb_entry phy_addr : Z) : M kernel Z :=
  let! m := gets k_mem in
  if truthy (fget m l2_2mb_entry present) then ret (- ERROR_DUPLICATION) else
  assert (negb (truthy (Z.land phy_addr PAGE_MASK_2M))) ;;;
  put_mem (fun m => memset m l2_2mb_entry 0x0 8) ;;;
  put_mem (fun m => fset m l2_2mb_entry present 1) ;;;
  put_mem (fun m => fset m l2_2mb_entry writable 1) ;;;
  put_mem (fun m => fset m l2_2mb_entry page_size 1) ;;;
  put_mem (fun m => fset m l2_2mb_entry page_2m_address (Z.shiftr phy_addr PAGE_SHIFT_2M)) ;;;
  ret ERROR_OK.

Definition install_4k_page (l1_entry phy_addr : Z) : M kernel Z :=
  let! m := gets k_mem in
  if truthy (fget m l1_entry present) then ret (- ERROR_DUPLICATION) else
  assert (negb (truthy (Z.land phy_addr PAGE_MASK_4K))) ;;;
  put_mem (fun m => memset m l1_entry 0x0 8) ;;;
  put_mem (fun m => fset m l1_entry present 1) ;;;
  put_mem (fun m => fset m l1_entry writable 1) ;;;
  put_mem (fun m => fset m l1_entry page_address (Z.shiftr phy_addr PAGE_SHIFT_4K)) ;;;
  ret ERROR_OK.

(** "Try to install level Level 2 entry" and below. *)
Definition map_lower_levels (virt_addr phy_addr size l2_entry : Z) : M kernel Z :=
  if size =? PAGE_SIZE_2M then install_2mb_page l2_entry phy_addr else
  let! ok2 := install_level_2_table l2_entry in
  if negb ok2 then ret (- ERROR_OUT_OF_MEMORY) else
  let! m := gets k_mem in
  let l1_entry := entry_at (shl_field pt_entry_address (fget m l2_entry pt_entry_address)
                              PAGE_SHIFT_4K) (LEVEL_1_INDEX virt_addr) in
  install_4k_page l1_entry phy_addr.

(** [int32_t map_address(uint64_t virt_addr, uint64_t phy_addr, int page_size)]. *)
Definition map_address (virt_addr phy_addr size : Z) : M kernel Z :=
  assert ((size =? PAGE_SIZE_4K) || (size =? PAGE_SIZE_2M)) ;;;
  let! base := gets pml4_base in
  let l4_entry := entry_at base (LEVEL_4_INDEX virt_addr) in
  let! ok4 := install_level_4 l4_entry in
  if negb ok4 then ret (- ERROR_OUT_OF_MEMORY) else
  let! m := gets k_mem in
  let l3_entry := entry_at (shl_field pdp_entry_address (fget m l4_entry pdp_entry_address)
                              PAGE_SHIFT_4K) (LEVEL_3_INDEX virt_addr) in
  let! ok3 := install_level_3 l3_entry in
  if negb ok3 then ret (- ERROR_OUT_OF_MEMORY) else
  let! m := gets k_mem in
  let l2_entry := entry_at (shl_field pd_entry_address (fget m l3_entry pd_entry_address)
                              PAGE_SHIFT_4K) (LEVEL_2_INDEX virt_addr) in
  map_lower_levels virt_addr phy_addr size l2_entry.

(** [paging_init]: a new root, then 2 MiB pages up to [INITIAL_VA_CEILING];
    loading [cr3] is not part of the modelled state. *)
Definition INITIAL_VA_CEILING : Z := 0x80000000.

Definition paging_init : M kernel unit :=
  let! base := get_physical_page in
  modify (fun s => s <| pml4_base := base |>) ;;;
  put_mem (fun m => memset m base 0x0 PAGE_SIZE_4K) ;;;
  assert (layout_bits pml4_entry =? 64) ;;;
  assert (layout_bits pdp_entry =? 64) ;;;
  assert (layout_bits pd_2mb_entry =? 64) ;;;
  assert (layout_bits pd_table_entry =? 64) ;;;
  assert (layout_bits pt_entry =? 64) ;;;
  mfor (Z.to_nat (INITIAL_VA_CEILING / PAGE_SIZE_2M)) 0 (fun i =>
    let virt_addr := PAGE_SIZE_2M * i in
    let! rc := map_address virt_addr virt_addr PAGE_SIZE_2M in
    assert (rc =? ERROR_OK)).

(** ** The walk, through [Radix] *)
Definition is_present (w : Z) : bool := truthy (get_bits w present).
Definition is_2mb (w : Z) : bool := is_present w && truthy (get_bits w page_size).
Definition table_of (w : Z) : Z :=
  shl_field pdp_entry_address (get_bits w pdp_entry_address) PAGE_SHIFT_4K.

(** Where an entry of the kernel's page table leads. *)
Definition klink (l w : Z) : option Z :=
  if negb (is_present w) || (l =? 1) || ((l =? 2) && is_2mb w) then None
  else Some (table_of w).

(** The entry that translates [a]: a 2 MiB page, a 4 KiB page or none. *)
Inductive mapping := Large (w : Z) | Small (w : Z) | Unmapped.

Definition leaf (m : memory) (root a : Z) : mapping :=
  match slot klink m root a 2 with
  | None => Unmapped
  | Some e2 =>
      if is_2mb (load64 m e2) then Large (load64 m e2)
      else
        match slot klink m root a 3 with
        | None => Unmapped
        | Some e1 => if is_present (load64 m e1) then Small (load64 m e1) else Unmapped
        end
  end.

Definition translate (l : mapping) (a : Z) : Z :=
  match l with
  | Large w =>
      Z.lor (shl_field page_2m_address (get_bits w page_2m_address) PAGE_SHIFT_2M)
            (Z.land a PAGE_MASK_2M)
  | Small w =>
      Z.lor (shl_field page_address (get_bits w page_address) PAGE_SHIFT_4K)
            (Z.land a PAGE_MASK_4K)
  | Unmapped => translation_error
  end.

Definition walk (m : memory) (root a : Z) : Z := translate (leaf m root a) a.

Lemma pa_walk s a : 0 <= a < VA_LIMIT -> pa s a = walk (k_mem s) (pml4_base s) a.
Proof.
  intros Ha. unfold pa, walk, leaf. cbn [slot]. change (4 - Z.of_nat 0) with 4.
  change (4 - Z.of_nat 1) with 3. change (4 - Z.of_nat 2) with 2. change (4 - Z.of_nat 3) with 1.
  rewrite level_4_index, level_3_index, level_2_index, level_1_index by done.
  unfold entry_at. set (e4 := pml4_base s + 8 * index 4 a).
  unfold klink at 1 3. fold (is_present (load64 (k_mem s) e4)).
  unfold fget. fold (is_present (load64 (k_mem s) e4)).
  destruct (is_present (load64 (k_mem s) e4)); [|done]. cbn [negb orb andb Z.eqb Pos.eqb].
  fold (table_of (load64 (k_mem s) e4)). set (e3 := table_of _ + 8 * index 3 a).
  fold (is_present (load64 (k_mem s) e3)). unfold klink at 1 2.
  destruct (is_present (load64 (k_mem s) e3)); [|done]. cbn [negb orb andb Z.eqb Pos.eqb].
  change pd_entry_address with pdp_entry_address. fold (table_of (load64 (k_mem s) e3)).
  set (e2 := table_of _ + 8 * index 2 a). fold (is_present (load64 (k_mem s) e2)).
  fold (is_2mb (load64 (k_mem s) e2)). unfold klink.
  destruct (is_2mb (load64 (k_mem s) e2)) eqn:E2; [done|].
  destruct (is_present (load64 (k_mem s) e2)); [|done]. cbn [negb orb andb Z.eqb Pos.eqb].
  change pt_entry_address with pdp_entry_address. fold (table_of (load64 (k_mem s) e2)).
  set (e1 := table_of _ + 8 * index 1 a). fold (is_present (load64 (k_mem s) e1)).
  by destruct (is_present (load64 (k_mem s) e1)).
Qed.

(** ** Entry words *)
Lemma is_present_0 : is_present 0 = false.
Proof. reflexivity. Qed.

Lemma klink_0 l : klink l 0 = None.
Proof. reflexivity. Qed.

Lemma klink_Some l w q : klink l w = Some q ->
  is_present w = true /\ q = table_of w /\ l <> 1 /\ (l = 2 -> is_2mb w = false).
Proof.
  unfold klink. intros H. destruct (is_present w); [|done]. cbn [negb orb] in H.
  destruct (Z.eqb_spec l 1); [done|]. cbn [orb] in H.
  destruct (Z.eqb_spec l 2); destruct (is_2mb w); cbn in H; naive_solver.
Qed.

Lemma klink_link l w : is_present w = true -> l <> 1 -> (l = 2 -> is_2mb w = false) ->
  klink l w = Some (table_of w).
Proof.
  intros Hp H1 H2. unfold klink. rewrite Hp. destruct (Z.eqb_spec l 1); [done|].
  destruct (Z.eqb_spec l 2); [|done]. by rewrite H2.
Qed.

Lemma klink_absent l w : is_present w = false -> klink l w = None.
Proof. intros H. unfold klink. by rewrite H. Qed.

(** The words the code writes. *)
Definition table_entry (page : Z) : Z :=
  set_bits (set_bits (set_bits 0 present 1) writable 1)
    pdp_entry_address (Z.shiftr page PAGE_SHIFT_4K).
Definition page_2m_entry (phys : Z) : Z :=
  set_bits (set_bits (set_bits (set_bits 0 present 1) writable 1) page_size 1)
    page_2m_address (Z.shiftr phys PAGE_SHIFT_2M).

Lemma shl_field_aligned n f p : bf_len f <= 64 -> 0 <= n -> 0 <= p < 2 ^ bf_len f ->
  p mod 2 ^ n = 0 -> shl_field f (wrap (bf_len f) (Z.shiftr p n)) n = p.
Proof.
  intros Hlen Hn Hp Hal. unfold shl_field. rewrite Z.shiftr_div_pow2 by done.
  pose proof (Z.div_mod p (2 ^ n) ltac:(lia)).
  assert (0 <= p / 2 ^ n <= p) by (split; [apply Z.div_pos; lia|apply Z.div_le_upper_bound; nia]).
  rewrite (wrap_small _ (p / 2 ^ n)) by lia.
  rewrite Z.shiftl_mul_pow2 by done. rewrite wrap_small; nia.
Qed.

Lemma table_entry_present p : is_present (table_entry p) = true.
Proof. unfold is_present, table_entry. by bits_simpl. Qed.

Lemma table_entry_small p : is_2mb (table_entry p) = false.
Proof.
  unfold is_2mb, is_present, table_entry. bits_simpl. by rewrite get_bits_0.
Qed.

Lemma table_entry_table p : 0 <= p < PHYS_LIMIT -> p mod PAGE_SIZE_4K = 0 ->
  table_of (table_entry p) = p.
Proof.
  intros Hp Hal. unfold table_of, table_entry. bits_simpl. unfold_consts.
  apply shl_field_aligned; [cbn; lia..|exact Hal].
Qed.

Lemma page_2m_entry_2mb p : is_2mb (page_2m_entry p) = true.
Proof.
  unfold is_2mb, is_present, page_2m_entry. by bits_simpl.
Qed.

Lemma page_2m_entry_address p : 0 <= p < PHYS_LIMIT -> p mod PAGE_SIZE_2M = 0 ->
  shl_field page_2m_address (get_bits (page_2m_entry p) page_2m_address) PAGE_SHIFT_2M = p.
Proof.
  intros Hp Hal. unfold page_2m_entry. bits_simpl. unfold_consts.
  apply shl_field_aligned; [cbn; lia..|exact Hal].
Qed.

(** ** Installing a table *)

(** [m'] is [m] with a zeroed page and an entry that leads to it. *)
Definition table_added (m m' : memory) (entry page : Z) : Prop :=
  load64 m' entry = table_entry page /\
  (forall b, page <= b < page + PAGE_SIZE_4K -> rd8 m' b = 0) /\
  (forall b, ~ (entry <= b < entry + 8) -> ~ (page <= b < page + PAGE_SIZE_4K) ->
     rd8 m' b = rd8 m b).

(** The three installers answer alike: nothing to do, out of memory, or a new
    table in the allocator's next page. *)
Definition installs (inst : Z -> M kernel bool) : Prop := forall s entry,
  kernel_ok s -> entry + 8 <= next_page s ->
  (is_present (load64 (k_mem s) entry) = true /\ inst entry s = Ret (true, s)) \/
  (is_present (load64 (k_mem s) entry) = false /\ inst entry s = Ret (false, s) /\ ~ room s) \/
  (is_present (load64 (k_mem s) entry) = false /\ exists s',
     inst entry s = Ret (true, s') /\
     (room s -> k_phys s' = (k_phys s) <| current_avail_page := next_page s + PAGE_SIZE_4K |>) /\
     kernel_ok s' /\ pml4_base s' = pml4_base s /\
     next_page s mod PAGE_SIZE_4K = 0 /\ PAGE_SIZE_4K <= next_page s /\
     next_page s + PAGE_SIZE_4K <= PHYS_LIMIT /\
     next_page s + PAGE_SIZE_4K <= next_page s' /\
     table_added (k_mem s) (k_mem s') entry (next_page s)).

Lemma table_added_entry_last m entry page : entry + 8 <= page ->
  table_added m
    (fset (fset (fset (memset (memset m page 0x0 PAGE_SIZE_4K) entry 0x0 8)
       entry present 1) entry writable 1) entry pdp_entry_address (Z.shiftr page PAGE_SHIFT_4K))
    entry page.
Proof.
  intros H. unfold_consts. split_and!.
  - rewrite !load64_fset by (unfold field_ok; cbn; lia).
    unfold load64 at 1. rewrite load_memset_in by lia. done.
  - intros b Hb. rewrite !rd8_fset_out, !rd8_memset by lia.
    repeat case_decide; done || lia.
  - intros b Hb Hp. rewrite !rd8_fset_out, !rd8_memset by lia.
    repeat case_decide; done || lia.
Qed.

Lemma table_added_entry_first m entry page : entry + 8 <= page ->
  table_added m
    (fset (fset (fset (memset (memset m entry 0x0 8) page 0x0 PAGE_SIZE_4K)
       entry present 1) entry writable 1) entry pdp_entry_address (Z.shiftr page PAGE_SHIFT_4K))
    entry page.
Proof.
  intros H. unfold_consts. split_and!.
  - rewrite !load64_fset by (unfold field_ok; cbn; lia).
    unfold load64 at 1. rewrite load_memset_out, load_memset_in by lia. done.
  - intros b Hb. rewrite !rd8_fset_out, !rd8_memset by lia.
    repeat case_decide; done || lia.
  - intros b Hb Hp. rewrite !rd8_fset_out, !rd8_memset by lia.
    repeat case_decide; done || lia.
Qed.

Ltac solve_installs added :=
  intros s entry Hok He; unfold is_present;
  destruct (truthy (get_bits (load64 (k_mem s) entry) present)) eqn:E;
  [left; split; [done|]; mstep; unfold fget; by rewrite E|right];
  destruct (page_source_run s Hok) as [Hr|(s1&Hr&Hm&Hb&Hok1&Hal&Hlo&Hnx&Hhi)];
  [left; split; [done|]; split;
   [mstep; unfold fget; rewrite E; cbn [negb]; by rewrite Hr
   |intros Hroom; destruct (page_source_room s Hok Hroom) as (s2&Hr2&_);
    rewrite Hr in Hr2; injection Hr2 as Hbad _; unfold kernel_ok, phys_ok, next_page in *;
    unfold_consts; lia]
  |right; split; [done|]];
  assert (Eroom : room s -> k_phys s1 = (k_phys s) <| current_avail_page := next_page s + PAGE_SIZE_4K |>)
    by (intros Hroom; destruct (page_source_room s Hok Hroom) as (s2&Hr2&Hp2);
        rewrite Hr in Hr2; injection Hr2 as <-; exact Hp2);
  assert (Ez : truthy (next_page s) = true) by (apply truthy_true; unfold_consts; lia);
  destruct s1 as [m1 p1 b1]; cbn [k_mem k_phys pml4_base] in *; subst m1;
  eexists; split;
  [mstep; unfold fget; rewrite E; cbn [negb]; rewrite Hr, Ez; cbn [negb];
   cbv [update k_mem k_phys pml4_base]; reflexivity|];
  split_and!; [done..|apply added; done].

Lemma install_level_4_installs : installs install_level_4.
Proof. unfold install_level_4, put_mem. solve_installs table_added_entry_last. Qed.
Lemma install_level_3_installs : installs install_level_3.
Proof. unfold install_level_3, put_mem. solve_installs table_added_entry_last. Qed.
Lemma install_level_2_table_installs : installs install_level_2_table.
Proof. unfold install_level_2_table, put_mem. solve_installs table_added_entry_first. Qed.

(** ** The invariant of the kernel's page table *)
Record paging_inv (s : kernel) (T : gmap Z (Z * Z)) : Prop := {
  pi_ok : kernel_ok s;
  pi_tree : tree klink (k_mem s) (pml4_base s) T;
  pi_below : forall p l x, T !! p = Some (l, x) -> p + PAGE_SIZE_4K <= next_page s }.

Definition kleaf (s : kernel) (a : Z) : mapping := leaf (k_mem s) (pml4_base s) a.
Definition kslot (s : kernel) (a : Z) (d : nat) : option Z :=
  slot klink (k_mem s) (pml4_base s) a d.

Definition in_tables (T : gmap Z (Z * Z)) (b : Z) : Prop :=
  exists p l x, T !! p = Some (l, x) /\ p <= b < p + PAGE_SIZE_4K.

(** [s'] has grown from [s]: new tables come from fresh pages, memory outside
    the tables and the fresh pages is untouched. *)
Record grown (s : kernel) (T : gmap Z (Z * Z)) (s' : kernel) (T' : gmap Z (Z * Z)) : Prop := {
  gr_inv : paging_inv s' T';
  gr_base : pml4_base s' = pml4_base s;
  gr_next : next_page s <= next_page s';
  gr_tables : forall p y, T !! p = Some y -> T' !! p = Some y;
  gr_fresh : forall p y, T' !! p = Some y -> T !! p = Some y \/ next_page s <= p;
  gr_frame : forall b, b < next_page s -> ~ in_tables T b -> rd8 (k_mem s') b = rd8 (k_mem s) b }.

(** The tables lie at or above an address; what is below is left alone. *)
Definition above (low : Z) (T : gmap Z (Z * Z)) : Prop := forall p y, T !! p = Some y -> low <= p.

Lemma grown_above low s T s' T' : grown s T s' T' -> above low T -> low <= next_page s -> above low T'.
Proof.
  intros G Ha Hl p y Hp. destruct (gr_fresh _ _ _ _ G p y Hp) as [H|H]; [by apply (Ha p y)|lia].
Qed.
Lemma grown_below low s T s' T' b : grown s T s' T' -> above low T -> low <= next_page s -> b < low ->
  rd8 (k_mem s') b = rd8 (k_mem s) b.
Proof.
  intros G Ha Hl Hb. apply (gr_frame _ _ _ _ G); [lia|]. intros (p & l & x & Hp & H).
  pose proof (Ha p _ Hp). lia.
Qed.

(** Writes outside the tables change no translation. *)
Lemma tables_frame s s' T : paging_inv s T -> kernel_ok s' -> next_page s <= next_page s' ->
  pml4_base s' = pml4_base s -> (forall b, in_tables T b -> rd8 (k_mem s') b = rd8 (k_mem s) b) ->
  paging_inv s' T /\ forall a, 0 <= a < VA_LIMIT -> kleaf s' a = kleaf s a.
Proof.
  intros Hi Hok Hn Hb Hfr.
  destruct (tree_frame klink (k_mem s) (k_mem s') (pml4_base s) T (pi_tree _ _ Hi)) as [Ht Hs].
  { intros p l x b Hp Hin. apply Hfr. by exists p, l, x. }
  split.
  - split; [done|by rewrite Hb|]. intros p l x Hp. pose proof (pi_below _ _ Hi _ _ _ Hp). lia.
  - intros a Ha. unfold kleaf, leaf. rewrite Hb.
    destruct (Hs a 2%nat Ha ltac:(lia)) as [-> L2]. destruct (Hs a 3%nat Ha ltac:(lia)) as [-> L3].
    destruct (slot klink (k_mem s) (pml4_base s) a 2) as [e2|]; [|done].
    rewrite (L2 e2 eq_refl).
    destruct (slot klink (k_mem s) (pml4_base s) a 3) as [e3|]; [|done]. by rewrite (L3 e3 eq_refl).
Qed.

Lemma grown_refl s T : paging_inv s T -> grown s T s T.
Proof. intros H. split; auto. lia. Qed.

Lemma grown_trans s T s1 T1 s2 T2 : grown s T s1 T1 -> grown s1 T1 s2 T2 -> grown s T s2 T2.
Proof.
  intros [] [Hi ? ? ? Hf Hfr]. split; try done; try congruence; try lia.
  - intros p y Hp. auto.
  - intros p y Hp. destruct (Hf p y Hp) as [H|H]; [auto|right; lia].
  - intros b Hb Ht. rewrite Hfr; [auto|lia|].
    intros (p & l & x & Hp & Hin). apply Ht. destruct (gr_fresh0 _ _ Hp); [|lia].
    by exists p, l, x.
Qed.

Lemma page_slot_eq p q i j : p mod PAGE_SIZE_4K = 0 -> q mod PAGE_SIZE_4K = 0 ->
  0 <= i < 512 -> 0 <= j < 512 -> (p, i) <> (q, j) ->
  p + 8 * i + 8 <= q + 8 * j \/ q + 8 * j + 8 <= p + 8 * i.
Proof.
  intros Hp Hq Hi Hj Hne. unfold_consts.
  destruct (Z.eq_dec p q) as [->|]; [|zdiv]. assert (i <> j) by congruence. lia.
Qed.

(** A walk that meets an absent entry fails. *)
Lemma leaf_absent m root a d e : (d < 4)%nat -> slot klink m root a d = Some e ->
  is_present (load64 m e) = false -> leaf m root a = Unmapped.
Proof.
  intros Hd E Hp. unfold leaf.
  assert (forall k, slot klink m root a (d + S k) = None) as Hn.
  { apply (slot_dead _ _ _ _ _ _ E). by apply klink_absent. }
  destruct d as [|[|[|[|]]]]; cbn in Hd; try lia.
  - by rewrite (Hn 1%nat : slot klink m root a 2 = None).
  - by rewrite (Hn 0%nat : slot klink m root a 2 = None).
  - rewrite E. unfold is_2mb. rewrite Hp. by rewrite (Hn 0%nat : slot klink m root a 3 = None).
  - destruct (slot_succ _ _ _ _ _ _ E) as (e2 & q & E2 & L & _).
    apply klink_Some in L as (_ & _ & _ & L). rewrite E2, (L eq_refl), E. by rewrite Hp.
Qed.

(** A write to one entry leaves the walks it does not cover alone. *)
Lemma leaf_same m m' root T p l x i a :
  tree klink m root T -> T !! p = Some (l, x) -> same_but T p i m m' ->
  0 <= a < VA_LIMIT -> ~ covers l x i a -> leaf m' root a = leaf m root a.
Proof.
  intros Ht Hp Hs Ha Hc. unfold leaf.
  rewrite !(slot_same klink m m' root T p l x i) by (done || lia || by left).
  destruct (slot klink m root a 2) as [e2|] eqn:E2; [|done].
  rewrite (load_slot_same klink m m' root T p l x i a 2 e2) by (done || lia).
  destruct (slot klink m root a 3) as [e1|] eqn:E3; [|done].
  by rewrite (load_slot_same klink m m' root T p l x i a 3 e1) by (done || lia).
Qed.

(** A free entry of level [4 - d] linked to the zeroed page [next_page s]. *)
Definition table_slot (a : Z) (d : nat) : Z * Z :=
  (4 - Z.of_nat d - 1, prefix (4 - Z.of_nat d) a * 512 + index (4 - Z.of_nat d) a).

Record new_table (s s' : kernel) (e : Z) : Prop := {
  nt_ok : kernel_ok s';
  nt_base : pml4_base s' = pml4_base s;
  nt_aligned : next_page s mod PAGE_SIZE_4K = 0;
  nt_low : PAGE_SIZE_4K <= next_page s;
  nt_high : next_page s + PAGE_SIZE_4K <= PHYS_LIMIT;
  nt_next : next_page s + PAGE_SIZE_4K <= next_page s';
  nt_added : table_added (k_mem s) (k_mem s') e (next_page s) }.

Section NewTable.
Context (s s' : kernel) (T : gmap Z (Z * Z)) (a : Z) (d : nat) (e : Z).
Hypothesis Hi : paging_inv s T.
Hypothesis Ha : 0 <= a < VA_LIMIT.
Hypothesis Hd : (d < 3)%nat.
Hypothesis He : kslot s a d = Some e.
Hypothesis Hpr : is_present (load64 (k_mem s) e) = false.
Hypothesis Hnew : new_table s s' e.
Let l : Z := 4 - Z.of_nat d.
Let i : Z := index l a.

Lemma new_table_owner : exists p, T !! p = Some (l, prefix l a) /\ e = p + 8 * i /\
  e + 8 <= next_page s /\ same_but T p i (k_mem s) (k_mem s').
Proof using Hi Ha Hd He Hnew.
  pose proof (pi_tree _ _ Hi) as Ht. destruct (nt_added _ _ _ Hnew) as (_ & _ & Hfr).
  destruct (slot_owned klink _ _ _ _ d _ Ht Ha ltac:(lia) He) as (p & Hp & Ee).
  pose proof (index_range l a) as Hix. pose proof (pi_below _ _ Hi _ _ _ Hp) as Hbelow. fold l i in Hp, Ee.
  exists p. split; [done|]. split; [done|]. split; [fold i in Hix; unfold_consts; lia|].
  intros q lq x j Hq Hj Hne. apply load_ext. intros b Hb.
  pose proof (pi_below _ _ Hi _ _ _ Hq).
  destruct (tree_page _ _ _ _ Ht _ _ _ Hq). destruct (tree_page _ _ _ _ Ht _ _ _ Hp).
  pose proof (page_slot_eq q p j i ltac:(done) ltac:(done) Hj Hix Hne).
  apply Hfr; unfold_consts; lia.
Qed.

Lemma new_table_link : klink l (load64 (k_mem s') e) = Some (next_page s).
Proof using Hd Hnew.
  clear i. destruct Hnew as [_ _ Hal Hlo Hhi _ (Hw & _)]. rewrite Hw, klink_link.
  - f_equal. apply table_entry_table; [unfold_consts; lia|done].
  - apply table_entry_present.
  - unfold l. lia.
  - intros. apply table_entry_small.
Qed.

Lemma new_table_slots b : 0 <= b < VA_LIMIT -> covers l (prefix l a) i b ->
  kslot s b d = Some e /\ kslot s' b d = Some e.
Proof using Hi Ha Hd He Hnew.
  intros Hb Hc. destruct new_table_owner as (p & Hp & _ & _ & Hs). unfold covers in Hc.
  assert (Ep : prefix (3 - Z.of_nat d) b = prefix (3 - Z.of_nat d) a).
  { replace (3 - Z.of_nat d) with (l - 1) by (unfold l; lia). rewrite Hc.
    symmetry. apply prefix_index. unfold l. lia. }
  unfold kslot in *. rewrite (nt_base _ _ _ Hnew).
  rewrite (slot_same klink (k_mem s) (k_mem s') _ T p _ _ i b d)
    by (apply Hi || done || unfold l; lia || (right; lia)).
  by rewrite (slot_prefix klink _ _ b a d) by (done || lia).
Qed.

Lemma new_table_grown : grown s T s' (<[next_page s := table_slot a d]> T).
Proof using Hi Ha Hd He Hpr Hnew.
  pose proof (pi_tree _ _ Hi) as Ht. destruct Hnew as [Hok' Hb' Hal Hlo Hhi Hnx (Hw & Hz & Hfr)].
  destruct new_table_owner as (p & Hp & Ee & Hbelow & Hs).
  assert (Hfresh : T !! next_page s = None).
  { destruct (T !! next_page s) as [[l' x]|] eqn:ET; [|done].
    pose proof (pi_below _ _ Hi _ _ _ ET). unfold_consts. lia. }
  split; [split|..]; try done.
  - rewrite Hb'. apply (tree_new_table klink klink_0 (k_mem s) _ _ _ p); try done; try (unfold i; apply index_range).
    + unfold l. lia.
    + intros j Hj. apply load_zeros. intros b Hb. apply Hz. unfold_consts. lia.
    + pose proof new_table_link as HL. rewrite Ee in HL. exact HL.
  - intros q l' x Hq. destruct (decide (next_page s = q)) as [<-|Hne]; [done|].
    rewrite lookup_insert_ne in Hq by done. pose proof (pi_below _ _ Hi _ _ _ Hq). unfold_consts. lia.
  - unfold_consts. lia.
  - intros q y Hq. rewrite lookup_insert_ne; [done|]. congruence.
  - intros q y Hq. destruct (decide (next_page s = q)) as [<-|Hne]; [right; lia|].
    rewrite lookup_insert_ne in Hq by done. by left.
  - intros b Hb Hnt. apply Hfr; [|unfold_consts; lia].
    intros Hin. apply Hnt. exists p, l, (prefix l a). split; [done|].
    pose proof (index_range l a) as Hix. fold i in Hix. unfold_consts. lia.
Qed.

Lemma new_table_leaf b : 0 <= b < VA_LIMIT -> kleaf s' b = kleaf s b.
Proof using Hi Ha Hd He Hpr Hnew.
  intros Hb. pose proof (nt_base _ _ _ Hnew) as Hb'. destruct (nt_added _ _ _ Hnew) as (_ & Hz & _).
  destruct new_table_owner as (p & Hp & _ & _ & Hs). unfold kleaf. rewrite Hb'.
  destruct (decide (covers l (prefix l a) i b)) as [Hc|Hc].
  - destruct (new_table_slots b Hb Hc) as [Hsl Hsl']. unfold kslot in *. rewrite Hb' in *.
    rewrite (leaf_absent (k_mem s) _ b d e) by (done || lia).
    pose proof (slot_step klink _ _ _ _ _ _ Hsl' new_table_link) as Hnext.
    apply (leaf_absent _ _ _ (S d) _ ltac:(lia) Hnext).
    rewrite load64_zeros; [done|]. intros c Hcb. apply Hz.
    pose proof (index_range (4 - Z.of_nat (S d)) b). unfold_consts. lia.
  - apply (leaf_same (k_mem s) _ _ T p l (prefix l a) i); [apply Hi|done..].
Qed.

Lemma new_table_next : kslot s' a d = Some e /\
  kslot s' a (S d) = Some (table_of (load64 (k_mem s') e) + 8 * index (4 - Z.of_nat (S d)) a).
Proof using Hi Ha Hd He Hpr Hnew.
  assert (Hsl : kslot s' a d = Some e).
  { apply new_table_slots; [done|]. unfold covers. apply prefix_index. unfold l. lia. }
  split; [done|]. unfold kslot. rewrite (slot_step klink _ _ _ d e (next_page s) Hsl new_table_link).
  by destruct (klink_Some _ _ _ new_table_link) as (_ & -> & _).
Qed.
End NewTable.

(** Pages taken from the low segment, and that it has some left. *)
Definition room_for (n : Z) (s : kernel) : Prop :=
  addr_low4G (k_phys s) <= next_page s /\
  next_page s + (n + 1) * PAGE_SIZE_4K <= addr_low4G (k_phys s) + length_low4G (k_phys s).
Definition spent (n : Z) (s s' : kernel) : Prop :=
  k_phys s' = (k_phys s) <| current_avail_page := next_page s' |> /\
  next_page s <= next_page s' <= next_page s + n * PAGE_SIZE_4K.

Lemma spent_refl n s : 0 <= n -> spent n s s.
Proof. intros. split; [|unfold_consts; lia]. unfold next_page. by destruct s as [m [] b]. Qed.
Lemma spent_trans n k s s1 s2 : spent n s s1 -> spent k s1 s2 -> spent (n + k) s s2.
Proof. intros [E1 H1] [E2 H2]. split; [by rewrite E2, E1|unfold_consts; lia]. Qed.
Lemma spent_le n k s s' : spent n s s' -> n <= k -> spent k s s'.
Proof. intros [E H] Hk. split; [done|unfold_consts; lia]. Qed.
Lemma spent_room n k s s' : spent n s s' -> room_for k s -> room_for (k - n) s'.
Proof. intros [E H] [R1 R2]. unfold room_for. rewrite E. cbn. unfold_consts. lia. Qed.

(** Every installer keeps all translations and makes the next level reachable;
    while there is room it takes at most one page. *)
Lemma install_step inst s T a d e :
  installs inst -> paging_inv s T -> 0 <= a < VA_LIMIT -> (d < 3)%nat ->
  kslot s a d = Some e -> (d = 2%nat -> is_2mb (load64 (k_mem s) e) = false) ->
  exists ok s' T', inst e s = Ret (ok, s') /\ grown s T s' T' /\
    (forall b, 0 <= b < VA_LIMIT -> kleaf s' b = kleaf s b) /\
    kslot s' a d = Some e /\
    (is_present (load64 (k_mem s) e) = true -> ok = true /\ s' = s /\ T' = T) /\
    (is_present (load64 (k_mem s) e) = false -> room s -> ok = true /\
       T' = <[next_page s := table_slot a d]> T /\
       load64 (k_mem s') e = table_entry (next_page s) /\
       k_phys s' = (k_phys s) <| current_avail_page := next_page s + PAGE_SIZE_4K |>) /\
    (ok = true -> kslot s' a (S d) =
       Some (table_of (load64 (k_mem s') e) + 8 * index (4 - Z.of_nat (S d)) a)).
Proof.
  intros Hinst Hi Ha Hd E H2.
  destruct (slot_owned klink _ _ _ _ d _ (pi_tree _ _ Hi) Ha ltac:(lia) E) as (p & Hp & He).
  pose proof (index_range (4 - Z.of_nat d) a) as Hix.
  pose proof (pi_below _ _ Hi _ _ _ Hp) as Hbelow.
  destruct (Hinst s e (pi_ok _ _ Hi) ltac:(unfold_consts; lia))
    as [[Hpr Hr]|[(Hpr&Hr&Hroom)|[Hpr (s'&Hr&Hroom&Hok'&Hb'&Hal&Hlo&Hhi&Hnx&Hadd)]]].
  - exists true, s, T. split; [done|]. split; [by apply grown_refl|]. split_and!; try done; try congruence.
    intros _. apply (slot_step klink _ _ _ d e); [done|]. apply klink_link; [done|lia|]. intros Hl. apply H2. lia.
  - exists false, s, T. split_and!; try done; [by apply grown_refl|congruence].
  - assert (Hnew : new_table s s' e) by done.
    destruct (new_table_next s s' T a d e Hi Ha Hd E Hpr Hnew) as [Hs Hn].
    exists true, s', (<[next_page s := table_slot a d]> T).
    split; [done|]. split; [by apply (new_table_grown s s' T a d e)|].
    split; [by apply (new_table_leaf s s' T a d e)|]. split; [done|]. split; [congruence|]. split; [|done].
    intros _ Hro. split; [done|]. split; [done|]. split; [apply Hadd|by apply Hroom].
Qed.

Lemma step_spent s (s' : kernel) (T T' : gmap Z (Z * Z)) (a : Z) (d : nat) e (ok : bool) :
  (is_present (load64 (k_mem s) e) = true -> ok = true /\ s' = s /\ T' = T) ->
  (is_present (load64 (k_mem s) e) = false -> room s -> ok = true /\
     T' = <[next_page s := table_slot a d]> T /\ load64 (k_mem s') e = table_entry (next_page s) /\
     k_phys s' = (k_phys s) <| current_avail_page := next_page s + PAGE_SIZE_4K |>) ->
  forall n, 1 <= n -> room_for n s -> ok = true /\ spent 1 s s'.
Proof.
  intros H1 H2 n Hn [R1 R2]. destruct (is_present (load64 (k_mem s) e)) eqn:E.
  - destruct (H1 eq_refl) as (-> & -> & _). split; [done|]. by apply spent_refl.
  - destruct (H2 eq_refl) as (-> & _ & _ & Hp); [split; [done|unfold next_page in *; unfold_consts; lia]|].
    split; [done|]. unfold spent, next_page. rewrite Hp. cbn. unfold_consts. split; [done|]. unfold next_page. lia.
Qed.

(** Writing a leaf entry: the walks it covers reach it, the others keep their
    result. *)
Lemma leaf_step s T a d e m' :
  paging_inv s T -> 0 <= a < VA_LIMIT -> (d < 4)%nat -> kslot s a d = Some e ->
  klink (4 - Z.of_nat d) (load64 m' e) = None ->
  (forall b, ~ (e <= b < e + 8) -> rd8 m' b = rd8 (k_mem s) b) ->
  let s' := Kernel m' (k_phys s) (pml4_base s) in
  grown s T s' T /\
  (forall b k, 0 <= b < VA_LIMIT -> (k <= d)%nat -> kslot s' b k = kslot s b k) /\
  (forall b, 0 <= b < VA_LIMIT -> prefix (3 - Z.of_nat d) b <> prefix (3 - Z.of_nat d) a ->
     kleaf s' b = kleaf s b).
Proof.
  intros Hi Ha Hd E L Hfr s'. pose proof (pi_tree _ _ Hi) as Ht.
  destruct (slot_owned klink _ _ _ _ d _ Ht Ha Hd E) as (p & Hp & He).
  pose proof (index_range (4 - Z.of_nat d) a) as Hix. set (i := index (4 - Z.of_nat d) a) in *.
  set (x := prefix (4 - Z.of_nat d) a) in *.
  destruct (tree_page _ _ _ _ Ht _ _ _ Hp) as [Hpal _].
  pose proof (prefix_index (4 - Z.of_nat d) a ltac:(lia)) as Hpi. fold x i in Hpi.
  replace (4 - Z.of_nat d - 1) with (3 - Z.of_nat d) in Hpi by lia.
  assert (Hcov : forall b, covers (4 - Z.of_nat d) x i b <->
                   prefix (3 - Z.of_nat d) b = prefix (3 - Z.of_nat d) a).
  { intros b. unfold covers. rewrite Hpi. by replace (4 - Z.of_nat d - 1) with (3 - Z.of_nat d) by lia. }
  assert (Hs : same_but T p i (k_mem s) m').
  { intros q l y j Hq Hj Hne. apply load_ext. intros b Hb. apply Hfr. subst e.
    destruct (tree_page _ _ _ _ Ht _ _ _ Hq).
    pose proof (page_slot_eq q p j i ltac:(done) ltac:(done) Hj Hix Hne). lia. }
  split; [|split].
  - split; try done; [split|..].
    + apply Hi.
    + cbn. apply (tree_write_leaf klink (k_mem s) _ _ _ p (4 - Z.of_nat d) x i); try done. by rewrite <- He.
    + apply Hi.
    + intros q y Hq. by left.
    + intros b Hb Hnt. cbn. apply Hfr. intros Hin. apply Hnt. exists p, (4 - Z.of_nat d), x.
      split; [done|]. unfold_consts. lia.
  - intros b k Hb Hk. unfold kslot, s'. cbn [k_mem pml4_base].
    rewrite (slot_same klink (k_mem s) m' _ T p (4 - Z.of_nat d) x i b k) by (done || lia || (right; lia)). done.
  - intros b Hb Eb. unfold kleaf. cbn [k_mem pml4_base s'].
    apply (leaf_same (k_mem s) _ _ T p (4 - Z.of_nat d) x i); try done. by rewrite Hcov.
Qed.

Lemma land_mask_4k a : Z.land a PAGE_MASK_4K = a mod PAGE_SIZE_4K.
Proof. apply (land_mask_mod a 12). lia. Qed.
Lemma land_mask_2m a : Z.land a PAGE_MASK_2M = a mod PAGE_SIZE_2M.
Proof. apply (land_mask_mod a 21). lia. Qed.

Lemma lor_aligned p o n : 0 <= n -> p mod 2 ^ n = 0 -> Z.lor p (o mod 2 ^ n) = p + o mod 2 ^ n.
Proof.
  intros Hn Hp. rewrite (Z.div_mod p (2 ^ n)), Hp, Z.add_0_r, Z.mul_comm by lia.
  rewrite <- Z.shiftl_mul_pow2 at 1 by done. rewrite lor_add_low; [done|done|].
  apply Z.mod_pos_bound. lia.
Qed.

Lemma klink_leaf s a e : kslot s a 3 = Some e -> is_present (load64 (k_mem s) e) = true ->
  kleaf s a = Small (load64 (k_mem s) e).
Proof.
  intros E Hp. unfold kleaf, leaf. unfold kslot in E.
  destruct (slot_succ _ _ _ _ _ _ E) as (e2 & q & E2 & L & _).
  apply klink_Some in L as (_ & _ & _ & L). by rewrite E2, (L eq_refl), E, Hp.
Qed.

Lemma large_leaf s a e : kslot s a 2 = Some e -> is_2mb (load64 (k_mem s) e) = true ->
  kleaf s a = Large (load64 (k_mem s) e).
Proof. intros E Hp. unfold kleaf, leaf, kslot in *. by rewrite E, Hp. Qed.

Lemma translate_4k phys b : 0 <= phys < PHYS_LIMIT -> phys mod PAGE_SIZE_4K = 0 ->
  translate (Small (table_entry phys)) b = phys + b mod PAGE_SIZE_4K.
Proof.
  intros Hp Hal. cbn [translate]. change page_address with pdp_entry_address.
  fold (table_of (table_entry phys)). rewrite table_entry_table, land_mask_4k by done.
  by apply (lor_aligned phys b 12).
Qed.

Lemma translate_2m phys b : 0 <= phys < PHYS_LIMIT -> phys mod PAGE_SIZE_2M = 0 ->
  translate (Large (page_2m_entry phys)) b = phys + b mod PAGE_SIZE_2M.
Proof.
  intros Hp Hal. cbn [translate]. rewrite page_2m_entry_address, land_mask_2m by done.
  by apply (lor_aligned phys b 21).
Qed.

(** A mapped address never translates to the error value. *)
Lemma translate_mapped l a : l <> Unmapped -> translate l a <> translation_error.
Proof.
  intros Hl Hbad.
  assert (Hb : forall f n v, 0 <= bf_len f <= 52 -> 0 <= n <= 52 ->
            0 <= Z.lor (shl_field f v n) (a mod 2 ^ n) < 2 ^ 52).
  { intros f n v Hf Hn. apply lor_range.
    - pose proof (wrap_range (bf_len f) (Z.shiftl v n) ltac:(lia)). unfold shl_field.
      pose proof (Z.pow_le_mono_r 2 (bf_len f) 52). lia.
    - pose proof (Z.mod_pos_bound a (2 ^ n) ltac:(lia)). pose proof (Z.pow_le_mono_r 2 n 52). lia. }
  assert (E : translation_error = 2 ^ 64 - 1) by reflexivity. rewrite E in Hbad.
  destruct l as [w|w|]; cbn [translate] in Hbad; [| |done].
  - rewrite land_mask_2m in Hbad.
    pose proof (Hb page_2m_address 21 (get_bits w page_2m_address) ltac:(cbn; lia) ltac:(lia)).
    unfold_consts. change 0x200000 with (2 ^ 21) in *. lia.
  - rewrite land_mask_4k in Hbad.
    pose proof (Hb page_address 12 (get_bits w page_address) ltac:(cbn; lia) ltac:(lia)).
    unfold_consts. change 0x1000 with (2 ^ 12) in *. lia.
Qed.

Lemma install_4k_writes s e phys :
  is_present (load64 (k_mem s) e) = false -> Z.land phys PAGE_MASK_4K = 0 ->
  install_4k_page e phys s = Ret (ERROR_OK, Kernel
    (fset (fset (fset (memset (k_mem s) e 0x0 8) e present 1) e writable 1)
       e page_address (Z.shiftr phys PAGE_SHIFT_4K)) (k_phys s) (pml4_base s)).
Proof.
  destruct s as [m p b]. unfold is_present, install_4k_page, put_mem. cbn [k_mem k_phys pml4_base].
  intros Hp Hal. mstep. unfold fget at 1. cbn [k_mem]. rewrite Hp, Hal.
  cbv [update k_mem k_phys pml4_base]. reflexivity.
Qed.

Lemma install_2mb_writes s e phys :
  is_present (load64 (k_mem s) e) = false -> Z.land phys PAGE_MASK_2M = 0 ->
  install_2mb_page e phys s = Ret (ERROR_OK, Kernel
    (fset (fset (fset (fset (memset (k_mem s) e 0x0 8) e present 1) e writable 1) e page_size 1)
       e page_2m_address (Z.shiftr phys PAGE_SHIFT_2M)) (k_phys s) (pml4_base s)).
Proof.
  destruct s as [m p b]. unfold is_present, install_2mb_page, put_mem. cbn [k_mem k_phys pml4_base].
  intros Hp Hal. mstep. unfold fget at 1. cbn [k_mem]. rewrite Hp, Hal.
  cbv [update k_mem k_phys pml4_base]. reflexivity.
Qed.

(** The page of size [2^n] that holds [a]. *)
Definition same_page (size a b : Z) : Prop := a / size = b / size.
#[export] Instance same_page_dec size a b : Decision (same_page size a b).
Proof. unfold same_page. apply _. Defined.

Lemma install_4k_run s T a e phys :
  paging_inv s T -> 0 <= a < VA_LIMIT -> kslot s a 3 = Some e ->
  phys mod PAGE_SIZE_4K = 0 ->
  (kleaf s a <> Unmapped /\ install_4k_page e phys s = Ret (- ERROR_DUPLICATION, s)) \/
  ((forall b, same_page PAGE_SIZE_4K b a -> kleaf s b = Unmapped) /\ exists s',
     install_4k_page e phys s = Ret (ERROR_OK, s') /\ grown s T s' T /\
     (forall b, 0 <= b < VA_LIMIT ->
       kleaf s' b = if decide (same_page PAGE_SIZE_4K b a) then Small (table_entry phys)
                    else kleaf s b) /\ k_phys s' = k_phys s).
Proof.
  intros Hi Ha E Hal.
  destruct (is_present (load64 (k_mem s) e)) eqn:Hp.
  - left. rewrite (klink_leaf s a e E Hp). split; [done|].
    unfold install_4k_page. mstep. unfold fget. unfold is_present in Hp. by rewrite Hp.
  - right. split.
    { intros b Hb. apply (leaf_absent _ _ b 3 e); [lia| |done].
      unfold kslot in E. rewrite <- E. by apply slot_prefix; [lia|]. }
    set (m' := fset (fset (fset (memset (k_mem s) e 0x0 8) e present 1) e writable 1)
                 e page_address (Z.shiftr phys PAGE_SHIFT_4K)).
    assert (Hw : load64 m' e = table_entry phys).
    { unfold m'. rewrite !load64_fset by (unfold field_ok; cbn; lia).
      unfold load64 at 1. rewrite load_memset_in by lia. done. }
    destruct (leaf_step s T a 3 e m' Hi Ha ltac:(lia) E) as (Hg & Hsl & Hother).
    + rewrite Hw. unfold klink. by rewrite orb_true_r.
    + intros b Hb. unfold m'. rewrite !rd8_fset_out, rd8_memset by lia. case_decide; done || lia.
    + eexists. split; [|split; [exact Hg|split; [|reflexivity]]].
      * apply install_4k_writes; [done|]. by rewrite land_mask_4k.
      * intros b Hb. change (3 - Z.of_nat 3) with 0 in *. unfold prefix in *.
        change (2 ^ (12 + 9 * 0)) with PAGE_SIZE_4K in *. unfold same_page.
        case_decide as Hd; [|by apply Hother].
        pose proof (Hsl b 3%nat Hb (le_n _)) as Hs3. unfold kslot in Hs3 at 2.
        rewrite (slot_prefix klink _ _ b a) in Hs3 by (done || lia). unfold kslot in E. rewrite E in Hs3.
        rewrite <- Hw. apply klink_leaf; [done|]. cbn [k_mem]. rewrite Hw. apply table_entry_present.
Qed.

Lemma install_2mb_run s T a e phys :
  paging_inv s T -> 0 <= a < VA_LIMIT -> kslot s a 2 = Some e ->
  phys mod PAGE_SIZE_2M = 0 ->
  (is_present (load64 (k_mem s) e) = true /\
     install_2mb_page e phys s = Ret (- ERROR_DUPLICATION, s)) \/
  ((forall b, same_page PAGE_SIZE_2M b a -> kleaf s b = Unmapped) /\ exists s',
     install_2mb_page e phys s = Ret (ERROR_OK, s') /\ grown s T s' T /\
     k_phys s' = k_phys s /\ kslot s' a 2 = Some e /\
     forall b, 0 <= b < VA_LIMIT ->
       kleaf s' b = if decide (same_page PAGE_SIZE_2M b a) then Large (page_2m_entry phys)
                    else kleaf s b).
Proof.
  intros Hi Ha E Hal.
  destruct (is_present (load64 (k_mem s) e)) eqn:Hp.
  - left. split; [done|]. unfold install_2mb_page. mstep. unfold fget. unfold is_present in Hp. by rewrite Hp.
  - right. split.
    { intros b Hb. apply (leaf_absent _ _ b 2 e); [lia| |done].
      unfold kslot in E. rewrite <- E. by apply slot_prefix; [lia|]. }
    set (m' := fset (fset (fset (fset (memset (k_mem s) e 0x0 8) e present 1) e writable 1)
                 e page_size 1) e page_2m_address (Z.shiftr phys PAGE_SHIFT_2M)).
    assert (Hw : load64 m' e = page_2m_entry phys).
    { unfold m'. rewrite !load64_fset by (unfold field_ok; cbn; lia).
      unfold load64 at 1. rewrite load_memset_in by lia. done. }
    destruct (leaf_step s T a 2 e m' Hi Ha ltac:(lia) E) as (Hg & Hsl & Hother).
    + rewrite Hw. unfold klink. rewrite page_2m_entry_2mb. by rewrite !orb_true_r.
    + intros b Hb. unfold m'. rewrite !rd8_fset_out, rd8_memset by lia. case_decide; done || lia.
    + eexists. split; [|split; [exact Hg|split; [done|split]]].
      * apply install_2mb_writes; [done|]. by rewrite land_mask_2m.
      * by rewrite Hsl.
      * intros b Hb. change (3 - Z.of_nat 2) with 1 in *. unfold prefix in *.
        change (2 ^ (12 + 9 * 1)) with PAGE_SIZE_2M in *. unfold same_page.
        case_decide as Hd; [|by apply Hother].
        pose proof (Hsl b 2%nat Hb (le_n _)) as Hs3. unfold kslot in Hs3 at 2.
        rewrite (slot_prefix klink _ _ b a) in Hs3 by (done || lia). unfold kslot in E. rewrite E in Hs3.
        rewrite <- Hw. apply large_leaf; [done|]. cbn [k_mem]. rewrite Hw. apply page_2m_entry_2mb.
Qed.

(** ** [map_address] *)

(** The first two levels of [map_address]: either no page is left, or the
    level-2 entry of [va] is reachable. No translation changes. *)
Lemma map_upper_levels s T va (k : Z -> M kernel Z) :
  paging_inv s T -> 0 <= va < VA_LIMIT ->
  exists s' T', grown s T s' T' /\ (forall b, 0 <= b < VA_LIMIT -> kleaf s' b = kleaf s b) /\
   let run := (let! ok4 := install_level_4 (entry_at (pml4_base s) (LEVEL_4_INDEX va)) in
     if negb ok4 then ret (- ERROR_OUT_OF_MEMORY) else
     let! m := gets k_mem in
     let l3_entry := entry_at (shl_field pdp_entry_address
       (fget m (entry_at (pml4_base s) (LEVEL_4_INDEX va)) pdp_entry_address)
       PAGE_SHIFT_4K) (LEVEL_3_INDEX va) in
     let! ok3 := install_level_3 l3_entry in
     if negb ok3 then ret (- ERROR_OUT_OF_MEMORY) else
     let! m := gets k_mem in
     k (entry_at (shl_field pd_entry_address (fget m l3_entry pd_entry_address)
          PAGE_SHIFT_4K) (LEVEL_2_INDEX va))) s in
   (room_for 2 s -> spent 2 s s') /\
   ((run = Ret (- ERROR_OUT_OF_MEMORY, s') /\ ~ room_for 2 s) \/
    exists e2, kslot s' va 2 = Some e2 /\ run = k e2 s').
Proof.
  intros Hi Ha.
  rewrite level_4_index, level_3_index, level_2_index by done.
  destruct (install_step _ s T va 0 _ install_level_4_installs Hi Ha ltac:(lia) eq_refl)
    as (ok4 & s1 & T1 & H4 & G1 & W1 & E4 & P4 & R4 & N1); [done|].
  pose proof (step_spent s s1 T T1 va 0 _ ok4 P4 R4) as Sp4.
  change (4 - Z.of_nat 0) with 4 in *. cbv zeta.
  destruct ok4; cycle 1.
  { exists s1, T1. do 2 (split; [done|]). split; [intros Hro; by destruct (Sp4 2 ltac:(lia) Hro)|].
    left. split; [by run_with H4|]. intros Hro. by destruct (Sp4 2 ltac:(lia) Hro). }
  specialize (N1 eq_refl). change (4 - Z.of_nat 1) with 3 in N1.
  destruct (install_step _ s1 T1 va 1 _ install_level_3_installs (gr_inv _ _ _ _ G1) Ha ltac:(lia) N1)
    as (ok3 & s2 & T2 & H3 & G2 & W2 & E3 & P3 & R3 & N2); [done|].
  pose proof (step_spent s1 s2 T1 T2 va 1 _ ok3 P3 R3) as Sp3.
  assert (Sp : room_for 2 s -> ok3 = true /\ spent 2 s s2).
  { intros Hro. destruct (Sp4 2 ltac:(lia) Hro) as [_ X]. destruct (Sp3 1 ltac:(lia) (spent_room _ _ _ _ X Hro)) as [-> Y].
    split; [done|]. exact (spent_trans 1 1 _ _ _ X Y). }
  exists s2, T2. split; [by apply (grown_trans _ _ s1 T1)|].
  split; [intros b Hb; by rewrite W2, W1|].
  cbn zeta. split; [intros Hro; by apply Sp|]. unfold entry_at, fget. run_with H4. cbn [negb].
  rewrite (bind_run _ _ _ _ _ eq_refl). cbv beta.
  fold (table_of (load64 (k_mem s1) (pml4_base s + 8 * index 4 va))).
  run_with H3. destruct ok3; cbn [negb]; [|left; split; [done|intros Hro; by destruct (Sp Hro)]].
  right. specialize (N2 eq_refl). change (4 - Z.of_nat 2) with 2 in N2.
  eexists. split; [exact N2|]. rewrite (bind_run _ _ _ _ _ eq_refl). reflexivity.
Qed.

(** [va] lies in a 2 MiB page. *)
Definition in_large (s : kernel) (a : Z) : Prop := exists w, kleaf s a = Large w.

Lemma map_4k_run s T va phys :
  paging_inv s T -> 0 <= va < VA_LIMIT -> ~ in_large s va -> phys mod PAGE_SIZE_4K = 0 ->
  exists rc s' T', map_address va phys PAGE_SIZE_4K s = Ret (rc, s') /\ grown s T s' T' /\
    (room_for 3 s -> spent 3 s s' /\ rc <> - ERROR_OUT_OF_MEMORY) /\
    ((rc = - ERROR_OUT_OF_MEMORY /\ forall b, 0 <= b < VA_LIMIT -> kleaf s' b = kleaf s b) \/
     (rc = - ERROR_DUPLICATION /\ kleaf s va <> Unmapped /\
        forall b, 0 <= b < VA_LIMIT -> kleaf s' b = kleaf s b) \/
     (rc = ERROR_OK /\
        (forall b, 0 <= b < VA_LIMIT -> same_page PAGE_SIZE_4K b va -> kleaf s b = Unmapped) /\
        forall b, 0 <= b < VA_LIMIT -> kleaf s' b =
          if decide (same_page PAGE_SIZE_4K b va) then Small (table_entry phys) else kleaf s b)).
Proof.
  intros Hi Ha Hl Hal. unfold map_address. rewrite assert_run by done.
  rewrite (bind_run _ _ _ _ _ eq_refl). cbv beta zeta.
  assert (Hdown : forall n, room_for n s -> 2 <= n -> room_for 2 s) by (intros n [R1 R2] Hn; split; [done|unfold_consts; lia]).
  destruct (map_upper_levels s T va (map_lower_levels va phys PAGE_SIZE_4K) Hi Ha)
    as (s1 & T1 & G1 & W1 & Sp1 & [[R Hno]|(e2 & E2 & R)]).
  { exists (- ERROR_OUT_OF_MEMORY), s1, T1. split; [done|]. split; [done|]. split; [|auto].
    intros Hro. destruct Hno. by apply (Hdown 3). }
  cbv zeta in R. rewrite R. unfold map_lower_levels. change (PAGE_SIZE_4K =? PAGE_SIZE_2M) with false. cbv iota. clear R.
  destruct (install_step _ s1 T1 va 2 _ install_level_2_table_installs (gr_inv _ _ _ _ G1)
              Ha ltac:(lia) E2) as (ok2 & s2 & T2 & H2 & G2 & W2 & _ & P2 & R2 & N2).
  { intros _. destruct (is_2mb _) eqn:E; [|done]. destruct Hl. eexists.
    rewrite <- W1 by done. by apply large_leaf. }
  assert (Sp : room_for 3 s -> ok2 = true /\ spent 3 s s2).
  { intros Hro. pose proof (Sp1 (Hdown 3 Hro ltac:(lia))) as X.
    destruct (step_spent s1 s2 T1 T2 va 2 _ ok2 P2 R2 1 ltac:(lia) (spent_room _ _ _ _ X Hro)) as [-> Y].
    split; [done|]. exact (spent_trans 2 1 _ _ _ X Y). }
  pose proof (grown_trans _ _ _ _ _ _ G1 G2) as G.
  assert (W : forall b, 0 <= b < VA_LIMIT -> kleaf s2 b = kleaf s b).
  { intros b Hb. by rewrite W2, W1. }
  run_with H2. destruct ok2; cbn [negb]; cycle 1.
  { exists (- ERROR_OUT_OF_MEMORY), s2, T2. split; [done|]. split; [done|]. split; [|auto].
    intros Hro. by destruct (Sp Hro). }
  specialize (N2 eq_refl). change (4 - Z.of_nat 3) with 1 in N2.
  rewrite (bind_run _ _ _ _ _ eq_refl). cbv beta. rewrite level_1_index by done.
  change pt_entry_address with pdp_entry_address.
  unfold entry_at, fget. fold (table_of (load64 (k_mem s2) e2)).
  destruct (install_4k_run s2 T2 va _ phys (gr_inv _ _ _ _ G2) Ha N2 Hal)
    as [[Hm Hr]|(Hu & s3 & Hr & G3 & W3 & F3)].
  - rewrite W in Hm by done. eexists _, s2, T2. split; [exact Hr|]. split; [done|].
    split; [intros Hro; split; [by apply Sp|done]|]. auto 6.
  - eexists _, s3, T2. split; [exact Hr|]. split; [by apply (grown_trans _ _ s2 T2)|].
    split; [intros Hro; split; [|done]; destruct (Sp Hro) as [_ [X1 X2]]; unfold spent, next_page in *; by rewrite F3|].
    right; right. split; [done|]. split.
    + intros b Hb Hs. rewrite <- W by done. by apply Hu.
    + intros b Hb. rewrite W3 by done. by rewrite W.
Qed.

Lemma map_2m_run s T va phys :
  paging_inv s T -> 0 <= va < VA_LIMIT -> phys mod PAGE_SIZE_2M = 0 ->
  exists rc s' T', map_address va phys PAGE_SIZE_2M s = Ret (rc, s') /\ grown s T s' T' /\
    ((rc = - ERROR_OUT_OF_MEMORY /\ forall b, 0 <= b < VA_LIMIT -> kleaf s' b = kleaf s b) \/
     (rc = - ERROR_DUPLICATION /\ forall b, 0 <= b < VA_LIMIT -> kleaf s' b = kleaf s b) \/
     (rc = ERROR_OK /\
        (forall b, 0 <= b < VA_LIMIT -> same_page PAGE_SIZE_2M b va -> kleaf s b = Unmapped) /\
        forall b, 0 <= b < VA_LIMIT -> kleaf s' b =
          if decide (same_page PAGE_SIZE_2M b va) then Large (page_2m_entry phys) else kleaf s b)).
Proof.
  intros Hi Ha Hal. unfold map_address. rewrite assert_run by done.
  rewrite (bind_run _ _ _ _ _ eq_refl). cbv beta zeta.
  destruct (map_upper_levels s T va (map_lower_levels va phys PAGE_SIZE_2M) Hi Ha)
    as (s1 & T1 & G1 & W1 & _ & [[R _]|(e2 & E2 & R)]); [exists (- ERROR_OUT_OF_MEMORY), s1, T1; auto|].
  cbv zeta in R. rewrite R. unfold map_lower_levels. change (PAGE_SIZE_2M =? PAGE_SIZE_2M) with true. cbv iota. clear R.
  destruct (install_2mb_run s1 T1 va _ phys (gr_inv _ _ _ _ G1) Ha E2 Hal)
    as [[_ Hr]|(Hu & s3 & Hr & G3 & _ & _ & W3)].
  - eexists _, s1, T1. split; [exact Hr|]. auto 6.
  - eexists _, s3, T1. split; [exact Hr|]. split; [by apply (grown_trans _ _ s1 T1)|].
    right; right. split; [done|]. split.
    + intros b Hb Hs. rewrite <- W1 by done. by apply Hu.
    + intros b Hb. rewrite W3 by done. by rewrite W1.
Qed.

