(* ===== verification/PagingInit.v ===== *)
(** * PagingInit: [paging_init] of [memory/paging.c], and the properties of
    the kernel's page table. *)
From Stdlib Require Import ZArith Lia.
From stdpp Require Import base tactics list numbers gmap.
From S2P Require Import Prelude Memory PhysicalMemory Radix Paging.
Local Open Scope Z_scope.

(** ** [paging_init] *)

(** The tables that exist once the first [i] large pages are mapped, and how
    many pages they take. *)
Definition init_tables (r i : Z) : gmap Z (Z * Z) :=
  let T1 := {[r := (4, 0)]} in
  let T3 := <[r + 0x2000 := (2, 0)]> (<[r + 0x1000 := (3, 0)]> T1) in
  if i <=? 0 then T1 else if i <=? 512 then T3 else <[r + 0x3000 := (2, 1)]> T3.
Definition init_pages (i : Z) : Z := if i <=? 0 then 1 else if i <=? 512 then 3 else 4.

(** An entry leads to a table when the walk of a neighbour goes through it, and
    to none when the tree has no such table. *)
Lemma entry_present s a b d e e' : (d < 3)%nat -> kslot s b d = Some e ->
  kslot s a (S d) = Some e' -> prefix (3 - Z.of_nat d) a = prefix (3 - Z.of_nat d) b ->
  is_present (load64 (k_mem s) e) = true.
Proof.
  intros Hd Eb Ea Hp. unfold kslot in *.
  destruct (slot_succ _ _ _ _ _ _ Ea) as (e1 & q & E1 & L & _).
  rewrite (slot_prefix klink _ _ a b) in E1 by (done || lia).
  rewrite Eb in E1. injection E1 as <-. by apply klink_Some in L as [? _].
Qed.

Lemma entry_no_table s T a d e : paging_inv s T -> 0 <= a < VA_LIMIT -> (d < 3)%nat ->
  kslot s a d = Some e -> (forall q, T !! q <> Some (3 - Z.of_nat d, prefix (3 - Z.of_nat d) a)) ->
  klink (4 - Z.of_nat d) (load64 (k_mem s) e) = None.
Proof.
  intros Hi Ha Hd E Hno. destruct (klink _ _) as [q|] eqn:L; [|done]. exfalso. apply (Hno q).
  destruct (slot_owned klink _ _ _ _ d _ (pi_tree _ _ Hi) Ha ltac:(lia) E) as (p & Hp & ->).
  rewrite (tree_link _ _ _ _ (pi_tree _ _ Hi) _ _ _ _ _ Hp (index_range _ _) L).
  rewrite <- prefix_index by lia. by replace (4 - Z.of_nat d - 1) with (3 - Z.of_nat d) by lia.
Qed.

Lemma entry_absent s T a d e : paging_inv s T -> 0 <= a < VA_LIMIT -> (d < 2)%nat ->
  kslot s a d = Some e -> (forall q, T !! q <> Some (3 - Z.of_nat d, prefix (3 - Z.of_nat d) a)) ->
  is_present (load64 (k_mem s) e) = false.
Proof.
  intros Hi Ha Hd E Hno.
  pose proof (entry_no_table s T a d e Hi Ha ltac:(lia) E Hno) as L.
  destruct (is_present _) eqn:Hp; [|done].
  rewrite klink_link in L; [done|done|lia|lia].
Qed.

Lemma map_2m_unfold s va phys s1 s2 : 0 <= va < VA_LIMIT ->
  let e4 := pml4_base s + 8 * index 4 va in
  let e3 := table_of (load64 (k_mem s1) e4) + 8 * index 3 va in
  install_level_4 e4 s = Ret (true, s1) -> install_level_3 e3 s1 = Ret (true, s2) ->
  map_address va phys PAGE_SIZE_2M s =
  install_2mb_page (table_of (load64 (k_mem s2) e3) + 8 * index 2 va) phys s2.
Proof.
  intros Ha e4 e3 H4 H3. unfold map_address. rewrite assert_run by done.
  rewrite (bind_run _ _ _ _ _ eq_refl). cbv beta zeta.
  rewrite level_4_index, level_3_index, level_2_index by done.
  unfold entry_at. fold e4. run_with H4. cbn [negb].
  rewrite (bind_run _ _ _ _ _ eq_refl). cbv beta. unfold fget.
  fold (table_of (load64 (k_mem s1) e4)). fold e3. run_with H3. cbn [negb].
  rewrite (bind_run _ _ _ _ _ eq_refl). reflexivity.
Qed.

Lemma init_tables_next r i :
  init_tables r (i + 1) =
  if decide (i = 0) then <[r + 0x2000 := (2, 0)]> (<[r + 0x1000 := (3, 0)]> (init_tables r i))
  else if decide (i = 512) then <[r + 0x3000 := (2, 1)]> (init_tables r i)
  else init_tables r i.
Proof.
  unfold init_tables. do 2 (case_decide; [by subst|]).
  destruct (Z.leb_spec i 0) as [A|A], (Z.leb_spec (i + 1) 0) as [B|B], (Z.leb_spec i 512) as [C|C],
    (Z.leb_spec (i + 1) 512) as [D|D]; done || lia.
Qed.

Lemma init_tables_no r i q l x : 0 <= i -> (l = 1 \/ (l = 3 /\ i = 0) \/ (l = 2 /\ i = 0) \/
  (l = 2 /\ x = 1 /\ i <= 512)) -> init_tables r i !! q <> Some (l, x).
Proof.
  intros Hi0 H E. unfold init_tables in E.
  assert (Hin : forall (T : gmap Z (Z * Z)) p y, <[p := y]> T !! q = Some (l, x) ->
            y = (l, x) \/ T !! q = Some (l, x)).
  { intros T p y E'. rewrite lookup_insert in E'. case_decide; [left; congruence|by right]. }
  destruct (Z.leb_spec i 0).
  - rewrite lookup_singleton in E. case_decide; [|done]. injection E as <- <-. lia.
  - destruct (Z.leb_spec i 512);
      repeat (apply Hin in E as [[= <- <-]|E]; [lia|]); by rewrite lookup_empty in E.
Qed.

Lemma prefix_2m l i : 0 <= i < 1024 -> 1 <= l <= 4 ->
  prefix l (PAGE_SIZE_2M * i) = if l =? 1 then i else if l =? 2 then i / 512 else 0.
Proof.
  intros Hi Hl. unfold prefix, PAGE_SIZE_2M.
  assert (l = 1 \/ l = 2 \/ l = 3 \/ l = 4) as [-> | [-> | [-> | ->]]] by lia;
    cbn [Z.mul Z.add Z.eqb Pos.eqb Pos.mul Pos.add Z.pow Z.pow_pos Pos.iter]; zdiv.
Qed.

(** A level whose table exists, and one whose table has to be made. *)
Lemma level_old inst s T va d e a e' :
  installs inst -> paging_inv s T -> 0 <= va < VA_LIMIT -> (d < 2)%nat -> kslot s va d = Some e ->
  kslot s a (S d) = Some e' -> prefix (3 - Z.of_nat d) a = prefix (3 - Z.of_nat d) va ->
  inst e s = Ret (true, s) /\
  kslot s va (S d) = Some (table_of (load64 (k_mem s) e) + 8 * index (4 - Z.of_nat (S d)) va).
Proof.
  intros Hinst Hi Ha Hd E E' Hp.
  destruct (install_step _ s T va d _ Hinst Hi Ha ltac:(lia) E)
    as (ok & s1 & T1 & H & _ & _ & _ & P & _ & N); [lia|].
  destruct P as (-> & -> & ->); [by apply (entry_present s a va d e e'); [lia|..]|]. auto.
Qed.

Lemma level_new inst s T va d e :
  installs inst -> paging_inv s T -> 0 <= va < VA_LIMIT -> (d < 2)%nat -> kslot s va d = Some e ->
  (forall q, T !! q <> Some (3 - Z.of_nat d, prefix (3 - Z.of_nat d) va)) -> room s ->
  exists s', inst e s = Ret (true, s') /\
    paging_inv s' (<[next_page s := (3 - Z.of_nat d, prefix (3 - Z.of_nat d) va)]> T) /\
    pml4_base s' = pml4_base s /\
    k_phys s' = (k_phys s) <| current_avail_page := next_page s + PAGE_SIZE_4K |> /\
    (forall b, 0 <= b < VA_LIMIT -> kleaf s' b = kleaf s b) /\
    kslot s' va (S d) = Some (table_of (load64 (k_mem s') e) + 8 * index (4 - Z.of_nat (S d)) va) /\
    forall low b, above low T -> low <= next_page s -> b < low -> rd8 (k_mem s') b = rd8 (k_mem s) b.
Proof.
  intros Hinst Hi Ha Hd E Hno Hroom.
  destruct (install_step _ s T va d _ Hinst Hi Ha ltac:(lia) E)
    as (ok & s1 & T1 & H & G & W & _ & _ & A & N); [lia|].
  destruct A as (-> & -> & _ & Hp); [by apply (entry_absent s T va d e)|done|].
  exists s1. split; [done|]. unfold table_slot in G. rewrite <- prefix_index in G by lia.
  replace (4 - Z.of_nat d - 1) with (3 - Z.of_nat d) in G by lia.
  split_and!; try done; [apply G|apply G|auto|].
  intros low b Hab Hl Hb. by apply (grown_below low _ _ _ _ _ G).
Qed.

(** *** The loop, from memory [m0] with the root table at [r] *)
Section Init.
Context (m0 : memory) (ph : phys_state) (r : Z).

Record init_inv (i : Z) (s : kernel) : Prop := {
  ii_inv : paging_inv s (init_tables r i);
  ii_base : pml4_base s = r;
  ii_phys : k_phys s = ph <| current_avail_page := r + PAGE_SIZE_4K * init_pages i |>;
  ii_last : 0 < i -> exists e, kslot s (PAGE_SIZE_2M * (i - 1)) 2 = Some e;
  ii_leaf : forall b, 0 <= b < VA_LIMIT ->
    kleaf s b = if b <? PAGE_SIZE_2M * i then Large (page_2m_entry (PAGE_SIZE_2M * (b / PAGE_SIZE_2M)))
                else Unmapped;
  ii_below : forall b, b < r -> rd8 (k_mem s) b = rd8 m0 b }.

Lemma init_above i : above r (init_tables r i).
Proof.
  intros p y. unfold init_tables.
  repeat case_match; rewrite ?lookup_insert_Some; intros; 
    repeat match goal with H : _ \/ _ |- _ => destruct H | H : _ /\ _ |- _ => destruct H
      | H : _ !! _ = Some _ |- _ => apply lookup_insert_Some in H || apply lookup_singleton_Some in H end; lia.
Qed.

Hypothesis Hlo : addr_low4G ph <= r.
Hypothesis Hhi : r + 6 * PAGE_SIZE_4K <= addr_low4G ph + length_low4G ph.

(** After the upper tables of the [i]th page are there. *)
Record upper_ready (i : Z) (s s' : kernel) (e2 : Z) : Prop := {
  ur_inv : paging_inv s' (init_tables r (i + 1));
  ur_base : pml4_base s' = r;
  ur_phys : k_phys s' = ph <| current_avail_page := r + PAGE_SIZE_4K * init_pages (i + 1) |>;
  ur_slot : kslot s' (PAGE_SIZE_2M * i) 2 = Some e2;
  ur_leaf : forall b, 0 <= b < VA_LIMIT -> kleaf s' b = kleaf s b;
  ur_below : forall b, b < r -> rd8 (k_mem s') b = rd8 (k_mem s) b;
  ur_map : map_address (PAGE_SIZE_2M * i) (PAGE_SIZE_2M * i) PAGE_SIZE_2M s =
      install_2mb_page e2 (PAGE_SIZE_2M * i) s' }.

Lemma init_next i s : init_inv i s -> next_page s = r + PAGE_SIZE_4K * init_pages i.
Proof using. intros Hinv. unfold next_page. by rewrite (ii_phys _ _ Hinv). Qed.

Lemma init_room n s : k_phys s = ph <| current_avail_page := r + PAGE_SIZE_4K * n |> -> 0 <= n <= 4 -> room s.
Proof using Hlo Hhi. intros Hph Hn. unfold room. rewrite Hph. cbv [update]. cbn. unfold_consts. lia. Qed.

(** The first page: both tables are new. *)
Lemma upper_first s : init_inv 0 s -> exists s' e2, upper_ready 0 s s' e2.
Proof using Hlo Hhi.
  intros Hinv. pose proof (init_next 0 s Hinv) as En. destruct Hinv as [Hi Hb Hph _ Hleaf Hbelow].
  set (va := PAGE_SIZE_2M * 0). assert (Ha : 0 <= va < VA_LIMIT) by (unfold va, VA_LIMIT; lia).
  destruct (level_new _ s _ va 0 _ install_level_4_installs Hi Ha ltac:(lia) eq_refl)
    as (s1 & H4 & Hi1 & Hb1 & Hph1 & W1 & N1 & F1).
  { intros q. apply init_tables_no; lia. }
  { apply (init_room 1); [exact Hph|lia]. }
  change (4 - Z.of_nat 1) with 3 in N1. change (next_page s = r + 0x1000) in En.
  assert (En1 : next_page s1 = r + 0x2000).
  { unfold next_page at 1. rewrite Hph1. cbv [update]. cbn. rewrite En. unfold_consts. lia. }
  destruct (level_new _ s1 _ va 1 _ install_level_3_installs Hi1 Ha ltac:(lia) N1)
    as (s2 & H3 & Hi2 & Hb2 & Hph2 & W2 & N2 & F2).
  { intros q. rewrite lookup_insert. case_decide; [done|]. apply init_tables_no; lia. }
  { apply (init_room 2); [|lia]. rewrite Hph1, Hph, En. cbv [update]. cbn. f_equal. unfold_consts. lia. }
  change (3 - Z.of_nat 1) with 2 in *. change (3 - Z.of_nat 0) with 3 in *. change (4 - Z.of_nat 2) with 2 in N2.
  exists s2. eexists. split; [|congruence| |exact N2| | |].
  - rewrite init_tables_next. cbn [decide]. rewrite En1, En in Hi2. exact Hi2.
  - rewrite Hph2, En1, Hph1, Hph. cbv [update]. cbn. f_equal. change (init_pages (0 + 1)) with 3. unfold_consts. lia.
  - intros b Hb'. by rewrite W2, W1.
  - intros b Hb'. rewrite (F2 r), (F1 r); [done|apply init_above|unfold_consts; lia|done| |unfold_consts; lia|done].
    rewrite En. intros p y Hp. apply lookup_insert_Some in Hp as [[<- _]|[_ Hp]]; [unfold_consts; lia|by apply (init_above 0 p y)].
  - by apply (map_2m_unfold s va va s1 s2).
Qed.
(** Otherwise the walk of the page before goes through the tables that exist. *)
Lemma upper_old i s : 0 < i < 1024 -> init_inv i s ->
  let e4 := pml4_base s + 8 * index 4 (PAGE_SIZE_2M * i) in
  install_level_4 e4 s = Ret (true, s) /\
  kslot s (PAGE_SIZE_2M * i) 1 = Some (table_of (load64 (k_mem s) e4) + 8 * index 3 (PAGE_SIZE_2M * i)) /\
  exists e', kslot s (PAGE_SIZE_2M * (i - 1)) 2 = Some e'.
Proof using.
  intros Hi0 [Hi _ _ Hlast _ _]. destruct (Hlast ltac:(lia)) as [e Hl].
  destruct (slot_succ _ _ _ _ _ _ Hl) as (e1 & q & Hl1 & _ & _).
  assert (Ha : 0 <= PAGE_SIZE_2M * i < VA_LIMIT) by (unfold VA_LIMIT, PAGE_SIZE_2M; lia).
  destruct (level_old _ s _ (PAGE_SIZE_2M * i) 0 _ (PAGE_SIZE_2M * (i - 1)) e1 install_level_4_installs Hi Ha
              ltac:(lia) eq_refl Hl1) as [H4 N1].
  { change (3 - Z.of_nat 0) with 3. by rewrite !prefix_2m by lia. }
  split; [exact H4|]. split; [exact N1|]. by exists e.
Qed.

(** The page at 1 GiB needs a page directory. *)
Lemma upper_second s : init_inv 512 s -> exists s' e2, upper_ready 512 s s' e2.
Proof using Hlo Hhi.
  intros Hinv. pose proof (init_next 512 s Hinv) as En. change (next_page s = r + 0x3000) in En.
  destruct (upper_old 512 s ltac:(lia) Hinv) as (H4 & N1 & _).
  destruct Hinv as [Hi Hb Hph _ Hleaf Hbelow]. set (va := PAGE_SIZE_2M * 512) in *.
  assert (Ha : 0 <= va < VA_LIMIT) by (unfold va, VA_LIMIT, PAGE_SIZE_2M; lia).
  destruct (level_new _ s _ va 1 _ install_level_3_installs Hi Ha ltac:(lia) N1)
    as (s2 & H3 & Hi2 & Hb2 & Hph2 & W2 & N2 & F2).
  { intros q'. apply init_tables_no; [lia|]. by_compute. }
  { apply (init_room 3); [exact Hph|lia]. }
  change (4 - Z.of_nat 2) with 2 in N2.
  exists s2. eexists. split; [|congruence| |exact N2|done| |].
  - rewrite init_tables_next. cbn [decide]. rewrite En in Hi2. exact Hi2.
  - rewrite Hph2, En, Hph. cbv [update]. cbn. f_equal. change (init_pages (512 + 1)) with 4. unfold_consts. lia.
  - intros b Hb'. apply (F2 r); [apply init_above|unfold_consts; lia|done].
  - by apply (map_2m_unfold s va va s s2).
Qed.

(** Every other page finds both. *)
Lemma upper_same i s : 0 < i < 1024 -> i <> 512 -> init_inv i s -> exists e2, upper_ready i s s e2.
Proof using.
  intros Hi0 Hne Hinv. destruct (upper_old i s Hi0 Hinv) as (H4 & N1 & e' & Hl).
  destruct Hinv as [Hi Hb Hph _ Hleaf Hbelow]. set (va := PAGE_SIZE_2M * i) in *.
  assert (Ha : 0 <= va < VA_LIMIT) by (unfold va, VA_LIMIT, PAGE_SIZE_2M; lia).
  destruct (level_old _ s _ va 1 _ (PAGE_SIZE_2M * (i - 1)) e' install_level_3_installs Hi Ha
              ltac:(lia) N1 Hl) as [H3 N2].
  { change (3 - Z.of_nat 1) with 2. unfold va. rewrite !prefix_2m by lia. cbn. zdiv. }
  change (4 - Z.of_nat 2) with 2 in N2. eexists. split; [|done| |exact N2|done|done|].
  - rewrite init_tables_next. by rewrite !decide_False by lia.
  - rewrite Hph. unfold init_pages. repeat f_equal.
    destruct (Z.leb_spec i 0), (Z.leb_spec (i + 1) 0), (Z.leb_spec i 512), (Z.leb_spec (i + 1) 512); done || lia.
  - by apply (map_2m_unfold s va va s s).
Qed.

Lemma init_upper i s : 0 <= i < 1024 -> init_inv i s -> exists s' e2, upper_ready i s s' e2.
Proof using Hlo Hhi.
  intros Hi Hinv. destruct (decide (i = 0)) as [->|]; [by apply upper_first|].
  destruct (decide (i = 512)) as [->|]; [by apply upper_second|].
  exists s. apply upper_same; [lia|done|done].
Qed.

Lemma init_step i s : init_inv i s -> 0 <= i < 1024 ->
  exists s', map_address (PAGE_SIZE_2M * i) (PAGE_SIZE_2M * i) PAGE_SIZE_2M s =
    Ret (ERROR_OK, s') /\ init_inv (i + 1) s'.
Proof using Hlo Hhi.
  intros Hinv Hi0.
  destruct (init_upper i s Hi0 Hinv) as (s1 & e2 & [Hi1 Hb1 Hph1 E2 W1 F1 ->]).
  set (va := PAGE_SIZE_2M * i) in *.
  assert (Ha : 0 <= va < VA_LIMIT) by (unfold va, VA_LIMIT, PAGE_SIZE_2M; lia).
  assert (Hal : va mod PAGE_SIZE_2M = 0) by (unfold va; rewrite Z.mul_comm; by apply Z.mod_mul).
  destruct (install_2mb_run s1 _ va e2 va Hi1 Ha E2 Hal)
    as [[Hp _]|(_ & s2 & Hr & G2 & Hph2 & E2' & W2)].
  - exfalso. (* the entry is neither a large page nor a table *)
    pose proof (entry_no_table s1 _ va 2 e2 Hi1 Ha ltac:(lia) E2) as L.
    change (4 - Z.of_nat 2) with 2 in L. change (3 - Z.of_nat 2) with 1 in L.
    specialize (L ltac:(intros q; apply init_tables_no; lia)).
    destruct (is_2mb (load64 (k_mem s1) e2)) eqn:E; [|by rewrite klink_link in L].
    pose proof (large_leaf s1 va e2 E2 E) as Hlf.
    rewrite W1, (ii_leaf _ _ Hinv) in Hlf by done.
    destruct (Z.ltb_spec va (PAGE_SIZE_2M * i)); [unfold va in *; lia|done].
  - exists s2. split; [done|]. split.
    + apply G2.
    + rewrite (gr_base _ _ _ _ G2). done.
    + by rewrite Hph2.
    + intros _. exists e2. by replace (i + 1 - 1) with i by lia.
    + intros b Hb. rewrite W2, W1, (ii_leaf _ _ Hinv) by done.
      assert (Hv : va / PAGE_SIZE_2M = i).
      { unfold va. rewrite Z.mul_comm. by apply Z.div_mul. }
      case_decide as Hs; unfold same_page in Hs; rewrite Hv in Hs; unfold va; unfold_consts.
      * destruct (Z.ltb_spec b (0x200000 * (i + 1))); [by rewrite Hs|zdiv].
      * destruct (Z.ltb_spec b (0x200000 * i)), (Z.ltb_spec b (0x200000 * (i + 1))); done || zdiv.
    + intros b Hb. rewrite (grown_below r _ _ _ _ b G2), F1; [by apply Hinv|done|apply init_above| |done].
      unfold next_page. rewrite Hph1. cbn. unfold init_pages. repeat case_match; unfold_consts; lia.
Qed.

Lemma init_loop n i s : init_inv i s -> 0 <= i -> i + Z.of_nat n = 1024 ->
  exists s', mfor n i (fun i =>
    let virt_addr := PAGE_SIZE_2M * i in
    let! rc := map_address virt_addr virt_addr PAGE_SIZE_2M in
    assert (rc =? ERROR_OK)) s = Ret (tt, s') /\ init_inv 1024 s'.
Proof using Hlo Hhi.
  revert i s. induction n as [|n IH]; intros i s Hinv Hi Hn.
  - exists s. replace i with 1024 in Hinv by lia. done.
  - destruct (init_step i s Hinv ltac:(lia)) as (s1 & H1 & Hinv1).
    destruct (IH (i + 1) s1 Hinv1 ltac:(lia) ltac:(lia)) as (s' & Hr & Hinv').
    exists s'. split; [|done]. cbn [mfor]. rewrite <- Hr. unfold bind at 1 2. rewrite H1.
    reflexivity.
Qed.
End Init.

Lemma init_start m ph r : phys_ok (ph <| current_avail_page := r + PAGE_SIZE_4K |>) ->
  r mod PAGE_SIZE_4K = 0 ->
  init_inv m ph r 0 (Kernel (memset m r 0x0 PAGE_SIZE_4K)
    (ph <| current_avail_page := r + PAGE_SIZE_4K |>) r).
Proof.
  intros Hok Hal. set (s := Kernel _ _ _).
  assert (Hz : forall j, 0 <= j < 512 -> load64 (k_mem s) (r + 8 * j) = 0).
  { intros j Hj. cbn [s k_mem]. apply load_memset_in; unfold_consts; lia. }
  split.
  - split; [exact Hok| |].
    + split; unfold init_tables; cbn [Z.leb Z.compare].
      * apply lookup_singleton_eq.
      * intros p l x [<- [= <- <-]]%lookup_singleton_Some. split; [exact Hal|lia].
      * intros p l x i q [<- [= <- <-]]%lookup_singleton_Some Hj L.
        rewrite Hz, klink_0 in L by exact Hj. discriminate.
    + unfold init_tables; cbn [Z.leb Z.compare].
      intros p l x [<- [= <- <-]]%lookup_singleton_Some. apply Z.le_refl.
  - reflexivity.
  - reflexivity.
  - lia.
  - intros b Hb. destruct (Z.ltb_spec b (PAGE_SIZE_2M * 0)); [lia|].
    apply (leaf_absent _ _ b 0 _ ltac:(lia) eq_refl).
    cbn [pml4_base s]. rewrite Hz by apply index_range. done.
  - intros b Hb. cbn [s k_mem]. rewrite rd8_memset by (unfold_consts; lia).
    by rewrite decide_False by lia.
Qed.

(** [paging_init] in full; the properties below state parts of it. *)
Lemma paging_init_run s :
  kernel_ok s -> addr_low4G (k_phys s) <= next_page s ->
  next_page s + 6 * PAGE_SIZE_4K <= addr_low4G (k_phys s) + length_low4G (k_phys s) ->
  exists s' T', paging_init s = Ret (tt, s') /\ paging_inv s' T' /\
    pml4_base s' = next_page s /\ next_page s' = next_page s + 4 * PAGE_SIZE_4K /\
    k_phys s' = (k_phys s) <| current_avail_page := next_page s + 4 * PAGE_SIZE_4K |> /\
    above (next_page s) T' /\ (forall b, b < next_page s -> rd8 (k_mem s') b = rd8 (k_mem s) b) /\
    (forall va, INITIAL_VA_CEILING <= va < VA_LIMIT -> kleaf s' va = Unmapped) /\
    forall va, 0 <= va < VA_LIMIT ->
      pa s' va = if va <? INITIAL_VA_CEILING then va else translation_error.
Proof.
  destruct s as [m ph b]. intros Hok Hlo Hhi. unfold next_page, kernel_ok in *. cbn [k_phys] in *.
  set (r := current_avail_page ph) in *.
  assert (Hok' : phys_ok (ph <| current_avail_page := r + PAGE_SIZE_4K |>)).
  { unfold phys_ok in *. cbv [update]. cbn. unfold_consts. split_and!; try lia. zdiv. }
  destruct (init_loop m ph r Hlo ltac:(done) 1024 0 _ (init_start m ph r Hok' ltac:(apply Hok)) ltac:(lia) ltac:(lia)) as (s' & Hr & Hinv).
  exists s', (init_tables r 1024). split_and!; [|apply Hinv|apply Hinv| |apply Hinv|apply init_above|apply Hinv| |].
  - rewrite <- Hr. unfold paging_init, get_physical_page.
    rewrite (bind_run _ _ _ _ _ (get_physical_page_room (Kernel m ph b) Hok Hlo ltac:(cbn; unfold_consts; lia))).
    cbv [update]. cbn [k_phys]. fold r. reflexivity.
  - rewrite (ii_phys _ _ _ _ _ Hinv). done.
  - intros va Ha. rewrite (ii_leaf _ _ _ _ _ Hinv) by (unfold INITIAL_VA_CEILING in *; lia).
    change (PAGE_SIZE_2M * 1024) with INITIAL_VA_CEILING. by rewrite (proj2 (Z.ltb_ge _ _)) by lia.
  - intros va Ha. rewrite pa_walk by done. unfold walk. fold (kleaf s' va).
    rewrite (ii_leaf _ _ _ _ _ Hinv) by done. change (PAGE_SIZE_2M * 1024) with INITIAL_VA_CEILING.
    destruct (Z.ltb_spec va INITIAL_VA_CEILING); [|done].
    unfold INITIAL_VA_CEILING in *. rewrite translate_2m; unfold_consts; zdiv.
Qed.

(** ** Properties *)

(** The address space a page table gives: the abstract map that [map_address]
    and [pa] implement. *)
Definition aspace (s : kernel) (a : Z) : option Z :=
  if decide (pa s a = translation_error) then None else Some (pa s a).
Definition map_page (f : Z -> option Z) (size va phys : Z) : Z -> option Z := fun b =>
  if decide (same_page size b va) then Some (phys + b mod size) else f b.

Lemma aspace_leaf s a : 0 <= a < VA_LIMIT ->
  aspace s a = match kleaf s a with Unmapped => None | l => Some (translate l a) end.
Proof.
  intros Ha. unfold aspace. rewrite pa_walk by done. unfold walk. fold (kleaf s a).
  case_decide as E; destruct (kleaf s a) eqn:El; try done.
  1,2: by apply translate_mapped in E.
Qed.

(** *** Pages of devices, mapped onto themselves *)
Definition page_mapped (s s' : kernel) (va : Z) : Prop := forall b, 0 <= b < VA_LIMIT ->
  kleaf s' b = if decide (same_page PAGE_SIZE_4K b va) then Small (table_entry va) else kleaf s b.

Lemma page_mapped_aspace s s' va b : page_mapped s s' va -> 0 <= va < PHYS_LIMIT -> va mod PAGE_SIZE_4K = 0 ->
  0 <= b < VA_LIMIT -> aspace s' b = map_page (aspace s) PAGE_SIZE_4K va va b.
Proof.
  intros H Ha Hal Hb. unfold map_page. rewrite !aspace_leaf, H by done.
  case_decide; [|done]. by rewrite translate_4k.
Qed.

(** The tables are a tree at or above [low]; below it memory stays as it was. *)
Record tables_above (low : Z) (s : kernel) : Prop := {
  ta_tables : exists T, paging_inv s T /\ above low T;
  ta_low : low <= next_page s }.
Record same_below (low : Z) (s s' : kernel) : Prop := {
  sb_root : pml4_base s' = pml4_base s;
  sb_memory : forall b, b < low -> rd8 (k_mem s') b = rd8 (k_mem s) b }.

Lemma same_below_trans low s1 s2 s3 : same_below low s1 s2 -> same_below low s2 s3 -> same_below low s1 s3.
Proof. intros [R1 M1] [R2 M2]. split; [congruence|]. intros b Hb. by rewrite M2, M1. Qed.

Lemma tables_above_grown low s T s' T' : above low T -> low <= next_page s -> grown s T s' T' ->
  tables_above low s' /\ same_below low s s'.
Proof.
  intros Ha Hl G. pose proof (gr_next _ _ _ _ G). split; split.
  - exists T'. split; [apply G|]. by apply (grown_above low s T s').
  - lia.
  - apply G.
  - intros b Hb. by apply (grown_below low s T s' T').
Qed.

Lemma map_device_page low s va :
  tables_above low s -> 0 <= va < VA_LIMIT -> va mod PAGE_SIZE_4K = 0 -> kleaf s va = Unmapped -> room_for 3 s ->
  exists s', map_address va va PAGE_SIZE_4K s = Ret (ERROR_OK, s') /\ tables_above low s' /\ same_below low s s' /\
    spent 3 s s' /\ page_mapped s s' va.
Proof.
  intros [(T & Hi & Hab) Hl] Ha Hal Hu Hro.
  destruct (map_4k_run s T va va Hi Ha ltac:(intros [w Hw]; congruence) Hal)
    as (rc & s' & T' & Hr & G & Sp & W). destruct (Sp Hro) as [Sp' Hne].
  destruct W as [[-> _]|[(-> & Hm & _)|(-> & _ & W)]]; [done|done|].
  destruct (tables_above_grown low _ _ _ _ Hab Hl G). by exists s'.
Qed.

Lemma map_device_again low s va w :
  tables_above low s -> 0 <= va < VA_LIMIT -> va mod PAGE_SIZE_4K = 0 -> kleaf s va = Small w -> room_for 3 s ->
  exists s', map_address va va PAGE_SIZE_4K s = Ret (- ERROR_DUPLICATION, s') /\ tables_above low s' /\
    same_below low s s' /\ spent 3 s s' /\ forall b, 0 <= b < VA_LIMIT -> kleaf s' b = kleaf s b.
Proof.
  intros [(T & Hi & Hab) Hl] Ha Hal Hm Hro.
  destruct (map_4k_run s T va va Hi Ha ltac:(intros [x Hx]; congruence) Hal)
    as (rc & s' & T' & Hr & G & Sp & W). destruct (Sp Hro) as [Sp' Hne].
  destruct W as [[-> _]|[(-> & _ & W)|(-> & Hu & _)]]; [done| |].
  - destruct (tables_above_grown low _ _ _ _ Hab Hl G). by exists s'.
  - rewrite (Hu va Ha eq_refl) in Hm. done.
Qed.

(** *** A 4 KiB request inside a 2 MiB page *)
Lemma is_present_odd w : is_present w = Z.odd w.
Proof.
  unfold is_present, get_bits. change (bf_lo present) with 0. change (bf_len present) with 1.
  rewrite Z.shiftr_0_r, Z.land_ones by lia. change (2 ^ 1) with 2. rewrite Zmod_odd.
  by destruct (Z.odd w).
Qed.

(** The words of a page-table entry and of a 2 MiB page: the frame with the present, writable
    and page-size bits. *)
Lemma set_frame w f p : 0 <= bf_lo f <= bf_len f -> 40 <= bf_len f -> bf_lo f + bf_len f = 64 ->
  0 <= w < 2 ^ bf_lo f -> Z.ldiff w (Z.shiftl (Z.ones (bf_len f)) (bf_lo f)) = w ->
  0 <= p < 2 ^ 40 -> p mod 2 ^ bf_lo f = 0 -> set_bits w f (Z.shiftr p (bf_lo f)) = p + w.
Proof.
  intros Hlo Hlen Hsum Hw Hld Hp Hal. unfold set_bits. rewrite Hld.
  pose proof (Z.div_mod p (2 ^ bf_lo f) ltac:(lia)) as E. rewrite Hal, Z.add_0_r, Z.mul_comm in E.
  rewrite Z.land_ones, Z.shiftr_div_pow2, Z.shiftl_mul_pow2 by lia.
  rewrite (Z.mod_small (p / _)).
  - rewrite <- E, Z.lor_comm, <- (Z.mod_small w (2 ^ bf_lo f)) at 1 by done.
    rewrite lor_aligned by lia. by rewrite (Z.mod_small w).
  - pose proof (Z.pow_le_mono_r 2 40 (bf_len f) ltac:(lia) ltac:(lia)).
    pose proof (Z.div_le_upper_bound p (2 ^ bf_lo f) p ltac:(lia) ltac:(nia)).
    pose proof (Z.div_pos p (2 ^ bf_lo f) ltac:(lia) ltac:(lia)). lia.
Qed.

Lemma table_entry_value p : 0 <= p < PHYS_LIMIT -> p mod PAGE_SIZE_4K = 0 -> table_entry p = p + 3.
Proof. intros Hp Hal. by apply (set_frame 3 pdp_entry_address). Qed.

Lemma page_2m_entry_value p : 0 <= p < PHYS_LIMIT -> p mod PAGE_SIZE_2M = 0 -> page_2m_entry p = p + 0x83.
Proof. intros Hp Hal. by apply (set_frame 0x83 page_2m_address). Qed.

Lemma large_slot s va w : kleaf s va = Large w ->
  exists e, kslot s va 2 = Some e /\ load64 (k_mem s) e = w.
Proof.
  unfold kleaf, leaf, kslot. destruct (slot _ _ _ va 2) as [e|]; [|done].
  destruct (is_2mb _); [intros [= <-]; by exists e|].
  destruct (slot _ _ _ va 3); [|done]. by destruct (is_present _).
Qed.

Lemma page_2m_entry_frame p : 0 <= p < PHYS_LIMIT -> p mod PAGE_SIZE_2M = 0 ->
  is_present (page_2m_entry p) = true /\ table_of (page_2m_entry p) = p.
Proof.
  intros Hp Hal. split; [by destruct (andb_prop _ _ (page_2m_entry_2mb p))|].
  rewrite page_2m_entry_value by done. unfold table_of, shl_field, wrap.
  rewrite get_bits_spec by (vm_compute; discriminate).
  change (bf_lo pdp_entry_address) with 12. change (bf_len pdp_entry_address) with 52.
  unfold_consts. rewrite Z.shiftl_mul_pow2 by lia.
  change (2 ^ 40) with 1099511627776 in Hp. change (2 ^ 12) with 4096. change (2 ^ 52) with 4503599627370496. zdiv.
Qed.

(** The data at an offset of a large page. *)
Lemma large_page_data s va frame o : 0 <= va < VA_LIMIT -> 0 <= frame < PHYS_LIMIT ->
  frame mod PAGE_SIZE_2M = 0 -> kleaf s va = Large (page_2m_entry frame) -> 0 <= o < PAGE_SIZE_2M ->
  aspace s (va - va mod PAGE_SIZE_2M + o) = Some (frame + o).
Proof.
  intros Ha Hf Hal Hl Ho. destruct (large_slot _ _ _ Hl) as (e & E & L). set (b := va - _ + o).
  assert (Hb : 0 <= b < VA_LIMIT /\ b mod PAGE_SIZE_2M = o /\ prefix 1 b = prefix 1 va).
  { unfold b, VA_LIMIT, prefix in *. unfold_consts. change (2 ^ (12 + 9 * 1)) with 0x200000. zdiv. }
  destruct Hb as (Hb & Hm & Hpre).
  rewrite aspace_leaf, (large_leaf s b e), L by
    (done || (unfold kslot in *; rewrite (slot_prefix klink _ _ b va); done || lia) || (rewrite L; apply page_2m_entry_2mb)).
  by rewrite translate_2m, Hm.
Qed.

Lemma lower_levels_large s e va phys frame : 0 <= va < VA_LIMIT -> 0 <= frame < PHYS_LIMIT ->
  frame mod PAGE_SIZE_2M = 0 -> load64 (k_mem s) e = page_2m_entry frame ->
  map_lower_levels va phys PAGE_SIZE_4K e s = install_4k_page (frame + 8 * index 1 va) phys s.
Proof.
  intros Ha Hf Hal L. destruct (page_2m_entry_frame frame Hf Hal) as [Hp Ht].
  assert (H2 : install_level_2_table e s = Ret (true, s)).
  { unfold is_present in Hp. unfold install_level_2_table. mstep. unfold fget. by rewrite L, Hp. }
  unfold map_lower_levels. change (PAGE_SIZE_4K =? PAGE_SIZE_2M) with false. cbv iota.
  run_with H2. cbn [negb]. rewrite (bind_run _ _ _ _ _ eq_refl). cbv beta zeta. unfold entry_at, fget.
  change pt_entry_address with pdp_entry_address. rewrite L. fold (table_of (page_2m_entry frame)).
  by rewrite Ht, level_1_index.
Qed.

(** No level is missing on the way to a large page, whose frame is then indexed. *)
Lemma map_4k_large s T va phys frame : paging_inv s T -> 0 <= va < VA_LIMIT ->
  0 <= frame < PHYS_LIMIT -> frame mod PAGE_SIZE_2M = 0 -> kleaf s va = Large (page_2m_entry frame) ->
  map_address va phys PAGE_SIZE_4K s = install_4k_page (frame + 8 * index 1 va) phys s.
Proof.
  intros Hi Ha Hf Hal Hl. destruct (large_slot _ _ _ Hl) as (e2 & E2 & L2).
  destruct (slot_succ _ _ _ _ _ _ E2) as (e3 & q3 & E3 & _).
  destruct (level_old _ s T va 0 _ va e3 install_level_4_installs Hi Ha ltac:(lia) eq_refl E3 eq_refl) as [H4 N1].
  destruct (level_old _ s T va 1 _ va e2 install_level_3_installs Hi Ha ltac:(lia) N1 E2 eq_refl) as [H3 N2].
  change (4 - Z.of_nat 0) with 4 in *. change (4 - Z.of_nat 1) with 3 in *. change (4 - Z.of_nat 2) with 2 in *.
  rewrite E2 in N2. injection N2 as ->.
  unfold map_address. rewrite assert_run by done. rewrite (bind_run _ _ _ _ _ eq_refl). cbv beta zeta.
  rewrite level_4_index, level_3_index, level_2_index by done. unfold entry_at. run_with H4. cbn [negb].
  rewrite (bind_run _ _ _ _ _ eq_refl). cbv beta. unfold fget. fold (table_of (load64 (k_mem s) (pml4_base s + 8 * index 4 va))).
  run_with H3. cbn [negb]. rewrite (bind_run _ _ _ _ _ eq_refl). cbv beta.
  by apply lower_levels_large.
Qed.

Lemma install_4k_duplicate s e phys : is_present (load64 (k_mem s) e) = true ->
  install_4k_page e phys s = Ret (- ERROR_DUPLICATION, s).
Proof. intros Hp. unfold install_4k_page. mstep. unfold fget. unfold is_present in Hp. by rewrite Hp. Qed.

(** Installing an "entry" outside the tables changes eight bytes and no translation. *)
Lemma install_4k_outside s T e phys : paging_inv s T ->
  (forall b, e <= b < e + 8 -> ~ in_tables T b) ->
  is_present (load64 (k_mem s) e) = false -> phys mod PAGE_SIZE_4K = 0 ->
  exists s', install_4k_page e phys s = Ret (ERROR_OK, s') /\
    (forall b, 0 <= b < VA_LIMIT -> kleaf s' b = kleaf s b) /\
    load64 (k_mem s') e = table_entry phys /\
    (forall b, ~ (e <= b < e + 8) -> rd8 (k_mem s') b = rd8 (k_mem s) b).
Proof.
  intros Hi Hout Hp Hal. eexists. split; [apply install_4k_writes; [done|by rewrite land_mask_4k]|].
  set (s' := Kernel _ _ _).
  assert (Hfr : forall b, ~ (e <= b < e + 8) -> rd8 (k_mem s') b = rd8 (k_mem s) b).
  { intros b Hb. cbn [s' k_mem]. rewrite !rd8_fset_out, rd8_memset by lia. case_decide; done || lia. }
  split; [|split; [|exact Hfr]].
  - apply (tables_frame s s' T); [done|apply Hi|apply Z.le_refl|done|].
    intros b Hb. apply Hfr. intros Hin. by apply (Hout b).
  - cbn [s' k_mem]. rewrite !load64_fset by (unfold field_ok; cbn; lia).
    unfold load64 at 1. rewrite load_memset_in by lia. done.
Qed.

(** C5 [map_address] refines insertion into an address map. For a page-aligned
    physical address and either page size it always returns (no assertion
    fails). On [ERROR_OK] no address of the page was mapped before, the page now
    translates to the requested frame and every other address of the 48-bit space
    translates as before; on [-ERROR_DUPLICATION] and [-ERROR_OUT_OF_MEMORY] no
    translation changes, and a 4 KiB duplication means the page was mapped. In
    every case the tables stay a tree built from fresh allocator pages and memory
    outside them is untouched ([grown]). The case excluded is a 4 KiB request
    inside an existing 2 MiB page. *)
Theorem map_address_refines s T va phys size :
  paging_inv s T -> 0 <= va < VA_LIMIT -> 0 <= phys < PHYS_LIMIT ->
  size = PAGE_SIZE_4K \/ size = PAGE_SIZE_2M -> phys mod size = 0 ->
  (size = PAGE_SIZE_4K -> ~ in_large s va) ->
  exists rc s' T', map_address va phys size s = Ret (rc, s') /\ grown s T s' T' /\
    ((rc = ERROR_OK /\
      (forall b, 0 <= b < VA_LIMIT -> same_page size b va -> aspace s b = None) /\
      (forall b, 0 <= b < VA_LIMIT -> aspace s' b = map_page (aspace s) size va phys b)) \/
     ((rc = - ERROR_DUPLICATION \/ rc = - ERROR_OUT_OF_MEMORY) /\
      (forall b, 0 <= b < VA_LIMIT -> aspace s' b = aspace s b) /\
      (size = PAGE_SIZE_4K -> rc = - ERROR_DUPLICATION -> aspace s va <> None))).
Proof.
  intros Hi Ha Hph Hsize Hal Hlarge.
  destruct Hsize as [-> | ->].
  - destruct (map_4k_run s T va phys Hi Ha (Hlarge eq_refl) Hal)
      as (rc & s' & T' & Hr & G & _ & [[-> W]|[(-> & Hm & W)|(-> & Hu & W)]]);
      exists rc, s', T' || eexists _, s', T'; split; try exact Hr; split; try exact G.
    + right. split; [by right|]. split; [|done]. intros b Hb. by rewrite !aspace_leaf, W by done.
    + right. split; [by left|]. split; [intros b Hb; by rewrite !aspace_leaf, W by done|].
      intros _ _. rewrite aspace_leaf by done. by destruct (kleaf s va).
    + left. split; [done|]. split; intros b Hb.
      * intros Hs. by rewrite aspace_leaf, Hu by done.
      * unfold map_page. rewrite !aspace_leaf, W by done.
        case_decide; [|done]. by rewrite translate_4k by done.
  - destruct (map_2m_run s T va phys Hi Ha Hal)
      as (rc & s' & T' & Hr & G & [[-> W]|[(-> & W)|(-> & Hu & W)]]);
      eexists _, s', T'; split; try exact Hr; split; try exact G.
    + right. split; [by right|]. split; [|done]. intros b Hb. by rewrite !aspace_leaf, W by done.
    + right. split; [by left|]. split; [|done]. intros b Hb. by rewrite !aspace_leaf, W by done.
    + left. split; [done|]. split; intros b Hb.
      * intros Hs. by rewrite aspace_leaf, Hu by done.
      * unfold map_page. rewrite !aspace_leaf, W by done.
        case_decide; [|done]. by rewrite translate_2m by done.
Qed.

(** A kernel with an empty root table at [0x600000]. *)
Definition empty_root : kernel :=
  Kernel (memset ∅ 0x600000 0x0 PAGE_SIZE_4K)
    (sample_phys <| current_avail_page := 0x601000 |>) 0x600000.

Lemma empty_root_inv : paging_inv empty_root (init_tables 0x600000 0).
Proof.
  apply (ii_inv ∅ sample_phys 0x600000 0).
  apply (init_start ∅ sample_phys 0x600000); by_compute.
Qed.

Lemma empty_root_unmapped va : 0 <= va < VA_LIMIT -> kleaf empty_root va = Unmapped.
Proof.
  intros Ha. rewrite (ii_leaf _ _ _ _ _ (init_start ∅ sample_phys 0x600000 ltac:(by_compute) eq_refl)) by done.
  by rewrite Z.mul_0_r, (proj2 (Z.ltb_ge va 0)) by lia.
Qed.

Lemma map_address_refines_witness :
  exists s', map_address 0xfee00000 0xfee00000 PAGE_SIZE_4K empty_root = Ret (ERROR_OK, s') /\
    pa s' 0xfee00020 = 0xfee00020.
Proof.
  destruct (map_address_refines empty_root (init_tables 0x600000 0) 0xfee00000 0xfee00000 PAGE_SIZE_4K)
    as (rc & s' & T' & Hr & _ & _).
  - exact empty_root_inv.
  - by_compute.
  - by_compute.
  - by left.
  - reflexivity.
  - intros _ [w Hw]. by rewrite empty_root_unmapped in Hw by by_compute.
  - assert (E : observe (fun s => pa s 0xfee00020)
        (map_address 0xfee00000 0xfee00000 PAGE_SIZE_4K empty_root) = Some (ERROR_OK, 0xfee00020))
      by (vm_compute; reflexivity).
    rewrite Hr in E. injection E as -> E. exists s'. split; [exact Hr|exact E].
Defined.

(** C15 [paging_init] completes whenever the low segment has six free pages: it
    never trips an assertion, takes four pages, leaves all memory below the
    allocator's mark untouched, and the resulting page table is the identity on
    the first 2 GiB and maps nothing above, over the whole 48-bit space. *)
Theorem paging_init_identity s :
  kernel_ok s -> addr_low4G (k_phys s) <= next_page s ->
  next_page s + 6 * PAGE_SIZE_4K <= addr_low4G (k_phys s) + length_low4G (k_phys s) ->
  exists s', paging_init s = Ret (tt, s') /\ tables_above (next_page s) s' /\
    pml4_base s' = next_page s /\ next_page s' = next_page s + 4 * PAGE_SIZE_4K /\
    (forall b, b < next_page s -> rd8 (k_mem s') b = rd8 (k_mem s) b) /\
    forall va, 0 <= va < VA_LIMIT -> aspace s' va = if va <? INITIAL_VA_CEILING then Some va else None.
Proof.
  intros Hok Hlo Hhi.
  destruct (paging_init_run s Hok Hlo Hhi) as (s' & T' & Hr & Hi & Hb & Hn & _ & Hab & Hm & _ & Hpa).
  exists s'. split; [exact Hr|]. split; [split; [by exists T'|unfold_consts; lia]|].
  split_and!; [done|done|done|]. intros va Ha. unfold aspace. rewrite Hpa by done.
  destruct (va <? INITIAL_VA_CEILING); [|done]. rewrite decide_False; [done|]. change translation_error with (2 ^ 64 - 1). unfold VA_LIMIT in Ha. lia.
Qed.

Lemma paging_init_identity_witness :
  exists s', paging_init sample_kernel = Ret (tt, s') /\ pml4_base s' = 0x601000 /\
    aspace s' 0x7fffffff = Some 0x7fffffff /\ aspace s' 0x80000000 = None.
Proof.
  destruct (paging_init_identity sample_kernel) as (s' & Hr & _ & Hb & _ & _ & Hpa).
  - by_compute.
  - by_compute.
  - by_compute.
  - exists s'. split; [exact Hr|]. split; [exact Hb|]. split; rewrite Hpa by by_compute; reflexivity.
Defined.

(** C31 A 4 KiB request inside a 2 MiB page: [map_address] does not look at the
    entry's [page_size] bit, so it takes the large page's frame for a page table.
    For every address [va] in a large page with frame [frame], the eight data bytes
    of that page at the offset of [va]'s level-1 entry (the address [data], mapped to
    [entry]) decide: when their lowest bit is clear the request reports success,
    yet no address translates differently, [va] still into the large page, and the
    eight bytes have become the page-table entry (present and writable) of the requested
    frame, no other byte being written; when it is set the answer is
    [-ERROR_DUPLICATION] and nothing changes. The page tables themselves are assumed
    not to lie in those bytes. *)
Theorem map_4k_in_large_page_overwrites_memory s T va phys frame :
  paging_inv s T -> 0 <= va < VA_LIMIT ->
  0 <= frame < PHYS_LIMIT -> frame mod PAGE_SIZE_2M = 0 -> kleaf s va = Large (page_2m_entry frame) ->
  0 <= phys < PHYS_LIMIT -> phys mod PAGE_SIZE_4K = 0 ->
  let offset := 8 * ((va / PAGE_SIZE_4K) mod 512) in
  let data := va - va mod PAGE_SIZE_2M + offset in
  let entry := frame + offset in
  (forall b, entry <= b < entry + 8 -> ~ in_tables T b) ->
  aspace s va = Some (frame + va mod PAGE_SIZE_2M) /\ aspace s data = Some entry /\
  if Z.odd (load64 (k_mem s) entry)
  then map_address va phys PAGE_SIZE_4K s = Ret (- ERROR_DUPLICATION, s)
  else exists s', map_address va phys PAGE_SIZE_4K s = Ret (ERROR_OK, s') /\
    (forall b, 0 <= b < VA_LIMIT -> aspace s' b = aspace s b) /\
    load64 (k_mem s') entry = phys + 3 /\
    (forall b, ~ (entry <= b < entry + 8) -> rd8 (k_mem s') b = rd8 (k_mem s) b).
Proof.
  intros Hi Ha Hf Hfal Hl Hp Hpal offset data entry Hout.
  assert (Ho : 0 <= offset < PAGE_SIZE_2M) by (unfold offset, PAGE_SIZE_2M; zdiv).
  split; [by rewrite aspace_leaf, Hl, translate_2m|]. split.
  { unfold data. by apply large_page_data. }
  rewrite (map_4k_large s T va phys frame) by done.
  change (frame + 8 * index 1 va) with entry. rewrite <- is_present_odd.
  destruct (is_present (load64 (k_mem s) entry)) eqn:Hpr; [by apply install_4k_duplicate|].
  destruct (install_4k_outside s T entry phys Hi Hout Hpr Hpal) as (s' & Hr & W & Hw & Hfr).
  exists s'. split; [exact Hr|]. split; [|by rewrite Hw, table_entry_value].
  intros b Hb. by rewrite !aspace_leaf, W.
Qed.

Lemma map_4k_in_large_page_overwrites_memory_witness :
  exists s s', paging_init sample_kernel = Ret (tt, s) /\
    map_address 0x40001000 0xfee00000 PAGE_SIZE_4K s = Ret (ERROR_OK, s') /\
    aspace s' 0x40001000 = Some 0x40001000 /\ aspace s' 0x40000008 = Some 0x40000008 /\
    load64 (k_mem s') 0x40000008 = 0xfee00003.
Proof.
  destruct (paging_init_run sample_kernel) as (s & T & Hr & Hi & _ & Hn & _ & _ & _ & _ & _); [by_compute..|].
  assert (E : observe (fun s => (kleaf s 0x40001000, load64 (k_mem s) 0x40000008))
      (paging_init sample_kernel) = Some (tt, (Large (page_2m_entry 0x40000000), 0)))
    by (vm_compute; reflexivity).
  rewrite Hr in E. injection E as El Ed.
  destruct (map_4k_in_large_page_overwrites_memory s T 0x40001000 0xfee00000 0x40000000 Hi) as (E1 & E2 & H).
  - by_compute.
  - by_compute.
  - reflexivity.
  - exact El.
  - by_compute.
  - reflexivity.
  - intros b Hb (q & l & x & Hq & Hin). pose proof (pi_below _ _ Hi _ _ _ Hq) as B. rewrite Hn in B.
    change (next_page sample_kernel + 4 * PAGE_SIZE_4K) with 0x605000 in B.
    change (0x40000000 + 8 * ((0x40001000 / PAGE_SIZE_4K) mod 512)) with 0x40000008 in Hb. lia.
  - change (0x40000000 + 8 * ((0x40001000 / PAGE_SIZE_4K) mod 512)) with 0x40000008 in *.
    rewrite Ed in H. destruct H as (s' & Hm & W & Hw & _).
    exists s, s'. split; [exact Hr|]. split; [exact Hm|]. clear Hr Hm.
    rewrite !W by by_compute. split; [exact E1|]. split; [exact E2|exact Hw].
Defined.
