(* ===== verification/GuestPaging.v ===== *)
(** * GuestPaging: the guest's page table ([guest/trivial_paging.c], and the early
    table of [guest/init32.S]).

    The guest enters long mode on a table that maps its first 1 GiB, then maps one
    page above 4 GiB, its screen. The main results are the address space the guest
    runs in and what becomes of the first page it maps: the tables
    [get_base_page] hands out overlap. *)
From Stdlib Require Import ZArith Lia.
From stdpp Require Import base tactics list numbers gmap.
From S2P Require Import Prelude Memory PhysicalMemory Radix Paging.
Local Open Scope Z_scope.

(** ** Entry formats: [trivial_paging.h] *)
Definition pml4_entry : list Z := [1; 1; 1; 1; 1; 7; 52].
Definition pdp_entry : list Z := [1; 1; 1; 1; 1; 7; 52].
Definition pd_table_entry : list Z := [1; 1; 1; 1; 1; 7; 52].
Definition pt_entry : list Z := [1; 1; 1; 1; 1; 7; 52].

Definition present : bitfield := nth_field pml4_entry 0.
Definition writable : bitfield := nth_field pml4_entry 1.
Definition pdp_entry_address : bitfield := nth_field pml4_entry 6.
Definition pd_entry_address : bitfield := nth_field pdp_entry 6.
Definition pt_entry_address : bitfield := nth_field pd_table_entry 6.
Definition page_address : bitfield := nth_field pt_entry 6.

Definition LEVEL_4_INDEX (addr : Z) : Z := Z.land (Z.shiftr (u64 addr) 39) 0x1ff.
Definition LEVEL_3_INDEX (addr : Z) : Z := Z.land (Z.shiftr (u64 addr) 30) 0x1ff.
Definition LEVEL_2_INDEX (addr : Z) : Z := Z.land (Z.shiftr (u64 addr) 21) 0x1ff.
Definition LEVEL_1_INDEX (addr : Z) : Z := Z.land (Z.shiftr (u64 addr) 12) 0x1ff.

Definition PAGE_SIZE_4K : Z := 4096.
Definition PAGE_SHIFT_4K : Z := 12.
Definition NR_BASE_PAGES : Z := 16.

(** [void memset(void *dst, const void *src, int nr_bytes)] of [guest/lib.c]: the
    second argument is an address, so [memset(p, 0x0, n)] copies from address 0. *)
Fixpoint memset_loop (n : nat) (m : memory) (dst src : Z) : memory :=
  match n with
  | O => m
  | S k => memset_loop k (wr8 m dst (rd8 m src)) (dst + 1) (src + 1)
  end.
Definition memset (m : memory) (dst src nr_bytes : Z) : memory :=
  memset_loop (Z.to_nat (s32 nr_bytes)) m dst src.

(** ** The guest's memory and its allocator of tables *)
Record guest := Guest { g_mem : memory; nr_used_base_pages : Z; cr3 : Z }.
#[export] Instance eta_guest : Eta guest := fun g => Guest (g_mem g) (nr_used_base_pages g) (cr3 g).

Definition put (f : memory -> memory) : M guest unit := modify (fun g => g <| g_mem ::= f |>).

Section Tables.
(** Where the linker put the tables; [pml4_base], [pdpt_base] and [pdt_base] are
    consecutive pages of [.bss]. *)
Context (pml4_base base_pages : Z).
Definition pdpt_base : Z := pml4_base + 4096.
Definition pdt_base : Z := pdpt_base + 4096.

(** ** [init32.S] *)
Fixpoint clear_loop (ecx : nat) (edi : Z) (m : memory) : memory :=
  match ecx with
  | O => m
  | S k => clear_loop k (edi + 4) (store32 m edi 0x0)
  end.
Fixpoint large_page_loop (ecx : nat) (edi ebx : Z) (m : memory) : memory :=
  match ecx with
  | O => m
  | S k =>
      let eax := Z.lor (Z.lor (Z.lor (Z.lor 0 0x1) 0x2) 0x80) ebx in
      large_page_loop k (edi + 8) (u32 (ebx + 0x200000)) (store32 (store32 m edi eax) (edi + 4) 0x0)
  end.
Definition table_word (base : Z) : Z := Z.lor (Z.lor (Z.lor 0 0x1) 0x2) base.
Definition construct_early_page_table (m : memory) : memory :=
  let m := clear_loop (1024 * 3) pml4_base m in
  let m := store32 (store32 m pml4_base (table_word pdpt_base)) (pml4_base + 4) 0x0 in
  let m := store32 (store32 m pdpt_base (table_word pdt_base)) (pdpt_base + 4) 0x0 in
  large_page_loop 512 pdt_base 0 m.

(** ** [trivial_paging.c] *)
Definition get_base_page : M guest Z :=
  let! n := gets nr_used_base_pages in
  if NR_BASE_PAGES <=? n then ret 0x0 else
  let page := base_pages + n in
  modify (fun g => g <| nr_used_base_pages := n + 1 |>) ;;;
  put (fun m => memset m page 0x0 PAGE_SIZE_4K) ;;;
  ret page.

(** The entry's three assignments. *)
Definition link_entry (entry : Z) (address : bitfield) (page : Z) : M guest unit :=
  put (fun m => fset m entry present 1) ;;;
  put (fun m => fset m entry writable 1) ;;;
  put (fun m => fset m entry address (Z.shiftr page PAGE_SHIFT_4K)).

(** A table for an entry that has none; [false] when no page is left. The level-2
    entry is cleared before the new page, the upper ones after it. *)
Definition install_upper (entry : Z) (address : bitfield) : M guest bool :=
  let! m := gets g_mem in
  if truthy (fget m entry present) then ret true else
  let! page := get_base_page in
  if negb (truthy page) then ret false else
  put (fun m => memset m page 0x0 PAGE_SIZE_4K) ;;;
  put (fun m => memset m entry 0x0 8) ;;;
  link_entry entry address page ;;;
  ret true.
Definition install_level_2 (l2_table_entry : Z) : M guest bool :=
  let! m := gets g_mem in
  if truthy (fget m l2_table_entry present) then ret true else
  let! pt_addr := get_base_page in
  if negb (truthy pt_addr) then ret false else
  put (fun m => memset m l2_table_entry 0x0 8) ;;;
  put (fun m => memset m pt_addr 0x0 PAGE_SIZE_4K) ;;;
  link_entry l2_table_entry pt_entry_address pt_addr ;;;
  ret true.
Definition install_level_1 (l1_entry pa : Z) : M guest Z :=
  let! m := gets g_mem in
  if truthy (fget m l1_entry present) then ret (-5) else
  put (fun m => memset m l1_entry 0x0 8) ;;;
  link_entry l1_entry page_address pa ;;;
  ret 0.

(** The table an entry leads to. *)
Definition next_table (entry : Z) (address : bitfield) : M guest Z :=
  let! m := gets g_mem in ret (shl_field address (fget m entry address) PAGE_SHIFT_4K).

Definition map_page_high (va pa : Z) : M guest Z :=
  if va <? 0x100000000 then ret (-1) else
  let l4_entry := entry_at pml4_base (LEVEL_4_INDEX va) in
  let! ok4 := install_upper l4_entry pdp_entry_address in
  if negb ok4 then ret (-2) else
  let! pdp := next_table l4_entry pdp_entry_address in
  let l3_entry := entry_at pdp (LEVEL_3_INDEX va) in
  let! ok3 := install_upper l3_entry pd_entry_address in
  if negb ok3 then ret (-3) else
  let! pd := next_table l3_entry pd_entry_address in
  let l2_table_entry := entry_at pd (LEVEL_2_INDEX va) in
  let! ok2 := install_level_2 l2_table_entry in
  if negb ok2 then ret (-4) else
  let! pt := next_table l2_table_entry pt_entry_address in
  install_level_1 (entry_at pt (LEVEL_1_INDEX va)) pa.

(** The answer of [map_page_high] is ignored. *)
Definition paging_init : M guest unit :=
  map_page_high 0x1000b8000 0x1000b8000 ;;;
  modify (fun g => g <| nr_used_base_pages := 0 |>) ;;;
  modify (fun g => g <| cr3 := pml4_base |>).
End Tables.

(** ** The guest's [memset] while page 0 is zero *)
Definition zero_page (m : memory) : Prop := forall c, 0 <= c < 4096 -> rd8 m c = 0.

Lemma rd8_copy_loop n m d s b : d <= s \/ s + Z.of_nat n <= d ->
  rd8 (memset_loop n m d s) b =
  if decide (d <= b < d + Z.of_nat n) then rd8 m (s + (b - d)) else rd8 m b.
Proof. exact (rd8_memcpy_loop n m d s b). Qed.

Lemma rd8_clear m d n b : zero_page m -> 4096 <= d -> 0 <= n <= 4096 ->
  rd8 (memset m d 0 n) b = if decide (d <= b < d + n) then 0 else rd8 m b.
Proof.
  intros Hz Hd Hn. unfold memset. rewrite s32_small by lia. rewrite rd8_copy_loop, Z2Nat.id by lia.
  case_decide; [apply Hz; lia|done].
Qed.

Lemma zero_page_same m m' : zero_page m -> (forall c, c < 4096 -> rd8 m' c = rd8 m c) -> zero_page m'.
Proof. intros Hz Hs c Hc. rewrite Hs by lia. by apply Hz. Qed.
Lemma zero_page_clear m d n : zero_page m -> 4096 <= d -> 0 <= n <= 4096 -> zero_page (memset m d 0 n).
Proof.
  intros Hz Hd Hn. apply (zero_page_same m); [done|]. intros c Hc. rewrite rd8_clear by done.
  by rewrite decide_False by lia.
Qed.

(** An entry: cleared, then linked to a page. *)
Definition linked (m : memory) (e page : Z) : memory :=
  fset (fset (fset m e present 1) e writable 1) e page_address (Z.shiftr page PAGE_SHIFT_4K).

Lemma linked_entry m e page : load64 m e = 0 -> load64 (linked m e page) e = table_entry page.
Proof.
  intros H. unfold linked. rewrite !load64_fset by (unfold field_ok; vm_compute; intuition congruence).
  by rewrite H.
Qed.
Lemma linked_out m e page b : b < e \/ e + 8 <= b -> rd8 (linked m e page) b = rd8 m b.
Proof. intros. unfold linked. by rewrite !rd8_fset_out. Qed.

Lemma put_at {B} f m n c (k : unit -> M guest B) : bind (put f) k (Guest m n c) = k tt (Guest (f m) n c).
Proof. reflexivity. Qed.
Lemma put_last f m n c : put f (Guest m n c) = Ret (tt, Guest (f m) n c).
Proof. reflexivity. Qed.

Lemma get_base_page_at {B} base n m c (k : Z -> M guest B) : (n <? NR_BASE_PAGES) = true ->
  bind (get_base_page base) k (Guest m n c) = k (base + n) (Guest (memset m (base + n) 0 4096) (n + 1) c).
Proof. intros H. unfold get_base_page. mstep. cbn. rewrite Z.ltb_lt in H. by rewrite (proj2 (Z.leb_gt _ _)) by done. Qed.

Lemma link_entry_run e f page s : f = page_address ->
  link_entry e f page s = Ret (tt, Guest (linked (g_mem s) e page) (nr_used_base_pages s) (cr3 s)).
Proof. intros ->. destruct s. reflexivity. Qed.

Lemma present_absent m e : load64 m e = 0 -> truthy (fget m e present) = false.
Proof. intros H. unfold fget. by rewrite H. Qed.
Lemma present_linked m e page : load64 m e = table_entry page -> truthy (fget m e present) = true.
Proof. intros H. unfold fget. rewrite H. apply table_entry_present. Qed.

Lemma next_table_run e f page s : f = page_address -> load64 (g_mem s) e = table_entry page ->
  0 <= page < PHYS_LIMIT -> page mod 4096 = 0 -> next_table e f s = Ret (page, s).
Proof.
  intros -> He Hp Ha. unfold next_table. mstep. do 2 f_equal. unfold fget. rewrite He.
  by apply table_entry_table.
Qed.

(** The page number drops the offset of a page that is not aligned. *)
Lemma table_entry_offset base k : base mod 4096 = 0 -> 0 <= k < 4096 -> table_entry (base + k) = table_entry base.
Proof.
  intros Hb Hk. unfold table_entry. f_equal. unfold_consts.
  rewrite !Z.shiftr_div_pow2 by lia. change (2 ^ 12) with 4096. zdiv.
Qed.

Section Theory.
Context (pml4_base base_pages : Z).

(** The tables lie in the guest's first GiB, above page 0, and do not meet. *)
Record placed : Prop := {
  pl_pml4 : 4096 <= pml4_base /\ pml4_base mod 4096 = 0 /\ pml4_base + 3 * 4096 <= 2 ^ 30;
  pl_pool : 4096 <= base_pages /\ base_pages mod 4096 = 0 /\ base_pages + 16 * 4096 <= 2 ^ 30;
  pl_apart : pml4_base + 3 * 4096 <= base_pages \/ base_pages + 16 * 4096 <= pml4_base }.
Hypothesis Hplaced : placed.

Lemma upper_run e f m c : f = page_address -> zero_page m -> load64 m e = 0 -> 4096 <= e ->
  e + 8 <= base_pages \/ base_pages + 4096 <= e -> exists m',
  install_upper base_pages e f (Guest m 0 c) = Ret (true, Guest m' 1 c) /\ table_added m m' e base_pages.
Proof using Hplaced.
  destruct Hplaced as [_ (P1 & P2 & P3) _]. intros Hf Hz He Hlo Ha.
  exists (linked (memset (memset (memset m base_pages 0 4096) base_pages 0 4096) e 0 8) e base_pages). split.
  - unfold install_upper. rewrite bind_gets. cbn [g_mem]. rewrite present_absent by done.
    rewrite get_base_page_at, Z.add_0_r by done. rewrite (proj2 (truthy_true base_pages)) by lia. cbn [negb].
    rewrite !put_at. unfold bind. rewrite link_entry_run by done. reflexivity.
  - pose proof (zero_page_clear _ base_pages 4096 Hz P1 ltac:(lia)) as Z1.
    pose proof (zero_page_clear _ base_pages 4096 Z1 P1 ltac:(lia)) as Z2.
    split_and!.
    + apply linked_entry, load64_zeros. intros b Hb. rewrite rd8_clear by (done || lia). by rewrite decide_True by lia.
    + intros b Hb. change PhysicalMemory.PAGE_SIZE_4K with 4096 in Hb. rewrite linked_out by lia.
      rewrite !rd8_clear by (done || lia). repeat case_decide; done || lia.
    + intros b Hb Hb2. change PhysicalMemory.PAGE_SIZE_4K with 4096 in Hb2. rewrite linked_out by lia.
      rewrite !rd8_clear by (done || lia). repeat case_decide; done || lia.
Qed.

(** The second table starts one byte after the first. *)
Lemma level_2_run i m c : zero_page m -> 0 <= i < 512 ->
  (forall b, base_pages <= b < base_pages + 4096 -> rd8 m b = 0) -> exists m',
  install_level_2 base_pages (base_pages + 8 * i) (Guest m 1 c) = Ret (true, Guest m' 2 c) /\
  load64 m' (base_pages + 8 * i) = table_entry base_pages /\
  (forall b, base_pages <= b < base_pages + 4097 -> ~ base_pages + 8 * i <= b < base_pages + 8 * i + 8 -> rd8 m' b = 0) /\
  (forall b, b < base_pages \/ base_pages + 4097 <= b -> rd8 m' b = rd8 m b).
Proof using Hplaced.
  destruct Hplaced as [_ (P1 & P2 & P3) _]. intros Hz Hi Hzero. set (e := base_pages + 8 * i).
  set (p := base_pages + 1). assert (He : load64 m e = 0) by (apply load64_zeros; intros; apply Hzero; unfold e in *; lia).
  exists (linked (memset (memset (memset m p 0 4096) e 0 8) p 0 4096) e p). split.
  - unfold install_level_2. rewrite bind_gets. cbn [g_mem]. rewrite present_absent by done.
    rewrite get_base_page_at by done. fold p. rewrite (proj2 (truthy_true p)) by (unfold p; lia). cbn [negb].
    rewrite !put_at. unfold bind. rewrite link_entry_run by done. reflexivity.
  - assert (Z1 : zero_page (memset m p 0 4096)) by (apply zero_page_clear; unfold p; done || lia).
    assert (Z2 : zero_page (memset (memset m p 0 4096) e 0 8)) by (apply zero_page_clear; unfold e; done || lia).
    assert (H8 : forall b, rd8 (memset (memset (memset m p 0 4096) e 0 8) p 0 4096) b =
      if decide (base_pages <= b < base_pages + 4097) then 0 else rd8 m b).
    { intros b. rewrite !rd8_clear by (done || unfold p, e; lia). unfold p, e.
      destruct (decide (b = base_pages)) as [->|]; [rewrite (Hzero base_pages) by lia|];
        repeat case_decide; done || lia. }
    split_and!.
    + rewrite linked_entry; [by apply table_entry_offset|]. apply load64_zeros. intros b Hb. rewrite H8.
      apply decide_True. unfold e in *. lia.
    + intros b Hb Hb2. rewrite linked_out, H8 by lia. by apply decide_True.
    + intros b Hb. rewrite linked_out, H8 by (unfold e; lia). apply decide_False. lia.
Qed.

Lemma level_1_run e pa s : zero_page (g_mem s) -> 4096 <= e -> load64 (g_mem s) e = 0 -> exists m',
  install_level_1 e pa s = Ret (0, Guest m' (nr_used_base_pages s) (cr3 s)) /\
  load64 m' e = table_entry pa /\ (forall b, b < e \/ e + 8 <= b -> rd8 m' b = rd8 (g_mem s) b).
Proof using.
  intros Hz Hlo He. exists (linked (memset (g_mem s) e 0 8) e pa). split_and!.
  - destruct s as [m n c]. cbn [g_mem] in *. unfold install_level_1. rewrite bind_gets. cbn [g_mem].
    rewrite present_absent by done. rewrite put_at. unfold bind. rewrite link_entry_run by done. reflexivity.
  - apply linked_entry, load64_zeros. intros b Hb. rewrite rd8_clear by (done || lia). by rewrite decide_True by lia.
  - intros b Hb. rewrite linked_out, rd8_clear by (done || lia). by rewrite decide_False by lia.
Qed.

(** ** The early table *)
Record early (m : memory) : Prop := {
  ea_zero : zero_page m;
  ea_4 : forall i, 0 <= i < 512 -> load64 m (pml4_base + 8 * i) = if i =? 0 then table_entry (pdpt_base pml4_base) else 0;
  ea_3 : forall i, 0 <= i < 512 -> load64 m (pdpt_base pml4_base + 8 * i) = if i =? 0 then table_entry (pdt_base pml4_base) else 0;
  ea_2 : forall i, 0 <= i < 512 -> load64 m (pdt_base pml4_base + 8 * i) = page_2m_entry (PAGE_SIZE_2M * i) }.

(** What the first successful walk of [map_page_high] leaves: the level-3 entry
    leads to the first page of the pool, and so does the level-2 entry in it. *)
Record mapped_high (m m' : memory) (l3 l2 l1 pa : Z) : Prop := {
  mh_3 : load64 m' (pdpt_base pml4_base + 8 * l3) = table_entry base_pages;
  mh_pool : forall i, 0 <= i < 512 -> load64 m' (base_pages + 8 * i) =
    if i =? l2 then table_entry base_pages else if i =? l1 then table_entry pa else 0;
  mh_same : forall b, ~ (pdpt_base pml4_base + 8 * l3 <= b < pdpt_base pml4_base + 8 * l3 + 8) ->
    ~ (base_pages <= b < base_pages + 4097) -> rd8 m' b = rd8 m b }.

(** Reaching the last level: the tables on the way exist or are made. *)
Lemma tables_run va pa m c : early m -> 0x100000000 <= va < 2 ^ 39 -> exists m',
  map_page_high pml4_base base_pages va pa (Guest m 0 c) =
    install_level_1 (base_pages + 8 * index 1 va) pa (Guest m' 2 c) /\
  zero_page m' /\ load64 m' (pdpt_base pml4_base + 8 * index 3 va) = table_entry base_pages /\
  (forall i, 0 <= i < 512 ->
     load64 m' (base_pages + 8 * i) = if i =? index 2 va then table_entry base_pages else 0) /\
  (forall b, ~ (pdpt_base pml4_base + 8 * index 3 va <= b < pdpt_base pml4_base + 8 * index 3 va + 8) ->
     ~ (base_pages <= b < base_pages + 4097) -> rd8 m' b = rd8 m b).
Proof using Hplaced.
  intros [Ez E4 E3 _] Hva. destruct Hplaced as [(A1 & A2 & A3) (B1 & B2 & B3) Hap].
  assert (Hlim : 0 <= va < VA_LIMIT) by (unfold VA_LIMIT; lia).
  assert (I4 : index 4 va = 0) by (unfold index; zdiv).
  assert (I3 : 4 <= index 3 va < 512) by (unfold index; zdiv).
  pose proof (index_range 2 va) as I2. pose proof (index_range 1 va) as I1.
  set (l3 := index 3 va) in *. set (l2 := index 2 va) in *. set (l1 := index 1 va) in *.
  set (e3 := pdpt_base pml4_base + 8 * l3).
  assert (He3 : load64 m e3 = 0) by (unfold e3; rewrite E3 by lia; by rewrite (proj2 (Z.eqb_neq _ _)) by lia).
  assert (H4 : load64 m pml4_base = table_entry (pdpt_base pml4_base)).
  { pose proof (E4 0 ltac:(lia)) as H. by rewrite Z.mul_0_r, Z.add_0_r in H. }
  destruct (upper_run e3 pd_entry_address m c eq_refl Ez He3) as (m1 & R1 & T1 & Z1 & S1);
    [unfold e3, pdpt_base; lia..|].
  change PhysicalMemory.PAGE_SIZE_4K with 4096 in Z1, S1.
  assert (Ez1 : zero_page m1).
  { apply (zero_page_same m); [done|]. intros b Hb. apply S1; unfold e3, pdpt_base; lia. }
  destruct (level_2_run l2 m1 c Ez1 I2 Z1) as (m2 & R2 & T2 & Z2 & S2).
  exists m2. split_and!.
  - unfold map_page_high. rewrite (proj2 (Z.ltb_ge _ _)) by lia. unfold entry_at.
    change (LEVEL_4_INDEX va) with (Radix.LEVEL_4_INDEX va). change (LEVEL_3_INDEX va) with (Radix.LEVEL_3_INDEX va).
    change (LEVEL_2_INDEX va) with (Radix.LEVEL_2_INDEX va). change (LEVEL_1_INDEX va) with (Radix.LEVEL_1_INDEX va).
    rewrite level_4_index, level_3_index, level_2_index, level_1_index by done. fold l3 l2 l1.
    rewrite I4, Z.mul_0_r, Z.add_0_r.
    rewrite (bind_run (install_upper _ _ _) _ _ true (Guest m 0 c)).
    2: { unfold install_upper. rewrite bind_gets. cbn [g_mem]. by rewrite (present_linked _ _ _ H4). }
    cbn [negb]. run_with (next_table_run _ _ _ (Guest m 0 c) (eq_refl : pdp_entry_address = page_address) H4
      ltac:(unfold PHYS_LIMIT, pdpt_base; lia) ltac:(unfold pdpt_base; zdiv)). fold e3.
    run_with R1. cbn [negb].
    run_with (next_table_run _ _ _ (Guest m1 1 c) (eq_refl : pd_entry_address = page_address) T1 ltac:(unfold PHYS_LIMIT; lia) B2).
    run_with R2. cbn [negb].
    by run_with (next_table_run _ _ _ (Guest m2 2 c) (eq_refl : pt_entry_address = page_address) T2 ltac:(unfold PHYS_LIMIT; lia) B2).
  - apply (zero_page_same m1); [done|]. intros; apply S2; lia.
  - fold e3. rewrite <- T1. apply load_ext. intros b Hb. apply S2. unfold e3, pdpt_base in *. lia.
  - intros i Hi. destruct (Z.eqb_spec i l2) as [->|]; [done|]. apply load64_zeros. intros b Hb. apply Z2; lia.
  - fold e3. intros b H1 H2. rewrite S2 by lia. apply S1; lia.
Qed.

Lemma map_page_high_run va pa m c : early m -> 0x100000000 <= va < 2 ^ 39 -> exists m',
  map_page_high pml4_base base_pages va pa (Guest m 0 c) =
    Ret (if index 2 va =? index 1 va then -5 else 0, Guest m' 2 c) /\
  mapped_high m m' (index 3 va) (index 2 va) (index 1 va) pa.
Proof using Hplaced.
  intros He Hva. destruct (tables_run va pa m c He Hva) as (m2 & -> & Ez & T3 & Hpool & Hsame).
  destruct Hplaced as [(A1 & A2 & A3) (B1 & B2 & B3) Hap].
  pose proof (index_range 3 va) as I3. pose proof (index_range 2 va) as I2. pose proof (index_range 1 va) as I1.
  set (l3 := index 3 va) in *. set (l2 := index 2 va) in *. set (l1 := index 1 va) in *.
  destruct (Z.eqb_spec l2 l1) as [El|El].
  - exists m2. split; [|split; [done| |done]].
    + unfold install_level_1. rewrite bind_gets. cbn [g_mem].
      assert (T2 : load64 m2 (base_pages + 8 * l1) = table_entry base_pages) by (rewrite Hpool, El, Z.eqb_refl; done).
      by rewrite (present_linked _ _ _ T2).
    + intros i Hi. rewrite Hpool by done. destruct (Z.eqb_spec i l2), (Z.eqb_spec i l1); try done. lia.
  - destruct (level_1_run (base_pages + 8 * l1) pa (Guest m2 2 c)) as (m3 & R3 & T & S3); cbn [g_mem]; [done|lia| |].
    { rewrite Hpool by done. by rewrite (proj2 (Z.eqb_neq _ _)) by lia. }
    cbn [g_mem nr_used_base_pages cr3] in *. exists m3. split; [done|]. split.
    + rewrite <- T3. apply load_ext. intros b Hb. apply S3. unfold pdpt_base in *. lia.
    + intros i Hi. destruct (Z.eqb_spec i l1) as [->|Hne].
      { by rewrite (proj2 (Z.eqb_neq _ _)) by lia. }
      rewrite <- Hpool by done. apply load_ext. intros b Hb. apply S3. lia.
    + intros b H1 H2. rewrite S3 by lia. by apply Hsame.
Qed.

(** ** The walk of the tables

    The upper levels: one level-4 entry, and the level-3 entries [w3] besides the
    first. *)
Record upper_tables (m : memory) (w3 : Z -> Z) : Prop := {
  ut_4 : forall i, 0 <= i < 512 -> load64 m (pml4_base + 8 * i) = if i =? 0 then table_entry (pdpt_base pml4_base) else 0;
  ut_3 : forall i, 0 <= i < 512 ->
    load64 m (pdpt_base pml4_base + 8 * i) = if i =? 0 then table_entry (pdt_base pml4_base) else w3 i;
  ut_2 : forall i, 0 <= i < 512 -> load64 m (pdt_base pml4_base + 8 * i) = page_2m_entry (PAGE_SIZE_2M * i) }.

Lemma klink_table l p : l <> 1 -> 0 <= p < PHYS_LIMIT -> p mod 4096 = 0 -> klink l (table_entry p) = Some p.
Proof using.
  intros Hl Hp Ha. rewrite klink_link; [|apply table_entry_present|done|intros; apply table_entry_small].
  f_equal. by apply table_entry_table.
Qed.

Lemma slot_2 m w3 a : upper_tables m w3 -> slot klink m pml4_base a 2 =
  if index 4 a =? 0 then
    if index 3 a =? 0 then Some (pdt_base pml4_base + 8 * index 2 a)
    else match klink 3 (w3 (index 3 a)) with Some q => Some (q + 8 * index 2 a) | None => None end
  else None.
Proof using Hplaced.
  intros [E4 E3 _]. destruct Hplaced as [(A1 & A2 & A3) _ _].
  cbn [slot]. change (4 - Z.of_nat 0) with 4. change (4 - Z.of_nat 1) with 3. change (4 - Z.of_nat 2) with 2.
  rewrite E4 by apply index_range. destruct (index 4 a =? 0); [|done].
  rewrite klink_table by (unfold PHYS_LIMIT, pdpt_base; zdiv || done).
  rewrite E3 by apply index_range. destruct (index 3 a =? 0); [|done].
  by rewrite klink_table by (unfold PHYS_LIMIT, pdt_base, pdpt_base; zdiv || done).
Qed.

(** The first GiB is mapped to itself in 2 MiB pages. *)
Lemma leaf_low m w3 a : upper_tables m w3 -> 0 <= a < 2 ^ 30 ->
  leaf m pml4_base a = Large (page_2m_entry (PAGE_SIZE_2M * index 2 a)).
Proof using Hplaced.
  intros Hu Ha. unfold leaf. rewrite (slot_2 _ _ _ Hu).
  replace (index 4 a) with 0 by (unfold index; zdiv). replace (index 3 a) with 0 by (unfold index; zdiv).
  cbn [Z.eqb]. rewrite (ut_2 _ _ Hu) by apply index_range. by rewrite page_2m_entry_2mb.
Qed.

Lemma walk_low m w3 a : upper_tables m w3 -> 0 <= a < 2 ^ 30 -> walk m pml4_base a = a.
Proof using Hplaced.
  intros Hu Ha. unfold walk. rewrite (leaf_low _ _ _ Hu Ha). pose proof (index_range 2 a).
  rewrite translate_2m by (unfold PHYS_LIMIT, PAGE_SIZE_2M in *; zdiv).
  unfold index, PAGE_SIZE_2M. change (2 ^ (12 + 9 * (2 - 1))) with 0x200000. zdiv.
Qed.

Lemma walk_unmapped m w3 a : upper_tables m w3 ->
  index 4 a <> 0 \/ index 3 a <> 0 /\ w3 (index 3 a) = 0 -> walk m pml4_base a = translation_error.
Proof using Hplaced.
  intros Hu Ha. unfold walk, leaf. rewrite (slot_2 _ _ _ Hu).
  destruct (Z.eqb_spec (index 4 a) 0) as [E4|]; [|done]. destruct (Z.eqb_spec (index 3 a) 0); [lia|].
  destruct Ha as [|[_ E]]; [lia|]. by rewrite E.
Qed.

Lemma early_upper m : early m -> upper_tables m (fun _ => 0).
Proof using. by intros []. Qed.
Lemma mapped_upper m m' l3 l2 l1 pa : early m -> mapped_high m m' l3 l2 l1 pa -> 0 < l3 < 512 ->
  upper_tables m' (fun i => if i =? l3 then table_entry base_pages else 0).
Proof using Hplaced.
  intros [_ E4 E3 E2] [H3 _ Hs] Hl3. destruct Hplaced as [(A1 & A2 & A3) (B1 & B2 & B3) Hap].
  split; intros i Hi; unfold pdt_base, pdpt_base in *.
  - rewrite <- E4 by done. apply load_ext. intros b Hb. apply Hs; lia.
  - destruct (Z.eqb_spec i l3) as [->|].
    + rewrite H3. by rewrite (proj2 (Z.eqb_neq _ _)) by lia.
    + rewrite <- E3 by done. apply load_ext. intros b Hb. apply Hs; lia.
  - rewrite <- E2 by done. apply load_ext. intros b Hb. apply Hs; lia.
Qed.

(** The tables once a page above 4 GiB is mapped: below the new level-3 entry one
    page serves as table of both lower levels. *)
Record high_tables (m : memory) (l3 l2 l1 pa : Z) : Prop := {
  ht_upper : upper_tables m (fun i => if i =? l3 then table_entry base_pages else 0);
  ht_pool : forall i, 0 <= i < 512 -> load64 m (base_pages + 8 * i) =
    if i =? l2 then table_entry base_pages else if i =? l1 then table_entry pa else 0 }.

Lemma high_tables_mapped m m' l3 l2 l1 pa : early m -> mapped_high m m' l3 l2 l1 pa -> 0 < l3 < 512 ->
  high_tables m' l3 l2 l1 pa.
Proof using Hplaced. intros He Hm Hl. split; [by eapply mapped_upper|by destruct Hm]. Qed.

(** The tables are in the first GiB: writes above it do not matter. *)
Lemma high_tables_frame m m' l3 l2 l1 pa : (forall b, 4096 <= b < 2 ^ 30 ->
    pml4_base <= b < pml4_base + 3 * 4096 \/ base_pages <= b < base_pages + 4096 -> rd8 m' b = rd8 m b) ->
  high_tables m l3 l2 l1 pa -> high_tables m' l3 l2 l1 pa.
Proof using Hplaced.
  intros Hs [[H4 H3 H2] Hp]. destruct Hplaced as [(A1 & A2 & A3) (B1 & B2 & B3) _]. unfold pdt_base, pdpt_base in *.
  split; [split|]; intros i Hi; unfold pdt_base, pdpt_base.
  - rewrite <- H4 by done. apply load_ext. intros b Hb. apply Hs; lia.
  - rewrite <- H3 by done. apply load_ext. intros b Hb. apply Hs; lia.
  - rewrite <- H2 by done. apply load_ext. intros b Hb. apply Hs; lia.
  - rewrite <- Hp by done. apply load_ext. intros b Hb. apply Hs; lia.
Qed.

Lemma walk_high m l3 l2 l1 pa a : high_tables m l3 l2 l1 pa -> 0 < l3 < 512 ->
  index 4 a = 0 -> index 3 a = l3 -> (index 2 a = l1 -> l1 = l2) ->
  walk m pml4_base a =
  if index 2 a =? l2 then
    if index 1 a =? l2 then translate (Small (table_entry base_pages)) a
    else if index 1 a =? l1 then translate (Small (table_entry pa)) a else translation_error
  else translation_error.
Proof using Hplaced.
  intros [Hu Hp] Hl3 I4 I3 Hne. destruct Hplaced as [_ (B1 & B2 & B3) _].
  assert (S2 : slot klink m pml4_base a 2 = Some (base_pages + 8 * index 2 a)).
  { rewrite (slot_2 _ _ _ Hu), I4, I3. cbn [Z.eqb]. rewrite (proj2 (Z.eqb_neq l3 0)), Z.eqb_refl by lia.
    by rewrite klink_table by (unfold PHYS_LIMIT; lia || done). }
  unfold walk, leaf. rewrite S2, Hp by apply index_range.
  change (slot klink m pml4_base a 3) with
    (match slot klink m pml4_base a 2 with
     | Some e => match klink 2 (load64 m e) with Some q => Some (q + 8 * index 1 a) | None => None end
     | None => None end).
  rewrite S2, Hp by apply index_range.
  destruct (Z.eqb_spec (index 2 a) l2) as [E2|E2].
  - rewrite table_entry_small, klink_table by (unfold PHYS_LIMIT; lia || done). rewrite Hp by apply index_range.
    destruct (index 1 a =? l2); [by rewrite table_entry_present|].
    destruct (index 1 a =? l1); [by rewrite table_entry_present|done].
  - destruct (Z.eqb_spec (index 2 a) l1) as [E1|]; [lia|done].
Qed.

(** ** Building the early table *)
Lemma rd8_clear_loop n edi m b :
  rd8 (clear_loop n edi m) b = if decide (edi <= b < edi + 4 * Z.of_nat n) then 0 else rd8 m b.
Proof using.
  revert edi m. induction n as [|n IH]; intros edi m; cbn [clear_loop].
  { by rewrite decide_False by lia. }
  rewrite IH. unfold store32. rewrite rd8_store. change (Z.of_nat 4) with 4.
  repeat case_decide; try done; try lia.
Qed.

Lemma load64_two_halves m p lo hi : 0 <= lo < 2 ^ 32 -> 0 <= hi < 2 ^ 32 ->
  load64 (store32 (store32 m p lo) (p + 4) hi) p = lo + 2 ^ 32 * hi.
Proof using.
  intros Hl Hh. unfold load64. rewrite (load_split 4 4). unfold store32.
  rewrite load_store_out by lia. rewrite !load_store. change (256 ^ Z.of_nat 4) with (2 ^ 32).
  by rewrite !Z.mod_small by done.
Qed.
Lemma rd8_two_halves m p lo hi b : b < p \/ p + 8 <= b ->
  rd8 (store32 (store32 m p lo) (p + 4) hi) b = rd8 m b.
Proof using. intros. unfold store32. by rewrite !rd8_store_out by lia. Qed.

Lemma table_word_entry p : 0 <= p < 2 ^ 32 -> p mod 4096 = 0 -> table_word p = table_entry p.
Proof using.
  intros Hp Ha. unfold table_word, table_entry.
  change (set_bits (set_bits 0 Paging.present 1) Paging.writable 1) with 3.
  change (Z.lor (Z.lor 0 1) 2) with 3. unfold set_bits. change (bf_lo Paging.pdp_entry_address) with 12.
  change (bf_len Paging.pdp_entry_address) with 52. change (Z.ldiff 3 _) with 3. f_equal.
  unfold PhysicalMemory.PAGE_SHIFT_4K. rewrite Z.land_ones, Z.shiftr_div_pow2, Z.shiftl_mul_pow2 by lia.
  rewrite Z.mod_small by zdiv. zdiv.
Qed.
Lemma large_word k : 0 <= k < 512 ->
  Z.lor (Z.lor (Z.lor (Z.lor 0 0x1) 0x2) 0x80) (PAGE_SIZE_2M * k) = page_2m_entry (PAGE_SIZE_2M * k) /\
  0 <= page_2m_entry (PAGE_SIZE_2M * k) < 2 ^ 32.
Proof using.
  assert (H : forallb (fun k => let e := page_2m_entry (PAGE_SIZE_2M * k) in
    (Z.lor (Z.lor (Z.lor (Z.lor 0 0x1) 0x2) 0x80) (PAGE_SIZE_2M * k) =? e) && (0 <=? e) && (e <? 2 ^ 32))
    (Z.of_nat <$> seq 0 512) = true) by (vm_compute; reflexivity).
  intros Hk. rewrite forallb_forall in H.
  assert (Hin : In k (Z.of_nat <$> seq 0 512)).
  { apply list_elem_of_In, list_elem_of_fmap. exists (Z.to_nat k). split; [lia|]. apply elem_of_seq. lia. }
  specialize (H k Hin). cbv zeta in H. lia.
Qed.

Lemma large_page_loop_same n edi ebx m b : b < edi \/ edi + 8 * Z.of_nat n <= b ->
  rd8 (large_page_loop n edi ebx m) b = rd8 m b.
Proof using.
  revert edi ebx m. induction n as [|n IH]; intros edi ebx m Hb; [done|]. cbn [large_page_loop].
  rewrite IH by lia. apply rd8_two_halves. lia.
Qed.
Lemma large_page_loop_entry n edi k m j : 0 <= k -> k + Z.of_nat n <= 512 -> 0 <= j < Z.of_nat n ->
  load64 (large_page_loop n edi (PAGE_SIZE_2M * k) m) (edi + 8 * j) = page_2m_entry (PAGE_SIZE_2M * (k + j)).
Proof using.
  revert edi k m j. induction n as [|n IH]; intros edi k m j Hk Hn Hj; [lia|]. cbn [large_page_loop].
  assert (E : u32 (PAGE_SIZE_2M * k + 0x200000) = PAGE_SIZE_2M * (k + 1)).
  { unfold PAGE_SIZE_2M. rewrite u32_small by lia. lia. }
  rewrite E. destruct (Z.eq_dec j 0) as [->|Hj0].
  - rewrite Z.mul_0_r, !Z.add_0_r. destruct (large_word k ltac:(lia)) as [-> Hr].
    etransitivity; [apply load_ext; intros b Hb; apply large_page_loop_same; lia|].
    fold load64. change (load 8) with load64. rewrite load64_two_halves by lia. lia.
  - replace (edi + 8 * j) with (edi + 8 + 8 * (j - 1)) by lia. rewrite IH by lia. f_equal. lia.
Qed.

(** The early table is all that [init32.S] writes. *)
Lemma early_table_outside m b : ~ (pml4_base <= b < pml4_base + 12288) ->
  rd8 (construct_early_page_table pml4_base m) b = rd8 m b.
Proof using.
  intros Hb. unfold construct_early_page_table.
  rewrite large_page_loop_same by (unfold pdt_base, pdpt_base; lia).
  rewrite !rd8_two_halves by (unfold pdpt_base; lia). rewrite rd8_clear_loop.
  change (4 * Z.of_nat (1024 * 3)) with 12288. by rewrite decide_False by lia.
Qed.

Lemma early_table m : zero_page m -> early (construct_early_page_table pml4_base m).
Proof using Hplaced.
  intros Hz. destruct Hplaced as [(A1 & A2 & A3) _ _]. unfold construct_early_page_table.
  set (m1 := clear_loop (1024 * 3) pml4_base m).
  set (m2 := store32 (store32 m1 pml4_base (table_word (pdpt_base pml4_base))) (pml4_base + 4) 0).
  set (m3 := store32 (store32 m2 (pdpt_base pml4_base) (table_word (pdt_base pml4_base))) (pdpt_base pml4_base + 4) 0).
  assert (Hw : forall p, 0 <= p < 2 ^ 32 -> p mod 4096 = 0 -> 0 <= table_word p < 2 ^ 32).
  { intros p Hp Ha. unfold table_word. apply lor_range; [split; [done|reflexivity]|done]. }
  assert (R1 : forall b, rd8 m1 b = if decide (pml4_base <= b < pml4_base + 12288) then 0 else rd8 m b).
  { intros b. unfold m1. rewrite rd8_clear_loop. by change (4 * Z.of_nat (1024 * 3)) with 12288. }
  assert (L2 : load64 m2 pml4_base = table_entry (pdpt_base pml4_base)).
  { unfold m2. rewrite load64_two_halves by (apply Hw || lia; unfold pdpt_base; zdiv).
    rewrite table_word_entry by (unfold pdpt_base; zdiv). lia. }
  assert (L3 : load64 m3 (pdpt_base pml4_base) = table_entry (pdt_base pml4_base)).
  { unfold m3. rewrite load64_two_halves by (apply Hw || lia; unfold pdt_base, pdpt_base; zdiv).
    rewrite table_word_entry by (unfold pdt_base, pdpt_base; zdiv). lia. }
  assert (S2 : forall b, b < pml4_base \/ pml4_base + 8 <= b -> rd8 m2 b = rd8 m1 b) by (intros; by apply rd8_two_halves).
  assert (S3 : forall b, b < pdpt_base pml4_base \/ pdpt_base pml4_base + 8 <= b -> rd8 m3 b = rd8 m2 b)
    by (intros; by apply rd8_two_halves).
  set (m4 := large_page_loop 512 (pdt_base pml4_base) 0 m3).
  assert (S4 : forall b, b < pdt_base pml4_base \/ pdt_base pml4_base + 4096 <= b -> rd8 m4 b = rd8 m3 b)
    by (intros; apply large_page_loop_same; lia).
  assert (L4 : forall i, 0 <= i < 512 -> load64 m4 (pdt_base pml4_base + 8 * i) = page_2m_entry (PAGE_SIZE_2M * i))
    by (intros i Hi; exact (large_page_loop_entry 512 _ 0 m3 i ltac:(lia) ltac:(lia) ltac:(lia))).
  clearbody m1 m2 m3 m4.
  unfold pdt_base, pdpt_base in *. split.
  - intros b Hb. rewrite S4, S3, S2, R1 by lia. case_decide; [done|]. by apply Hz.
  - intros i Hi.
    transitivity (load64 m2 (pml4_base + 8 * i)); [apply load_ext; intros b Hb; by rewrite S4, S3 by lia|].
    destruct (Z.eqb_spec i 0) as [->|]; [by rewrite Z.mul_0_r, Z.add_0_r|].
    apply load64_zeros. intros b Hb. rewrite S2, R1 by lia. by rewrite decide_True by lia.
  - intros i Hi.
    transitivity (load64 m3 (pml4_base + 4096 + 8 * i)); [apply load_ext; intros b Hb; by rewrite S4 by lia|].
    destruct (Z.eqb_spec i 0) as [->|]; [by rewrite Z.mul_0_r, Z.add_0_r|].
    apply load64_zeros. intros b Hb. rewrite S3, S2, R1 by lia. by rewrite decide_True by lia.
  - exact L4.
Qed.
End Theory.

(** The address space [paging_init] means to set up, and what it exposes besides. *)
Definition guest_map (base_pages a : Z) : Z :=
  if a <? 2 ^ 30 then a
  else if a / 4096 =? 0x100000 then base_pages + a mod 4096
  else if a / 4096 =? 0x1000b8 then a
  else translation_error.

(** The tables of the running guest. *)
Definition screen_tables (pml4_base base_pages : Z) (m : memory) : Prop :=
  high_tables pml4_base base_pages m 4 0 0xb8 0x1000b8000.

Lemma screen_walk pml4_base base_pages m a : placed pml4_base base_pages -> screen_tables pml4_base base_pages m ->
  0 <= a < VA_LIMIT -> a / PAGE_SIZE_2M <> 0x8b8 -> walk m pml4_base a = guest_map base_pages a.
Proof.
  intros Hp Ht Ha Hw. pose proof (ht_upper _ _ _ _ _ _ _ Ht) as Hu. pose proof (pl_pool _ _ Hp) as (B1 & B2 & B3).
  unfold guest_map, PAGE_SIZE_2M in *.
  destruct (Z.ltb_spec a (2 ^ 30)) as [Hlow|Hhigh]; [apply (walk_low _ _ Hp _ _ _ Hu); lia|].
  unfold VA_LIMIT in Ha. destruct (decide (index 4 a = 0 /\ index 3 a = 4)) as [[I4 I3]|Hout].
  - assert (I2 : a / 0x200000 = 2048 + index 2 a) by (unfold index in *; clear -Hhigh Ha I4 I3; zdiv).
    assert (I1 : a / 4096 = 2 ^ 20 + 512 * index 2 a + index 1 a) by (unfold index in *; clear -Hhigh Ha I4 I3; zdiv).
    rewrite (walk_high _ _ Hp _ _ _ _ _ _ Ht ltac:(lia) I4 I3) by lia. pose proof (index_range 1 a) as R1.
    rewrite I1. destruct (Z.eqb_spec (index 2 a) 0) as [E2|E2].
    + rewrite E2, Z.mul_0_r, Z.add_0_r. destruct (Z.eqb_spec (index 1 a) 0) as [E1|E1].
      { rewrite E1. rewrite translate_4k by (unfold PHYS_LIMIT; lia || done). done. }
      rewrite (proj2 (Z.eqb_neq _ 0x100000)) by lia. destruct (Z.eqb_spec (index 1 a) 0xb8) as [E3|E3].
      * rewrite E3. rewrite translate_4k by (unfold PHYS_LIMIT; lia || done).
        change PhysicalMemory.PAGE_SIZE_4K with 4096. change (2 ^ 20 + 0xb8 =? 0x1000b8) with true. zdiv.
      * by rewrite (proj2 (Z.eqb_neq _ 0x1000b8)) by lia.
    + pose proof (index_range 2 a). rewrite !(proj2 (Z.eqb_neq _ _)) by lia. done.
  - rewrite (walk_unmapped _ _ Hp _ _ _ Hu).
    + rewrite !(proj2 (Z.eqb_neq _ _)); [done| |]; intros E; apply Hout; unfold index; clear -E; zdiv.
    + destruct (decide (index 4 a = 0)) as [I4|]; [right|by left].
      split; [unfold index in *; clear -Hhigh Ha I4; zdiv|].
      by rewrite (proj2 (Z.eqb_neq _ _)) by (intros E; apply Hout; done).
Qed.

(** What [paging_init] leaves, and that it writes to the tables only. *)
Lemma guest_paging_init_run pml4_base base_pages m c : placed pml4_base base_pages -> early pml4_base m ->
  exists m', paging_init pml4_base base_pages (Guest m 0 c) = Ret (tt, Guest m' 0 pml4_base) /\
    screen_tables pml4_base base_pages m' /\
    forall b, ~ (pml4_base <= b < pml4_base + 3 * 4096) -> ~ (base_pages <= b < base_pages + 16 * 4096) ->
      rd8 m' b = rd8 m b.
Proof.
  intros Hp He. destruct (map_page_high_run _ _ Hp 0x1000b8000 0x1000b8000 _ c He ltac:(lia)) as (m' & Hr & Hm).
  exists m'. split; [unfold paging_init; run_with Hr; reflexivity|].
  split; [by apply (high_tables_mapped _ _ Hp m)|].
  intros b H1 H2. change (index 3 0x1000b8000) with 4 in Hm. apply (mh_same _ _ _ _ _ _ _ _ Hm); unfold pdpt_base; lia.
Qed.

(** C28 The guest's address space: booted with page 0 zero (as the monitor hands it
    over), the guest builds its early table and runs [paging_init], which completes.
    Its first GiB and its screen at [0x1000b8000] then translate to themselves.
    Because the level-2 table and the level-1 table are the same page, the page at
    4 GiB translates to that table itself, which the guest can overwrite; and in the
    2 MiB from [0x117000000] the screen's page is taken for a table, so nothing is
    said there. No other address is mapped. *)
Theorem guest_address_space (pml4_base base_pages : Z) (m0 : memory) (c : Z) :
  placed pml4_base base_pages -> zero_page m0 ->
  exists s', paging_init pml4_base base_pages (Guest (construct_early_page_table pml4_base m0) 0 c) = Ret (tt, s') /\
    cr3 s' = pml4_base /\
    forall a, 0 <= a < VA_LIMIT -> a / PAGE_SIZE_2M <> 0x8b8 -> walk (g_mem s') (cr3 s') a = guest_map base_pages a.
Proof.
  intros Hp Hz. destruct (guest_paging_init_run _ _ _ c Hp (early_table _ _ Hp m0 Hz)) as (m' & Hr & Ht & _).
  exists (Guest m' 0 pml4_base). split; [exact Hr|]. split; [done|]. intros a Ha Hw. by apply screen_walk.
Qed.

Lemma sample_placed : placed 0x200000 0x210000.
Proof. split; [split; [|split]; by compute|split; [|split]; by compute|left; by compute]. Qed.

Lemma guest_address_space_witness : exists s,
  paging_init 0x200000 0x210000 (Guest (construct_early_page_table 0x200000 ∅) 0 0) = Ret (tt, s) /\
  walk (g_mem s) 0x200000 0x1000b8123 = 0x1000b8123 /\ walk (g_mem s) 0x200000 0x100000000 = 0x210000.
Proof.
  destruct (guest_address_space 0x200000 0x210000 ∅ 0) as (s & Hr & Hc & Hw).
  - exact sample_placed.
  - intros b Hb. reflexivity.
  - rewrite Hc in Hw. exists s. split; [exact Hr|]. clear Hr.
    split; rewrite Hw; first [vm_compute; reflexivity|by_compute].
Defined.

(** C39 The first page a fresh pool maps: [map_page_high] maps any page from 4 GiB to
    512 GiB as asked, unless the address has the same level-2 and level-1 index. Then
    it reports that the page is mapped already, although it is not: the entry it
    finds is the one that links the table, in a page that serves as both tables. *)
Theorem map_page_high_aliased_tables (pml4_base base_pages va pa : Z) (m : memory) (c : Z) :
  placed pml4_base base_pages -> early pml4_base m -> 0x100000000 <= va < 2 ^ 39 ->
  0 <= pa < PHYS_LIMIT -> pa mod 4096 = 0 ->
  walk m pml4_base va = translation_error /\
  exists rc s', map_page_high pml4_base base_pages va pa (Guest m 0 c) = Ret (rc, s') /\
    (index 2 va = index 1 va -> rc = -5 /\ walk (g_mem s') pml4_base va = base_pages + va mod 4096) /\
    (index 2 va <> index 1 va -> rc = 0 /\ walk (g_mem s') pml4_base va = pa + va mod 4096).
Proof.
  intros Hp He Hva Hpa Hal. pose proof (pl_pool _ _ Hp) as (B1 & B2 & B3).
  assert (I4 : index 4 va = 0) by (unfold index; zdiv).
  assert (I3 : 4 <= index 3 va < 512) by (unfold index; zdiv).
  split.
  { apply (walk_unmapped _ _ Hp _ _ _ (early_upper _ _ He)). right. split; [lia|done]. }
  destruct (map_page_high_run _ _ Hp va pa _ c He Hva) as (m' & Hr & Hm).
  exists (if index 2 va =? index 1 va then -5 else 0), (Guest m' 2 c). split; [exact Hr|]. cbn [g_mem].
  pose proof (walk_high _ _ Hp _ _ _ _ _ va (high_tables_mapped _ _ Hp _ _ _ _ _ _ He Hm ltac:(lia)) ltac:(lia) I4 eq_refl) as Hw. rewrite Z.eqb_refl in Hw.
  split; intros E.
  - rewrite Hw, E, !Z.eqb_refl by done. split; [done|]. by rewrite translate_4k by (unfold PHYS_LIMIT; lia || done).
  - rewrite Hw, Z.eqb_refl, !(proj2 (Z.eqb_neq _ _)) by lia. split; [done|]. by rewrite translate_4k.
Qed.

Lemma map_page_high_aliased_tables_witness : exists s',
  map_page_high 0x200000 0x210000 0x100201000 0x300000
    (Guest (construct_early_page_table 0x200000 ∅) 0 0) = Ret (-5, s').
Proof.
  destruct (map_page_high_aliased_tables 0x200000 0x210000 0x100201000 0x300000
    (construct_early_page_table 0x200000 ∅) 0) as (_ & rc & s' & Hr & Hs & _).
  - exact sample_placed.
  - apply (early_table 0x200000 0x210000 sample_placed). intros b Hb. reflexivity.
  - by compute.
  - by compute.
  - reflexivity.
  - destruct (Hs eq_refl) as [-> _]. exists s'. exact Hr.
Defined.
