(* ===== verification/Apic.v ===== *)
(** * Apic: the local and the I/O interrupt controllers ([x86_64/lapic.c],
    [x86_64/ioapic.c]).

    The drivers are written against [Chips], the accesses they make: two
    model-specific register instructions, 32-bit accesses of mapped registers and
    [outb]. [ChipsSpec] states what the processor manual says of the registers they
    use; the theorems hold for every machine that keeps these laws. The registers
    are reached through the kernel's page table, which the drivers extend. *)
From Stdlib Require Import ZArith Lia.
From stdpp Require Import base tactics list numbers gmap.
From S2P Require Import Prelude Memory PhysicalMemory Radix Paging PagingInit.
Local Open Scope Z_scope.

(** ** Registers: [lapic.h], [ioapic.h], [msr.h] *)
Definition APIC_BASE : Z := 0xfee00000.
Definition APIC_LVT_MASKED : Z := 0x10000.
Definition APIC_ID_REGISTER : Z := 0xfee00020.
Definition APIC_TIMER_REGISTER : Z := 0xfee00320.
Definition APIC_LINT0_REGISTER : Z := 0xfee00350.
Definition APIC_LINT1_REGISTER : Z := 0xfee00360.
Definition APIC_PERF_COUNTER_REGISTER : Z := 0xfee00340.
Definition APIC_ERROR_REGISTER : Z := 0xfee00370.
Definition APIC_ERROR_STATUS_REGISTER : Z := 0xfee00280.
Definition APIC_EOI_REGISTER : Z := 0xfee000b0.
Definition APIC_TASK_PRIORITY_REGISTER : Z := 0xfee00080.
Definition APIC_SPURIOUS_REGISTER : Z := 0xfee000f0.
Definition APIC_SPURIOUS_REGISTER_APIC_ENABLE : Z := 0x100.
Definition APIC_ICR_LOW : Z := 0xfee00300.
Definition APIC_ICR_HIGH : Z := 0xfee00310.
Definition APIC_TDC_REGISTER : Z := 0xfee003e0.
Definition APIC_TIC_REGISTER : Z := 0xfee00380.
Definition APIC_TIMER_MODE_PERODIC : Z := Z.shiftl 0x1 17.
Definition APIC_ICR_DELIVERY_INIT : Z := 0x500.
Definition APIC_ICR_DELIVERY_STARTUP : Z := 0x600.
Definition APIC_ICR_DELIVER_STATUS_SENDPENDING : Z := 0x1000.
Definition APIC_ICR_LEVEL_ASSERT : Z := 0x4000.
Definition APIC_ICR_TRIGGER_LEVEL : Z := 0x8000.
Definition APIC_ICR_SHORTHAND_OTHER : Z := 0xc0000.
Definition IRQ_BASE : Z := 32.
Definition IRQ_TIMER : Z := 0.
Definition IRQ_ERROR : Z := 19.
Definition APIC_BASE_MSR : Z := 0x1b.
Definition APIC_MSR_BSP_FLAG : Z := 0x100.
Definition APIC_MSR_ENABLE_FLAG : Z := 0x800.
Definition AP_BOOT_BASE : Z := 0x11000.
Definition CPUID_FEAT_ECX_x2APIC : Z := Z.shiftl 1 21.

Definition IOAPIC_BASE : Z := 0xfec00000.
Definition IOAPIC_OFFSET_ID : Z := 0x0.
Definition IOAPIC_OFFSET_VERSION : Z := 0x1.
Definition IOAPIC_OFFSET_RED_TBL (n : Z) : Z := 0x10 + 2 * n.
Definition IOAPIC_REDIRECT_ENTRY_MASKED : Z := 0x10000.

(** ** The accesses *)
Class Chips (St : Type) := {
  rdmsr : Z -> M St (Z * Z);
  wrmsr : Z -> Z * Z -> M St unit;
  read32 : Z -> M St Z;
  write32 : Z -> Z -> M St unit;
  chip_outb : Z -> Z -> M St unit }.

(** The registers [cpuid] answers with: EAX, EBX, ECX, EDX. *)
Record cpuid_regs := CpuidRegs { cpuid_eax : Z; cpuid_ebx : Z; cpuid_ecx : Z; cpuid_edx : Z }.

(** The kernel's memory and the chips. *)
Record platform (St : Type) := Platform { pk : kernel; chips : St }.
Arguments Platform {St} pk chips.
Arguments pk {St} _.
Arguments chips {St} _.

Section Drivers.
Context {St : Type} `{Chips St} (CPUID : Z -> cpuid_regs).

(** ** [lapic.c] *)
Definition lapic_read (reg_address : Z) : M St Z := read32 reg_address.
Definition lapic_write (reg_address value : Z) : M St unit :=
  write32 reg_address (u32 value) ;;;
  let! _id := lapic_read APIC_ID_REGISTER in
  ret tt.

Definition cpu : Z := Z.shiftr (u32 (cpuid_ebx (CPUID 0x1))) 24.

Definition mask_lvt_entry (reg_address : Z) : M St unit :=
  let! reg := lapic_read reg_address in
  lapic_write reg_address (Z.lor reg APIC_LVT_MASKED).

(** The value of [is_x2apic_supported] afterwards. *)
Definition check_x2apic_mode : Z :=
  if truthy (Z.land (u32 (cpuid_ecx (CPUID 0x1))) CPUID_FEAT_ECX_x2APIC) then 1 else 0.

Definition is_bootstrap_processor : M St Z :=
  let! r := rdmsr APIC_BASE_MSR in
  ret (b2z (truthy (Z.land (fst r) APIC_MSR_BSP_FLAG))).
Definition local_apic_base : M St Z :=
  let! r := rdmsr APIC_BASE_MSR in
  ret (Z.land (fst r) 0xfffff000).
Definition is_local_apic_enabled : M St Z :=
  let! r := rdmsr APIC_BASE_MSR in
  let! supurious_interrupt_register := lapic_read APIC_SPURIOUS_REGISTER in
  ret (b2z (truthy (Z.land (fst r) APIC_MSR_ENABLE_FLAG) &&
            truthy (Z.land supurious_interrupt_register APIC_SPURIOUS_REGISTER_APIC_ENABLE))).

(** The test of the spurious register is for the flag of the other register. *)
Definition enable_local_apic : M St unit :=
  let! r := rdmsr APIC_BASE_MSR in
  let! r := (if negb (truthy (Z.land (fst r) APIC_MSR_ENABLE_FLAG)) then
               wrmsr APIC_BASE_MSR (Z.lor (fst r) APIC_MSR_ENABLE_FLAG, snd r) ;;;
               rdmsr APIC_BASE_MSR
             else ret r) in
  assert (truthy (Z.land (fst r) APIC_MSR_ENABLE_FLAG)) ;;;
  let! svr := lapic_read APIC_SPURIOUS_REGISTER in
  let! svr := (if negb (truthy (Z.land svr APIC_MSR_ENABLE_FLAG)) then
                 lapic_write APIC_SPURIOUS_REGISTER (Z.lor svr APIC_SPURIOUS_REGISTER_APIC_ENABLE) ;;;
                 lapic_read APIC_SPURIOUS_REGISTER
               else ret svr) in
  assert (truthy (Z.land svr APIC_SPURIOUS_REGISTER_APIC_ENABLE)).

Definition acknowledge_interrupt : M St unit := lapic_write APIC_EOI_REGISTER 0x0.

(** [while (lapic_read(APIC_ICR_LOW) & APIC_ICR_DELIVER_STATUS_SENDPENDING);] *)
Fixpoint wait_delivered (fuel : nat) : M St unit :=
  match fuel with
  | O => stop OutOfFuel
  | S k =>
      let! icr := lapic_read APIC_ICR_LOW in
      if truthy (Z.land icr APIC_ICR_DELIVER_STATUS_SENDPENDING) then wait_delivered k else ret tt
  end.

(** [loop_and_wait] only takes time. *)
Definition start_other_processors (fuel : nat) : M St unit :=
  lapic_write APIC_ICR_HIGH 0x0 ;;;
  lapic_write APIC_ICR_LOW (Z.lor (Z.lor (Z.lor APIC_ICR_SHORTHAND_OTHER APIC_ICR_DELIVERY_INIT)
    APIC_ICR_TRIGGER_LEVEL) APIC_ICR_LEVEL_ASSERT) ;;;
  wait_delivered fuel ;;;
  lapic_write APIC_ICR_HIGH 0x0 ;;;
  lapic_write APIC_ICR_LOW (Z.lor (Z.lor APIC_ICR_SHORTHAND_OTHER APIC_ICR_DELIVERY_STARTUP)
    (Z.shiftr AP_BOOT_BASE 12)) ;;;
  wait_delivered fuel.

Definition on_kernel {A} (c : M kernel A) : M (platform St) A :=
  zoom pk (fun k s => Platform k (chips s)) c.
Definition on_chips {A} (c : M St A) : M (platform St) A :=
  zoom chips (fun x s => Platform (pk s) x) c.

Definition disable_legacy_pics : M St unit :=
  chip_outb 0xa1 0xff ;;;
  chip_outb 0x21 0xff.

(** The registers of the local APIC, after it is enabled; the two last reads are
    the arguments of the log. *)
Definition local_apic_registers : M St unit :=
  lapic_write APIC_TDC_REGISTER 0xb ;;;
  lapic_write APIC_TIMER_REGISTER (Z.lor APIC_TIMER_MODE_PERODIC (IRQ_BASE + IRQ_TIMER)) ;;;
  lapic_write APIC_TIC_REGISTER 10000000 ;;;
  mask_lvt_entry APIC_LINT0_REGISTER ;;;
  mask_lvt_entry APIC_LINT1_REGISTER ;;;
  mask_lvt_entry APIC_PERF_COUNTER_REGISTER ;;;
  lapic_write APIC_ERROR_REGISTER (IRQ_ERROR + IRQ_BASE) ;;;
  lapic_write APIC_ERROR_STATUS_REGISTER 0x0 ;;;
  lapic_write APIC_ERROR_STATUS_REGISTER 0x0 ;;;
  lapic_write APIC_EOI_REGISTER 0x0 ;;;
  lapic_write APIC_TASK_PRIORITY_REGISTER 0x0 ;;;
  let! _enabled := is_local_apic_enabled in
  let! _base := local_apic_base in
  ret tt.

Definition local_apic_init : M (platform St) unit :=
  let! rc := on_kernel (map_address APIC_BASE APIC_BASE PAGE_SIZE_4K) in
  assert (rc =? ERROR_OK) ;;;
  on_chips disable_legacy_pics ;;;
  on_chips enable_local_apic ;;;
  let! enabled := on_chips is_local_apic_enabled in
  assert (truthy enabled) ;;;
  on_chips local_apic_registers.

Definition local_apic_ap_init : M (platform St) unit :=
  let! lapic_map_rc := on_kernel (map_address APIC_BASE APIC_BASE PAGE_SIZE_4K) in
  assert ((lapic_map_rc =? ERROR_OK) || (lapic_map_rc =? - ERROR_DUPLICATION)) ;;;
  on_chips disable_legacy_pics ;;;
  on_chips enable_local_apic ;;;
  let! enabled := on_chips is_local_apic_enabled in
  assert (truthy enabled) ;;;
  ret tt.

(** ** [ioapic.c] *)
Definition ioapic_write (offset value : Z) : M St unit :=
  write32 IOAPIC_BASE (u32 offset) ;;;
  write32 (IOAPIC_BASE + 0x10) (u32 value).
Definition ioapic_read (offset : Z) : M St Z :=
  write32 IOAPIC_BASE (u32 offset) ;;;
  read32 (IOAPIC_BASE + 0x10).

Definition ioapic_redirect_entry (entry cpu : Z) : M St unit :=
  ioapic_write (IOAPIC_OFFSET_RED_TBL entry) (0x20 + entry) ;;;
  ioapic_write (IOAPIC_OFFSET_RED_TBL entry + 1) (Z.shiftl cpu 24).

(** [for (idx = 0; idx <= (ioapic_version >> 16); idx++)]. *)
Definition io_apic_registers : M St unit :=
  let! _ioapic_id := ioapic_read IOAPIC_OFFSET_ID in
  let! ioapic_version := ioapic_read IOAPIC_OFFSET_VERSION in
  mfor (S (Z.to_nat (Z.shiftr ioapic_version 16))) 0 (fun idx =>
    ioapic_write (IOAPIC_OFFSET_RED_TBL idx) (Z.lor IOAPIC_REDIRECT_ENTRY_MASKED (0x20 + idx)) ;;;
    ioapic_write (IOAPIC_OFFSET_RED_TBL idx + 1) 0).

Definition io_apic_init : M (platform St) unit :=
  let! rc := on_kernel (map_address IOAPIC_BASE IOAPIC_BASE PAGE_SIZE_4K) in
  assert (rc =? ERROR_OK) ;;;
  on_chips io_apic_registers.
End Drivers.

(** ** The chips, as the drivers see them

    [chipset] holds the registers the drivers use: the APIC base register, the held
    registers of the local APIC by address, the vectors in service (highest
    priority first), the inter-processor interrupts sent and for how many more
    reads the last one is reported as pending, the selector and the registers of
    the I/O APIC, and the masks of the two legacy controllers. *)
Record chipset := Chipset {
  base_msr : Z * Z; lreg : Z -> Z; in_service : list Z; ipis : list (Z * Z); pending : nat;
  ioregsel : Z; ioreg : Z -> Z; legacy_masks : Z * Z }.
#[export] Instance eta_chipset : Eta chipset := fun v =>
  Chipset (base_msr v) (lreg v) (in_service v) (ipis v) (pending v) (ioregsel v) (ioreg v)
    (legacy_masks v).

Definition set_at (r x : Z) (f : Z -> Z) : Z -> Z := fun r' => if r' =? r then x else f r'.
(** A write of a register some of whose bits are read-only. *)
Definition blend (mask x old : Z) : Z := Z.lor (Z.land x mask) (Z.ldiff old mask).

(** The local vector table, and the writable bits of the held registers. *)
Definition lvt (r : Z) : bool :=
  existsb (Z.eqb r) [APIC_TIMER_REGISTER; APIC_LINT0_REGISTER; APIC_LINT1_REGISTER;
    APIC_PERF_COUNTER_REGISTER; APIC_ERROR_REGISTER].
Definition held (r : Z) : option Z :=
  if r =? APIC_SPURIOUS_REGISTER then Some 0x13ff
  else if r =? APIC_TIMER_REGISTER then Some 0x700ff
  else if (r =? APIC_LINT0_REGISTER) || (r =? APIC_LINT1_REGISTER) then Some 0x1a7ff
  else if r =? APIC_PERF_COUNTER_REGISTER then Some 0x107ff
  else if r =? APIC_ERROR_REGISTER then Some 0x100ff
  else if r =? APIC_TDC_REGISTER then Some 0xb
  else if r =? APIC_TIC_REGISTER then Some 0xffffffff
  else if r =? APIC_TASK_PRIORITY_REGISTER then Some 0xff
  else if r =? APIC_ICR_HIGH then Some 0xff000000
  else None.

(** The registers answer at [APIC_BASE] when the processor's flag is set; a local
    vector entry holds what is written when the APIC is enabled in software too. *)
Definition reachable (v : chipset) : bool :=
  Z.testbit (fst (base_msr v)) 11 && (Z.land (fst (base_msr v)) 0xfffff000 =? APIC_BASE).
Definition writable_bits (v : chipset) (r : Z) : Z :=
  match held r with Some mask => Z.land (lreg v r) mask | None => 0 end.
Definition software_enabled (v : chipset) : bool :=
  Z.testbit (writable_bits v APIC_SPURIOUS_REGISTER) 8.

Definition lapic_store (r mask x : Z) (v : chipset) : chipset :=
  v <| lreg := set_at r (blend mask x (lreg v r)) (lreg v) |>.

(** The redirection table's entries, and the writable bits of their two words. *)
Definition max_entry (v : chipset) : Z := Z.shiftr (ioreg v IOAPIC_OFFSET_VERSION) 16.
Definition red_mask (o : Z) : Z := if Z.even o then 0x1afff else 0xff000000.
Definition in_red_tbl (v : chipset) (o : Z) : bool := (0x10 <=? o) && (o <? 0x12 + 2 * max_entry v).
Definition ioapic_store (x : Z) (v : chipset) : chipset :=
  v <| ioreg := set_at (ioregsel v) (blend (red_mask (ioregsel v)) x (ioreg v (ioregsel v))) (ioreg v) |>.

(** What the manuals say of the accesses the drivers make; [delay] bounds the reads
    that see an inter-processor interrupt pending. *)
Class ChipsSpec (St : Type) `{Chips St} (delay : nat) (shows : St -> chipset -> Prop) := {
  read_base s v : shows s v -> runs (rdmsr APIC_BASE_MSR) s (fun x s' => x = base_msr v /\ shows s' v);
  write_base s v : shows s v ->
    runs (wrmsr APIC_BASE_MSR (Z.lor (fst (base_msr v)) APIC_MSR_ENABLE_FLAG, snd (base_msr v))) s
      (fun _ s' => shows s' (v <| base_msr := (Z.lor (fst (base_msr v)) APIC_MSR_ENABLE_FLAG, snd (base_msr v)) |>));
  read_held s v r mask : held r = Some mask -> reachable v = true -> shows s v ->
    runs (read32 r) s (fun x s' => x = lreg v r /\ shows s' v);
  write_held s v r mask x : held r = Some mask -> reachable v = true -> 0 <= x < 2 ^ 32 ->
    (lvt r = true -> software_enabled v = true) -> shows s v ->
    runs (write32 r x) s (fun _ s' => shows s' (lapic_store r mask x v));
  reserved_zero s v : shows s v -> Z.testbit (lreg v APIC_SPURIOUS_REGISTER) 11 = false;
  read_id s v : reachable v = true -> shows s v -> runs (read32 APIC_ID_REGISTER) s (fun _ s' => shows s' v);
  write_eoi s v : reachable v = true -> shows s v ->
    runs (write32 APIC_EOI_REGISTER 0) s (fun _ s' => shows s' (v <| in_service ::= tail |>));
  write_status s v : reachable v = true -> shows s v ->
    runs (write32 APIC_ERROR_STATUS_REGISTER 0) s (fun _ s' => shows s' v);
  send_ipi s v x : reachable v = true -> software_enabled v = true -> 0 <= x < 2 ^ 32 -> shows s v ->
    runs (write32 APIC_ICR_LOW x) s (fun _ s' => exists n, (n <= delay)%nat /\
      shows s' (v <| ipis ::= fun l => l ++ [(lreg v APIC_ICR_HIGH, x)] |> <| pending := n |>));
  read_icr s v : reachable v = true -> shows s v ->
    runs (read32 APIC_ICR_LOW) s (fun x s' =>
      truthy (Z.land x APIC_ICR_DELIVER_STATUS_SENDPENDING) = negb (pending v =? 0)%nat /\
      shows s' (v <| pending ::= Nat.pred |>));
  table_fits s v : shows s v -> 0 <= max_entry v < 120;
  select_io s v o : 0 <= o < 256 -> shows s v ->
    runs (write32 IOAPIC_BASE o) s (fun _ s' => shows s' (v <| ioregsel := o |>));
  read_io s v : shows s v ->
    runs (read32 (IOAPIC_BASE + 0x10)) s (fun x s' => x = ioreg v (ioregsel v) /\ shows s' v);
  write_io s v x : in_red_tbl v (ioregsel v) = true -> 0 <= x < 2 ^ 32 -> shows s v ->
    runs (write32 (IOAPIC_BASE + 0x10) x) s (fun _ s' => shows s' (ioapic_store x v));
  mask_slave s v b : 0 <= b < 256 -> shows s v ->
    runs (chip_outb 0xa1 b) s (fun _ s' => shows s' (v <| legacy_masks ::= fun m => (fst m, b) |>));
  mask_master s v b : 0 <= b < 256 -> shows s v ->
    runs (chip_outb 0x21 b) s (fun _ s' => shows s' (v <| legacy_masks ::= fun m => (b, snd m) |>)) }.

(** ** Stores and the writable bits *)
Lemma land_blend mask x old : Z.land (blend mask x old) mask = Z.land x mask.
Proof.
  unfold blend. apply Z.bits_inj'. intros n Hn. rewrite Z.land_spec, Z.lor_spec, Z.land_spec, Z.ldiff_spec.
  by destruct (Z.testbit x n), (Z.testbit old n), (Z.testbit mask n).
Qed.

Lemma writable_store r mask x v r' : held r = Some mask ->
  writable_bits (lapic_store r mask x v) r' = if r' =? r then Z.land x mask else writable_bits v r'.
Proof.
  intros Hm. unfold writable_bits, lapic_store, update. cbn. unfold set_at.
  destruct (Z.eqb_spec r' r) as [->|]; [|done]. by rewrite Hm, land_blend.
Qed.

(** A chip whose APIC answers and is enabled in software. *)
Definition live (v : chipset) : Prop := reachable v = true /\ software_enabled v = true.

Lemma live_store r mask x v :
  held r = Some mask -> (APIC_SPURIOUS_REGISTER =? r) = false -> live v -> live (lapic_store r mask x v).
Proof.
  intros Hm Hne [Hr Hs]. split; [exact Hr|]. unfold software_enabled. by rewrite (writable_store r), Hne.
Qed.

Lemma writable_service f v r : writable_bits (v <| in_service ::= f |>) r = writable_bits v r.
Proof. done. Qed.

(** Read a register of a chip after a series of stores. *)
Ltac writable_simpl :=
  repeat first [rewrite writable_service | rewrite writable_store by reflexivity;
    match goal with |- context [if ?a =? ?b then _ else _] =>
      let c := eval vm_compute in (a =? b) in change (a =? b) with c; cbv iota end].

Lemma runs_eq {S A} (c c' : M S A) s (Q : A -> S -> Prop) : c s = c' s -> runs c' s Q -> runs c s Q.
Proof. unfold runs. by intros ->. Qed.

Lemma runs_assoc {S} (c d k : M S unit) s (Q : unit -> S -> Prop) :
  runs ((c ;;; d) ;;; k) s Q -> runs (c ;;; d ;;; k) s Q.
Proof. apply runs_eq. symmetry. apply bind_assoc. Qed.

Section Theory.
Context {St : Type} {delay : nat} {shows : St -> chipset -> Prop} `{Hspec : ChipsSpec St delay shows}.

(** The read of the identifier after each write is harmless. *)
Lemma then_id (c : M St unit) s (P : chipset -> Prop) :
  (forall v, P v -> reachable v = true) ->
  runs c s (fun _ s' => exists v, shows s' v /\ P v) ->
  runs (c ;;; let! _id := lapic_read APIC_ID_REGISTER in ret tt) s (fun _ s' => exists v, shows s' v /\ P v).
Proof using Hspec.
  intros HP Hc. apply runs_bind. eapply runs_mono; [exact Hc|]. intros [] s1 (v & Hv & HPv).
  apply runs_bind. eapply runs_mono; [apply (read_id s1 v); [by apply HP|done]|]. intros i s2 H2. apply runs_ret. cbv beta in H2. by exists v.
Qed.

Lemma lapic_write_held s v r mask x :
  held r = Some mask -> reachable v = true -> (lvt r = true -> software_enabled v = true) -> shows s v ->
  runs (lapic_write r x) s (fun _ s' => shows s' (lapic_store r mask (u32 x) v)).
Proof using Hspec.
  intros Hm Hr Hl Hs. eapply runs_mono.
  - apply (then_id _ _ (fun w => w = lapic_store r mask (u32 x) v)); [by intros ? ->|].
    eapply runs_mono; [by apply write_held; [..|apply (wrap_range 32)| |]|]. intros [] s' H'. cbv beta in H'. by eexists.
  - intros [] s' (w & Hw & ->). done.
Qed.

Lemma lapic_store_runs s v r mask x :
  held r = Some mask -> (APIC_SPURIOUS_REGISTER =? r) = false -> live v -> shows s v ->
  runs (lapic_write r x) s (fun _ s' => shows s' (lapic_store r mask (u32 x) v) /\ live (lapic_store r mask (u32 x) v)).
Proof using Hspec.
  intros Hm Hne Hl Hs. eapply runs_mono; [apply lapic_write_held; [exact Hm|apply Hl|intros; apply Hl|done]|].
  intros [] s' H'. split; [exact H'|by apply live_store].
Qed.

Lemma mask_lvt_entry_runs s v r mask :
  held r = Some mask -> (APIC_SPURIOUS_REGISTER =? r) = false -> live v -> shows s v ->
  runs (mask_lvt_entry r) s (fun _ s' =>
    let v' := lapic_store r mask (u32 (Z.lor (lreg v r) APIC_LVT_MASKED)) v in shows s' v' /\ live v').
Proof using Hspec.
  intros Hm Hne Hl Hs. unfold mask_lvt_entry. apply runs_bind.
  eapply runs_mono; [apply (read_held s v r mask Hm); [apply Hl|done]|]. intros x s1 [-> H1].
  by apply lapic_store_runs.
Qed.

Lemma acknowledge_interrupt_runs s v :
  reachable v = true -> shows s v ->
  runs acknowledge_interrupt s (fun _ s' => shows s' (v <| in_service ::= tail |>)).
Proof using Hspec.
  intros Hr Hs. eapply runs_mono.
  - apply (then_id _ _ (fun w => w = v <| in_service ::= tail |>)); [by intros ? ->|].
    eapply runs_mono; [by apply write_eoi|]. intros [] s' H'. cbv beta in H'. by eexists.
  - by intros [] s' (w & Hw & ->).
Qed.

Lemma clear_status_runs s v : reachable v = true -> shows s v ->
  runs (lapic_write APIC_ERROR_STATUS_REGISTER 0) s (fun _ s' => shows s' v).
Proof using Hspec.
  intros Hr Hs. eapply runs_mono.
  - apply (then_id _ _ (fun w => w = v)); [by intros ? ->|].
    eapply runs_mono; [by apply write_status|]. intros [] s' H'. cbv beta in H'. by eexists.
  - by intros [] s' (w & Hw & ->).
Qed.
(** [enable_local_apic]: both flags, whatever they were. *)
Definition located (v : chipset) : Prop := Z.land (fst (base_msr v)) 0xfffff000 = APIC_BASE.
Definition flagged (v : chipset) : chipset :=
  v <| base_msr := (Z.lor (fst (base_msr v)) APIC_MSR_ENABLE_FLAG, snd (base_msr v)) |>.
Definition switched_on (v : chipset) : chipset :=
  lapic_store APIC_SPURIOUS_REGISTER 0x13ff
    (u32 (Z.lor (lreg v APIC_SPURIOUS_REGISTER) APIC_SPURIOUS_REGISTER_APIC_ENABLE)) (flagged v).

Lemma flagged_reachable v : located v -> reachable (flagged v) = true.
Proof.
  intros Hl. unfold reachable, flagged, update, APIC_MSR_ENABLE_FLAG. cbn [base_msr fst].
  rewrite Z.lor_spec, Z.land_lor_distr_l. unfold located in Hl. rewrite Hl.
  by rewrite orb_true_r.
Qed.

Lemma switched_on_svr v :
  truthy (Z.land (lreg (switched_on v) APIC_SPURIOUS_REGISTER) APIC_SPURIOUS_REGISTER_APIC_ENABLE) = true /\
  writable_bits (switched_on v) APIC_SPURIOUS_REGISTER =
    Z.lor (writable_bits v APIC_SPURIOUS_REGISTER) APIC_SPURIOUS_REGISTER_APIC_ENABLE.
Proof.
  split.
  - change APIC_SPURIOUS_REGISTER_APIC_ENABLE with (Z.shiftl 1 8) at 1. rewrite truthy_bit by lia.
    unfold switched_on, lapic_store, update, set_at. cbn -[Z.testbit Z.land Z.lor Z.ldiff u32]. unfold blend, u32.
    by rewrite Z.lor_spec, Z.land_spec, testbit_wrap, Z.lor_spec, orb_true_r by lia.
  - unfold switched_on. rewrite writable_store by done. rewrite Z.eqb_refl. unfold writable_bits. cbn [held Z.eqb Pos.eqb].
    unfold u32, APIC_SPURIOUS_REGISTER_APIC_ENABLE. change (wrap 32) with (fun z => z mod 2 ^ 32). cbv beta.
    rewrite <- Z.land_ones by lia. rewrite <- Z.land_assoc, Z.land_lor_distr_l. reflexivity.
Qed.

Lemma switched_on_live v : located v -> live (switched_on v).
Proof.
  intros Hl. split; [exact (flagged_reachable v Hl)|]. unfold software_enabled.
  rewrite (proj2 (switched_on_svr v)), Z.lor_spec. apply orb_true_r.
Qed.

Lemma enable_local_apic_runs s v : located v -> shows s v ->
  runs enable_local_apic s (fun _ s' => shows s' (switched_on v)).
Proof using Hspec.
  intros Hl Hs. unfold enable_local_apic. apply runs_bind.
  eapply runs_mono; [by apply read_base|]. intros r s1 [-> H1]. apply runs_bind.
  apply (runs_mono _ _ (fun r s' => r = base_msr (flagged v) /\ shows s' (flagged v))).
  - destruct (truthy (Z.land (fst (base_msr v)) APIC_MSR_ENABLE_FLAG)) eqn:E; cbn [negb].
    + apply runs_ret. change APIC_MSR_ENABLE_FLAG with (Z.shiftl 1 11) in E. rewrite truthy_bit in E by lia.
      assert (Ef : flagged v = v); [|by rewrite Ef].
      assert (Hor : Z.lor (fst (base_msr v)) APIC_MSR_ENABLE_FLAG = fst (base_msr v)).
      { apply Z.bits_inj'. intros n Hn. change APIC_MSR_ENABLE_FLAG with (2 ^ 11).
        rewrite Z.lor_spec, Z.pow2_bits_eqb by lia. destruct (Z.eqb_spec 11 n) as [<-|]; [by rewrite E|apply orb_false_r]. }
      unfold flagged. rewrite Hor. by destruct v as [[? ?]].
    + apply runs_bind. eapply runs_mono; [by apply write_base|]. intros [] s2 H2. cbv beta in H2.
      eapply runs_mono; [apply read_base; exact H2|]. intros r s3 [-> H3]. by split.
  - intros r s2 [-> H2]. apply runs_bind. rewrite (proj2 (truthy_true _)).
    2: { intros H0. pose proof (flagged_reachable v Hl) as Hr. unfold reachable in Hr.
         apply andb_prop in Hr as [Hr _]. rewrite <- truthy_bit in Hr by lia. apply truthy_true in Hr. by apply Hr. }
    apply runs_ret. apply runs_bind.
    eapply runs_mono; [apply (read_held s2 (flagged v) APIC_SPURIOUS_REGISTER 0x13ff); [done|by apply flagged_reachable|exact H2]|].
    intros x s3 [-> H3]. apply runs_bind.
    change (Z.land (lreg (flagged v) APIC_SPURIOUS_REGISTER) APIC_MSR_ENABLE_FLAG)
      with (Z.land (lreg (flagged v) APIC_SPURIOUS_REGISTER) (Z.shiftl 1 11)).
    rewrite truthy_bit, (reserved_zero s3 (flagged v) H3) by lia. cbn [negb]. apply runs_bind.
    eapply runs_mono; [apply (lapic_write_held s3 (flagged v) _ 0x13ff); [done|by apply flagged_reachable|done|exact H3]|].
    intros [] s4 H4. cbv beta in H4.
    eapply runs_mono; [apply (read_held s4 (switched_on v) APIC_SPURIOUS_REGISTER 0x13ff); [done|by apply (flagged_reachable v Hl)|exact H4]|].
    intros x s5 [-> H5]. unfold assert. rewrite (proj1 (switched_on_svr v)). by apply runs_ret.
Qed.
Lemma is_local_apic_enabled_runs s v : live v -> shows s v ->
  runs is_local_apic_enabled s (fun x s' => truthy x = true /\ shows s' v).
Proof using Hspec.
  intros [Hr Hse] Hs. unfold is_local_apic_enabled. apply runs_bind.
  eapply runs_mono; [by apply read_base|]. intros r s1 [-> H1]. apply runs_bind.
  eapply runs_mono; [apply (read_held s1 v APIC_SPURIOUS_REGISTER 0x13ff); done|].
  intros x s2 [-> H2]. apply runs_ret. split; [|done].
  change APIC_MSR_ENABLE_FLAG with (Z.shiftl 1 11). change APIC_SPURIOUS_REGISTER_APIC_ENABLE with (Z.shiftl 1 8).
  rewrite !truthy_bit by lia. unfold reachable in Hr. apply andb_prop in Hr as [-> _].
  change (Z.testbit (Z.land (lreg v APIC_SPURIOUS_REGISTER) 0x13ff) 8 = true) in Hse.
  rewrite Z.land_spec in Hse. apply andb_prop in Hse as [-> _]. done.
Qed.

(** What [local_apic_init] leaves behind. *)
Record apic_configured (v v' : chipset) : Prop := {
  ac_live : live v';
  ac_timer : writable_bits v' APIC_TIMER_REGISTER = Z.lor APIC_TIMER_MODE_PERODIC (IRQ_BASE + IRQ_TIMER);
  ac_divide : writable_bits v' APIC_TDC_REGISTER = 0xb;
  ac_count : writable_bits v' APIC_TIC_REGISTER = 10000000;
  ac_lint0 : writable_bits v' APIC_LINT0_REGISTER = Z.lor (writable_bits v APIC_LINT0_REGISTER) APIC_LVT_MASKED;
  ac_lint1 : writable_bits v' APIC_LINT1_REGISTER = Z.lor (writable_bits v APIC_LINT1_REGISTER) APIC_LVT_MASKED;
  ac_perf : writable_bits v' APIC_PERF_COUNTER_REGISTER =
    Z.lor (writable_bits v APIC_PERF_COUNTER_REGISTER) APIC_LVT_MASKED;
  ac_error : writable_bits v' APIC_ERROR_REGISTER = IRQ_BASE + IRQ_ERROR;
  ac_priority : writable_bits v' APIC_TASK_PRIORITY_REGISTER = 0;
  ac_spurious : writable_bits v' APIC_SPURIOUS_REGISTER = writable_bits v APIC_SPURIOUS_REGISTER;
  ac_service : in_service v' = tail (in_service v);
  ac_rest : v' <| lreg := lreg v |> <| in_service := in_service v |> = v }.

Lemma land_u32_lor a b mask : 0 <= mask < 2 ^ 32 ->
  Z.land (u32 (Z.lor a b)) mask = Z.lor (Z.land a mask) (Z.land b mask).
Proof.
  intros Hm. apply Z.bits_inj'. intros n Hn. unfold u32.
  rewrite Z.land_spec, testbit_wrap, !Z.lor_spec, !Z.land_spec by lia.
  destruct (Z.ltb_spec n 32).
  - destruct (Z.testbit a n), (Z.testbit b n), (Z.testbit mask n); done.
  - rewrite (testbit_high mask 32 n) by done. by rewrite !andb_false_r.
Qed.

Local Ltac store_with m s' H' L' :=
  apply runs_bind; eapply runs_mono;
    [eapply (lapic_store_runs _ _ _ m); [reflexivity|reflexivity| |eassumption]; eassumption|];
  intros [] s' [H' L'].
Local Ltac mask_with m s' H' L' :=
  apply runs_bind; eapply runs_mono;
    [eapply (mask_lvt_entry_runs _ _ _ m); [reflexivity|reflexivity| |eassumption]; eassumption|];
  intros [] s' [H' L'].
Local Ltac clear_status s' H' :=
  apply runs_bind; eapply runs_mono;
    [eapply clear_status_runs; [|eassumption]; match goal with L : live _ |- _ => apply L end|];
  intros [] s' H'; cbv beta in H'.

Lemma writable_masked m w r mask : held r = Some mask -> 0 <= mask < 2 ^ 32 ->
  Z.land (u32 (Z.lor (lreg w r) m)) mask = Z.lor (writable_bits w r) (Z.land m mask).
Proof. intros Hm Hr. unfold writable_bits. by rewrite Hm, land_u32_lor. Qed.

Lemma local_apic_registers_runs s v : live v -> shows s v ->
  runs local_apic_registers s (fun _ s' => exists v', shows s' v' /\ apic_configured v v').
Proof using Hspec.
  intros Hl Hs. unfold local_apic_registers.
  store_with 0xb s1 H1 L1. store_with 0x700ff s2 H2 L2. store_with 0xffffffff s3 H3 L3.
  mask_with 0x1a7ff s4 H4 L4. mask_with 0x1a7ff s5 H5 L5. mask_with 0x107ff s6 H6 L6.
  store_with 0x100ff s7 H7 L7. clear_status s8 H8. clear_status s9 H9.
  apply runs_bind. eapply runs_mono; [apply acknowledge_interrupt_runs; [apply L7|exact H9]|]. intros [] s10 H10.
  cbv beta in H10. match type of H10 with shows _ ?w => assert (L10 : live w) by exact L7 end.
  store_with 0xff s11 H11 L11.
  apply runs_bind. eapply runs_mono; [eapply is_local_apic_enabled_runs; [exact L11|exact H11]|]. intros x s12 [_ H12].
  apply runs_bind, runs_bind. eapply runs_mono; [apply read_base; exact H12|]. intros r s13 [_ H13].
  apply runs_ret, runs_ret. eexists. split; [exact H13|]. split; [exact L11|..]; writable_simpl; try reflexivity.
  1-3: rewrite (writable_masked APIC_LVT_MASKED) by done; by writable_simpl.
  by destruct v.
Qed.
(** *** Starting the other processors *)
Lemma wait_delivered_runs fuel s v :
  (pending v < fuel)%nat -> reachable v = true -> shows s v ->
  runs (wait_delivered fuel) s (fun _ s' => shows s' (v <| pending := 0%nat |>)).
Proof using Hspec.
  revert s v. induction fuel as [|fuel IH]; intros s v Hf Hr Hs; [lia|]. cbn [wait_delivered].
  apply runs_bind. eapply runs_mono; [by apply read_icr|]. intros x s1 [-> H1].
  destruct v as [b l i q p o r m]. cbn [pending] in *. destruct p as [|p]; cbn [Nat.eqb negb].
  - by apply runs_ret.
  - apply (IH s1 (Chipset b l i q p o r m)); [cbn; lia|exact Hr|exact H1].
Qed.

(** One command: the target, the request, and the wait until it is delivered. *)
Lemma command_runs fuel s v x :
  (delay < fuel)%nat -> 0 <= x < 2 ^ 32 -> live v -> shows s v ->
  runs (lapic_write APIC_ICR_HIGH 0 ;;; lapic_write APIC_ICR_LOW x ;;; wait_delivered fuel) s
    (fun _ s' => let v1 := lapic_store APIC_ICR_HIGH 0xff000000 0 v in
       let v' := v1 <| ipis ::= fun l => l ++ [(lreg v1 APIC_ICR_HIGH, x)] |> <| pending := 0%nat |> in
       live v' /\ shows s' v').
Proof using Hspec.
  intros Hf Hx Hl Hs. apply runs_bind.
  eapply runs_mono; [by apply (lapic_store_runs s v _ 0xff000000)|]. intros [] s1 [H1 L1].
  set (v1 := lapic_store APIC_ICR_HIGH _ _ v) in *. apply runs_bind.
  apply (runs_mono _ _ (fun _ s' => exists n, (n <= delay)%nat /\
    shows s' (v1 <| ipis ::= fun l => l ++ [(lreg v1 APIC_ICR_HIGH, x)] |> <| pending := n |>))).
  - unfold lapic_write. rewrite (u32_small x) by done. apply runs_bind.
    eapply runs_mono; [apply (send_ipi s1 v1 x); [apply L1|apply L1|done|done]|]. intros [] s2 (n & Hn & H2).
    apply runs_bind. eapply runs_mono; [eapply read_id; [|exact H2]; apply L1|]. intros i s3 H3. cbv beta in H3.
    apply runs_ret. eauto.
  - intros [] s2 (n & Hn & H2). eapply runs_mono; [eapply wait_delivered_runs; [|..|exact H2]; [cbn; lia|apply L1]|].
    intros [] s3 H3. cbv beta in H3. split; [exact L1|exact H3].
Qed.

(** What the two commands change: the requests sent, none of them pending, and the
    register that holds their target. *)
Definition commanded (v : chipset) (l : list (Z * Z)) (v' : chipset) : Prop :=
  live v' /\ ipis v' = ipis v ++ l /\ pending v' = 0%nat /\
  (forall r, r <> APIC_ICR_HIGH -> lreg v' r = lreg v r) /\
  v' <| lreg := lreg v |> <| ipis := ipis v |> <| pending := pending v |> = v.

Lemma start_other_processors_runs fuel s v :
  (delay < fuel)%nat -> live v -> shows s v ->
  runs (start_other_processors fuel) s (fun _ s' => exists v' target target',
    Z.land target 0xff000000 = 0 /\ Z.land target' 0xff000000 = 0 /\ shows s' v' /\
    commanded v [(target, Z.lor (Z.lor (Z.lor APIC_ICR_SHORTHAND_OTHER APIC_ICR_DELIVERY_INIT)
                    APIC_ICR_TRIGGER_LEVEL) APIC_ICR_LEVEL_ASSERT);
                 (target', Z.lor (Z.lor APIC_ICR_SHORTHAND_OTHER APIC_ICR_DELIVERY_STARTUP)
                    (Z.shiftr AP_BOOT_BASE 12))] v').
Proof using Hspec.
  intros Hf Hl Hs.
  pose (send x := lapic_write APIC_ICR_HIGH 0 ;;; lapic_write APIC_ICR_LOW x ;;; wait_delivered fuel).
  assert (E : forall x y, (send x ;;; send y) s = (lapic_write APIC_ICR_HIGH 0 ;;; lapic_write APIC_ICR_LOW x ;;;
    wait_delivered fuel ;;; send y) s) by (intros x y; unfold send, bind; repeat case_match; congruence).
  eapply runs_eq; [symmetry; apply E|].
  apply runs_bind. eapply runs_mono; [by apply command_runs|]. intros [] s1 [L1 H1].
  eapply runs_mono; [apply command_runs; [done|done|exact L1|exact H1]|]. intros [] s2 [L2 H2].
  set (v1 := lapic_store APIC_ICR_HIGH 0xff000000 0 v) in *.
  match type of H2 with shows _ ?w => exists w end.
  exists (lreg v1 APIC_ICR_HIGH), (blend 0xff000000 0 (lreg v1 APIC_ICR_HIGH)).
  split; [apply land_blend|]. split; [apply land_blend|]. split; [exact H2|].
  split; [exact L2|]. split; [exact (eq_sym (app_assoc (ipis v) [_] [_]))|].
  split; [done|]. split; [|by destruct v].
  intros r Hr. apply Z.eqb_neq in Hr. unfold v1, lapic_store, set_at, update. cbn -[Z.eqb APIC_ICR_HIGH blend]. by rewrite !Hr.
Qed.
(** More fuel gives the same answer. *)
Definition more {S A} (c c' : M S A) : Prop := forall s r, c s = Ret r -> c' s = Ret r.

Lemma more_refl {S A} (c : M S A) : more c c.
Proof using. by intros s r. Qed.
Lemma more_bind {S A B} (c c' : M S A) (f f' : A -> M S B) :
  more c c' -> (forall a, more (f a) (f' a)) -> more (bind c f) (bind c' f').
Proof using.
  intros Hc Hf s r. unfold bind. destruct (c s) as [[a s1]|] eqn:E; [|done]. rewrite (Hc _ _ E). apply Hf.
Qed.

Lemma wait_delivered_more i j : (i <= j)%nat -> more (wait_delivered i) (wait_delivered j).
Proof using.
  revert j. induction i as [|i IH]; intros [|j] Hj; [by intros s r..|lia|]. cbn [wait_delivered].
  apply more_bind; [apply more_refl|]. intros icr. destruct (truthy _); [apply IH; lia|apply more_refl].
Qed.

Lemma start_other_processors_more i j : (i <= j)%nat -> more (start_other_processors i) (start_other_processors j).
Proof using.
  intros Hj. unfold start_other_processors.
  repeat (apply more_bind; [apply more_refl || by apply wait_delivered_more|intros []]). by apply wait_delivered_more.
Qed.

(** *** The redirection table *)
Definition red_low (v : chipset) (e : Z) : Z := Z.land (ioreg v (IOAPIC_OFFSET_RED_TBL e)) 0x1afff.
Definition red_high (v : chipset) (e : Z) : Z := Z.land (ioreg v (IOAPIC_OFFSET_RED_TBL e + 1)) 0xff000000.

(** Changes of the I/O APIC alone, and of one entry of its table. *)
Definition same_local (v v' : chipset) : Prop :=
  v' <| ioregsel := ioregsel v |> <| ioreg := ioreg v |> = v /\ max_entry v' = max_entry v.
Definition redirected (e low high : Z) (v v' : chipset) : Prop :=
  same_local v v' /\ red_low v' e = low /\ red_high v' e = high /\
  forall e', e' <> e -> red_low v' e' = red_low v e' /\ red_high v' e' = red_high v e'.

Lemma same_local_fields v v' : same_local v v' ->
  lreg v' = lreg v /\ base_msr v' = base_msr v /\ in_service v' = in_service v /\
  ipis v' = ipis v /\ legacy_masks v' = legacy_masks v.
Proof. intros [<- _]. by destruct v'. Qed.

Lemma same_local_trans v1 v2 v3 : same_local v1 v2 -> same_local v2 v3 -> same_local v1 v3.
Proof.
  intros [E1 M1] [E2 M2]. split; [|congruence]. rewrite <- E1, <- E2. by destruct v3.
Qed.

(** A store at an offset of the table. *)
Definition io_store (o x : Z) (v : chipset) : chipset := ioapic_store x (v <| ioregsel := o |>).

Lemma io_store_same o x v : 0x10 <= o ->
  same_local v (io_store o x v) /\ ioreg (io_store o x v) = set_at o (blend (red_mask o) x (ioreg v o)) (ioreg v).
Proof.
  intros Ho. assert (E : ioreg (io_store o x v) = set_at o (blend (red_mask o) x (ioreg v o)) (ioreg v)) by done.
  split; [|exact E]. split; [by destruct v|]. unfold max_entry. rewrite E. unfold set_at, IOAPIC_OFFSET_VERSION.
  by rewrite (proj2 (Z.eqb_neq 1 o)) by lia.
Qed.

Lemma red_mask_low e : red_mask (0x10 + 2 * e) = 0x1afff.
Proof. unfold red_mask. by rewrite Z.even_add_mul_2. Qed.
Lemma red_mask_high e : red_mask (0x10 + 2 * e + 1) = 0xff000000.
Proof. unfold red_mask. replace (0x10 + 2 * e + 1) with (17 + 2 * e) by lia. by rewrite Z.even_add_mul_2. Qed.

Lemma entry_stores e low high v : 0 <= e ->
  redirected e (Z.land low 0x1afff) (Z.land high 0xff000000) v
    (io_store (IOAPIC_OFFSET_RED_TBL e + 1) high (io_store (IOAPIC_OFFSET_RED_TBL e) low v)).
Proof.
  intros He. unfold IOAPIC_OFFSET_RED_TBL.
  destruct (io_store_same (0x10 + 2 * e) low v ltac:(lia)) as [S1 E1].
  destruct (io_store_same (0x10 + 2 * e + 1) high (io_store (0x10 + 2 * e) low v) ltac:(lia)) as [S2 E2].
  split; [by eapply same_local_trans|]. unfold red_low, red_high, IOAPIC_OFFSET_RED_TBL. rewrite E2, E1. unfold set_at.
  split_and!.
  - rewrite (proj2 (Z.eqb_neq (0x10 + 2 * e) (0x10 + 2 * e + 1))), Z.eqb_refl by lia.
    rewrite red_mask_low. apply land_blend.
  - rewrite Z.eqb_refl, red_mask_high. apply land_blend.
  - intros e' He'. rewrite !(proj2 (Z.eqb_neq _ _)) by lia. done.
Qed.

Lemma ioapic_write_runs s v o x :
  in_red_tbl v o = true -> shows s v ->
  runs (ioapic_write o x) s (fun _ s' => shows s' (io_store o (u32 x) v)).
Proof using Hspec.
  intros Hin Hs. pose proof (table_fits s v Hs) as Ht.
  assert (Ho : 0 <= o < 256) by (unfold in_red_tbl in Hin; lia).
  unfold ioapic_write. rewrite (u32_small o) by lia. apply runs_bind.
  eapply runs_mono; [by apply (select_io s v o)|]. intros [] s1 H1.
  eapply runs_mono; [eapply (write_io s1 _ (u32 x)); [|apply (wrap_range 32); lia|exact H1]|]; [exact Hin|done].
Qed.

Lemma ioapic_read_runs s v o :
  0 <= o < 256 -> shows s v ->
  runs (ioapic_read o) s (fun x s' => x = ioreg v o /\ shows s' (v <| ioregsel := o |>)).
Proof using Hspec.
  intros Ho Hs. unfold ioapic_read. rewrite (u32_small o) by lia. apply runs_bind.
  eapply runs_mono; [by apply (select_io s v o)|]. intros [] s1 H1.
  eapply runs_mono; [eapply (read_io s1 _ H1)|]. intros x s2 [-> H2]. by split.
Qed.

(** Both words of the entries, checked for every entry a table can have. *)
Lemma low_words e : 0 <= e < 120 ->
  Z.land (u32 (0x20 + e)) 0x1afff = 0x20 + e /\
  Z.land (u32 (Z.lor IOAPIC_REDIRECT_ENTRY_MASKED (0x20 + e))) 0x1afff = Z.lor IOAPIC_REDIRECT_ENTRY_MASKED (0x20 + e).
Proof.
  intros He. pose (ok e := (Z.land (u32 (0x20 + e)) 0x1afff =? 0x20 + e) &&
    (Z.land (u32 (Z.lor IOAPIC_REDIRECT_ENTRY_MASKED (0x20 + e))) 0x1afff =?
       Z.lor IOAPIC_REDIRECT_ENTRY_MASKED (0x20 + e))).
  assert (Hall : forallb ok (seqZ 0 120) = true) by (vm_compute; reflexivity).
  rewrite forallb_forall in Hall. specialize (Hall e). rewrite <- list_elem_of_In, elem_of_seqZ in Hall.
  specialize (Hall ltac:(lia)). unfold ok in Hall. lia.
Qed.
Lemma target_bits c : Z.land (u32 (Z.shiftl c 24)) 0xff000000 = Z.shiftl (c mod 256) 24.
Proof.
  change 0xff000000 with (Z.shiftl (Z.ones 8) 24). change (c mod 256) with (wrap 8 c). unfold u32. zbits.
  by rewrite Z.testbit_neg_r.
Qed.

(** The two words of an entry, one after the other. *)
Lemma entry_runs s v e low high :
  0 <= e <= max_entry v -> shows s v ->
  runs (ioapic_write (IOAPIC_OFFSET_RED_TBL e) low ;;; ioapic_write (IOAPIC_OFFSET_RED_TBL e + 1) high) s
    (fun _ s' => exists v', shows s' v' /\
       redirected e (Z.land (u32 low) 0x1afff) (Z.land (u32 high) 0xff000000) v v').
Proof using Hspec.
  intros He Hs. destruct (io_store_same (IOAPIC_OFFSET_RED_TBL e) (u32 low) v) as [[_ M] _];
    [unfold IOAPIC_OFFSET_RED_TBL; lia|].
  apply runs_bind. eapply runs_mono; [apply ioapic_write_runs; [|exact Hs]|].
  { unfold in_red_tbl, IOAPIC_OFFSET_RED_TBL. lia. }
  intros [] s1 H1. eapply runs_mono; [eapply ioapic_write_runs; [|exact H1]|].
  { unfold in_red_tbl. rewrite M. unfold IOAPIC_OFFSET_RED_TBL. lia. }
  intros [] s2 H2. eexists. split; [exact H2|]. apply entry_stores. lia.
Qed.

Lemma ioapic_redirect_entry_runs s v e c :
  0 <= e <= max_entry v -> shows s v ->
  runs (ioapic_redirect_entry e c) s (fun _ s' => exists v', shows s' v' /\
    redirected e (0x20 + e) (Z.shiftl (c mod 256) 24) v v').
Proof using Hspec.
  intros He Hs. pose proof (table_fits s v Hs).
  eapply runs_mono; [by apply entry_runs|]. intros [] s' (v' & H' & Hr). exists v'. split; [done|].
  rewrite (proj1 (low_words e ltac:(lia))), target_bits in Hr. done.
Qed.

(** The entries below [n] masked, for vector [0x20 + e] on processor 0. *)
Definition masked_entry (v : chipset) (e : Z) : Prop :=
  red_low v e = Z.lor IOAPIC_REDIRECT_ENTRY_MASKED (0x20 + e) /\ red_high v e = 0.

Lemma io_apic_registers_runs s v :
  shows s v ->
  runs io_apic_registers s (fun _ s' => exists v', shows s' v' /\ same_local v v' /\
    forall e, 0 <= e <= max_entry v -> masked_entry v' e).
Proof using Hspec.
  intros Hs. pose proof (table_fits s v Hs) as Ht. unfold io_apic_registers. apply runs_bind.
  eapply runs_mono; [by apply ioapic_read_runs|]. intros id s1 [_ H1]. apply runs_bind.
  eapply runs_mono; [apply ioapic_read_runs; [|exact H1]; by_compute|]. intros ver s2 [-> H2].
  change (Z.shiftr _ 16) with (max_entry v).
  pose (I n s := exists v', shows s v' /\ same_local v v' /\ forall e, 0 <= e < n -> masked_entry v' e).
  eapply runs_mono; [apply (runs_mfor_counter _ I)|].
  - intros i s3 Hi (v3 & H3 & S3 & E3).
    eapply runs_mono; [apply (entry_runs s3 v3 i); [destruct S3 as [_ ->]; lia|done]|].
    intros [] s4 (v4 & H4 & S4 & L & U & O). exists v4. split; [done|]. split; [by eapply same_local_trans|].
    intros e He. destruct (decide (e = i)) as [->|Hne].
    + split; [rewrite L; apply low_words; lia|by rewrite U].
    + destruct (O e Hne) as [O1 O2], (E3 e ltac:(lia)). unfold masked_entry. by rewrite O1, O2.
  - eexists. split; [exact H2|]. split; [by destruct v|]. lia.
  - intros [] s3 (v3 & H3 & S3 & E3). exists v3. split_and!; [done|done|]. intros e He. apply E3. lia.
Qed.
(** *** The whole initialisations *)
Definition pics_off (v : chipset) : chipset := v <| legacy_masks := (0xff, 0xff) |>.

Lemma disable_legacy_pics_runs s v : shows s v ->
  runs disable_legacy_pics s (fun _ s' => shows s' (pics_off v)).
Proof using Hspec.
  intros Hs. unfold disable_legacy_pics. apply runs_bind.
  eapply runs_mono; [by apply (mask_slave s v)|]. intros [] s1 H1.
  eapply runs_mono; [eapply (mask_master s1 _ 0xff); [done|exact H1]|]. intros [] s2 H2. exact H2.
Qed.

End Theory.

Section Platform.
Context {St : Type} {delay : nat} {shows : St -> chipset -> Prop} `{Hspec : ChipsSpec St delay shows}.

Lemma on_kernel_run {A} (c : M kernel A) (p : platform St) a k' (Q : A -> platform St -> Prop) :
  c (pk p) = Ret (a, k') -> Q a (Platform k' (chips p)) -> runs (on_kernel c) p Q.
Proof. intros E HQ. apply runs_zoom. by exists a, k'. Qed.

Lemma on_chips_runs {A} (c : M St A) (p : platform St) (Q : A -> platform St -> Prop) :
  runs c (chips p) (fun a s' => Q a (Platform (pk p) s')) -> runs (on_chips c) p Q.
Proof. intros HQ. by apply (runs_zoom chips (fun x s => Platform (pk s) x)). Qed.

(** Both initialisations: the legacy controllers off, the APIC on. *)
Lemma switch_on_then (k : M (platform St) unit) p v (Q : unit -> platform St -> Prop) :
  located v -> shows (chips p) v ->
  (forall s', shows s' (switched_on (pics_off v)) -> runs k (Platform (pk p) s') Q) ->
  runs (on_chips disable_legacy_pics ;;; on_chips enable_local_apic ;;;
        let! enabled := on_chips is_local_apic_enabled in assert (truthy enabled) ;;; k) p Q.
Proof using Hspec.
  intros Hl Hs Hk.
  apply runs_bind, on_chips_runs. eapply runs_mono; [by apply disable_legacy_pics_runs|]. intros [] s1 H1.
  apply runs_bind, on_chips_runs. eapply runs_mono; [apply (enable_local_apic_runs s1 (pics_off v)); [exact Hl|exact H1]|]. intros [] s2 H2.
  apply runs_bind, on_chips_runs.
  eapply runs_mono; [apply (is_local_apic_enabled_runs s2 (switched_on (pics_off v))); [exact (switched_on_live (pics_off v) Hl)|exact H2]|].
  intros x s3 [Hx H3]. rewrite Hx. apply runs_bind, runs_ret. by apply Hk.
Qed.

Lemma local_apic_init_runs low p v :
  tables_above low (pk p) -> kleaf (pk p) APIC_BASE = Unmapped -> room_for 3 (pk p) ->
  located v -> shows (chips p) v ->
  runs local_apic_init p (fun _ p' => tables_above low (pk p') /\ same_below low (pk p) (pk p') /\ spent 3 (pk p) (pk p') /\
    page_mapped (pk p) (pk p') APIC_BASE /\
    exists v', shows (chips p') v' /\ apic_configured (switched_on (pics_off v)) v').
Proof using Hspec.
  intros Hi Hu Hro Hl Hs.
  destruct (map_device_page low (pk p) APIC_BASE Hi ltac:(by_compute) eq_refl Hu Hro) as (k' & Hr & Hi' & Sb & Sp & Hm).
  unfold local_apic_init. apply runs_bind. eapply on_kernel_run; [exact Hr|].
  apply runs_bind, runs_ret. apply switch_on_then with v; [done|done|]. intros s2 H2.
  apply on_chips_runs. eapply runs_mono; [eapply local_apic_registers_runs; [|exact H2]|].
  { exact (switched_on_live (pics_off v) Hl). }
  intros [] s3 H3. by split_and!.
Qed.

(** On an application processor the page is mapped already. *)
Lemma local_apic_ap_init_runs low p v w :
  tables_above low (pk p) -> kleaf (pk p) APIC_BASE = Small w -> room_for 3 (pk p) ->
  located v -> shows (chips p) v ->
  runs local_apic_ap_init p (fun _ p' => tables_above low (pk p') /\ same_below low (pk p) (pk p') /\ spent 3 (pk p) (pk p') /\
    (forall b, 0 <= b < VA_LIMIT -> kleaf (pk p') b = kleaf (pk p) b) /\
    shows (chips p') (switched_on (pics_off v))).
Proof using Hspec.
  intros Hi Hu Hro Hl Hs.
  destruct (map_device_again low (pk p) APIC_BASE w Hi ltac:(by_compute) eq_refl Hu Hro) as (k' & Hr & Hi' & Sb & Sp & Hm).
  unfold local_apic_ap_init. apply runs_bind. eapply on_kernel_run; [exact Hr|].
  apply runs_bind, runs_ret. apply switch_on_then with v; [done|done|]. intros s2 H2.
  apply runs_ret. by split_and!.
Qed.

Lemma io_apic_init_runs low p v :
  tables_above low (pk p) -> kleaf (pk p) IOAPIC_BASE = Unmapped -> room_for 3 (pk p) -> shows (chips p) v ->
  runs io_apic_init p (fun _ p' => tables_above low (pk p') /\ same_below low (pk p) (pk p') /\ spent 3 (pk p) (pk p') /\
    page_mapped (pk p) (pk p') IOAPIC_BASE /\
    exists v', shows (chips p') v' /\ same_local v v' /\ forall e, 0 <= e <= max_entry v -> masked_entry v' e).
Proof using Hspec.
  intros Hi Hu Hro Hs.
  destruct (map_device_page low (pk p) IOAPIC_BASE Hi ltac:(by_compute) eq_refl Hu Hro) as (k' & Hr & Hi' & Sb & Sp & Hm).
  unfold io_apic_init. apply runs_bind. eapply on_kernel_run; [exact Hr|].
  apply runs_bind, runs_ret, on_chips_runs. eapply runs_mono; [by apply io_apic_registers_runs|].
  intros [] s3 H3. by split_and!.
Qed.
Lemma room_for_le n k s : room_for k s -> n <= k -> room_for n s.
Proof. intros [R1 R2] Hn. split; [done|unfold_consts; lia]. Qed.

Lemma configured_fields v v' : apic_configured (switched_on (pics_off v)) v' ->
  ipis v' = ipis v /\ legacy_masks v' = (0xff, 0xff) /\ max_entry v' = max_entry v.
Proof.
  intros A. pose proof (ac_rest _ _ A) as E.
  change (ipis v) with (ipis (switched_on (pics_off v))).
  change (max_entry v) with (max_entry (switched_on (pics_off v))).
  change (0xff, 0xff) with (legacy_masks (switched_on (pics_off v))). rewrite <- E. by destruct v'.
Qed.

(** C24 [start_other_processors] terminates: when the chip delivers every request
    within [delay] polls, both waiting loops end, whatever bound above [delay] the
    model puts on them, and the processor has broadcast
    exactly an INIT request and one start-up request whose vector is the page of
    [AP_BOOT_BASE], to all processors but itself. No other register changes. *)
Theorem start_other_processors_delivers s v : live v -> shows s v ->
  exists s' v' target target', (forall fuel, (delay < fuel)%nat -> start_other_processors fuel s = Ret (tt, s')) /\
    Z.land target 0xff000000 = 0 /\ Z.land target' 0xff000000 = 0 /\ shows s' v' /\
    commanded v [(target, Z.lor (Z.lor (Z.lor APIC_ICR_SHORTHAND_OTHER APIC_ICR_DELIVERY_INIT)
                    APIC_ICR_TRIGGER_LEVEL) APIC_ICR_LEVEL_ASSERT);
                 (target', Z.lor (Z.lor APIC_ICR_SHORTHAND_OTHER APIC_ICR_DELIVERY_STARTUP)
                    (Z.shiftr AP_BOOT_BASE 12))] v'.
Proof using Hspec.
  intros Hl Hs. destruct (start_other_processors_runs (S delay) s v) as ([] & s' & Hr & v' & t1 & t2 & HQ); [lia|done|done|].
  exists s', v', t1, t2. split; [|exact HQ]. intros fuel Hf. by apply (start_other_processors_more (S delay) fuel ltac:(lia)).
Qed.

(** The local APIC and the legacy controllers as the kernel wants them. *)
Record apic_ready (v v' : chipset) : Prop := {
  ar_live : live v';
  ar_timer : writable_bits v' APIC_TIMER_REGISTER = Z.lor APIC_TIMER_MODE_PERODIC 32;
  ar_masked : forall r, r ∈ [APIC_LINT0_REGISTER; APIC_LINT1_REGISTER; APIC_PERF_COUNTER_REGISTER] ->
    Z.testbit (writable_bits v' r) 16 = true;
  ar_error : writable_bits v' APIC_ERROR_REGISTER = 51;
  ar_priority : writable_bits v' APIC_TASK_PRIORITY_REGISTER = 0;
  ar_service : in_service v' = tail (in_service v);
  ar_legacy : legacy_masks v' = (0xff, 0xff) }.

Lemma configured_ready v v' : apic_configured (switched_on (pics_off v)) v' -> apic_ready v v'.
Proof.
  intros A. destruct (configured_fields _ _ A) as (_ & Em & _). split; try apply A; [|done].
  intros r Hr. apply list_elem_of_In in Hr.
  destruct Hr as [<-|[<-|[<-|[]]]]; [rewrite (ac_lint0 _ _ A)|rewrite (ac_lint1 _ _ A)|rewrite (ac_perf _ _ A)];
    rewrite Z.lor_spec; apply orb_true_r.
Qed.

Lemma ready_same v v1 v2 : apic_ready v v1 ->
  (forall r, r <> APIC_ICR_HIGH -> lreg v2 r = lreg v1 r) -> base_msr v2 = base_msr v1 ->
  in_service v2 = in_service v1 -> legacy_masks v2 = legacy_masks v1 -> apic_ready v v2.
Proof.
  intros [[A1 A2] A3 A4 A5 A6 A7 A8] El Eb Es Eg.
  assert (Ew : forall r, r <> APIC_ICR_HIGH -> writable_bits v2 r = writable_bits v1 r).
  { intros r Hr. unfold writable_bits. by rewrite El. }
  split; [split|..]; unfold reachable, software_enabled in *; rewrite ?Eb, ?Es, ?Eg, ?Ew by done; try done.
  intros r Hr. rewrite Ew; [by apply A4|]. intros ->. apply list_elem_of_In in Hr. by destruct Hr as [?|[?|[?|[]]]].
Qed.
Lemma ready_commanded v v1 l v2 : apic_ready v v1 -> commanded v1 l v2 ->
  apic_ready v v2 /\ ioreg v2 = ioreg v1.
Proof.
  intros A (_ & _ & _ & El & E). split.
  - apply (ready_same v v1); [done|done|..]; rewrite <- E; by destruct v2.
  - rewrite <- E. by destruct v2.
Qed.
Lemma ready_local v v1 v2 : apic_ready v v1 -> same_local v1 v2 -> apic_ready v v2.
Proof.
  intros A S. apply same_local_fields in S as (El & Eb & Es & _ & Eg). apply (ready_same v v1); [done|..|done|done|done].
  intros r _. by rewrite El.
Qed.

(** Both controllers: what they and the kernel are afterwards. *)
Lemma both_controllers_runs low p v :
  tables_above low (pk p) -> kleaf (pk p) APIC_BASE = Unmapped -> kleaf (pk p) IOAPIC_BASE = Unmapped ->
  room_for 6 (pk p) -> located v -> shows (chips p) v ->
  runs (local_apic_init ;;; io_apic_init) p (fun _ p' =>
    tables_above low (pk p') /\ same_below low (pk p) (pk p') /\ spent 6 (pk p) (pk p') /\
    (forall b, 0 <= b < VA_LIMIT -> aspace (pk p') b =
       map_page (map_page (aspace (pk p)) PAGE_SIZE_4K APIC_BASE APIC_BASE) PAGE_SIZE_4K IOAPIC_BASE IOAPIC_BASE b) /\
    kleaf (pk p') APIC_BASE = Small (table_entry APIC_BASE) /\
    exists v', shows (chips p') v' /\ apic_ready v v' /\ ipis v' = ipis v /\ max_entry v' = max_entry v /\
      forall e, 0 <= e <= max_entry v -> masked_entry v' e).
Proof using Hspec.
  intros Hi Hu Hu2 Hro Hl Hs. apply runs_bind.
  eapply runs_mono; [apply (local_apic_init_runs low p v Hi Hu); [by apply (room_for_le 3 6)|done|done]|].
  intros [] p1 (Hi1 & B1 & Sp1 & M1 & v1 & H1 & A1).
  assert (Hu1 : kleaf (pk p1) IOAPIC_BASE = Unmapped).
  { rewrite M1 by by_compute. by rewrite decide_False by by_compute. }
  eapply runs_mono; [apply (io_apic_init_runs low p1 v1 Hi1 Hu1); [exact (spent_room 3 6 _ _ Sp1 Hro)|done]|].
  intros [] p2 (Hi2 & B2 & Sp2 & M2 & v2 & H2 & S2 & E2). destruct (configured_fields _ _ A1) as (Ei & Em & Ex).
  pose proof (same_local_fields _ _ S2) as (_ & _ & _ & Ep & _).
  split_and!; [done|by eapply same_below_trans|exact (spent_trans 3 3 _ _ _ Sp1 Sp2)| | |].
  - intros b Hb. rewrite (page_mapped_aspace _ _ _ _ M2) by (done || by_compute). unfold map_page at 1 2.
    by rewrite (page_mapped_aspace _ _ _ _ M1) by (done || by_compute).
  - rewrite M2, decide_False by by_compute. by rewrite M1, decide_True by by_compute.
  - exists v2. split_and!; [done|by apply (ready_local v v1); [apply configured_ready|]|congruence|destruct S2; congruence|].
    intros e He. apply E2. by rewrite Ex.
Qed.

(** C7 The interrupt controllers as the kernel sets them up ([local_apic_init] and
    [io_apic_init] of [init1], then the keyboard's [ioapic_redirect_entry]), for any
    entry and processor. Whatever state the chips were in, the boot completes with
    no assertion failed: the local APIC is enabled, its timer periodic on vector
    32, both LINT pins and the performance counter masked, errors on vector 51, no
    priority blocked, one interrupt acknowledged, and the legacy controllers
    masked; of the redirection table exactly the entry asked for is unmasked, on
    vector [0x20 + e] and the processor asked for; and the address space has
    gained the two device pages, mapped onto themselves, and nothing else. *)
Theorem controllers_initialised low p v e c :
  tables_above low (pk p) -> kleaf (pk p) APIC_BASE = Unmapped -> kleaf (pk p) IOAPIC_BASE = Unmapped ->
  room_for 6 (pk p) -> located v -> shows (chips p) v -> 0 <= e <= max_entry v ->
  runs (local_apic_init ;;; io_apic_init ;;; on_chips (ioapic_redirect_entry e c)) p (fun _ p' =>
    exists v', shows (chips p') v' /\ apic_ready v v' /\ ipis v' = ipis v /\
      red_low v' e = 0x20 + e /\ red_high v' e = Z.shiftl (c mod 256) 24 /\
      (forall e', 0 <= e' <= max_entry v -> e' <> e -> masked_entry v' e') /\
      forall b, 0 <= b < VA_LIMIT -> aspace (pk p') b =
        map_page (map_page (aspace (pk p)) PAGE_SIZE_4K APIC_BASE APIC_BASE) PAGE_SIZE_4K
          IOAPIC_BASE IOAPIC_BASE b).
Proof using Hspec.
  intros Hi Hu Hu2 Hro Hl Hs He.
  apply runs_assoc, runs_bind. eapply runs_mono; [apply (both_controllers_runs low p v Hi Hu Hu2 Hro Hl Hs)|].
  intros [] p2 (_ & _ & _ & Hsp & _ & v2 & H2 & A2 & Ei & Ex & E2). apply on_chips_runs.
  eapply runs_mono; [apply (ioapic_redirect_entry_runs _ v2 e c); [by rewrite Ex|done]|].
  intros [] s3 (v3 & H3 & S3 & Lo & Hi3 & O). exists v3. pose proof (same_local_fields _ _ S3) as (_ & _ & _ & Ep & _).
  split_and!; [exact H3|by apply (ready_local v v2)|congruence|exact Lo|exact Hi3| |exact Hsp].
  intros e' He' Hne. destruct (O e' Hne) as [O1 O2]. unfold masked_entry. rewrite O1, O2. by apply E2.
Qed.
End Platform.

(** ** A machine that keeps the laws *)
Module SampleChips.
Definition read (r : Z) : M chipset Z := fun v =>
  if r =? APIC_ICR_LOW then
    Ret (if (pending v =? 0)%nat then 0 else APIC_ICR_DELIVER_STATUS_SENDPENDING, v <| pending ::= Nat.pred |>)
  else if r =? IOAPIC_BASE + 0x10 then Ret (ioreg v (ioregsel v), v)
  else Ret (lreg v r, v).
Definition write (r x : Z) : M chipset unit := fun v => Ret (tt,
  if r =? APIC_ICR_LOW then
    v <| ipis ::= fun l => l ++ [(lreg v APIC_ICR_HIGH, x)] |> <| pending := 2%nat |>
  else if r =? APIC_EOI_REGISTER then v <| in_service ::= tail |>
  else if r =? IOAPIC_BASE then v <| ioregsel := x |>
  else if r =? IOAPIC_BASE + 0x10 then ioapic_store x v
  else match held r with Some mask => lapic_store r mask x v | None => v end).
Definition mask_pic (port b : Z) : M chipset unit := modify (fun v =>
  if port =? 0xa1 then v <| legacy_masks ::= fun m => (fst m, b) |>
  else v <| legacy_masks ::= fun m => (b, snd m) |>).

#[export] Instance chips_of_chipset : Chips chipset := {
  rdmsr := fun _ => gets base_msr;
  wrmsr := fun _ x => modify (fun v => v <| base_msr := x |>);
  read32 := read; write32 := write; chip_outb := mask_pic }.

Definition sound (v : chipset) : Prop :=
  Z.testbit (lreg v APIC_SPURIOUS_REGISTER) 11 = false /\ 0 <= max_entry v < 120.
Definition same_chips (s v : chipset) : Prop := s = v /\ sound v.

Lemma held_others r mask : held r = Some mask ->
  (r =? APIC_ICR_LOW) = false /\ (r =? APIC_EOI_REGISTER) = false /\ (r =? IOAPIC_BASE) = false /\
  (r =? IOAPIC_BASE + 0x10) = false.
Proof. intros Hm. split_and!; apply Z.eqb_neq; intros ->; vm_compute in Hm; discriminate. Qed.

Lemma sound_store r mask x v : held r = Some mask -> sound v -> sound (lapic_store r mask x v).
Proof.
  intros Hm [H1 H2]. split; [|exact H2]. unfold lapic_store, set_at, update. cbn -[Z.testbit Z.eqb APIC_SPURIOUS_REGISTER].
  destruct (Z.eqb_spec APIC_SPURIOUS_REGISTER r) as [<-|]; [|done]. injection Hm as <-.
  unfold blend. rewrite Z.lor_spec, Z.land_spec, Z.ldiff_spec, H1. by rewrite andb_false_r.
Qed.

#[export] Instance sample_spec : ChipsSpec chipset 2 same_chips.
Proof.
  split.
  - intros s v [-> Hs]. by exists (base_msr v), v.
  - intros s v [-> Hs]. by eexists tt, _.
  - intros s v r mask Hm _ [-> Hs]. destruct (held_others r mask Hm) as (E1 & E2 & E3 & E4).
    exists (lreg v r), v. unfold read32, chips_of_chipset, read. by rewrite E1, E4.
  - intros s v r mask x Hm _ _ _ [-> Hs]. destruct (held_others r mask Hm) as (E1 & E2 & E3 & E4).
    exists tt, (lapic_store r mask x v). unfold write32, chips_of_chipset, write.
    rewrite E1, E2, E3, E4, Hm. split; [done|]. split; [done|]. by apply (sound_store r mask).
  - intros s v [_ [H _]]. exact H.
  - intros s v _ [-> Hs]. by eexists _, v.
  - intros s v _ [-> Hs]. by eexists tt, _.
  - intros s v _ [-> Hs]. by eexists tt, _.
  - intros s v x _ _ _ [-> Hs]. eexists tt, _. split; [reflexivity|]. by exists 2%nat.
  - intros s v _ [-> Hs]. eexists _, _. split; [reflexivity|]. split; [by destruct (pending v)|done].
  - intros s v [_ [_ H]]. exact H.
  - intros s v o _ [-> Hs]. by eexists tt, _.
  - intros s v [-> Hs]. by eexists _, v.
  - intros s v x Hin _ [-> Hs]. eexists tt, _. split; [reflexivity|]. split; [done|].
    destruct Hs as [Hz Hx]. split; [exact Hz|]. unfold in_red_tbl in Hin.
    assert (E : max_entry (ioapic_store x v) = max_entry v) by (apply (io_store_same (ioregsel v) x v); lia).
    by rewrite E.
  - intros s v b _ [-> Hs]. by eexists tt, _.
  - intros s v b _ [-> Hs]. by eexists tt, _.
Qed.

(** Chips after a reset: 24 redirection entries, everything else masked or zero. *)
Definition reset_chips : chipset :=
  Chipset (0xfee00900, 0)
    (fun r => if r =? APIC_SPURIOUS_REGISTER then 0xff else if lvt r then APIC_LVT_MASKED else 0)
    [] [] 0%nat 0 (fun o => if o =? IOAPIC_OFFSET_VERSION then 0x170020 else 0) (0, 0).
End SampleChips.
#[local] Existing Instances SampleChips.chips_of_chipset SampleChips.sample_spec.

Lemma controllers_initialised_witness :
  exists p', (local_apic_init ;;; io_apic_init ;;; on_chips (ioapic_redirect_entry 1 0))
      (Platform empty_root SampleChips.reset_chips) = Ret (tt, p') /\
    red_low (chips p') 1 = 0x21 /\ masked_entry (chips p') 23 /\ legacy_masks (chips p') = (0xff, 0xff).
Proof.
  destruct (controllers_initialised 0x600000 (Platform empty_root SampleChips.reset_chips)
    SampleChips.reset_chips 1 0) as ([] & p' & Hr & v' & [<- _] & Ha & _ & Hl & _ & Ho & _).
  - split; [|by_compute]. exists (init_tables 0x600000 0). split; [exact empty_root_inv|apply init_above].
  - exact (empty_root_unmapped APIC_BASE ltac:(by_compute)).
  - exact (empty_root_unmapped IOAPIC_BASE ltac:(by_compute)).
  - split; by_compute.
  - reflexivity.
  - split; [done|]. split; by_compute.
  - by_compute.
  - exists p'. split; [exact Hr|]. split; [exact Hl|]. split; [apply Ho; by_compute|apply Ha].
Defined.

Lemma start_other_processors_delivers_witness :
  exists v', start_other_processors 3 (switched_on SampleChips.reset_chips) = Ret (tt, v') /\
    map snd (ipis v') = [0xcc500; 0xc0611].
Proof.
  destruct (start_other_processors_delivers (delay := 2) (switched_on SampleChips.reset_chips)
    (switched_on SampleChips.reset_chips)) as (s' & v' & t1 & t2 & Hr & _ & _ & [Es _] & _ & Hi & _).
  - by apply switched_on_live.
  - split; [done|]. split; by_compute.
  - exists s'. split; [apply Hr; lia|]. rewrite Es, Hi. reflexivity.
Defined.
