(* ===== verification/Ept.v ===== *)
(** * Ept: [vm_monitor/vmx_ept.c], the guest's extended page table.

    [map_ept_page] adds one guest page, [setup_basic_physical_memory] gives the
    guest its memory, [setup_io_memory] marks a device page as misconfigured so
    that an access exits to the monitor, and [guestpa_to_hostpa] translates. The
    main result is isolation: every guest page that can be read or written is
    backed by its own zeroed host page, taken fresh from the allocator. *)
From Stdlib Require Import ZArith Lia.
From stdpp Require Import base tactics list numbers gmap sorting.
From S2P Require Import Prelude Memory PhysicalMemory Radix Paging PagingInit.
Local Open Scope Z_scope.

(** ** Entry formats *)
Definition ept_pml4e : list Z := [1; 1; 1; 5; 1; 1; 1; 1; 40; 12].
Definition ept_pdpe : list Z := [1; 1; 1; 5; 1; 1; 1; 1; 40; 12].
Definition ept_pde : list Z := [1; 1; 1; 5; 1; 1; 1; 1; 40; 12].
Definition ept_pte : list Z := [1; 1; 1; 3; 1; 1; 1; 1; 1; 1; 40; 12].

Definition read_access : bitfield := nth_field ept_pml4e 0.
Definition write_access : bitfield := nth_field ept_pml4e 1.
Definition instruction_fetchable : bitfield := nth_field ept_pml4e 2.
Definition usermode_instruction_fetchable : bitfield := nth_field ept_pml4e 6.
Definition ept_pdpt : bitfield := nth_field ept_pml4e 8.
Definition ept_pdt : bitfield := nth_field ept_pdpe 8.
Definition ept_pt : bitfield := nth_field ept_pde 8.
Definition ept_memory_type : bitfield := nth_field ept_pte 3.
Definition ignore_pat_memory_type : bitfield := nth_field ept_pte 4.
Definition pte_usermode_instruction_fetchable : bitfield := nth_field ept_pte 8.
Definition ept_4k_page : bitfield := nth_field ept_pte 10.

Definition PAGE_SYSTEM_MEMORY : Z := 0x0.
Definition PAGE_SYSTEM_IOMEMORY : Z := 0x1.

(** ** Operations *)
Definition guestpa_to_hostpa (s : kernel) (ept_base guestpa : Z) : Z :=
  let m := k_mem s in
  let hostpa := u64 (-1) in
  let _pml4e := entry_at ept_base (LEVEL_4_INDEX guestpa) in
  if negb (truthy (fget m _pml4e read_access)) && negb (truthy (fget m _pml4e write_access))
  then hostpa else
  let _pdpe := entry_at (shl_field ept_pdpt (fget m _pml4e ept_pdpt) PAGE_SHIFT_4K)
                 (LEVEL_3_INDEX guestpa) in
  if negb (truthy (fget m _pdpe read_access)) && negb (truthy (fget m _pdpe write_access))
  then hostpa else
  let _pde := entry_at (shl_field ept_pdt (fget m _pdpe ept_pdt) PAGE_SHIFT_4K)
                (LEVEL_2_INDEX guestpa) in
  if negb (truthy (fget m _pde read_access)) && negb (truthy (fget m _pde write_access))
  then hostpa else
  let _pt := entry_at (shl_field ept_pt (fget m _pde ept_pt) PAGE_SHIFT_4K)
               (LEVEL_1_INDEX guestpa) in
  if negb (truthy (fget m _pt read_access)) && truthy (fget m _pt write_access)
  then hostpa else
  Z.lor (shl_field ept_4k_page (fget m _pt ept_4k_page) PAGE_SHIFT_4K)
        (Z.land guestpa PAGE_MASK_4K).

(** The same block for the three upper levels: make the entry lead to a new
    zeroed table unless it is in use; [address] is the entry's table field. *)
Definition ept_upper_entry (entry : Z) (address : bitfield) : M kernel unit :=
  let! m := gets k_mem in
  (if negb (truthy (fget m entry read_access)) && negb (truthy (fget m entry write_access)) then
    put_mem (fun m => memset m entry 0x0 8) ;;;
    put_mem (fun m => fset m entry read_access 1) ;;;
    put_mem (fun m => fset m entry write_access 1) ;;;
    put_mem (fun m => fset m entry instruction_fetchable 1) ;;;
    put_mem (fun m => fset m entry usermode_instruction_fetchable 1) ;;;
    let! page := get_physical_page in
    let! same := gets (fun s => pa s page =? page) in
    assert (truthy page && same) ;;;
    put_mem (fun m => memset m page 0x0 PAGE_SIZE_4K) ;;;
    put_mem (fun m => fset m entry address (Z.shiftr page PAGE_SHIFT_4K))
  else ret tt) ;;;
  let! m := gets k_mem in
  assert (truthy (fget m entry read_access) || truthy (fget m entry write_access)).

(** The last level. *)
Definition ept_page_entry (_pt phy_pa backing : Z) : M kernel Z :=
  let! m := gets k_mem in
  if truthy (fget m _pt read_access) || truthy (fget m _pt write_access)
  then ret (- ERROR_DUPLICATION) else
  put_mem (fun m => memset m _pt 0x0 8) ;;;
  (if backing =? PAGE_SYSTEM_MEMORY then
    put_mem (fun m => fset m _pt read_access 1) ;;;
    put_mem (fun m => fset m _pt write_access 1) ;;;
    put_mem (fun m => fset m _pt instruction_fetchable 1) ;;;
    put_mem (fun m => fset m _pt pte_usermode_instruction_fetchable 1) ;;;
    put_mem (fun m => fset m _pt ignore_pat_memory_type 1) ;;;
    put_mem (fun m => fset m _pt ept_memory_type 6) ;;;
    put_mem (fun m => fset m _pt ept_4k_page (Z.shiftr phy_pa PAGE_SHIFT_4K))
  else if backing =? PAGE_SYSTEM_IOMEMORY then
    put_mem (fun m => fset m _pt read_access 0) ;;;
    put_mem (fun m => fset m _pt write_access 1) ;;;
    put_mem (fun m => fset m _pt instruction_fetchable 1) ;;;
    put_mem (fun m => fset m _pt pte_usermode_instruction_fetchable 1) ;;;
    put_mem (fun m => fset m _pt ignore_pat_memory_type 1) ;;;
    put_mem (fun m => fset m _pt ept_memory_type 6)
  else ret tt) ;;;
  ret ERROR_OK.

Definition map_ept_page (base guest_pa phy_pa backing : Z) : M kernel Z :=
  let _pml4e := entry_at base (LEVEL_4_INDEX guest_pa) in
  ept_upper_entry _pml4e ept_pdpt ;;;
  let! m := gets k_mem in
  let _pdpe := entry_at (shl_field ept_pdpt (fget m _pml4e ept_pdpt) PAGE_SHIFT_4K)
                 (LEVEL_3_INDEX guest_pa) in
  ept_upper_entry _pdpe ept_pdt ;;;
  let! m := gets k_mem in
  let _pde := entry_at (shl_field ept_pdt (fget m _pdpe ept_pdt) PAGE_SHIFT_4K)
                (LEVEL_2_INDEX guest_pa) in
  ept_upper_entry _pde ept_pt ;;;
  let! m := gets k_mem in
  let _pt := entry_at (shl_field ept_pt (fget m _pde ept_pt) PAGE_SHIFT_4K)
               (LEVEL_1_INDEX guest_pa) in
  ept_page_entry _pt phy_pa backing.

(** [for (; guest_pa <= addr_high; guest_pa += PAGE_SIZE_4K)]. *)
Fixpoint ept_memory_loop (fuel : nat) (base guest_pa addr_high : Z) : M kernel unit :=
  if guest_pa <=? addr_high then
    match fuel with
    | O => stop OutOfFuel
    | S k =>
        let! page := get_physical_page in
        let! same := gets (fun s => pa s page =? page) in
        assert (truthy page && same) ;;;
        put_mem (fun m => memset m page 0x0 PAGE_SIZE_4K) ;;;
        let! _rc := map_ept_page base guest_pa page PAGE_SYSTEM_MEMORY in
        ept_memory_loop k base (u64 (guest_pa + PAGE_SIZE_4K)) addr_high
    end
  else ret tt.

(** The loop runs once per page of [addr_low .. addr_high]. *)
Definition ept_pages (addr_low addr_high : Z) : nat :=
  Z.to_nat ((addr_high - addr_low) / PAGE_SIZE_4K + 1).

Definition setup_basic_physical_memory (addr_low addr_high : Z) : M kernel Z :=
  let! ept_pml4_base := get_physical_page in
  let! same := gets (fun s => pa s ept_pml4_base =? ept_pml4_base) in
  assert (truthy ept_pml4_base && same) ;;;
  put_mem (fun m => memset m ept_pml4_base 0x0 PAGE_SIZE_4K) ;;;
  ept_memory_loop (ept_pages addr_low addr_high) ept_pml4_base addr_low addr_high ;;;
  ret ept_pml4_base.

Definition setup_io_memory (ept_pml4_base guest_physical_page : Z) : M kernel unit :=
  let! rc := map_ept_page ept_pml4_base guest_physical_page 0x0 PAGE_SYSTEM_IOMEMORY in
  assert (rc =? ERROR_OK).

Definition vmx_ept_pre_init : M kernel unit :=
  assert (layout_bits ept_pml4e =? 64) ;;;
  assert (layout_bits ept_pdpe =? 64) ;;;
  assert (layout_bits ept_pde =? 64) ;;;
  assert (layout_bits ept_pte =? 64).

(** ** The walk *)
Definition accessible (w : Z) : bool :=
  truthy (get_bits w read_access) || truthy (get_bits w write_access).
Definition etable_of (w : Z) : Z := shl_field ept_pdpt (get_bits w ept_pdpt) PAGE_SHIFT_4K.
Definition elink (l w : Z) : option Z :=
  if negb (accessible w) || (l =? 1) then None else Some (etable_of w).

(** The last-level entry of a guest address. *)
Definition epte (m : memory) (base g : Z) : option Z :=
  match slot elink m base g 3 with Some e => Some (load64 m e) | None => None end.

(** What an entry makes of a guest address. *)
Definition host_address (w g : Z) : Z :=
  if negb (truthy (get_bits w read_access)) && truthy (get_bits w write_access) then u64 (-1)
  else Z.lor (shl_field ept_4k_page (get_bits w ept_4k_page) PAGE_SHIFT_4K) (Z.land g PAGE_MASK_4K).

Lemma guestpa_walk s base g : 0 <= g < VA_LIMIT ->
  guestpa_to_hostpa s base g =
  match epte (k_mem s) base g with Some w => host_address w g | None => u64 (-1) end.
Proof.
  intros Hg. unfold guestpa_to_hostpa, epte, host_address. cbn [slot].
  change (4 - Z.of_nat 0) with 4. change (4 - Z.of_nat 1) with 3.
  change (4 - Z.of_nat 2) with 2. change (4 - Z.of_nat 3) with 1.
  rewrite level_4_index, level_3_index, level_2_index, level_1_index by done.
  unfold entry_at, fget. set (e4 := base + 8 * index 4 g).
  rewrite <- !negb_orb. unfold elink.
  fold (accessible (load64 (k_mem s) e4)).
  destruct (accessible (load64 (k_mem s) e4)); [|done]. cbn [negb orb Z.eqb Pos.eqb].
  fold (etable_of (load64 (k_mem s) e4)). set (e3 := etable_of _ + 8 * index 3 g).
  fold (accessible (load64 (k_mem s) e3)).
  destruct (accessible (load64 (k_mem s) e3)); [|done]. cbn [negb orb Z.eqb Pos.eqb].
  change ept_pdt with ept_pdpt.
  fold (etable_of (load64 (k_mem s) e3)). set (e2 := etable_of _ + 8 * index 2 g).
  fold (accessible (load64 (k_mem s) e2)).
  destruct (accessible (load64 (k_mem s) e2)); [|done]. done.
Qed.

(** ** Entry words *)
Definition etable_entry (q : Z) : Z :=
  set_bits (set_bits (set_bits (set_bits (set_bits 0 read_access 1) write_access 1)
    instruction_fetchable 1) usermode_instruction_fetchable 1) ept_pdpt (Z.shiftr q PAGE_SHIFT_4K).
Definition ram_entry (h : Z) : Z :=
  set_bits (set_bits (set_bits (set_bits (set_bits (set_bits (set_bits 0 read_access 1)
    write_access 1) instruction_fetchable 1) pte_usermode_instruction_fetchable 1)
    ignore_pat_memory_type 1) ept_memory_type 6) ept_4k_page (Z.shiftr h PAGE_SHIFT_4K).
Definition io_entry : Z :=
  set_bits (set_bits (set_bits (set_bits (set_bits (set_bits 0 read_access 0)
    write_access 1) instruction_fetchable 1) pte_usermode_instruction_fetchable 1)
    ignore_pat_memory_type 1) ept_memory_type 6.

Lemma elink_0 l : elink l 0 = None.
Proof. reflexivity. Qed.
Lemma elink_leaf w : elink 1 w = None.
Proof. unfold elink. by rewrite orb_true_r. Qed.
Lemma elink_link l w : accessible w = true -> l <> 1 -> elink l w = Some (etable_of w).
Proof. intros Hw Hl. unfold elink. rewrite Hw. by destruct (Z.eqb_spec l 1). Qed.
Lemma etable_entry_accessible q : accessible (etable_entry q) = true.
Proof. unfold accessible, etable_entry. by bits_simpl. Qed.
Lemma etable_entry_table q : 0 <= q < PHYS_LIMIT -> q mod PAGE_SIZE_4K = 0 ->
  etable_of (etable_entry q) = q.
Proof.
  intros Hq Hal. unfold etable_of, etable_entry. bits_simpl. unfold_consts.
  apply shl_field_aligned; [cbn; lia..|exact Hal].
Qed.
Lemma host_address_ram h g : 0 <= h < PHYS_LIMIT -> h mod PAGE_SIZE_4K = 0 ->
  host_address (ram_entry h) g = h + g mod PAGE_SIZE_4K.
Proof.
  intros Hh Hal. unfold host_address, ram_entry. bits_simpl. cbn [negb andb].
  change (truthy (wrap (bf_len read_access) 1)) with true. cbn [negb andb].
  rewrite (shl_field_aligned PAGE_SHIFT_4K ept_4k_page h);
    [|cbn; lia|by compute|cbn; unfold_consts; lia|exact Hal].
  rewrite land_mask_4k. by apply (lor_aligned h g 12).
Qed.
Lemma ram_entry_accessible h : accessible (ram_entry h) = true.
Proof. unfold accessible, ram_entry. by bits_simpl. Qed.

(** ** The invariant *)

(** Memory of the kernel's own page table is untouched. *)
Lemma kernel_frame s s' Tk : paging_inv s Tk -> kernel_ok s' -> next_page s <= next_page s' ->
  pml4_base s' = pml4_base s -> (forall b, in_tables Tk b -> rd8 (k_mem s') b = rd8 (k_mem s) b) ->
  paging_inv s' Tk /\ forall a, 0 <= a < VA_LIMIT -> pa s' a = pa s a.
Proof.
  intros Hi Hok Hn Hb Hfr.
  destruct (tables_frame s s' Tk Hi Hok Hn Hb Hfr) as [Hi' Hl]. split; [done|].
  intros a Ha. rewrite !pa_walk by done. unfold walk. fold (kleaf s' a) (kleaf s a). by rewrite Hl.
Qed.

(** The kernel's page table is the identity on the low 2 GiB, and the guest's
    table is a tree of pages of its own, all below the allocator's mark. *)
Record ept_inv (s : kernel) (base : Z) (Tk Te : gmap Z (Z * Z)) : Prop := {
  ei_kernel : paging_inv s Tk;
  ei_identity : forall a, 0 <= a < INITIAL_VA_CEILING -> pa s a = a;
  ei_tree : tree elink (k_mem s) base Te;
  ei_below : forall p y, Te !! p = Some y -> p + PAGE_SIZE_4K <= next_page s;
  ei_apart : forall p y, Te !! p = Some y -> Tk !! p = None }.

(** Room for [n] more pages below 2 GiB. *)
Definition ept_room (n : Z) (s : kernel) : Prop :=
  let p := k_phys s in
  addr_low4G p <= current_avail_page p /\
  current_avail_page p + (n + 1) * PAGE_SIZE_4K <= addr_low4G p + length_low4G p /\
  addr_low4G p + length_low4G p <= INITIAL_VA_CEILING.

Definition bump (s : kernel) (m : memory) : kernel :=
  Kernel m ((k_phys s) <| current_avail_page := next_page s + PAGE_SIZE_4K |>) (pml4_base s).

Lemma bump_ok s m n : kernel_ok s -> ept_room n s -> 1 <= n ->
  kernel_ok (bump s m) /\ ept_room (n - 1) (bump s m) /\
  next_page (bump s m) = next_page s + PAGE_SIZE_4K.
Proof.
  intros Hok Hr Hn. unfold kernel_ok, phys_ok, ept_room, next_page, bump, INITIAL_VA_CEILING in *.
  cbv [update]. cbn. unfold next_page. unfold_consts. split_and!; try lia. zdiv.
Qed.

Lemma get_page_run s n : kernel_ok s -> ept_room n s -> 1 <= n ->
  get_physical_page s = Ret (next_page s, bump s (k_mem s)) /\
  next_page s mod PAGE_SIZE_4K = 0 /\ PAGE_SIZE_4K <= next_page s /\
  next_page s + PAGE_SIZE_4K <= INITIAL_VA_CEILING.
Proof.
  intros Hok (H1 & H2 & H3) Hn. unfold get_physical_page.
  rewrite get_physical_page_room; [|exact Hok|exact H1|unfold_consts; lia].
  unfold kernel_ok, phys_ok, next_page, INITIAL_VA_CEILING in *. unfold_consts.
  split_and!; try lia; try done.
Qed.

(** ** An upper-level entry *)

(** What one allocation and one entry write may change: nothing outside the
    entry and the page. *)
Lemma ept_frame s base Tk Te s' e q :
  ept_inv s base Tk Te -> kernel_ok s' -> next_page s <= next_page s' ->
  pml4_base s' = pml4_base s -> (exists p y, Te !! p = Some y /\ p <= e /\ e + 8 <= p + PAGE_SIZE_4K) ->
  next_page s <= q -> q mod PAGE_SIZE_4K = 0 ->
  (forall b, ~ (e <= b < e + 8) -> ~ (q <= b < q + PAGE_SIZE_4K) -> rd8 (k_mem s') b = rd8 (k_mem s) b) ->
  paging_inv s' Tk /\ (forall a, 0 <= a < VA_LIMIT -> pa s' a = pa s a).
Proof.
  intros Hi Hok Hn Hb (p & y & Hp & Hpe & Hpe') Hq Hal Hfr.
  apply (kernel_frame s); try done; [apply Hi|].
  intros b (k & l & x & Hk & Hin). pose proof (pi_below _ _ (ei_kernel _ _ _ _ Hi) _ _ _ Hk).
  destruct (tree_page _ _ _ _ (pi_tree _ _ (ei_kernel _ _ _ _ Hi)) _ _ _ Hk) as [Hk4 _].
  destruct y as [ly xy]. destruct (tree_page _ _ _ _ (ei_tree _ _ _ _ Hi) _ _ _ Hp) as [Hp4 _].
  apply Hfr; [|unfold_consts; lia]. intros Hbe.
  assert (k <> p) by (intros ->; pose proof (ei_apart _ _ _ _ Hi _ _ Hp); congruence).
  unfold_consts. zdiv.
Qed.

Lemma fget_load m e f : fget m e f = get_bits (load64 m e) f.
Proof. reflexivity. Qed.

(** The memory an upper-level entry is given. *)
Definition upper_memory (m : memory) (e q : Z) : memory :=
  fset (memset (fset (fset (fset (fset (memset m e 0x0 8) e read_access 1) e write_access 1)
    e instruction_fetchable 1) e usermode_instruction_fetchable 1) q 0x0 PAGE_SIZE_4K)
    e ept_pdpt (Z.shiftr q PAGE_SHIFT_4K).

Lemma upper_memory_spec m e q : e + 8 <= q ->
  load64 (upper_memory m e q) e = etable_entry q /\
  (forall b, q <= b < q + PAGE_SIZE_4K -> rd8 (upper_memory m e q) b = 0) /\
  (forall b, ~ (e <= b < e + 8) -> ~ (q <= b < q + PAGE_SIZE_4K) ->
     rd8 (upper_memory m e q) b = rd8 m b).
Proof.
  intros H. unfold upper_memory. unfold_consts. split_and!.
  - rewrite load64_fset, load64_memset_out, !load64_fset, load64_memset_in
      by (unfold field_ok; cbn; lia). done.
  - intros b Hb. rewrite rd8_fset_out, rd8_memset by lia. by rewrite decide_True by lia.
  - intros b Hb Hq. rewrite rd8_fset_out, rd8_memset, !rd8_fset_out, rd8_memset by lia.
    repeat case_decide; done || lia.
Qed.

Local Opaque fset memset load64.

(** An entry in use is left alone; a free one gets a table when a page with an
    identity mapping is available. *)
Lemma ept_upper_used s e : accessible (load64 (k_mem s) e) = true ->
  ept_upper_entry e ept_pdpt s = Ret (tt, s).
Proof.
  intros Ea. unfold ept_upper_entry. rewrite (bind_run _ _ _ _ _ eq_refl). cbv beta.
  rewrite !fget_load, <- negb_orb. fold (accessible (load64 (k_mem s) e)). rewrite Ea. cbn [negb].
  rewrite (bind_run _ _ s tt s), (bind_run _ _ _ _ _ eq_refl) by done. cbv beta.
  rewrite !fget_load. fold (accessible (load64 (k_mem s) e)). by rewrite Ea.
Qed.

Definition upper_marked (m : memory) (e : Z) : memory :=
  fset (fset (fset (fset (memset m e 0x0 8) e read_access 1) e write_access 1)
    e instruction_fetchable 1) e usermode_instruction_fetchable 1.

Lemma ept_upper_free m ph b e q :
  let s := Kernel m ph b in
  accessible (load64 m e) = false -> e + 8 <= q -> 0 < q ->
  get_physical_page (Kernel (upper_marked m e) ph b) = Ret (q, bump s (upper_marked m e)) ->
  pa (bump s (upper_marked m e)) q = q ->
  ept_upper_entry e ept_pdpt s = Ret (tt, bump s (upper_memory m e q)).
Proof.
  intros s Ea He Hq Hget Hpa. destruct (upper_memory_spec m e q He) as (Hw & _ & _).
  unfold ept_upper_entry. rewrite (bind_run _ _ _ _ _ eq_refl). cbv beta.
  rewrite !fget_load, <- negb_orb. cbn [s k_mem]. fold (accessible (load64 m e)). rewrite Ea. cbn [negb].
  rewrite (bind_run _ _ s tt (bump s (upper_memory m e q))).
  - rewrite (bind_run _ _ _ _ _ eq_refl). cbv beta. rewrite !fget_load. cbn [bump k_mem].
    pose proof (etable_entry_accessible q) as Ha. unfold accessible in Ha. by rewrite Hw, Ha.
  - unfold put_mem. do 5 (rewrite (bind_run _ _ _ _ _ eq_refl); cbv beta).
    cbv [update s]. cbn [k_mem k_phys pml4_base].
    fold (upper_marked m e). rewrite (bind_run _ _ _ _ _ Hget). cbv beta.
    rewrite (bind_run _ _ _ _ _ eq_refl). cbv beta.
    assert (Hq1 : truthy q = true) by (apply truthy_true; lia).
    rewrite Hpa, Z.eqb_refl, assert_run by (by rewrite Hq1).
    cbv [bind modify update bump next_page s]. cbn [k_mem k_phys pml4_base].
    unfold upper_memory, upper_marked. reflexivity.
Qed.

(** The entry through which the guest can reach an address, if any. *)
Definition guest_page (m : memory) (base g : Z) : option Z :=
  match epte m base g with
  | Some w => if accessible w then Some w else None
  | None => None
  end.

(** What an upper-level step guarantees. *)
Record ept_step (s : kernel) (base : Z) (Tk Te : gmap Z (Z * Z)) (n : Z)
    (s' : kernel) (Te' : gmap Z (Z * Z)) : Prop := {
  es_inv : ept_inv s' base Tk Te';
  es_room : ept_room n s';
  es_next : next_page s <= next_page s';
  es_tables : forall p, Te' !! p = Te !! p \/ (Te !! p = None /\ next_page s <= p < next_page s');
  es_pages : forall b, 0 <= b < VA_LIMIT ->
    guest_page (k_mem s') base b = guest_page (k_mem s) base b;
  es_frame : forall b, b < next_page s -> ~ in_tables Te b -> rd8 (k_mem s') b = rd8 (k_mem s) b }.

Lemma ept_step_refl s base Tk Te n k : ept_inv s base Tk Te -> ept_room n s -> k <= n ->
  ept_step s base Tk Te k s Te.
Proof.
  intros Hi Hr Hk. split; auto; try lia; try done. unfold ept_room in *. unfold_consts. lia.
Qed.

Lemma ept_step_trans s base Tk Te n1 s1 Te1 n2 s2 Te2 :
  ept_step s base Tk Te n1 s1 Te1 -> ept_step s1 base Tk Te1 n2 s2 Te2 ->
  ept_step s base Tk Te n2 s2 Te2.
Proof.
  intros [Hi1 Hr1 Hn1 Ht1 Hp1 Hf1] [Hi2 Hr2 Hn2 Ht2 Hp2 Hf2]. split; try done; try lia.
  - intros p. destruct (Ht2 p) as [E2|[E2 ?]], (Ht1 p) as [E1|[E1 ?]].
    + left. congruence.
    + right. split; [done|lia].
    + right. split; [congruence|lia].
    + right. split; [done|lia].
  - intros b Hb. by rewrite Hp2, Hp1.
  - intros b Hb Hnt. rewrite Hf2; [auto|lia|]. intros (p & l & x & Hp & Hin). apply Hnt.
    destruct (Ht1 p) as [E1|[_ ?]]; [|lia]. rewrite E1 in Hp. by exists p, l, x.
Qed.

(** The entry of an accessible page is not one a new table can bring. *)
Lemma epte_same m m' base b : same_walk elink m m' base b -> epte m' base b = epte m base b.
Proof.
  intros H. unfold epte. destruct (H 3%nat ltac:(lia)) as [-> L].
  destruct (slot elink m base b 3) as [e|]; [|done]. by rewrite (L e eq_refl).
Qed.

Lemma guest_page_dead m base b d e : slot elink m base b d = Some e -> (d < 4)%nat ->
  accessible (load64 m e) = false -> guest_page m base b = None.
Proof.
  intros E Hd Ha. unfold guest_page, epte.
  destruct (decide (d = 3%nat)) as [->|Hne]; [by rewrite E, Ha|].
  assert (L : elink (4 - Z.of_nat d) (load64 m e) = None) by (unfold elink; by rewrite Ha).
  pose proof (slot_dead elink _ _ _ _ _ E L (2 - d)) as Hn.
  replace (d + S (2 - d))%nat with 3%nat in Hn by lia. by rewrite Hn.
Qed.

(** A new table [q], linked from the free entry [e] of the table [p]: it brings no
    page, and only [e] and [q] change. *)
Lemma grown_pages m m' base Te g d e q b : tree elink m base Te -> 0 <= g < VA_LIMIT -> (d < 3)%nat ->
  slot elink m base g d = Some e -> accessible (load64 m e) = false -> Te !! q = None -> q mod PAGE_SIZE_4K = 0 ->
  elink (4 - Z.of_nat d) (load64 m' e) = Some q ->
  (forall b, q <= b < q + PAGE_SIZE_4K -> rd8 m' b = 0) ->
  (forall b, ~ (e <= b < e + 8) -> ~ (q <= b < q + PAGE_SIZE_4K) -> rd8 m' b = rd8 m b) ->
  0 <= b < VA_LIMIT -> guest_page m' base b = guest_page m base b.
Proof.
  intros Ht Hg Hd E Ea Hq Hq4 Hlink Hz Hfr Hb.
  destruct (grow_table elink elink_0 m m' base Te g d e q Ht Hg Hd E Hq Hq4 Hlink Hz Hfr) as [_ Hwalks].
  specialize (Hwalks b Hb). case_decide.
  - destruct Hwalks as (E1 & E2 & E3). rewrite (guest_page_dead _ _ _ d _ E1); [|lia|exact Ea].
    apply (guest_page_dead _ _ _ (S d) _ E2); [lia|by rewrite E3].
  - unfold guest_page. by rewrite (epte_same m) by exact Hwalks.
Qed.

Lemma upper_link m e q d : e + 8 <= q -> 0 <= q < INITIAL_VA_CEILING -> q mod PAGE_SIZE_4K = 0 -> (d < 3)%nat ->
  elink (4 - Z.of_nat d) (load64 (upper_memory m e q) e) = Some q.
Proof.
  intros He Hq Hq4 Hd. destruct (upper_memory_spec m e q He) as (Hw & _ & _).
  unfold INITIAL_VA_CEILING in *. rewrite Hw, elink_link, etable_entry_table;
    [done|unfold_consts; lia|done|apply etable_entry_accessible|lia].
Qed.

Lemma ept_upper_grown s base Tk Te g d e n p : let q := next_page s in
  let s' := bump s (upper_memory (k_mem s) e q) in
  ept_inv s base Tk Te -> ept_room n s -> 1 <= n -> 0 <= g < VA_LIMIT -> (d < 3)%nat ->
  slot elink (k_mem s) base g d = Some e -> accessible (load64 (k_mem s) e) = false ->
  Te !! p = Some (4 - Z.of_nat d, prefix (4 - Z.of_nat d) g) -> e = p + 8 * index (4 - Z.of_nat d) g ->
  ept_step s base Tk Te (n - 1) s' (<[q := (3 - Z.of_nat d, prefix (3 - Z.of_nat d) g)]> Te) /\
  slot elink (k_mem s') base g (S d) =
    Some (etable_of (load64 (k_mem s') e) + 8 * index (4 - Z.of_nat (S d)) g).
Proof.
  intros q s' Hi Hr Hn Hg Hd E Ea Hp He. pose proof (pi_ok _ _ (ei_kernel _ _ _ _ Hi)) as Hok.
  pose proof (index_range (4 - Z.of_nat d) g) as Hix. pose proof (ei_below _ _ _ _ Hi _ _ Hp) as Hpb.
  destruct (get_page_run s n Hok Hr Hn) as (_ & Hq4 & Hq1 & Hq2). fold q in Hq4, Hq1, Hq2.
  assert (Heq : e + 8 <= q) by (unfold q; unfold_consts; lia).
  assert (Hqr : 0 <= q < INITIAL_VA_CEILING) by (unfold INITIAL_VA_CEILING in *; unfold_consts; lia).
  destruct (upper_memory_spec (k_mem s) e q Heq) as (Hw & Hz & Hfr).
  destruct (bump_ok s (upper_memory (k_mem s) e q) n Hok Hr Hn) as (Hokb & Hrb & Hnb). fold s' in Hokb, Hrb, Hnb.
  assert (Hle : q <= next_page s') by (rewrite Hnb; unfold q; unfold_consts; lia).
  assert (Hin : exists p y, Te !! p = Some y /\ p <= e /\ e + 8 <= p + PAGE_SIZE_4K).
  { exists p. eexists. split; [exact Hp|]. unfold_consts. lia. }
  destruct (ept_frame s base Tk Te s' e q Hi Hokb Hle eq_refl Hin (Z.le_refl _) Hq4 Hfr) as [Hk' Hpa'].
  assert (Hfresh : forall T : gmap Z (Z * Z), (forall r y, T !! r = Some y -> r + PAGE_SIZE_4K <= q) -> T !! q = None).
  { intros T HT. destruct (T !! q) as [y|] eqn:Eq; [|done]. specialize (HT _ _ Eq). unfold_consts. lia. }
  pose proof (Hfresh Te (ei_below _ _ _ _ Hi)) as HTe.
  pose proof (upper_link (k_mem s) e q d Heq Hqr Hq4 Hd) as Hlink.
  pose proof (ei_tree _ _ _ _ Hi) as Htree.
  destruct (grow_table elink elink_0 _ _ base Te g d e q Htree Hg Hd E HTe Hq4 Hlink Hz Hfr) as [Ht' Hwalks].
  split; [split; [split|exact Hrb|exact Hle|..]|].
  - exact Hk'.
  - intros a Ha. rewrite Hpa'; [by apply Hi|]. unfold VA_LIMIT, INITIAL_VA_CEILING in *. lia.
  - exact Ht'.
  - intros r y. rewrite lookup_insert. case_decide as Hrq; [intros _; subst r; lia|].
    intros Hry. pose proof (ei_below _ _ _ _ Hi _ _ Hry). unfold q in *. lia.
  - intros r y. rewrite lookup_insert. case_decide as Hrq; [|apply Hi]. intros _. subst r.
    destruct (Tk !! q) as [[l x]|] eqn:Eq; [|done].
    pose proof (pi_below _ _ (ei_kernel _ _ _ _ Hi) _ _ _ Eq). unfold q in *. unfold_consts. lia.
  - intros r. rewrite lookup_insert. case_decide as Hrq; [right|by left]. subst r.
    split; [done|unfold q in *; unfold_consts; lia].
  - intros c Hc. by apply (grown_pages _ _ base Te g d e q).
  - intros c Hc Hnt. fold q in Hc. apply Hfr; [|unfold_consts; lia]. intros Hce. apply Hnt.
    exists p. do 2 eexists. split; [exact Hp|]. unfold_consts. lia.
  - specialize (Hwalks g Hg). rewrite decide_True in Hwalks by done. destruct Hwalks as (_ & E2 & _).
    cbn [k_mem s' bump]. rewrite E2, Hw, etable_entry_table; [|unfold INITIAL_VA_CEILING in *; unfold_consts; lia|done].
    by replace (3 - Z.of_nat d) with (4 - Z.of_nat (S d)) by lia.
Qed.

(** [ept_upper_entry] finds or makes the table of the next level. *)
Lemma ept_upper_run s base Tk Te g d e n :
  ept_inv s base Tk Te -> ept_room n s -> 1 <= n -> 0 <= g < VA_LIMIT -> (d < 3)%nat ->
  slot elink (k_mem s) base g d = Some e ->
  exists s' Te', ept_upper_entry e ept_pdpt s = Ret (tt, s') /\
    ept_step s base Tk Te (n - 1) s' Te' /\
    slot elink (k_mem s') base g (S d) =
      Some (etable_of (load64 (k_mem s') e) + 8 * index (4 - Z.of_nat (S d)) g).
Proof.
  intros Hi Hr Hn Hg Hd E. pose proof (pi_ok _ _ (ei_kernel _ _ _ _ Hi)) as Hok.
  destruct (accessible (load64 (k_mem s) e)) eqn:Ea.
  { exists s, Te. split; [by apply ept_upper_used|]. split; [apply (ept_step_refl _ _ _ _ n); done || lia|].
    apply (slot_step elink _ _ _ d e); [done|]. by apply elink_link; [|lia]. }
  destruct (slot_owned elink _ _ _ _ d _ (ei_tree _ _ _ _ Hi) Hg ltac:(lia) E) as (p & Hp & He).
  eexists _, _. split; [|by apply (ept_upper_grown s base Tk Te g d e n p)].
  pose proof (index_range (4 - Z.of_nat d) g) as Hix. pose proof (ei_below _ _ _ _ Hi _ _ Hp) as Hpb.
  destruct s as [m ph b]. set (q := next_page (Kernel m ph b)) in *. cbn [k_mem] in *.
  destruct (get_page_run (Kernel (upper_marked m e) ph b) n Hok Hr Hn) as (Hget & Hq4 & Hq1 & Hq2).
  change (next_page (Kernel (upper_marked m e) ph b)) with q in *.
  assert (Heq : e + 8 <= q) by (unfold_consts; lia).
  apply ept_upper_free; [done|done|unfold_consts; lia|exact Hget|].
  destruct (bump_ok (Kernel m ph b) (upper_marked m e) n Hok Hr Hn) as (Hokb & _ & Hnb).
  destruct (ept_frame (Kernel m ph b) base Tk Te (bump (Kernel m ph b) (upper_marked m e)) e q Hi Hokb) as [_ Hpa1].
  - rewrite Hnb. fold q. unfold_consts. lia.
  - reflexivity.
  - exists p. eexists. split; [exact Hp|]. unfold_consts. lia.
  - apply Z.le_refl.
  - exact Hq4.
  - intros c Hc _. cbn [bump k_mem]. unfold upper_marked.
    rewrite !rd8_fset_out, rd8_memset by lia. rewrite decide_False by lia; reflexivity.
  - assert (Hqr : 0 <= q < INITIAL_VA_CEILING) by (unfold_consts; lia).
    rewrite Hpa1; [by apply Hi|]. unfold VA_LIMIT, INITIAL_VA_CEILING in *. unfold_consts. lia.
Qed.

(** ** The last level *)
Definition page_entry_of (backing h : Z) : Z :=
  if backing =? PAGE_SYSTEM_MEMORY then ram_entry h else io_entry.

Definition leaf_memory (m : memory) (e backing h : Z) : memory :=
  if backing =? PAGE_SYSTEM_MEMORY then
    fset (fset (fset (fset (fset (fset (fset (memset m e 0x0 8) e read_access 1) e write_access 1)
      e instruction_fetchable 1) e pte_usermode_instruction_fetchable 1)
      e ignore_pat_memory_type 1) e ept_memory_type 6) e ept_4k_page (Z.shiftr h PAGE_SHIFT_4K)
  else
    fset (fset (fset (fset (fset (fset (memset m e 0x0 8) e read_access 0) e write_access 1)
      e instruction_fetchable 1) e pte_usermode_instruction_fetchable 1)
      e ignore_pat_memory_type 1) e ept_memory_type 6.

Lemma leaf_memory_spec m e backing h :
  load64 (leaf_memory m e backing h) e = page_entry_of backing h /\
  forall b, ~ (e <= b < e + 8) -> rd8 (leaf_memory m e backing h) b = rd8 m b.
Proof.
  unfold leaf_memory, page_entry_of. destruct (backing =? PAGE_SYSTEM_MEMORY).
  all: split; [rewrite !load64_fset, load64_memset_in by (unfold field_ok; cbn; lia); reflexivity|].
  all: intros b Hb; rewrite !rd8_fset_out, rd8_memset by lia; rewrite decide_False by lia; reflexivity.
Qed.

Lemma page_entry_accessible backing h : accessible (page_entry_of backing h) = true.
Proof.
  unfold page_entry_of. destruct (_ =? _); [apply ram_entry_accessible|reflexivity].
Qed.

Lemma ept_page_entry_run m ph b e h backing :
  backing = PAGE_SYSTEM_MEMORY \/ backing = PAGE_SYSTEM_IOMEMORY ->
  ept_page_entry e h backing (Kernel m ph b) =
  if accessible (load64 m e) then Ret (- ERROR_DUPLICATION, Kernel m ph b)
  else Ret (ERROR_OK, Kernel (leaf_memory m e backing h) ph b).
Proof.
  intros Hb. unfold ept_page_entry, accessible, put_mem.
  cbv [bind gets modify ret update]. cbn [k_mem k_phys pml4_base]. rewrite !fget_load.
  destruct (_ || _); [reflexivity|]. unfold leaf_memory.
  destruct Hb as [-> | ->]; cbn [Z.eqb Pos.eqb PAGE_SYSTEM_MEMORY PAGE_SYSTEM_IOMEMORY]; reflexivity.
Qed.

(** The last level of [map_ept_page]: duplicates are refused, otherwise the one
    guest page gets its entry and everything else stays. *)
Lemma ept_page_run s base Tk Te g e h backing :
  ept_inv s base Tk Te -> 0 <= g < VA_LIMIT -> slot elink (k_mem s) base g 3 = Some e ->
  backing = PAGE_SYSTEM_MEMORY \/ backing = PAGE_SYSTEM_IOMEMORY ->
  (ept_page_entry e h backing s = Ret (- ERROR_DUPLICATION, s) /\
     guest_page (k_mem s) base g <> None) \/
  (guest_page (k_mem s) base g = None /\
   exists s', ept_page_entry e h backing s = Ret (ERROR_OK, s') /\ ept_inv s' base Tk Te /\
     k_phys s' = k_phys s /\
     (forall b, 0 <= b < VA_LIMIT -> guest_page (k_mem s') base b =
        if decide (same_page PAGE_SIZE_4K b g) then Some (page_entry_of backing h)
        else guest_page (k_mem s) base b) /\
     (forall b, ~ in_tables Te b -> rd8 (k_mem s') b = rd8 (k_mem s) b)).
Proof.
  intros Hi Hg E Hbk. destruct s as [m ph bs]. cbn [k_mem] in *.
  rewrite (ept_page_entry_run m ph bs e h backing Hbk).
  destruct (accessible (load64 m e)) eqn:Ea.
  { left. split; [reflexivity|]. unfold guest_page, epte. rewrite E, Ea. discriminate. }
  right. split; [by apply (guest_page_dead _ _ _ 3 e); [|lia|]|].
  destruct (leaf_memory_spec m e backing h) as [Hw Hfr].
  set (m' := leaf_memory m e backing h) in *. set (s' := Kernel m' ph bs).
  destruct (slot_owned elink _ _ _ _ 3 _ (ei_tree _ _ _ _ Hi) Hg ltac:(lia) E) as (p & Hp & He).
  pose proof (index_range (4 - Z.of_nat 3) g) as Hix. pose proof (ei_below _ _ _ _ Hi _ _ Hp) as Hpb.
  destruct (write_leaf elink m m' base Te g e (ei_tree _ _ _ _ Hi) Hg E (elink_leaf _) Hfr) as [Ht' Hwalks].
  assert (Hnt : forall b, ~ in_tables Te b -> rd8 m' b = rd8 m b).
  { intros b Hb. apply Hfr. intros Hbe. apply Hb. exists p. do 2 eexists.
    split; [exact Hp|]. unfold_consts. lia. }
  assert (Hin : exists p y, Te !! p = Some y /\ p <= e /\ e + 8 <= p + PAGE_SIZE_4K).
  { exists p. eexists. split; [exact Hp|]. unfold_consts. lia. }
  destruct (ept_frame _ base Tk Te s' e (next_page s') Hi (pi_ok _ _ (ei_kernel _ _ _ _ Hi))
              (Z.le_refl _) eq_refl Hin (Z.le_refl _)) as [Hk' Hpa'].
  { apply (pi_ok _ _ (ei_kernel _ _ _ _ Hi)). }
  { intros b Hb _. by apply Hfr. }
  exists s'. split; [reflexivity|]. split; [|split; [reflexivity|split; [|exact Hnt]]].
  - split; [exact Hk'| |exact Ht'|apply Hi|apply Hi].
    intros a Ha. rewrite Hpa'; [by apply Hi|]. unfold VA_LIMIT, INITIAL_VA_CEILING in *. lia.
  - intros b Hb. specialize (Hwalks b Hb). cbn [k_mem s'].
    destruct (decide (same_page PAGE_SIZE_4K b g)) as [Hs|Hs].
    + rewrite decide_True in Hwalks by exact Hs. unfold guest_page, epte.
      by rewrite Hwalks, Hw, page_entry_accessible.
    + rewrite decide_False in Hwalks by exact Hs. unfold guest_page.
      by rewrite (epte_same m m' base b Hwalks).
Qed.

(** ** [map_ept_page] *)
Lemma map_ept_page_run s base Tk Te g h backing n :
  ept_inv s base Tk Te -> ept_room n s -> 3 <= n -> 0 <= g < VA_LIMIT ->
  backing = PAGE_SYSTEM_MEMORY \/ backing = PAGE_SYSTEM_IOMEMORY ->
  exists rc s' Te', map_ept_page base g h backing s = Ret (rc, s') /\
    ept_inv s' base Tk Te' /\ ept_room (n - 3) s' /\ next_page s <= next_page s' /\
    (forall p, Te' !! p = Te !! p \/ (Te !! p = None /\ next_page s <= p < next_page s')) /\
    (forall b, b < next_page s -> ~ in_tables Te b -> rd8 (k_mem s') b = rd8 (k_mem s) b) /\
    ((rc = - ERROR_DUPLICATION /\ guest_page (k_mem s) base g <> None /\
        forall b, 0 <= b < VA_LIMIT -> guest_page (k_mem s') base b = guest_page (k_mem s) base b) \/
     (rc = ERROR_OK /\ guest_page (k_mem s) base g = None /\
        forall b, 0 <= b < VA_LIMIT -> guest_page (k_mem s') base b =
          if decide (same_page PAGE_SIZE_4K b g) then Some (page_entry_of backing h)
          else guest_page (k_mem s) base b)).
Proof.
  intros Hi Hr Hn Hg Hbk. unfold map_ept_page. cbv zeta.
  rewrite level_4_index, level_3_index, level_2_index, level_1_index by done.
  change ept_pdt with ept_pdpt. change ept_pt with ept_pdpt. unfold entry_at.
  destruct (ept_upper_run s base Tk Te g 0 _ n Hi Hr ltac:(lia) Hg ltac:(lia) eq_refl)
    as (s1 & T1 & H1 & S1 & E1).
  change (4 - Z.of_nat 0) with 4 in *. change (4 - Z.of_nat 1) with 3 in *.
  run_with H1. rewrite (bind_run _ _ _ _ _ eq_refl). cbv beta. rewrite fget_load.
  change (shl_field ept_pdpt (get_bits ?w ept_pdpt) PAGE_SHIFT_4K) with (etable_of w).
  destruct (ept_upper_run s1 base Tk T1 g 1 _ (n - 1) (es_inv _ _ _ _ _ _ _ S1) (es_room _ _ _ _ _ _ _ S1)
              ltac:(lia) Hg ltac:(lia) E1) as (s2 & T2 & H2 & S2 & E2).
  change (4 - Z.of_nat 2) with 2 in *.
  run_with H2. rewrite (bind_run _ _ _ _ _ eq_refl). cbv beta. rewrite fget_load.
  change (shl_field ept_pdpt (get_bits ?w ept_pdpt) PAGE_SHIFT_4K) with (etable_of w).
  destruct (ept_upper_run s2 base Tk T2 g 2 _ (n - 1 - 1) (es_inv _ _ _ _ _ _ _ S2) (es_room _ _ _ _ _ _ _ S2)
              ltac:(lia) Hg ltac:(lia) E2) as (s3 & T3 & H3 & S3 & E3).
  change (4 - Z.of_nat 3) with 1 in *.
  run_with H3. rewrite (bind_run _ _ _ _ _ eq_refl). cbv beta. rewrite fget_load.
  change (shl_field ept_pdpt (get_bits ?w ept_pdpt) PAGE_SHIFT_4K) with (etable_of w).
  pose proof (ept_step_trans _ _ _ _ _ _ _ _ _ _ (ept_step_trans _ _ _ _ _ _ _ _ _ _ S1 S2) S3)
    as [Hi3 Hr3 Hn3 Ht3 Hp3 Hf3].
  replace (n - 1 - 1 - 1) with (n - 3) in Hr3 by lia.
  destruct (ept_page_run s3 base Tk T3 g _ h backing Hi3 Hg E3 Hbk)
    as [[Hrun Hdup]|(Hno & s4 & Hrun & Hi4 & Hph & Hpg & Hfr)]; rewrite Hrun.
  - exists (- ERROR_DUPLICATION), s3, T3. rewrite Hp3 in Hdup by done. split_and!; try done. left. done.
  - rewrite Hp3 in Hno by done. exists ERROR_OK, s4, T3.
    assert (Hnx : next_page s4 = next_page s3) by (unfold next_page; by rewrite Hph).
    rewrite Hnx. split; [reflexivity|]. split; [exact Hi4|]. split; [unfold ept_room in *; by rewrite Hph|].
    split; [exact Hn3|]. split; [exact Ht3|]. split.
    + intros b Hb Hnt. rewrite Hfr; [by apply Hf3|]. intros (p & l & x & Hp & Hin).
      destruct (Ht3 p) as [Ep|[_ ?]]; [|lia]. apply Hnt. rewrite Ep in Hp. by exists p, l, x.
    + right. split; [done|]. split; [exact Hno|]. intros b Hb. rewrite Hpg by done.
      case_decide; [done|]. by apply Hp3.
Qed.

(** ** The guest's memory *)

(** After [length hs] iterations the guest pages from [lo] on are backed, in
    order, by the host pages [hs]: fresh (at or above [n0]), distinct, zeroed and
    not part of any table. *)
Record guest_memory (s : kernel) (base : Z) (Tk Te : gmap Z (Z * Z)) (n0 lo : Z) (hs : list Z)
    : Prop := {
  gm_inv : ept_inv s base Tk Te;
  gm_next : 0 <= n0 <= next_page s;
  gm_page : forall i h, hs !! i = Some h ->
    h mod PAGE_SIZE_4K = 0 /\ n0 <= h /\ h + PAGE_SIZE_4K <= next_page s /\ Te !! h = None /\
    h + PAGE_SIZE_4K <= INITIAL_VA_CEILING /\
    forall b, h <= b < h + PAGE_SIZE_4K -> rd8 (k_mem s) b = 0;
  gm_sorted : forall i j h k, (i < j)%nat -> hs !! i = Some h -> hs !! j = Some k -> h < k;
  gm_map : forall g, 0 <= g < VA_LIMIT ->
    guest_page (k_mem s) base g =
    if (lo <=? g) && (g <? lo + PAGE_SIZE_4K * Z.of_nat (length hs))
    then ram_entry <$> hs !! Z.to_nat ((g - lo) / PAGE_SIZE_4K) else None }.

(** Zeroing the allocator's next page disturbs neither table. *)
Lemma ept_inv_fresh s base Tk Te n : ept_inv s base Tk Te -> ept_room n s -> 1 <= n ->
  let q := next_page s in
  let s1 := bump s (memset (k_mem s) q 0x0 PAGE_SIZE_4K) in
  ept_inv s1 base Tk Te /\ forall g, 0 <= g < VA_LIMIT ->
    guest_page (k_mem s1) base g = guest_page (k_mem s) base g.
Proof.
  intros Hi Hr Hn q s1. pose proof (pi_ok _ _ (ei_kernel _ _ _ _ Hi)) as Hok.
  destruct (bump_ok s (memset (k_mem s) q 0x0 PAGE_SIZE_4K) n Hok Hr Hn) as (Hok1 & Hr1 & Hn1).
  fold s1 in Hok1, Hr1, Hn1.
  assert (Hfr : forall b, b < q -> rd8 (k_mem s1) b = rd8 (k_mem s) b).
  { intros b Hb. cbn [k_mem s1 bump]. rewrite rd8_memset by (unfold_consts; lia).
    rewrite decide_False by lia. reflexivity. }
  destruct (kernel_frame s s1 Tk (ei_kernel _ _ _ _ Hi) Hok1) as [Hk1 Hpa]; [unfold_consts; lia|done| |].
  { intros b (p & l & x & Hp & Hin). apply Hfr.
    pose proof (pi_below _ _ (ei_kernel _ _ _ _ Hi) _ _ _ Hp). unfold q. lia. }
  destruct (tree_frame elink (k_mem s) (k_mem s1) base Te (ei_tree _ _ _ _ Hi)) as [Ht1 Hs1].
  { intros p l x b Hp Hin. apply Hfr. pose proof (ei_below _ _ _ _ Hi _ _ Hp). unfold q. lia. }
  split.
  - split; [exact Hk1| |exact Ht1| |apply Hi].
    + intros a Ha. rewrite Hpa; [by apply Hi|]. unfold VA_LIMIT, INITIAL_VA_CEILING in *. lia.
    + intros p y Hp. pose proof (ei_below _ _ _ _ Hi _ _ Hp). rewrite Hn1. unfold_consts. lia.
  - intros g Hg. unfold guest_page, epte. destruct (Hs1 g 3%nat Hg ltac:(lia)) as [-> L].
    destruct (slot elink (k_mem s) base g 3) as [e|]; [|reflexivity]. by rewrite (L e eq_refl).
Qed.

Lemma same_page_index lo b k : 0 <= lo -> lo mod PAGE_SIZE_4K = 0 -> 0 <= k ->
  same_page PAGE_SIZE_4K b (lo + PAGE_SIZE_4K * k) <->
  lo + PAGE_SIZE_4K * k <= b < lo + PAGE_SIZE_4K * (k + 1).
Proof.
  intros Hlo Hal Hk. unfold same_page. unfold_consts. split; intros; zdiv.
Qed.

Lemma in_range_true a b c : (a <=? b) && (b <? c) = true <-> a <= b < c.
Proof. rewrite andb_true_iff, Z.leb_le, Z.ltb_lt. done. Qed.
Lemma in_range_false a b c : (a <=? b) && (b <? c) = false <-> ~ (a <= b < c).
Proof. rewrite <- in_range_true. by destruct (_ && _). Qed.

(** New tables are fresh pages, and memory handed out before that is no table stays. *)
Record ept_extends (s : kernel) (Te : gmap Z (Z * Z)) (s' : kernel) (Te' : gmap Z (Z * Z)) : Prop := {
  ex_next : next_page s <= next_page s';
  ex_tables : forall p, Te' !! p = Te !! p \/ next_page s <= p;
  ex_frame : forall b, b < next_page s -> ~ in_tables Te b -> rd8 (k_mem s') b = rd8 (k_mem s) b }.

Lemma ept_extends_refl s Te : ept_extends s Te s Te.
Proof. split; auto. lia. Qed.
Lemma ept_extends_trans s Te s1 Te1 s2 Te2 :
  ept_extends s Te s1 Te1 -> ept_extends s1 Te1 s2 Te2 -> ept_extends s Te s2 Te2.
Proof.
  intros [N1 T1 F1] [N2 T2 F2]. split; [lia| |].
  - intros p. destruct (T2 p) as [E2|?], (T1 p) as [E1|?]; [left; congruence|right; lia..].
  - intros b Hb Ht. rewrite F2; [by apply F1|lia|]. intros (p & l & x & Hp & Hin). apply Ht.
    destruct (T1 p) as [E1|?]; [|lia]. exists p, l, x. by rewrite <- E1.
Qed.

(** A list of pages that grows at its end: order, and the pages of a range. *)
Lemma snoc_sorted (hs : list Z) q : (forall i j h k, (i < j)%nat -> hs !! i = Some h -> hs !! j = Some k -> h < k) ->
  (forall i h, hs !! i = Some h -> h < q) ->
  forall i j h k, (i < j)%nat -> (hs ++ [q]) !! i = Some h -> (hs ++ [q]) !! j = Some k -> h < k.
Proof.
  intros Hsort Hq i j h k Hij Hh Hk. apply lookup_app_Some in Hk as [Hk|[Hlen Hk]].
  - rewrite lookup_app_l in Hh by (apply lookup_lt_Some in Hk; lia). by apply (Hsort i j).
  - apply list_lookup_singleton_Some in Hk as [Hj <-]. rewrite lookup_app_l in Hh by lia. by apply (Hq i).
Qed.

Definition page_of_list (lo : Z) (hs : list Z) (b : Z) : option Z :=
  if (lo <=? b) && (b <? lo + PAGE_SIZE_4K * Z.of_nat (length hs))
  then ram_entry <$> hs !! Z.to_nat ((b - lo) / PAGE_SIZE_4K) else None.
Lemma page_list_snoc lo hs q b : 0 <= lo -> lo mod PAGE_SIZE_4K = 0 ->
  (if decide (same_page PAGE_SIZE_4K b (lo + PAGE_SIZE_4K * Z.of_nat (length hs))) then Some (ram_entry q)
   else page_of_list lo hs b) = page_of_list lo (hs ++ [q]) b.
Proof.
  intros Hlo Hal. unfold page_of_list. rewrite length_app, Nat2Z.inj_add. cbn [length].
  pose proof (same_page_index lo b (Z.of_nat (length hs)) Hlo Hal ltac:(lia)) as Hsp.
  destruct (decide _) as [Hs|Hs]; rewrite Hsp in Hs.
  - rewrite (proj2 (in_range_true _ _ _)) by (clear - Hs Hlo; unfold_consts; lia).
    replace (Z.to_nat ((b - lo) / PAGE_SIZE_4K)) with (length hs) by (unfold_consts; zdiv).
    by rewrite list_lookup_middle.
  - destruct ((lo <=? b) && (b <? lo + PAGE_SIZE_4K * Z.of_nat (length hs))) eqn:Eb.
    + apply in_range_true in Eb. rewrite (proj2 (in_range_true _ _ _)) by (clear - Eb; unfold_consts; lia).
      rewrite lookup_app_l; [done|]. clear - Eb. unfold_consts. zdiv.
    + apply in_range_false in Eb. rewrite (proj2 (in_range_false _ _ _)); [done|].
      clear - Eb Hs Hlo. unfold_consts. lia.
Qed.

(** One iteration of the loop of [setup_basic_physical_memory]. *)
Lemma guest_memory_step s base Tk Te n0 lo hs n :
  guest_memory s base Tk Te n0 lo hs -> ept_room n s -> 4 <= n ->
  0 <= lo -> lo mod PAGE_SIZE_4K = 0 ->
  lo + PAGE_SIZE_4K * Z.of_nat (length hs) < VA_LIMIT ->
  let q := next_page s in
  let g := lo + PAGE_SIZE_4K * Z.of_nat (length hs) in
  let s1 := bump s (memset (k_mem s) q 0x0 PAGE_SIZE_4K) in
  exists s' Te', map_ept_page base g q PAGE_SYSTEM_MEMORY s1 = Ret (ERROR_OK, s') /\
    ept_room (n - 4) s' /\ guest_memory s' base Tk Te' n0 lo (hs ++ [q]) /\ ept_extends s Te s' Te'.
Proof.
  intros [Hi Hn0 Hpage Hsort Hmap] Hr Hn Hlo Hal Hg q g s1.
  pose proof (pi_ok _ _ (ei_kernel _ _ _ _ Hi)) as Hok.
  destruct (get_page_run s n Hok Hr ltac:(lia)) as (_ & Hq4 & Hq1 & Hq2). fold q in Hq4, Hq1, Hq2.
  destruct (bump_ok s (memset (k_mem s) q 0x0 PAGE_SIZE_4K) n Hok Hr ltac:(lia)) as (Hok1 & Hr1 & Hn1).
  destruct (ept_inv_fresh s base Tk Te n Hi Hr ltac:(lia)) as [Hi1 Hpg1].
  fold q in Hi1, Hpg1, Hn1. fold s1 in Hok1, Hr1, Hn1, Hi1, Hpg1.
  assert (Hrd : forall b, rd8 (k_mem s1) b = if decide (q <= b < q + PAGE_SIZE_4K) then 0 else rd8 (k_mem s) b).
  { intros b. cbn [k_mem s1 bump]. by rewrite rd8_memset by (unfold_consts; lia). }
  clearbody s1.
  assert (Hg' : 0 <= g < VA_LIMIT) by (unfold g in *; unfold_consts; lia).
  assert (Hno : guest_page (k_mem s1) base g = None).
  { rewrite Hpg1, Hmap by done. replace (g <? _) with false by (unfold g; lia). by rewrite andb_false_r. }
  destruct (map_ept_page_run s1 base Tk Te g q PAGE_SYSTEM_MEMORY (n - 1) Hi1 Hr1 ltac:(lia) Hg' ltac:(by left))
    as (rc & s' & Te' & Hrun & Hi' & Hr' & Hn' & Ht' & Hfr & [(_ & Hbad & _)|(-> & _ & Hpg)]);
    [exfalso; exact (Hbad Hno)|].
  assert (Hfq : forall h, h mod PAGE_SIZE_4K = 0 -> h + PAGE_SIZE_4K <= next_page s1 -> Te !! h = None ->
            forall b, h <= b < h + PAGE_SIZE_4K -> rd8 (k_mem s') b = rd8 (k_mem s1) b).
  { intros h Hh4 Hh HhT b Hb. apply Hfr; [lia|]. intros (p & l & x & Hp & Hin).
    destruct (tree_page _ _ _ _ (ei_tree _ _ _ _ Hi) _ _ _ Hp) as [Hp4 _].
    assert (p <> h) by congruence. unfold_consts. zdiv. }
  assert (Hq0 : Te !! q = None).
  { destruct (Te !! q) as [y|] eqn:Eq; [|done]. pose proof (ei_below _ _ _ _ Hi _ _ Eq).
    unfold q in *. unfold_consts. lia. }
  assert (HT : forall h, h + PAGE_SIZE_4K <= next_page s1 -> Te !! h = None -> Te' !! h = None).
  { intros h Hh HhT. destruct (Ht' h) as [->|[_ ?]]; [done|]. unfold_consts. lia. }
  exists s', Te'. split; [exact Hrun|]. split; [by replace (n - 4) with (n - 1 - 3) by lia|].
  assert (Hext : ept_extends s Te s' Te').
  { split; [unfold_consts; lia| |].
    - intros p. destruct (Ht' p) as [E|[_ E]]; [by left|right]. unfold_consts. lia.
    - intros b Hb Hnt. fold q in Hb. rewrite Hfr, Hrd, decide_False by (try done; unfold_consts; lia). done. }
  split; [|exact Hext]. split; [exact Hi'|unfold_consts; lia| | |].
  - intros i h Hh. apply lookup_app_Some in Hh as [Hh|[_ Hh]].
    + destruct (Hpage i h Hh) as (A & B & C & D & F & Z0). fold q in C.
      split_and!; try done; [unfold_consts; lia|apply HT; [unfold_consts; lia|done]|].
      intros b Hb. rewrite (Hfq h); [|done|unfold_consts; lia|done|done].
      rewrite Hrd, decide_False by lia. by apply Z0.
    + apply list_lookup_singleton_Some in Hh as [_ <-].
      split_and!; try done; [lia|unfold_consts; lia|apply HT; [unfold_consts; lia|done]|].
      intros b Hb. rewrite (Hfq q); [|done|unfold_consts; lia|done|done].
      by rewrite Hrd, decide_True by lia.
  - apply snoc_sorted; [exact Hsort|]. intros i h Hh. destruct (Hpage i h Hh) as (_ & _ & C & _).
    fold q in C. unfold_consts. lia.
  - intros b Hb. rewrite Hpg, Hpg1, Hmap by done. by apply page_list_snoc.
Qed.

(** The page the allocator hands out lies in the identity mapping. *)
Lemma fresh_page_assert {B} s Tk n (k : Z -> M kernel B) : paging_inv s Tk ->
  (forall a, 0 <= a < INITIAL_VA_CEILING -> pa s a = a) -> ept_room n s -> 1 <= n ->
  (let! page := get_physical_page in
   let! same := gets (fun s => pa s page =? page) in
   assert (truthy page && same) ;;;
   put_mem (fun m => memset m page 0x0 PAGE_SIZE_4K) ;;; k page) s =
  k (next_page s) (bump s (memset (k_mem s) (next_page s) 0x0 PAGE_SIZE_4K)).
Proof.
  intros Hk Hid Hr Hn. destruct s as [m ph b].
  destruct (get_page_run _ n (pi_ok _ _ Hk) Hr Hn) as (Hget & Hq4 & Hq1 & Hq2).
  set (s := Kernel m ph b) in *. run_with Hget. rewrite (bind_run _ _ _ _ _ eq_refl). cbv beta.
  destruct (kernel_frame s (bump s (k_mem s)) Tk Hk) as [_ Hpa].
  - by apply (bump_ok s (k_mem s) n (pi_ok _ _ Hk) Hr Hn).
  - destruct (bump_ok s (k_mem s) n (pi_ok _ _ Hk) Hr Hn) as (_ & _ & ->). unfold_consts. lia.
  - reflexivity.
  - reflexivity.
  - assert (Ha : 0 <= next_page s < INITIAL_VA_CEILING)
      by (unfold INITIAL_VA_CEILING in *; unfold_consts; lia).
    rewrite Hpa, Hid, Z.eqb_refl by (unfold VA_LIMIT, INITIAL_VA_CEILING in *; lia).
    rewrite assert_run; [reflexivity|]. rewrite andb_true_r. apply truthy_true.
    unfold_consts. lia.
Qed.

Lemma ept_memory_loop_run base Tk n0 lo hi k fuel : forall hs s Te, 0 <= k ->
  guest_memory s base Tk Te n0 lo hs -> 0 <= lo -> lo mod PAGE_SIZE_4K = 0 ->
  hi < VA_LIMIT - PAGE_SIZE_4K ->
  (length hs + fuel)%nat = ept_pages lo hi -> ept_room (4 * Z.of_nat fuel + k) s -> lo <= hi ->
  exists s' Te' hs', ept_memory_loop fuel base (lo + PAGE_SIZE_4K * Z.of_nat (length hs)) hi s =
      Ret (tt, s') /\ length hs' = ept_pages lo hi /\ guest_memory s' base Tk Te' n0 lo hs' /\ ept_room k s' /\ ept_extends s Te s' Te'.
Proof.
  induction fuel as [|fuel IH]; intros hs s Te Hk0 Hgm Hlo Hal Hhi Hlen Hr Hle; cbn [ept_memory_loop];
    unfold ept_pages in Hlen; unfold VA_LIMIT in Hhi.
  - destruct (Z.leb_spec (lo + PAGE_SIZE_4K * Z.of_nat (length hs)) hi) as [H|H];
      [unfold_consts; zdiv|].
    exists s, Te, hs. split; [reflexivity|]. split; [unfold ept_pages; lia|]. split; [exact Hgm|]. split; [exact Hr|apply ept_extends_refl].
  - destruct (Z.leb_spec (lo + PAGE_SIZE_4K * Z.of_nat (length hs)) hi) as [H|H];
      [|exfalso; unfold_consts; zdiv].
    rewrite (fresh_page_assert s Tk _ (fun page => let! _rc := map_ept_page base _ page _ in _) (ei_kernel _ _ _ _ (gm_inv _ _ _ _ _ _ _ Hgm))
               (ei_identity _ _ _ _ (gm_inv _ _ _ _ _ _ _ Hgm)) Hr ltac:(lia)).
    destruct (guest_memory_step s base Tk Te n0 lo hs _ Hgm Hr ltac:(lia) Hlo Hal
                ltac:(unfold VA_LIMIT; unfold_consts; lia)) as (s1 & Te1 & Hrun & Hr1 & Hgm1 & Hx1).
    run_with Hrun.
    destruct (IH _ s1 Te1 Hk0 Hgm1 Hlo Hal Hhi) as (s' & Te' & hs' & Hl & Hlen' & Hgm' & Hr' & Hx').
    { rewrite length_app. cbn [length]. unfold ept_pages. lia. }
    { replace (4 * Z.of_nat fuel + k) with (4 * Z.of_nat (S fuel) + k - 4) by lia. exact Hr1. }
    { exact Hle. }
    assert (Hx : ept_extends s Te s' Te').
    { exact (ept_extends_trans _ _ _ _ _ _ Hx1 Hx'). }
    exists s', Te', hs'. split; [|exact (conj Hlen' (conj Hgm' (conj Hr' Hx)))]. rewrite <- Hl. f_equal. rewrite length_app. cbn [length].
    rewrite u64_small; unfold_consts; lia.
Qed.

(** An empty root page. *)
Lemma guest_memory_start s Tk n lo : paging_inv s Tk ->
  (forall a, 0 <= a < INITIAL_VA_CEILING -> pa s a = a) -> ept_room n s -> 1 <= n ->
  let q := next_page s in
  let s1 := bump s (memset (k_mem s) q 0x0 PAGE_SIZE_4K) in
  guest_memory s1 q Tk {[q := (4, 0)]} (q + PAGE_SIZE_4K) lo [].
Proof.
  intros Hk Hid Hr Hn q s1. pose proof (pi_ok _ _ Hk) as Hok.
  destruct (get_page_run s n Hok Hr Hn) as (_ & Hq4 & Hq1 & Hq2). fold q in Hq4, Hq1, Hq2.
  destruct (bump_ok s (memset (k_mem s) q 0x0 PAGE_SIZE_4K) n Hok Hr Hn) as (Hok1 & Hr1 & Hn1).
  fold q in Hn1. fold s1 in Hok1, Hr1, Hn1.
  assert (Hrd : forall b, rd8 (k_mem s1) b = if decide (q <= b < q + PAGE_SIZE_4K) then 0 else rd8 (k_mem s) b).
  { intros b. cbn [k_mem s1 bump]. by rewrite rd8_memset by (unfold_consts; lia). }
  assert (Hb1 : pml4_base s1 = pml4_base s) by reflexivity. clearbody s1.
  assert (Hz : forall j, 0 <= j < 512 -> load64 (k_mem s1) (q + 8 * j) = 0).
  { intros j Hj. apply load64_zeros. intros b Hb. rewrite Hrd, decide_True; [done|unfold_consts; lia]. }
  destruct (kernel_frame s s1 Tk Hk Hok1) as [Hk1 Hpa]; [unfold_consts; lia|done| |].
  { intros b (p & l & x & Hp & Hin). rewrite Hrd, decide_False; [done|].
    pose proof (pi_below _ _ Hk _ _ _ Hp). unfold q. lia. }
  split; [split|..].
  - exact Hk1.
  - intros a Ha. rewrite Hpa; [by apply Hid|]. unfold VA_LIMIT, INITIAL_VA_CEILING in *. lia.
  - split.
    + apply lookup_singleton_eq.
    + intros p l x [<- [= <- <-]]%lookup_singleton_Some. split; [exact Hq4|lia].
    + intros p l x i r [<- [= <- <-]]%lookup_singleton_Some Hj L. by rewrite Hz in L.
  - intros p y [<- _]%lookup_singleton_Some. rewrite Hn1. lia.
  - intros p y [<- _]%lookup_singleton_Some. destruct (Tk !! q) as [[l x]|] eqn:E; [|done].
    pose proof (pi_below _ _ Hk _ _ _ E). unfold q in *. unfold_consts. lia.
  - rewrite Hn1. unfold_consts. lia.
  - intros i h. by rewrite lookup_nil.
  - intros i j h k _. by rewrite lookup_nil.
  - intros g Hg. rewrite (guest_page_dead _ _ _ 0 _ eq_refl); [by case_match|lia|].
    rewrite Hz by apply index_range. done.
Qed.

(** The guest page's translation, from the invariant. *)
Lemma guest_memory_translate s base Tk Te n0 lo hs g h :
  guest_memory s base Tk Te n0 lo hs -> 0 <= lo -> lo mod PAGE_SIZE_4K = 0 ->
  0 <= g < VA_LIMIT -> lo <= g < lo + PAGE_SIZE_4K * Z.of_nat (length hs) ->
  hs !! Z.to_nat ((g - lo) / PAGE_SIZE_4K) = Some h ->
  guestpa_to_hostpa s base g = h + g mod PAGE_SIZE_4K.
Proof.
  intros Hgm Hlo Hal Hg Hin Hh. pose proof (gm_map _ _ _ _ _ _ _ Hgm g Hg) as Hm.
  rewrite (proj2 (in_range_true _ _ _) Hin), Hh in Hm. cbn [fmap option_fmap option_map] in Hm.
  destruct (gm_page _ _ _ _ _ _ _ Hgm _ _ Hh) as (H4 & _ & _ & _ & Hc & _).
  rewrite guestpa_walk by done. unfold guest_page in Hm.
  destruct (epte (k_mem s) base g) as [w|]; [|done]. destruct (accessible w); [|done].
  injection Hm as ->. apply host_address_ram; [|exact H4].
  pose proof (gm_page _ _ _ _ _ _ _ Hgm _ _ Hh) as (_ & Hn & _).
  pose proof (gm_next _ _ _ _ _ _ _ Hgm). unfold INITIAL_VA_CEILING in *. unfold_consts. lia.
Qed.

Local Transparent fset memset load64.

(** The whole set-up; [k] pages are left. *)
Lemma setup_basic_run s Tk lo hi k :
  paging_inv s Tk -> (forall a, 0 <= a < INITIAL_VA_CEILING -> pa s a = a) ->
  0 <= lo <= hi -> lo mod PAGE_SIZE_4K = 0 -> hi < VA_LIMIT - PAGE_SIZE_4K -> 0 <= k ->
  ept_room (4 * Z.of_nat (ept_pages lo hi) + k + 1) s ->
  exists s' Te hs, setup_basic_physical_memory lo hi s = Ret (next_page s, s') /\
    length hs = ept_pages lo hi /\
    guest_memory s' (next_page s) Tk Te (next_page s + PAGE_SIZE_4K) lo hs /\ ept_room k s' /\
    (forall p y, Te !! p = Some y -> next_page s <= p) /\
    (forall b, b < next_page s -> rd8 (k_mem s') b = rd8 (k_mem s) b).
Proof.
  intros Hk Hid Hlo Hal Hhi Hk0 Hr. set (q := next_page s).
  pose proof (guest_memory_start s Tk _ lo Hk Hid Hr ltac:(lia)) as Hgm. cbv zeta in Hgm. fold q in Hgm.
  destruct (bump_ok s (memset (k_mem s) q 0x0 PAGE_SIZE_4K) _ (pi_ok _ _ Hk) Hr ltac:(lia))
    as (_ & Hr1 & _). rewrite Z.add_simpl_r in Hr1.
  destruct (ept_memory_loop_run q Tk _ lo hi k (ept_pages lo hi) [] _ _ Hk0 Hgm ltac:(lia) Hal Hhi eq_refl Hr1
              ltac:(lia)) as (s' & Te & hs & Hrun & Hlen & Hgm' & Hr' & [Hxn Hxt Hxf]).
  assert (Hn1 : next_page (bump s (memset (k_mem s) q 0x0 PAGE_SIZE_4K)) = q + PAGE_SIZE_4K) by reflexivity.
  exists s', Te, hs. split; [|split; [exact Hlen|split; [exact Hgm'|split; [exact Hr'|split]]]].
  2: { intros p y Hp. destruct (Hxt p) as [E|E]; [|unfold_consts; lia]. rewrite Hp in E. symmetry in E.
    apply lookup_singleton_Some in E as [<- _]. lia. }
  2: { intros b Hb. rewrite Hxf.
    - cbn [k_mem bump]. rewrite rd8_memset, decide_False by (unfold_consts; lia). done.
    - unfold_consts. lia.
    - intros (p & l & x & Hp & Hin). apply lookup_singleton_Some in Hp as [<- _]. lia. }
  unfold setup_basic_physical_memory. rewrite (fresh_page_assert s Tk _ _ Hk Hid Hr ltac:(lia)).
  cbn [length] in Hrun. rewrite Z.mul_0_r, Z.add_0_r in Hrun. unfold q in Hrun. run_with Hrun. reflexivity.
Qed.

(** ** Properties *)

(** C3 Guest isolation. When the low segment has room for the root, the guest
    pages and three tables per page, [setup_basic_physical_memory lo hi]
    completes; every guest page that holds an address of [lo .. hi] translates
    into its own host page, and no other guest address has an accessible entry.
    The host pages are page aligned, pairwise distinct, zeroed, fresh (never
    handed out before), and part neither of the kernel's page table nor of the
    guest's: the guest can reach nothing but the pages given to it. *)
Theorem guest_memory_isolated s Tk lo hi :
  paging_inv s Tk -> (forall a, 0 <= a < INITIAL_VA_CEILING -> pa s a = a) ->
  0 <= lo <= hi -> lo mod PAGE_SIZE_4K = 0 -> hi < VA_LIMIT - PAGE_SIZE_4K ->
  ept_room (4 * Z.of_nat (ept_pages lo hi) + 1) s ->
  exists base s' Te hs,
    setup_basic_physical_memory lo hi s = Ret (base, s') /\ ept_inv s' base Tk Te /\
    length hs = ept_pages lo hi /\ NoDup hs /\
    Forall (fun h => h mod PAGE_SIZE_4K = 0 /\ next_page s < h /\ Te !! h = None /\
      forall b, h <= b < h + PAGE_SIZE_4K -> rd8 (k_mem s') b = 0) hs /\
    forall g, 0 <= g < VA_LIMIT ->
      match (if lo <=? g then hs !! Z.to_nat ((g - lo) / PAGE_SIZE_4K) else None) with
      | Some h => guestpa_to_hostpa s' base g = h + g mod PAGE_SIZE_4K
      | None => guest_page (k_mem s') base g = None
      end.
Proof.
  intros Hk Hid Hlo Hal Hhi Hr. rewrite <- (Z.add_0_r (4 * _)) in Hr.
  destruct (setup_basic_run s Tk lo hi 0 Hk Hid Hlo Hal Hhi ltac:(lia) Hr) as (s' & Te & hs & Hrun & Hlen & Hgm' & _ & _ & _).
  exists (next_page s), s', Te, hs. split; [exact Hrun|].
  split; [apply Hgm'|]. split; [exact Hlen|]. split; [|split].
  - apply NoDup_alt. intros i j h Hi Hj.
    destruct (Nat.lt_trichotomy i j) as [H|[H|H]]; [|exact H|].
    + pose proof (gm_sorted _ _ _ _ _ _ _ Hgm' _ _ _ _ H Hi Hj). lia.
    + pose proof (gm_sorted _ _ _ _ _ _ _ Hgm' _ _ _ _ H Hj Hi). lia.
  - apply Forall_lookup. intros i h Hh.
    destruct (gm_page _ _ _ _ _ _ _ Hgm' _ _ Hh) as (A & B & C & D & F & Z0).
    split_and!; [exact A|unfold_consts; lia|exact D|exact Z0].
  - intros g Hg. pose proof (gm_map _ _ _ _ _ _ _ Hgm' g Hg) as Hm.
    destruct (Z.leb_spec lo g) as [Hlg|Hlg]; cbn [andb] in Hm; [|exact Hm].
    destruct (hs !! Z.to_nat ((g - lo) / PAGE_SIZE_4K)) as [h|] eqn:Eh.
    + apply lookup_lt_Some in Eh as Hlt.
      apply (guest_memory_translate _ _ _ _ _ _ _ _ _ Hgm'); [lia|exact Hal|exact Hg| |exact Eh].
      clear - Hlt Hlg. unfold_consts. zdiv.
    + by case_match.
Qed.

(** A device page: after [setup_io_memory] on a page with no accessible entry
    the call returns, an access to the page reaches no memory (its entry grants
    write without read, the misconfiguration that exits to the monitor), the
    translation of the page is the error value, and no other guest page has
    changed. *)
Theorem setup_io_memory_traps s base Tk Te page :
  ept_inv s base Tk Te -> ept_room 3 s -> 0 <= page < VA_LIMIT ->
  guest_page (k_mem s) base page = None ->
  exists s' Te', setup_io_memory base page s = Ret (tt, s') /\ ept_inv s' base Tk Te' /\
    forall g, 0 <= g < VA_LIMIT ->
      if decide (same_page PAGE_SIZE_4K g page) then
        guest_page (k_mem s') base g = Some io_entry /\
        truthy (get_bits io_entry read_access) = false /\
        truthy (get_bits io_entry write_access) = true /\
        guestpa_to_hostpa s' base g = u64 (-1)
      else guest_page (k_mem s') base g = guest_page (k_mem s) base g.
Proof.
  intros Hi Hr Hg Hno. unfold setup_io_memory.
  destruct (map_ept_page_run s base Tk Te page 0x0 PAGE_SYSTEM_IOMEMORY 3 Hi Hr ltac:(lia) Hg
              ltac:(by right)) as (rc & s' & Te' & Hrun & Hi' & _ & _ & _ & _ & H).
  destruct H as [(_ & Hbad & _)|(-> & _ & Hpg)]; [exfalso; exact (Hbad Hno)|].
  exists s', Te'. split; [by run_with Hrun|]. split; [exact Hi'|].
  intros g Hgr. specialize (Hpg g Hgr). case_decide; [|exact Hpg].
  split; [exact Hpg|]. split; [reflexivity|]. split; [reflexivity|].
  rewrite guestpa_walk by exact Hgr. unfold guest_page in Hpg.
  destruct (epte (k_mem s') base g) as [w|]; [|reflexivity]. destruct (accessible w); [|discriminate].
  injection Hpg as ->. reflexivity.
Qed.

(** An address whose last-level entry was never written, in a table that
    exists: [guestpa_to_hostpa] tests [!read && write] where the upper levels test
    [!read && !write], so it answers the page offset (host page 0) instead of the
    error value. Here the guest has two pages and [0x5123] is not one of them. *)
Theorem guestpa_to_hostpa_unmapped_leaf :
  observe (fun s => (guest_page (k_mem s) 0x605000 0x5123, guestpa_to_hostpa s 0x605000 0x5123))
    ((paging_init ;;; setup_basic_physical_memory 0 0x1000) sample_kernel) =
  Some (0x605000, (None, 0x123)).
Proof. vm_compute. reflexivity. Qed.

(** A booted kernel: what [paging_init] leaves of [sample_kernel]. *)
Lemma sample_boot : exists s T, paging_init sample_kernel = Ret (tt, s) /\ paging_inv s T /\
  (forall a, 0 <= a < INITIAL_VA_CEILING -> pa s a = a) /\
  k_phys s = sample_phys <| current_avail_page := 0x605000 |>.
Proof.
  destruct (paging_init_run sample_kernel) as (s & T & Hr & Hi & _ & Hn & Hp & _ & _ & _ & Hpa).
  - by_compute.
  - by_compute.
  - by_compute.
  - exists s, T. split; [exact Hr|]. split; [exact Hi|]. split; [|exact Hp].
    intros a Ha. rewrite Hpa by (unfold VA_LIMIT, INITIAL_VA_CEILING in *; lia).
    by destruct (Z.ltb_spec a INITIAL_VA_CEILING); [|lia].
Qed.

Lemma guest_memory_isolated_witness :
  exists s0 base s (hs : list Z), setup_basic_physical_memory 0 0x1000 s0 = Ret (base, s) /\
    length hs = 2%nat /\ NoDup hs /\ guest_page (k_mem s) base 0x2000 = None.
Proof.
  destruct sample_boot as (s0 & T & _ & Hi & Hid & Hp).
  destruct (guest_memory_isolated s0 T 0 0x1000) as (base & s & Te & hs & Hr & _ & Hl & Hnd & _ & Hg).
  - exact Hi.
  - exact Hid.
  - lia.
  - reflexivity.
  - unfold VA_LIMIT, PAGE_SIZE_4K. lia.
  - unfold ept_room. rewrite Hp. by_compute.
  - exists s0, base, s, hs. split; [exact Hr|]. split; [rewrite Hl; reflexivity|]. split; [exact Hnd|].
    specialize (Hg 0x2000 ltac:(unfold VA_LIMIT; lia)). rewrite lookup_ge_None_2 in Hg; [exact Hg|].
    rewrite Hl. vm_compute. lia.
Defined.

Lemma setup_io_memory_traps_witness :
  exists s base s', setup_io_memory base 0x2000 s = Ret (tt, s') /\
    guestpa_to_hostpa s' base 0x2004 = u64 (-1).
Proof.
  destruct sample_boot as (s0 & T & _ & Hi & Hid & Hp).
  destruct (guest_memory_start s0 T 10 0 Hi Hid) as [Hinv _ _ _ Hmap].
  { unfold ept_room. rewrite Hp. by_compute. }
  { lia. }
  destruct (setup_io_memory_traps _ _ T _ 0x2000 Hinv) as (s' & Te' & Hr & _ & Hg).
  - unfold ept_room, bump. cbn [k_phys]. unfold next_page. rewrite Hp. by_compute.
  - unfold VA_LIMIT. lia.
  - rewrite Hmap by (unfold VA_LIMIT; lia). by case_match.
  - do 3 eexists. split; [exact Hr|].
    specialize (Hg 0x2004 ltac:(unfold VA_LIMIT; lia)). rewrite decide_True in Hg by reflexivity. apply Hg.
Defined.
