(* ===== verification/Ring.v ===== *)
(** * Ring: [lib64/include/ring.h], the byte ring used for the guest's keyboard.

    A ring of [ring_size] cells holds at most [ring_size - 1] bytes. The main
    results say that [write_ring] and [read_ring] implement a bounded FIFO queue:
    a write appends as many bytes as fit, a read removes from the front. *)
From Stdlib Require Import ZArith Lia.
From stdpp Require Import base tactics list numbers.
From S2P Require Import Prelude.
Local Open Scope Z_scope.

(** [struct ring]; the flexible array [buffer] is a list of cells. *)
Record ring := Ring { ring_size : Z; front : Z; rear : Z; buffer : list Z }.
#[export] Instance eta_ring : Eta ring := fun r =>
  Ring (ring_size r) (front r) (rear r) (buffer r).

(** C's [%] on [int32_t]: it truncates, and a zero divisor traps. *)
Definition c_rem {S} (a b : Z) : M S Z :=
  if b =? 0 then stop DivideError else ret (Z.rem a b).

(** [buffer[i]]; the cells outside the array are not part of the ring. *)
Definition cell (r : ring) (i : Z) : Z := nth (Z.to_nat i) (buffer r) 0.
Definition set_cell (i v : Z) (r : ring) : ring :=
  r <| buffer := <[Z.to_nat i := u8 v]> (buffer r) |>.

Definition ring_reset : M ring unit :=
  modify (fun r => r <| front := 0 |> <| rear := 0 |>).
Definition ring_empty (r : ring) : bool := front r =? rear r.
Definition ring_full : M ring bool :=
  let! r := gets (fun r => r) in
  let! next := c_rem (s32 (rear r + 1)) (ring_size r) in
  ret (next =? front r).
Definition ring_length : M ring Z :=
  let! r := gets (fun r => r) in
  c_rem (s32 (s32 (rear r + ring_size r) - front r)) (ring_size r).

(** [while (left > 0)]: [left] iterations remain, [src] is [ptr + result]. *)
Fixpoint write_loop (left : nat) (src : list Z) (result : Z) : M ring Z :=
  match left with
  | O => ret result
  | S k =>
      let! full := ring_full in
      if full then ret result else
      modify (fun r => set_cell (rear r) (nth 0 src 0) r) ;;;
      let! r := gets (fun r => r) in
      let! next := c_rem (s32 (rear r + 1)) (ring_size r) in
      modify (fun r => r <| rear := next |>) ;;;
      write_loop k (tail src) (result + 1)
  end.
Definition write_ring (src : list Z) (size : Z) : M ring Z :=
  write_loop (Z.to_nat size) src 0.

(** The bytes stored through [ptr] and the count. *)
Fixpoint read_loop (left : nat) (dst : list Z) (result : Z) : M ring (list Z * Z) :=
  match left with
  | O => ret (dst, result)
  | S k =>
      let! r := gets (fun r => r) in
      if ring_empty r then ret (dst, result) else
      let! next := c_rem (s32 (front r + 1)) (ring_size r) in
      modify (fun r => r <| front := next |>) ;;;
      read_loop k (dst ++ [cell r (front r)]) (result + 1)
  end.
Definition read_ring (size : Z) : M ring (list Z * Z) := read_loop (Z.to_nat size) [] 0.

Definition ring_enqueue (value : Z) : M ring Z := write_ring [value] 1.
Definition ring_dequeue : M ring (list Z * Z) := read_ring 1.
Definition ring_peek (r : ring) : Z := u8 (cell r (front r)).

(** ** The queue a ring stands for *)
Record ring_ok (r : ring) : Prop := {
  ro_size : 0 < ring_size r < 2 ^ 30;
  ro_front : 0 <= front r < ring_size r;
  ro_rear : 0 <= rear r < ring_size r;
  ro_buffer : length (buffer r) = Z.to_nat (ring_size r);
  ro_bytes : Forall (fun v => 0 <= v < 256) (buffer r) }.

Definition count (r : ring) : Z := (rear r - front r) mod ring_size r.
Definition queue (r : ring) : list Z :=
  map (fun i => cell r ((front r + Z.of_nat i) mod ring_size r)) (seq 0 (Z.to_nat (count r))).
Definition capacity (r : ring) : nat := Z.to_nat (ring_size r - 1).

(** Reduction of a sum or difference of two indices. *)
Lemma mod_once a n : - n <= a < 2 * n ->
  a mod n = if a <? 0 then a + n else if a <? n then a else a - n.
Proof.
  intros Ha. destruct (Z.ltb_spec a 0); [|destruct (Z.ltb_spec a n)].
  - rewrite <- (Z.mod_add a 1) by lia. rewrite Z.mod_small; lia.
  - apply Z.mod_small. lia.
  - rewrite <- (Z.mod_add a (-1)) by lia. rewrite Z.mod_small; lia.
Qed.

Ltac mods := rewrite ?mod_once by lia;
  repeat match goal with
  | |- context [?a <? ?b] => destruct (Z.ltb_spec a b)
  | H : context [?a <? ?b] |- _ => destruct (Z.ltb_spec a b)
  end; try lia.

Lemma count_range r : ring_ok r -> 0 <= count r < ring_size r.
Proof. intros []. apply Z.mod_pos_bound. lia. Qed.

Lemma count_cases r : ring_ok r ->
  count r = if rear r <? front r then rear r - front r + ring_size r else rear r - front r.
Proof.
  intros []. unfold count. mods.
Qed.

Lemma length_queue r : length (queue r) = Z.to_nat (count r).
Proof. unfold queue. by rewrite length_map, length_seq. Qed.

Lemma cell_byte r i : ring_ok r -> 0 <= cell r i < 256.
Proof.
  intros []. unfold cell. rewrite nth_lookup. destruct (buffer r !! Z.to_nat i) as [v|] eqn:E; [|cbn; lia].
  rewrite Forall_lookup in ro_bytes0. by apply (ro_bytes0 _ _ E).
Qed.

Lemma queue_bytes r : ring_ok r -> Forall (fun v => 0 <= v < 256) (queue r).
Proof.
  intros Hok. unfold queue. apply List.Forall_map, List.Forall_forall. intros i _. by apply cell_byte.
Qed.

Lemma c_rem_ok {S} a b (s : S) : 0 <= a < 2 ^ 31 -> 0 < b -> c_rem a b s = Ret (a mod b, s).
Proof.
  intros Ha Hb. unfold c_rem. destruct (Z.eqb_spec b 0); [lia|].
  rewrite Z.rem_mod_nonneg by lia. done.
Qed.

Lemma ring_full_run r : ring_ok r ->
  ring_full r = Ret (bool_decide (count r = ring_size r - 1), r).
Proof.
  intros []. unfold ring_full. mstep. rewrite s32_small by lia.
  rewrite c_rem_ok by lia. do 2 f_equal. unfold count.
  apply eq_bool_prop_intro. rewrite bool_decide_spec, Is_true_true, Z.eqb_eq. mods.
Qed.

Lemma ring_length_run r : ring_ok r -> ring_length r = Ret (Z.of_nat (length (queue r)), r).
Proof.
  intros Hok. pose proof (count_range r Hok). destruct Hok. unfold ring_length. mstep.
  rewrite (s32_small (rear r + ring_size r)), s32_small, c_rem_ok by lia.
  rewrite length_queue, Z2Nat.id by lia. do 2 f_equal. unfold count.
  replace (rear r + ring_size r - front r) with (rear r - front r + 1 * ring_size r) by lia.
  apply Z.mod_add. lia.
Qed.

Lemma ring_empty_spec r : ring_ok r -> ring_empty r = bool_decide (queue r = []).
Proof.
  intros Hok. pose proof (count_range r Hok). destruct Hok. unfold ring_empty.
  apply eq_bool_prop_intro. rewrite bool_decide_spec, Is_true_true, Z.eqb_eq.
  rewrite <- length_zero_iff_nil, length_queue. unfold count in *. revert H. mods.
Qed.

(** ** One byte in, one byte out *)
Lemma cell_set i j v r : 0 <= i -> 0 <= j < Z.of_nat (length (buffer r)) -> 0 <= v < 256 ->
  cell (set_cell j v r) i = if decide (i = j) then v else cell r i.
Proof.
  intros Hi Hj Hv. unfold cell, set_cell. cbv [update]. cbn [buffer].
  rewrite !nth_lookup, list_lookup_insert, u8_small by done.
  repeat case_decide; try lia; done.
Qed.

Definition put_rear (r : ring) (v : Z) : ring :=
  (set_cell (rear r) v r) <| rear := (rear r + 1) mod ring_size r |>.
Definition drop_front (r : ring) : ring :=
  r <| front := (front r + 1) mod ring_size r |>.

Lemma put_front r v : front (put_rear r v) = front r.
Proof. reflexivity. Qed.
Lemma put_size r v : ring_size (put_rear r v) = ring_size r.
Proof. reflexivity. Qed.
Lemma put_cell r v i : cell (put_rear r v) i = cell (set_cell (rear r) v r) i.
Proof. reflexivity. Qed.

Lemma put_rear_ok r v : ring_ok r -> 0 <= v < 256 -> ring_ok (put_rear r v).
Proof.
  intros [] Hv. split; unfold put_rear, set_cell; cbv [update]; cbn [ring_size front rear buffer]; try done.
  - apply Z.mod_pos_bound. lia.
  - by rewrite length_insert.
  - apply Forall_insert; [done|]. by rewrite u8_small.
Qed.

Lemma drop_front_ok r : ring_ok r -> ring_ok (drop_front r).
Proof.
  intros []. split; unfold drop_front; cbv [update]; cbn [ring_size front rear buffer]; try done.
  apply Z.mod_pos_bound. lia.
Qed.

Lemma queue_put r v : ring_ok r -> 0 <= v < 256 -> count r <> ring_size r - 1 ->
  queue (put_rear r v) = queue r ++ [v].
Proof.
  intros Hok Hv Hne. pose proof (count_range r Hok) as Hc. pose proof (count_cases r Hok) as Hcc.
  destruct Hok.
  assert (Hc' : count (put_rear r v) = count r + 1).
  { unfold count, put_rear, set_cell in *. cbv [update]. cbn [ring_size front rear].
    rewrite Zminus_mod_idemp_l. replace (rear r + 1 - front r) with (rear r - front r + 1) by lia.
    rewrite <- Z.add_mod_idemp_l, Z.mod_small; lia. }
  unfold queue at 1. rewrite Hc', Z2Nat.inj_add, seq_app, map_app by lia. change (Z.to_nat 1) with 1%nat. cbn [map seq]. f_equal; [|f_equal].
  - apply map_ext_in. intros i [_ Hi]%in_seq.
    rewrite put_front, put_size, put_cell.
    rewrite cell_set; [|apply Z.mod_pos_bound; lia|lia|done]. rewrite decide_False; [done|].
    rewrite mod_once by lia. clear Hc'. mods.
  - rewrite put_front, put_size, put_cell.
    rewrite cell_set; [|apply Z.mod_pos_bound; lia|lia|done]. rewrite decide_True; [done|].
    cbn [Nat.add]. rewrite Z2Nat.id, mod_once by lia. clear Hc'. mods.
Qed.

Lemma queue_drop r : ring_ok r -> queue r <> [] ->
  queue r = cell r (front r) :: queue (drop_front r).
Proof.
  intros Hok Hne. pose proof (count_range r Hok) as Hc. destruct Hok.
  assert (H0 : count r <> 0).
  { intros E. apply Hne. unfold queue. by rewrite E. }
  assert (Hc' : count (drop_front r) = count r - 1).
  { unfold count, drop_front in *. cbv [update]. cbn [ring_size front rear].
    rewrite Zminus_mod_idemp_r. replace (rear r - (front r + 1)) with (rear r - front r + -1) by lia.
    rewrite <- Z.add_mod_idemp_l, Z.mod_small; lia. }
  unfold queue at 1. replace (Z.to_nat (count r)) with (S (Z.to_nat (count (drop_front r)))) by lia.
  cbn [seq map]. f_equal; [by rewrite Z.add_0_r, Z.mod_small|].
  unfold queue. rewrite <- seq_shift, map_map. apply map_ext_in. intros i [_ Hi]%in_seq.
  unfold drop_front. cbv [update cell]. cbn [ring_size front buffer]. do 2 f_equal.
  rewrite Z.add_mod_idemp_l by lia. f_equal. lia.
Qed.

(** ** The loops *)
Lemma write_loop_run left : forall src n r, ring_ok r -> (left <= length src)%nat ->
  Forall (fun v => 0 <= v < 256) src ->
  exists r', write_loop left src n r =
      Ret (n + Z.of_nat (Nat.min left (capacity r - length (queue r))), r') /\ ring_ok r' /\
    ring_size r' = ring_size r /\
    queue r' = queue r ++ take (Nat.min left (capacity r - length (queue r))) src.
Proof.
  induction left as [|left IH]; intros src n r Hok Hlen Hsrc; cbn [write_loop].
  { exists r. rewrite Z.add_0_r, take_0, app_nil_r. done. }
  pose proof (count_range r Hok) as Hc. pose proof (length_queue r) as Hlq.
  pose proof (ro_size r Hok) as Hsz. pose proof (ro_rear r Hok) as Hrr.
  rewrite (bind_run _ _ _ _ _ (ring_full_run r Hok)). case_bool_decide as Hfull.
  { exists r. unfold capacity. replace (Nat.min _ _) with 0%nat by lia.
    rewrite Z.add_0_r, take_0, app_nil_r. done. }
  destruct src as [|v src]; [cbn in Hlen; lia|]. apply Forall_cons_1 in Hsrc as [Hv Hsrc].
  pose proof (put_rear_ok r v Hok Hv) as Hok'. pose proof (queue_put r v Hok Hv Hfull) as Hq.
  destruct (IH src (n + 1) (put_rear r v) Hok' ltac:(cbn in Hlen; lia) Hsrc)
    as (r' & Hrun & Hr' & Hs' & Hq'). rewrite Hq, length_app in Hrun, Hq'. cbn [length] in Hrun, Hq'.
  change (capacity (put_rear r v)) with (capacity r) in *.
  exists r'. rewrite Hq', Hs', <- app_assoc. split; [|split; [done|split; [done|]]].
  - unfold bind at 1. unfold modify at 1. unfold bind at 1. unfold gets at 1.
    cbn [nth tail]. change (rear (set_cell _ _ _)) with (rear r).
    change (ring_size (set_cell _ _ _)) with (ring_size r).
    rewrite s32_small by lia. unfold bind at 1. rewrite c_rem_ok by lia.
    unfold bind at 1. unfold modify at 1. fold (put_rear r v). rewrite Hrun. do 2 f_equal.
    unfold capacity in *. lia.
  - f_equal. unfold capacity. replace (Nat.min (S left) _)
      with (S (Nat.min left (Z.to_nat (ring_size r - 1) - (length (queue r) + 1)))) by lia. done.
Qed.

Lemma read_loop_run left : forall dst n r, ring_ok r ->
  exists r', read_loop left dst n r =
      Ret ((dst ++ take left (queue r), n + Z.of_nat (Nat.min left (length (queue r)))), r') /\
    ring_ok r' /\ ring_size r' = ring_size r /\ queue r' = drop left (queue r).
Proof.
  induction left as [|left IH]; intros dst n r Hok; cbn [read_loop].
  { exists r. rewrite take_0, app_nil_r, Z.add_0_r. done. }
  pose proof (ro_size r Hok) as Hsz. pose proof (ro_front r Hok) as Hff.
  unfold bind at 1. unfold gets at 1. rewrite ring_empty_spec by done.
  case_bool_decide as Hq.
  { exists r. rewrite Hq, take_nil, drop_nil, app_nil_r, Nat.min_0_r, Z.add_0_r. done. }
  rewrite s32_small by lia. unfold bind at 1. rewrite c_rem_ok by lia.
  unfold bind at 1. unfold modify at 1. fold (drop_front r).
  destruct (IH (dst ++ [cell r (front r)]) (n + 1) (drop_front r) (drop_front_ok r Hok))
    as (r' & Hrun & Hr' & Hs' & Hq'). exists r'.
  rewrite (queue_drop r Hok Hq). cbn [length take drop Nat.min].
  rewrite Hrun, <- app_assoc. split; [do 2 f_equal; f_equal; lia|done].
Qed.

(** ** Properties *)

(** C37 A ring is a bounded FIFO queue of bytes, writing side: from a well-formed
    ring [write_ring] always completes, appends the longest prefix of the first
    [size] bytes that fits and answers its length; the ring stays well formed and
    keeps its capacity [ring_size - 1]. *)
Theorem write_ring_appends (src : list Z) (size : Z) (r : ring) :
  ring_ok r -> 0 <= size <= Z.of_nat (length src) -> Forall (fun v => 0 <= v < 256) src ->
  exists n r', write_ring src size r = Ret (Z.of_nat n, r') /\ ring_ok r' /\
    ring_size r' = ring_size r /\ queue r' = queue r ++ take n src /\
    n = Nat.min (Z.to_nat size) (capacity r - length (queue r)).
Proof.
  intros Hok Hsize Hsrc.
  destruct (write_loop_run (Z.to_nat size) src 0 r Hok ltac:(lia) Hsrc) as (r' & Hr & ?).
  eexists _, r'. split; [exact Hr|]. destruct H as (? & ? & ?). done.
Qed.

Definition sample_ring : ring := Ring 4 3 0 [7; 0; 0; 9].

Lemma write_ring_appends_witness :
  exists r', write_ring [1; 2; 3] 3 sample_ring = Ret (2, r') /\ queue r' = [9; 1; 2].
Proof.
  destruct (write_ring_appends [1; 2; 3] 3 sample_ring) as (n & r' & Hr & _ & _ & Hq & ->).
  - split; cbn; try lia. repeat constructor; lia.
  - cbn. lia.
  - repeat constructor; lia.
  - exists r'. split; [exact Hr|]. rewrite Hq. reflexivity.
Defined.

(** Reading side: [read_ring] always completes, delivers the oldest [size]
    bytes (or all there are) in order, removes exactly those and answers their
    number; [ring_length] and [ring_empty] report the queue's length. *)
Theorem read_ring_takes (size : Z) (r : ring) :
  ring_ok r -> 0 <= size ->
  let n := Z.to_nat size in
  ring_length r = Ret (Z.of_nat (length (queue r)), r) /\
  ring_empty r = bool_decide (queue r = []) /\
  exists r', read_ring size r =
      Ret ((take n (queue r), Z.of_nat (Nat.min n (length (queue r)))), r') /\
    ring_ok r' /\ ring_size r' = ring_size r /\ queue r' = drop n (queue r).
Proof.
  intros Hok Hsize n. split; [by apply ring_length_run|]. split; [by apply ring_empty_spec|].
  destruct (read_loop_run n [] 0 r Hok) as (r' & Hr & ?). by exists r'.
Qed.

Lemma read_ring_takes_witness :
  exists r', read_ring 2 (Ring 4 3 1 [7; 0; 0; 9]) = Ret (([9; 7], 2), r') /\ queue r' = [].
Proof.
  destruct (read_ring_takes 2 (Ring 4 3 1 [7; 0; 0; 9])) as (_ & _ & r' & Hr & _ & _ & Hq).
  - split; cbn; try lia. repeat constructor; lia.
  - lia.
  - exists r'. split; [exact Hr|]. rewrite Hq. reflexivity.
Defined.
