(* ===== verification/SortSearch.v ===== *)
(** * SortSearch: the macros [SORT] and [SEARCH] of [lib64/include/sort.h] and
    [search.h].

    The monitor keeps its port and MMIO tables sorted with the first and looks
    handlers up with the second. The comparison may itself halt (the MMIO one
    asserts that regions are well formed), so it answers an [outcome]. *)
From Stdlib Require Import ZArith Lia Permutation.
From stdpp Require Import base tactics list numbers sorting.
From S2P Require Import Prelude.
Local Open Scope Z_scope.

Section Macros.
Context {A : Type} `{Inhabited A} (comp : A -> A -> outcome Z).

(** One comparison of neighbours; the swap goes through [tmp_elem]. *)
Definition sort_step (idx_in : nat) : M (list A) unit :=
  let! base := gets (fun a => a) in
  let prev_elem := base !!! idx_in in
  let next_elem := base !!! S idx_in in
  let! c := lift (comp prev_elem next_elem) in
  if 0 <? c then
    let tmp_elem := prev_elem in
    modify (fun a => <[idx_in := next_elem]> a) ;;;
    modify (fun a => <[S idx_in := tmp_elem]> a)
  else ret tt.

(** [n] iterations of the inner loop, from [idx_in]. *)
Fixpoint sort_inner (n idx_in : nat) : M (list A) unit :=
  match n with
  | O => ret tt
  | S k => sort_step idx_in ;;; sort_inner k (S idx_in)
  end.

Fixpoint sort_outer (idx_out : nat) : M (list A) unit :=
  match idx_out with
  | O => ret tt
  | S k => sort_inner (S k) 0 ;;; sort_outer k
  end.

Definition SORT (num : Z) : M (list A) unit := sort_outer (Z.to_nat (num - 1)).

(** The index of the element found; [fuel] bounds the halvings. *)
Fixpoint search_loop (fuel : nat) (target : A) (idx_low idx_high : Z) (base : list A)
    : outcome (option Z) :=
  if idx_low <=? idx_high then
    match fuel with
    | O => Stop OutOfFuel
    | S k =>
        match comp target (base !!! Z.to_nat idx_low) with
        | Stop f => Stop f
        | Ret c =>
            if c =? 0 then Ret (Some idx_low) else
            match comp target (base !!! Z.to_nat idx_high) with
            | Stop f => Stop f
            | Ret c =>
                if c =? 0 then Ret (Some idx_high) else
                let idx_mid := Z.quot (idx_low + idx_high) 2 in
                if (idx_mid =? idx_low) || (idx_mid =? idx_high) then Ret None else
                match comp target (base !!! Z.to_nat idx_mid) with
                | Stop f => Stop f
                | Ret c =>
                    if c <? 0 then search_loop k target idx_low idx_mid base
                    else search_loop k target idx_mid idx_high base
                end
            end
        end
    end
  else Ret None.

Definition SEARCH (num : Z) (target : A) (base : list A) : outcome (option Z) :=
  search_loop (Z.to_nat num) target 0 (num - 1) base.

(** ** Sorting *)
Section Sort.
(** On the elements at hand the comparison answers, and it is a total preorder. *)
Context (c : A -> A -> Z) (P : A -> Prop).
Hypothesis comp_ret : forall x y, P x -> P y -> comp x y = Ret (c x y).
Hypothesis c_trans : forall x y z, P x -> P y -> P z -> c x y <= 0 -> c y z <= 0 -> c x z <= 0.
Hypothesis c_total : forall x y, P x -> P y -> 0 < c x y -> c y x <= 0.

Definition below (x y : A) : Prop := c x y <= 0.

(** What one pass of the inner loop does to a list. *)
Fixpoint pass (x : A) (l : list A) : list A :=
  match l with
  | [] => [x]
  | y :: ys => if 0 <? c x y then y :: pass x ys else x :: pass y ys
  end.

Lemma pass_perm x l : pass x l ≡ₚ x :: l.
Proof.
  revert x. induction l as [|y ys IH]; intros x; cbn [pass]; [done|].
  destruct (0 <? c x y); rewrite IH; [|done]. apply Permutation_swap.
Qed.

Lemma length_pass x l : length (pass x l) = S (length l).
Proof. by rewrite pass_perm. Qed.

Lemma pass_max x l : P x -> Forall P l -> exists l' m, pass x l = l' ++ [m] /\ P m /\
  Forall (fun y => below y m) l' /\ below x m.
Proof.
  revert x. induction l as [|y ys IH]; intros x Hx Hl; cbn [pass].
  - exists [], x. split; [done|]. split; [done|]. split; [done|].
    unfold below. destruct (Z.lt_ge_cases 0 (c x x)); [by apply c_total|lia].
  - apply Forall_cons_1 in Hl as [Hy Hys]. destruct (Z.ltb_spec 0 (c x y)) as [Hxy|Hxy].
    + destruct (IH x Hx Hys) as (l' & m & -> & Hm & Hl' & Hxm). exists (y :: l'), m.
      split_and!; try done. constructor; [|done].
      apply (c_trans y x m); try done. by apply c_total.
    + destruct (IH y Hy Hys) as (l' & m & -> & Hm & Hl' & Hym). exists (x :: l'), m.
      split_and!; try done; [constructor; [|done]|]; by apply (c_trans x y m).
Qed.

Lemma sort_step_run p x y r : P x -> P y ->
  sort_step (length p) (p ++ x :: y :: r) =
  Ret (tt, if 0 <? c x y then p ++ y :: x :: r else p ++ x :: y :: r).
Proof.
  intros Hx Hy. unfold sort_step. cbv [bind gets lift].
  rewrite list_lookup_total_middle by done.
  rewrite lookup_total_app_r by lia. replace (S (length p) - length p)%nat with 1%nat by lia.
  cbn [lookup_total list_lookup_total]. rewrite comp_ret by done.
  destruct (0 <? c x y); [|done]. cbv [modify]. do 2 f_equal.
  rewrite insert_app_r_alt, Nat.sub_diag by lia. cbn [insert list_insert].
  rewrite insert_app_r_alt by lia. replace (S (length p) - length p)%nat with 1%nat by lia. done.
Qed.

Lemma sort_inner_run l : forall p x r, P x -> Forall P l ->
  sort_inner (length l) (length p) (p ++ x :: l ++ r) = Ret (tt, p ++ pass x l ++ r).
Proof.
  induction l as [|y ys IH]; intros p x r Hx Hl; cbn [length sort_inner pass]; [done|].
  apply Forall_cons_1 in Hl as [Hy Hys].
  rewrite (bind_run _ _ _ _ _ (sort_step_run p x y (ys ++ r) Hx Hy)).
  destruct (0 <? c x y).
  - specialize (IH (p ++ [y]) x r Hx Hys). rewrite length_app, <- !app_assoc in IH.
    cbn [length app] in IH. rewrite Nat.add_1_r in IH. exact IH.
  - specialize (IH (p ++ [x]) y r Hy Hys). rewrite length_app, <- !app_assoc in IH.
    cbn [length app] in IH. rewrite Nat.add_1_r in IH. exact IH.
Qed.

Lemma sort_outer_run n : forall l s r, length l = S n -> Forall P l -> Forall P s ->
  StronglySorted below s -> Forall (fun x => Forall (below x) s) l ->
  exists t, sort_outer n (l ++ s ++ r) = Ret (tt, t ++ r) /\ t ≡ₚ l ++ s /\ StronglySorted below t.
Proof.
  induction n as [|n IH]; intros l s r Hlen Hl Hs Hss Hls; destruct l as [|x l]; try discriminate Hlen;
    cbn [length] in Hlen; injection Hlen as Hlen; cbn [sort_outer].
  - destruct l; [|discriminate Hlen]. exists (x :: s). split; [done|]. split; [done|].
    constructor; [done|]. by apply Forall_cons_1 in Hls as [? _].
  - apply Forall_cons_1 in Hl as [Hx Hl].
    pose proof (sort_inner_run l [] x (s ++ r) Hx Hl) as Hrun. cbn [app length] in Hrun.
    rewrite Hlen in Hrun. cbn [app]. rewrite (bind_run _ _ _ _ _ Hrun).
    destruct (pass_max x l Hx Hl) as (l' & m & E & Hm & Hmax & _).
    pose proof (pass_perm x l) as Hp. rewrite E in Hp |- *. rewrite <- app_assoc. cbn [app].
    assert (Hlen' : length l' = S n).
    { apply (f_equal length) in E. rewrite length_pass, length_app in E. cbn in E. lia. }
    assert (HP : Forall P (l' ++ [m])) by (rewrite Hp; by constructor).
    assert (HB : Forall (fun y => Forall (below y) s) (l' ++ [m])) by (by rewrite Hp).
    apply Forall_app in HP as [HP _]. apply Forall_app in HB as [HB HBm].
    apply Forall_cons_1 in HBm as [HBm _].
    destruct (IH l' (m :: s) r Hlen' HP) as (t & Hrun' & Hperm & Hsort).
    + by constructor.
    + by constructor.
    + apply Forall_forall. intros y Hy. constructor; [|by apply (proj1 (Forall_forall _ _) HB)].
      by apply (proj1 (Forall_forall _ _) Hmax).
    + exists t. split; [exact Hrun'|]. split; [|done]. rewrite Hperm.
      transitivity ((l' ++ [m]) ++ s); [by rewrite <- app_assoc|]. by rewrite Hp.
Qed.

Lemma SORT_run l r : Forall P l ->
  exists t, SORT (Z.of_nat (length l)) (l ++ r) = Ret (tt, t ++ r) /\ t ≡ₚ l /\ StronglySorted below t.
Proof.
  intros Hl. unfold SORT. destruct l as [|x l].
  - exists []. split; [done|]. split; [done|constructor].
  - replace (Z.to_nat (Z.of_nat (length (x :: l)) - 1)) with (length l) by (cbn [length]; lia).
    destruct (sort_outer_run (length l) (x :: l) [] r eq_refl Hl) as (t & Hr & Hp & Hs).
    + constructor.
    + constructor.
    + apply Forall_forall. constructor.
    + exists t. cbn [app] in Hr. rewrite app_nil_r in Hp. done.
Qed.
End Sort.

(** ** Searching *)
Section Search.
(** The comparison with the target along the first [n] cells: it answers, and
    its sign falls from left to right. *)
Context (target : A) (base : list A) (n : Z) (c : Z -> Z).
Hypothesis c_ret : forall i, 0 <= i < n -> comp target (base !!! Z.to_nat i) = Ret (c i).
Hypothesis c_falls : forall i j, 0 <= i < j -> j < n ->
  (c i < 0 -> c j < 0) /\ (0 < c j -> 0 < c i).

Lemma search_loop_run fuel : forall low high, 0 <= low -> high < n ->
  high - low < Z.of_nat fuel ->
  exists r, search_loop fuel target low high base = Ret r /\
    match r with
    | Some i => low <= i <= high /\ c i = 0
    | None => forall i, low <= i <= high -> c i <> 0
    end.
Proof.
  induction fuel as [|fuel IH]; intros low high Hlow Hhigh Hf; cbn [search_loop];
    destruct (Z.leb_spec low high) as [Hle|Hgt]; try lia;
    try (exists None; split; [done|intros; lia]).
  rewrite c_ret by lia. destruct (Z.eqb_spec (c low) 0) as [H0|H0].
  { exists (Some low). split; [done|]. split; [lia|done]. }
  rewrite c_ret by lia. destruct (Z.eqb_spec (c high) 0) as [H1|H1].
  { exists (Some high). split; [done|]. split; [lia|done]. }
  rewrite Z.quot_div_nonneg by lia. set (mid := (low + high) / 2).
  assert (Hmid : low <= mid <= high) by (unfold mid; zdiv).
  destruct (Z.eqb_spec mid low) as [E|E]; [|destruct (Z.eqb_spec mid high) as [E'|E']]; cbn [orb].
  1,2: exists None; split; [done|]; intros i Hi; assert (i = low \/ i = high) as [-> | ->]
         by (unfold mid in *; zdiv); done.
  rewrite c_ret by lia. destruct (Z.ltb_spec (c mid) 0) as [Hc|Hc].
  - destruct (IH low mid ltac:(lia) ltac:(lia) ltac:(lia)) as ([i|] & -> & Hr).
    + exists (Some i). split; [done|]. split; [lia|apply Hr].
    + exists None. split; [done|]. intros i Hi. destruct (Z.le_gt_cases i mid); [apply Hr; lia|].
      pose proof (proj1 (c_falls mid i ltac:(lia) ltac:(lia)) Hc). lia.
  - destruct (IH mid high ltac:(lia) ltac:(lia) ltac:(lia)) as ([i|] & -> & Hr).
    + exists (Some i). split; [done|]. split; [lia|apply Hr].
    + exists None. split; [done|]. intros i Hi. destruct (Z.le_gt_cases mid i); [apply Hr; lia|].
      assert (c mid <> 0) by (apply Hr; lia).
      pose proof (proj2 (c_falls i mid ltac:(lia) ltac:(lia)) ltac:(lia)). lia.
Qed.

Lemma SEARCH_run : 0 <= n -> exists r, SEARCH n target base = Ret r /\
  match r with
  | Some i => 0 <= i < n /\ c i = 0
  | None => forall i, 0 <= i < n -> c i <> 0
  end.
Proof.
  intros Hn. unfold SEARCH.
  destruct (search_loop_run (Z.to_nat n) 0 (n - 1) ltac:(lia) ltac:(lia) ltac:(lia))
    as ([i|] & -> & Hr); eexists; (split; [done|]).
  - split; [lia|apply Hr].
  - intros i Hi. apply Hr. lia.
Qed.
End Search.
End Macros.
