(* ===== verification/Vmm.v ===== *)
(** * Vmm: the state of the VM monitor and what every component of it uses:
    the VMCS, the guest's registers, [vmcs_blob] and its devices.

    The hardware the monitor reads (time stamp counter, keyboard port) is a
    pair of input streams of the state; what it emits (the console of a guest,
    interrupt acknowledgements) is recorded. *)
From Stdlib Require Import ZArith Lia.
From stdpp Require Import base tactics list numbers gmap.
From S2P Require Import Prelude Memory Format PhysicalMemory Paging Ring.
Local Open Scope Z_scope.

(** ** VMCS field encodings ([vm_monitor/include/vmx_vmcs.h]) the exit path uses *)
Definition GUEST_CR3 : Z := 0x6802.
Definition GUEST_RSP : Z := 0x681C.
Definition GUEST_RIP : Z := 0x681E.
Definition GUEST_RFLAG : Z := 0x6820.
Definition GUEST_IA32_EFER : Z := 0x2806.
Definition CTLS_PRI_PROC_BASED_VM_EXECUTION : Z := 0x4002.
Definition CTLS_VM_ENTRY : Z := 0x4012.
Definition VMEXIT_REASON : Z := 0x4402.
Definition VMEXIT_QUALIFICATION : Z := 0x6400.
Definition VMEXIT_GUEST_LINEAR_ADDR : Z := 0x640A.
Definition VMEXIT_GUEST_PHYSICAL_ADDR : Z := 0x2400.
Definition VMEXIT_INSTRUCTION_LENGTH : Z := 0x440C.
Definition VMEXIT_INSTRUCTION_INFO : Z := 0x440E.
Definition VMEXIT_INTERRUPT_INFORMATION : Z := 0x4404.
Definition VMEXIT_INTERRUPT_ERROR_CODE : Z := 0x4406.
Definition VMENTRY_INTRRUPTION_INFO : Z := 0x4016.

(** ** The VMCS

    A VMCS is read and written by the instructions [vmread] and [vmwrite]. The
    encoding fixes a field's width (bits 14:13: 16, 64, 32 bits or natural) and
    type (bits 11:10: 1 is read-only exit information); bit 0 selects the high
    half of a 64-bit field. *)
Abbreviation vmcs := (gmap Z Z).

Definition field_width (encoding : Z) : Z :=
  match Z.land (Z.shiftr encoding 13) 3 with
  | 0 => 16
  | 1 => 64
  | 2 => 32
  | _ => 64
  end.
Definition field_high (encoding : Z) : bool := Z.testbit encoding 0.
Definition field_base (encoding : Z) : Z := Z.ldiff encoding 1.
Definition field_readonly (encoding : Z) : bool := Z.land (Z.shiftr encoding 10) 3 =? 1.

Definition vmread (v : vmcs) (encoding : Z) : Z :=
  let w := default 0 (v !! field_base encoding) in
  if field_high encoding then wrap 32 (Z.shiftr w 32) else wrap (field_width encoding) w.
Definition vmwrite (v : vmcs) (encoding value : Z) : vmcs :=
  let w := default 0 (v !! field_base encoding) in
  <[field_base encoding :=
      if field_high encoding then Z.lor (wrap 32 w) (Z.shiftl (wrap 32 value) 32)
      else wrap (field_width encoding) value]> v.

(** ** The guest *)

(** [struct guest_cpu_state]. *)
Record guest_cpu_state := GuestCpu {
  cr2 : Z; r8 : Z; r9 : Z; r10 : Z; r11 : Z; r12 : Z; r13 : Z; r14 : Z; r15 : Z;
  rbp : Z; rdi : Z; rsi : Z; rdx : Z; rcx : Z; rbx : Z; rax : Z }.
#[export] Instance eta_guest_cpu : Eta guest_cpu_state := fun c =>
  GuestCpu (cr2 c) (r8 c) (r9 c) (r10 c) (r11 c) (r12 c) (r13 c) (r14 c) (r15 c)
    (rbp c) (rdi c) (rsi c) (rdx c) (rcx c) (rbx c) (rax c).

(** [struct pic8259_blob]. *)
Definition PIC_INVALID_VECTOR : Z := 0xff.
Record pic8259_blob := Pic {
  master_pic_command : Z; slave_pic_command : Z;
  master_pic_data : Z; slave_pic_data : Z;
  is_master_pic_initializing : Z; is_slave_pic_initializing : Z;
  master_pic_offset : Z; slave_pic_offset : Z;
  interrupt_delivery_pending : Z; interrupt_delivery_vector : Z }.
#[export] Instance eta_pic : Eta pic8259_blob := fun p =>
  Pic (master_pic_command p) (slave_pic_command p) (master_pic_data p) (slave_pic_data p)
    (is_master_pic_initializing p) (is_slave_pic_initializing p)
    (master_pic_offset p) (slave_pic_offset p)
    (interrupt_delivery_pending p) (interrupt_delivery_vector p).

(** [struct pit8253_blob]. *)
Record pit8253_blob := Pit {
  initial_counter : Z; divisor : Z; threshold : Z; last_tsc : Z }.
#[export] Instance eta_pit : Eta pit8253_blob := fun p =>
  Pit (initial_counter p) (divisor p) (threshold p) (last_tsc p).

(** [struct vmcs_region] and [struct vmcs_blob]; [kbd] is the ring in
    [kbd.ring_blob], [cpu_state] the registers [vcpu] points to. *)
Record vmcs_region := Regions {
  guest_region : Z; io_bitmap_region0 : Z; io_bitmap_region1 : Z; virtual_apic_region : Z;
  vm_exit_store_msr_count : Z; vm_exit_load_msr_count : Z;
  vm_exit_store_msr_region : Z; vm_exit_load_msr_region : Z;
  ept_pml4_base : Z; video_buffer : Z }.
#[export] Instance eta_regions : Eta vmcs_region := fun r =>
  Regions (guest_region r) (io_bitmap_region0 r) (io_bitmap_region1 r) (virtual_apic_region r)
    (vm_exit_store_msr_count r) (vm_exit_load_msr_count r)
    (vm_exit_store_msr_region r) (vm_exit_load_msr_region r) (ept_pml4_base r) (video_buffer r).

Definition SCANCODE_BUFFER_LENGTH : Z := 0x32.
Record vmcs_blob := Vm {
  regions : vmcs_region; host_stack : Z; vpid : Z; vcpu : Z; cpu_state : guest_cpu_state;
  serial_line_buffer : Z; serial_line_iptr : Z;
  pic : pic8259_blob; pit : pit8253_blob; kbd : ring }.
#[export] Instance eta_vm : Eta vmcs_blob := fun v =>
  Vm (regions v) (host_stack v) (vpid v) (vcpu v) (cpu_state v)
    (serial_line_buffer v) (serial_line_iptr v) (pic v) (pit v) (kbd v).

(** ** The monitor *)

(** The callbacks registered for port and MMIO accesses, by name. *)
Inductive inb_callback :=
| master_pic_inb_cb | slave_pic_inb_cb | device_serial_inb_cb | keyboard_data_inb_cb.
Inductive outb_callback :=
| master_pic_outb_cb | slave_pic_outb_cb | pit_outb_cb | device_serial_outb_cb.
Inductive mmio_read_callback := video_buffer_mmio_read_cb.
Inductive mmio_write_callback := video_buffer_mmio_write_cb.

(** [struct portio_operation]: the word and double-word callbacks are never set. *)
Record portio_operation := PortOp {
  portid : Z; call_inb : option inb_callback; call_outb : option outb_callback }.
#[export] Instance portio_operation_inhabited : Inhabited portio_operation :=
  populate (PortOp 0 None None).

(** [struct mmio_operation]. *)
Record mmio_operation := MmioOp {
  addr_low : Z; addr_high : Z;
  mmio_read : option mmio_read_callback; mmio_write : option mmio_write_callback }.
#[export] Instance mmio_operation_inhabited : Inhabited mmio_operation :=
  populate (MmioOp 0 0 None None).

Definition MAX_PORTS_SUPPORTED : Z := 256.
Definition MAX_NR_MMIO_REGIONS : Z := 256.

(** The state; [vm_ptr] is the address of the VM's [vmcs_blob]. [tsc n] is the
    [n]-th value of the time stamp counter read, [kbd_port n] the [n]-th byte read
    from the keyboard's data port; a byte printed for the guest goes to [console],
    [eoi] counts acknowledged interrupts, and [uninitialised] is what a local
    variable holds before it is assigned. *)
Record vmm := Vmm {
  kern : kernel;
  cur : vmcs;
  vm : vmcs_blob; vm_ptr : Z;
  current_vm : bool;
  portio_ops : list portio_operation; nr_ports : Z;
  mmio_ops : list mmio_operation; nr_mmio_ops : Z;
  interrupt_request_bitmap : list Z;
  tsc : nat -> Z; tsc_reads : nat;
  kbd_port : nat -> Z; kbd_reads : nat;
  console : list Z; eoi : Z; uninitialised : Z }.
#[export] Instance eta_vmm : Eta vmm := fun s =>
  Vmm (kern s) (cur s) (vm s) (vm_ptr s) (current_vm s) (portio_ops s) (nr_ports s) (mmio_ops s)
    (nr_mmio_ops s) (interrupt_request_bitmap s) (tsc s) (tsc_reads s) (kbd_port s)
    (kbd_reads s) (console s) (eoi s) (uninitialised s).

(** ** Access *)
Definition vmx_read (encoding : Z) : M vmm Z := gets (fun s => vmread (cur s) encoding).
Definition vmx_write (encoding value : Z) : M vmm Z := fun s =>
  if field_readonly encoding then Ret (- ERROR_INVALID, s)
  else Ret (ERROR_OK, s <| cur ::= fun v => vmwrite v encoding value |>).

Definition get_vm : M vmm vmcs_blob := gets vm.
Definition set_vm (f : vmcs_blob -> vmcs_blob) : M vmm unit := modify (fun s => s <| vm ::= f |>).
Definition get_cpu : M vmm guest_cpu_state := gets (fun s => cpu_state (vm s)).
Definition set_cpu (f : guest_cpu_state -> guest_cpu_state) : M vmm unit :=
  set_vm (fun v => v <| cpu_state ::= f |>).
Definition set_pic (f : pic8259_blob -> pic8259_blob) : M vmm unit :=
  set_vm (fun v => v <| pic ::= f |>).
Definition set_pit (f : pit8253_blob -> pit8253_blob) : M vmm unit :=
  set_vm (fun v => v <| pit ::= f |>).

(** A command of the memory components, and one of the keyboard ring. *)
Definition in_kernel {A} (c : M kernel A) : M vmm A := fun s =>
  match c (kern s) with
  | Ret (a, k) => Ret (a, s <| kern := k |>)
  | Stop f => Stop f
  end.
Definition in_kbd {A} (c : M ring A) : M vmm A := fun s =>
  match c (kbd (vm s)) with
  | Ret (a, r) => Ret (a, s <| vm ::= fun v => v <| kbd := r |> |>)
  | Stop f => Stop f
  end.

Definition rdtsc : M vmm Z := fun s =>
  Ret (u64 (tsc s (tsc_reads s)), s <| tsc_reads ::= S |>).
(** [inb(KEYBOARD_DATA_PORT)]. *)
Definition inb_keyboard : M vmm Z := fun s =>
  Ret (u8 (kbd_port s (kbd_reads s)), s <| kbd_reads ::= S |>).

(** [printk] from the monitor; lines of up to a page can be printed. *)
Definition vmm_printk (fmt args : list Z) : M vmm unit := fun s =>
  match printk_mp_raw (S (length fmt)) (Z.to_nat PAGE_SIZE_4K) (literal fmt) args
          (Console (k_mem (kern s)) (console s)) with
  | Ret (_, c) => Ret (tt, s <| console := con_out c |>)
  | Stop f => Stop f
  end.

(** [PANIC_EXIT]: the VM's state is dumped and the machine halts. *)
Definition PANIC_EXIT {A} : M vmm A := stop Halted.

(** [struct vmexit_info]; there is one VM. *)
Record vmexit_info := ExitInfo {
  basic_reason : Z; exit_qualification : Z; guest_linear_addr : Z; guest_physical_addr : Z;
  instruction_length : Z; instruction_info : Z }.
#[export] Instance eta_exit_info : Eta vmexit_info := fun e =>
  ExitInfo (basic_reason e) (exit_qualification e) (guest_linear_addr e) (guest_physical_addr e)
    (instruction_length e) (instruction_info e).

Definition GOTO_NEXT_INSTRUCTION (exit : vmexit_info) : M vmm unit :=
  let! rip := vmx_read GUEST_RIP in
  let! _rc := vmx_write GUEST_RIP (u64 (rip + instruction_length exit)) in
  ret tt.

(** ** General purpose registers, in the order of their encoding *)
Definition vcpu_get_gp_regiter (index : Z) : M vmm Z :=
  let! c := get_cpu in
  match index with
  | 0 => ret (rax c) | 1 => ret (rcx c) | 2 => ret (rdx c) | 3 => ret (rbx c)
  | 4 => vmx_read GUEST_RSP
  | 5 => ret (rbp c) | 6 => ret (rsi c) | 7 => ret (rdi c)
  | 8 => ret (r8 c) | 9 => ret (r9 c) | 10 => ret (r10 c) | 11 => ret (r11 c)
  | 12 => ret (r12 c) | 13 => ret (r13 c) | 14 => ret (r14 c) | 15 => ret (r15 c)
  | _ => ret 0
  end.

Definition vcpu_set_gp_regiter (index val : Z) : M vmm unit :=
  match index with
  | 0 => set_cpu (fun c => c <| rax := val |>)
  | 1 => set_cpu (fun c => c <| rcx := val |>)
  | 2 => set_cpu (fun c => c <| rdx := val |>)
  | 3 => set_cpu (fun c => c <| rbx := val |>)
  | 5 => set_cpu (fun c => c <| rbp := val |>)
  | 6 => set_cpu (fun c => c <| rsi := val |>)
  | 7 => set_cpu (fun c => c <| rdi := val |>)
  | 8 => set_cpu (fun c => c <| r8 := val |>)
  | 9 => set_cpu (fun c => c <| r9 := val |>)
  | 10 => set_cpu (fun c => c <| r10 := val |>)
  | 11 => set_cpu (fun c => c <| r11 := val |>)
  | 12 => set_cpu (fun c => c <| r12 := val |>)
  | 13 => set_cpu (fun c => c <| r13 := val |>)
  | 14 => set_cpu (fun c => c <| r14 := val |>)
  | 15 => set_cpu (fun c => c <| r15 := val |>)
  | 4 => let! _rc := vmx_write GUEST_RSP val in ret tt
  | _ => ret tt
  end.

(** ** Lemmas *)
Lemma vmread_same v e x : field_high e = false ->
  vmread (vmwrite v e x) e = wrap (field_width e) x.
Proof.
  intros He. unfold vmread, vmwrite. rewrite He, lookup_insert_eq. cbn [default from_option].
  apply wrap_wrap. unfold field_width. repeat case_match; lia.
Qed.

Lemma vmread_other v e e' x : field_base e <> field_base e' ->
  vmread (vmwrite v e x) e' = vmread v e'.
Proof.
  intros He. unfold vmread, vmwrite. by rewrite lookup_insert_ne by done.
Qed.

Lemma vmx_write_run e x s : field_readonly e = false ->
  vmx_write e x s = Ret (ERROR_OK, s <| cur ::= fun v => vmwrite v e x |>).
Proof. intros H. unfold vmx_write. by rewrite H. Qed.

Lemma vmread_range v e : 0 <= vmread v e < 2 ^ 64.
Proof.
  unfold vmread. destruct (field_high e).
  - pose proof (wrap_range 32 (Z.shiftr (default 0 (v !! field_base e)) 32) ltac:(lia)). lia.
  - assert (0 <= field_width e <= 64) by (unfold field_width; repeat case_match; lia).
    pose proof (wrap_range (field_width e) (default 0 (v !! field_base e)) ltac:(lia)).
    pose proof (Z.pow_le_mono_r 2 (field_width e) 64). lia.
Qed.

(** The sixteen encodings. *)
Lemma register_index i : 0 <= i < 16 ->
  i = 0 \/ i = 1 \/ i = 2 \/ i = 3 \/ i = 4 \/ i = 5 \/ i = 6 \/ i = 7 \/
  i = 8 \/ i = 9 \/ i = 10 \/ i = 11 \/ i = 12 \/ i = 13 \/ i = 14 \/ i = 15.
Proof. lia. Qed.

(** The content of a register. *)
Definition gp_register (s : vmm) (index : Z) : Z :=
  match vcpu_get_gp_regiter index s with Ret (v, _) => v | Stop _ => 0 end.

Lemma gp_get_run i s : 0 <= i < 16 -> vcpu_get_gp_regiter i s = Ret (gp_register s i, s).
Proof.
  intros Hi. unfold gp_register, vcpu_get_gp_regiter.
  destruct (register_index i Hi) as [->|[->|[->|[->|[->|[->|[->|[->|[->|[->|[->|[->|[->|[->|[->| ->]]]]]]]]]]]]]]];
    reflexivity.
Qed.

(** The register file: writing general purpose register [i] by its encoding
    makes register [i] read back the value and leaves the other fifteen as they
    were; [rsp] (encoding 4) lives in the VMCS, the rest in [guest_cpu_state]. *)
Theorem gp_register_write (i val : Z) (s : vmm) :
  0 <= i < 16 -> 0 <= val < 2 ^ 64 ->
  exists s', vcpu_set_gp_regiter i val s = Ret (tt, s') /\
    (forall j, 0 <= j < 16 -> gp_register s' j = if decide (j = i) then val else gp_register s j) /\
    (i <> 4 -> cur s' = cur s) /\ kern s' = kern s.
Proof.
  intros Hi Hval.
  destruct (register_index i Hi) as [->|[->|[->|[->|[->|[->|[->|[->|[->|[->|[->|[->|[->|[->|[->| ->]]]]]]]]]]]]]]];
    (eexists; split; [reflexivity|]; split; [|done]); intros j Hj;
    destruct (register_index j Hj) as [->|[->|[->|[->|[->|[->|[->|[->|[->|[->|[->|[->|[->|[->|[->| ->]]]]]]]]]]]]]]];
    try reflexivity.
  all: unfold gp_register; cbv [vcpu_get_gp_regiter bind get_cpu gets ret vmx_read update]; cbn [cur].
  all: try (rewrite vmread_same by reflexivity; by apply wrap_small).
Qed.

(** A monitor with one idle guest, for examples. *)
Definition zero_cpu : guest_cpu_state := GuestCpu 0 0 0 0 0 0 0 0 0 0 0 0 0 0 0 0.
Definition sample_vm : vmcs_blob :=
  Vm (Regions 0 0 0 0 0 0 0 0 0 0x700000) 0 1 0x9000 zero_cpu 0x710000 0
    (Pic 0 0 0xff 0xff 0 0 0x20 0x28 0 PIC_INVALID_VECTOR) (Pit 0 0 0 0)
    (Ring SCANCODE_BUFFER_LENGTH 0 0 (replicate 50 0)).
Definition sample_vmm : vmm :=
  Vmm sample_kernel ∅ sample_vm 0x8000 true
    (replicate 256 (PortOp 0 None None)) 0 (replicate 256 (MmioOp 0 0 None None)) 0
    (replicate 15 0) (fun n => 1000000 * Z.of_nat n) 0 (fun n => 0x1e) 0 [] 0 0.

Lemma gp_register_write_witness :
  exists s', vcpu_set_gp_regiter 4 0x7000 sample_vmm = Ret (tt, s') /\
    gp_register s' 4 = 0x7000 /\ gp_register s' 3 = 0.
Proof.
  destruct (gp_register_write 4 0x7000 sample_vmm ltac:(lia) ltac:(lia)) as (s' & Hr & Hg & _).
  exists s'. split; [exact Hr|].
  split; [rewrite (Hg 4) by lia; reflexivity|rewrite (Hg 3) by lia; reflexivity].
Defined.
