(* ===== verification/Registry.v ===== *)
(** * Registry: the monitor's tables of I/O ports ([vm_monitor/vmx_pio.c]) and
    MMIO regions ([vm_monitor/vmx_mmio.c]).

    Both are arrays kept sorted with [SORT] and looked up with [SEARCH]. The main
    results say that the port table implements a finite map from port numbers to
    operations and that the MMIO table finds exactly the region of an address. *)
From Stdlib Require Import ZArith Lia Permutation.
From stdpp Require Import base tactics list numbers gmap sorting.
From S2P Require Import Prelude Memory PhysicalMemory Ring SortSearch Vmm.
Local Open Scope Z_scope.

(** ** Ports *)

(** [port1->portid - port2->portid], an [int] from two [uint32_t]. *)
Definition port_ops_compare (port1 port2 : portio_operation) : outcome Z :=
  Ret (s32 (u32 (portid port1 - portid port2))).

(** The index of the entry found; [NULL] is [None]. *)
Definition search_portio_callback (port_id : Z) : M vmm (option Z) :=
  let! s := gets (fun s => s) in
  let target := PortOp (u32 port_id) None None in
  lift (SEARCH port_ops_compare (nr_ports s) target (portio_ops s)).

(** [SORT] on a table of the state. *)
Definition sort_ports : M vmm unit := fun s =>
  match SORT port_ops_compare (nr_ports s) (portio_ops s) with
  | Ret (_, a) => Ret (tt, s <| portio_ops := a |>)
  | Stop f => Stop f
  end.

Definition port_at (i : Z) (s : vmm) : portio_operation := portio_ops s !!! Z.to_nat i.

Definition register_pio_operation (pio : portio_operation) : M vmm unit :=
  let! pio_found := search_portio_callback (portid pio) in
  match pio_found with
  | Some i =>
      let! p := gets (port_at i) in
      assert (portid p =? portid pio) ;;;
      modify (fun s => s <| portio_ops ::= <[Z.to_nat i := pio]> |>)
  | None =>
      let! n := gets nr_ports in
      assert (n <? MAX_PORTS_SUPPORTED) ;;;
      modify (fun s => s <| portio_ops ::= <[Z.to_nat n := pio]> |>) ;;;
      modify (fun s => s <| nr_ports ::= fun n => n + 1 |>) ;;;
      sort_ports ;;;
      let! pio_found := search_portio_callback (portid pio) in
      match pio_found with
      | Some i => let! p := gets (port_at i) in assert (portid p =? portid pio)
      | None => assert false
      end
  end.

Definition portio_preinit : M vmm unit :=
  modify (fun s => s <| nr_ports := 0 |>) ;;;
  modify (fun s => s <| portio_ops := replicate 256 (PortOp 0 None None) |>).

(** ** MMIO regions *)
Definition mmio_operation_compare (mmio1 mmio2 : mmio_operation) : outcome Z :=
  if negb (addr_low mmio1 <=? addr_high mmio1) then Stop Halted else
  if negb (addr_low mmio2 <=? addr_high mmio2) then Stop Halted else
  if addr_high mmio1 <=? addr_low mmio2 then Ret (-1) else
  if addr_high mmio2 <=? addr_low mmio1 then Ret 1 else
  if ((addr_low mmio1 <=? addr_low mmio2) && (addr_high mmio2 <=? addr_high mmio1)) ||
     ((addr_low mmio2 <=? addr_low mmio1) && (addr_high mmio1 <=? addr_high mmio2))
  then Ret 0
  else Stop Halted.

Definition search_mmio_callback (guest_pa : Z) : M vmm (option Z) :=
  let! s := gets (fun s => s) in
  let target := MmioOp guest_pa (u64 (guest_pa + 1)) None None in
  lift (SEARCH mmio_operation_compare (nr_mmio_ops s) target (mmio_ops s)).

Definition sort_mmio : M vmm unit := fun s =>
  match SORT mmio_operation_compare (nr_mmio_ops s) (mmio_ops s) with
  | Ret (_, a) => Ret (tt, s <| mmio_ops := a |>)
  | Stop f => Stop f
  end.

Definition mmio_at (i : Z) (s : vmm) : mmio_operation := mmio_ops s !!! Z.to_nat i.

Definition register_mmio_operation (mmio : mmio_operation) : M vmm unit :=
  let! found := search_mmio_callback (addr_low mmio) in
  assert (bool_decide (found = None)) ;;;
  let! n := gets nr_mmio_ops in
  assert (n <? MAX_NR_MMIO_REGIONS) ;;;
  modify (fun s => s <| mmio_ops ::= <[Z.to_nat n := mmio]> |>) ;;;
  modify (fun s => s <| nr_mmio_ops ::= fun n => n + 1 |>) ;;;
  sort_mmio ;;;
  let! found := search_mmio_callback (addr_low mmio) in
  assert (bool_decide (found <> None)).

(** ** The port table as a map *)

(** Ports in use are a strictly increasing prefix of the array. *)
Definition port_lt (a b : portio_operation) : Prop := portid a < portid b.
Definition port_ok (o : portio_operation) : Prop := 0 <= portid o < 2 ^ 16.

Record ports_ok (s : vmm) : Prop := {
  po_nr : 0 <= nr_ports s <= 256;
  po_len : length (portio_ops s) = 256%nat;
  po_ports : Forall port_ok (take (Z.to_nat (nr_ports s)) (portio_ops s));
  po_sorted : StronglySorted port_lt (take (Z.to_nat (nr_ports s)) (portio_ops s)) }.

(** The map the table stands for. *)
Definition port_map (s : vmm) : gmap Z portio_operation :=
  list_to_map ((fun o => (portid o, o)) <$> take (Z.to_nat (nr_ports s)) (portio_ops s)).

Lemma port_compare_small a b : port_ok a -> port_ok b ->
  port_ops_compare a b = Ret (portid a - portid b).
Proof.
  unfold port_ok, port_ops_compare. intros Ha Hb. f_equal.
  unfold s32, u32, signed. rewrite wrap_wrap by lia. unfold wrap.
  destruct (Z.ltb_spec ((portid a - portid b) mod 2 ^ 32) (2 ^ (32 - 1))); zdiv.
Qed.

Lemma ports_lookup s i : ports_ok s -> 0 <= i < nr_ports s ->
  take (Z.to_nat (nr_ports s)) (portio_ops s) !! Z.to_nat i = Some (port_at i s).
Proof.
  intros [] Hi. rewrite lookup_take_lt by lia. unfold port_at.
  apply list_lookup_lookup_total_lt. lia.
Qed.

Lemma port_at_ok s i : ports_ok s -> 0 <= i < nr_ports s -> port_ok (port_at i s).
Proof.
  intros Hok Hi. pose proof (po_ports s Hok) as H. rewrite Forall_lookup in H.
  by apply (H (Z.to_nat i)), ports_lookup.
Qed.

Lemma StronglySorted_lookup_lt {A} (R : A -> A -> Prop) l i j x y :
  StronglySorted R l -> (i < j)%nat -> l !! i = Some x -> l !! j = Some y -> R x y.
Proof.
  intros Hs. revert i j. induction Hs as [|z l Hs IH Hz]; intros i j Hij Hi Hj; [done|].
  destruct i as [|i], j as [|j]; try lia; cbn in *.
  - injection Hi as ->. rewrite Forall_lookup in Hz. by apply (Hz j).
  - apply (IH i j); [lia|done..].
Qed.

Lemma port_at_lt s i j : ports_ok s -> 0 <= i < j -> j < nr_ports s ->
  portid (port_at i s) < portid (port_at j s).
Proof.
  intros Hok Hij Hj.
  apply (StronglySorted_lookup_lt port_lt (take (Z.to_nat (nr_ports s)) (portio_ops s))
           (Z.to_nat i) (Z.to_nat j)); [apply Hok|lia|by apply ports_lookup; [|lia]..].
Qed.

(** [search_portio_callback] finds the port's entry when there is one. *)
Lemma search_port_run s p : ports_ok s -> 0 <= p < 2 ^ 16 ->
  exists r, search_portio_callback p s = Ret (r, s) /\
    match r with
    | Some i => 0 <= i < nr_ports s /\ portid (port_at i s) = p
    | None => forall i, 0 <= i < nr_ports s -> portid (port_at i s) <> p
    end.
Proof.
  intros Hok Hp. unfold search_portio_callback. cbv [bind gets lift].
  rewrite u32_small by lia.
  destruct (SEARCH_run port_ops_compare (PortOp p None None) (portio_ops s) (nr_ports s)
              (fun i => p - portid (port_at i s))) as ([i|] & -> & Hr).
  - intros i Hi. apply port_compare_small; [done|]. by apply port_at_ok.
  - intros i j Hij Hj. pose proof (port_at_lt s i j Hok Hij Hj). lia.
  - apply Hok.
  - exists (Some i). split; [done|]. split; [lia|lia].
  - exists None. split; [done|]. intros i Hi E. apply (Hr i Hi). lia.
Qed.

Abbreviation used s := (take (Z.to_nat (nr_ports s)) (portio_ops s)).

Lemma sorted_nodup l : StronglySorted port_lt l -> NoDup (portid <$> l).
Proof.
  induction 1 as [|x l Hl IH Hx]; cbn; constructor; [|done].
  intros (y & Hy & Hin)%list_elem_of_fmap. rewrite Forall_forall in Hx.
  specialize (Hx y Hin). unfold port_lt in Hx. lia.
Qed.

Definition table_map (l : list portio_operation) : gmap Z portio_operation :=
  list_to_map ((fun o => (portid o, o)) <$> l).

Lemma table_map_lookup l p o : NoDup (portid <$> l) ->
  table_map l !! p = Some o <-> o ∈ l /\ portid o = p.
Proof.
  intros Hnd. unfold table_map. rewrite <- elem_of_list_to_map.
  - rewrite list_elem_of_fmap. split.
    + intros (x & [= -> ->] & Hx). done.
    + intros [Ho <-]. by exists o.
  - by rewrite <- list_fmap_compose.
Qed.

Lemma table_map_perm l l' : l ≡ₚ l' -> NoDup (portid <$> l) -> table_map l = table_map l'.
Proof.
  intros Hp Hnd. apply map_eq. intros p. apply option_eq. intros o.
  rewrite !table_map_lookup; [by rewrite Hp| |done]. by rewrite <- Hp.
Qed.

Lemma sorted_same_ports (l l' : list portio_operation) : portid <$> l = portid <$> l' ->
  StronglySorted port_lt l -> StronglySorted port_lt l'.
Proof.
  revert l'. induction l as [|x l IH]; intros [|y l'] He Hl; try discriminate He; [constructor|].
  injection He as Hx He. inversion Hl as [|? ? Hl1 Hl2]; subst. constructor; [by apply IH|].
  apply Forall_lookup. intros k z Hz. rewrite Forall_lookup in Hl2. unfold port_lt in *.
  assert (Hz' : (portid <$> l) !! k = Some (portid z)).
  { transitivity ((portid <$> l') !! k); [by f_equal|]. by rewrite list_lookup_fmap, Hz. }
  rewrite list_lookup_fmap in Hz'. destruct (l !! k) as [w|] eqn:Ew; [|done]. injection Hz' as Hw.
  specialize (Hl2 k w Ew). lia.
Qed.

(** Overwriting entry [k] with an operation for the same port. *)
Lemma table_map_insert l k x pio : NoDup (portid <$> l) -> l !! k = Some x ->
  portid x = portid pio -> table_map (<[k := pio]> l) = <[portid pio := pio]> (table_map l).
Proof.
  intros Hnd Hk Hp. pose proof (lookup_lt_Some _ _ _ Hk) as Hlt.
  assert (Hids : portid <$> <[k := pio]> l = portid <$> l).
  { rewrite list_fmap_insert, <- Hp. apply list_insert_id. by rewrite list_lookup_fmap, Hk. }
  apply map_eq. intros p. apply option_eq. intros o.
  rewrite table_map_lookup by (by rewrite Hids). rewrite lookup_insert. case_decide as Hpo.
  - subst p. split; [|intros [= <-]; split; [by apply list_elem_of_insert|done]].
    intros [(j & Hj)%list_elem_of_lookup Hpo]. destruct (decide (j = k)) as [->|Hne].
    + rewrite list_lookup_insert_eq in Hj by done. congruence.
    + rewrite list_lookup_insert_ne in Hj by done. exfalso. apply Hne.
      apply (NoDup_lookup (portid <$> l) j k (portid o)); [done|..]; rewrite list_lookup_fmap.
      * by rewrite Hj.
      * rewrite Hk. cbn. by rewrite Hp, Hpo.
  - rewrite table_map_lookup by done. split; intros [(j & Hj)%list_elem_of_lookup Hpo']; (split; [|done]);
      apply list_elem_of_lookup; exists j.
    + destruct (decide (j = k)) as [->|Hne].
      * rewrite list_lookup_insert_eq in Hj by done. congruence.
      * by rewrite list_lookup_insert_ne in Hj by done.
    + rewrite list_lookup_insert_ne; [done|]. intros <-. congruence.
Qed.

(** Overwriting the entry of a port already in the table. *)
Lemma register_replaces s i pio : ports_ok s -> 0 <= i < nr_ports s ->
  portid (port_at i s) = portid pio ->
  let s' := s <| portio_ops ::= <[Z.to_nat i := pio]> |> in
  ports_ok s' /\ port_map s' = <[portid pio := pio]> (port_map s).
Proof.
  intros Hok Hi Hp s'. pose proof Hok as [Hnr Hlen Hports Hs].
  pose proof (ports_lookup s i Hok Hi) as Hlk.
  assert (E : used s' = <[Z.to_nat i := pio]> (used s)).
  { unfold s'. cbv [update]. cbn [portio_ops nr_ports]. apply take_insert_lt. lia. }
  assert (Hids : portid <$> used s = portid <$> used s').
  { rewrite E, list_fmap_insert, <- Hp. symmetry. apply list_insert_id. by rewrite list_lookup_fmap, Hlk. }
  split.
  - split; try (unfold s'; cbv [update]; cbn [portio_ops nr_ports]; rewrite ?length_insert; done).
    + rewrite E. apply Forall_insert; [done|]. unfold port_ok. rewrite <- Hp. by apply port_at_ok.
    + by apply (sorted_same_ports (used s)).
  - change (table_map (used s') = <[portid pio := pio]> (table_map (used s))). rewrite E.
    apply (table_map_insert _ _ (port_at i s)); [|done|done]. by apply sorted_nodup.
Qed.

Lemma sorted_strict l : StronglySorted (below (fun a b => portid a - portid b)) l ->
  NoDup (portid <$> l) -> StronglySorted port_lt l.
Proof.
  induction 1 as [|x l Hl IH Hx]; intros Hnd; [constructor|].
  cbn in Hnd. apply NoDup_cons in Hnd as [Hn Hnd]. constructor; [by apply IH|].
  apply Forall_forall. intros y Hy. rewrite Forall_forall in Hx. specialize (Hx y Hy).
  unfold below, port_lt in *. assert (portid x <> portid y); [|lia].
  intros E. apply Hn. rewrite E. by apply list_elem_of_fmap_2.
Qed.

(** Appending a new port and sorting. *)
Lemma register_appends s pio : ports_ok s -> nr_ports s < 256 -> port_ok pio ->
  (forall i, 0 <= i < nr_ports s -> portid (port_at i s) <> portid pio) ->
  let s1 := s <| portio_ops ::= <[Z.to_nat (nr_ports s) := pio]> |> <| nr_ports ::= fun n => n + 1 |> in
  exists s', sort_ports s1 = Ret (tt, s') /\ ports_ok s' /\
    port_map s' = <[portid pio := pio]> (port_map s) /\
    (exists ops, s' = s <| portio_ops := ops |> <| nr_ports := nr_ports s + 1 |>).
Proof.
  intros Hok Hn Hpio Hnew s1. pose proof Hok as [Hnr Hlen Hports Hs].
  set (l := used s ++ [pio]). set (r := drop (S (Z.to_nat (nr_ports s))) (portio_ops s)).
  assert (Hl : length (used s) = Z.to_nat (nr_ports s)) by (rewrite length_take; lia).
  assert (Hops : portio_ops s1 = l ++ r).
  { unfold s1. cbv [update]. cbn [portio_ops nr_ports]. unfold l, r.
    rewrite insert_take_drop by lia. by rewrite <- app_assoc. }
  assert (HPl : Forall port_ok l) by (apply Forall_app; split; [done|by constructor]).
  assert (Hnd : NoDup (portid <$> l)).
  { unfold l. rewrite fmap_app. apply NoDup_app. split; [by apply sorted_nodup|]. split; [|apply NoDup_singleton].
    intros p (o & -> & (k & Hk)%list_elem_of_lookup)%list_elem_of_fmap Hin%list_elem_of_singleton.
    pose proof (lookup_lt_Some _ _ _ Hk). apply (Hnew (Z.of_nat k)); [lia|].
    rewrite <- Hin. f_equal. pose proof (ports_lookup s (Z.of_nat k) Hok ltac:(lia)) as Hk'.
    rewrite Nat2Z.id, Hk in Hk'. by injection Hk'. }
  destruct (SORT_run port_ops_compare (fun a b => portid a - portid b) port_ok) with (l := l) (r := r)
    as (t & Hr & Hp & Hst); [apply port_compare_small|lia..|exact HPl|].
  assert (Hlt : length t = S (Z.to_nat (nr_ports s))).
  { rewrite Hp. unfold l. rewrite length_app, Hl. cbn. lia. }
  set (s' := s <| portio_ops := t ++ r |> <| nr_ports := nr_ports s + 1 |>).
  assert (Hu : used s' = t).
  { unfold s'. cbv [update]. cbn [portio_ops nr_ports]. apply take_app_length'. lia. }
  exists s'. split; [|split; [|split; [|by eexists]]].
  - unfold sort_ports. rewrite Hops. replace (nr_ports s1) with (Z.of_nat (length l)).
    + by rewrite Hr.
    + unfold l. rewrite length_app, Hl. unfold s1. cbv [update]. cbn. lia.
  - assert (Hndt : NoDup (portid <$> t)) by (by rewrite Hp).
    split; rewrite ?Hu; unfold s'; cbv [update]; cbn [portio_ops nr_ports].
    + lia.
    + rewrite length_app. unfold r. rewrite length_drop, Hlt. lia.
    + by rewrite Hp.
    + by apply sorted_strict.
  - change (table_map (used s') = <[portid pio := pio]> (table_map (used s))). rewrite Hu.
    rewrite (table_map_perm t l Hp) by (by rewrite Hp). unfold l.
    unfold table_map. rewrite fmap_app. cbn [fmap list_fmap]. apply list_to_map_snoc.
    unfold l in Hnd. rewrite fmap_app in Hnd. apply NoDup_app in Hnd as (_ & Hnd & _).
    rewrite <- list_fmap_compose. intros Hin. apply (Hnd (portid pio)); [exact Hin|by left].
Qed.

Lemma port_map_lookup s p o : ports_ok s ->
  port_map s !! p = Some o <-> exists i, 0 <= i < nr_ports s /\ port_at i s = o /\ portid o = p.
Proof.
  intros Hok. change (port_map s) with (table_map (used s)).
  rewrite table_map_lookup by (apply sorted_nodup, Hok). split.
  - intros [(k & Hk)%list_elem_of_lookup Hp]. pose proof (lookup_lt_Some _ _ _ Hk) as Hlt.
    rewrite length_take, (po_len s Hok) in Hlt. exists (Z.of_nat k). split; [lia|]. split; [|done].
    pose proof (ports_lookup s (Z.of_nat k) Hok ltac:(lia)) as Hk'. rewrite Nat2Z.id in Hk'. congruence.
  - intros (i & Hi & <- & Hp). split; [|done]. eapply list_elem_of_lookup_2. by apply ports_lookup.
Qed.

Lemma search_port_map s p : ports_ok s -> 0 <= p < 2 ^ 16 ->
  exists r, search_portio_callback p s = Ret (r, s) /\
    (fun i => port_at i s) <$> r = port_map s !! p /\ (forall i, r = Some i -> 0 <= i < nr_ports s).
Proof.
  intros Hok Hp. destruct (search_port_run s p Hok Hp) as ([i|] & Hr & H); (eexists; split; [exact Hr|]).
  - split; [|intros j [= <-]; apply H]. cbn. symmetry. apply port_map_lookup; [done|]. destruct H. by exists i.
  - split; [|done]. cbn. symmetry. apply eq_None_not_Some. intros [o Ho].
    apply port_map_lookup in Ho as (i & Hi & Ho & Hpo); [|done]. subst o. by apply (H i Hi).
Qed.

Lemma register_pio_run s pio : ports_ok s -> port_ok pio ->
  nr_ports s < MAX_PORTS_SUPPORTED \/ is_Some (port_map s !! portid pio) ->
  exists ops n, let s' := s <| portio_ops := ops |> <| nr_ports := n |> in
    register_pio_operation pio s = Ret (tt, s') /\ ports_ok s' /\
    port_map s' = <[portid pio := pio]> (port_map s) /\ n <= nr_ports s + 1.
Proof.
  intros Hok Hpio Hroom. unfold register_pio_operation.
  destruct (search_port_run s (portid pio) Hok ltac:(exact Hpio)) as ([i|] & Hr & H); run_with Hr.
  - destruct H as [Hi Hp]. destruct (register_replaces s i pio Hok Hi Hp) as [Hok' Hmap].
    assert (E : s <| portio_ops := <[Z.to_nat i := pio]> (portio_ops s) |> <| nr_ports := nr_ports s |> =
                s <| portio_ops ::= <[Z.to_nat i := pio]> |>) by (by destruct s).
    exists (<[Z.to_nat i := pio]> (portio_ops s)), (nr_ports s). rewrite E.
    split; [|split; [exact Hok'|split; [exact Hmap|lia]]].
    unfold bind, gets. rewrite Hp, Z.eqb_refl. reflexivity.
  - assert (Hn : nr_ports s < 256).
    { destruct Hroom as [Hroom|[o Ho]]; [exact Hroom|].
      apply port_map_lookup in Ho as (i & Hi & Ho & Hpo); [|done]. subst o. by destruct (H i Hi). }
    destruct (register_appends s pio Hok Hn Hpio H) as (s' & Hsort & Hok' & Hmap & (ops & E)).
    exists ops, (nr_ports s + 1). rewrite <- E. split; [|split_and!; try done; lia].
    unfold bind at 1, gets at 1. rewrite assert_run by (apply Z.ltb_lt; exact Hn).
    unfold bind at 1, modify at 1. unfold bind at 1, modify at 1. run_with Hsort.
    destruct (search_port_map s' (portid pio) Hok' ltac:(exact Hpio)) as (r & Hr' & Hm & _).
    run_with Hr'. rewrite Hmap, lookup_insert_eq in Hm. destruct r as [i|]; [|done].
    cbn in Hm. injection Hm as Hm. unfold bind, gets. by rewrite Hm, Z.eqb_refl.
Qed.

(** C17 The port table refines a finite map from port numbers to operations.
    [search_portio_callback] answers exactly the map's entry and changes nothing;
    [register_pio_operation] completes whenever a slot is free or the port is
    known, is insertion into the map (replacing an earlier registration of the
    port, keeping every other), keeps the table sorted, and touches nothing else
    of the monitor. *)
Theorem port_table_refines_map (s : vmm) (pio : portio_operation) :
  ports_ok s -> port_ok pio ->
  nr_ports s < MAX_PORTS_SUPPORTED \/ is_Some (port_map s !! portid pio) ->
  (forall p, 0 <= p < 2 ^ 16 -> exists r, search_portio_callback p s = Ret (r, s) /\
     (fun i => port_at i s) <$> r = port_map s !! p) /\
  exists ops n, let s' := s <| portio_ops := ops |> <| nr_ports := n |> in
    register_pio_operation pio s = Ret (tt, s') /\ ports_ok s' /\
    port_map s' = <[portid pio := pio]> (port_map s).
Proof.
  intros Hok Hpio Hroom. split.
  - intros p Hp. destruct (search_port_map s p Hok Hp) as (r & Hr & Hm & _). by exists r.
  - destruct (register_pio_run s pio Hok Hpio Hroom) as (ops & n & Hr & Hok' & Hm & _). by exists ops, n.
Qed.

Lemma sample_ports_ok : ports_ok sample_vmm.
Proof. split; cbn; [lia|reflexivity|constructor|constructor]. Qed.

Lemma port_table_refines_map_witness :
  exists s', register_pio_operation (PortOp 0x60 (Some keyboard_data_inb_cb) None) sample_vmm = Ret (tt, s') /\
    port_map s' = {[0x60 := PortOp 0x60 (Some keyboard_data_inb_cb) None]}.
Proof.
  destruct (port_table_refines_map sample_vmm (PortOp 0x60 (Some keyboard_data_inb_cb) None))
    as (_ & ops & n & Hr & _ & Hm).
  - exact sample_ports_ok.
  - unfold port_ok. cbn. lia.
  - left. cbn. unfold MAX_PORTS_SUPPORTED. lia.
  - eexists. split; [exact Hr|]. rewrite Hm. reflexivity.
Defined.

(** ** The MMIO table *)

(** A region is a non-empty half-open interval of addresses; the regions in use
    are disjoint and in increasing order. *)
Definition region_ok (o : mmio_operation) : Prop :=
  0 <= addr_low o < addr_high o /\ addr_high o < 2 ^ 63.
Definition region_lt (a b : mmio_operation) : Prop := addr_high a <= addr_low b.
Definition in_region (a : Z) (o : mmio_operation) : Prop := addr_low o <= a < addr_high o.
Definition region_apart (a b : mmio_operation) : Prop := region_lt a b \/ region_lt b a.

Abbreviation regions_of s := (take (Z.to_nat (nr_mmio_ops s)) (mmio_ops s)).

Record mmio_ok (s : vmm) : Prop := {
  mo_nr : 0 <= nr_mmio_ops s <= 256;
  mo_len : length (mmio_ops s) = 256%nat;
  mo_regions : Forall region_ok (regions_of s);
  mo_sorted : StronglySorted region_lt (regions_of s) }.

(** The value of the comparison on regions that are apart or equal. *)
Definition region_cmp (a b : mmio_operation) : Z :=
  if addr_high a <=? addr_low b then -1 else if addr_high b <=? addr_low a then 1 else 0.

Lemma mmio_compare_ret a b : region_ok a -> region_ok b -> region_apart a b \/ a = b ->
  mmio_operation_compare a b = Ret (region_cmp a b).
Proof.
  unfold region_ok, region_apart, region_lt, mmio_operation_compare, region_cmp. intros Ha Hb Hab.
  destruct (Z.leb_spec (addr_low a) (addr_high a)) as [_|]; [|lia].
  destruct (Z.leb_spec (addr_low b) (addr_high b)) as [_|]; [|lia]. cbn [negb].
  destruct (Z.leb_spec (addr_high a) (addr_low b)); [done|].
  destruct (Z.leb_spec (addr_high b) (addr_low a)); [done|].
  destruct Hab as [[?|?]| ->]; [lia|lia|].
  destruct (Z.leb_spec (addr_low b) (addr_low b)) as [_|]; [|lia].
  destruct (Z.leb_spec (addr_high b) (addr_high b)) as [_|]; [|lia]. done.
Qed.

Lemma mmio_lookup s i : mmio_ok s -> 0 <= i < nr_mmio_ops s ->
  regions_of s !! Z.to_nat i = Some (mmio_at i s).
Proof.
  intros [] Hi. rewrite lookup_take_lt by lia. unfold mmio_at.
  apply list_lookup_lookup_total_lt. lia.
Qed.

Lemma mmio_at_ok s i : mmio_ok s -> 0 <= i < nr_mmio_ops s -> region_ok (mmio_at i s).
Proof.
  intros Hok Hi. pose proof (mo_regions s Hok) as H. rewrite Forall_lookup in H.
  by apply (H (Z.to_nat i)), mmio_lookup.
Qed.

Lemma mmio_at_lt s i j : mmio_ok s -> 0 <= i < j -> j < nr_mmio_ops s ->
  region_lt (mmio_at i s) (mmio_at j s).
Proof.
  intros Hok Hij Hj.
  apply (StronglySorted_lookup_lt region_lt (regions_of s) (Z.to_nat i) (Z.to_nat j));
    [apply Hok|lia|by apply mmio_lookup; [|lia]..].
Qed.

(** [search_mmio_callback] finds the region of an address when there is one. *)
Lemma search_mmio_run s a : mmio_ok s -> 0 <= a < 2 ^ 63 ->
  exists r, search_mmio_callback a s = Ret (r, s) /\
    match r with
    | Some i => 0 <= i < nr_mmio_ops s /\ in_region a (mmio_at i s)
    | None => forall i, 0 <= i < nr_mmio_ops s -> ~ in_region a (mmio_at i s)
    end.
Proof.
  intros Hok Ha. unfold search_mmio_callback. cbv [bind gets lift].
  rewrite u64_small by lia. set (t := MmioOp a (a + 1) None None).
  assert (Hc : forall o, region_ok o -> mmio_operation_compare t o = Ret (region_cmp t o)).
  { intros o Ho. unfold region_ok, mmio_operation_compare, region_cmp in *. cbn [t addr_low addr_high].
    destruct (Z.leb_spec a (a + 1)) as [_|]; [|lia].
    destruct (Z.leb_spec (addr_low o) (addr_high o)) as [_|]; [|lia]. cbn [negb].
    destruct (Z.leb_spec (a + 1) (addr_low o)); [done|].
    destruct (Z.leb_spec (addr_high o) a); [done|].
    destruct (Z.leb_spec a (addr_low o)), (Z.leb_spec (addr_high o) (a + 1)),
      (Z.leb_spec (addr_low o) a), (Z.leb_spec (a + 1) (addr_high o)); done || lia. }
  assert (H0 : forall o, region_ok o -> region_cmp t o = 0 <-> in_region a o).
  { intros o Ho. unfold region_ok, region_cmp, in_region in *. cbn [t addr_low addr_high].
    destruct (Z.leb_spec (a + 1) (addr_low o)), (Z.leb_spec (addr_high o) a); lia. }
  destruct (SEARCH_run mmio_operation_compare t (mmio_ops s) (nr_mmio_ops s)
              (fun i => region_cmp t (mmio_at i s))) as ([i|] & -> & Hr).
  - intros i Hi. by apply Hc, mmio_at_ok.
  - intros i j Hij Hj. pose proof (mmio_at_lt s i j Hok Hij Hj) as Hlt.
    pose proof (mmio_at_ok s i Hok ltac:(lia)). pose proof (mmio_at_ok s j Hok ltac:(lia)).
    unfold region_ok, region_lt, region_cmp in *. cbn [t addr_low addr_high].
    destruct (Z.leb_spec (a + 1) (addr_low (mmio_at i s))), (Z.leb_spec (addr_high (mmio_at i s)) a),
      (Z.leb_spec (a + 1) (addr_low (mmio_at j s))), (Z.leb_spec (addr_high (mmio_at j s)) a); lia.
  - apply Hok.
  - destruct Hr as [Hi Hr]. exists (Some i). split; [done|]. split; [done|].
    apply H0; [by apply mmio_at_ok|exact Hr].
  - exists None. split; [done|]. intros i Hi Hin. apply (Hr i Hi), H0; [by apply mmio_at_ok|done].
Qed.

Lemma sorted_regions l : StronglySorted (below region_cmp) l -> Forall region_ok l ->
  NoDup l -> (forall x y, x ∈ l -> y ∈ l -> region_apart x y \/ x = y) ->
  StronglySorted region_lt l.
Proof.
  induction 1 as [|x l Hl IH Hx]; intros Hok Hnd Hap; [constructor|].
  apply Forall_cons_1 in Hok as [Hxok Hok]. apply NoDup_cons in Hnd as [Hnin Hnd]. constructor.
  - apply IH; [done|done|]. intros y z Hy Hz. apply Hap; by right.
  - apply Forall_forall. intros y Hy. rewrite Forall_forall in Hx, Hok.
    specialize (Hx y Hy). specialize (Hok y Hy).
    destruct (Hap x y ltac:(by left) ltac:(by right)) as [[H|H]| ->]; [done| |done].
    unfold below, region_cmp, region_ok, region_lt in *.
    destruct (Z.leb_spec (addr_high x) (addr_low y)); [done|].
    destruct (Z.leb_spec (addr_high y) (addr_low x)); lia.
Qed.

Lemma regions_apart s i j x y : mmio_ok s -> i <> j ->
  regions_of s !! i = Some x -> regions_of s !! j = Some y -> region_apart x y.
Proof.
  intros Hok Hij Hx Hy. pose proof (mo_sorted s Hok) as Hs.
  destruct (Nat.lt_trichotomy i j) as [H|[H|H]]; [left|done|right];
    by eapply (StronglySorted_lookup_lt region_lt); [exact Hs| | |]; [exact H|..].
Qed.

(** The list of regions with a new one appended. *)
Lemma snoc_apart s o : mmio_ok s -> Forall (region_apart o) (regions_of s) ->
  forall x y, x ∈ regions_of s ++ [o] -> y ∈ regions_of s ++ [o] -> region_apart x y \/ x = y.
Proof.
  intros Hok Ho x y Hx Hy. rewrite Forall_forall in Ho.
  apply elem_of_app in Hx as [Hx|Hx%list_elem_of_singleton];
    apply elem_of_app in Hy as [Hy|Hy%list_elem_of_singleton]; subst.
  - apply list_elem_of_lookup in Hx as (i & Hi). apply list_elem_of_lookup in Hy as (j & Hj).
    destruct (decide (i = j)) as [->|Hne]; [right; congruence|left; by apply (regions_apart s i j)].
  - left. destruct (Ho x Hx); [by right|by left].
  - left. exact (Ho y Hy).
  - by right.
Qed.

Lemma snoc_nodup s o : mmio_ok s -> region_ok o -> Forall (region_apart o) (regions_of s) ->
  NoDup (regions_of s ++ [o]).
Proof.
  intros Hok Ho Hap. assert (Hirr : forall x, region_ok x -> ~ region_apart x x).
  { intros x. unfold region_ok, region_apart, region_lt. lia. }
  apply NoDup_app. split; [|split; [|apply NoDup_singleton]].
  - apply NoDup_alt. intros i j x Hi Hj. destruct (decide (i = j)) as [|Hne]; [done|].
    destruct (Hirr x); [|by apply (regions_apart s i j)].
    pose proof (mo_regions s Hok) as H. rewrite Forall_lookup in H. by apply (H i).
  - intros x Hx ->%list_elem_of_singleton. rewrite Forall_forall in Hap. by apply (Hirr o Ho), Hap.
Qed.

(** On regions that are pairwise apart the comparison is a total preorder. *)
Lemma region_cmp_trans a b c : region_ok a -> region_ok b -> region_ok c ->
  region_cmp a b <= 0 -> region_cmp b c <= 0 ->
  region_apart a b \/ a = b -> region_apart b c \/ b = c -> region_cmp a c <= 0.
Proof.
  unfold region_ok, region_cmp, region_apart, region_lt. intros Ha Hb Hc Hab Hbc Sab Sbc.
  destruct (Z.leb_spec (addr_high a) (addr_low c)); [lia|].
  destruct (Z.leb_spec (addr_high c) (addr_low a)); [|lia]. exfalso.
  destruct Sab as [Sab| ->], Sbc as [Sbc| ->];
    repeat match goal with H : context [?x <=? ?y] |- _ => destruct (Z.leb_spec x y) end; lia.
Qed.

(** [SORT] on the regions and a new one. *)
Lemma sort_snoc s o r : mmio_ok s -> region_ok o -> Forall (region_apart o) (regions_of s) ->
  let l := regions_of s ++ [o] in
  exists t, SORT mmio_operation_compare (Z.of_nat (length l)) (l ++ r) = Ret (tt, t ++ r) /\ t ≡ₚ l /\
    StronglySorted (below region_cmp) t.
Proof.
  intros Hok Ho Hap l. pose proof Hok as [Hnr Hlen Hreg Hs].
  assert (HPl : Forall region_ok l) by (apply Forall_app; split; [done|by constructor]).
  pose proof (snoc_apart s o Hok Hap) as Hpw. fold l in Hpw. set (P := fun x => x ∈ l).
  assert (HP : forall x y, P x -> P y -> region_ok x /\ region_ok y /\ (region_apart x y \/ x = y)).
  { intros x y Hx Hy. rewrite Forall_forall in HPl. split; [by apply HPl|]. split; [by apply HPl|].
    by apply Hpw. }
  apply (SORT_run mmio_operation_compare region_cmp P).
  - intros x y Hx Hy. destruct (HP x y Hx Hy) as (? & ? & ?). by apply mmio_compare_ret.
  - intros x y z Hx Hy Hz Hxy Hyz. destruct (HP x y Hx Hy) as (? & ? & ?).
    destruct (HP y z Hy Hz) as (_ & ? & ?). by apply (region_cmp_trans x y z).
  - intros x y Hx Hy. unfold region_cmp. repeat case_match; lia.
  - by apply Forall_forall.
Qed.

(** A region of the table is found. *)
Lemma mmio_unfound s o : mmio_ok s -> region_ok o -> o ∈ regions_of s ->
  (forall i, 0 <= i < nr_mmio_ops s -> ~ in_region (addr_low o) (mmio_at i s)) -> False.
Proof.
  intros Hok Ho Hin H2. pose proof Hok as [Hnr Hlen Hreg Hs]. apply list_elem_of_lookup in Hin as (k & Hk).
  pose proof (lookup_lt_Some _ _ _ Hk) as Hlt'. rewrite length_take in Hlt'.
  apply (H2 (Z.of_nat k)); [lia|].
  pose proof (mmio_lookup s (Z.of_nat k) Hok ltac:(lia)) as Hk'. rewrite Nat2Z.id, Hk in Hk'.
  injection Hk' as <-. unfold in_region, region_ok in *. lia.
Qed.

(** Appending a region and sorting the table. *)
Lemma sort_appended s o : mmio_ok s -> region_ok o -> nr_mmio_ops s < MAX_NR_MMIO_REGIONS ->
  Forall (region_apart o) (regions_of s) ->
  exists ops, let s' := s <| mmio_ops := ops |> <| nr_mmio_ops := nr_mmio_ops s + 1 |> in
    sort_mmio (s <| mmio_ops ::= <[Z.to_nat (nr_mmio_ops s) := o]> |> <| nr_mmio_ops ::= fun n => n + 1 |>) = Ret (tt, s') /\
    mmio_ok s' /\ regions_of s' ≡ₚ o :: regions_of s.
Proof.
  intros Hok Ho Hn Hap. pose proof Hok as [Hnr Hlen Hreg Hs]. unfold MAX_NR_MMIO_REGIONS in Hn.
  set (l := regions_of s ++ [o]). set (r := drop (S (Z.to_nat (nr_mmio_ops s))) (mmio_ops s)).
  assert (Hl : length (regions_of s) = Z.to_nat (nr_mmio_ops s)) by (rewrite length_take; lia).
  assert (Hlen_l : Z.of_nat (length l) = nr_mmio_ops s + 1).
  { unfold l. rewrite length_app, Hl. cbn. lia. }
  assert (Hops : <[Z.to_nat (nr_mmio_ops s) := o]> (mmio_ops s) = l ++ r).
  { unfold l, r. rewrite insert_take_drop by lia. by rewrite <- app_assoc. }
  destruct (sort_snoc s o r Hok Ho Hap) as (t & Hr & Hp & Hst). fold l in Hr, Hp.
  set (s' := s <| mmio_ops := t ++ r |> <| nr_mmio_ops := nr_mmio_ops s + 1 |>).
  assert (Hlt : length t = S (Z.to_nat (nr_mmio_ops s))) by (rewrite Hp; lia).
  assert (Hu : regions_of s' = t).
  { unfold s'. cbv [update]. cbn [mmio_ops nr_mmio_ops]. apply take_app_length'. lia. }
  exists (t ++ r). split; [|split].
  - unfold sort_mmio. cbv [update]. cbn [mmio_ops nr_mmio_ops]. by rewrite Hops, <- Hlen_l, Hr, Hlen_l.
  - change (mmio_ok s'). split; rewrite ?Hu; unfold s'; cbv [update]; cbn [mmio_ops nr_mmio_ops].
    + lia.
    + rewrite length_app. unfold r. rewrite length_drop, Hlt. lia.
    + rewrite Hp. apply Forall_app; split; [done|by constructor].
    + apply sorted_regions; [exact Hst|rewrite Hp; apply Forall_app; split; [done|by constructor]|
        rewrite Hp; by apply snoc_nodup|].
      intros x y Hx Hy. apply (snoc_apart s o Hok Hap); [by rewrite Hp in Hx|by rewrite Hp in Hy].
  - change (regions_of s' ≡ₚ o :: regions_of s). rewrite Hu, Hp. unfold l. by rewrite Permutation_app_comm.
Qed.

Lemma register_mmio_run s o : mmio_ok s -> region_ok o -> nr_mmio_ops s < MAX_NR_MMIO_REGIONS ->
  Forall (region_apart o) (regions_of s) ->
  exists ops, let s' := s <| mmio_ops := ops |> <| nr_mmio_ops := nr_mmio_ops s + 1 |> in
    register_mmio_operation o s = Ret (tt, s') /\ mmio_ok s' /\
    regions_of s' ≡ₚ o :: regions_of s.
Proof.
  intros Hok Ho Hn Hap. destruct (sort_appended s o Hok Ho Hn Hap) as (ops & Hsort & Hok' & Hperm).
  exists ops. split; [|by split]. unfold register_mmio_operation.
  destruct (search_mmio_run s (addr_low o) Hok ltac:(unfold region_ok in Ho; lia)) as ([i|] & Hr1 & H1).
  { exfalso. destruct H1 as [Hi Hin]. rewrite Forall_lookup in Hap.
    specialize (Hap _ _ (mmio_lookup s i Hok Hi)). pose proof (mmio_at_ok s i Hok Hi).
    unfold in_region, region_apart, region_lt, region_ok in *. lia. }
  run_with Hr1. rewrite assert_run by (by rewrite bool_decide_eq_true_2).
  unfold bind at 1, gets at 1. rewrite assert_run by (by apply Z.ltb_lt).
  unfold bind at 1, modify at 1. unfold bind at 1, modify at 1. run_with Hsort.
  destruct (search_mmio_run _ (addr_low o) Hok' ltac:(unfold region_ok in Ho; lia)) as ([i|] & Hr2 & H2).
  - run_with Hr2. by rewrite bool_decide_eq_true_2.
  - exfalso. apply (mmio_unfound _ o Hok' Ho); [rewrite Hperm; by left|exact H2].
Qed.

(** The MMIO table. On a table of disjoint regions [search_mmio_callback]
    answers the region that holds the address, and [NULL] exactly when none does;
    registering a region apart from all the others completes (no assertion of the
    comparison fails while sorting), keeps the table sorted and disjoint, and adds
    that one region. *)
Theorem mmio_table_finds_region (s : vmm) (o : mmio_operation) :
  mmio_ok s -> region_ok o -> nr_mmio_ops s < MAX_NR_MMIO_REGIONS ->
  Forall (region_apart o) (regions_of s) ->
  exists ops, let s' := s <| mmio_ops := ops |> <| nr_mmio_ops := nr_mmio_ops s + 1 |> in
    register_mmio_operation o s = Ret (tt, s') /\ mmio_ok s' /\
    regions_of s' ≡ₚ o :: regions_of s /\
    forall a, 0 <= a < 2 ^ 63 -> exists r, search_mmio_callback a s' = Ret (r, s') /\
      match r with
      | Some i => 0 <= i < nr_mmio_ops s' /\ in_region a (mmio_at i s')
      | None => forall i, 0 <= i < nr_mmio_ops s' -> ~ in_region a (mmio_at i s')
      end.
Proof.
  intros Hok Ho Hn Hap. destruct (register_mmio_run s o Hok Ho Hn Hap) as (ops & Hr & Hok' & Hp).
  exists ops. split; [exact Hr|]. split; [exact Hok'|]. split; [exact Hp|].
  intros a Ha. by apply search_mmio_run.
Qed.

Lemma mmio_table_finds_region_witness :
  exists s', register_mmio_operation (MmioOp 0xb8000 0xb9000 None None) sample_vmm = Ret (tt, s') /\
    mmio_ok s'.
Proof.
  destruct (mmio_table_finds_region sample_vmm (MmioOp 0xb8000 0xb9000 None None)) as (ops & Hr & Hok & _).
  - split; cbn; [lia|reflexivity|constructor|constructor].
  - unfold region_ok. cbn. lia.
  - cbn. unfold MAX_NR_MMIO_REGIONS. lia.
  - constructor.
  - eexists. split; [exact Hr|exact Hok].
Defined.
