(* ===== verification/Devices.v ===== *)
(** * Devices: the guest's devices, [vm_monitor/device_*.c].

    One Module per device: the interrupt controller, the interval timer, the
    serial port, the keyboard and the video buffer, each with its port or MMIO
    callbacks and the function that registers them. *)
From Stdlib Require Import ZArith Lia String.
From stdpp Require Import base tactics list numbers gmap.
From S2P Require Import Prelude Memory Format PhysicalMemory Radix Paging PagingInit Ept Ring SortSearch.
From S2P Require Import Vmm Registry.
Local Open Scope Z_scope.

(** A register that holds a byte. *)
Definition is_byte (v : Z) : Prop := 0 <= v < 256.

(** ** The 8259 interrupt controllers ([device_8259pic.c]) *)
Module Pic.
Definition PIC_MASTER_COMMAND_PORT : Z := 0x20.
Definition PIC_MASTER_DATA_PORT : Z := 0x21.
Definition PIC_SLAVE_COMMAND_PORT : Z := 0xa0.
Definition PIC_SLAVE_DATA_PORT : Z := 0xa1.
Definition ICW1_INIT : Z := 0x10.
Definition PIC_EOI : Z := 0x20.

Definition master_pic_inb (port_id : Z) : M vmm Z :=
  let! v := get_vm in
  if port_id =? PIC_MASTER_DATA_PORT then ret (master_pic_data (pic v)) else PANIC_EXIT.

Definition master_pic_outb (port_id byte : Z) : M vmm unit :=
  if port_id =? PIC_MASTER_COMMAND_PORT then
    set_pic (fun p => p <| master_pic_command := byte |>) ;;;
    (let! v := get_vm in
     if truthy (Z.land (master_pic_command (pic v)) ICW1_INIT)
     then set_pic (fun p => p <| is_master_pic_initializing := 1 |>) else ret tt) ;;;
    let! v := get_vm in
    if master_pic_command (pic v) =? PIC_EOI
    then set_pic (fun p => p <| interrupt_delivery_pending := 0 |>) else ret tt
  else if port_id =? PIC_MASTER_DATA_PORT then
    set_pic (fun p => p <| master_pic_data := byte |>) ;;;
    let! v := get_vm in
    if truthy (is_master_pic_initializing (pic v)) then
      set_pic (fun p => p <| master_pic_offset := master_pic_data p |>) ;;;
      set_pic (fun p => p <| is_master_pic_initializing := 0 |>)
    else ret tt
  else PANIC_EXIT.

Definition slave_pic_inb (port_id : Z) : M vmm Z :=
  let! v := get_vm in
  if port_id =? PIC_SLAVE_DATA_PORT then ret (slave_pic_data (pic v)) else PANIC_EXIT.

Definition slave_pic_outb (port_id byte : Z) : M vmm unit :=
  if port_id =? PIC_SLAVE_COMMAND_PORT then
    set_pic (fun p => p <| slave_pic_command := byte |>) ;;;
    (let! v := get_vm in
     if truthy (Z.land (slave_pic_command (pic v)) ICW1_INIT)
     then set_pic (fun p => p <| is_slave_pic_initializing := 1 |>) else ret tt) ;;;
    let! v := get_vm in
    if slave_pic_command (pic v) =? PIC_EOI
    then set_pic (fun p => p <| interrupt_delivery_pending := 0 |>) else ret tt
  else if port_id =? PIC_SLAVE_DATA_PORT then
    set_pic (fun p => p <| slave_pic_data := byte |>) ;;;
    let! v := get_vm in
    if truthy (is_slave_pic_initializing (pic v)) then
      set_pic (fun p => p <| slave_pic_offset := slave_pic_data p |>) ;;;
      set_pic (fun p => p <| is_slave_pic_initializing := 0 |>)
    else ret tt
  else PANIC_EXIT.

Definition vmx_chipset_8259pic_preinit : M vmm unit :=
  mfor 2 0 (fun idx =>
    register_pio_operation (PortOp (PIC_MASTER_COMMAND_PORT + idx)
      (Some master_pic_inb_cb) (Some master_pic_outb_cb)) ;;;
    register_pio_operation (PortOp (PIC_SLAVE_COMMAND_PORT + idx)
      (Some slave_pic_inb_cb) (Some slave_pic_outb_cb))).
End Pic.

(** ** The 8253 interval timer ([device_8253pit.c]) *)
Module Pit.
Definition PIT_CHANNEL0_PORT : Z := 0x40.
Definition PIT_CONTROL_PORT : Z := 0x43.
Definition OSCILLATPR_CHIP_FREQUENCY : Z := 1193182.

(** [a / b] on [uint64_t]: a zero divisor traps. *)
Definition udiv {S} (a b : Z) : M S Z := if b =? 0 then stop DivideError else ret (a / b).

Definition pit_outb (port_id byte : Z) : M vmm unit :=
  if port_id =? PIT_CONTROL_PORT then
    assert (byte =? 0x36) ;;;
    set_pit (fun p => p <| initial_counter := 0 |>) ;;;
    set_pit (fun p => p <| divisor := 0 |>)
  else if port_id =? PIT_CHANNEL0_PORT then
    let! v := get_vm in
    if initial_counter (pit v) =? 0 then
      set_pit (fun p => p <| divisor := Z.land byte 0xff |>) ;;;
      set_pit (fun p => p <| initial_counter ::= fun c => c + 1 |>)
    else if initial_counter (pit v) =? 1 then
      set_pit (fun p => p <| divisor ::= fun d => Z.lor d (Z.shiftl byte 8) |>) ;;;
      set_pit (fun p => p <| divisor ::= fun d => Z.land d 0xffff |>) ;;;
      set_pit (fun p => p <| initial_counter ::= fun c => c + 1 |>) ;;;
      let! v := get_vm in
      let! freq := udiv OSCILLATPR_CHIP_FREQUENCY (divisor (pit v)) in
      let! t := udiv 1000 freq in
      set_pit (fun p => p <| threshold := t |>)
    else PANIC_EXIT
  else PANIC_EXIT.

Definition vmx_chipset_8253pit_preinit : M vmm unit :=
  mfor 4 0 (fun idx =>
    register_pio_operation (PortOp (PIT_CHANNEL0_PORT + idx) None (Some pit_outb_cb))).
End Pit.

(** ** The serial port ([device_serial.c]) *)
Module Serial.
Definition COM1_PORT_BASE : Z := 0x3f8.

Definition device_serial_inb (port_id : Z) : M vmm Z :=
  if port_id =? COM1_PORT_BASE + 5 then ret 0x20 else PANIC_EXIT.

Definition put_kernel (f : memory -> memory) : M vmm unit :=
  modify (fun s => s <| kern ::= fun k => k <| k_mem ::= f |> |>).

(** [printk("[vm:0x%x(vpid:%d)] %s", vm, vm->vpid, vm->serial_line_buffer)]. *)
Definition line_format : list Z := chars "[vm:0x%x(vpid:%d)] %s".
Definition print_line : M vmm unit :=
  let! s := gets (fun s => s) in
  vmm_printk line_format [vm_ptr s; vpid (vm s); serial_line_buffer (vm s)].

Definition device_serial_outb (port_id byte : Z) : M vmm unit :=
  let! v := get_vm in
  assert (serial_line_iptr v <? PAGE_SIZE_4K - 1) ;;;
  put_kernel (fun m => wr8 m (serial_line_buffer v + serial_line_iptr v) byte) ;;;
  set_vm (fun v => v <| serial_line_iptr ::= fun i => i + 1 |>) ;;;
  let! v := get_vm in
  if (serial_line_iptr v =? PAGE_SIZE_4K - 1) || (byte =? 10) then
    print_line ;;;
    put_kernel (fun m => memset m (serial_line_buffer v) 0x0 PAGE_SIZE_4K) ;;;
    set_vm (fun v => v <| serial_line_iptr := 0 |>)
  else ret tt.

Definition vmx_device_serial_preinit : M vmm unit :=
  mfor 6 0 (fun idx =>
    register_pio_operation (PortOp (COM1_PORT_BASE + idx)
      (Some device_serial_inb_cb) (Some device_serial_outb_cb))).
End Serial.

(** ** The keyboard ([device_keyboard.c]) *)
Module Keyboard.
Definition KEYBOARD_DATA_PORT : Z := 0x60.

Definition keyboard_data_inb (port_id : Z) : M vmm Z :=
  let! v := get_vm in
  assert (port_id =? KEYBOARD_DATA_PORT) ;;;
  if negb (ring_empty (kbd v)) then ret (ring_peek (kbd v)) else ret 0.

Definition vmx_device_keyboard_preinit : M vmm unit :=
  register_pio_operation (PortOp KEYBOARD_DATA_PORT (Some keyboard_data_inb_cb) None).
End Keyboard.

(** ** The video buffer ([device_video.c]) *)
Module Video.
Definition VIDEO_BUFFER_PAGE_FRAME : Z := 0x1000b8000.
Definition VIDEO_BUFFER_BASE : Z := 0xb8000.
Definition VIDEO_BUFFER_ROW : Z := 25.
Definition VIDEO_BUFFER_COL : Z := 80.
Definition ACCESS_IN_BYTE : Z := 0x1.
Definition ACCESS_IN_WORD : Z := 0x2.
Definition ACCESS_IN_DWORD : Z := 0x4.
Definition ACCESS_IN_QWORD : Z := 0x8.

Definition video_buffer_mmio_read (addr access_size : Z) : M vmm Z :=
  let! s := gets (fun s => s) in
  let offset := u64 (addr - VIDEO_BUFFER_PAGE_FRAME) in
  assert (u64 (offset + access_size) <=? PAGE_SIZE_4K) ;;;
  let p := video_buffer (regions (vm s)) + offset in
  let m := k_mem (kern s) in
  if access_size =? ACCESS_IN_BYTE then ret (rd8 m p)
  else if access_size =? ACCESS_IN_WORD then ret (load16 m p)
  else if access_size =? ACCESS_IN_DWORD then ret (load32 m p)
  else if access_size =? ACCESS_IN_QWORD then ret (load64 m p)
  else stop Halted.

Definition incremental_refresh_video (offset size : Z) : M vmm unit :=
  let! v := get_vm in
  Serial.put_kernel (fun m =>
    memcpy m (offset + VIDEO_BUFFER_BASE) (offset + video_buffer (regions v)) size).

Definition full_refresh_video : M vmm unit :=
  let! v := get_vm in
  Serial.put_kernel (fun m =>
    memcpy m VIDEO_BUFFER_BASE (video_buffer (regions v)) (VIDEO_BUFFER_ROW * VIDEO_BUFFER_COL * 2)).

Definition video_buffer_mmio_write (addr access_size value : Z) : M vmm unit :=
  let! v := get_vm in
  let offset := u64 (addr - VIDEO_BUFFER_PAGE_FRAME) in
  assert (u64 (offset + access_size) <=? PAGE_SIZE_4K) ;;;
  let p := video_buffer (regions v) + offset in
  (if access_size =? ACCESS_IN_BYTE then Serial.put_kernel (fun m => wr8 m p value)
   else if access_size =? ACCESS_IN_WORD then Serial.put_kernel (fun m => store16 m p value)
   else if access_size =? ACCESS_IN_DWORD then Serial.put_kernel (fun m => store32 m p value)
   else if access_size =? ACCESS_IN_QWORD then Serial.put_kernel (fun m => store64 m p value)
   else stop Halted) ;;;
  incremental_refresh_video offset access_size.

Definition device_video_init : M vmm unit :=
  let! v := get_vm in
  in_kernel (setup_io_memory (ept_pml4_base (regions v)) VIDEO_BUFFER_PAGE_FRAME) ;;;
  register_mmio_operation (MmioOp VIDEO_BUFFER_PAGE_FRAME (VIDEO_BUFFER_PAGE_FRAME + PAGE_SIZE_4K)
    (Some video_buffer_mmio_read_cb) (Some video_buffer_mmio_write_cb)).
End Video.

(** * Properties of the devices *)

(** ** Interval timer *)
Definition pit_program (lo hi : Z) : M vmm unit :=
  Pit.pit_outb Pit.PIT_CONTROL_PORT 0x36 ;;;
  Pit.pit_outb Pit.PIT_CHANNEL0_PORT lo ;;;
  Pit.pit_outb Pit.PIT_CHANNEL0_PORT hi.

Lemma pit_threshold_bound d : 0 < d < 2 ^ 16 ->
  0 < Pit.OSCILLATPR_CHIP_FREQUENCY / d /\
  0 <= 1000 / (Pit.OSCILLATPR_CHIP_FREQUENCY / d) <= 55.
Proof.
  intros Hd. unfold Pit.OSCILLATPR_CHIP_FREQUENCY.
  assert (H18 : 18 <= 1193182 / d) by (apply Z.div_le_lower_bound; lia).
  split; [lia|]. split; [apply Z.div_pos; lia|].
  apply Z.lt_succ_r, Z.div_lt_upper_bound; lia.
Qed.

(** What a write does to the timer alone. *)
Definition pit_write (port_id byte : Z) (p : pit8253_blob) : outcome pit8253_blob :=
  if port_id =? Pit.PIT_CONTROL_PORT then
    if byte =? 0x36 then Ret (p <| initial_counter := 0 |> <| divisor := 0 |>) else Stop Halted
  else if port_id =? Pit.PIT_CHANNEL0_PORT then
    if initial_counter p =? 0 then Ret (p <| divisor := Z.land byte 0xff |> <| initial_counter := initial_counter p + 1 |>)
    else if initial_counter p =? 1 then
      let d := Z.land (Z.lor (divisor p) (Z.shiftl byte 8)) 0xffff in
      if d =? 0 then Stop DivideError
      else if Pit.OSCILLATPR_CHIP_FREQUENCY / d =? 0 then Stop DivideError
      else Ret (Vmm.Pit (initial_counter p + 1) d (1000 / (Pit.OSCILLATPR_CHIP_FREQUENCY / d)) (last_tsc p))
    else Stop Halted
  else Stop Halted.

(** A command that only acts on the timer. *)
Definition on_pit (o : pit8253_blob -> outcome pit8253_blob) : M vmm unit := fun s =>
  match o (pit (vm s)) with
  | Ret p => Ret (tt, s <| vm ::= fun v => v <| pit := p |> |>)
  | Stop f => Stop f
  end.

Lemma pit_outb_on port b s : Pit.pit_outb port b s = on_pit (pit_write port b) s.
Proof.
  unfold Pit.pit_outb, pit_write, on_pit.
  destruct (port =? Pit.PIT_CONTROL_PORT).
  { destruct (b =? 0x36); [|reflexivity]. by destruct s as [? ? []]. }
  destruct (port =? Pit.PIT_CHANNEL0_PORT); [|reflexivity].
  rewrite (bind_run _ _ _ _ _ eq_refl); cbv beta.
  destruct s as [k c [rg hs vp vc cs sb si pc [ic dv th lt] kb]]. cbn [vm pit initial_counter].
  destruct (ic =? 0); [reflexivity|]. destruct (ic =? 1); [|reflexivity].
  unfold set_pit, set_vm. do 3 (rewrite (bind_run _ _ _ _ _ eq_refl); cbv beta).
  unfold get_vm. rewrite (bind_run _ _ _ _ _ eq_refl); cbv beta.
  cbv [update]. cbn [vm pit divisor initial_counter threshold last_tsc].
  unfold Pit.udiv. destruct (_ =? 0); [reflexivity|]. cbn [ret].
  rewrite (bind_run _ _ _ _ _ eq_refl); cbv beta.
  destruct (_ =? 0); reflexivity.
Qed.

Lemma pit_outb_run port b s p : pit_write port b (pit (vm s)) = Ret p ->
  Pit.pit_outb port b s = Ret (tt, s <| vm ::= fun v => v <| pit := p |> |>).
Proof. intros H. rewrite pit_outb_on. unfold on_pit. by rewrite H. Qed.

Lemma pit_divisor_bytes lo hi : is_byte lo -> is_byte hi ->
  Z.land (Z.lor (Z.land lo 0xff) (Z.shiftl hi 8)) 0xffff = lo + 256 * hi.
Proof.
  unfold is_byte. intros Hlo Hhi. change 0xff with (Z.ones 8). change 0xffff with (Z.ones 16).
  rewrite !Z.land_ones by lia. rewrite (Z.mod_small lo), Z.lor_comm, lor_add_low by lia.
  rewrite Z.mod_small; lia.
Qed.

(** C35 Programming the timer: control byte [0x36], then the low and the high
    divisor byte. For a non-zero divisor the guest's period in milliseconds is set
    to [1000 / (1193182 / divisor)], at most 55, and only the timer changes; a
    third data byte halts the machine. A zero divisor, which the chip takes as
    65536, makes the monitor divide by zero. *)
Theorem pit_programming (s : vmm) (lo hi : Z) : is_byte lo -> is_byte hi ->
  let d := lo + 256 * hi in
  (d = 0 -> pit_program lo hi s = Stop DivideError) /\
  (d <> 0 -> exists s', pit_program lo hi s = Ret (tt, s') /\
     s' = s <| vm ::= fun v => v <| pit :=
            Vmm.Pit 2 d (1000 / (Pit.OSCILLATPR_CHIP_FREQUENCY / d)) (last_tsc (pit v)) |> |> /\
     0 <= threshold (pit (vm s')) <= 55 /\
     forall b, Pit.pit_outb Pit.PIT_CHANNEL0_PORT b s' = Stop Halted).
Proof.
  intros Hlo Hhi d. pose proof (pit_divisor_bytes lo hi Hlo Hhi) as E. fold d in E.
  assert (Hrun : pit_program lo hi s = on_pit (pit_write Pit.PIT_CHANNEL0_PORT hi)
    (s <| vm ::= fun v => v <| pit :=
       Vmm.Pit 1 (Z.land lo 0xff) (threshold (pit v)) (last_tsc (pit v)) |> |>)).
  { unfold pit_program. erewrite bind_run by (by apply pit_outb_run).
    erewrite bind_run by (by apply pit_outb_run). rewrite pit_outb_on.
    by destruct s as [? ? []]. }
  rewrite Hrun. unfold on_pit, pit_write. cbn -[Z.land Z.lor Z.shiftl Z.div Z.eqb].
  change (1 =? 1) with true. change (1 =? 0) with false.
  change (Pit.PIT_CHANNEL0_PORT =? Pit.PIT_CONTROL_PORT) with false.
  change (Pit.PIT_CHANNEL0_PORT =? Pit.PIT_CHANNEL0_PORT) with true. cbv iota. rewrite E. split.
  - intros ->. reflexivity.
  - unfold is_byte in *. intros Hd. destruct (pit_threshold_bound d ltac:(unfold d in *; lia)) as [Hf Ht].
    destruct (Z.eqb_spec d 0); [done|].
    destruct (Z.eqb_spec (Pit.OSCILLATPR_CHIP_FREQUENCY / d) 0) as [E0|_].
    { rewrite E0 in Hf. lia. }
    eexists. split; [reflexivity|]. split; [by destruct s as [? ? []]|]. split; [exact Ht|].
    intros b. by rewrite pit_outb_on.
Qed.
Lemma pit_programming_witness :
  exists s', pit_program 0x9c 0x2e sample_vmm = Ret (tt, s') /\ threshold (pit (vm s')) = 10 /\
    pit_program 0 0 sample_vmm = Stop DivideError.
Proof.
  destruct (pit_programming sample_vmm 0x9c 0x2e ltac:(unfold is_byte; lia) ltac:(unfold is_byte; lia))
    as [_ H]. destruct (H ltac:(lia)) as (s' & Hr & -> & _ & _).
  destruct (pit_programming sample_vmm 0 0 ltac:(unfold is_byte; lia) ltac:(unfold is_byte; lia)) as [H0 _].
  eexists. split; [exact Hr|]. split; [reflexivity|]. by apply H0.
Defined.

(** ** Interrupt controllers *)

(** A byte the guest writes to a controller's command or data port. *)
Inductive pic_access := PicAccess (is_master is_data : bool) (byte : Z).
Definition pic_out (a : pic_access) : M vmm unit :=
  match a with
  | PicAccess true d b =>
      Pic.master_pic_outb (if d then Pic.PIC_MASTER_DATA_PORT else Pic.PIC_MASTER_COMMAND_PORT) b
  | PicAccess false d b =>
      Pic.slave_pic_outb (if d then Pic.PIC_SLAVE_DATA_PORT else Pic.PIC_SLAVE_COMMAND_PORT) b
  end.
Definition is_icw1 (b : Z) : bool := truthy (Z.land b Pic.ICW1_INIT).
Definition starts_master (a : pic_access) : bool :=
  match a with PicAccess true false b => is_icw1 b | _ => false end.
Definition master_data (a : pic_access) : option Z :=
  match a with PicAccess true true b => Some b | _ => None end.
Definition is_eoi (a : pic_access) : bool :=
  match a with PicAccess _ false b => b =? Pic.PIC_EOI | _ => false end.

(** The registers after one access. *)
Definition pic_write (a : pic_access) (p : pic8259_blob) : pic8259_blob :=
  let init (v : bool) (old : Z) := if v then 1 else old in
  let eoi := if is_eoi a then 0 else interrupt_delivery_pending p in
  match a with
  | PicAccess true false b =>
      p <| master_pic_command := b |>
        <| is_master_pic_initializing ::= init (is_icw1 b) |> <| interrupt_delivery_pending := eoi |>
  | PicAccess false false b =>
      p <| slave_pic_command := b |>
        <| is_slave_pic_initializing ::= init (is_icw1 b) |> <| interrupt_delivery_pending := eoi |>
  | PicAccess true true b =>
      if truthy (is_master_pic_initializing p)
      then p <| master_pic_data := b |> <| master_pic_offset := b |> <| is_master_pic_initializing := 0 |>
      else p <| master_pic_data := b |>
  | PicAccess false true b =>
      if truthy (is_slave_pic_initializing p)
      then p <| slave_pic_data := b |> <| slave_pic_offset := b |> <| is_slave_pic_initializing := 0 |>
      else p <| slave_pic_data := b |>
  end.

Definition with_pic (s : vmm) (p : pic8259_blob) : vmm := s <| vm ::= fun v => v <| pic := p |> |>.

Lemma pic_out_run a s : pic_out a s = Ret (tt, with_pic s (pic_write a (pic (vm s)))).
Proof.
  destruct s as [k c [rg hs vp vc cs sb si pc pt kb]], a as [[] [] b];
    cbv [pic_out pic_write is_eoi with_pic update]; cbn [vm pic].
  - unfold Pic.master_pic_outb. change (Pic.PIC_MASTER_DATA_PORT =? Pic.PIC_MASTER_COMMAND_PORT) with false.
    change (Pic.PIC_MASTER_DATA_PORT =? Pic.PIC_MASTER_DATA_PORT) with true. cbv iota.
    cbv [set_pic set_vm get_vm bind modify gets update]; cbn [vm pic is_master_pic_initializing].
    by destruct (truthy (is_master_pic_initializing pc)).
  - unfold Pic.master_pic_outb. change (Pic.PIC_MASTER_COMMAND_PORT =? Pic.PIC_MASTER_COMMAND_PORT) with true.
    cbv iota. cbv [set_pic set_vm get_vm bind modify gets update is_icw1]; cbn [vm pic master_pic_command].
    destruct (truthy (Z.land b Pic.ICW1_INIT)); cbv [ret]; cbn [vm pic master_pic_command];
      destruct (b =? Pic.PIC_EOI); by destruct pc.
  - unfold Pic.slave_pic_outb. change (Pic.PIC_SLAVE_DATA_PORT =? Pic.PIC_SLAVE_COMMAND_PORT) with false.
    change (Pic.PIC_SLAVE_DATA_PORT =? Pic.PIC_SLAVE_DATA_PORT) with true. cbv iota.
    cbv [set_pic set_vm get_vm bind modify gets update]; cbn [vm pic is_slave_pic_initializing].
    by destruct (truthy (is_slave_pic_initializing pc)).
  - unfold Pic.slave_pic_outb. change (Pic.PIC_SLAVE_COMMAND_PORT =? Pic.PIC_SLAVE_COMMAND_PORT) with true.
    cbv iota. cbv [set_pic set_vm get_vm bind modify gets update is_icw1]; cbn [vm pic slave_pic_command].
    destruct (truthy (Z.land b Pic.ICW1_INIT)); cbv [ret]; cbn [vm pic slave_pic_command];
      destruct (b =? Pic.PIC_EOI); by destruct pc.
Qed.

Definition pic_writes (l : list pic_access) (p : pic8259_blob) : pic8259_blob :=
  foldl (fun p a => pic_write a p) p l.

Lemma pic_outs_run l s : miter pic_out l s = Ret (tt, with_pic s (pic_writes l (pic (vm s)))).
Proof.
  revert s. induction l as [|a l IH]; intros s; cbn [miter].
  - destruct s as [? ? []]. reflexivity.
  - run_with (pic_out_run a s). rewrite IH. by destruct s as [? ? []].
Qed.

(** While no ICW1 arrives at the master, its offset stays and its data register
    holds the last data byte. *)
Lemma pic_writes_idle l p : is_master_pic_initializing p = 0 ->
  Forall (fun a => starts_master a = false) l ->
  master_pic_offset (pic_writes l p) = master_pic_offset p /\
  master_pic_data (pic_writes l p) = default (master_pic_data p) (last (omap master_data l)) /\
  is_master_pic_initializing (pic_writes l p) = 0.
Proof.
  revert p. induction l as [|a l IH]; intros p Hp Hl; [done|].
  apply Forall_cons in Hl as [Ha Hl]. cbn [pic_writes foldl].
  assert (Hstep : is_master_pic_initializing (pic_write a p) = 0 /\
    master_pic_offset (pic_write a p) = master_pic_offset p /\
    master_pic_data (pic_write a p) = default (master_pic_data p) (master_data a)).
  { destruct a as [[] [] b]; unfold pic_write, starts_master in *.
    - rewrite Hp. done.
    - rewrite Ha. done.
    - by destruct (truthy (is_slave_pic_initializing p)).
    - done. }
  destruct Hstep as (H1 & H2 & H3). destruct (IH _ H1 Hl) as (H4 & H5 & H6).
  fold (pic_writes l (pic_write a p)) in *. split; [congruence|]. split; [|done].
  rewrite H5, H3. cbn [omap list_omap]. destruct (master_data a) as [d|]; [|done].
  rewrite last_cons. by destruct (last (omap master_data l)).
Qed.

Lemma pic_writes_slave l p : Forall (fun a => match a with PicAccess m _ _ => m = false end) l ->
  is_master_pic_initializing (pic_writes l p) = is_master_pic_initializing p.
Proof.
  revert p. induction l as [|[m d b] l IH]; intros p Hl; [done|].
  apply Forall_cons in Hl as [-> Hl]. cbn [pic_writes foldl]. fold (pic_writes l).
  etrans; [apply IH, Hl|]. destruct d; [|done]. cbn. by destruct (truthy (is_slave_pic_initializing p)).
Qed.

(** An acknowledged interrupt stays acknowledged. *)
Lemma pic_writes_pending l p :
  interrupt_delivery_pending (pic_writes l p) =
    if existsb is_eoi l then 0 else interrupt_delivery_pending p.
Proof.
  revert p. induction l as [|a l IH]; intros p; [done|].
  cbn [pic_writes foldl existsb]. fold (pic_writes l). etrans; [apply IH|].
  assert (Ha : interrupt_delivery_pending (pic_write a p) =
    if is_eoi a then 0 else interrupt_delivery_pending p).
  { destruct a as [[] [] b]; try done; cbn; by repeat case_match. }
  rewrite Ha. by destruct (is_eoi a), (existsb is_eoi l).
Qed.

(** C34 Programming the interrupt controllers: after any traffic, an ICW1 command to
    the master and its next data byte set the vector offset, whatever goes to the
    slave in between and whatever follows short of another ICW1; the data port then
    reads back the last data byte, the interrupt mask. A pending delivery is
    acknowledged exactly when some command was [PIC_EOI]. No access halts the
    machine and nothing but the controllers changes. *)
Theorem pic_programming (s : vmm) (pre mid post : list pic_access) (icw1 off : Z) :
  is_icw1 icw1 = true ->
  Forall (fun a => match a with PicAccess m _ _ => m = false end) mid ->
  Forall (fun a => starts_master a = false) post ->
  let l := pre ++ [PicAccess true false icw1] ++ mid ++ [PicAccess true true off] ++ post in
  exists s', miter pic_out l s = Ret (tt, s') /\ s' = with_pic s (pic (vm s')) /\
    master_pic_offset (pic (vm s')) = off /\
    Pic.master_pic_inb Pic.PIC_MASTER_DATA_PORT s' = Ret (default off (last (omap master_data post)), s') /\
    interrupt_delivery_pending (pic (vm s')) =
      if existsb is_eoi l then 0 else interrupt_delivery_pending (pic (vm s)).
Proof.
  intros Hi Hmid Hpost l. set (p' := pic_writes l (pic (vm s))).
  exists (with_pic s p'). split; [apply pic_outs_run|]. split; [reflexivity|].
  assert (H : master_pic_offset p' = off /\ master_pic_data p' = default off (last (omap master_data post))).
  { subst p' l. unfold pic_writes. rewrite !foldl_app. cbn [foldl]. fold (pic_writes pre (pic (vm s))).
    set (p0 := pic_writes pre (pic (vm s))). set (p1 := pic_write (PicAccess true false icw1) p0).
    fold (pic_writes mid p1). set (p2 := pic_writes mid p1).
    assert (H2 : is_master_pic_initializing p2 = 1).
    { unfold p2. rewrite pic_writes_slave by done. unfold p1, pic_write. rewrite Hi. done. }
    set (p3 := pic_write (PicAccess true true off) p2). fold (pic_writes post p3).
    assert (H3 : is_master_pic_initializing p3 = 0 /\ master_pic_offset p3 = off /\ master_pic_data p3 = off)
      by (unfold p3, pic_write; rewrite H2; done).
    destruct H3 as (H31 & H32 & H33). destruct (pic_writes_idle post p3 H31 Hpost) as (-> & -> & _).
    by rewrite H32, H33. }
  destruct H as [H1 H2]. split; [exact H1|]. split.
  - rewrite <- H2. reflexivity.
  - apply pic_writes_pending.
Qed.

Lemma pic_programming_witness :
  exists s', miter pic_out [PicAccess true false 0x11; PicAccess false false 0x11; PicAccess true true 0x30;
      PicAccess false true 0x38; PicAccess true true 4; PicAccess true true 0xfd; PicAccess true false 0x20]
      sample_vmm = Ret (tt, s') /\
    master_pic_offset (pic (vm s')) = 0x30 /\
    Pic.master_pic_inb Pic.PIC_MASTER_DATA_PORT s' = Ret (0xfd, s').
Proof.
  destruct (pic_programming sample_vmm [] [PicAccess false false 0x11]
    [PicAccess false true 0x38; PicAccess true true 4; PicAccess true true 0xfd; PicAccess true false 0x20]
    0x11 0x30) as (s' & Hr & _ & Ho & Hb & _).
  - reflexivity.
  - repeat constructor.
  - repeat constructor.
  - exists s'. split; [exact Hr|]. split; [exact Ho|exact Hb].
Defined.

(** ** Serial port *)

(** What the guest has sent since the last flush, and the text of a flushed line:
    the characters up to the first zero. *)
Fixpoint until_zero (l : list Z) : list Z :=
  match l with
  | [] => []
  | c :: l => if c =? 0 then [] else c :: until_zero l
  end.
Definition flushes (pending : list Z) (b : Z) : bool :=
  (Z.of_nat (length pending) + 1 =? PAGE_SIZE_4K - 1) || (b =? 10).
(** The lines completed by a stream of bytes, and what stays in the buffer. *)
Fixpoint serial_lines (pending l : list Z) : list (list Z) * list Z :=
  match l with
  | [] => ([], pending)
  | b :: l =>
      if flushes pending b then let '(ls, p) := serial_lines [] l in ((pending ++ [b]) :: ls, p)
      else serial_lines (pending ++ [b]) l
  end.
Definition line_header (s : vmm) : list Z :=
  chars "[vm:0x" ++ hexadecimal true (vm_ptr s) ++ chars "(vpid:" ++ decimal (vpid (vm s)) ++ chars ")] ".

Record serial_ok (s : vmm) (pending : list Z) : Prop := {
  so_iptr : serial_line_iptr (vm s) = Z.of_nat (length pending);
  so_room : Z.of_nat (length pending) < PAGE_SIZE_4K - 1;
  so_bytes : forall i, 0 <= i < PAGE_SIZE_4K ->
    rd8 (k_mem (kern s)) (serial_line_buffer (vm s) + i) = nth (Z.to_nat i) pending 0;
  so_vpid : 0 <= vpid (vm s) < 2 ^ 31;
  so_ptr : 0 <= vm_ptr s < 2 ^ 64 }.

(** The parts of the state the port changes: the buffer's page, its index, the console. *)
Definition serial_after (s : vmm) (m : memory) (i : Z) (c : list Z) : vmm :=
  s <| kern ::= fun k => k <| k_mem := m |> |> <| vm ::= fun v => v <| serial_line_iptr := i |> |>
    <| console := c |>.
Definition outside_page (p : Z) (m m' : memory) : Prop :=
  forall a, a < p \/ p + PAGE_SIZE_4K <= a -> rd8 m' a = rd8 m a.

Lemma until_zero_string m p l : Forall is_byte l ->
  (forall i, (i < length l)%nat -> rd8 m (p + Z.of_nat i) = l !!! i) -> rd8 m (p + Z.of_nat (length l)) = 0 ->
  string_at m p (until_zero l) /\ (length (until_zero l) <= length l)%nat /\ Forall is_byte (until_zero l).
Proof.
  revert p. induction l as [|c l IH]; intros p Hb Hl He.
  { split; [|split; [done|constructor]]. split; [intros i Hi; cbn in Hi; lia|constructor|done]. }
  apply Forall_cons in Hb as [Hc Hb].
  pose proof (Hl 0%nat ltac:(cbn; lia)) as H0. cbn in H0. rewrite Z.add_0_r in H0.
  cbn [until_zero]. destruct (Z.eqb_spec c 0) as [->|Hz].
  { split; [|split; [cbn; lia|constructor]]. split; [intros i Hi; cbn in Hi; lia|constructor|].
    cbn. by rewrite Z.add_0_r. }
  destruct (IH (p + 1)) as ([Hs1 Hs2 Hs3] & Hlen & Hbs); [done| | |].
  - intros i Hi. change (l !!! i) with ((c :: l) !!! S i). rewrite <- Hl by (cbn; lia). f_equal. lia.
  - rewrite <- He. f_equal. cbn [length]. lia.
  - split; [|split; [cbn; lia|by constructor]]. split.
    + intros [|i] Hi; [by rewrite Z.add_0_r|]. cbn [length] in Hi.
      change ((c :: until_zero l) !!! S i) with (until_zero l !!! i).
      rewrite <- Hs1 by lia. f_equal. lia.
    + by constructor.
    + rewrite <- Hs3. f_equal. cbn [length]. lia.
Qed.

Lemma line_format_pieces : Serial.line_format =
  chars "[vm:0x" ++ 37 :: 120 :: chars "(vpid:" ++ 37 :: 100 :: chars ")] " ++ 37 :: 115 :: [].
Proof. vm_compute. reflexivity. Qed.

Lemma line_render s text : 0 <= vpid (vm s) < 2 ^ 31 -> 0 <= vm_ptr s < 2 ^ 64 ->
  render {[serial_line_buffer (vm s) := text]} Serial.line_format
    [vm_ptr s; vpid (vm s); serial_line_buffer (vm s)] = Some (line_header s ++ text).
Proof.
  intros Hv Hp. set (strs := {[serial_line_buffer (vm s) := text]} : gmap Z (list Z)).
  assert (Hlk : directive_text strs 115 (serial_line_buffer (vm s)) = Some text) by apply lookup_singleton_eq.
  pose proof (directive_small_decimal strs (vpid (vm s)) Hv) as Hd.
  assert (Hx : directive_text strs 120 (vm_ptr s) = Some (hexadecimal true (vm_ptr s))).
  { change (directive_text strs 120 (vm_ptr s)) with (Some (hexadecimal true (u64 (vm_ptr s)))).
    by rewrite u64_small by lia. }
  rewrite line_format_pieces, !app_comm_cons, render_literal by reflexivity.
  cbn [app]. rewrite render_directive, Hx, render_literal by reflexivity.
  rewrite render_directive, Hd, render_literal, render_directive, Hlk by reflexivity.
  cbn [mbind option_bind render].
  unfold line_header. by rewrite app_nil_r, <- !app_assoc.
Qed.

Lemma line_header_bytes s : 0 <= vpid (vm s) < 2 ^ 31 -> 0 <= vm_ptr s < 2 ^ 64 ->
  Forall is_byte (line_header s).
Proof.
  intros Hv Hp. unfold line_header. rewrite !Forall_app.
  repeat split; try apply chars_bytes; [by apply hexadecimal_bytes|apply decimal_bytes; lia].
Qed.

Lemma print_line_run s text : 0 <= vpid (vm s) < 2 ^ 31 -> 0 <= vm_ptr s < 2 ^ 64 ->
  string_at (k_mem (kern s)) (serial_line_buffer (vm s)) text -> Forall is_byte text ->
  (length text < Z.to_nat PAGE_SIZE_4K)%nat ->
  Serial.print_line s = Ret (tt, s <| console ::= fun c => c ++ line_header s ++ text |>).
Proof.
  intros Hv Hp Hs Hb Hl. unfold Serial.print_line. rewrite (bind_run _ _ _ _ _ eq_refl); cbv beta.
  unfold vmm_printk. rewrite (printk_run _ _ (line_header s ++ text) {[serial_line_buffer (vm s) := text]}).
  - cbn [con_out con_mem]. rewrite u8_bytes; [reflexivity|].
    apply Forall_app. split; [by apply line_header_bytes|done].
  - lia.
  - by apply (bool_decide_unpack _).
  - apply map_Forall_singleton. split; [exact Hs|exact Hl].
  - by apply line_render.
Qed.

(** One byte: a flushed line goes to the console, any other byte to the buffer. *)
Definition flushed (s : vmm) (line : list Z) : list Z := line_header s ++ until_zero line.

Lemma serial_after_ok s m i c old pending :
  serial_ok s old -> Z.of_nat (length (pending)) < PAGE_SIZE_4K - 1 -> i = Z.of_nat (length pending) ->
  (forall j, 0 <= j < PAGE_SIZE_4K -> rd8 m (serial_line_buffer (vm s) + j) = nth (Z.to_nat j) pending 0) ->
  serial_ok (serial_after s m i c) pending.
Proof. intros [] Hl -> Hm. split; done. Qed.

Lemma serial_outb_bytes s pending b : serial_ok s pending -> is_byte b ->
  forall j, 0 <= j < PAGE_SIZE_4K ->
  rd8 (wr8 (k_mem (kern s)) (serial_line_buffer (vm s) + serial_line_iptr (vm s)) b) (serial_line_buffer (vm s) + j) =
  nth (Z.to_nat j) (pending ++ [b]) 0.
Proof.
  intros [Hi Hr Hb _ _] Hbyte j Hj. rewrite rd8_wr8, Hi. unfold is_byte in Hbyte. case_decide as E.
  - replace j with (Z.of_nat (length pending)) by lia. rewrite Nat2Z.id.
    rewrite app_nth2, Nat.sub_diag by lia. cbn. by rewrite u8_small by lia.
  - rewrite Hb by done. destruct (decide (j < Z.of_nat (length pending))).
    + by rewrite app_nth1 by lia.
    + rewrite (nth_overflow pending) by lia. rewrite app_nth2 by lia.
      destruct (Z.to_nat j - length pending)%nat as [|[|k]] eqn:En; [lia|done..].
Qed.

Lemma serial_outb_head s pending b port : serial_ok s pending -> is_byte b ->
  let m := wr8 (k_mem (kern s)) (serial_line_buffer (vm s) + serial_line_iptr (vm s)) b in
  let s1 := serial_after s m (Z.of_nat (length pending) + 1) (console s) in
  Serial.device_serial_outb port b s =
  if flushes pending b then
    (Serial.print_line ;;;
     Serial.put_kernel (fun m => memset m (serial_line_buffer (vm s)) 0x0 PAGE_SIZE_4K) ;;;
     set_vm (fun v => v <| serial_line_iptr := 0 |>)) s1
  else Ret (tt, s1).
Proof.
  intros [Hi Hr Hb _ _] Hbyte m s1. unfold Serial.device_serial_outb.
  rewrite (bind_run _ _ _ _ _ eq_refl); cbv beta. rewrite assert_run by (apply Z.ltb_lt; lia).
  do 3 (rewrite (bind_run _ _ _ _ _ eq_refl); cbv beta).
  unfold flushes. rewrite <- Hi.
  assert (E : s1 = (s <| kern ::= fun k => k <| k_mem ::= fun m => wr8 m (serial_line_buffer (vm s) + serial_line_iptr (vm s)) b |> |>)
    <| vm ::= fun v => v <| serial_line_iptr ::= fun i => i + 1 |> |>).
  { unfold s1, m. rewrite <- Hi. by destruct s. }
  rewrite <- E.
  change (serial_line_iptr (vm s1)) with (Z.of_nat (length pending) + 1). rewrite <- Hi.
  by destruct ((serial_line_iptr (vm s) + 1 =? PAGE_SIZE_4K - 1) || (b =? 10)).
Qed.

Lemma serial_outb_run s pending b port : serial_ok s pending -> Forall is_byte pending -> is_byte b ->
  exists m i c, let s' := serial_after s m i c in
    Serial.device_serial_outb port b s = Ret (tt, s') /\
    outside_page (serial_line_buffer (vm s)) (k_mem (kern s)) m /\
    if flushes pending b
    then serial_ok s' [] /\ c = console s ++ flushed s (pending ++ [b])
    else serial_ok s' (pending ++ [b]) /\ c = console s.
Proof.
  intros Hok Hp Hb. pose proof Hok as [Hi Hr Hby Hv Hptr].
  set (B := serial_line_buffer (vm s)). set (m := wr8 (k_mem (kern s)) (B + serial_line_iptr (vm s)) b).
  pose proof (serial_outb_bytes s pending b Hok Hb) as Hm. fold B m in Hm.
  assert (Hout : outside_page B (k_mem (kern s)) m).
  { intros a Ha. unfold m. apply rd8_wr8_ne. unfold PAGE_SIZE_4K in *. lia. }
  assert (Hlen : length (pending ++ [b]) = S (length pending)) by (rewrite length_app; cbn; lia).
  pose proof (serial_outb_head s pending b port Hok Hb) as Hrun. cbv zeta in Hrun. fold B m in Hrun.
  set (s1 := serial_after s m (Z.of_nat (length pending) + 1) (console s)) in *. rewrite Hrun.
  destruct (flushes pending b) eqn:Ef.
  - assert (Hcs : Forall is_byte (pending ++ [b])) by (apply Forall_app; split; [done|by constructor]).
    destruct (until_zero_string m B (pending ++ [b]) Hcs) as (Hs & Hl & Hbs).
    { intros j Hj. rewrite Hm by lia. rewrite Nat2Z.id. rewrite nth_lookup, list_lookup_total_alt.
      by destruct (lookup_lt_is_Some_2 (pending ++ [b]) j ltac:(lia)) as [x ->]. }
    { rewrite Hm by lia. rewrite Nat2Z.id. by apply nth_overflow. }
    rewrite (bind_run _ _ _ _ _ (print_line_run s1 (until_zero (pending ++ [b])) Hv Hptr Hs Hbs
      ltac:(unfold PAGE_SIZE_4K in *; lia))); cbv beta.
    exists (memset m B 0 PAGE_SIZE_4K), 0, (console s ++ flushed s (pending ++ [b])). cbv zeta.
    split; [by destruct s|]. split.
    + intros a Ha. rewrite rd8_memset by (unfold PAGE_SIZE_4K; lia). rewrite decide_False by lia. by apply Hout.
    + split; [|done]. split; [done|cbn; unfold PAGE_SIZE_4K; lia| |done|done].
      intros j Hj. change (rd8 (memset m B 0 PAGE_SIZE_4K) (B + j) = nth (Z.to_nat j) [] 0).
      rewrite rd8_memset by (unfold PAGE_SIZE_4K; lia). rewrite decide_True by lia. by destruct (Z.to_nat j).
  - unfold flushes in Ef. apply orb_false_iff in Ef as [Ef _]. apply Z.eqb_neq in Ef.
    exists m, (Z.of_nat (length pending) + 1), (console s). split; [done|]. split; [done|]. split; [|done].
    by apply (serial_after_ok _ _ _ _ pending); rewrite ?Hlen; [|lia..|].
Qed.

Lemma serial_after_twice s m i c m' i' c' :
  serial_after (serial_after s m i c) m' i' c' = serial_after s m' i' c'.
Proof. by destruct s as [[] ? []]. Qed.

Lemma serial_lines_bytes pending l : let '(ls, p) := serial_lines pending l in
  concat ls ++ p = pending ++ l.
Proof.
  revert pending. induction l as [|b l IH]; intros pending; cbn [serial_lines]; [by rewrite app_nil_r|].
  destruct (flushes pending b).
  - specialize (IH []). destruct (serial_lines [] l) as [ls p]. cbn [concat]. rewrite <- app_assoc, IH.
    by rewrite <- app_assoc.
  - specialize (IH (pending ++ [b])). destruct (serial_lines (pending ++ [b]) l) as [ls p].
    by rewrite IH, <- app_assoc.
Qed.

Lemma serial_stream_run port l s pending : serial_ok s pending -> Forall is_byte pending -> Forall is_byte l ->
  exists m, let '(ls, p) := serial_lines pending l in
    let s' := serial_after s m (Z.of_nat (length p)) (console s ++ concat (flushed s <$> ls)) in
    miter (Serial.device_serial_outb port) l s = Ret (tt, s') /\ serial_ok s' p /\
    outside_page (serial_line_buffer (vm s)) (k_mem (kern s)) m.
Proof.
  revert s pending. induction l as [|b l IH]; intros s pending Hok Hp Hl; cbn [miter serial_lines].
  { exists (k_mem (kern s)). cbn [fmap list_fmap concat]. rewrite app_nil_r.
    assert (E : serial_after s (k_mem (kern s)) (Z.of_nat (length pending)) (console s) = s).
    { rewrite <- (so_iptr s pending Hok). by destruct s as [[] ? []]. }
    rewrite E. split; [reflexivity|]. split; [done|]. by intros a _. }
  apply Forall_cons in Hl as [Hb Hl].
  destruct (serial_outb_run s pending b port Hok Hp Hb) as (m & i & c & Hr & Hout & H). cbv zeta in Hr.
  run_with Hr. destruct (flushes pending b); destruct H as [Hok' ->].
  - destruct (IH _ [] Hok' (Forall_nil_2 _) Hl) as (m' & H'). destruct (serial_lines [] l) as [ls p].
    cbv zeta in H'. rewrite serial_after_twice in H'. destruct H' as (Hr' & Hok2 & Hout').
    exists m'. cbv zeta. cbn [fmap list_fmap concat]. rewrite app_assoc. split; [exact Hr'|]. split; [exact Hok2|].
    intros a Ha. rewrite Hout' by done. by apply Hout.
  - destruct (IH _ (pending ++ [b]) Hok') as (m' & H'); [by apply Forall_app; split; [|constructor]|done|].
    destruct (serial_lines (pending ++ [b]) l) as [ls p].
    cbv zeta in H'. rewrite serial_after_twice in H'. destruct H' as (Hr' & Hok2 & Hout').
    exists m'. split; [exact Hr'|]. split; [exact Hok2|].
    intros a Ha. rewrite Hout' by done. by apply Hout.
Qed.

(** A complete line ends at its only newline, or after 4095 bytes; one still open has
    neither. *)
Definition complete_line (x : list Z) : Prop :=
  exists body b, x = body ++ [b] /\ Forall (fun c => c <> 10) body /\
    (b = 10 /\ Z.of_nat (length x) <= 4095 \/ Z.of_nat (length x) = 4095).
Definition open_line (x : list Z) : Prop :=
  Forall (fun c => c <> 10) x /\ Z.of_nat (length x) < 4095.

Lemma line_completed pending b : open_line pending ->
  if flushes pending b then complete_line (pending ++ [b]) else open_line (pending ++ [b]).
Proof.
  intros [Hn Hl]. assert (El : Z.of_nat (length (pending ++ [b])) = Z.of_nat (length pending) + 1)
    by (rewrite length_app; cbn; lia).
  unfold flushes. change (PAGE_SIZE_4K - 1) with 4095.
  destruct (Z.eqb_spec (Z.of_nat (length pending) + 1) 4095) as [E|E]; cbn [orb];
    [|destruct (Z.eqb_spec b 10) as [->|Hb]].
  - exists pending, b. split; [done|]. split; [done|]. right. lia.
  - exists pending, 10. split; [done|]. split; [done|]. left. split; [done|lia].
  - split; [|lia]. apply Forall_app. by split; [|constructor].
Qed.

Lemma serial_lines_complete pending l : open_line pending ->
  let '(ls, p) := serial_lines pending l in Forall complete_line ls /\ open_line p.
Proof.
  revert pending. induction l as [|b l IH]; intros pending Hp; cbn [serial_lines]; [by split|].
  pose proof (line_completed pending b Hp) as Hb. destruct (flushes pending b).
  - specialize (IH [] ltac:(split; [constructor|done])). destruct (serial_lines [] l) as [ls p].
    split; [|apply IH]. constructor; [done|apply IH].
  - by apply IH.
Qed.

(** C32 The serial line: any stream of bytes the guest sends is cut into lines that
    together with the bytes still in the buffer are the stream: each line ends at its
    only newline or is 4095 bytes long without one before its end, and the bytes kept
    hold no newline and are fewer than 4095. Each
    line reaches the console once, in order, behind the VM's header and up to its first
    zero byte; the port never halts the machine and writes no memory outside the
    buffer's page. *)
Theorem serial_stream (s : vmm) (port : Z) (pending l : list Z) :
  serial_ok s pending -> open_line pending -> Forall is_byte (pending ++ l) ->
  exists m ls p, let s' := serial_after s m (Z.of_nat (length p)) (console s ++ concat (flushed s <$> ls)) in
    miter (Serial.device_serial_outb port) l s = Ret (tt, s') /\
    concat ls ++ p = pending ++ l /\ Forall complete_line ls /\ open_line p /\ serial_ok s' p /\
    outside_page (serial_line_buffer (vm s)) (k_mem (kern s)) m.
Proof.
  intros Hok Hop [Hp Hl]%Forall_app. pose proof (serial_lines_bytes pending l) as Hc.
  pose proof (serial_lines_complete pending l Hop) as Hls.
  destruct (serial_stream_run port l s pending Hok Hp Hl) as (m & H).
  destruct (serial_lines pending l) as [ls p]. destruct H as (Hr & Hok' & Hout), Hls. by exists m, ls, p.
Qed.

Lemma sample_serial_ok : serial_ok sample_vmm [].
Proof.
  split; try (cbn; unfold PAGE_SIZE_4K; lia). intros i Hi. change (serial_line_buffer (vm sample_vmm)) with 0x710000.
  cbn [nth]. destruct (Z.to_nat i); reflexivity.
Qed.

Lemma serial_stream_witness : exists s',
  miter (Serial.device_serial_outb 0x3f8) [104; 105; 10; 120] sample_vmm = Ret (tt, s') /\
  observe (fun s => (console s, serial_line_iptr (vm s)))
    (miter (Serial.device_serial_outb 0x3f8) [104; 105; 10; 120] sample_vmm) =
    Some (tt, (chars "[vm:0x8000(vpid:1)] hi" ++ [10], 1)).
Proof.
  destruct (serial_stream sample_vmm 0x3f8 [] [104; 105; 10; 120] sample_serial_ok) as (m & ls & p & Hr & _).
  - split; [constructor|done].
  - repeat apply Forall_cons_2; try (unfold is_byte; lia). constructor.
  - eexists. split; [exact Hr|]. vm_compute. reflexivity.
Defined.

(** ** Video buffer *)
Definition access_bytes (n : Z) : Prop := n = 1 \/ n = 2 \/ n = 4 \/ n = 8.
Definition with_mem (s : vmm) (m : memory) : vmm := s <| kern ::= fun k => k <| k_mem := m |> |>.

(** The screen shows what the buffer holds. *)
Definition mirrored (s : vmm) : Prop := forall i, 0 <= i < PAGE_SIZE_4K ->
  rd8 (k_mem (kern s)) (Video.VIDEO_BUFFER_BASE + i) = rd8 (k_mem (kern s)) (video_buffer (regions (vm s)) + i).
(** The buffer's page is not the screen. *)
Definition video_ok (s : vmm) : Prop :=
  let b := video_buffer (regions (vm s)) in
  b + PAGE_SIZE_4K <= Video.VIDEO_BUFFER_BASE \/ Video.VIDEO_BUFFER_BASE + PAGE_SIZE_4K <= b.

(** Memory after a write of [n] bytes at offset [off]. *)
Definition video_written (s : vmm) (off n v : Z) : memory :=
  let b := video_buffer (regions (vm s)) in
  memcpy (store (Z.to_nat n) (k_mem (kern s)) (b + off) v) (off + Video.VIDEO_BUFFER_BASE) (off + b) n.

Lemma video_offset off n : 0 <= off < 2 ^ 32 -> access_bytes n ->
  u64 (Video.VIDEO_BUFFER_PAGE_FRAME + off - Video.VIDEO_BUFFER_PAGE_FRAME) = off /\
  (u64 (off + n) <=? PAGE_SIZE_4K) = (off + n <=? PAGE_SIZE_4K).
Proof.
  unfold access_bytes. intros Ho Hn. split; [rewrite <- (u64_small off) at 2 by lia; f_equal; lia|].
  by rewrite u64_small by lia.
Qed.

Lemma video_write_run s off n v : 0 <= off < 2 ^ 32 -> access_bytes n ->
  Video.video_buffer_mmio_write (Video.VIDEO_BUFFER_PAGE_FRAME + off) n v s =
  if off + n <=? PAGE_SIZE_4K then Ret (tt, with_mem s (video_written s off n v)) else Stop Halted.
Proof.
  intros Ho Hn. destruct (video_offset off n Ho Hn) as [E1 E2]. unfold Video.video_buffer_mmio_write.
  rewrite (bind_run _ _ _ _ _ eq_refl); cbv beta zeta. rewrite E1, E2.
  destruct (off + n <=? PAGE_SIZE_4K); [|done].
  destruct Hn as [->|[->|[->| ->]]]; by destruct s as [[]].
Qed.

Lemma video_read_run s off n : 0 <= off < 2 ^ 32 -> access_bytes n ->
  Video.video_buffer_mmio_read (Video.VIDEO_BUFFER_PAGE_FRAME + off) n s =
  if off + n <=? PAGE_SIZE_4K
  then Ret (load (Z.to_nat n) (k_mem (kern s)) (video_buffer (regions (vm s)) + off), s) else Stop Halted.
Proof.
  intros Ho Hn. destruct (video_offset off n Ho Hn) as [E1 E2]. unfold Video.video_buffer_mmio_read.
  rewrite (bind_run _ _ _ _ _ eq_refl); cbv beta zeta. rewrite E1, E2.
  destruct (off + n <=? PAGE_SIZE_4K); [|done].
  destruct Hn as [->|[->|[->| ->]]]; [|reflexivity..].
  change (load (Z.to_nat 1) (k_mem (kern s)) (video_buffer (regions (vm s)) + off)) with
    (rd8 (k_mem (kern s)) (video_buffer (regions (vm s)) + off) + 256 * 0).
  by rewrite Z.mul_0_r, Z.add_0_r.
Qed.

(** Both the buffer and the screen receive the bytes of the value. *)
Lemma video_written_bytes s off n v a : video_ok s -> access_bytes n -> 0 <= off -> off + n <= PAGE_SIZE_4K ->
  let b := video_buffer (regions (vm s)) in
  rd8 (video_written s off n v) a =
    if decide (b + off <= a < b + off + n) then u8 (v / 256 ^ (a - (b + off)))
    else if decide (Video.VIDEO_BUFFER_BASE + off <= a < Video.VIDEO_BUFFER_BASE + off + n)
         then u8 (v / 256 ^ (a - (Video.VIDEO_BUFFER_BASE + off)))
         else rd8 (k_mem (kern s)) a.
Proof.
  intros Hok Hn Ho Hle b. unfold video_ok in Hok. fold b in Hok. unfold video_written. fold b.
  unfold PAGE_SIZE_4K, access_bytes in *.
  assert (Hn' : Z.of_nat (Z.to_nat n) = n) by lia.
  rewrite rd8_memcpy by lia. rewrite rd8_store, rd8_store, Hn'.
  repeat case_decide; try lia; try reflexivity. f_equal. f_equal. f_equal. lia.
Qed.

(** C33 Video memory: an access of 1, 2, 4 or 8 bytes inside the page at
    [VIDEO_BUFFER_PAGE_FRAME] writes the value to the VM's buffer and to the same
    place of the screen and nowhere else, a read of the same cell returns it, and the
    screen keeps mirroring the buffer; an access that leaves the page halts. *)
Theorem video_write_read (s : vmm) (off n v : Z) :
  video_ok s -> access_bytes n -> 0 <= off < 2 ^ 32 ->
  let addr := Video.VIDEO_BUFFER_PAGE_FRAME + off in
  let b := video_buffer (regions (vm s)) in
  (off + n <= PAGE_SIZE_4K -> exists m, let s' := with_mem s m in
     Video.video_buffer_mmio_write addr n v s = Ret (tt, s') /\
     Video.video_buffer_mmio_read addr n s' = Ret (v mod 256 ^ n, s') /\
     (mirrored s -> mirrored s') /\
     forall a, ~ (b + off <= a < b + off + n) ->
       ~ (Video.VIDEO_BUFFER_BASE + off <= a < Video.VIDEO_BUFFER_BASE + off + n) ->
       rd8 m a = rd8 (k_mem (kern s)) a) /\
  (PAGE_SIZE_4K < off + n ->
     Video.video_buffer_mmio_write addr n v s = Stop Halted /\
     Video.video_buffer_mmio_read addr n s = Stop Halted).
Proof.
  intros Hok Hn Ho addr b. unfold addr. rewrite video_write_run, video_read_run by done. split.
  - intros Hle. assert (E : (off + n <=? PAGE_SIZE_4K) = true) by (by apply Z.leb_le). rewrite E.
    pose proof (fun a => video_written_bytes s off n v a Hok Hn (proj1 Ho) Hle) as Hby. cbv zeta in Hby. fold b in Hby.
    set (m := video_written s off n v) in *. exists m. cbv zeta. split; [reflexivity|]. split; [|split].
    + rewrite video_read_run, E by done. f_equal. f_equal.
      change (load (Z.to_nat n) m (b + off) = v mod 256 ^ n).
      assert (Hn' : Z.of_nat (Z.to_nat n) = n) by (unfold access_bytes in Hn; lia).
      rewrite <- Hn' at 2. rewrite <- (load_store (Z.to_nat n) m (b + off) v). apply load_ext.
      intros a Ha. rewrite Hn' in Ha. rewrite rd8_store, Hn', Hby. by rewrite !decide_True by lia.
    + intros Hmir i Hi. specialize (Hmir i Hi). change (rd8 m (Video.VIDEO_BUFFER_BASE + i) = rd8 m (b + i)).
      change (rd8 (k_mem (kern s)) (Video.VIDEO_BUFFER_BASE + i) = rd8 (k_mem (kern s)) (b + i)) in Hmir.
      rewrite !Hby. unfold video_ok in Hok. fold b in Hok. repeat case_decide; try lia; try done.
      f_equal. f_equal. f_equal. lia.
    + intros a H1 H2. rewrite Hby. by rewrite !decide_False by done.
  - intros Hlt. destruct (Z.leb_spec (off + n) PAGE_SIZE_4K); [lia|done].
Qed.

Lemma video_write_read_witness :
  exists m, Video.video_buffer_mmio_read (Video.VIDEO_BUFFER_PAGE_FRAME + 0xa0) 2 (with_mem sample_vmm m) =
    Ret (0x0748, with_mem sample_vmm m) /\
  Video.video_buffer_mmio_write (Video.VIDEO_BUFFER_PAGE_FRAME + 0xfff) 2 0 sample_vmm = Stop Halted.
Proof.
  assert (Hok : video_ok sample_vmm) by (right; cbn; unfold Video.VIDEO_BUFFER_BASE, PAGE_SIZE_4K; lia).
  destruct (video_write_read sample_vmm 0xa0 2 0x10748 Hok ltac:(unfold access_bytes; lia) ltac:(lia)) as [H _].
  destruct (H ltac:(unfold PAGE_SIZE_4K; lia)) as (m & _ & Hr & _). exists m. split; [exact Hr|].
  destruct (video_write_read sample_vmm 0xfff 2 0 Hok ltac:(unfold access_bytes; lia) ltac:(lia)) as [_ H'].
  apply H'. unfold PAGE_SIZE_4K. lia.
Defined.
