(* ===== verification/Event.v ===== *)
(** * Event: delivery of interrupts to the guest ([vm_monitor/vmx_event.c]).

    A raised vector is recorded in [interrupt_request_bitmap] and opens the
    interrupt window; the exit taken when the guest can accept an interrupt
    retires the one delivered last and injects the lowest vector raised. *)
From Stdlib Require Import ZArith Lia.
From stdpp Require Import base tactics list numbers gmap.
From S2P Require Import Prelude Memory PhysicalMemory Paging Ring Vmm.
Local Open Scope Z_scope.

Definition NR_VECTORS : Z := 15.
Definition valid_vector (vector : Z) : bool := (0 <=? vector) && (vector <? NR_VECTORS).

Definition request (vector : Z) (s : vmm) : Z := interrupt_request_bitmap s !!! Z.to_nat vector.
Definition set_request (vector v : Z) : M vmm unit :=
  modify (fun s => s <| interrupt_request_bitmap ::= <[Z.to_nat vector := v]> |>).

Definition raise_interrupt_raw (vector : Z) : M vmm unit :=
  assert (valid_vector vector) ;;;
  set_request vector 1.

(** The second shift count is negative for the master's vectors; x86 takes a
    count modulo 32, so the bit lies above the byte it is tested in. *)
Definition is_interrupt_pin_masked (vector : Z) : M vmm bool :=
  assert (valid_vector vector) ;;;
  let! v := get_vm in
  ret (((vector <=? 7) && truthy (Z.land (master_pic_data (pic v)) (Z.shiftl 1 vector)))
       || truthy (Z.land (slave_pic_data (pic v)) (Z.shiftl 1 (Z.land (vector - 8) 31)))).

Definition WINDOW_BIT : Z := Z.shiftl 1 2.
Definition disable_interrupt_window : M vmm unit :=
  let! ctls := vmx_read CTLS_PRI_PROC_BASED_VM_EXECUTION in
  let! _rc := vmx_write CTLS_PRI_PROC_BASED_VM_EXECUTION (Z.land ctls (u64 (Z.lnot WINDOW_BIT))) in
  ret tt.
Definition enable_interrupt_window : M vmm unit :=
  let! ctls := vmx_read CTLS_PRI_PROC_BASED_VM_EXECUTION in
  let! _rc := vmx_write CTLS_PRI_PROC_BASED_VM_EXECUTION (Z.lor ctls WINDOW_BIT) in
  ret tt.

Definition raise_interrupt (vector : Z) : M vmm unit :=
  let! masked := is_interrupt_pin_masked vector in
  if masked then ret tt
  else raise_interrupt_raw vector ;;; enable_interrupt_window.

Definition IF_BIT : Z := Z.shiftl 1 9.
Definition is_injectable : M vmm Z :=
  let! rflags := vmx_read GUEST_RFLAG in
  ret (Z.land rflags IF_BIT).

(** [1 << 31] is negative and sign-extends into the 64-bit word. *)
Definition inject_external_event (vector : Z) : M vmm unit :=
  let! rflags := vmx_read GUEST_RFLAG in
  assert (truthy (Z.land rflags IF_BIT)) ;;;
  let interrupt_info := Z.land vector 0xff in
  let interrupt_info := Z.lor interrupt_info (u64 (s32 (Z.shiftl 1 31))) in
  let! _rc := vmx_write VMENTRY_INTRRUPTION_INFO interrupt_info in
  ret tt.

(** [for (idx = 0; idx < 15; idx++) if (interrupt_request_bitmap[idx]) break;] *)
Fixpoint first_request (bitmap : list Z) (idx : Z) : Z :=
  match bitmap with
  | [] => idx
  | b :: bitmap => if truthy b then idx else first_request bitmap (idx + 1)
  end.

(** The part of the handler that cleans up after the vector delivered last. *)
Definition retire_delivered : M vmm unit :=
  let! v := get_vm in
  if negb (interrupt_delivery_vector (pic v) =? PIC_INVALID_VECTOR) then
    assert (valid_vector (interrupt_delivery_vector (pic v))) ;;;
    if interrupt_delivery_vector (pic v) =? 1 then
      let! _rc := in_kbd ring_dequeue in
      let! v := get_vm in
      if ring_empty (kbd v) then
        set_request 1 0 ;;;
        set_pic (fun p => p <| interrupt_delivery_vector := PIC_INVALID_VECTOR |>)
      else ret tt
    else
      set_request (interrupt_delivery_vector (pic v)) 0 ;;;
      set_pic (fun p => p <| interrupt_delivery_vector := PIC_INVALID_VECTOR |>)
  else ret tt.

(** The part that finds and injects the next one. *)
Definition deliver_next : M vmm unit :=
  let! idx := gets (fun s => first_request (interrupt_request_bitmap s) 0) in
  if idx <? NR_VECTORS then
    let! v := get_vm in
    inject_external_event (master_pic_offset (pic v) + idx) ;;;
    set_pic (fun p => p <| interrupt_delivery_vector := idx |>) ;;;
    set_pic (fun p => p <| interrupt_delivery_pending := 1 |>)
  else ret tt.

Definition interrupt_window_exit_sub_handler (exit : vmexit_info) : M vmm Z :=
  let! v := get_vm in
  let rsp := vcpu v in
  let! injectable := is_injectable in
  assert (truthy injectable) ;;;
  (if negb (truthy (interrupt_delivery_pending (pic v)))
   then retire_delivered ;;; deliver_next else ret tt) ;;;
  let! v := get_vm in
  (if negb (truthy (interrupt_delivery_pending (pic v)))
   then disable_interrupt_window else ret tt) ;;;
  ret rsp.

Definition vmx_event_preinit : M vmm unit :=
  modify (fun s => s <| interrupt_request_bitmap := replicate 15 0 |>).

(** * What the component promises

    Delivery as a state machine: the raised vectors, the one delivered last, whether
    the guest still has to acknowledge it, and the scancodes waiting. *)
Record delivery := Delivery {
  requests : list Z; serving : Z; unacknowledged : bool; keys : list Z }.

Definition view (s : vmm) : delivery :=
  Delivery (interrupt_request_bitmap s) (interrupt_delivery_vector (pic (vm s)))
    (truthy (interrupt_delivery_pending (pic (vm s)))) (queue (kbd (vm s))).

(** An acknowledged vector is retired: a key is consumed with each keyboard
    interrupt, and the keyboard stays raised while keys are left. *)
Definition retired (d : delivery) : delivery :=
  if serving d =? PIC_INVALID_VECTOR then d
  else if serving d =? 1 then
    match tail (keys d) with
    | [] => Delivery (<[1%nat := 0]> (requests d)) PIC_INVALID_VECTOR (unacknowledged d) []
    | ks => Delivery (requests d) 1 (unacknowledged d) ks
    end
  else Delivery (<[Z.to_nat (serving d) := 0]> (requests d)) PIC_INVALID_VECTOR
         (unacknowledged d) (keys d).
(** The lowest raised vector is delivered. *)
Definition delivered (d : delivery) : delivery * option Z :=
  let idx := first_request (requests d) 0 in
  if idx <? NR_VECTORS then (Delivery (requests d) idx true (keys d), Some idx) else (d, None).
Definition window (d : delivery) : delivery * option Z :=
  if unacknowledged d then (d, None) else delivered (retired d).

Record event_ok (s : vmm) : Prop := {
  eo_bitmap : length (interrupt_request_bitmap s) = 15%nat;
  eo_vector : interrupt_delivery_vector (pic (vm s)) = PIC_INVALID_VECTOR \/
    0 <= interrupt_delivery_vector (pic (vm s)) < NR_VECTORS;
  eo_ring : ring_ok (kbd (vm s)) }.

Definition interrupts_on (s : vmm) : Prop := truthy (Z.land (vmread (cur s) GUEST_RFLAG) IF_BIT) = true.

(** The parts of the state delivery changes. *)
Definition event_after (s : vmm) (bm : list Z) (r : ring) (p : pic8259_blob) (c : vmcs) : vmm :=
  s <| interrupt_request_bitmap := bm |> <| vm ::= fun v => v <| pic := p |> <| kbd := r |> |>
    <| cur := c |>.

Lemma event_after_same s :
  event_after s (interrupt_request_bitmap s) (kbd (vm s)) (pic (vm s)) (cur s) = s.
Proof. by destruct s as [? ? []]. Qed.

Lemma event_after_twice s bm r p c bm' r' p' c' :
  event_after (event_after s bm r p c) bm' r' p' c' = event_after s bm' r' p' c'.
Proof. by destruct s as [? ? []]. Qed.

Lemma view_after s bm r p c : view (event_after s bm r p c) =
  Delivery bm (interrupt_delivery_vector p) (truthy (interrupt_delivery_pending p)) (queue r).
Proof. reflexivity. Qed.

(** ** The window *)
Lemma first_request_spec l i : let r := first_request l i in
  i <= r <= i + Z.of_nat (length l) /\
  (forall j, i <= j < r -> truthy (l !!! Z.to_nat (j - i)) = false) /\
  (r < i + Z.of_nat (length l) -> truthy (l !!! Z.to_nat (r - i)) = true).
Proof.
  revert i. induction l as [|b l IH]; intros i; cbn [first_request length].
  { split; [lia|]. split; [intros; lia|intros; lia]. }
  destruct (truthy b) eqn:Eb.
  { split; [lia|]. split; [intros; lia|]. intros _. by rewrite Z.sub_diag. }
  destruct (IH (i + 1)) as (H1 & H2 & H3). set (r := first_request l (i + 1)) in *.
  split; [lia|]. split.
  - intros j Hj. destruct (Z.eq_dec j i) as [->|Hne]; [by rewrite Z.sub_diag|].
    replace (Z.to_nat (j - i)) with (S (Z.to_nat (j - (i + 1)))) by lia. apply H2. lia.
  - intros Hr. replace (Z.to_nat (r - i)) with (S (Z.to_nat (r - (i + 1)))) by lia. apply H3. lia.
Qed.

Definition event_info (vector : Z) : Z := Z.lor (Z.land vector 0xff) (u64 (s32 (Z.shiftl 1 31))).

Lemma inject_run v s : interrupts_on s ->
  inject_external_event v s =
  Ret (tt, s <| cur ::= fun c => vmwrite c VMENTRY_INTRRUPTION_INFO (event_info v) |>).
Proof.
  intros Hif. unfold inject_external_event. rewrite (bind_run _ _ _ _ _ eq_refl); cbv beta zeta.
  by rewrite assert_run by exact Hif.
Qed.

Lemma deliver_next_run s : interrupts_on s ->
  deliver_next s = Ret (tt,
    let idx := first_request (interrupt_request_bitmap s) 0 in
    if idx <? NR_VECTORS then
      event_after s (interrupt_request_bitmap s) (kbd (vm s))
        ((pic (vm s)) <| interrupt_delivery_vector := idx |> <| interrupt_delivery_pending := 1 |>)
        (vmwrite (cur s) VMENTRY_INTRRUPTION_INFO (event_info (master_pic_offset (pic (vm s)) + idx)))
    else s).
Proof.
  intros Hif. unfold deliver_next. rewrite (bind_run _ _ _ _ _ eq_refl); cbv beta zeta.
  destruct (_ <? NR_VECTORS); [|done].
  rewrite (bind_run _ _ _ _ _ eq_refl); cbv beta. run_with (inject_run
    (master_pic_offset (pic (vm s)) + first_request (interrupt_request_bitmap s) 0) s Hif).
  by destruct s as [? ? []].
Qed.

Lemma dequeue_run r : ring_ok r -> exists x r',
  ring_dequeue r = Ret (x, r') /\ ring_ok r' /\ queue r' = tail (queue r) /\ ring_size r' = ring_size r.
Proof.
  intros Hok. destruct (read_loop_run 1 [] 0 r Hok) as (r' & Hr & Hok' & Hs & Hq).
  eexists _, r'. split; [exact Hr|]. split; [done|]. split; [|done]. rewrite Hq. by destruct (queue r).
Qed.

(** Delivery changes two registers of the controllers and not the ring's size. *)
Definition delivery_frame (s : vmm) (r : ring) (p : pic8259_blob) : Prop :=
  p = (pic (vm s)) <| interrupt_delivery_vector := interrupt_delivery_vector p |>
                   <| interrupt_delivery_pending := interrupt_delivery_pending p |> /\
  ring_size r = ring_size (kbd (vm s)).

Lemma retire_run s : event_ok s -> exists bm r p,
  retire_delivered s = Ret (tt, event_after s bm r p (cur s)) /\
  view (event_after s bm r p (cur s)) = retired (view s) /\
  event_ok (event_after s bm r p (cur s)) /\
  delivery_frame s r p.
Proof.
  intros Hok. pose proof Hok as [Hbm Hv Hring]. unfold retire_delivered.
  rewrite (bind_run _ _ _ _ _ eq_refl); cbv beta.
  set (v := interrupt_delivery_vector (pic (vm s))) in *.
  set (u := truthy (interrupt_delivery_pending (pic (vm s)))).
  assert (Hret : retired (view s) =
    if v =? PIC_INVALID_VECTOR then view s
    else if v =? 1 then
      match tail (queue (kbd (vm s))) with
      | [] => Delivery (<[1%nat := 0]> (interrupt_request_bitmap s)) PIC_INVALID_VECTOR u []
      | ks => Delivery (interrupt_request_bitmap s) 1 u ks
      end
    else Delivery (<[Z.to_nat v := 0]> (interrupt_request_bitmap s)) PIC_INVALID_VECTOR u (queue (kbd (vm s))))
    by reflexivity.
  rewrite Hret. clear Hret.
  destruct (Z.eqb_spec v PIC_INVALID_VECTOR) as [E|E]; cbn [negb].
  { exists (interrupt_request_bitmap s), (kbd (vm s)), (pic (vm s)). rewrite event_after_same.
    split; [reflexivity|]. split; [done|]. split; [done|]. split; [by destruct (pic (vm s))|done]. }
  destruct Hv as [Hv|Hv]; [done|]. unfold valid_vector. rewrite assert_run.
  2:{ apply andb_true_iff. split; [apply Z.leb_le|apply Z.ltb_lt]; lia. }
  destruct (Z.eqb_spec v 1) as [E1|E1].
  - destruct (dequeue_run _ Hring) as (x & r & Hr & Hr' & Hq & Hsz).
    assert (Hd : in_kbd ring_dequeue s = Ret (x, event_after s (interrupt_request_bitmap s) r (pic (vm s)) (cur s))).
    { unfold in_kbd. rewrite Hr. by destruct s as [? ? []]. }
    run_with Hd. rewrite (bind_run _ _ _ _ _ eq_refl); cbv beta.
    change (kbd (vm (event_after s (interrupt_request_bitmap s) r (pic (vm s)) (cur s)))) with r.
    rewrite ring_empty_spec, Hq by done. destruct (tail (queue (kbd (vm s)))) as [|k ks] eqn:Et.
    + exists (<[1%nat := 0]> (interrupt_request_bitmap s)), r, ((pic (vm s)) <| interrupt_delivery_vector := PIC_INVALID_VECTOR |>).
      rewrite bool_decide_true by done. split; [by destruct s as [? ? []]|].
      rewrite view_after, Hq. split; [done|]. split; [|by split; [destruct (pic (vm s))|]].
      split; [by rewrite <- Hbm; apply length_insert|by left|done].
    + exists (interrupt_request_bitmap s), r, (pic (vm s)). rewrite bool_decide_false by done.
      split; [done|]. rewrite view_after, Hq. fold v. split; [by rewrite E1|]. split; [|by split; [destruct (pic (vm s))|]].
      split; [done|right; cbn; lia|done].
  - exists (<[Z.to_nat v := 0]> (interrupt_request_bitmap s)), (kbd (vm s)), ((pic (vm s)) <| interrupt_delivery_vector := PIC_INVALID_VECTOR |>).
    split; [by destruct s as [? ? []]|]. split; [done|]. split; [|by split; [destruct (pic (vm s))|]].
    split; [by rewrite <- Hbm; apply length_insert|by left|done].
Qed.

Lemma event_info_word v c : vmread (vmwrite c VMENTRY_INTRRUPTION_INFO (event_info v)) VMENTRY_INTRRUPTION_INFO =
  2 ^ 31 + v mod 256.
Proof.
  rewrite vmread_same by reflexivity. change (field_width VMENTRY_INTRRUPTION_INFO) with 32.
  unfold event_info. change 0xff with (Z.ones 8). rewrite Z.land_ones, Z.lor_comm by lia.
  change (u64 (s32 (Z.shiftl 1 31))) with (Z.shiftl (2 ^ 33 - 1) 31). change (2 ^ 8) with 256.
  pose proof (Z.mod_pos_bound v 256 ltac:(lia)). rewrite lor_add_low by lia. unfold wrap. zdiv.
Qed.

Definition with_cur (s : vmm) (c : vmcs) : vmm := s <| cur := c |>.

Lemma disable_window_run s : disable_interrupt_window s = Ret (tt, with_cur s
  (vmwrite (cur s) CTLS_PRI_PROC_BASED_VM_EXECUTION
     (Z.land (vmread (cur s) CTLS_PRI_PROC_BASED_VM_EXECUTION) (u64 (Z.lnot WINDOW_BIT))))).
Proof. by destruct s. Qed.
Lemma enable_window_run s : enable_interrupt_window s = Ret (tt, with_cur s
  (vmwrite (cur s) CTLS_PRI_PROC_BASED_VM_EXECUTION
     (Z.lor (vmread (cur s) CTLS_PRI_PROC_BASED_VM_EXECUTION) WINDOW_BIT))).
Proof. by destruct s. Qed.

(** The interrupt-window bit of the execution controls. *)
Definition window_open (c : vmcs) : bool := Z.testbit (vmread c CTLS_PRI_PROC_BASED_VM_EXECUTION) 2.

Lemma vmread_ctls_range c : 0 <= vmread c CTLS_PRI_PROC_BASED_VM_EXECUTION < 2 ^ 32.
Proof. unfold vmread. apply (wrap_range 32). lia. Qed.

Lemma disabled_ctls c : let c' := vmwrite c CTLS_PRI_PROC_BASED_VM_EXECUTION
    (Z.land (vmread c CTLS_PRI_PROC_BASED_VM_EXECUTION) (u64 (Z.lnot WINDOW_BIT))) in
  vmread c' CTLS_PRI_PROC_BASED_VM_EXECUTION = Z.clearbit (vmread c CTLS_PRI_PROC_BASED_VM_EXECUTION) 2 /\
  window_open c' = false.
Proof.
  assert (E : forall c, let c' := vmwrite c CTLS_PRI_PROC_BASED_VM_EXECUTION
    (Z.land (vmread c CTLS_PRI_PROC_BASED_VM_EXECUTION) (u64 (Z.lnot WINDOW_BIT))) in
    vmread c' CTLS_PRI_PROC_BASED_VM_EXECUTION = Z.clearbit (vmread c CTLS_PRI_PROC_BASED_VM_EXECUTION) 2).
  { intros d. cbv zeta. rewrite vmread_same by reflexivity. change (field_width _) with 32.
    pose proof (vmread_ctls_range d) as Hr. set (w := vmread d _) in *.
    apply Z.bits_inj'. intros n Hn. rewrite testbit_wrap, Z.land_spec by lia. unfold u64.
    rewrite testbit_wrap by lia. rewrite Z.clearbit_eqb. rewrite Z.lnot_spec by exact Hn. unfold WINDOW_BIT.
    change (Z.shiftl 1 2) with (2 ^ 2). rewrite Z.pow2_bits_eqb by lia.
    destruct (Z.ltb_spec n 32).
    - destruct (Z.ltb_spec n 64); [|lia]. by rewrite !andb_true_l.
    - rewrite (testbit_high w 32) by lia. done. }
  cbv zeta. split; [apply E|]. unfold window_open. rewrite E, Z.clearbit_eqb by lia.
  by rewrite andb_false_r.
Qed.

Lemma enabled_ctls c : let c' := vmwrite c CTLS_PRI_PROC_BASED_VM_EXECUTION
    (Z.lor (vmread c CTLS_PRI_PROC_BASED_VM_EXECUTION) WINDOW_BIT) in
  vmread c' CTLS_PRI_PROC_BASED_VM_EXECUTION = Z.setbit (vmread c CTLS_PRI_PROC_BASED_VM_EXECUTION) 2 /\
  window_open c' = true.
Proof.
  assert (E : vmread (vmwrite c CTLS_PRI_PROC_BASED_VM_EXECUTION
    (Z.lor (vmread c CTLS_PRI_PROC_BASED_VM_EXECUTION) WINDOW_BIT)) CTLS_PRI_PROC_BASED_VM_EXECUTION =
    Z.setbit (vmread c CTLS_PRI_PROC_BASED_VM_EXECUTION) 2).
  { rewrite vmread_same by reflexivity. change (field_width _) with 32.
    pose proof (vmread_ctls_range c) as Hr. rewrite wrap_small; [reflexivity|].
    apply lor_range; [done|]. change WINDOW_BIT with 4. lia. }
  cbv zeta. split; [exact E|]. unfold window_open. rewrite E. apply Z.setbit_eq. lia.
Qed.

(** ** The handler *)
Definition event_field (e : Z) : Prop :=
  field_base e = field_base VMENTRY_INTRRUPTION_INFO \/
  field_base e = field_base CTLS_PRI_PROC_BASED_VM_EXECUTION.

Lemma window_delivery s : event_ok s -> interrupts_on s -> exists bm r p c,
  (if negb (truthy (interrupt_delivery_pending (pic (vm s))))
   then retire_delivered ;;; deliver_next else ret tt) s = Ret (tt, event_after s bm r p c) /\
  event_ok (event_after s bm r p c) /\
  view (event_after s bm r p c) = fst (window (view s)) /\
  c = match snd (window (view s)) with
      | Some idx => vmwrite (cur s) VMENTRY_INTRRUPTION_INFO (event_info (master_pic_offset (pic (vm s)) + idx))
      | None => cur s
      end /\
  delivery_frame s r p.
Proof.
  intros Hok Hif. unfold window. change (unacknowledged (view s)) with (truthy (interrupt_delivery_pending (pic (vm s)))).
  destruct (truthy (interrupt_delivery_pending (pic (vm s)))) eqn:Eu; cbn [negb].
  { exists (interrupt_request_bitmap s), (kbd (vm s)), (pic (vm s)), (cur s). rewrite event_after_same.
    do 4 (split; [done|]). split; [by destruct (pic (vm s))|done]. }
  destruct (retire_run s Hok) as (bm & r & p & Hr & Hv & Hok' & Hf). run_with Hr.
  pose proof Hf as [Hp Hsz].
  assert (Hoff : master_pic_offset p = master_pic_offset (pic (vm s))) by (rewrite Hp; done).
  rewrite <- Hv. unfold delivered. rewrite deliver_next_run by exact Hif. cbv zeta.
  set (s1 := event_after s bm r p (cur s)) in *. change (requests (view s1)) with (interrupt_request_bitmap s1).
  set (idx := first_request (interrupt_request_bitmap s1) 0).
  destruct (Z.ltb_spec idx NR_VECTORS) as [Hidx|Hidx].
  - exists bm, r, (p <| interrupt_delivery_vector := idx |> <| interrupt_delivery_pending := 1 |>),
      (vmwrite (cur s) VMENTRY_INTRRUPTION_INFO (event_info (master_pic_offset (pic (vm s)) + idx))).
    split; [|split; [|split; [|split]]].
    + unfold s1. rewrite event_after_twice. do 3 f_equal. cbn. by rewrite Hoff.
    + destruct Hok' as [Hbm _ Hring]. split; [done| |done]. right.
      pose proof (proj1 (first_request_spec (interrupt_request_bitmap s1) 0)) as H. cbv zeta in H. fold idx in H.
      change (0 <= idx < NR_VECTORS). lia.
    + reflexivity.
    + reflexivity.
    + split; [|exact Hsz]. rewrite Hp. by destruct (pic (vm s)).
  - exists bm, r, p, (cur s). by repeat (split; [done|]).
Qed.

Lemma window_exit_run (exit : vmexit_info) (s : vmm) : event_ok s -> interrupts_on s ->
  exists bm r p c, let s' := event_after s bm r p c in
     interrupt_window_exit_sub_handler exit s = Ret (vcpu (vm s), s') /\ event_ok s' /\
     view s' = fst (window (view s)) /\
     vmread c VMENTRY_INTRRUPTION_INFO =
       match snd (window (view s)) with
       | Some idx => 2 ^ 31 + (master_pic_offset (pic (vm s)) + idx) mod 256
       | None => vmread (cur s) VMENTRY_INTRRUPTION_INFO
       end /\
     vmread c CTLS_PRI_PROC_BASED_VM_EXECUTION =
       (let ctls := vmread (cur s) CTLS_PRI_PROC_BASED_VM_EXECUTION in
        if unacknowledged (view s') then ctls else Z.clearbit ctls 2) /\
     (forall e, ~ event_field e -> vmread c e = vmread (cur s) e) /\
     delivery_frame s r p.
Proof.
  intros Hok Hif. unfold interrupt_window_exit_sub_handler.
  do 2 (rewrite (bind_run _ _ _ _ _ eq_refl); cbv beta zeta). rewrite assert_run by exact Hif.
  destruct (window_delivery s Hok Hif) as (bm & r & p & c & Hrun & Hok' & Hv & Hc & Hf). run_with Hrun.
  rewrite (bind_run _ _ _ _ _ eq_refl); cbv beta.
  assert (Hinfo : vmread c VMENTRY_INTRRUPTION_INFO = match snd (window (view s)) with
       | Some idx => 2 ^ 31 + (master_pic_offset (pic (vm s)) + idx) mod 256
       | None => vmread (cur s) VMENTRY_INTRRUPTION_INFO end).
  { rewrite Hc. destruct (snd (window (view s))); [apply event_info_word|done]. }
  assert (Hoth : forall e, field_base e <> field_base VMENTRY_INTRRUPTION_INFO -> vmread c e = vmread (cur s) e).
  { intros e He. rewrite Hc. destruct (snd (window (view s))); [|done]. apply vmread_other. congruence. }
  set (s1 := event_after s bm r p c) in *.
  change (truthy (interrupt_delivery_pending (pic (vm s1)))) with (unacknowledged (view s1)).
  destruct (unacknowledged (view s1)) eqn:Eu; cbn [negb].
  - exists bm, r, p, c. cbv zeta. fold s1. rewrite Eu. split; [reflexivity|]. split; [done|]. split; [done|].
    split; [done|]. split; [apply Hoth; done|]. split; [|exact Hf].
    intros e He. apply Hoth. intros E. apply He. by left.
  - run_with (disable_window_run s1). destruct (disabled_ctls c) as [Hd _].
    exists bm, r, p, (vmwrite c CTLS_PRI_PROC_BASED_VM_EXECUTION
     (Z.land (vmread c CTLS_PRI_PROC_BASED_VM_EXECUTION) (u64 (Z.lnot WINDOW_BIT)))). cbv zeta.
    split; [by destruct s as [? ? []]|]. split; [by destruct Hok'; split|]. split; [exact Hv|].
    rewrite view_after. unfold s1 in Eu. rewrite view_after in Eu. cbn [unacknowledged] in *. rewrite Eu.
    split; [|split; [|split]].
    + rewrite vmread_other by done. exact Hinfo.
    + rewrite Hd. f_equal. by apply Hoth.
    + intros e He. rewrite vmread_other by (intros E; apply He; by right). apply Hoth.
      intros E. apply He. by left.
    + exact Hf.
Qed.

(** C9 The interrupt window implements the delivery machine. With interrupts enabled
    in the guest the handler always finishes: an unacknowledged vector is left
    alone; otherwise the vector delivered last is retired, the lowest raised vector
    is injected at the master controller's offset, and the window is closed exactly
    when nothing is left to deliver. No other VMCS field changes. With interrupts
    disabled it halts. *)
Theorem interrupt_window_refines (exit : vmexit_info) (s : vmm) : event_ok s ->
  (interrupts_on s -> exists bm r p c, let s' := event_after s bm r p c in
     interrupt_window_exit_sub_handler exit s = Ret (vcpu (vm s), s') /\ event_ok s' /\
     view s' = fst (window (view s)) /\
     vmread c VMENTRY_INTRRUPTION_INFO =
       match snd (window (view s)) with
       | Some idx => 2 ^ 31 + (master_pic_offset (pic (vm s)) + idx) mod 256
       | None => vmread (cur s) VMENTRY_INTRRUPTION_INFO
       end /\
     vmread c CTLS_PRI_PROC_BASED_VM_EXECUTION =
       (let ctls := vmread (cur s) CTLS_PRI_PROC_BASED_VM_EXECUTION in
        if unacknowledged (view s') then ctls else Z.clearbit ctls 2) /\
     forall e, ~ event_field e -> vmread c e = vmread (cur s) e) /\
  (~ interrupts_on s -> interrupt_window_exit_sub_handler exit s = Stop Halted).
Proof.
  intros Hok. split; intros Hif.
  - destruct (window_exit_run exit s Hok Hif) as (bm & r & p & c & H1 & H2 & H3 & H4 & H5 & H6 & _).
    by exists bm, r, p, c.
  - unfold interrupt_window_exit_sub_handler, is_injectable, vmx_read, get_vm.
    run_steps. apply not_true_is_false in Hif. unfold bind at 1. unfold assert at 1. by rewrite Hif.
Qed.

(** A guest that accepts interrupts, with the keyboard raised. *)
Definition sample_event_vmm : vmm :=
  sample_vmm <| cur := vmwrite (vmwrite ∅ GUEST_RFLAG 0x202) CTLS_PRI_PROC_BASED_VM_EXECUTION 0x84 |>
    <| interrupt_request_bitmap := [0; 1; 0; 0; 0; 0; 0; 0; 0; 0; 0; 0; 0; 0; 0] |>.

Lemma sample_ring_ok : ring_ok (Ring SCANCODE_BUFFER_LENGTH 0 0 (replicate 50 0)).
Proof.
  split; cbn [ring_size front rear buffer]; try (unfold SCANCODE_BUFFER_LENGTH; lia); [done|].
  apply Forall_replicate. lia.
Qed.

Lemma sample_event_ok : event_ok sample_event_vmm.
Proof. split; [reflexivity|by left|exact sample_ring_ok]. Qed.

Lemma interrupt_window_refines_witness : exists bm r p c,
  interrupt_window_exit_sub_handler (ExitInfo 7 0 0 0 0 0) sample_event_vmm =
    Ret (0x9000, event_after sample_event_vmm bm r p c) /\
  vmread c VMENTRY_INTRRUPTION_INFO = 0x80000021.
Proof.
  destruct (interrupt_window_refines (ExitInfo 7 0 0 0 0 0) sample_event_vmm sample_event_ok) as [H _].
  destruct (H ltac:(reflexivity)) as (bm & r & p & c & Hr & _ & _ & Hi & _).
  exists bm, r, p, c. split; [exact Hr|]. rewrite Hi. reflexivity.
Defined.

(** ** Raising an interrupt *)
Definition pin_masked (vector : Z) (p : pic8259_blob) : bool :=
  if vector <=? 7 then Z.testbit (master_pic_data p) vector
  else Z.testbit (slave_pic_data p) (vector - 8).

Lemma pin_masked_run v s : 0 <= v < NR_VECTORS ->
  0 <= slave_pic_data (pic (vm s)) < 256 ->
  is_interrupt_pin_masked v s = Ret (pin_masked v (pic (vm s)), s).
Proof.
  unfold NR_VECTORS. intros Hv Hs. unfold is_interrupt_pin_masked. rewrite assert_run.
  2:{ unfold valid_vector, NR_VECTORS. apply andb_true_iff. split; [apply Z.leb_le|apply Z.ltb_lt]; lia. }
  rewrite (bind_run _ _ _ _ _ eq_refl); cbv beta. unfold ret. do 2 f_equal. unfold pin_masked.
  assert (Hl : 0 <= Z.land (v - 8) 31 < 32).
  { change 31 with (Z.ones 5). rewrite Z.land_ones by lia. apply Z.mod_pos_bound. lia. }
  rewrite !truthy_bit by lia. destruct (Z.leb_spec v 7).
  - rewrite andb_true_l. rewrite (testbit_high (slave_pic_data (pic (vm s))) 8); [apply orb_false_r|lia|].
    change 31 with (Z.ones 5). rewrite Z.land_ones by lia. zdiv.
  - rewrite andb_false_l, orb_false_l. f_equal. change 31 with (Z.ones 5). rewrite Z.land_ones by lia. zdiv.
Qed.

(** The state after an unmasked vector is raised. *)
Definition raised (v : Z) (s : vmm) : vmm :=
  event_after s (<[Z.to_nat v := 1]> (interrupt_request_bitmap s)) (kbd (vm s)) (pic (vm s))
    (vmwrite (cur s) CTLS_PRI_PROC_BASED_VM_EXECUTION
       (Z.lor (vmread (cur s) CTLS_PRI_PROC_BASED_VM_EXECUTION) WINDOW_BIT)).

Lemma raise_run v s : 0 <= v < NR_VECTORS -> 0 <= slave_pic_data (pic (vm s)) < 256 ->
  raise_interrupt v s = Ret (tt, if pin_masked v (pic (vm s)) then s else raised v s).
Proof.
  intros Hv Hs. unfold raise_interrupt. run_with (pin_masked_run v s Hv Hs).
  destruct (pin_masked v (pic (vm s))); [done|].
  assert (Hr : raise_interrupt_raw v s =
    Ret (tt, s <| interrupt_request_bitmap ::= <[Z.to_nat v := 1]> |>)).
  { unfold raise_interrupt_raw. rewrite assert_run; [done|].
    unfold valid_vector. apply andb_true_iff. split; [apply Z.leb_le|apply Z.ltb_lt]; lia. }
  run_with Hr. rewrite enable_window_run. by destruct s as [? ? []].
Qed.

(** C36 Raising an interrupt: a vector whose bit is set in the mask register of its
    controller (the master for 0..7, the slave from 8) is dropped and nothing
    changes; any other is recorded and the interrupt window opens, with every other
    control bit, VMCS field and vector as before; a vector outside 0..14 halts. *)
Theorem raise_interrupt_spec (v : Z) (s : vmm) :
  event_ok s -> 0 <= slave_pic_data (pic (vm s)) < 256 ->
  (0 <= v < NR_VECTORS -> pin_masked v (pic (vm s)) = true -> raise_interrupt v s = Ret (tt, s)) /\
  (0 <= v < NR_VECTORS -> pin_masked v (pic (vm s)) = false -> exists c,
     let s' := event_after s (<[Z.to_nat v := 1]> (interrupt_request_bitmap s)) (kbd (vm s)) (pic (vm s)) c in
     raise_interrupt v s = Ret (tt, s') /\ event_ok s' /\
     vmread c CTLS_PRI_PROC_BASED_VM_EXECUTION = Z.setbit (vmread (cur s) CTLS_PRI_PROC_BASED_VM_EXECUTION) 2 /\
     forall e, field_base e <> field_base CTLS_PRI_PROC_BASED_VM_EXECUTION -> vmread c e = vmread (cur s) e) /\
  (~ 0 <= v < NR_VECTORS -> raise_interrupt v s = Stop Halted).
Proof.
  intros Hok Hs. split; [|split].
  - intros Hv Hm. rewrite raise_run, Hm by done. done.
  - intros Hv Hm. eexists. split; [rewrite raise_run, Hm by done; reflexivity|].
    split; [|split; [apply enabled_ctls|intros e He; by rewrite vmread_other]].
    destruct Hok as [Hbm Hvec Hring]. split; [|done|done]. rewrite <- Hbm. apply length_insert.
  - intros Hv. unfold raise_interrupt, is_interrupt_pin_masked, bind at 1 2.
    unfold valid_vector, assert. destruct (Z.leb_spec 0 v), (Z.ltb_spec v NR_VECTORS); try lia; done.
Qed.

Lemma raise_interrupt_spec_witness :
  raise_interrupt 3 sample_event_vmm = Ret (tt, sample_event_vmm).
Proof.
  destruct (raise_interrupt_spec 3 sample_event_vmm sample_event_ok ltac:(cbn; lia)) as (H & _ & _).
  apply H; [unfold NR_VECTORS; lia|reflexivity].
Defined.
