(* ===== verification/Schedule.v ===== *)
(** * Schedule: host interrupts taken while the guest runs
    ([vm_monitor/vmx_schedule.c]) and the guest's time stamp counter
    ([vm_monitor/vmx_rdtsc.c]). *)
From Stdlib Require Import ZArith Lia.
From stdpp Require Import base tactics list numbers gmap.
From S2P Require Import Prelude Memory PhysicalMemory Paging Ring Vmm Devices Event.
Local Open Scope Z_scope.

(** [zelda64_config.h]. *)
Definition CPU_FREQUENCY : Z := 2494254000.

(** [struct external_interrupt_info]. *)
Record external_interrupt_info := ExtInt {
  vector : Z; interrupt_type : Z; is_errorcode_set : Z; error_code : Z }.

(** [device/keyboard.c]: the scancode is stored only when there is one. *)
Definition try_retrieve_scancode : M vmm (option Z) :=
  let! code := inb_keyboard in
  if code =? 0 then ret None else ret (Some code).

Definition external_interrupt_sub_handler (interrupt : external_interrupt_info) : M vmm Z :=
  (if vector interrupt =? 0x20 then
     let! curr_tsc := rdtsc in
     let! v := get_vm in
     if last_tsc (pit v) =? 0 then set_pit (fun p => p <| last_tsc := curr_tsc |>)
     else
       let diff_mseconds := u64 (u64 (curr_tsc - last_tsc (pit v)) * 1000) / CPU_FREQUENCY in
       (if threshold (pit v) <=? diff_mseconds then raise_interrupt 0x0 else ret tt) ;;;
       set_pit (fun p => p <| last_tsc := curr_tsc |>)
   else if vector interrupt =? 0x21 then
     let! garbage := gets uninitialised in
     let! r := try_retrieve_scancode in
     let scancode := default garbage r in
     let! _rc := in_kbd (ring_enqueue scancode) in
     raise_interrupt 0x1
   else PANIC_EXIT) ;;;
  let! v := get_vm in
  ret (vcpu v).

(** [x86_64/lapic.c]: the local APIC is told the interrupt has been handled. *)
Definition acknowledge_interrupt : M vmm unit := modify (fun s => s <| eoi ::= fun n => n + 1 |>).

Definition external_interrupt_exit_sub_handler (exit : vmexit_info) : M vmm Z :=
  let! interrupt_info := vmx_read VMEXIT_INTERRUPT_INFORMATION in
  assert (truthy (Z.land (Z.shiftr interrupt_info 31) 0x1)) ;;;
  let! code := vmx_read VMEXIT_INTERRUPT_ERROR_CODE in
  let interrupt := ExtInt (Z.land interrupt_info 0xff) (Z.land (Z.shiftr interrupt_info 8) 0x7)
    (Z.land (Z.shiftr interrupt_info 11) 0x1) code in
  let! rsp := (if interrupt_type interrupt =? 0 then external_interrupt_sub_handler interrupt
               else PANIC_EXIT) in
  acknowledge_interrupt ;;;
  ret rsp.

(** [vm_monitor/vmx_rdtsc.c]. *)
Definition rdtsc_exit_sub_handler (exit : vmexit_info) : M vmm Z :=
  let! curr := rdtsc in
  set_cpu (fun c => c <| rdx := Z.land (Z.shiftr curr 32) 0xffffffff |>) ;;;
  set_cpu (fun c => c <| rax := Z.land curr 0xffffffff |>) ;;;
  set_cpu (fun c => c <| rcx := CPU_FREQUENCY |>) ;;;
  GOTO_NEXT_INSTRUCTION exit ;;;
  let! v := get_vm in
  ret (vcpu v).

(** * Properties *)

(** The exit information the processor leaves for an external interrupt. *)
Definition external_vector (s : vmm) (v : Z) : Prop :=
  vmread (cur s) VMEXIT_INTERRUPT_INFORMATION = 2 ^ 31 + v.
Definition slave_byte (s : vmm) : Prop := 0 <= slave_pic_data (pic (vm s)) < 256.
Definition acknowledged (s : vmm) : vmm := s <| eoi ::= fun n => n + 1 |>.

Lemma external_exit_run exit s v s' : 0 <= v < 256 -> external_vector s v ->
  external_interrupt_sub_handler
    (ExtInt v 0 0 (vmread (cur s) VMEXIT_INTERRUPT_ERROR_CODE)) s = Ret (vcpu (vm s'), s') ->
  external_interrupt_exit_sub_handler exit s = Ret (vcpu (vm s'), acknowledged s').
Proof.
  unfold external_vector. intros Hv Hi Hr. unfold external_interrupt_exit_sub_handler.
  rewrite (bind_run _ _ _ _ _ eq_refl); cbv beta. rewrite Hi.
  assert (E0 : Z.shiftr (2 ^ 31 + v) 31 = 1) by (rewrite Z.shiftr_div_pow2 by lia; zdiv).
  assert (E1 : Z.land (2 ^ 31 + v) 0xff = v).
  { change 0xff with (Z.ones 8). rewrite Z.land_ones by lia. zdiv. }
  assert (E2 : Z.land (Z.shiftr (2 ^ 31 + v) 8) 7 = 0).
  { change 7 with (Z.ones 3). rewrite Z.land_ones, Z.shiftr_div_pow2 by lia. zdiv. }
  assert (E3 : Z.land (Z.shiftr (2 ^ 31 + v) 11) 1 = 0).
  { change 1 with (Z.ones 1). rewrite Z.land_ones, Z.shiftr_div_pow2 by lia. zdiv. }
  rewrite E0, assert_run by reflexivity. rewrite (bind_run _ _ _ _ _ eq_refl); cbv beta zeta.
  rewrite E1, E2, E3. change (interrupt_type _ =? 0) with true. cbv iota.
  unfold vmx_read, gets. cbv beta. run_with Hr. reflexivity.
Qed.

(** ** The timer *)
Definition next_tsc (s : vmm) : Z := u64 (tsc s (tsc_reads s)).
Definition elapsed (old t : Z) : Z := u64 (u64 (t - old) * 1000) / CPU_FREQUENCY.
Definition ticked (s : vmm) (t : Z) : vmm :=
  s <| vm ::= fun v => v <| pit ::= fun p => p <| last_tsc := t |> |> |> <| tsc_reads ::= S |>.
Definition timer_due (s : vmm) : bool :=
  negb (last_tsc (pit (vm s)) =? 0) && (threshold (pit (vm s)) <=? elapsed (last_tsc (pit (vm s))) (next_tsc s)).

Lemma timer_run s code : slave_byte s ->
  external_interrupt_sub_handler (ExtInt 0x20 0 0 code) s =
  Ret (vcpu (vm s), ticked (if timer_due s && negb (pin_masked 0 (pic (vm s))) then raised 0 s else s) (next_tsc s)).
Proof.
  intros Hs. unfold external_interrupt_sub_handler. change (vector (ExtInt 0x20 0 0 code) =? 0x20) with true.
  cbv iota. unfold timer_due.
  set (s1 := s <| tsc_reads ::= S |>).
  assert (E1 : rdtsc s = Ret (next_tsc s, s1)) by reflexivity.
  rewrite bind_assoc. run_with E1. unfold get_vm. rewrite bind_assoc, bind_gets. cbv beta.
  change (last_tsc (pit (vm s1))) with (last_tsc (pit (vm s))).
  destruct (Z.eqb_spec (last_tsc (pit (vm s))) 0) as [E|E]; cbn [negb andb].
  { by destruct s as [? ? []]. }
  cbv zeta. fold (elapsed (last_tsc (pit (vm s))) (next_tsc s)).
  change (threshold (pit (vm s1))) with (threshold (pit (vm s))).
  destruct (threshold (pit (vm s)) <=? elapsed (last_tsc (pit (vm s))) (next_tsc s)); cbn [andb].
  - rewrite bind_assoc. run_with (raise_run 0 s1 ltac:(unfold NR_VECTORS; lia) Hs).
    change (pin_masked 0 (pic (vm s1))) with (pin_masked 0 (pic (vm s))).
    destruct (pin_masked 0 (pic (vm s))); by destruct s as [? ? []].
  - unfold bind, ret. by destruct s as [? ? []].
Qed.

(** C22 A host timer interrupt: the first one only records the time stamp; a later one
    raises the guest's timer exactly when at least the programmed number of
    milliseconds passed since the previous host tick and the pin is not masked. In
    every case the tick becomes the new reference and is acknowledged. *)
Theorem timer_tick (exit : vmexit_info) (s : vmm) :
  external_vector s 0x20 -> slave_byte s ->
  external_interrupt_exit_sub_handler exit s =
  Ret (vcpu (vm s), acknowledged (ticked
    (if timer_due s && negb (pin_masked 0 (pic (vm s))) then raised 0 s else s) (next_tsc s))).
Proof.
  intros Hv Hs. pose proof (timer_run s (vmread (cur s) VMEXIT_INTERRUPT_ERROR_CODE) Hs) as Hr.
  assert (Hvc : forall s1, vcpu (vm (ticked (if timer_due s && negb (pin_masked 0 (pic (vm s))) then raised 0 s else s) s1)) = vcpu (vm s))
    by (intros s1; by destruct (timer_due s && negb (pin_masked 0 (pic (vm s))))).
  rewrite <- (Hvc (next_tsc s)) in Hr |- *. by apply (external_exit_run exit s 0x20).
Qed.

Definition sample_timer_vmm : vmm :=
  sample_event_vmm <| cur ::= fun c => <[VMEXIT_INTERRUPT_INFORMATION := 0x80000020]> c |>
    <| vm ::= fun v => v <| pit := Vmm.Pit 2 0x2e9c 10 1000 |> <| pic ::= fun p => p <| master_pic_data := 0xfc |> |> |>
    <| tsc := fun n => 30000000 * (Z.of_nat n + 1) |>.

Lemma timer_tick_witness :
  observe (fun s => (request 0 s, last_tsc (pit (vm s))))
    (external_interrupt_exit_sub_handler (ExitInfo 1 0 0 0 0 0) sample_timer_vmm) = Some (0x9000, (1, 30000000)).
Proof.
  rewrite (timer_tick (ExitInfo 1 0 0 0 0 0) sample_timer_vmm).
  - vm_compute. reflexivity.
  - vm_compute. reflexivity.
  - unfold slave_byte. cbn. lia.
Defined.

(** [n] host timer interrupts. *)
Fixpoint timer_ticks (n : nat) (exit : vmexit_info) : M vmm unit :=
  match n with
  | O => ret tt
  | S k => let! _rsp := external_interrupt_exit_sub_handler exit in timer_ticks k exit
  end.

Lemma elapsed_short old t thr : 0 <= t - old < 2 ^ 54 -> (t - old) * 1000 < thr * CPU_FREQUENCY ->
  elapsed old t < thr.
Proof.
  intros Hd Ht. unfold elapsed. rewrite (u64_small (t - old)), u64_small by lia.
  apply Z.div_lt_upper_bound; unfold CPU_FREQUENCY in *; lia.
Qed.

(** Host ticks that come faster than the guest's period starve the guest's timer:
    every tick moves the reference, so when each one follows the previous one by
    less than the programmed period no interrupt is ever raised, however long the
    sequence and however much time passes in total. *)
Theorem fast_ticks_starve_timer (n : nat) (exit : vmexit_info) (s : vmm) :
  external_vector s 0x20 -> slave_byte s -> 0 < last_tsc (pit (vm s)) ->
  (forall i, (i < n)%nat -> 0 < tsc s (tsc_reads s + i) < 2 ^ 63) ->
  (forall i, (i < n)%nat ->
     let prev := match i with O => last_tsc (pit (vm s)) | S k => tsc s (tsc_reads s + k) end in
     0 <= tsc s (tsc_reads s + i) - prev < 2 ^ 54 /\
     (tsc s (tsc_reads s + i) - prev) * 1000 < threshold (pit (vm s)) * CPU_FREQUENCY) ->
  exists s', timer_ticks n exit s = Ret (tt, s') /\
    interrupt_request_bitmap s' = interrupt_request_bitmap s /\ cur s' = cur s.
Proof.
  revert s. induction n as [|n IH]; intros s Hv Hs Hlast Ht Hgap; cbn [timer_ticks]; [by exists s|].
  pose proof (timer_run s (vmread (cur s) VMEXIT_INTERRUPT_ERROR_CODE) Hs) as Hrun.
  assert (Hn : next_tsc s = tsc s (tsc_reads s)).
  { unfold next_tsc. specialize (Ht 0%nat ltac:(lia)). rewrite Nat.add_0_r in Ht. apply u64_small. lia. }
  assert (Hdue : timer_due s = false).
  { unfold timer_due. destruct (Hgap 0%nat ltac:(lia)) as [H1 H2]. rewrite Nat.add_0_r in H1, H2.
    rewrite Hn. pose proof (elapsed_short _ _ _ H1 H2). apply andb_false_iff. right.
    apply Z.leb_gt. lia. }
  rewrite Hdue in Hrun. cbn [andb] in Hrun. rewrite Hn in Hrun.
  run_with (external_exit_run exit s 0x20 (ticked s (tsc s (tsc_reads s))) ltac:(lia) Hv Hrun).
  set (s1 := acknowledged (ticked s (tsc s (tsc_reads s)))).
  destruct (IH s1) as (s' & Hr & Hb & Hc).
  - exact Hv.
  - exact Hs.
  - specialize (Ht 0%nat ltac:(lia)). rewrite Nat.add_0_r in Ht. apply Ht.
  - intros i Hi. specialize (Ht (S i) ltac:(lia)). rewrite <- plus_n_Sm in Ht. exact Ht.
  - intros i Hi. specialize (Hgap (S i) ltac:(lia)). rewrite <- plus_n_Sm in Hgap.
    destruct i as [|i]; [rewrite Nat.add_0_r in *; exact Hgap|].
    rewrite <- !plus_n_Sm in Hgap |- *. exact Hgap.
  - exists s'. split; [exact Hr|]. split; [exact Hb|exact Hc].
Qed.

Lemma fast_ticks_starve_timer_witness : exists s',
  timer_ticks 5 (ExitInfo 1 0 0 0 0 0)
    (sample_timer_vmm <| tsc := fun n => 1000 + 20000000 * (Z.of_nat n + 1) |>) = Ret (tt, s') /\
  interrupt_request_bitmap s' = [0; 1; 0; 0; 0; 0; 0; 0; 0; 0; 0; 0; 0; 0; 0].
Proof.
  destruct (fast_ticks_starve_timer 5 (ExitInfo 1 0 0 0 0 0)
    (sample_timer_vmm <| tsc := fun n => 1000 + 20000000 * (Z.of_nat n + 1) |>)) as (s' & Hr & Hb & _).
  - vm_compute. reflexivity.
  - unfold slave_byte. cbn. lia.
  - cbn. lia.
  - intros i Hi. cbn. lia.
  - intros i Hi. cbn -[Z.of_nat Z.mul Z.add]. unfold CPU_FREQUENCY. destruct i as [|i]; cbn -[Z.of_nat Z.mul Z.add]; lia.
  - exists s'. split; [exact Hr|exact Hb].
Defined.

(** ** From the host's keyboard to the guest *)

(** [n] host keyboard interrupts. *)
Fixpoint host_keys (n : nat) (exit : vmexit_info) : M vmm unit :=
  match n with
  | O => ret tt
  | S k => let! _rsp := external_interrupt_exit_sub_handler exit in host_keys k exit
  end.
(** What the guest's keyboard handler makes of the monitor: it reads the data port and
    sends [PIC_EOI]; the next exit is an interrupt window. *)
Definition key_service (exit : vmexit_info) : M vmm Z :=
  let! code := Keyboard.keyboard_data_inb Keyboard.KEYBOARD_DATA_PORT in
  Pic.master_pic_outb Pic.PIC_MASTER_COMMAND_PORT Pic.PIC_EOI ;;;
  let! _rsp := interrupt_window_exit_sub_handler exit in
  ret code.
Fixpoint key_services (n : nat) (exit : vmexit_info) : M vmm (list Z) :=
  match n with
  | O => ret []
  | S k =>
      let! code := key_service exit in
      let! codes := key_services k exit in
      ret (code :: codes)
  end.

(** The guest accepts interrupts, listens to the keyboard, and delivery is in state [d]. *)
Record key_state (s : vmm) (d : delivery) : Prop := {
  ks_ok : event_ok s;
  ks_on : interrupts_on s;
  ks_vector : external_vector s 0x21;
  ks_slave : slave_byte s;
  ks_mask : pin_masked 1 (pic (vm s)) = false;
  ks_size : ring_size (kbd (vm s)) = SCANCODE_BUFFER_LENGTH;
  ks_view : view s = d }.
Definition idle_requests : list Z := replicate 15 0.
Definition key_requests : list Z := <[1%nat := 1]> idle_requests.

Lemma vmcs_kept c c' : (forall e, ~ event_field e -> vmread c' e = vmread c e) ->
  vmread c' GUEST_RFLAG = vmread c GUEST_RFLAG /\
  vmread c' VMEXIT_INTERRUPT_INFORMATION = vmread c VMEXIT_INTERRUPT_INFORMATION.
Proof. intros H. split; apply H; intros [E|E]; discriminate E. Qed.

(** A window exit in such a state. *)
Lemma key_window exit s d : key_state s d ->
  exists s', interrupt_window_exit_sub_handler exit s = Ret (vcpu (vm s), s') /\
    key_state s' (fst (window d)) /\ kbd_port s' = kbd_port s /\ kbd_reads s' = kbd_reads s.
Proof.
  intros [Hok Hon Hv Hs Hm Hsz Hd].
  destruct (window_exit_run exit s Hok Hon) as (bm & r & p & c & Hr & Hok' & Hview & _ & _ & Hc & Hp & Hrs).
  eexists. split; [exact Hr|]. split; [|done]. destruct (vmcs_kept _ _ Hc) as [E1 E2].
  split; [exact Hok'| | | | | |by rewrite Hview, Hd].
  - unfold interrupts_on. change (truthy (Z.land (vmread c GUEST_RFLAG) IF_BIT) = true). by rewrite E1.
  - unfold external_vector. change (vmread c VMEXIT_INTERRUPT_INFORMATION = 2 ^ 31 + 0x21). by rewrite E2.
  - unfold slave_byte. change (0 <= slave_pic_data p < 256). rewrite Hp. exact Hs.
  - change (pin_masked 1 p = false). rewrite Hp. exact Hm.
  - change (ring_size r = SCANCODE_BUFFER_LENGTH). by rewrite Hrs.
Qed.

Lemma enqueue_run v r : ring_ok r -> 0 <= v < 256 -> Z.of_nat (length (queue r)) < ring_size r - 1 ->
  exists x r', ring_enqueue v r = Ret (x, r') /\ ring_ok r' /\ queue r' = queue r ++ [v] /\
    ring_size r' = ring_size r.
Proof.
  intros Hok Hv Hroom. destruct (write_loop_run 1 [v] 0 r Hok) as (r' & Hr & Hok' & Hs & Hq); [done|by constructor|].
  eexists _, r'. split; [exact Hr|]. split; [done|]. split; [|done]. rewrite Hq. f_equal. unfold capacity.
  destruct (Nat.min 1 (Z.to_nat (ring_size r - 1) - length (queue r))) eqn:E; [lia|]. by destruct n.
Qed.

(** A host keyboard interrupt with a scancode and room in the buffer. *)
Lemma key_interrupt exit s bm v u ks : key_state s (Delivery bm v u ks) ->
  Z.of_nat (length ks) < SCANCODE_BUFFER_LENGTH - 1 ->
  0 < u8 (kbd_port s (kbd_reads s)) ->
  exists s', external_interrupt_exit_sub_handler exit s = Ret (vcpu (vm s), s') /\
    key_state s' (Delivery (<[1%nat := 1]> bm) v u (ks ++ [u8 (kbd_port s (kbd_reads s))])) /\
    kbd_port s' = kbd_port s /\ kbd_reads s' = S (kbd_reads s).
Proof.
  intros [Hok Hon Hv Hs Hm Hsz Hd] Hlen Hcode. set (code := u8 (kbd_port s (kbd_reads s))) in *.
  assert (Hq : queue (kbd (vm s)) = ks) by (by injection Hd).
  destruct (enqueue_run code (kbd (vm s)) (eo_ring _ Hok) (u8_range _)) as (x & r & Hr & Hr' & Hq' & Hrs).
  { rewrite Hq, Hsz. lia. }
  set (s1 := s <| kbd_reads ::= S |> <| vm ::= fun v => v <| kbd := r |> |>).
  set (s2 := raised 1 s1).
  assert (Hrun : external_interrupt_sub_handler (ExtInt 0x21 0 0 (vmread (cur s) VMEXIT_INTERRUPT_ERROR_CODE)) s =
    Ret (vcpu (vm s2), s2)).
  { unfold external_interrupt_sub_handler. cbn [vector]. change (0x21 =? 0x20) with false.
    change (0x21 =? 0x21) with true. cbv iota. rewrite bind_assoc, bind_gets. cbv beta.
    unfold try_retrieve_scancode. rewrite !bind_assoc.
    rewrite (bind_run _ _ _ code (s <| kbd_reads ::= S |>)) by reflexivity.
    destruct (Z.eqb_spec code 0) as [|_]; [lia|]. rewrite bind_ret, bind_assoc. cbn [default].
    assert (Hin : in_kbd (ring_enqueue code) (s <| kbd_reads ::= S |>) = Ret (x, s1)).
    { unfold in_kbd. change (kbd (vm (s <| kbd_reads ::= S |>))) with (kbd (vm s)). by rewrite Hr. }
    run_with Hin. rewrite (bind_run _ _ _ tt s2); [done|]. rewrite (raise_run 1 s1); [|unfold NR_VECTORS; lia|exact Hs].
    change (pin_masked 1 (pic (vm s1))) with (pin_masked 1 (pic (vm s))). by rewrite Hm. }
  pose proof (external_exit_run exit s 0x21 s2 ltac:(lia) Hv Hrun) as Hexit.
  exists (acknowledged s2). split; [exact Hexit|]. split; [|done].
  destruct (vmcs_kept (cur s) (cur s2)) as [E1 E2].
  { intros e He. unfold s2, raised. cbn [cur event_after update]. apply vmread_other. intros E. apply He. by right. }
  destruct Hok as [Hbm Hvec _]. split.
  - split; [|exact Hvec|exact Hr']. rewrite <- Hbm. apply length_insert.
  - unfold interrupts_on. change (cur (acknowledged s2)) with (cur s2). by rewrite E1.
  - unfold external_vector. change (cur (acknowledged s2)) with (cur s2). by rewrite E2.
  - exact Hs.
  - exact Hm.
  - change (ring_size r = SCANCODE_BUFFER_LENGTH). by rewrite Hrs.
  - change (Delivery (<[1%nat := 1]> (interrupt_request_bitmap s)) (interrupt_delivery_vector (pic (vm s)))
      (truthy (interrupt_delivery_pending (pic (vm s)))) (queue r) =
      Delivery (<[1%nat := 1]> bm) v u (ks ++ [code])). rewrite Hq', Hq. by injection Hd as -> -> -> _.
Qed.

Definition pressed (s : vmm) (n : nat) : list Z :=
  (fun i => u8 (kbd_port s (kbd_reads s + i))) <$> seq 0 n.

Lemma pressed_S s s1 n : kbd_port s1 = kbd_port s -> kbd_reads s1 = S (kbd_reads s) ->
  pressed s (S n) = u8 (kbd_port s (kbd_reads s)) :: pressed s1 n.
Proof.
  intros Hp Hr. unfold pressed. cbn [seq fmap list_fmap]. rewrite Nat.add_0_r. f_equal.
  rewrite <- seq_shift, <- list_fmap_compose. apply list_fmap_ext. intros i x _. cbn.
  rewrite Hp, Hr. f_equal. f_equal. lia.
Qed.

Lemma host_keys_run exit n s ks bm : key_state s (Delivery bm PIC_INVALID_VECTOR false ks) ->
  Z.of_nat (length ks + n) <= SCANCODE_BUFFER_LENGTH - 1 -> Forall (fun c => 0 < c) (pressed s n) ->
  exists s', host_keys n exit s = Ret (tt, s') /\
    key_state s' (Delivery (if decide (n = 0)%nat then bm else <[1%nat := 1]> bm) PIC_INVALID_VECTOR false (ks ++ pressed s n)).
Proof.
  revert s ks bm. induction n as [|n IH]; intros s ks bm Hs Hlen Hc; cbn [host_keys].
  { exists s. split; [done|]. cbn. by rewrite app_nil_r. }
  assert (Hc0 : 0 < u8 (kbd_port s (kbd_reads s))).
  { rewrite Forall_lookup in Hc. apply (Hc 0%nat). unfold pressed. cbn. by rewrite Nat.add_0_r. }
  destruct (key_interrupt exit s _ _ _ ks Hs ltac:(lia) Hc0) as (s1 & Hr & Hs1 & Hp & Hrd). run_with Hr.
  rewrite (pressed_S s s1 n Hp Hrd) in *. apply Forall_cons in Hc as [_ Hc].
  destruct (IH s1 _ _ Hs1) as (s' & Hr' & Hs'); [rewrite length_app; cbn; lia|done|].
  exists s'. split; [exact Hr'|]. rewrite <- app_assoc in Hs'.
  replace (if decide (S n = 0%nat) then bm else <[1%nat := 1]> bm) with
    (if decide (n = 0%nat) then <[1%nat := 1]> bm else <[1%nat := 1]> (<[1%nat := 1]> bm)); [exact Hs'|].
  rewrite list_insert_insert_eq. by destruct (decide (n = 0%nat)).
Qed.

(** One round of the guest's handler. *)
Lemma key_service_run exit s k ks : key_state s (Delivery key_requests 1 true (k :: ks)) ->
  exists s', key_service exit s = Ret (k, s') /\
    key_state s' (match ks with
                  | [] => Delivery idle_requests PIC_INVALID_VECTOR false []
                  | _ => Delivery key_requests 1 true ks
                  end).
Proof.
  intros Hs. pose proof Hs as [Hok Hon Hv Hsl Hm Hsz Hd]. injection Hd as Hb Hvec Hu Hq.
  set (p' := (pic (vm s)) <| master_pic_command := Pic.PIC_EOI |> <| interrupt_delivery_pending := 0 |>).
  set (s1 := s <| vm ::= fun v => v <| pic := p' |> |>).
  assert (Hread : Keyboard.keyboard_data_inb Keyboard.KEYBOARD_DATA_PORT s = Ret (k, s)).
  { unfold Keyboard.keyboard_data_inb, get_vm. run_steps. rewrite assert_run by done.
    rewrite ring_empty_spec by apply Hok. rewrite Hq, bool_decide_false by done. cbn [negb]. unfold ret. do 2 f_equal.
    pose proof (queue_drop _ (eo_ring s Hok) ltac:(by rewrite Hq)) as E. rewrite Hq in E. injection E as E _.
    unfold ring_peek. rewrite <- E. apply u8_small.
    assert (Hby : Forall (fun v => 0 <= v < 256) (queue (kbd (vm s)))) by apply queue_bytes, Hok.
    rewrite Hq in Hby. by apply Forall_cons in Hby as [? _]. }
  assert (Heoi : Pic.master_pic_outb Pic.PIC_MASTER_COMMAND_PORT Pic.PIC_EOI s = Ret (tt, s1))
    by (by destruct s as [? ? []]).
  unfold key_service. run_with Hread. run_with Heoi.
  assert (Hs1 : key_state s1 (Delivery key_requests 1 false (k :: ks))).
  { split; [by destruct Hok; split|exact Hon|exact Hv|exact Hsl|exact Hm|exact Hsz|].
    unfold view. cbn [vm pic kbd]. change (Delivery (interrupt_request_bitmap s) (interrupt_delivery_vector (pic (vm s))) (truthy 0)
      (queue (kbd (vm s))) = Delivery key_requests 1 false (k :: ks)). by rewrite Hb, Hvec, Hq. }
  destruct (key_window exit s1 _ Hs1) as (s' & Hr & Hs' & _). run_with Hr. exists s'. split; [done|].
  by destruct ks.
Qed.

Lemma key_services_run exit k ks s : key_state s (Delivery key_requests 1 true (k :: ks)) ->
  exists s', key_services (S (length ks)) exit s = Ret (k :: ks, s') /\
    key_state s' (Delivery idle_requests PIC_INVALID_VECTOR false []).
Proof.
  revert k s. induction ks as [|k' ks IH]; intros k s Hs; destruct (key_service_run exit s k _ Hs) as (s1 & Hr & Hs1).
  - exists s1. split; [|done]. cbn [key_services length]. by run_with Hr.
  - destruct (IH k' s1 Hs1) as (s' & Hr' & Hs'). exists s'. split; [|done].
    change (length (k' :: ks)) with (S (length ks)). cbn [key_services] in *. run_with Hr. by run_with Hr'.
Qed.

(** C12 Scancodes reach the guest in order: up to 49 key presses taken by the host while
    the guest runs are, after the next interrupt window, read by the guest's handler
    one per interrupt, each exactly once and in the order of the presses. The
    keyboard interrupt stays raised until the last one is acknowledged; then no
    request is left, and nothing is being served. *)
Theorem scancodes_reach_guest (exit : vmexit_info) (s : vmm) (n : nat) :
  key_state s (Delivery idle_requests PIC_INVALID_VECTOR false []) ->
  (1 <= n < Z.to_nat SCANCODE_BUFFER_LENGTH)%nat -> Forall (fun c => 0 < c) (pressed s n) ->
  exists s', (host_keys n exit ;;;
     let! _rsp := interrupt_window_exit_sub_handler exit in key_services n exit) s = Ret (pressed s n, s') /\
    key_state s' (Delivery idle_requests PIC_INVALID_VECTOR false []).
Proof.
  intros Hs Hn Hc. destruct (host_keys_run exit n s [] idle_requests Hs) as (s1 & Hr1 & Hs1); [|done|].
  { unfold SCANCODE_BUFFER_LENGTH in *. cbn [length]. lia. }
  rewrite decide_False in Hs1 by lia. run_with Hr1.
  destruct (key_window exit s1 _ Hs1) as (s2 & Hr2 & Hs2 & _). run_with Hr2.
  destruct n as [|n]; [lia|]. assert (Hlen : length (pressed s (S n)) = S n) by (unfold pressed; by rewrite length_fmap, length_seq).
  destruct (pressed s (S n)) as [|k ks]; [discriminate|]. injection Hlen as Hlen.
  destruct (key_services_run exit k ks s2 Hs2) as (s' & Hr & Hs'). exists s'. by rewrite <- Hlen.
Qed.

(** A guest that has unmasked the keyboard; three keys are pressed. *)
Definition sample_key_vmm : vmm :=
  sample_vmm <| cur := <[VMEXIT_INTERRUPT_INFORMATION := 0x80000021]> (vmwrite ∅ GUEST_RFLAG 0x202) |>
    <| vm ::= fun v => v <| pic ::= fun p => p <| master_pic_data := 0xfd |> |> |>
    <| kbd_port := fun n => Z.of_nat (n + 0x1e) |>.

Lemma scancodes_reach_guest_witness : exists s',
  (host_keys 3 (ExitInfo 0 0 0 0 0 0) ;;;
   let! _rsp := interrupt_window_exit_sub_handler (ExitInfo 0 0 0 0 0 0) in
   key_services 3 (ExitInfo 0 0 0 0 0 0)) sample_key_vmm = Ret ([0x1e; 0x1f; 0x20], s') /\
  view s' = Delivery idle_requests PIC_INVALID_VECTOR false [].
Proof.
  destruct (scancodes_reach_guest (ExitInfo 0 0 0 0 0 0) sample_key_vmm 3) as (s' & Hr & Hs').
  - split; try reflexivity; [|unfold slave_byte; cbn; lia].
    split; [reflexivity|by left|exact sample_ring_ok].
  - unfold SCANCODE_BUFFER_LENGTH. lia.
  - vm_compute. repeat constructor.
  - exists s'. split; [exact Hr|exact (ks_view _ _ Hs')].
Defined.

(** ** The guest's clock *)

(** [rdtsc]: the guest sees the host's time stamp split over [rdx:rax] and the
    frequency in [rcx], and resumes behind the instruction; its other registers are
    untouched. *)
Theorem rdtsc_splits (exit : vmexit_info) (s : vmm) :
  exists s', rdtsc_exit_sub_handler exit s = Ret (vcpu (vm s), s') /\
    let c := cpu_state (vm s') in
    c = (cpu_state (vm s)) <| rdx := rdx c |> <| rax := rax c |> <| rcx := CPU_FREQUENCY |> /\
    0 <= rax c < 2 ^ 32 /\ 0 <= rdx c < 2 ^ 32 /\ rax c + 2 ^ 32 * rdx c = next_tsc s /\
    vmread (cur s') GUEST_RIP = u64 (vmread (cur s) GUEST_RIP + instruction_length exit).
Proof.
  eexists. split.
  { unfold rdtsc_exit_sub_handler, set_cpu, set_vm, GOTO_NEXT_INSTRUCTION, vmx_read, get_vm.
    rewrite (bind_run _ _ _ (next_tsc s) (s <| tsc_reads ::= S |>)) by reflexivity. run_steps.
    erewrite bind_run by (by apply vmx_write_run). run_steps. reflexivity. }
  cbv zeta. cbn [vm cur cpu_state update eta_vmm]. unfold next_tsc. pose proof (u64_range (tsc s (tsc_reads s))) as Ht.
  set (t := u64 (tsc s (tsc_reads s))) in *.
  change 0xffffffff with (Z.ones 32). rewrite !Z.land_ones, Z.shiftr_div_pow2 by lia.
  cbv [update]. cbn [rax rdx rcx cpu_state vm cur].
  rewrite (Z.mod_small (t / 2 ^ 32)) by zdiv. split; [done|]. split; [zdiv|]. split; [zdiv|]. split; [zdiv|].
  rewrite vmread_same by reflexivity. apply u64_small, u64_range.
Qed.
