(* ===== verification/Decode.v ===== *)
(** * Decode: the instruction decoder of the MMIO path
    ([vm_monitor/vmx_instruction_decoding.c]).

    [decode_x86_64_instruction] reads prefixes, a REX byte, one opcode of a table
    and its operands from a pointer into memory. The main result is a round trip
    with an encoder of the [mov] forms written from the instruction set's rules. *)
From Stdlib Require Import ZArith Lia.
From stdpp Require Import base tactics list numbers gmap.
From S2P Require Import Prelude Memory PhysicalMemory Radix Paging.
From S2P Require Import Ring Vmm Devices.
Local Open Scope Z_scope.

(** ** Data ([include/vmx_instruction_decoding.h]) *)
Definition OPERAND_HINT_MR : Z := 0x1.
Definition OPERAND_HINT_RM : Z := 0x2.
Definition OPERAND_HINT_IM : Z := 0x3.
Definition REX_W_MASK : Z := 0x08.
Definition REX_R_MASK : Z := 0x04.
Definition REX_B_MASK : Z := 0x01.
Definition MODERM_REG (moderm : Z) : Z := Z.land (Z.shiftr moderm 3) 0x7.
Definition MODERM_RM (moderm : Z) : Z := Z.land moderm 0x7.
Definition REX_W_BIT (rex : Z) : bool := truthy (Z.land rex REX_W_MASK).
Definition REX_R_BIT (rex : Z) : bool := truthy (Z.land rex REX_R_MASK).
Definition REX_B_BIT (rex : Z) : bool := truthy (Z.land rex REX_B_MASK).
Definition OPCODE_MASK_BYTE : Z := 0xff.
Definition OPCODE_MASK_WORD : Z := 0xffff.
Definition OPCODE_MASK_TRIBYTES : Z := 0xffffff.

Record instruction_context := Context_ {
  c_instruction_length : Z;
  is_lock_prefixed : Z; is_repnez_prefixed : Z; is_rep_prefixed : Z;
  is_cs_overrided : Z; is_ss_overrided : Z; is_ds_overrided : Z; is_es_overrided : Z;
  is_fs_overrided : Z; is_gs_overrided : Z;
  operand_size_overrided : Z; address_size_overrided : Z;
  opcode_escape0 : Z; opcode_escape1 : Z;
  rex_prefix : Z; opcode : Z; opcode_length : Z; moderm : Z; operand_hint : Z;
  reg_index : Z; rm_index : Z; access_size : Z; immediate : Z }.
#[export] Instance eta_context : Eta instruction_context := fun c =>
  Context_ (c_instruction_length c) (is_lock_prefixed c) (is_repnez_prefixed c)
    (is_rep_prefixed c) (is_cs_overrided c) (is_ss_overrided c) (is_ds_overrided c)
    (is_es_overrided c) (is_fs_overrided c) (is_gs_overrided c) (operand_size_overrided c)
    (address_size_overrided c) (opcode_escape0 c) (opcode_escape1 c) (rex_prefix c)
    (opcode c) (opcode_length c) (moderm c) (operand_hint c) (reg_index c) (rm_index c)
    (access_size c) (immediate c).
Definition zero_context : instruction_context :=
  Context_ 0 0 0 0 0 0 0 0 0 0 0 0 0 0 0 0 0 0 0 0 0 0 0.

Definition REG_INDEX (c : instruction_context) : Z :=
  Z.lor (MODERM_REG (moderm c)) (if REX_R_BIT (rex_prefix c) then Z.shiftl 1 3 else 0).
Definition REG_MEM_INDEX (c : instruction_context) : Z :=
  Z.lor (MODERM_RM (moderm c)) (if REX_B_BIT (rex_prefix c) then Z.shiftl 1 3 else 0).

(** ** Operands *)
Section Resolvers.
Context (m : memory) (instruction_stream : Z).

Definition add_length (n : Z) (c : instruction_context) : instruction_context :=
  c <| c_instruction_length ::= fun l => l + n |>.
(** [context->moderm = *instruction_stream], then the two register indices. *)
Definition set_moderm (c : instruction_context) : instruction_context :=
  let c := c <| moderm := rd8 m instruction_stream |> in
  let c := c <| rm_index := REG_MEM_INDEX c |> in
  c <| reg_index := REG_INDEX c |>.
(** The access size of the forms whose operand is 16, 32 or 64 bits wide. *)
Definition operand_size (c : instruction_context) : Z :=
  if truthy (operand_size_overrided c) then Video.ACCESS_IN_WORD
  else if REX_W_BIT (rex_prefix c) then Video.ACCESS_IN_QWORD else Video.ACCESS_IN_DWORD.

Definition opcode_8a_resolver (c : instruction_context) : instruction_context :=
  add_length 1 (set_moderm c) <| access_size := Video.ACCESS_IN_BYTE |>.
Definition opcode_8b_resolver (c : instruction_context) : instruction_context :=
  add_length 1 (set_moderm c) <| access_size := operand_size c |>.
Definition opcode_c6_resolver (c : instruction_context) : instruction_context :=
  add_length 2 (set_moderm c) <| immediate := rd8 m (instruction_stream + 1) |>
    <| access_size := Video.ACCESS_IN_BYTE |>.
Definition opcode_c7_resolver (c : instruction_context) : instruction_context :=
  let c := set_moderm c in
  if truthy (operand_size_overrided c) then
    add_length 3 c <| access_size := Video.ACCESS_IN_WORD |>
      <| immediate := load16 m (instruction_stream + 1) |>
  else if REX_W_BIT (rex_prefix c) then
    add_length 5 c <| access_size := Video.ACCESS_IN_QWORD |>
      <| immediate := load32 m (instruction_stream + 1) |>
  else
    add_length 5 c <| access_size := Video.ACCESS_IN_DWORD |>
      <| immediate := load32 m (instruction_stream + 1) |>.
Definition opcode_b6_resolver (c : instruction_context) : instruction_context :=
  add_length 1 (set_moderm c) <| access_size := Video.ACCESS_IN_BYTE |>.
Definition opcode_b7_resolver (c : instruction_context) : instruction_context :=
  add_length 1 (set_moderm c) <| access_size := Video.ACCESS_IN_WORD |>.
End Resolvers.

(** ** Opcodes *)
Record opcode_def := OpcodeDef {
  code : Z; mask : Z; def_hint : Z;
  resolve : memory -> Z -> instruction_context -> instruction_context }.
Definition predefined_opcodes : list opcode_def :=
  [ OpcodeDef 0xb6 OPCODE_MASK_BYTE OPERAND_HINT_MR opcode_b6_resolver;
    OpcodeDef 0xb7 OPCODE_MASK_BYTE OPERAND_HINT_MR opcode_b7_resolver;
    OpcodeDef 0xc6 OPCODE_MASK_BYTE OPERAND_HINT_IM opcode_c6_resolver;
    OpcodeDef 0xc7 OPCODE_MASK_BYTE OPERAND_HINT_IM opcode_c7_resolver;
    OpcodeDef 0x8a OPCODE_MASK_BYTE OPERAND_HINT_MR opcode_8a_resolver;
    OpcodeDef 0x8b OPCODE_MASK_BYTE OPERAND_HINT_MR opcode_8b_resolver;
    OpcodeDef 0x88 OPCODE_MASK_BYTE OPERAND_HINT_RM opcode_8a_resolver;
    OpcodeDef 0x89 OPCODE_MASK_BYTE OPERAND_HINT_RM opcode_8b_resolver ].

(** [case code: context->field = 1; break;] for the legacy prefixes. *)
Definition prefix_field (byte : Z) (c : instruction_context) : option instruction_context :=
  if byte =? 0x0f then Some (c <| opcode_escape0 := 1 |>)
  else if byte =? 0x38 then Some (c <| opcode_escape1 := 1 |>)
  else if byte =? 0x3a then Some (c <| opcode_escape1 := 1 |>)
  else if byte =? 0xf0 then Some (c <| is_lock_prefixed := 1 |>)
  else if byte =? 0xf2 then Some (c <| is_repnez_prefixed := 1 |>)
  else if byte =? 0xf3 then Some (c <| is_rep_prefixed := 1 |>)
  else if byte =? 0x2e then Some (c <| is_cs_overrided := 1 |>)
  else if byte =? 0x36 then Some (c <| is_ss_overrided := 1 |>)
  else if byte =? 0x3e then Some (c <| is_ds_overrided := 1 |>)
  else if byte =? 0x26 then Some (c <| is_es_overrided := 1 |>)
  else if byte =? 0x64 then Some (c <| is_fs_overrided := 1 |>)
  else if byte =? 0x65 then Some (c <| is_gs_overrided := 1 |>)
  else if byte =? 0x66 then Some (c <| operand_size_overrided := 1 |>)
  else if byte =? 0x67 then Some (c <| address_size_overrided := 1 |>)
  else None.

(** [for (; *lptr; lptr++)]: prefixes are read until another byte or a zero. *)
Fixpoint prefix_loop (fuel : nat) (m : memory) (lptr : Z) (c : instruction_context) :
  outcome (Z * instruction_context) :=
  match fuel with
  | O => Stop OutOfFuel
  | S k =>
      if rd8 m lptr =? 0 then Ret (lptr, c)
      else match prefix_field (rd8 m lptr) c with
           | None => Ret (lptr, c)
           | Some c => prefix_loop k m (lptr + 1) (add_length 1 c)
           end
  end.

(** The [switch] on the mask of the table's entry that matched. *)
Definition take_opcode (m : memory) (d : opcode_def) (lptr : Z) (c : instruction_context) :
  outcome (Z * instruction_context) :=
  if mask d =? OPCODE_MASK_BYTE then
    Ret (lptr + 1, add_length 1 (c <| opcode := rd8 m lptr |> <| opcode_length := 1 |>))
  else if mask d =? OPCODE_MASK_WORD then
    Ret (lptr + 2, add_length 2 (c <| opcode := load16 m lptr |> <| opcode_length := 2 |>))
  else if mask d =? OPCODE_MASK_TRIBYTES then
    Ret (lptr + 3, add_length 3 (c <| opcode := Z.land (load32 m lptr) (mask d) |> <| opcode_length := 3 |>))
  else Stop Halted.

Fixpoint opcode_loop (defs : list opcode_def) (m : memory) (lptr : Z) (c : instruction_context) :
  outcome instruction_context :=
  match defs with
  | [] => Ret c
  | d :: defs =>
      if Z.land (mask d) (code d) =? Z.land (mask d) (load32 m lptr) then
        match take_opcode m d lptr c with
        | Ret (lptr, c) => Ret (resolve d m lptr (c <| operand_hint := def_hint d |>))
        | Stop f => Stop f
        end
      else opcode_loop defs m lptr c
  end.

(** The loop over the prefixes has no bound of its own; a page of prefixes is
    more than any instruction has. *)
Definition PREFIX_FUEL : nat := Z.to_nat PAGE_SIZE_4K.

Definition decode_x86_64_instruction (m : memory) (instruction_stream : Z) :
  outcome (Z * instruction_context) :=
  match prefix_loop PREFIX_FUEL m instruction_stream zero_context with
  | Stop f => Stop f
  | Ret (lptr, c) =>
      let rex := rd8 m lptr in
      let '(lptr, c) :=
        if (0x40 <=? rex) && (rex <=? 0x4f)
        then (lptr + 1, add_length 1 (c <| rex_prefix := rex |>)) else (lptr, c) in
      match opcode_loop predefined_opcodes m lptr c with
      | Stop f => Stop f
      | Ret c => if truthy (opcode c) then Ret (ERROR_OK, c) else Stop Halted
      end
  end.

(** * The encoding of the instruction set

    The [mov] and [movzx] forms with a memory operand [[base]] (mode 00, without
    displacement), as the processor encodes them. *)
Inductive width := W8 | W16 | W32 | W64.
Definition bytes_of_width (w : width) : Z :=
  match w with W8 => 1 | W16 => 2 | W32 => 4 | W64 => 8 end.

Inductive mmio_access :=
| Load (w : width) (reg base : Z)
| Store (w : width) (reg base : Z)
| StoreImm (w : width) (imm base : Z)
| LoadZeroExtended (w : width) (reg base : Z).

(** Registers 8..15 and 64-bit operands need a REX byte, and so do [spl], [bpl],
    [sil] and [dil]; a base of [rsp], [rbp], [r12] or [r13] takes a SIB byte or a
    displacement and has another form. *)
Definition rex_byte (w : width) (reg base : Z) : list Z :=
  let v := 0x40 + (match w with W64 => 8 | _ => 0 end) + 4 * (reg / 8) + base / 8 in
  let byte_register := match w with W8 => (4 <=? reg) && (reg <? 8) | _ => false end in
  if (v =? 0x40) && negb byte_register then [] else [v].
Definition size_prefix (w : width) : list Z := match w with W16 => [0x66] | _ => [] end.
Definition modrm (reg base : Z) : Z := 8 * (reg mod 8) + base mod 8.
Fixpoint little_endian (n : nat) (v : Z) : list Z :=
  match n with O => [] | S k => u8 v :: little_endian k (v / 256) end.
Definition imm_bytes (w : width) : nat := match w with W8 => 1 | W16 => 2 | _ => 4 end.
Definition wide (w : width) : Z := match w with W8 => 0 | _ => 1 end.

Definition encode (a : mmio_access) : list Z :=
  match a with
  | Load w reg base => size_prefix w ++ rex_byte w reg base ++ [0x8a + wide w; modrm reg base]
  | Store w reg base => size_prefix w ++ rex_byte w reg base ++ [0x88 + wide w; modrm reg base]
  | StoreImm w imm base =>
      size_prefix w ++ rex_byte w 0 base ++ [0xc6 + wide w; modrm 0 base] ++ little_endian (imm_bytes w) imm
  | LoadZeroExtended w reg base => [0x0f; 0xb6 + wide w; modrm reg base]
  end.

Definition is_register (r : Z) : Prop := 0 <= r < 16.
Definition plain_base (b : Z) : Prop := is_register b /\ b mod 8 <> 4 /\ b mod 8 <> 5.
Definition encodable (a : mmio_access) : Prop :=
  match a with
  | Load _ reg base | Store _ reg base => is_register reg /\ plain_base base
  | StoreImm w imm base => plain_base base /\ 0 <= imm < 256 ^ Z.of_nat (imm_bytes w)
  | LoadZeroExtended w reg base => (w = W8 \/ w = W16) /\ 0 <= reg < 8 /\ 0 <= base < 8 /\ plain_base base
  end.

(** What the monitor acts on: the length, the kind of access and its operands. *)
Record decoded := Decoded {
  d_length : Z; d_hint : Z; d_reg : Z; d_base : Z; d_size : Z; d_immediate : Z }.
Definition decoded_of (c : instruction_context) : decoded :=
  Decoded (c_instruction_length c) (operand_hint c) (reg_index c) (rm_index c) (access_size c) (immediate c).
Definition meaning (a : mmio_access) : decoded :=
  let len := Z.of_nat (length (encode a)) in
  match a with
  | Load w reg base | LoadZeroExtended w reg base =>
      Decoded len OPERAND_HINT_MR reg base (bytes_of_width w) 0
  | Store w reg base => Decoded len OPERAND_HINT_RM reg base (bytes_of_width w) 0
  | StoreImm w imm base => Decoded len OPERAND_HINT_IM 0 base (bytes_of_width w) imm
  end.

(** ** Bytes in memory *)
Definition bytes_at (m : memory) (p : Z) (l : list Z) : Prop :=
  forall i, (i < length l)%nat -> rd8 m (p + Z.of_nat i) = l !!! i.

Lemma bytes_at_cons m p b l : bytes_at m p (b :: l) <-> rd8 m p = b /\ bytes_at m (p + 1) l.
Proof.
  split.
  - intros H. split; [rewrite <- (Z.add_0_r p); apply (H 0%nat); cbn; lia|].
    intros i Hi. change (l !!! i) with ((b :: l) !!! S i). rewrite <- H by (cbn; lia). f_equal. lia.
  - intros [Hb Hl] [|i] Hi; [by rewrite Z.add_0_r|]. change ((b :: l) !!! S i) with (l !!! i).
    cbn [length] in Hi. rewrite <- Hl by lia. f_equal. lia.
Qed.

Lemma load_little_endian n m p v : 0 <= v < 256 ^ Z.of_nat n -> bytes_at m p (little_endian n v) ->
  load n m p = v.
Proof.
  revert p v. induction n as [|n IH]; intros p v Hv Hb.
  { change (256 ^ Z.of_nat 0) with 1 in Hv. cbn. lia. }
  rewrite Nat2Z.inj_succ, Z.pow_succ_r in Hv by lia.
  cbn [little_endian] in Hb. apply bytes_at_cons in Hb as [H0 Hb]. cbn [load].
  rewrite H0, (IH (p + 1) (v / 256)); [|zdiv|exact Hb]. unfold u8, wrap. change (2 ^ 8) with 256.
  zdiv.
Qed.

(** The table compares a double word under a byte mask. *)
Lemma opcode_byte m p : Z.land OPCODE_MASK_BYTE (load32 m p) = rd8 m p.
Proof.
  unfold OPCODE_MASK_BYTE. rewrite Z.land_comm. change 0xff with (Z.ones 8). rewrite Z.land_ones by lia.
  unfold load32. cbn [load]. pose proof (rd8_range m p). change (2 ^ 8) with 256.
  set (r := rd8 m (p + 1) + _). zdiv.
Qed.

(** ** Register indices *)
Definition all_registers : list Z := [0; 1; 2; 3; 4; 5; 6; 7; 8; 9; 10; 11; 12; 13; 14; 15].
Lemma is_register_in r : is_register r -> r ∈ all_registers.
Proof. unfold is_register, all_registers. intros H. rewrite !elem_of_cons. lia. Qed.

Definition rex_value (w : width) (reg base : Z) : Z :=
  0x40 + (match w with W64 => 8 | _ => 0 end) + 4 * (reg / 8) + base / 8.

(** The fields of a REX and a ModRM byte, checked for every pair of registers. *)
Lemma register_fields w reg base : is_register reg -> is_register base ->
  let rex := rex_value w reg base in
  Z.lor (MODERM_REG (modrm reg base)) (if REX_R_BIT rex then Z.shiftl 1 3 else 0) = reg /\
  Z.lor (MODERM_RM (modrm reg base)) (if REX_B_BIT rex then Z.shiftl 1 3 else 0) = base /\
  REX_W_BIT rex = match w with W64 => true | _ => false end /\
  0x40 <= rex <= 0x4f /\ prefix_field rex zero_context = None /\
  0 <= modrm reg base < 256.
Proof.
  intros Hr Hb.
  assert (H : forallb (fun reg => forallb (fun base => forallb (fun w =>
    let rex := rex_value w reg base in
    (Z.lor (MODERM_REG (modrm reg base)) (if REX_R_BIT rex then Z.shiftl 1 3 else 0) =? reg) &&
    (Z.lor (MODERM_RM (modrm reg base)) (if REX_B_BIT rex then Z.shiftl 1 3 else 0) =? base) &&
    Bool.eqb (REX_W_BIT rex) (match w with W64 => true | _ => false end) &&
    ((0x40 <=? rex) && (rex <=? 0x4f)) &&
    (match prefix_field rex zero_context with None => true | _ => false end) &&
    ((0 <=? modrm reg base) && (modrm reg base <? 256))) [W8; W16; W32; W64]) all_registers) all_registers = true)
    by (vm_compute; reflexivity).
  apply is_register_in in Hr, Hb.
  rewrite List.forallb_forall in H. specialize (H reg (proj1 (list_elem_of_In _ _) Hr)). cbv beta in H.
  rewrite List.forallb_forall in H. specialize (H base (proj1 (list_elem_of_In _ _) Hb)). cbv beta in H.
  rewrite List.forallb_forall in H. specialize (H w ltac:(destruct w; cbn; tauto)). cbv beta zeta in H.
  cbv zeta. rewrite !andb_true_iff, !Z.eqb_eq, !Z.leb_le, Z.ltb_lt in H.
  destruct H as [[[[[H1 H2] H3] H4] H5] H6]. apply Bool.eqb_prop in H3.
  destruct (prefix_field (rex_value w reg base) zero_context); [done|]. done.
Qed.

(** ** The three stages *)
Lemma prefix_field_stop b c c' : prefix_field b c = None -> prefix_field b c' = None.
Proof. unfold prefix_field. intros H. repeat (case_match; [done|]). done. Qed.

(** The context behind the prefixes. *)
Definition prefixed (w : width) (rex : list Z) : instruction_context :=
  zero_context <| operand_size_overrided := match w with W16 => 1 | _ => 0 end |>
    <| rex_prefix := hd 0 rex |>
    <| c_instruction_length := Z.of_nat (length (size_prefix w) + length rex) |>.

Lemma prefix_stage m p w b rest : bytes_at m p (size_prefix w ++ b :: rest) ->
  b <> 0 -> prefix_field b zero_context = None ->
  prefix_loop PREFIX_FUEL m p zero_context =
    Ret (p + Z.of_nat (length (size_prefix w)), prefixed w []).
Proof.
  intros Hb Hb0 Hstop.
  assert (Hpl : forall k q c, rd8 m q = b -> prefix_loop (S k) m q c = Ret (q, c)).
  { intros k q c Hq. cbn [prefix_loop]. rewrite Hq. destruct (Z.eqb_spec b 0); [done|].
    by rewrite (prefix_field_stop b zero_context c Hstop). }
  assert (Hf : PREFIX_FUEL = S (S (Z.to_nat 4094))) by (vm_compute; reflexivity). rewrite Hf.
  destruct w; cbn [size_prefix app] in *; apply bytes_at_cons in Hb as [Hq Hb].
  2:{ apply bytes_at_cons in Hb as [Hq' _]. set (k := S (Z.to_nat 4094)). cbn [prefix_loop]. rewrite Hq.
      change (0x66 =? 0) with false. cbv iota. change (prefix_field 0x66 zero_context) with
        (Some (zero_context <| operand_size_overrided := 1 |>)). cbv iota. unfold k. by rewrite Hpl. }
  all: rewrite Hpl by done; f_equal; f_equal; cbn; lia.
Qed.

Definition table_opcode (op : Z) : Prop := op ∈ [0xb6; 0xb7; 0xc6; 0xc7; 0x8a; 0x8b; 0x88; 0x89].
Definition rex_ok (rex : list Z) : Prop :=
  rex = [] \/ exists v, rex = [v] /\ 0x40 <= v <= 0x4f /\ prefix_field v zero_context = None.

Lemma table_opcode_plain op : table_opcode op ->
  op <> 0 /\ prefix_field op zero_context = None /\ ((0x40 <=? op) && (op <=? 0x4f)) = false.
Proof. unfold table_opcode. rewrite !elem_of_cons, elem_of_nil. intros H. repeat destruct H as [->|H]; done. Qed.

Lemma decode_prefixes m p w rex op rest : rex_ok rex -> table_opcode op ->
  bytes_at m p (size_prefix w ++ rex ++ op :: rest) ->
  let q := p + Z.of_nat (length (size_prefix w) + length rex) in
  decode_x86_64_instruction m p =
    match opcode_loop predefined_opcodes m q (prefixed w rex) with
    | Stop f => Stop f
    | Ret c => if truthy (opcode c) then Ret (ERROR_OK, c) else Stop Halted
    end /\ bytes_at m q (op :: rest).
Proof.
  intros Hrex Hop Hb q. destruct (table_opcode_plain op Hop) as (Hop0 & Hops & Hopr).
  unfold decode_x86_64_instruction.
  assert (Hshift : forall a l r, bytes_at m a (l ++ r) -> bytes_at m (a + Z.of_nat (length l)) r).
  { intros a l r. revert a. induction l as [|x l IH]; intros a H; [by rewrite Z.add_0_r|].
    cbn [app] in H. apply bytes_at_cons in H as [_ H]. apply IH in H. cbn [length]. rewrite Nat2Z.inj_succ.
    by replace (a + Z.succ (Z.of_nat (length l))) with (a + 1 + Z.of_nat (length l)) by lia. }
  destruct Hrex as [->|(v & -> & Hv & Hvs)]; cbn [app] in Hb.
  - rewrite (prefix_stage m p w op rest Hb Hop0 Hops). apply Hshift in Hb.
    assert (Hq : q = p + Z.of_nat (length (size_prefix w))) by (unfold q; cbn; lia). rewrite Hq.
    split; [|exact Hb]. apply bytes_at_cons in Hb as [-> _]. by rewrite Hopr.
  - rewrite (prefix_stage m p w v (op :: rest) Hb ltac:(lia) Hvs). apply Hshift in Hb.
    apply bytes_at_cons in Hb as [Hrd Hb].
    assert (Hq : q = p + Z.of_nat (length (size_prefix w)) + 1) by (unfold q; cbn; lia). rewrite Hq.
    split; [|exact Hb]. rewrite Hrd. destruct (Z.leb_spec 0x40 v); [|lia]. destruct (Z.leb_spec v 0x4f); [|lia].
    cbn [andb]. by destruct w.
Qed.

Lemma opcode_stage d m q c : d ∈ predefined_opcodes -> rd8 m q = code d ->
  opcode_loop predefined_opcodes m q c =
    Ret (resolve d m (q + 1) (add_length 1 (c <| opcode := code d |> <| opcode_length := 1 |>)
                                <| operand_hint := def_hint d |>)).
Proof.
  intros Hd Hq. unfold predefined_opcodes in *.
  cbn [opcode_loop mask code]. rewrite !opcode_byte, !Hq. unfold take_opcode. rewrite !Hq.
  rewrite !elem_of_cons, elem_of_nil in Hd. repeat destruct Hd as [->|Hd]; [reflexivity..|done].
Qed.

Lemma rex_byte_ok w reg base : is_register reg -> is_register base -> rex_ok (rex_byte w reg base) /\
  REX_W_BIT (hd 0 (rex_byte w reg base)) = REX_W_BIT (rex_value w reg base) /\
  REX_R_BIT (hd 0 (rex_byte w reg base)) = REX_R_BIT (rex_value w reg base) /\
  REX_B_BIT (hd 0 (rex_byte w reg base)) = REX_B_BIT (rex_value w reg base).
Proof.
  intros Hr Hb. destruct (register_fields w reg base Hr Hb) as (_ & _ & _ & Hv & Hs & _).
  unfold rex_byte. fold (rex_value w reg base). set (v := rex_value w reg base) in *.
  set (br := match w with W8 => _ | _ => false end).
  destruct (Z.eqb_spec v 0x40) as [E|E]; destruct br; cbn [andb negb].
  2:{ split; [by left|]. by rewrite E. }
  all: split; [right; by exists v|done].
Qed.

(** The registers a decoded form names. *)
Lemma prefixed_operands m q w reg base : is_register reg -> is_register base ->
  rd8 m q = modrm reg base ->
  forall c, rex_prefix c = hd 0 (rex_byte w reg base) ->
  reg_index (set_moderm m q c) = reg /\ rm_index (set_moderm m q c) = base /\
  rex_prefix (set_moderm m q c) = rex_prefix c /\
  operand_size_overrided (set_moderm m q c) = operand_size_overrided c /\
  c_instruction_length (set_moderm m q c) = c_instruction_length c /\
  operand_hint (set_moderm m q c) = operand_hint c /\ immediate (set_moderm m q c) = immediate c.
Proof.
  intros Hr Hb Hq c Hc. destruct (register_fields w reg base Hr Hb) as (H1 & H2 & _).
  destruct (rex_byte_ok w reg base Hr Hb) as (_ & _ & ER & EB).
  unfold set_moderm. cbv [update]. cbn [reg_index rm_index rex_prefix operand_size_overrided
    c_instruction_length operand_hint immediate moderm].
  unfold REG_INDEX, REG_MEM_INDEX. cbn [moderm rex_prefix]. rewrite Hq, Hc, ER, EB, H1, H2. done.
Qed.

Lemma modrm_no_reg base : 0 <= base < 16 -> is_register 0 /\ is_register base.
Proof. unfold is_register. lia. Qed.

(** The state of the decoder before the operands are read. *)
Definition before_operands (w : width) (rex : list Z) (d : opcode_def) : instruction_context :=
  add_length 1 ((prefixed w rex) <| opcode := code d |> <| opcode_length := 1 |>)
    <| operand_hint := def_hint d |>.

Lemma decode_opcode m p w reg base d rest : is_register reg -> is_register base ->
  d ∈ predefined_opcodes -> code d <> 0 ->
  bytes_at m p (size_prefix w ++ rex_byte w reg base ++ code d :: modrm reg base :: rest) ->
  (forall q c, opcode (resolve d m q c) = opcode c) ->
  let rex := rex_byte w reg base in
  let q := p + Z.of_nat (length (size_prefix w) + length rex) + 1 in
  decode_x86_64_instruction m p = Ret (ERROR_OK, resolve d m q (before_operands w rex d)) /\
  rd8 m q = modrm reg base /\ bytes_at m (q + 1) rest.
Proof.
  intros Hr Hb Hd Hnz Hby Hkeep rex q.
  destruct (rex_byte_ok w reg base Hr Hb) as (Hrex & _).
  assert (Hop : table_opcode (code d)).
  { unfold predefined_opcodes in Hd. rewrite !elem_of_cons, elem_of_nil in Hd. unfold table_opcode.
    repeat destruct Hd as [->|Hd]; [..|done]; cbn [code]; rewrite !elem_of_cons; tauto. }
  destruct (decode_prefixes m p w rex (code d) (modrm reg base :: rest) Hrex Hop Hby) as [Hrun Hrest].
  apply bytes_at_cons in Hrest as [Hrd Hrest]. apply bytes_at_cons in Hrest as [Hm Hrest]. fold q in Hm, Hrest.
  split; [|by split]. rewrite Hrun, (opcode_stage d m _ _ Hd Hrd). rewrite Hkeep.
  change (opcode (add_length 1 _ <| operand_hint := _ |>)) with (code d).
  destruct (truthy (code d)) eqn:E; [reflexivity|]. by apply truthy_false in E.
Qed.

Lemma prefixed_size w reg base : is_register reg -> is_register base ->
  forall c, rex_prefix c = hd 0 (rex_byte w reg base) ->
  operand_size_overrided c = (match w with W16 => 1 | _ => 0 end) -> w <> W8 ->
  operand_size c = bytes_of_width w.
Proof.
  intros Hr Hb c Hc Ho Hw. destruct (register_fields w reg base Hr Hb) as (_ & _ & H3 & _).
  destruct (rex_byte_ok w reg base Hr Hb) as (_ & EW & _). unfold operand_size. rewrite Ho, Hc, EW, H3.
  by destruct w.
Qed.

(** The facts about the context a resolver starts from. *)
Record operands_read (m : memory) (q : Z) (w : width) (rex : list Z) (d : opcode_def) (reg base : Z)
    (c : instruction_context) : Prop := {
  or_reg : reg_index c = reg;
  or_base : rm_index c = base;
  or_size : w <> W8 -> operand_size c = bytes_of_width w;
  or_w16 : operand_size_overrided c = (match w with W16 => 1 | _ => 0 end);
  or_rexw : REX_W_BIT (rex_prefix c) = (match w with W64 => true | _ => false end);
  or_length : c_instruction_length c = Z.of_nat (length (size_prefix w) + length rex) + 1;
  or_hint : operand_hint c = def_hint d;
  or_imm : immediate c = 0 }.

Lemma operands_read_run m q w reg base d : is_register reg -> is_register base -> rd8 m q = modrm reg base ->
  operands_read m q w (rex_byte w reg base) d reg base
    (set_moderm m q (before_operands w (rex_byte w reg base) d)) /\
  (w <> W8 -> operand_size (before_operands w (rex_byte w reg base) d) = bytes_of_width w).
Proof.
  intros Hr Hb Hq. set (rex := rex_byte w reg base). set (c := before_operands w rex d).
  destruct (prefixed_operands m q w reg base Hr Hb Hq c eq_refl) as (H1 & H2 & H3 & H4 & H5 & H6 & H7).
  destruct (register_fields w reg base Hr Hb) as (_ & _ & HW & _).
  destruct (rex_byte_ok w reg base Hr Hb) as (_ & EW & _).
  split; [split|].
  - exact H1.
  - exact H2.
  - intros Hw. apply (prefixed_size w reg base Hr Hb); [by rewrite H3|by rewrite H4|done].
  - by rewrite H4.
  - rewrite H3. change (rex_prefix c) with (hd 0 rex). unfold rex. by rewrite EW, HW.
  - rewrite H5. reflexivity.
  - by rewrite H6.
  - by rewrite H7.
  - intros Hw. by apply (prefixed_size w reg base Hr Hb).
Qed.

(** What each resolver leaves. *)
Definition decoded_with (n size imm : Z) (c : instruction_context) : decoded :=
  Decoded (c_instruction_length c + n) (operand_hint c) (reg_index c) (rm_index c) size imm.
Lemma decoded_8a m q c : decoded_of (opcode_8a_resolver m q c) =
  decoded_with 1 1 (immediate (set_moderm m q c)) (set_moderm m q c).
Proof. reflexivity. Qed.
Lemma decoded_8b m q c : decoded_of (opcode_8b_resolver m q c) =
  decoded_with 1 (operand_size c) (immediate (set_moderm m q c)) (set_moderm m q c).
Proof. reflexivity. Qed.
Lemma decoded_b6 m q c : decoded_of (opcode_b6_resolver m q c) =
  decoded_with 1 1 (immediate (set_moderm m q c)) (set_moderm m q c).
Proof. reflexivity. Qed.
Lemma decoded_b7 m q c : decoded_of (opcode_b7_resolver m q c) =
  decoded_with 1 2 (immediate (set_moderm m q c)) (set_moderm m q c).
Proof. reflexivity. Qed.
Lemma decoded_c6 m q c : decoded_of (opcode_c6_resolver m q c) =
  decoded_with 2 1 (rd8 m (q + 1)) (set_moderm m q c).
Proof. reflexivity. Qed.
Lemma decoded_c7 m q c : decoded_of (opcode_c7_resolver m q c) =
  let c := set_moderm m q c in
  if truthy (operand_size_overrided c) then decoded_with 3 2 (load 2 m (q + 1)) c
  else decoded_with 5 (if REX_W_BIT (rex_prefix c) then 8 else 4) (load 4 m (q + 1)) c.
Proof. unfold opcode_c7_resolver. cbv zeta. by repeat case_match. Qed.

(** The context of a form's operands is what the form says. *)
Lemma decoded_with_meaning m q w rex d reg base c n size imm len : operands_read m q w rex d reg base c ->
  len = Z.of_nat (length (size_prefix w) + length rex) + 1 + n ->
  decoded_with n size imm c = Decoded len (def_hint d) reg base size imm.
Proof. intros [] Hlen. unfold decoded_with. f_equal; [lia|done..]. Qed.

Definition def_of (a : mmio_access) : opcode_def :=
  match a with
  | Load W8 _ _ => OpcodeDef 0x8a OPCODE_MASK_BYTE OPERAND_HINT_MR opcode_8a_resolver
  | Load _ _ _ => OpcodeDef 0x8b OPCODE_MASK_BYTE OPERAND_HINT_MR opcode_8b_resolver
  | Store W8 _ _ => OpcodeDef 0x88 OPCODE_MASK_BYTE OPERAND_HINT_RM opcode_8a_resolver
  | Store _ _ _ => OpcodeDef 0x89 OPCODE_MASK_BYTE OPERAND_HINT_RM opcode_8b_resolver
  | StoreImm W8 _ _ => OpcodeDef 0xc6 OPCODE_MASK_BYTE OPERAND_HINT_IM opcode_c6_resolver
  | StoreImm _ _ _ => OpcodeDef 0xc7 OPCODE_MASK_BYTE OPERAND_HINT_IM opcode_c7_resolver
  | LoadZeroExtended W8 _ _ => OpcodeDef 0xb6 OPCODE_MASK_BYTE OPERAND_HINT_MR opcode_b6_resolver
  | LoadZeroExtended _ _ _ => OpcodeDef 0xb7 OPCODE_MASK_BYTE OPERAND_HINT_MR opcode_b7_resolver
  end.

Lemma def_of_listed a : def_of a ∈ predefined_opcodes /\ code (def_of a) <> 0.
Proof.
  unfold predefined_opcodes. rewrite !elem_of_cons.
  destruct a as [[]|[]|[]|[]]; cbn [def_of]; (split; [tauto|done]).
Qed.

Ltac decode_lengths := cbn [encode meaning]; rewrite ?length_app; cbn [length imm_bytes little_endian]; lia.

Lemma decode_mov m p a : encodable a -> (forall w reg base, a <> LoadZeroExtended w reg base) ->
  bytes_at m p (encode a) ->
  exists c, decode_x86_64_instruction m p = Ret (ERROR_OK, c) /\ decoded_of c = meaning a.
Proof.
  intros Ha Hz Hby. destruct (def_of_listed a) as [Hd Hnz].
  destruct a as [w reg base|w reg base|w imm base|w reg base]; [| | |by destruct (Hz w reg base)].
  1,2: destruct Ha as [Hr [Hb _]];
    (destruct (decode_opcode m p w reg base _ [] Hr Hb Hd Hnz) as (Hrun & Hq & _);
      [by destruct w|intros; by destruct w|]);
    (eexists; split; [exact Hrun|]);
    match type of Hd with ?d ∈ _ => destruct (operands_read_run m _ w reg base d Hr Hb Hq) as [H Hsz] end;
    destruct w; cbn [def_of resolve] in *; rewrite ?decoded_8a, ?decoded_8b, ?(or_imm _ _ _ _ _ _ _ _ H), ?Hsz by done;
    apply (decoded_with_meaning _ _ _ _ _ _ _ _ _ _ _ _ H); decode_lengths.
  destruct Ha as [[Hb _] Himm]. assert (Hr : is_register 0) by (unfold is_register; lia).
  destruct (decode_opcode m p w 0 base _ (little_endian (imm_bytes w) imm) Hr Hb Hd Hnz) as (Hrun & Hq & Hi).
  { by destruct w. }
  { intros. destruct w; [reflexivity|..]; cbn [def_of resolve]; unfold opcode_c7_resolver; by repeat case_match. }
  eexists. split; [exact Hrun|].
  destruct (operands_read_run m _ w 0 base (def_of (StoreImm w imm base)) Hr Hb Hq) as [H _].
  pose proof (load_little_endian _ _ _ _ Himm Hi) as Hl.
  destruct w; cbn [def_of resolve imm_bytes] in *; rewrite ?decoded_c6, ?decoded_c7; cbv zeta;
    rewrite ?(or_w16 _ _ _ _ _ _ _ _ H), ?(or_rexw _ _ _ _ _ _ _ _ H), ?Hl; cbn [truthy];
    try (change (truthy 1) with true); try (change (truthy 0) with false); cbv iota.
  1: cbn [load] in Hl; rewrite Z.mul_0_r, Z.add_0_r in Hl; rewrite Hl.
  all: apply (decoded_with_meaning _ _ _ _ _ _ _ _ _ _ _ _ H); decode_lengths.
Qed.

Lemma set_moderm_regs m q c :
  reg_index (set_moderm m q c) =
    Z.lor (MODERM_REG (rd8 m q)) (if REX_R_BIT (rex_prefix c) then Z.shiftl 1 3 else 0) /\
  rm_index (set_moderm m q c) =
    Z.lor (MODERM_RM (rd8 m q)) (if REX_B_BIT (rex_prefix c) then Z.shiftl 1 3 else 0) /\
  c_instruction_length (set_moderm m q c) = c_instruction_length c /\
  operand_hint (set_moderm m q c) = operand_hint c /\ immediate (set_moderm m q c) = immediate c.
Proof. repeat split. Qed.

Lemma prefix_two m p b op rest c c' : bytes_at m p (b :: op :: rest) -> b <> 0 -> op <> 0 ->
  prefix_field b c = Some c' -> prefix_field op zero_context = None ->
  prefix_loop PREFIX_FUEL m p c = Ret (p + 1, add_length 1 c').
Proof.
  intros Hby Hb Hop Hp Hs. apply bytes_at_cons in Hby as [H1 Hby]. apply bytes_at_cons in Hby as [H2 _].
  assert (Hf : PREFIX_FUEL = S (S (Z.to_nat 4094))) by (vm_compute; reflexivity). rewrite Hf.
  set (k := Z.to_nat 4094). clearbody k. cbn [prefix_loop]. rewrite H1. destruct (Z.eqb_spec b 0); [done|].
  rewrite Hp, H2. destruct (Z.eqb_spec op 0); [done|]. by rewrite (prefix_field_stop op zero_context _ Hs).
Qed.

(** The context behind the escape byte and the opcode of a [movzx]. *)
Definition movzx_context (d : opcode_def) : instruction_context :=
  add_length 1 ((add_length 1 (zero_context <| opcode_escape0 := 1 |>))
    <| opcode := code d |> <| opcode_length := 1 |>) <| operand_hint := def_hint d |>.

Lemma movzx_meaning m q w reg base : encodable (LoadZeroExtended w reg base) -> rd8 m q = modrm reg base ->
  let d := def_of (LoadZeroExtended w reg base) in
  decoded_of (resolve d m q (movzx_context d)) = meaning (LoadZeroExtended w reg base).
Proof.
  intros (Hw & Hr & Hb8 & Hb & _) Hq d. assert (Hrb : is_register reg) by (unfold is_register; lia).
  destruct (register_fields W8 reg base Hrb Hb) as (F1 & F2 & _).
  assert (Hrex : rex_value W8 reg base = 0x40).
  { unfold rex_value. rewrite !Z.div_small by lia. done. }
  rewrite Hrex in F1, F2. change (REX_R_BIT 0x40) with false in F1. change (REX_B_BIT 0x40) with false in F2.
  destruct (set_moderm_regs m q (movzx_context d)) as (E1 & E2 & E3 & E4 & E5). rewrite Hq in E1, E2.
  change (REX_R_BIT (rex_prefix (movzx_context d))) with false in E1.
  change (REX_B_BIT (rex_prefix (movzx_context d))) with false in E2. cbv iota in E1, E2, F1, F2.
  rewrite F1 in E1. rewrite F2 in E2.
  transitivity (decoded_with 1 (bytes_of_width w) (immediate (set_moderm m q (movzx_context d)))
    (set_moderm m q (movzx_context d))).
  { clear - Hw. unfold d. set (c := movzx_context _). clearbody c.
    destruct Hw as [->| ->]; cbn [def_of resolve]; [apply decoded_b6|apply decoded_b7]. }
  unfold decoded_with. rewrite E1, E2, E3, E4, E5. destruct Hw as [->| ->]; reflexivity.
Qed.

Lemma decode_movzx m p w reg base : encodable (LoadZeroExtended w reg base) ->
  bytes_at m p (encode (LoadZeroExtended w reg base)) ->
  exists c, decode_x86_64_instruction m p = Ret (ERROR_OK, c) /\
    decoded_of c = meaning (LoadZeroExtended w reg base).
Proof.
  intros He Hby. pose proof He as (Hw & _). destruct (def_of_listed (LoadZeroExtended w reg base)) as [Hd _].
  set (d := def_of (LoadZeroExtended w reg base)) in *.
  assert (Hcode : code d = 0xb6 + wide w) by (destruct Hw as [->| ->]; reflexivity).
  assert (Hplain : 0xb6 + wide w <> 0 /\ prefix_field (0xb6 + wide w) zero_context = None /\
    ((0x40 <=? code d) && (code d <=? 0x4f)) = false /\ truthy (code d) = true)
    by (rewrite Hcode; destruct Hw as [->| ->]; done).
  destruct Hplain as (Hp1 & Hp2 & Hx & Ht).
  pose proof (prefix_two m p 0x0f (0xb6 + wide w) [modrm reg base] zero_context
    (zero_context <| opcode_escape0 := 1 |>) Hby ltac:(lia) Hp1 eq_refl Hp2) as Hp.
  cbn [encode] in Hby. rewrite <- Hcode in Hby.
  apply bytes_at_cons in Hby as [_ Hby]. apply bytes_at_cons in Hby as [H1 Hby]. apply bytes_at_cons in Hby as [H2 _].
  exists (resolve d m (p + 1 + 1) (movzx_context d)). split; [|by apply movzx_meaning].
  unfold decode_x86_64_instruction. rewrite Hp, H1, Hx. cbv beta iota zeta.
  rewrite (opcode_stage d m _ _ Hd H1). fold (movzx_context d).
  assert (Ho : opcode (resolve d m (p + 1 + 1) (movzx_context d)) = code d).
  { assert (Hk : forall c, opcode (resolve d m (p + 1 + 1) c) = opcode c) by (destruct Hw as [->| ->]; reflexivity).
    by rewrite Hk. }
  by rewrite Ho, Ht.
Qed.

Lemma decode_any m p a : encodable a -> bytes_at m p (encode a) ->
  exists c, decode_x86_64_instruction m p = Ret (ERROR_OK, c) /\ decoded_of c = meaning a.
Proof.
  intros Ha Hby. destruct a; try (apply decode_mov; [done|done|done]). by apply decode_movzx.
Qed.

(** C14 The decoder inverts the encoding: at any address that holds the bytes of a
    [mov] between a register and memory, of any width and with any register, of a
    [mov] of an immediate, or of a [movzx] of low registers, decoding succeeds with
    exactly the instruction's length, kind, registers, access size and immediate
    (zero-extended). *)
Theorem decode_encode (m : memory) (p : Z) (a : mmio_access) : encodable a -> bytes_at m p (encode a) ->
  exists c, decode_x86_64_instruction m p = Ret (ERROR_OK, c) /\ decoded_of c = meaning a.
Proof. intros Ha Hby. by apply decode_any. Qed.

(** [mov dword [rdi], 0x07480748]: the fill of a guest's video driver. *)
Definition sample_code : memory :=
  <[0x100 := 0xc7]> (<[0x101 := 0x07]> (<[0x102 := 0x48]> (<[0x103 := 0x07]> (<[0x104 := 0x48]> (<[0x105 := 0x07]> ∅))))).

Lemma decode_encode_witness : exists c,
  decode_x86_64_instruction sample_code 0x100 = Ret (ERROR_OK, c) /\
  decoded_of c = Decoded 6 OPERAND_HINT_IM 0 7 4 0x07480748.
Proof.
  apply (decode_encode sample_code 0x100 (StoreImm W32 0x07480748 7)).
  - split; [split; [unfold is_register; lia|done]|cbn; lia].
  - intros i Hi. change (length (encode (StoreImm W32 0x07480748 7))) with 6%nat in Hi. do 6 (destruct i as [|i]; [reflexivity|]). lia.
Defined.

(** A [movzx] with a REX byte, which must precede the escape byte [0x0f], is not
    decoded: the escape byte is only accepted among the prefixes, so zero-extending
    loads into [r8]..[r15] or 64-bit registers halt the machine. *)
Theorem movzx_rex_halts (m : memory) (p v : Z) : 0x40 <= v <= 0x4f -> bytes_at m p [v; 0x0f] ->
  decode_x86_64_instruction m p = Stop Halted.
Proof.
  intros Hv Hby. apply bytes_at_cons in Hby as [H1 Hby]. apply bytes_at_cons in Hby as [H2 _].
  assert (Hs : prefix_field v zero_context = None).
  { unfold prefix_field. repeat match goal with |- context [v =? ?k] => destruct (Z.eqb_spec v k); [lia|] end. done. }
  assert (Hf : PREFIX_FUEL = S (Z.to_nat 4095)) by (vm_compute; reflexivity).
  unfold decode_x86_64_instruction. rewrite Hf. cbn [prefix_loop]. rewrite H1.
  destruct (Z.eqb_spec v 0); [lia|]. rewrite Hs, H1.
  destruct (Z.leb_spec 0x40 v); [|lia]. destruct (Z.leb_spec v 0x4f); [|lia]. cbn [andb]. cbv beta iota zeta.
  unfold predefined_opcodes. cbn [opcode_loop mask code]. rewrite !opcode_byte, H2. reflexivity.
Qed.

Lemma movzx_rex_halts_witness :
  decode_x86_64_instruction (<[0x200 := 0x48]> (<[0x201 := 0x0f]> ∅)) 0x200 = Stop Halted.
Proof.
  apply (movzx_rex_halts _ 0x200 0x48); [lia|]. intros [|[|i]] Hi; [reflexivity..|cbn in Hi; lia].
Defined.
