(* ===== verification/Exit.v ===== *)
(** * Exit: what the monitor does when the guest exits ([vm_monitor/vmx_exit.c],
    [vm_monitor/vmx_ept_misconfig.c], the port handler of [vm_monitor/vmx_pio.c]
    and the device set-up of [vm_monitor/vmx_misc.c]).

    The callbacks of the registries are run by name; the table of sub-handlers is
    a function from the basic exit reason. *)
From Stdlib Require Import ZArith Lia.
From stdpp Require Import base tactics list numbers gmap.
From S2P Require Import Prelude Memory PhysicalMemory Radix Paging PagingInit Ept.
From S2P Require Import Ring SortSearch Vmm Registry Devices Event Schedule Decode.
Local Open Scope Z_scope.

(** ** Callbacks *)
Definition run_inb (cb : inb_callback) (port_id : Z) : M vmm Z :=
  match cb with
  | master_pic_inb_cb => Pic.master_pic_inb port_id
  | slave_pic_inb_cb => Pic.slave_pic_inb port_id
  | device_serial_inb_cb => Serial.device_serial_inb port_id
  | keyboard_data_inb_cb => Keyboard.keyboard_data_inb port_id
  end.
Definition run_outb (cb : outb_callback) (port_id byte : Z) : M vmm unit :=
  match cb with
  | master_pic_outb_cb => Pic.master_pic_outb port_id byte
  | slave_pic_outb_cb => Pic.slave_pic_outb port_id byte
  | pit_outb_cb => Pit.pit_outb port_id byte
  | device_serial_outb_cb => Serial.device_serial_outb port_id byte
  end.
Definition run_mmio_read (cb : mmio_read_callback) (addr size : Z) : M vmm Z :=
  match cb with video_buffer_mmio_read_cb => Video.video_buffer_mmio_read addr size end.
Definition run_mmio_write (cb : mmio_write_callback) (addr size value : Z) : M vmm unit :=
  match cb with video_buffer_mmio_write_cb => Video.video_buffer_mmio_write addr size value end.

(** [ASSERT(p)] on a pointer. *)
Definition assert_some {S A} (o : option A) : M S A :=
  match o with Some a => ret a | None => stop Halted end.

Definition get_vcpu : M vmm Z := gets (fun s => vcpu (vm s)).

(** ** Port instructions *)
Definition io_instruction_exit_sub_handler (exit : vmexit_info) : M vmm Z :=
  let q := exit_qualification exit in
  let access_size := Z.land q 7 in
  let access_direc := Z.land (Z.shiftr q 3) 1 in
  let port_id := Z.land (Z.shiftr q 16) 0xffff in
  assert (negb (truthy (Z.land (Z.shiftr q 4) 1))) ;;;
  assert (negb (truthy (Z.land (Z.shiftr q 5) 1))) ;;;
  assert (negb (truthy (Z.land (Z.shiftr q 6) 1))) ;;;
  let! found := search_portio_callback port_id in
  let! i := assert_some found in
  let! ops := gets (port_at i) in
  (if access_size =? 0 then
     if access_direc =? 0 then
       let! cb := assert_some (call_outb ops) in
       let! c := get_cpu in
       run_outb cb port_id (u8 (rax c))
     else
       let! cb := assert_some (call_inb ops) in
       let! v := run_inb cb port_id in
       set_cpu (fun c => c <| rax := v |>)
   else PANIC_EXIT) ;;;
  GOTO_NEXT_INSTRUCTION exit ;;;
  get_vcpu.

(** ** Memory-mapped devices *)
Definition fetch_instruction : M vmm (Z * instruction_context) :=
  let! v := get_vm in
  let! rip := vmx_read GUEST_RIP in
  let! guest_instruction_addr :=
    gets (fun s => guestpa_to_hostpa (kern s) (ept_pml4_base (regions v)) rip) in
  let! host := gets (fun s => pa (kern s) guest_instruction_addr) in
  assert (host =? guest_instruction_addr) ;;;
  fun s => lift (decode_x86_64_instruction (k_mem (kern s)) guest_instruction_addr) s.

Definition mmio_region (guest_addr : Z) : M vmm mmio_operation :=
  let! found := search_mmio_callback guest_addr in
  let! i := assert_some found in
  gets (mmio_at i).

Definition emulate_access (context : instruction_context) : M vmm unit :=
  if operand_hint context =? OPERAND_HINT_MR then
    let! guest_addr := vcpu_get_gp_regiter (rm_index context) in
    let! mmio := mmio_region guest_addr in
    let! cb := assert_some (mmio_read mmio) in
    let! value := run_mmio_read cb guest_addr (access_size context) in
    vcpu_set_gp_regiter (reg_index context) value
  else if operand_hint context =? OPERAND_HINT_RM then
    let! guest_addr := vcpu_get_gp_regiter (rm_index context) in
    let! value := vcpu_get_gp_regiter (reg_index context) in
    let! mmio := mmio_region guest_addr in
    let! cb := assert_some (mmio_write mmio) in
    run_mmio_write cb guest_addr (access_size context) value
  else if operand_hint context =? OPERAND_HINT_IM then
    let! guest_addr := vcpu_get_gp_regiter (rm_index context) in
    let! mmio := mmio_region guest_addr in
    let! cb := assert_some (mmio_write mmio) in
    run_mmio_write cb guest_addr (access_size context) (immediate context)
  else PANIC_EXIT.

Definition ept_misconfig_exit_sub_handler (exit : vmexit_info) : M vmm Z :=
  let! d := fetch_instruction in
  let '(rc, context) := d in
  assert (rc =? ERROR_OK) ;;;
  let exit := exit <| instruction_length := u64 (c_instruction_length context) |> in
  emulate_access context ;;;
  GOTO_NEXT_INSTRUCTION exit ;;;
  get_vcpu.

(** ** Control registers and model-specific registers *)
Definition MOV_TO_CR : Z := 0x0.
Definition IA32_EFER : Z := 0xc0000080.

Definition controll_register_access_exit_sub_handler (exit : vmexit_info) : M vmm Z :=
  let qualification := exit_qualification exit in
  let ctrl_reg_index := Z.land qualification 0xf in
  let access_type := Z.land (Z.shiftr qualification 4) 0x3 in
  let gp_reg := Z.land (Z.shiftr qualification 8) 0xf in
  (if ctrl_reg_index =? 3 then
     if access_type =? MOV_TO_CR then
       assert (gp_reg =? 0) ;;;
       let! c := get_cpu in
       let cr3_content := rax c in
       let! _rc := vmx_write GUEST_CR3 cr3_content in
       GOTO_NEXT_INSTRUCTION exit
     else PANIC_EXIT
   else PANIC_EXIT) ;;;
  get_vcpu.

Definition rdmsr_exit_sub_handler (exit : vmexit_info) : M vmm Z :=
  let! c := get_cpu in
  (if rcx c =? IA32_EFER then
     let! guest_efer := vmx_read GUEST_IA32_EFER in
     set_cpu (fun c => c <| rax := u32 guest_efer |>) ;;;
     set_cpu (fun c => c <| rdx := u32 (Z.shiftr guest_efer 32) |>) ;;;
     GOTO_NEXT_INSTRUCTION exit
   else PANIC_EXIT) ;;;
  get_vcpu.

Definition wrmsr_exit_sub_handler (exit : vmexit_info) : M vmm Z :=
  let! c := get_cpu in
  (if rcx c =? IA32_EFER then
     let guest_efer := Z.land (rax c) 0xffffffff in
     let guest_efer := Z.lor guest_efer (Z.land (u64 (Z.shiftl (rdx c) 32)) 0xffffffff) in
     let! _rc := vmx_write GUEST_IA32_EFER guest_efer in
     GOTO_NEXT_INSTRUCTION exit
   else PANIC_EXIT) ;;;
  get_vcpu.

Definition halt_exit_sub_handler (exit : vmexit_info) : M vmm Z :=
  GOTO_NEXT_INSTRUCTION exit ;;;
  get_vcpu.

(** ** Dispatch *)
Definition MAX_NR_VMEXIT_REASONS : Z := 65.
Definition BASIC_VMEXIT_REASON_EXTERNAL_INTERRUPT : Z := 1.
Definition BASIC_VMEXIT_REASON_INTERRUPT_WINDOW : Z := 7.
Definition BASIC_VMEXIT_REASON_HLT : Z := 12.
Definition BASIC_VMEXIT_REASON_RDTSC : Z := 16.
Definition BASIC_VMEXIT_CONTROL_REGISTER_ACCESS : Z := 28.
Definition BASIC_VMEXIT_REASON_IO_INSTRUCTION : Z := 30.
Definition BASIC_VMEXIT_REASON_RDMSR : Z := 31.
Definition BASIC_VMEXIT_REASON_WRMSR : Z := 32.
Definition BASIC_VMEXIT_REASON_EPT_MISCONFIG : Z := 49.

(** The table [vm_exit_handler_init] fills. *)
Definition sub_handlers (reason : Z) : option (vmexit_info -> M vmm Z) :=
  if reason =? BASIC_VMEXIT_REASON_EXTERNAL_INTERRUPT then Some external_interrupt_exit_sub_handler
  else if reason =? BASIC_VMEXIT_REASON_IO_INSTRUCTION then Some io_instruction_exit_sub_handler
  else if reason =? BASIC_VMEXIT_CONTROL_REGISTER_ACCESS then Some controll_register_access_exit_sub_handler
  else if reason =? BASIC_VMEXIT_REASON_HLT then Some halt_exit_sub_handler
  else if reason =? BASIC_VMEXIT_REASON_RDMSR then Some rdmsr_exit_sub_handler
  else if reason =? BASIC_VMEXIT_REASON_WRMSR then Some wrmsr_exit_sub_handler
  else if reason =? BASIC_VMEXIT_REASON_EPT_MISCONFIG then Some ept_misconfig_exit_sub_handler
  else if reason =? BASIC_VMEXIT_REASON_INTERRUPT_WINDOW then Some interrupt_window_exit_sub_handler
  else if reason =? BASIC_VMEXIT_REASON_RDTSC then Some rdtsc_exit_sub_handler
  else None.

(** IA32_EFER.LMA follows the "IA-32e mode guest" control. *)
Definition adjust_efer : M vmm unit :=
  let! vm_entry_ctls := vmx_read CTLS_VM_ENTRY in
  let! guest_efer := vmx_read GUEST_IA32_EFER in
  if truthy (Z.land vm_entry_ctls (Z.shiftl 1 9)) then
    let! _rc := vmx_write GUEST_IA32_EFER (Z.lor guest_efer (Z.shiftl 1 10)) in ret tt
  else
    let! _rc := vmx_write GUEST_IA32_EFER (Z.land guest_efer (u64 (Z.lnot (Z.shiftl 1 10)))) in ret tt.

Definition read_exit_info : M vmm vmexit_info :=
  let! reason := vmx_read VMEXIT_REASON in
  let! qualification := vmx_read VMEXIT_QUALIFICATION in
  let! linear := vmx_read VMEXIT_GUEST_LINEAR_ADDR in
  let! physical := vmx_read VMEXIT_GUEST_PHYSICAL_ADDR in
  let! len := vmx_read VMEXIT_INSTRUCTION_LENGTH in
  let! info := vmx_read VMEXIT_INSTRUCTION_INFO in
  ret (ExitInfo reason qualification linear physical len info).

(** [1 << 31] is negative: sign-extended, it tests the bits from 31 up. *)
Definition vm_exit_handler_entry (vcpu_ : Z) : M vmm Z :=
  adjust_efer ;;;
  let! current := gets current_vm in
  assert current ;;;
  set_vm (fun v => v <| vcpu := vcpu_ |>) ;;;
  let! info := read_exit_info in
  if truthy (Z.land (basic_reason info) (u64 (s32 (Z.shiftl 1 31)))) then PANIC_EXIT
  else
    let reason_index := Z.land (basic_reason info) 0xffff in
    assert (reason_index <? MAX_NR_VMEXIT_REASONS) ;;;
    match sub_handlers reason_index with
    | Some handler => handler info
    | None => PANIC_EXIT
    end.

(** ** Devices are registered when the monitor starts: the end of [vm_monitor_init] *)
Definition vm_monitor_init_devices : M vmm unit :=
  Serial.vmx_device_serial_preinit ;;;
  Pic.vmx_chipset_8259pic_preinit ;;;
  Pit.vmx_chipset_8253pit_preinit ;;;
  Keyboard.vmx_device_keyboard_preinit.

(** * Properties *)

(** The guest resumes [n] bytes further. *)
Definition advanced (n : Z) (s : vmm) : vmm :=
  s <| cur ::= fun c => vmwrite c GUEST_RIP (u64 (vmread c GUEST_RIP + n)) |>.

Lemma goto_next_run exit s : GOTO_NEXT_INSTRUCTION exit s = Ret (tt, advanced (instruction_length exit) s).
Proof. by destruct s. Qed.

Lemma finish_run exit s :
  (GOTO_NEXT_INSTRUCTION exit ;;; get_vcpu) s = Ret (vcpu (vm s), advanced (instruction_length exit) s).
Proof. by run_with (goto_next_run exit s). Qed.

Lemma assert_some_run {S A B} (o : option A) a (k : A -> M S B) s :
  o = Some a -> bind (assert_some o) k s = k a s.
Proof. intros ->. reflexivity. Qed.

(** ** The devices' ports *)
Definition device_list : list portio_operation :=
  ((fun i => PortOp (0x3f8 + i) (Some device_serial_inb_cb) (Some device_serial_outb_cb)) <$> [0; 1; 2; 3; 4; 5]) ++
  [PortOp 0x20 (Some master_pic_inb_cb) (Some master_pic_outb_cb);
   PortOp 0xa0 (Some slave_pic_inb_cb) (Some slave_pic_outb_cb);
   PortOp 0x21 (Some master_pic_inb_cb) (Some master_pic_outb_cb);
   PortOp 0xa1 (Some slave_pic_inb_cb) (Some slave_pic_outb_cb)] ++
  ((fun i => PortOp (0x40 + i) None (Some pit_outb_cb)) <$> [0; 1; 2; 3]) ++
  [PortOp 0x60 (Some keyboard_data_inb_cb) None].
Definition device_ports : gmap Z portio_operation :=
  foldl (fun m o => <[portid o := o]> m) ∅ device_list.

Lemma register_all l s : ports_ok s -> Forall port_ok l -> nr_ports s + Z.of_nat (length l) <= MAX_PORTS_SUPPORTED ->
  exists ops n, let s' := s <| portio_ops := ops |> <| nr_ports := n |> in
    miter register_pio_operation l s = Ret (tt, s') /\ ports_ok s' /\
    port_map s' = foldl (fun m o => <[portid o := o]> m) (port_map s) l.
Proof.
  revert s. induction l as [|o l IH]; intros s Hok Hl Hn; cbn [miter foldl].
  { exists (portio_ops s), (nr_ports s). assert (E : s <| portio_ops := portio_ops s |> <| nr_ports := nr_ports s |> = s)
      by (by destruct s). rewrite E. done. }
  apply Forall_cons in Hl as [Ho Hl]. cbn [length] in Hn.
  destruct (register_pio_run s o Hok Ho ltac:(left; lia)) as (ops & n & Hr & Hok' & Hm & Hn'). run_with Hr.
  destruct (IH _ Hok' Hl) as (ops' & n' & Hr' & Hok2 & Hm'); [cbn; lia|].
  exists ops', n'. rewrite <- Hm. split; [|split].
  - rewrite Hr'. by destruct s.
  - by destruct s.
  - rewrite <- Hm'. by destruct s.
Qed.

Lemma init_devices_list s : vm_monitor_init_devices s = miter register_pio_operation device_list s.
Proof.
  unfold vm_monitor_init_devices, Serial.vmx_device_serial_preinit, Pic.vmx_chipset_8259pic_preinit,
    Pit.vmx_chipset_8253pit_preinit, Keyboard.vmx_device_keyboard_preinit, device_list.
  cbn [mfor miter app fmap list_fmap].
  repeat (rewrite ?bind_assoc, ?bind_ret; first [apply bind_ext; intros [] ? | idtac]; cbv beta).
  by rewrite bind_unit.
Qed.

(** Starting the monitor registers its devices: from an empty table the fifteen
    ports of the serial line, the interrupt controllers, the timer and the keyboard
    are found with their callbacks, and no other port is. *)
Theorem devices_registered (s : vmm) : exists s',
  (portio_preinit ;;; vm_monitor_init_devices) s = Ret (tt, s') /\ ports_ok s' /\
  forall p, 0 <= p < 2 ^ 16 -> exists r, search_portio_callback p s' = Ret (r, s') /\
    (fun i => port_at i s') <$> r = device_ports !! p.
Proof.
  set (s0 := s <| nr_ports := 0 |> <| portio_ops := replicate 256 (PortOp 0 None None) |>).
  assert (H0 : portio_preinit s = Ret (tt, s0)) by reflexivity. run_with H0.
  assert (Hok : ports_ok s0) by (split; [cbn; lia|reflexivity|constructor|constructor]).
  destruct (register_all device_list s0 Hok) as (ops & n & Hr & Hok' & Hm).
  - repeat (apply Forall_cons_2; [unfold port_ok; cbn; lia|]). apply Forall_nil_2.
  - cbn. unfold MAX_PORTS_SUPPORTED. lia.
  - eexists. rewrite init_devices_list. split; [exact Hr|]. split; [exact Hok'|].
    intros p Hp. destruct (search_port_map _ p Hok' Hp) as (r & Hs & Hr' & _). exists r.
    split; [exact Hs|]. rewrite Hr', Hm. reflexivity.
Qed.

(** ** Port instructions *)

(** What an [in] or [out] through [dx] does to the monitor and the guest. *)
Definition port_access (o : portio_operation) (out : bool) (port_id : Z) : M vmm unit :=
  if out then
    let! cb := assert_some (call_outb o) in
    let! c := get_cpu in
    run_outb cb port_id (u8 (rax c))
  else
    let! cb := assert_some (call_inb o) in
    let! v := run_inb cb port_id in
    set_cpu (fun c => c <| rax := v |>).

(** The exit qualification of an I/O instruction: bits 2:0 the size minus one,
    bit 3 the direction, bits 4, 5 and 6 string, REP and immediate operand, bits
    31:16 the port. *)
Definition io_qualification (size dir flags port_id : Z) : Z :=
  size + 8 * dir + 16 * flags + 65536 * port_id.

Lemma io_fields size dir flags port_id :
  0 <= size < 8 -> 0 <= dir < 2 -> 0 <= flags < 8 -> 0 <= port_id < 2 ^ 16 ->
  let q := io_qualification size dir flags port_id in
  Z.land q 7 = size /\ Z.land (Z.shiftr q 3) 1 = dir /\ Z.land (Z.shiftr q 16) 0xffff = port_id /\
  (negb (truthy (Z.land (Z.shiftr q 4) 1)) && negb (truthy (Z.land (Z.shiftr q 5) 1)) &&
   negb (truthy (Z.land (Z.shiftr q 6) 1)) = (flags =? 0)).
Proof.
  intros Hs Hd Hf Hp q. unfold q, io_qualification.
  change 7 with (Z.ones 3). change 1 with (Z.ones 1). change 0xffff with (Z.ones 16).
  rewrite !Z.shiftr_div_pow2, !Z.land_ones by lia.
  split; [zdiv|]. split; [zdiv|]. split; [zdiv|].
  assert (E4 : (size + 8 * dir + 16 * flags + 65536 * port_id) / 2 ^ 4 mod 2 ^ 1 = flags mod 2) by zdiv.
  assert (E5 : (size + 8 * dir + 16 * flags + 65536 * port_id) / 2 ^ 5 mod 2 ^ 1 = (flags / 2) mod 2) by zdiv.
  assert (E6 : (size + 8 * dir + 16 * flags + 65536 * port_id) / 2 ^ 6 mod 2 ^ 1 = (flags / 4) mod 2) by zdiv.
  rewrite E4, E5, E6.
  assert (Hc : flags = 0 \/ flags = 1 \/ flags = 2 \/ flags = 3 \/ flags = 4 \/ flags = 5 \/ flags = 6 \/ flags = 7) by lia.
  repeat destruct Hc as [->|Hc]; [reflexivity..|]. by subst.
Qed.

(** The sub-handler, by the qualification's fields. *)
Lemma io_instruction_run (exit : vmexit_info) (s : vmm) (size dir flags port_id : Z) :
  0 <= size < 8 -> 0 <= dir < 2 -> 0 <= flags < 8 -> 0 <= port_id < 2 ^ 16 ->
  exit_qualification exit = io_qualification size dir flags port_id -> ports_ok s ->
  io_instruction_exit_sub_handler exit s =
    if negb (flags =? 0) then Stop Halted
    else match port_map s !! port_id with
         | None => Stop Halted
         | Some o =>
             if size =? 0 then
               match port_access o (dir =? 0) port_id s with
               | Ret (_, s') => Ret (vcpu (vm s'), advanced (instruction_length exit) s')
               | Stop f => Stop f
               end
             else Stop Halted
         end.
Proof.
  intros Hs Hd Hf Hp Hq Hok. destruct (io_fields size dir flags port_id Hs Hd Hf Hp) as (E1 & E2 & E3 & E4).
  cbv zeta in E4. rewrite <- Hq in *. unfold io_instruction_exit_sub_handler. cbv zeta.
  rewrite <- E4, E1, E2, E3.
  destruct (negb (truthy (Z.land (Z.shiftr (exit_qualification exit) 4) 1))); [|reflexivity].
  destruct (negb (truthy (Z.land (Z.shiftr (exit_qualification exit) 5) 1))); [|reflexivity].
  destruct (negb (truthy (Z.land (Z.shiftr (exit_qualification exit) 6) 1))); [|reflexivity].
  cbn [andb negb assert]. rewrite !bind_ret.
  destruct (search_port_map s port_id Hok Hp) as (r & Hr & Hm & _). run_with Hr. rewrite <- Hm.
  destruct r as [i|]; [|reflexivity]. cbn [fmap option_fmap option_map assert_some]. rewrite bind_ret, bind_gets.
  destruct (size =? 0); [|reflexivity].
  assert (Hcb : (if dir =? 0
     then let! cb := assert_some (call_outb (port_at i s)) in let! c := get_cpu in run_outb cb port_id (u8 (rax c))
     else let! cb := assert_some (call_inb (port_at i s)) in let! v := run_inb cb port_id in set_cpu (fun c => c <| rax := v |>)) s =
     port_access (port_at i s) (dir =? 0) port_id s) by (unfold port_access; by destruct (dir =? 0)).
  unfold bind at 1. rewrite Hcb. destruct (port_access _ _ _ s) as [[[] s']|]; [|done]. apply finish_run.
Qed.

(** C38 Port instructions: a byte [in] or [out] through [dx] to a registered port runs
    that port's callback, on the low byte of [rax] or into [rax], and resumes the
    guest behind the instruction; an unregistered port, a missing callback, a wider
    access, a string, REP or immediate form halts the machine. *)
Theorem port_io (exit : vmexit_info) (s : vmm) (size dir flags port_id : Z) :
  0 <= size < 8 -> 0 <= dir < 2 -> 0 <= flags < 8 -> 0 <= port_id < 2 ^ 16 ->
  exit_qualification exit = io_qualification size dir flags port_id -> ports_ok s ->
  io_instruction_exit_sub_handler exit s =
    if negb (flags =? 0) then Stop Halted
    else match port_map s !! port_id with
         | None => Stop Halted
         | Some o =>
             if size =? 0 then
               match port_access o (dir =? 0) port_id s with
               | Ret (_, s') => Ret (vcpu (vm s'), advanced (instruction_length exit) s')
               | Stop f => Stop f
               end
             else Stop Halted
         end.
Proof. apply io_instruction_run. Qed.

(** [out dx, al] of a line feed to the serial port, and [in al, dx] from it, on a
    monitor with all devices. *)
Definition sample_machine : vmm :=
  match (portio_preinit ;;; vm_monitor_init_devices) sample_vmm with Ret (_, s) => s | Stop _ => sample_vmm end.

Lemma port_io_witness :
  observe (fun s => (rax (cpu_state (vm s)), vmread (cur s) GUEST_RIP))
    (io_instruction_exit_sub_handler (ExitInfo 30 (io_qualification 0 1 0 0x3fd) 0 0 1 0) sample_machine) =
    Some (0x9000, (0x20, 1)) /\
  io_instruction_exit_sub_handler (ExitInfo 30 (io_qualification 0 1 0 0x3e8) 0 0 1 0) sample_machine = Stop Halted.
Proof.
  assert (Hok : ports_ok sample_machine).
  { split; [vm_compute; split; congruence|reflexivity| |].
    - change (Forall port_ok (take (Z.to_nat (nr_ports sample_machine)) (portio_ops sample_machine))).
      apply Forall_forall. intros o Ho. vm_compute in Ho.
      repeat (apply elem_of_cons in Ho as [->|Ho]; [unfold port_ok; cbn; lia|]). by apply elem_of_nil in Ho.
    - vm_compute. repeat constructor. }
  split.
  - rewrite (port_io _ sample_machine 0 1 0 0x3fd) by (lia || reflexivity || exact Hok). vm_compute. reflexivity.
  - rewrite (port_io _ sample_machine 0 1 0 0x3e8) by (lia || reflexivity || exact Hok). vm_compute. reflexivity.
Defined.

(** ** Memory-mapped video *)
Definition video_mmio : mmio_operation :=
  MmioOp Video.VIDEO_BUFFER_PAGE_FRAME (Video.VIDEO_BUFFER_PAGE_FRAME + PAGE_SIZE_4K)
    (Some video_buffer_mmio_read_cb) (Some video_buffer_mmio_write_cb).

(** The guest is about to execute [a], which lies where the monitor can read it. *)
Definition executes (s : vmm) (a : mmio_access) : Prop :=
  let h := guestpa_to_hostpa (kern s) (ept_pml4_base (regions (vm s))) (vmread (cur s) GUEST_RIP) in
  pa (kern s) h = h /\ bytes_at (k_mem (kern s)) h (encode a).
Record video_machine (s : vmm) : Prop := {
  vi_table : mmio_ok s;
  vi_region : exists i, 0 <= i < nr_mmio_ops s /\ mmio_at i s = video_mmio;
  vi_buffer : video_ok s }.

Lemma video_found s a : video_machine s ->
  Video.VIDEO_BUFFER_PAGE_FRAME <= a < Video.VIDEO_BUFFER_PAGE_FRAME + PAGE_SIZE_4K ->
  exists i, search_mmio_callback a s = Ret (Some i, s) /\ mmio_at i s = video_mmio.
Proof.
  intros [Hok (i & Hi & Hv) _] Ha. unfold Video.VIDEO_BUFFER_PAGE_FRAME, PAGE_SIZE_4K in Ha.
  destruct (search_mmio_run s a Hok ltac:(lia)) as ([j|] & Hr & H).
  - exists j. split; [exact Hr|]. destruct H as [Hj Hin]. destruct (Z.eq_dec i j) as [->|Hne]; [done|]. exfalso.
    assert (Hap : region_apart (mmio_at i s) (mmio_at j s)).
    { apply (regions_apart s (Z.to_nat i) (Z.to_nat j)); [done|lia|by apply mmio_lookup..]. }
    rewrite Hv in Hap. unfold region_apart, region_lt, in_region in *.
    unfold video_mmio, Video.VIDEO_BUFFER_PAGE_FRAME, PAGE_SIZE_4K in Hap. cbn [addr_low addr_high] in Hap. lia.
  - exfalso. apply (H i Hi). rewrite Hv. unfold in_region, video_mmio. cbn [addr_low addr_high].
    unfold Video.VIDEO_BUFFER_PAGE_FRAME, PAGE_SIZE_4K. lia.
Qed.

Lemma gp_set_run i v s : 0 <= i < 16 -> exists s', vcpu_set_gp_regiter i v s = Ret (tt, s') /\
  vcpu (vm s') = vcpu (vm s).
Proof.
  intros Hi. destruct (register_index i Hi) as [->|[->|[->|[->|[->|[->|[->|[->|[->|[->|[->|[->|[->|[->|[->| ->]]]]]]]]]]]]]]];
    (eexists; split; [reflexivity|done]).
Qed.

Definition base_of (a : mmio_access) : Z :=
  match a with Load _ _ b | Store _ _ b | StoreImm _ _ b | LoadZeroExtended _ _ b => b end.
Definition width_of (a : mmio_access) : width :=
  match a with Load w _ _ | Store w _ _ | StoreImm w _ _ | LoadZeroExtended w _ _ => w end.

(** The effect of the access on a video cell: a store writes buffer and screen, a
    load sets the whole register. *)
Definition video_effect (a : mmio_access) (off : Z) (s : vmm) : outcome (unit * vmm) :=
  let n := bytes_of_width (width_of a) in
  match a with
  | Store _ reg _ => Ret (tt, with_mem s (video_written s off n (gp_register s reg)))
  | StoreImm _ imm _ => Ret (tt, with_mem s (video_written s off n imm))
  | Load _ reg _ | LoadZeroExtended _ reg _ =>
      vcpu_set_gp_regiter reg (load (Z.to_nat n) (k_mem (kern s)) (video_buffer (regions (vm s)) + off)) s
  end.

Lemma encodable_registers a : encodable a ->
  0 <= base_of a < 16 /\ match a with Load _ r _ | Store _ r _ | LoadZeroExtended _ r _ => 0 <= r < 16 | _ => True end.
Proof.
  unfold encodable, plain_base, is_register. destruct a; cbn [base_of]; try lia.
Qed.

(** Fetching and decoding the instruction. *)
Lemma fetch_run s a : encodable a -> executes s a ->
  exists c, decoded_of c = meaning a /\ fetch_instruction s = Ret ((ERROR_OK, c), s).
Proof.
  intros Ha [Hpa Hby]. destruct (decode_any (k_mem (kern s)) _ a Ha Hby) as (c & Hd & Hm). exists c. split; [exact Hm|].
  unfold fetch_instruction, get_vm, vmx_read. rewrite !bind_gets. rewrite assert_run by (apply Z.eqb_eq; exact Hpa).
  unfold lift. by rewrite Hd.
Qed.

Lemma access_width w : access_bytes (bytes_of_width w).
Proof. unfold access_bytes. destruct w; cbn; lia. Qed.

Lemma video_effect_run s a off : encodable a -> exists s', video_effect a off s = Ret (tt, s') /\
  vcpu (vm s') = vcpu (vm s).
Proof.
  intros Ha. destruct (encodable_registers a Ha) as [_ Hr]. unfold video_effect.
  destruct a; first [by apply gp_set_run|by eexists].
Qed.

Lemma u64_encode_length a : u64 (Z.of_nat (length (encode a))) = Z.of_nat (length (encode a)).
Proof.
  apply u64_small. assert (length (encode a) <= 16)%nat; [|lia].
  destruct a as [w reg base|w reg base|w imm base|w reg base]; cbn [encode]; rewrite ?length_app;
    destruct w; cbn; unfold rex_byte; repeat case_match; cbn; lia.
Qed.

Lemma mmio_region_run s a : video_machine s ->
  Video.VIDEO_BUFFER_PAGE_FRAME <= a < Video.VIDEO_BUFFER_PAGE_FRAME + PAGE_SIZE_4K ->
  mmio_region a s = Ret (video_mmio, s).
Proof.
  intros Hv Ha. destruct (video_found s a Hv Ha) as (i & Hf & Hm). unfold mmio_region. run_with Hf.
  by rewrite <- Hm.
Qed.

Lemma emulate_run s a off c : video_machine s -> encodable a -> decoded_of c = meaning a ->
  0 <= off -> off + bytes_of_width (width_of a) <= PAGE_SIZE_4K ->
  gp_register s (base_of a) = Video.VIDEO_BUFFER_PAGE_FRAME + off ->
  emulate_access c s = video_effect a off s.
Proof.
  intros Hv Ha Hd Ho Hle Hb. pose proof (access_width (width_of a)) as Hw.
  assert (Hpos : 0 < bytes_of_width (width_of a)) by (unfold access_bytes in Hw; lia).
  destruct (encodable_registers a Ha) as [Hbase Hreg].
  assert (Hoff : 0 <= off < 2 ^ 32) by (unfold PAGE_SIZE_4K in Hle; lia).
  assert (E : (off + bytes_of_width (width_of a) <=? PAGE_SIZE_4K) = true) by (by apply Z.leb_le).
  assert (Hr : mmio_region (gp_register s (base_of a)) s = Ret (video_mmio, s)) by (apply mmio_region_run; [done|lia]).
  pose proof (gp_get_run (base_of a) s Hbase) as Hg.
  unfold emulate_access, video_effect.
  destruct a as [w reg base|w reg base|w imm base|w reg base]; cbn [base_of width_of meaning] in *;
    unfold decoded_of in Hd; injection Hd as Hl Hh Hi Hm Hs Himm; rewrite Hh, ?Hi, Hm, Hs;
    cbn [Z.eqb Pos.eqb OPERAND_HINT_MR OPERAND_HINT_RM OPERAND_HINT_IM];
    run_with Hg; try run_with (gp_get_run reg s Hreg); run_with Hr; rewrite Hb;
    change (mmio_read video_mmio) with (Some video_buffer_mmio_read_cb);
    change (mmio_write video_mmio) with (Some video_buffer_mmio_write_cb);
    cbn [assert_some]; rewrite bind_ret; cbn [run_mmio_read run_mmio_write].
  1,4: unfold bind at 1; rewrite video_read_run, E by done; reflexivity.
  all: rewrite video_write_run, E by done; by rewrite ?Himm.
Qed.

(** C13 Emulation of a memory access: when the guest touches the video page with an
    instruction the monitor knows, the handler performs the access on the video
    buffer (a store also shows on the screen, a load sets the register), resumes the
    guest behind the instruction and answers the virtual CPU. *)
Theorem mmio_emulates (exit : vmexit_info) (s : vmm) (a : mmio_access) (off : Z) :
  video_machine s -> encodable a -> executes s a ->
  0 <= off -> off + bytes_of_width (width_of a) <= PAGE_SIZE_4K ->
  gp_register s (base_of a) = Video.VIDEO_BUFFER_PAGE_FRAME + off ->
  exists s', video_effect a off s = Ret (tt, s') /\
    ept_misconfig_exit_sub_handler exit s =
      Ret (vcpu (vm s), advanced (Z.of_nat (length (encode a))) s').
Proof.
  intros Hv Ha Hex Ho Hle Hb. destruct (fetch_run s a Ha Hex) as (c & Hd & Hf).
  assert (Hlen : c_instruction_length c = Z.of_nat (length (encode a))).
  { transitivity (d_length (decoded_of c)); [done|]. rewrite Hd. by destruct a. }
  destruct (video_effect_run s a off Ha) as (s' & Hs' & Hvcpu). exists s'. split; [exact Hs'|].
  pose proof (emulate_run s a off c Hv Ha Hd Ho Hle Hb) as He. rewrite Hs' in He.
  unfold ept_misconfig_exit_sub_handler. run_with Hf. rewrite assert_run by reflexivity. run_with He.
  rewrite finish_run, Hvcpu. cbn [instruction_length]. by rewrite Hlen, u64_encode_length.
Qed.

(** A guest about to execute [mov word \[rbx\], 0x0748] with [rbx] in the second row
    of the screen. *)
Definition sample_tables : memory :=
  foldl (fun m '(a, v) => store 8 m a v) ∅
    [(0x1000, 0x2003); (0x2000, 0x3003); (0x3000, 0x83);
     (0x5000, 0x6007); (0x6000, 0x7007); (0x7000, 0x8007); (0x8000, 0x10007)].
Definition sample_store : mmio_access := StoreImm W16 0x0748 3.
Definition sample_video_machine : vmm :=
  let s := sample_vmm <| kern := Kernel (store 5 sample_tables 0x10010 (foldr (fun b w => b + 256 * w) 0 (encode sample_store)))
                                   sample_phys 0x1000 |>
                      <| vm ::= fun v => v <| regions ::= fun r => r <| ept_pml4_base := 0x5000 |> |>
                                           <| cpu_state ::= fun c => c <| rbx := 0x1000b80a0 |> |> |>
                      <| cur := vmwrite ∅ GUEST_RIP 0x10 |> in
  match register_mmio_operation video_mmio s with Ret (_, s') => s' | Stop _ => s end.

Lemma mmio_emulates_witness :
  observe (fun s => (load 2 (k_mem (kern s)) 0x7000a0, vmread (cur s) GUEST_RIP))
    (ept_misconfig_exit_sub_handler (ExitInfo 49 0 0 0 0 0) sample_video_machine) = Some (0x9000, (0x748, 0x15)).
Proof.
  destruct (mmio_emulates (ExitInfo 49 0 0 0 0 0) sample_video_machine sample_store 0xa0) as (s' & He & ->).
  - split.
    + split; [vm_compute; split; congruence|reflexivity| |].
      * change (regions_of sample_video_machine) with [video_mmio]. apply Forall_singleton.
        unfold region_ok, video_mmio, Video.VIDEO_BUFFER_PAGE_FRAME, PAGE_SIZE_4K. cbn. lia.
      * change (regions_of sample_video_machine) with [video_mmio]. repeat constructor.
    + exists 0. split; [vm_compute; split; congruence|reflexivity].
    + right. vm_compute. congruence.
  - repeat split; vm_compute; congruence.
  - split; [vm_compute; reflexivity|]. intros i Hi.
    do 5 (destruct i as [|i]; [vm_compute; reflexivity|]). exfalso. change (length (encode sample_store)) with 5%nat in Hi. lia.
  - lia.
  - unfold PAGE_SIZE_4K. cbn. lia.
  - vm_compute. reflexivity.
  - injection He as <-. vm_compute. reflexivity.
Defined.

(** ** Dispatch of an exit *)

(** The guest's EFER with LMA (bit 10) following bit 9 of the entry controls. *)
Definition efer_adjusted (c : vmcs) : vmcs :=
  let efer := vmread c GUEST_IA32_EFER in
  vmwrite c GUEST_IA32_EFER
    (if Z.testbit (vmread c CTLS_VM_ENTRY) 9 then Z.setbit efer 10 else Z.clearbit efer 10).
Definition exit_info_of (c : vmcs) : vmexit_info :=
  ExitInfo (vmread c VMEXIT_REASON) (vmread c VMEXIT_QUALIFICATION) (vmread c VMEXIT_GUEST_LINEAR_ADDR)
    (vmread c VMEXIT_GUEST_PHYSICAL_ADDR) (vmread c VMEXIT_INSTRUCTION_LENGTH) (vmread c VMEXIT_INSTRUCTION_INFO).

Lemma efer_mask efer : 0 <= efer < 2 ^ 64 ->
  Z.land efer (u64 (Z.lnot (Z.shiftl 1 10))) = Z.clearbit efer 10.
Proof.
  intros He. rewrite Z.clearbit_spec'. apply Z.bits_inj'. intros n Hn.
  rewrite Z.land_spec, Z.ldiff_spec, Z.pow2_bits_eqb by lia.
  destruct (Z.lt_ge_cases n 64) as [Hlt|Hge].
  - unfold u64, wrap. rewrite Z.mod_pow2_bits_low, Z.lnot_spec, Z.shiftl_1_l, Z.pow2_bits_eqb by lia. done.
  - rewrite (testbit_high efer 64) by lia. done.
Qed.

Lemma adjust_efer_run s : adjust_efer s = Ret (tt, s <| cur ::= efer_adjusted |>).
Proof.
  transitivity (Ret (tt, s <| cur := efer_adjusted (cur s) |>)); [|by destruct s].
  unfold adjust_efer, vmx_read, efer_adjusted. rewrite !bind_gets. rewrite truthy_bit by lia.
  rewrite efer_mask by apply vmread_range. rewrite Z.setbit_spec', <- Z.shiftl_1_l.
  by destruct (Z.testbit (vmread (cur s) CTLS_VM_ENTRY) 9), s.
Qed.

Lemma entry_failure_bit reason : 0 <= reason < 2 ^ 32 ->
  truthy (Z.land reason (u64 (s32 (Z.shiftl 1 31)))) = Z.testbit reason 31.
Proof.
  intros Hr. rewrite <- (truthy_bit reason 31) by lia. f_equal. apply Z.bits_inj'. intros n Hn.
  rewrite !Z.land_spec. destruct (Z.lt_ge_cases n 32) as [Hlt|Hge].
  - apply (f_equal2 andb eq_refl). change (u64 (s32 (Z.shiftl 1 31))) with (2 ^ 64 - 2 ^ 31).
    change (2 ^ 64 - 2 ^ 31) with (Z.shiftl (2 ^ 33 - 1) 31). change (2 ^ 33 - 1) with (Z.ones 33).
    rewrite Z.shiftl_1_l, Z.pow2_bits_eqb by lia. rewrite Z.shiftl_spec by lia.
    destruct (Z.eqb_spec 31 n) as [<-|Hne]; [reflexivity|]. apply Z.testbit_neg_r. lia.
  - rewrite (testbit_high reason 32) by lia. by rewrite !andb_false_l.
Qed.

Lemma sub_handlers_bound r h : sub_handlers r = Some h -> (r <? MAX_NR_VMEXIT_REASONS) = true.
Proof.
  unfold sub_handlers. intros H. repeat (case_match; [|]); try done;
    match goal with H : (r =? ?k) = true |- _ => apply Z.eqb_eq in H as ->; reflexivity end.
Qed.

(** *** What the processor's manual makes of the exit reasons *)
Definition set_registers (f : guest_cpu_state -> guest_cpu_state) (s : vmm) : vmm :=
  s <| vm ::= fun v => v <| cpu_state ::= f |> |>.
Definition set_field (e v : Z) (s : vmm) : vmm := s <| cur ::= fun c => vmwrite c e v |>.
(** The guest goes on behind the instruction. *)
Definition resumed (info : vmexit_info) (s : vmm) : outcome (Z * vmm) :=
  Ret (vcpu (vm s), advanced (instruction_length info) s).

(** The service of an exit, by the number of its basic reason: the four that belong
    to devices and interrupts, and the effects of the others. A move to [cr3] from
    [rax] has qualification fields 3, 0 and 0; the only model-specific register is
    IA32_EFER, of which a write keeps the low half. *)
Definition served (reason : Z) (info : vmexit_info) (s : vmm) : outcome (Z * vmm) :=
  let q := exit_qualification info in
  let c := cpu_state (vm s) in
  let efer := vmread (cur s) GUEST_IA32_EFER in
  if reason =? 1 then external_interrupt_exit_sub_handler info s
  else if reason =? 7 then interrupt_window_exit_sub_handler info s
  else if reason =? 12 then resumed info s
  else if reason =? 16 then
    resumed info (set_registers (fun c => c <| rdx := next_tsc s / 2 ^ 32 |> <| rax := next_tsc s mod 2 ^ 32 |>
      <| rcx := CPU_FREQUENCY |>) (s <| tsc_reads ::= S |>))
  else if reason =? 28 then
    if (q mod 16 =? 3) && (q / 16 mod 4 =? 0) && (q / 256 mod 16 =? 0)
    then resumed info (set_field GUEST_CR3 (rax c) s) else Stop Halted
  else if reason =? 30 then io_instruction_exit_sub_handler info s
  else if reason =? 31 then
    if rcx c =? 0xc0000080
    then resumed info (set_registers (fun c => c <| rax := efer mod 2 ^ 32 |> <| rdx := efer / 2 ^ 32 |>) s) else Stop Halted
  else if reason =? 32 then
    if rcx c =? 0xc0000080 then resumed info (set_field GUEST_IA32_EFER (rax c mod 2 ^ 32) s) else Stop Halted
  else if reason =? 49 then ept_misconfig_exit_sub_handler info s
  else Stop Halted.

Lemma low_half z : Z.land z 0xffffffff = z mod 2 ^ 32.
Proof. change 0xffffffff with (Z.ones 32). by rewrite Z.land_ones by lia. Qed.

Lemma rdtsc_served info s : rdtsc_exit_sub_handler info s = served 16 info s.
Proof.
  unfold rdtsc_exit_sub_handler, served. cbv zeta. cbn [Z.eqb Pos.eqb].
  rewrite (bind_run _ _ _ (next_tsc s) (s <| tsc_reads ::= S |>)) by reflexivity.
  assert (Ht : 0 <= next_tsc s < 2 ^ 64) by apply u64_range.
  rewrite !low_half, Z.shiftr_div_pow2, (Z.mod_small (next_tsc s / 2 ^ 32)) by (lia || zdiv).
  generalize (next_tsc s / 2 ^ 32) (next_tsc s mod 2 ^ 32). intros hi lo. unfold set_cpu, set_vm.
  rewrite !bind_modify. exact (finish_run info _).
Qed.

Lemma cr_access_served info s : controll_register_access_exit_sub_handler info s = served 28 info s.
Proof.
  unfold controll_register_access_exit_sub_handler, served. cbv zeta. cbn [Z.eqb Pos.eqb].
  change 0xf with (Z.ones 4). change 0x3 with (Z.ones 2). unfold MOV_TO_CR.
  rewrite !Z.land_ones, !Z.shiftr_div_pow2 by lia. change (2 ^ 4) with 16. change (2 ^ 2) with 4. change (2 ^ 8) with 256.
  set (q := exit_qualification info). change (Z.ones 2) with 3.
  destruct (q mod 16 =? 3); [|reflexivity]. destruct (q / 16 mod 4 =? 0); [|reflexivity].
  destruct (q / 256 mod 16 =? 0); [|reflexivity]. cbn [andb assert]. rewrite bind_assoc, bind_ret.
  unfold get_cpu. rewrite bind_assoc, bind_gets, bind_assoc.
  rewrite (bind_run _ _ _ ERROR_OK (set_field GUEST_CR3 (rax (cpu_state (vm s))) s)) by reflexivity.
  exact (finish_run info _).
Qed.

Lemma rdmsr_served info s : rdmsr_exit_sub_handler info s = served 31 info s.
Proof.
  unfold rdmsr_exit_sub_handler, served, get_cpu. cbv zeta. cbn [Z.eqb Pos.eqb]. rewrite bind_gets.
  change IA32_EFER with 0xc0000080. destruct (rcx (cpu_state (vm s)) =? 0xc0000080); [|reflexivity].
  unfold vmx_read. rewrite bind_assoc, bind_gets. pose proof (vmread_range (cur s) GUEST_IA32_EFER) as He.
  set (efer := vmread (cur s) GUEST_IA32_EFER) in *. rewrite Z.shiftr_div_pow2 by lia.
  change (u32 efer) with (efer mod 2 ^ 32). rewrite (u32_small (efer / 2 ^ 32)) by zdiv.
  generalize (efer / 2 ^ 32) (efer mod 2 ^ 32). intros hi lo. unfold set_cpu, set_vm.
  rewrite !bind_assoc, bind_modify, bind_assoc, bind_modify. exact (finish_run info _).
Qed.

Lemma wrmsr_served info s : wrmsr_exit_sub_handler info s = served 32 info s.
Proof.
  unfold wrmsr_exit_sub_handler, served, get_cpu. cbv zeta. cbn [Z.eqb Pos.eqb]. rewrite bind_gets.
  change IA32_EFER with 0xc0000080. destruct (rcx (cpu_state (vm s)) =? 0xc0000080); [|reflexivity].
  rewrite !low_half, Z.shiftl_mul_pow2 by lia. unfold u64, wrap.
  assert (E : (rdx (cpu_state (vm s)) * 2 ^ 32) mod 2 ^ 64 mod 2 ^ 32 = 0) by zdiv. rewrite E, Z.lor_0_r, bind_assoc.
  rewrite (bind_run _ _ _ ERROR_OK (set_field GUEST_IA32_EFER (rax (cpu_state (vm s)) mod 2 ^ 32) s)) by reflexivity.
  exact (finish_run info _).
Qed.

Lemma halt_served info s : halt_exit_sub_handler info s = served 12 info s.
Proof. unfold served. cbv zeta. cbn [Z.eqb Pos.eqb]. exact (finish_run info s). Qed.

(** The table leads every reason to its service. *)
Lemma sub_handlers_serve reason info s :
  match sub_handlers reason with Some handler => handler info s | None => Stop Halted end = served reason info s.
Proof.
  unfold sub_handlers, BASIC_VMEXIT_REASON_EXTERNAL_INTERRUPT, BASIC_VMEXIT_REASON_INTERRUPT_WINDOW,
    BASIC_VMEXIT_REASON_HLT, BASIC_VMEXIT_REASON_RDTSC, BASIC_VMEXIT_CONTROL_REGISTER_ACCESS,
    BASIC_VMEXIT_REASON_IO_INSTRUCTION, BASIC_VMEXIT_REASON_RDMSR, BASIC_VMEXIT_REASON_WRMSR,
    BASIC_VMEXIT_REASON_EPT_MISCONFIG.
  destruct (Z.eqb_spec reason 1) as [->|N1]; [done|]. destruct (Z.eqb_spec reason 30) as [->|N30]; [done|].
  destruct (Z.eqb_spec reason 28) as [->|N28]; [apply cr_access_served|].
  destruct (Z.eqb_spec reason 12) as [->|N12]; [apply halt_served|].
  destruct (Z.eqb_spec reason 31) as [->|N31]; [apply rdmsr_served|].
  destruct (Z.eqb_spec reason 32) as [->|N32]; [apply wrmsr_served|].
  destruct (Z.eqb_spec reason 49) as [->|N49]; [done|]. destruct (Z.eqb_spec reason 7) as [->|N7]; [done|].
  destruct (Z.eqb_spec reason 16) as [->|N16]; [apply rdtsc_served|].
  unfold served. cbv zeta. apply Z.eqb_neq in N1, N7, N12, N16, N28, N30, N31, N32, N49.
  rewrite N1, N7, N12, N16, N28, N30, N31, N32, N49. reflexivity.
Qed.

(** The exit in state [s]: a failed entry halts, any other is served. *)
Definition dispatched (s : vmm) (info : vmexit_info) : outcome (Z * vmm) :=
  if Z.testbit (basic_reason info) 31 then Stop Halted else served (basic_reason info mod 2 ^ 16) info s.

(** C21 Dispatch of an exit: the guest's EFER.LMA (bit 10) first follows the "IA-32e
    mode guest" entry control and nothing else of the VMCS changes; then a failed VM
    entry (bit 31 of the reason) halts the machine, and any other exit is served by
    its basic reason, on what the VMCS reports: 1 an external interrupt, 7 the
    interrupt window, 30 a port instruction and 49 a memory access of a device run
    their handlers; 12 [hlt] is skipped; 16 [rdtsc] answers the time stamp in
    [edx:eax]; 28 moves [rax] to [cr3]; 31 and 32 read and write IA32_EFER; every
    other reason, control register or model-specific register halts. *)
Theorem vm_exit_dispatch (vcpu_ : Z) (s : vmm) : current_vm s = true ->
  let s1 := s <| cur ::= efer_adjusted |> <| vm ::= fun v => v <| vcpu := vcpu_ |> |> in
  vm_exit_handler_entry vcpu_ s = dispatched s1 (exit_info_of (cur s)) /\
  (forall i, 0 <= i < 64 -> Z.testbit (vmread (cur s1) GUEST_IA32_EFER) i =
     if i =? 10 then Z.testbit (vmread (cur s) CTLS_VM_ENTRY) 9 else Z.testbit (vmread (cur s) GUEST_IA32_EFER) i) /\
  (forall e, field_base e <> GUEST_IA32_EFER -> vmread (cur s1) e = vmread (cur s) e).
Proof.
  intros Hcur s1. set (reason := vmread (cur s) VMEXIT_REASON).
  assert (Hother : forall e, field_base e <> GUEST_IA32_EFER -> vmread (efer_adjusted (cur s)) e = vmread (cur s) e).
  { intros e He. apply vmread_other. intros E. by apply He. }
  split; [|split; [|exact Hother]].
  - unfold vm_exit_handler_entry. run_with (adjust_efer_run s). rewrite bind_gets.
    rewrite assert_run by exact Hcur.
    rewrite (bind_run _ _ _ _ _ eq_refl). cbv beta.
    assert (Hi : read_exit_info s1 = Ret (exit_info_of (cur s), s1)).
    { unfold read_exit_info, vmx_read. rewrite !bind_gets. unfold exit_info_of.
      change (cur s1) with (efer_adjusted (cur s)). rewrite !Hother by discriminate. reflexivity. }
    change (set_vm _ _) with (Ret (tt, s1)). run_with Hi.
    assert (Hr : 0 <= reason < 2 ^ 32).
    { unfold reason, vmread. apply (wrap_range 32). lia. }
    unfold dispatched. cbn [basic_reason exit_info_of]. fold reason. rewrite entry_failure_bit by done.
    destruct (Z.testbit reason 31); [done|].
    change 0xffff with (Z.ones 16). rewrite Z.land_ones by lia.
    destruct (sub_handlers (reason mod 2 ^ 16)) as [h|] eqn:E.
    + rewrite assert_run by (by eapply sub_handlers_bound). rewrite <- sub_handlers_serve. by rewrite E.
    + rewrite <- sub_handlers_serve, E. unfold assert. by destruct (_ <? _).
  - intros i Hi. change (cur s1) with (efer_adjusted (cur s)). unfold efer_adjusted.
    rewrite vmread_same by reflexivity. change (field_width GUEST_IA32_EFER) with 64.
    unfold wrap. rewrite Z.mod_pow2_bits_low by lia.
    destruct (Z.eqb_spec i 10) as [->|Hne]; destruct (Z.testbit (vmread (cur s) CTLS_VM_ENTRY) 9).
    + by rewrite Z.setbit_eq.
    + by rewrite Z.clearbit_eq.
    + by rewrite Z.setbit_neq.
    + by rewrite Z.clearbit_neq.
Qed.

(** A guest in long mode reads IA32_EFER. *)
Definition rdmsr_machine : vmm :=
  set_registers (fun c => c <| rcx := 0xc0000080 |>) (sample_vmm <| cur :=
    foldl (fun c '(e, v) => vmwrite c e v) ∅ [(CTLS_VM_ENTRY, 0x200); (VMEXIT_REASON, 31);
      (VMEXIT_INSTRUCTION_LENGTH, 2); (GUEST_RIP, 0x100); (GUEST_IA32_EFER, 0x101)] |>).
Lemma vm_exit_dispatch_witness : exists s',
  vm_exit_handler_entry 0x9000 rdmsr_machine = Ret (0x9000, s') /\
  rax (cpu_state (vm s')) = 0x501 /\ rdx (cpu_state (vm s')) = 0 /\ vmread (cur s') GUEST_RIP = 0x102.
Proof.
  destruct (vm_exit_dispatch 0x9000 rdmsr_machine) as [H _]; [reflexivity|].
  eexists. split; [rewrite H; vm_compute; reflexivity|]. repeat split.
Defined.

(** ** Model-specific registers *)

(** The high half of EFER: after the guest writes [edx:eax] to IA32_EFER, the VMCS
    holds [eax] alone, and reading the register back answers [edx = 0], whatever was
    written there. *)
Theorem wrmsr_drops_high_half (exit : vmexit_info) (s : vmm) (hi lo : Z) :
  0 <= hi < 2 ^ 32 -> 0 <= lo < 2 ^ 32 ->
  rcx (cpu_state (vm s)) = IA32_EFER -> rax (cpu_state (vm s)) = lo -> rdx (cpu_state (vm s)) = hi ->
  exists s1 s2, wrmsr_exit_sub_handler exit s = Ret (vcpu (vm s), s1) /\
    vmread (cur s1) GUEST_IA32_EFER = lo /\
    rdmsr_exit_sub_handler exit s1 = Ret (vcpu (vm s), s2) /\
    rax (cpu_state (vm s2)) = lo /\ rdx (cpu_state (vm s2)) = 0.
Proof.
  intros Hhi Hlo Hc Ha Hd.
  set (v := vmwrite (cur s) GUEST_IA32_EFER lo). set (s1 := advanced (instruction_length exit) (s <| cur := v |>)).
  assert (Hlow : Z.lor (Z.land lo 0xffffffff) (Z.land (u64 (Z.shiftl hi 32)) 0xffffffff) = lo).
  { change 0xffffffff with (Z.ones 32). rewrite !Z.land_ones, Z.shiftl_mul_pow2 by lia. unfold u64, wrap.
    assert (E : (hi * 2 ^ 32) mod 2 ^ 64 mod 2 ^ 32 = 0) by zdiv.
    rewrite E, Z.mod_small, Z.lor_0_r by lia. done. }
  assert (Hefer : vmread (cur s1) GUEST_IA32_EFER = lo).
  { unfold s1, advanced. cbn [cur update]. rewrite vmread_other by discriminate. unfold v.
    rewrite vmread_same by reflexivity. apply wrap_small. change (field_width GUEST_IA32_EFER) with 64. lia. }
  exists s1. eexists. split; [|split; [exact Hefer|]].
  - unfold wrmsr_exit_sub_handler, get_cpu. rewrite bind_gets, Hc. cbn [Z.eqb Pos.eqb IA32_EFER]. rewrite bind_assoc.
    rewrite Ha, Hd, Hlow. rewrite (bind_run _ _ _ _ _ eq_refl). cbv beta.
    change (vmx_write GUEST_IA32_EFER lo s) with (@Ret (Z * vmm) (ERROR_OK, s <| cur ::= fun c => vmwrite c GUEST_IA32_EFER lo |>)).
    rewrite finish_run. unfold s1. by destruct s.
  - split; [|split].
    + unfold rdmsr_exit_sub_handler, get_cpu. rewrite bind_gets.
      change (cpu_state (vm s1)) with (cpu_state (vm s)). rewrite Hc. cbn [Z.eqb Pos.eqb IA32_EFER].
      unfold vmx_read. rewrite bind_assoc, bind_gets, Hefer. reflexivity.
    + change (u32 lo = lo). by apply wrap_small.
    + change (u32 (Z.shiftr lo 32) = 0). rewrite Z.shiftr_div_pow2, Z.div_small by lia. done.
Qed.

Lemma wrmsr_drops_high_half_witness : exists s1,
  wrmsr_exit_sub_handler (ExitInfo 32 0 0 0 2 0)
    (set_registers (fun c => c <| rcx := IA32_EFER |> <| rax := 0xd01 |> <| rdx := 1 |>) sample_vmm) = Ret (0x9000, s1) /\
  vmread (cur s1) GUEST_IA32_EFER = 0xd01.
Proof.
  destruct (wrmsr_drops_high_half (ExitInfo 32 0 0 0 2 0)
    (set_registers (fun c => c <| rcx := IA32_EFER |> <| rax := 0xd01 |> <| rdx := 1 |>) sample_vmm) 1 0xd01
    ltac:(lia) ltac:(lia)) as (s1 & s2 & Hw & Hv & _); [reflexivity..|].
  exists s1. split; [exact Hw|exact Hv].
Defined.
