(* ===== verification/Typed.v ===== *)
(** * Typed: the widths of the monitor's state, whatever the guest does.

    Every variable of the exit path has a C type and most a narrower range; the
    operations of the other files work on unbounded integers and write the
    wrap-around where the code has one. Here the ranges are an invariant of every
    exit handler, and so of every run in which the guest does anything it can
    between two exits. *)
From Stdlib Require Import ZArith Lia.
From stdpp Require Import base tactics list numbers gmap.
From S2P Require Import Prelude Memory Format PhysicalMemory Radix Paging PagingInit Ept.
From S2P Require Import Ring SortSearch Vmm Registry Devices Event Schedule Decode Exit.
Local Open Scope Z_scope.

(** ** The types *)
Definition reg (x : Z) : Prop := 0 <= x < 2 ^ 64.
Definition flag (x : Z) : Prop := 0 <= x <= 1.

Definition cpu_registers (c : guest_cpu_state) : list Z :=
  [cr2 c; r8 c; r9 c; r10 c; r11 c; r12 c; r13 c; r14 c; r15 c; rbp c; rdi c; rsi c; rdx c; rcx c; rbx c; rax c].
Definition cpu_typed (c : guest_cpu_state) : Prop := Forall reg (cpu_registers c).

Record pic_typed (p : pic8259_blob) : Prop := {
  pt_bytes : Forall is_byte [master_pic_command p; slave_pic_command p; master_pic_data p; slave_pic_data p;
    master_pic_offset p; slave_pic_offset p];
  pt_flags : Forall flag [is_master_pic_initializing p; is_slave_pic_initializing p; interrupt_delivery_pending p];
  pt_vector : interrupt_delivery_vector p = PIC_INVALID_VECTOR \/ 0 <= interrupt_delivery_vector p < NR_VECTORS }.

Record pit_typed (p : pit8253_blob) : Prop := {
  tt_counter : 0 <= initial_counter p <= 2;
  tt_divisor : 0 <= divisor p < 2 ^ 16;
  tt_threshold : 0 <= threshold p <= 55;
  tt_tsc : reg (last_tsc p) }.

(** The line being collected never fills its page. *)
Record vm_typed (v : vmcs_blob) : Prop := {
  vt_vcpu : reg (vcpu v);
  vt_cpu : cpu_typed (cpu_state v);
  vt_line : 0 <= serial_line_iptr v < PAGE_SIZE_4K - 1;
  vt_pic : pic_typed (pic v);
  vt_pit : pit_typed (pit v);
  vt_kbd : ring_ok (kbd v) /\ ring_size (kbd v) = SCANCODE_BUFFER_LENGTH }.

Record typed (s : vmm) : Prop := {
  ty_vm : vm_typed (vm s);
  ty_requests : length (interrupt_request_bitmap s) = 15%nat /\ Forall flag (interrupt_request_bitmap s);
  ty_garbage : is_byte (uninitialised s) }.

(** ** Commands that keep the types and answer with a typed value *)
Definition keeps {A} (P : A -> Prop) (c : M vmm A) : Prop := forall s, typed s ->
  match c s with Ret (a, s') => typed s' /\ P a | Stop _ => True end.

Abbreviation anything := (fun _ => True).

Lemma keeps_answer {A} (P : A -> Prop) a : P a -> keeps P (ret a).
Proof. intros H s Hs. by split. Qed.
Lemma keeps_stop {A} (P : A -> Prop) f : keeps P (stop f).
Proof. by intros s Hs. Qed.
Lemma keeps_bind {A B} (P : A -> Prop) (Q : B -> Prop) c k :
  keeps P c -> (forall a, P a -> keeps Q (k a)) -> keeps Q (bind c k).
Proof.
  intros Hc Hk s Hs. specialize (Hc s Hs). unfold bind. destruct (c s) as [[a s1]|]; [|done].
  destruct Hc as [H1 Ha]. by apply Hk.
Qed.
Lemma keeps_weaken {A} (P Q : A -> Prop) c : keeps P c -> (forall a, P a -> Q a) -> keeps Q c.
Proof. intros Hc HQ s Hs. specialize (Hc s Hs). destruct (c s) as [[a s1]|]; [|done]. destruct Hc. auto. Qed.
Lemma keeps_any {A} (P : A -> Prop) c : keeps P c -> keeps anything c.
Proof. intros H. by eapply keeps_weaken. Qed.
Lemma keeps_if {A} (P : A -> Prop) (b : bool) c d :
  (b = true -> keeps P c) -> (b = false -> keeps P d) -> keeps P (if b then c else d).
Proof. destruct b; auto. Qed.
Lemma keeps_assert b : keeps (fun _ => b = true) (assert b).
Proof. intros s Hs. by destruct b. Qed.
Lemma keeps_assert_some {A} (o : option A) : keeps (fun a => o = Some a) (assert_some o).
Proof. destruct o; [by apply keeps_answer|apply keeps_stop]. Qed.
Lemma keeps_gets {A} (f : vmm -> A) (P : A -> Prop) : (forall s, typed s -> P (f s)) -> keeps P (gets f).
Proof. intros H s Hs. split; [done|by apply H]. Qed.
Lemma keeps_lift {A} (f : vmm -> outcome A) : keeps anything (fun s => lift (f s) s).
Proof. intros s Hs. unfold lift. by destruct (f s). Qed.

(** Changes of the VM, its registers, its devices and the requests. *)
Lemma keeps_set_vm f : (forall v, vm_typed v -> vm_typed (f v)) -> keeps anything (set_vm f).
Proof. intros H s [Hv Hr Hg]. split; [|done]. split; [by apply H|done..]. Qed.
Lemma keeps_set_cpu f : (forall c, cpu_typed c -> cpu_typed (f c)) -> keeps anything (set_cpu f).
Proof. intros H. apply keeps_set_vm. intros v []. split; try done. by apply H. Qed.
Lemma keeps_set_pic f : (forall p, pic_typed p -> pic_typed (f p)) -> keeps anything (set_pic f).
Proof. intros H. apply keeps_set_vm. intros v []. split; try done. by apply H. Qed.
Lemma keeps_set_pit f : (forall p, pit_typed p -> pit_typed (f p)) -> keeps anything (set_pit f).
Proof. intros H. apply keeps_set_vm. intros v []. split; try done. by apply H. Qed.
Lemma keeps_set_request n x : flag x -> keeps anything (set_request n x).
Proof.
  intros Hx s [Hv [Hl Hr] Hg]. split; [|done]. split; [done| |done]. split.
  - etransitivity; [apply length_insert|exact Hl].
  - by apply Forall_insert.
Qed.
Lemma keeps_put_kernel f : keeps anything (Serial.put_kernel f).
Proof. intros s []. by split. Qed.

Lemma keeps_get_vm : keeps vm_typed get_vm.
Proof. apply keeps_gets. by intros s []. Qed.
Lemma keeps_get_cpu : keeps cpu_typed get_cpu.
Proof. apply keeps_gets. by intros s [[] _ _]. Qed.
Lemma keeps_get_vcpu : keeps reg get_vcpu.
Proof. apply keeps_gets. by intros s [[] _ _]. Qed.
Lemma keeps_vmx_read f : keeps reg (vmx_read f).
Proof. apply keeps_gets. intros s _. apply vmread_range. Qed.
Lemma keeps_vmx_write f x : keeps anything (vmx_write f x).
Proof. intros s []. unfold vmx_write. by destruct (field_readonly f). Qed.
Lemma keeps_rdtsc : keeps reg rdtsc.
Proof. intros s []. split; [by split|]. apply (wrap_range 64). lia. Qed.
Lemma keeps_inb_keyboard : keeps is_byte inb_keyboard.
Proof. intros s []. split; [by split|]. apply (wrap_range 8). lia. Qed.

Create HintDb keeps.
#[export] Hint Resolve keeps_get_vm keeps_get_cpu keeps_get_vcpu keeps_vmx_read keeps_vmx_write keeps_rdtsc
  keeps_inb_keyboard keeps_assert keeps_assert_some keeps_stop keeps_put_kernel : keeps.

(** One step of a command; what it leaves open is about the values. *)
Ltac keep_step :=
  cbv beta zeta;
  lazymatch goal with
  | |- keeps _ (bind _ _) => eapply keeps_bind; [|intros ? ?]
  | |- keeps ?P (ret _) => tryif is_evar P then (apply (keeps_answer anything); exact I) else apply keeps_answer
  | |- keeps _ (if _ then _ else _) => apply keeps_if; intros
  | |- keeps _ (match ?o with Some _ => _ | None => _ end) => destruct o eqn:?
  | |- keeps anything (set_vm _) => apply keeps_set_vm
  | |- keeps anything (set_cpu _) => apply keeps_set_cpu
  | |- keeps anything (set_pic _) => apply keeps_set_pic
  | |- keeps anything (set_pit _) => apply keeps_set_pit
  | |- keeps anything (set_request _ _) => apply keeps_set_request
  | |- keeps _ _ => first [by eauto with keeps | eapply keeps_any; by eauto with keeps |
      apply keeps_set_cpu | apply keeps_set_pic | apply keeps_set_pit | apply keeps_set_request | apply keeps_set_vm]
  | |- reg (vcpu _) => by apply vt_vcpu
  | |- _ => progress (try done)
  end.
Ltac keep := repeat keep_step.

(** A record with some fields changed: what is left is about the new values. *)
Ltac fields :=
  let x := fresh in let H := fresh in intros x H; destruct H; split;
  repeat rewrite ?Forall_cons, ?Forall_nil in *; cbn in *; unfold flag, is_byte, reg in *; try tauto; try lia.

(** ** The devices *)
Lemma keeps_master_pic_inb p : keeps is_byte (Pic.master_pic_inb p).
Proof. unfold Pic.master_pic_inb. keep. destruct H as [_ _ _ [H _ _] _ _]. rewrite !Forall_cons in H. tauto. Qed.
Lemma keeps_slave_pic_inb p : keeps is_byte (Pic.slave_pic_inb p).
Proof. unfold Pic.slave_pic_inb. keep. destruct H as [_ _ _ [H _ _] _ _]. rewrite !Forall_cons in H. tauto. Qed.
Lemma keeps_master_pic_outb p b : is_byte b -> keeps anything (Pic.master_pic_outb p b).
Proof. intros Hb. unfold Pic.master_pic_outb. keep; fields. Qed.
Lemma keeps_slave_pic_outb p b : is_byte b -> keeps anything (Pic.slave_pic_outb p b).
Proof. intros Hb. unfold Pic.slave_pic_outb. keep; fields. Qed.

Lemma pit_write_typed port b p : is_byte b -> pit_typed p ->
  match pit_write port b p with Ret p' => pit_typed p' | Stop _ => True end.
Proof.
  intros Hb [P1 P2 P3 P4]. unfold pit_write, is_byte in *. destruct (_ =? _).
  { destruct (_ =? _); [|done]. by split; cbn. }
  destruct (_ =? _); [|done]. destruct (Z.eqb_spec (initial_counter p) 0) as [E|_].
  { split; cbn [initial_counter divisor threshold last_tsc update]; [lia| |done|done].
    change 255 with (Z.ones 8). rewrite Z.land_ones, Z.mod_small; lia. }
  destruct (Z.eqb_spec (initial_counter p) 1) as [E|_]; [|done]. cbv zeta.
  set (d := Z.land _ 0xffff). assert (Hd : 0 <= d < 2 ^ 16).
  { unfold d. change 0xffff with (Z.ones 16). rewrite Z.land_ones by lia. apply Z.mod_pos_bound. lia. }
  destruct (Z.eqb_spec d 0); [done|]. destruct (_ =? 0); [done|].
  split; cbn [initial_counter divisor threshold last_tsc]; [lia|done| |done].
  apply pit_threshold_bound. lia.
Qed.
Lemma keeps_pit_outb port b : is_byte b -> keeps anything (Pit.pit_outb port b).
Proof.
  intros Hb s [[V1 V2 V3 V4 V5 V6] R G]. rewrite pit_outb_on. unfold on_pit.
  pose proof (pit_write_typed port b (pit (vm s)) Hb V5) as Hp.
  destruct (pit_write port b (pit (vm s))) as [p'|]; [|done]. by split.
Qed.

Lemma keeps_serial_inb p : keeps is_byte (Serial.device_serial_inb p).
Proof. unfold Serial.device_serial_inb. keep. Qed.
(** Printing only adds to the console. *)
Lemma print_line_state s : match Serial.print_line s with Ret (_, s') => exists c, s' = s <| console := c |> | Stop _ => True end.
Proof.
  unfold Serial.print_line. rewrite bind_gets. unfold vmm_printk.
  destruct (printk_mp_raw _ _ _ _ _) as [[[] c]|]; [|done]. by eexists.
Qed.
Lemma keeps_serial_outb p b : keeps anything (Serial.device_serial_outb p b).
Proof.
  intros s [[V1 V2 V3 V4 V5 V6] R G]. unfold Serial.device_serial_outb, get_vm. rewrite bind_gets.
  rewrite (proj2 (Z.ltb_lt _ _)) by lia. rewrite assert_run by done.
  do 2 (rewrite (bind_run _ _ _ _ _ eq_refl); cbv beta). rewrite bind_gets.
  set (s1 := update vm _ _). destruct (_ || _) eqn:E; [|].
  - pose proof (print_line_state s1) as Hp. unfold bind at 1. destruct (Serial.print_line s1) as [[[] s2]|]; [|done].
    destruct Hp as [c ->]. cbn. split; [|done]. split; [split; cbn; try done; lia|done|done].
  - cbn. split; [|done]. split; [split; cbn; try done|done|done].
    apply orb_false_iff in E as [E _]. apply Z.eqb_neq in E. cbn in E. lia.
Qed.

Lemma ring_peek_byte r : is_byte (ring_peek r).
Proof. apply (wrap_range 8). lia. Qed.
Lemma keeps_keyboard_inb p : keeps is_byte (Keyboard.keyboard_data_inb p).
Proof. unfold Keyboard.keyboard_data_inb. keep. apply ring_peek_byte. Qed.

Lemma keeps_in_kbd {A} (c : M ring A) :
  (forall r, ring_ok r -> match c r with Ret (_, r') => ring_ok r' /\ ring_size r' = ring_size r | Stop _ => True end) ->
  keeps anything (in_kbd c).
Proof.
  intros H s [[V1 V2 V3 V4 V5 [V6 V7]] R G]. unfold in_kbd. specialize (H _ V6). destruct (c (kbd (vm s))) as [[a r']|]; [|done].
  destruct H as [H1 H2]. split; [|done]. split; [split; try done|done|done]. split; [done|]. cbn. congruence.
Qed.
Lemma keeps_ring_enqueue x : is_byte x -> keeps anything (in_kbd (ring_enqueue x)).
Proof.
  intros Hx. apply keeps_in_kbd. intros r Hr.
  destruct (write_loop_run 1 [x] 0 r Hr ltac:(cbn; lia)) as (r' & E & H1 & H2 & _); [by apply Forall_singleton|].
  unfold ring_enqueue, write_ring. change (Z.to_nat 1) with 1%nat. by rewrite E.
Qed.
Lemma keeps_ring_dequeue : keeps anything (in_kbd ring_dequeue).
Proof.
  apply keeps_in_kbd. intros r Hr. destruct (read_loop_run 1 [] 0 r Hr) as (r' & E & H1 & H2 & _).
  unfold ring_dequeue, read_ring. change (Z.to_nat 1) with 1%nat. by rewrite E.
Qed.
#[export] Hint Resolve keeps_master_pic_inb keeps_slave_pic_inb keeps_serial_inb keeps_keyboard_inb
  keeps_master_pic_outb keeps_slave_pic_outb keeps_pit_outb keeps_serial_outb keeps_ring_dequeue : keeps.

Lemma keeps_run_inb cb p : keeps is_byte (run_inb cb p).
Proof. destruct cb; cbn [run_inb]; eauto with keeps. Qed.
Lemma keeps_run_outb cb p b : is_byte b -> keeps anything (run_outb cb p b).
Proof. intros Hb. destruct cb; cbn [run_outb]; eauto with keeps. Qed.

(** ** The video page *)
Lemma load_reg n m a : (n <= 8)%nat -> reg (load n m a).
Proof.
  intros Hn. pose proof (load_range n m a). assert (256 ^ Z.of_nat n <= 256 ^ 8) by (apply Z.pow_le_mono_r; lia).
  unfold reg. change (256 ^ 8) with (2 ^ 64) in *. lia.
Qed.
Lemma keeps_video_read a n : keeps reg (Video.video_buffer_mmio_read a n).
Proof.
  unfold Video.video_buffer_mmio_read. eapply keeps_bind; [by apply (keeps_gets _ anything)|]. intros s0 _. keep.
  - pose proof (load_reg 1 (k_mem (kern s0)) (video_buffer (regions (vm s0)) + u64 (a - Video.VIDEO_BUFFER_PAGE_FRAME)) ltac:(lia)) as H1.
    cbn [load] in H1. by rewrite Z.mul_0_r, Z.add_0_r in H1.
  - by apply (load_reg 2); lia.
  - by apply (load_reg 4); lia.
  - by apply (load_reg 8); lia.
Qed.
Lemma keeps_video_write a n x : keeps anything (Video.video_buffer_mmio_write a n x).
Proof. unfold Video.video_buffer_mmio_write, Video.incremental_refresh_video. keep. Qed.
Lemma keeps_mmio_read cb a n : keeps reg (run_mmio_read cb a n).
Proof. destruct cb. apply keeps_video_read. Qed.
Lemma keeps_mmio_write cb a n x : keeps anything (run_mmio_write cb a n x).
Proof. destruct cb. apply keeps_video_write. Qed.
#[export] Hint Resolve keeps_run_inb keeps_run_outb keeps_mmio_read keeps_mmio_write : keeps.

(** ** Interrupts *)
Lemma keeps_enable_window : keeps anything enable_interrupt_window.
Proof. unfold enable_interrupt_window. keep. Qed.
Lemma keeps_disable_window : keeps anything disable_interrupt_window.
Proof. unfold disable_interrupt_window. keep. Qed.
#[export] Hint Resolve keeps_enable_window keeps_disable_window : keeps.

Lemma keeps_raise_interrupt n : keeps anything (raise_interrupt n).
Proof. unfold raise_interrupt, is_interrupt_pin_masked, raise_interrupt_raw. keep; unfold flag; try done; lia. Qed.
Lemma keeps_inject n : keeps anything (inject_external_event n).
Proof. unfold inject_external_event. keep. Qed.
Lemma keeps_is_injectable : keeps anything is_injectable.
Proof. unfold is_injectable. keep. Qed.
#[export] Hint Resolve keeps_raise_interrupt keeps_inject keeps_is_injectable : keeps.

Lemma keeps_retire : keeps anything retire_delivered.
Proof. unfold retire_delivered. keep; fields. Qed.
Lemma first_request_from l i : i <= first_request l i.
Proof. revert i. induction l as [|b l IH]; intros i; cbn; [lia|]. destruct (truthy b); [lia|]. specialize (IH (i + 1)). lia. Qed.
Lemma keeps_deliver : keeps anything deliver_next.
Proof.
  unfold deliver_next. eapply keeps_bind; [apply (keeps_gets _ (Z.le 0)); intros s _; apply first_request_from|].
  intros idx Hi. keep; fields.
Qed.
#[export] Hint Resolve keeps_retire keeps_deliver : keeps.

Lemma keeps_window exit : keeps reg (interrupt_window_exit_sub_handler exit).
Proof. unfold interrupt_window_exit_sub_handler. keep. Qed.

(** ** The handlers of the exit reasons *)
Lemma reg_dword x : reg (Z.land x 0xffffffff).
Proof. change 0xffffffff with (2 ^ 32 - 1). rewrite land_mask_mod by lia. unfold reg. zdiv. Qed.
Lemma reg_u32 x : reg (u32 x).
Proof. pose proof (wrap_range 32 x ltac:(lia)). unfold reg, u32. lia. Qed.
Lemma reg_byte x : is_byte x -> reg x.
Proof. unfold is_byte, reg. lia. Qed.

(** A register file with one register changed. *)
Ltac registers :=
  let H := fresh in intros [] H;
  repeat (apply Forall_cons in H as [? H]);
  repeat (apply Forall_cons_2; [first [eassumption|idtac]|]); [..|apply Forall_nil_2]; try eassumption.

Lemma keeps_garbage : keeps is_byte (gets uninitialised).
Proof. apply keeps_gets. by intros s []. Qed.
Lemma keeps_scancode : keeps (fun o => forall g, is_byte g -> is_byte (default g o)) try_retrieve_scancode.
Proof. unfold try_retrieve_scancode. keep. Qed.
#[export] Hint Resolve keeps_garbage keeps_scancode keeps_ring_enqueue : keeps.

Lemma keeps_external i : keeps reg (external_interrupt_sub_handler i).
Proof. unfold external_interrupt_sub_handler. keep; fields. Qed.
Lemma keeps_acknowledge : keeps anything Schedule.acknowledge_interrupt.
Proof. intros s []. by split. Qed.
Lemma keeps_goto_next exit : keeps anything (GOTO_NEXT_INSTRUCTION exit).
Proof. unfold GOTO_NEXT_INSTRUCTION. keep. Qed.
#[export] Hint Resolve keeps_external keeps_acknowledge keeps_goto_next : keeps.

Lemma keeps_external_exit exit : keeps reg (external_interrupt_exit_sub_handler exit).
Proof. unfold external_interrupt_exit_sub_handler. keep. Qed.
Lemma keeps_rdtsc_exit exit : keeps reg (rdtsc_exit_sub_handler exit).
Proof. unfold rdtsc_exit_sub_handler. keep; registers; by apply reg_dword || done. Qed.

Lemma keeps_get_register i : keeps reg (vcpu_get_gp_regiter i).
Proof.
  unfold vcpu_get_gp_regiter. keep. unfold cpu_typed, cpu_registers in *. rewrite !Forall_cons in *.
  repeat case_match; keep; first [tauto|unfold reg; lia].
Qed.
Lemma keeps_set_register i x : reg x -> keeps anything (vcpu_set_gp_regiter i x).
Proof. intros Hx. unfold vcpu_set_gp_regiter. repeat case_match; keep; registers. Qed.
#[export] Hint Resolve keeps_get_register keeps_set_register : keeps.

Lemma keeps_fetch : keeps anything fetch_instruction.
Proof.
  unfold fetch_instruction. keep.
  - by apply (keeps_gets _ anything).
  - by apply (keeps_gets _ anything).
  - apply keeps_lift.
Qed.
Lemma keeps_search_mmio a : keeps anything (search_mmio_callback a).
Proof.
  unfold search_mmio_callback. eapply keeps_bind; [by apply (keeps_gets _ anything)|]. intros s0 _. 
  apply (keeps_lift (fun _ => _)).
Qed.
Lemma keeps_search_port p : keeps anything (search_portio_callback p).
Proof.
  unfold search_portio_callback. eapply keeps_bind; [by apply (keeps_gets _ anything)|]. intros s0 _.
  apply (keeps_lift (fun _ => _)).
Qed.
Lemma keeps_port_at i : keeps anything (gets (port_at i)).
Proof. by apply keeps_gets. Qed.
#[export] Hint Resolve keeps_fetch keeps_search_mmio keeps_search_port keeps_port_at : keeps.
Lemma keeps_mmio_region a : keeps anything (mmio_region a).
Proof. unfold mmio_region. keep. Qed.
#[export] Hint Resolve keeps_mmio_region : keeps.
Lemma keeps_emulate c : keeps anything (emulate_access c).
Proof. unfold emulate_access. keep. Qed.
#[export] Hint Resolve keeps_emulate : keeps.

Lemma is_byte_u8 x : is_byte (u8 x).
Proof. apply (wrap_range 8). lia. Qed.
#[export] Hint Resolve is_byte_u8 : keeps.
Lemma keeps_io exit : keeps reg (io_instruction_exit_sub_handler exit).
Proof. unfold io_instruction_exit_sub_handler. keep; registers. by apply reg_byte. Qed.
Lemma keeps_misconfig exit : keeps reg (ept_misconfig_exit_sub_handler exit).
Proof. unfold ept_misconfig_exit_sub_handler. keep. destruct a. keep. Qed.
Lemma keeps_control exit : keeps reg (controll_register_access_exit_sub_handler exit).
Proof. unfold controll_register_access_exit_sub_handler. keep. Qed.
Lemma keeps_rdmsr exit : keeps reg (rdmsr_exit_sub_handler exit).
Proof. unfold rdmsr_exit_sub_handler. keep; registers; apply reg_u32. Qed.
Lemma keeps_wrmsr exit : keeps reg (wrmsr_exit_sub_handler exit).
Proof. unfold wrmsr_exit_sub_handler. keep. Qed.
Lemma keeps_halt exit : keeps reg (halt_exit_sub_handler exit).
Proof. unfold halt_exit_sub_handler. keep. Qed.

Lemma keeps_sub_handler r h exit : sub_handlers r = Some h -> keeps reg (h exit).
Proof.
  unfold sub_handlers. intros H. repeat (destruct (r =? _); [injection H as <-|]); [..|discriminate].
  - apply keeps_external_exit.
  - apply keeps_io.
  - apply keeps_control.
  - apply keeps_halt.
  - apply keeps_rdmsr.
  - apply keeps_wrmsr.
  - apply keeps_misconfig.
  - apply keeps_window.
  - apply keeps_rdtsc_exit.
Qed.
Lemma keeps_adjust_efer : keeps anything adjust_efer.
Proof. unfold adjust_efer. keep. Qed.
Lemma keeps_exit_info : keeps anything read_exit_info.
Proof. unfold read_exit_info. keep. Qed.
#[export] Hint Resolve keeps_adjust_efer keeps_exit_info : keeps.
Lemma keeps_current : keeps anything (gets current_vm).
Proof. by apply keeps_gets. Qed.
#[export] Hint Resolve keeps_current : keeps.

Lemma keeps_entry v : reg v -> keeps reg (vm_exit_handler_entry v).
Proof. intros Hv. unfold vm_exit_handler_entry. keep; [fields|by eapply keeps_sub_handler]. Qed.

(** ** Runs of a guest

    Between two exits the guest changes its registers, its memory and, through the
    processor, fields of the VMCS; and time passes. *)
Inductive guest_ran (s : vmm) : vmm -> Prop :=
| guest_ran_intro c m g t : cpu_typed g ->
    guest_ran s (s <| cur := c |> <| kern ::= fun k => k <| k_mem := m |> |> <| vm ::= fun v => v <| cpu_state := g |> |>
                   <| tsc := t |>).

(** The states the monitor reaches: its VM's registers are saved at [frame]. *)
Inductive monitor_run (frame : Z) (s0 : vmm) : vmm -> Prop :=
| monitor_start : monitor_run frame s0 s0
| monitor_exit s s1 s2 rsp : monitor_run frame s0 s -> guest_ran s s1 ->
    vm_exit_handler_entry frame s1 = Ret (rsp, s2) -> monitor_run frame s0 s2.

Lemma guest_ran_typed s s' : typed s -> guest_ran s s' -> typed s'.
Proof. intros [[] R G] [c m g t Hg]. by split. Qed.

(** C4 The types of the monitor's state are an invariant of every run: whatever the
    guest does between exits, and for any sequence of exits the handlers survive,
    every register of the guest fits 64 bits, the controllers' registers are bytes,
    their flags 0 or 1 and the vector being served one of the fifteen or none, the
    timer's divisor fits 16 bits and its period 55 ms, the line being collected
    leaves room in its page, the keyboard ring is well formed with its fifty cells,
    and the request bitmap has its fifteen flags; and the stack pointer a handler
    answers fits 64 bits. *)
Theorem exits_keep_types frame s0 s : reg frame -> typed s0 -> monitor_run frame s0 s ->
  typed s /\ forall s1 rsp s2, guest_ran s s1 -> vm_exit_handler_entry frame s1 = Ret (rsp, s2) -> reg rsp /\ typed s2.
Proof.
  intros Hf H0 Hr.
  assert (Hstep : forall s s1 rsp s2, typed s -> guest_ran s s1 -> vm_exit_handler_entry frame s1 = Ret (rsp, s2) ->
    reg rsp /\ typed s2).
  { intros t t1 rsp t2 Ht Hg E. pose proof (keeps_entry frame Hf t1 (guest_ran_typed t t1 Ht Hg)) as H. rewrite E in H.
    by destruct H. }
  assert (Hs : typed s) by (induction Hr as [|s s1 s2 rsp _ IH Hg E]; [done|by eapply (Hstep s)]).
  split; [done|]. intros. by eapply (Hstep s).
Qed.

(** A monitor with all devices; the guest writes [0xfe] to the master's mask. *)
Lemma sample_typed : typed sample_machine.
Proof.
  assert (E : vm sample_machine = sample_vm /\ interrupt_request_bitmap sample_machine = replicate 15 0 /\
    uninitialised sample_machine = 0) by (vm_compute; done).
  destruct E as (E1 & E2 & E3). split; rewrite ?E1, ?E2, ?E3; [|split; [done|by repeat constructor]|by_compute].
  split.
  - by_compute.
  - repeat constructor; by_compute.
  - by_compute.
  - split; [repeat constructor; by_compute..|by left].
  - split; by_compute.
  - split; [split; try by_compute; by repeat constructor|reflexivity].
Qed.
Definition mask_write : vmm :=
  sample_machine <| cur := vmwrite (vmwrite ∅ VMEXIT_REASON 30) VMEXIT_QUALIFICATION 0x210000 |>
    <| kern ::= fun k => k <| k_mem := ∅ |> |>
    <| vm ::= fun v => v <| cpu_state := zero_cpu <| rax := 0xfe |> |> |> <| tsc := fun _ => 0 |>.

Lemma exits_keep_types_witness : exists s rsp, vm_exit_handler_entry 0x9000 mask_write = Ret (rsp, s) /\
  master_pic_data (pic (vm s)) = 0xfe /\ typed s.
Proof.
  destruct (vm_exit_handler_entry 0x9000 mask_write) as [[rsp s]|] eqn:E; [|vm_compute in E; discriminate].
  assert (Hg : guest_ran sample_machine mask_write) by (apply guest_ran_intro; repeat constructor; by_compute).
  destruct (exits_keep_types 0x9000 sample_machine sample_machine ltac:(by_compute) sample_typed (monitor_start _ _)) as [_ H].
  exists s, rsp. split; [done|]. split; [|by apply (H _ _ _ Hg E)].
  apply (f_equal (observe (fun s => master_pic_data (pic (vm s))))) in E. vm_compute in E. by injection E.
Defined.
