(* ===== verification/Vmcs.v ===== *)
(** * Vmcs: how a VM is brought up ([vm_monitor/vmx_vmcs.c]).

    [pre_initialize_vmcs] allocates the VM's pages; [initialize_vmcs] fills its
    VMCS with the host's and the guest's state and the execution controls, builds
    the guest's memory, copies the guest image into it and launches. What the
    processor answers (MSRs, control registers, the outcome of [vmptrld] and
    [vmlaunch]) and the addresses the linker chooses are a record of type
    [host_env]; [vmptrld] makes current a VMCS whose fields are arbitrary. *)
From Stdlib Require Import ZArith Lia.
From stdpp Require Import base tactics list numbers gmap.
From S2P Require Import Prelude Memory PhysicalMemory Radix Paging PagingInit Ept.
From S2P Require Import Ring SortSearch Vmm Registry Devices.
Local Open Scope Z_scope.

(** ** Field encodings ([vm_monitor/include/vmx_vmcs.h]) *)
Definition HOST_ES_SELECTOR : Z := 0xc00.
Definition HOST_CS_SELECTOR : Z := 0xc02.
Definition HOST_SS_SELECTOR : Z := 0xc04.
Definition HOST_DS_SELECTOR : Z := 0xc06.
Definition HOST_FS_SELECTOR : Z := 0xc08.
Definition HOST_GS_SELECTOR : Z := 0xc0a.
Definition HOST_TR_SELECTOR : Z := 0xc0c.
Definition HOST_IA32_SYSENTER_CS : Z := 0x4c00.
Definition HOST_CR0 : Z := 0x6c00.
Definition HOST_CR3 : Z := 0x6c02.
Definition HOST_CR4 : Z := 0x6c04.
Definition HOST_FS_BASE : Z := 0x6c06.
Definition HOST_GS_BASE : Z := 0x6c08.
Definition HOST_TR_BASE : Z := 0x6c0a.
Definition HOST_GDTR_BASE : Z := 0x6c0c.
Definition HOST_IDTR_BASE : Z := 0x6c0e.
Definition HOST_IA32_SYSENTER_ESP : Z := 0x6c10.
Definition HOST_IA32_SYSENTER_EIP : Z := 0x6c12.
Definition HOST_RSP : Z := 0x6c14.
Definition HOST_RIP : Z := 0x6c16.
Definition HOST_IA32_EFER : Z := 0x2c02.
Definition GUEST_ES_SELECTOR : Z := 0x800.
Definition GUEST_CS_SELECTOR : Z := 0x802.
Definition GUEST_SS_SELECTOR : Z := 0x804.
Definition GUEST_DS_SELECTOR : Z := 0x806.
Definition GUEST_FS_SELECTOR : Z := 0x808.
Definition GUEST_GS_SELECTOR : Z := 0x80a.
Definition GUEST_LDTR_SELECTOR : Z := 0x80c.
Definition GUEST_TR_SELECTOR : Z := 0x80e.
Definition GUEST_CR0 : Z := 0x6800.
Definition GUEST_CR4 : Z := 0x6804.
Definition GUEST_ES_BASE : Z := 0x6806.
Definition GUEST_CS_BASE : Z := 0x6808.
Definition GUEST_SS_BASE : Z := 0x680a.
Definition GUEST_DS_BASE : Z := 0x680c.
Definition GUEST_FS_BASE : Z := 0x680e.
Definition GUEST_GS_BASE : Z := 0x6810.
Definition GUEST_LDTR_BASE : Z := 0x6812.
Definition GUEST_TR_BASE : Z := 0x6814.
Definition GUEST_GDTR_BASE : Z := 0x6816.
Definition GUEST_IDTR_BASE : Z := 0x6818.
Definition GUEST_DR7 : Z := 0x681a.
Definition GUEST_ES_LIMIT : Z := 0x4800.
Definition GUEST_CS_LIMIT : Z := 0x4802.
Definition GUEST_SS_LIMIT : Z := 0x4804.
Definition GUEST_DS_LIMIT : Z := 0x4806.
Definition GUEST_FS_LIMIT : Z := 0x4808.
Definition GUEST_GS_LIMIT : Z := 0x480a.
Definition GUEST_LDTR_LIMIT : Z := 0x480c.
Definition GUEST_TR_LIMIT : Z := 0x480e.
Definition GUEST_GDTR_LIMIT : Z := 0x4810.
Definition GUEST_IDTR_LIMIT : Z := 0x4812.
Definition GUEST_ES_ACCESS_RIGHT : Z := 0x4814.
Definition GUEST_CS_ACCESS_RIGHT : Z := 0x4816.
Definition GUEST_SS_ACCESS_RIGHT : Z := 0x4818.
Definition GUEST_DS_ACCESS_RIGHT : Z := 0x481a.
Definition GUEST_FS_ACCESS_RIGHT : Z := 0x481c.
Definition GUEST_GS_ACCESS_RIGHT : Z := 0x481e.
Definition GUEST_LDTR_ACCESS_RIGHT : Z := 0x4820.
Definition GUEST_TR_ACCESS_RIGHT : Z := 0x4822.
Definition GUEST_INTERRUPTIBILITY_STATE : Z := 0x4824.
Definition GUEST_ACTIVITY_STATE : Z := 0x4826.
Definition GUEST_VMCS_LINK_POINTER_LOW : Z := 0x2800.
Definition GUEST_VMCS_LINK_POINTER_HIGH : Z := 0x2801.
Definition CTLS_PIN_BASED_VM_EXECUTION : Z := 0x4000.
Definition CTLS_SEC_PROC_BASED_VM_EXECUTION : Z := 0x401e.
Definition CTLS_EXCEPTION_BITMAP : Z := 0x4004.
Definition CTLS_IO_BITMAP_A : Z := 0x2000.
Definition CTLS_IO_BITMAP_B : Z := 0x2002.
Definition CTLS_VM_EXIT : Z := 0x400c.
Definition CTLS_VM_EXIT_MSR_STORE : Z := 0x2006.
Definition CTLS_VM_EXIT_MSR_STORE_COUNT : Z := 0x400e.
Definition CTLS_VM_EXIT_MSR_LOAD : Z := 0x2008.
Definition CTLS_VM_EXIT_MSR_LOAD_COUNT : Z := 0x4010.
Definition CTLS_VM_ENTRY_MSR_LOAD : Z := 0x200a.
Definition CTLS_VM_ENTRY_MSR_LOAD_COUNT : Z := 0x4014.
Definition CTLS_VM_ENTRY_INTERRUPT_INFORMATION_FIELD : Z := 0x4016.
Definition CTLS_EPTP : Z := 0x201a.
Definition CTLS_VPID : Z := 0x0.
Definition CTLS_CR3_TARGET_COUNT : Z := 0x400a.
Definition HOST_STACK_NR_PAGES : Z := 0x8.
(** ** Selectors, model-specific registers and flags *)
Definition KERNEL_CODE_SELECTOR : Z := 0x08.
Definition KERNEL_DATA_SELECTOR : Z := 0x10.
Definition TSS0_SELECTOR : Z := 0x28.
Definition RFLAG_FLAG_CARRY : Z := 0x1.
Definition RFLAG_FLAG_ZERO : Z := 0x40.
Definition IA32_EFER_MSR : Z := 0xc0000080.
Definition FSBASE_MSR : Z := 0xc0000100.
Definition GSBASE_MSR : Z := 0xc0000101.
Definition IA32_VMX_BASIC_MSR : Z := 0x480.
Definition IA32_VMX_CR0_FIXED0_MSR : Z := 0x486.
Definition IA32_VMX_CR4_FIXED0_MSR : Z := 0x488.
Definition IA32_VMX_PINBASED_CTLS_MSR : Z := 0x481.
Definition IA32_VMX_PRI_PROCBASED_CTLS_MSR : Z := 0x482.
Definition IA32_VMX_SEC_PROCBASED_CTLS_MSR : Z := 0x48b.
Definition IA32_VMX_EPT_VPID_CAP_MSR : Z := 0x48c.
Definition IA32_VMX_VM_EXIT_CTLS_MSR : Z := 0x483.
Definition IA32_VMX_VM_ENTRY_CTLS_MSR : Z := 0x484.

(** What the processor and the linker fix: the halves [rdmsr] answers, control and
    descriptor-table registers, symbols, [rflags] after [vmptrld] and whether
    [vmlaunch] enters the guest. *)
Record host_env := HostEnv {
  msr_eax : Z -> Z; msr_edx : Z -> Z;
  cr0 : Z; cr3 : Z; cr4 : Z; idtr_base : Z; gdtr_base : Z; tss_base : Z;
  vm_exit_handler : Z; _guest64_start : Z; _guest64_end : Z;
  vmptrld_rflag : Z; vmlaunch_enters : bool }.

(** ** Control words *)

(** The loops over the 32 bits of a control word. *)
Definition bit_mask (idx : Z) : Z := u32 (Z.shiftl 1 idx).
Fixpoint validate_loop (n : nat) (idx target allowed0 allowed1 : Z) : Z :=
  match n with
  | O => ERROR_OK
  | S n =>
      let mask := bit_mask idx in
      let target_is_set := truthy (Z.land target mask) in
      let allowed0_is_set := truthy (Z.land allowed0 mask) in
      let allowed1_is_set := truthy (Z.land allowed1 mask) in
      if (allowed0_is_set && negb target_is_set) || (negb allowed1_is_set && target_is_set)
      then - ERROR_INVALID
      else validate_loop n (idx + 1) target allowed0 allowed1
  end.
Definition validate_vmx_capability (target allowed0 allowed1 : Z) : Z :=
  validate_loop 32 0 target allowed0 allowed1.

Fixpoint fix_1_loop (n : nat) (idx target allowed0 : Z) : Z :=
  match n with
  | O => target
  | S n =>
      let mask := bit_mask idx in
      let target_is_set := truthy (Z.land target mask) in
      let allowed0_is_set := truthy (Z.land allowed0 mask) in
      let target := if allowed0_is_set && negb target_is_set then Z.lor target mask else target in
      fix_1_loop n (idx + 1) target allowed0
  end.
Definition fix_reserved_1_bits (target allowed0 : Z) : Z := fix_1_loop 32 0 target allowed0.

Fixpoint fix_0_loop (n : nat) (idx target allowed1 : Z) : Z :=
  match n with
  | O => target
  | S n =>
      let mask := bit_mask idx in
      let target_is_set := truthy (Z.land target mask) in
      let allowed1_is_set := truthy (Z.land allowed1 mask) in
      let target := if negb allowed1_is_set && target_is_set then Z.land target (u32 (Z.lnot mask)) else target in
      fix_0_loop n (idx + 1) target allowed1
  end.
Definition fix_reserved_0_bits (target allowed1 : Z) : Z := fix_0_loop 32 0 target allowed1.

(** ** Commands *)
Definition VMXWRITE (encoding value : Z) : M vmm unit :=
  let! rc := vmx_write encoding value in
  assert (rc =? ERROR_OK) ;;;
  let! v := vmx_read encoding in
  assert (v =? value).

Definition memset_page (p : Z) : M vmm unit :=
  in_kernel (modify (fun k => k <| k_mem := memset (k_mem k) p 0 PAGE_SIZE_4K |>)).
(** [_(_va)] of [pre_initialize_vmcs]. *)
Definition zero_page (p : Z) : M vmm unit :=
  assert (truthy p) ;;;
  memset_page p ;;;
  let! q := gets (fun s => pa (kern s) p) in
  assert (p =? q).

Definition set_regions (f : vmcs_region -> vmcs_region) : M vmm unit :=
  set_vm (fun v => v <| regions ::= f |>).

Definition zero_blob : vmcs_blob :=
  Vm (Regions 0 0 0 0 0 0 0 0 0 0) 0 0 0 (GuestCpu 0 0 0 0 0 0 0 0 0 0 0 0 0 0 0 0) 0 0
    (Pic 0 0 0 0 0 0 0 0 0 0) (Pit 0 0 0 0) (Ring 0 0 0 (replicate (Z.to_nat SCANCODE_BUFFER_LENGTH) 0)).

Definition pre_initialize_vmcs : M vmm Z :=
  set_vm (fun _ => zero_blob) ;;;
  let! p := in_kernel get_physical_page in set_regions (fun r => r <| guest_region := p |>) ;;;
  let! p := in_kernel get_physical_page in set_regions (fun r => r <| io_bitmap_region0 := p |>) ;;;
  let! p := in_kernel get_physical_page in set_regions (fun r => r <| io_bitmap_region1 := p |>) ;;;
  let! p := in_kernel get_physical_page in set_regions (fun r => r <| vm_exit_store_msr_region := p |>) ;;;
  let! p := in_kernel get_physical_page in set_regions (fun r => r <| vm_exit_load_msr_region := p |>) ;;;
  let! p := in_kernel (get_physical_pages HOST_STACK_NR_PAGES) in set_vm (fun v => v <| host_stack := p |>) ;;;
  let! p := in_kernel get_physical_page in set_vm (fun v => v <| serial_line_buffer := p |>) ;;;
  let! p := in_kernel get_physical_page in set_regions (fun r => r <| video_buffer := p |>) ;;;
  let! v := get_vm in
  zero_page (guest_region (regions v)) ;;;
  zero_page (io_bitmap_region0 (regions v)) ;;;
  zero_page (io_bitmap_region1 (regions v)) ;;;
  zero_page (vm_exit_store_msr_region (regions v)) ;;;
  zero_page (vm_exit_load_msr_region (regions v)) ;;;
  zero_page (host_stack v) ;;;
  zero_page (serial_line_buffer v) ;;;
  zero_page (video_buffer (regions v)) ;;;
  set_vm (fun v => v <| serial_line_iptr := 0 |>) ;;;
  set_pic (fun p => p <| slave_pic_data := 0xff |>) ;;;
  set_pic (fun p => p <| master_pic_data := 0xff |>) ;;;
  set_vm (fun v => v <| kbd ::= fun r => r <| ring_size := SCANCODE_BUFFER_LENGTH |> |>) ;;;
  ret ERROR_OK.

Section Bring_up.
Context (e : host_env).

Definition RDMSR (msr : Z) : Z * Z := (u32 (msr_eax e msr), u32 (msr_edx e msr)).
Definition msr64 (msr : Z) : Z := Z.lor (fst (RDMSR msr)) (Z.shiftl (snd (RDMSR msr)) 32).
Definition get_fs_base : Z := msr64 FSBASE_MSR.
Definition get_gs_base : Z := msr64 GSBASE_MSR.
Definition get_efer : Z := msr64 IA32_EFER_MSR.

Definition get_vmx_revision_id : M vmm Z :=
  let eax := fst (RDMSR IA32_VMX_BASIC_MSR) in
  assert (negb (truthy (Z.land eax 0x80000000))) ;;;
  ret eax.

Definition vmx_load (vmcs_region : Z) : Z :=
  let rflag := vmptrld_rflag e in
  if truthy (Z.land rflag RFLAG_FLAG_CARRY) || truthy (Z.land rflag RFLAG_FLAG_ZERO)
  then - ERROR_INVALID else ERROR_OK.

(** Either the guest runs, or [vmlaunch] falls through to the end of the code. *)
Definition vmx_launch : M vmm unit := assert (vmlaunch_enters e).

Definition initialize_vmcs_host_state : M vmm unit :=
  let! v := get_vm in
  VMXWRITE HOST_CR0 (Z.lor (fst (RDMSR IA32_VMX_CR0_FIXED0_MSR)) (cr0 e)) ;;;
  VMXWRITE HOST_CR3 (cr3 e) ;;;
  VMXWRITE HOST_CR4 (Z.lor (fst (RDMSR IA32_VMX_CR4_FIXED0_MSR)) (cr4 e)) ;;;
  VMXWRITE HOST_ES_SELECTOR KERNEL_DATA_SELECTOR ;;;
  VMXWRITE HOST_CS_SELECTOR KERNEL_CODE_SELECTOR ;;;
  VMXWRITE HOST_SS_SELECTOR KERNEL_DATA_SELECTOR ;;;
  VMXWRITE HOST_DS_SELECTOR KERNEL_DATA_SELECTOR ;;;
  VMXWRITE HOST_FS_SELECTOR KERNEL_DATA_SELECTOR ;;;
  VMXWRITE HOST_GS_SELECTOR KERNEL_DATA_SELECTOR ;;;
  VMXWRITE HOST_TR_SELECTOR TSS0_SELECTOR ;;;
  VMXWRITE HOST_IA32_SYSENTER_CS 0 ;;;
  VMXWRITE HOST_IA32_SYSENTER_ESP 0 ;;;
  VMXWRITE HOST_IA32_SYSENTER_EIP 0 ;;;
  VMXWRITE HOST_IDTR_BASE (idtr_base e) ;;;
  VMXWRITE HOST_GDTR_BASE (gdtr_base e) ;;;
  VMXWRITE HOST_FS_BASE get_fs_base ;;;
  VMXWRITE HOST_GS_BASE get_gs_base ;;;
  VMXWRITE HOST_TR_BASE (tss_base e) ;;;
  VMXWRITE HOST_RSP (host_stack v) ;;;
  VMXWRITE HOST_RIP (vm_exit_handler e) ;;;
  VMXWRITE HOST_IA32_EFER get_efer.

Definition DATA_ACCESS_RIGHT : Z := Z.lor (Z.lor 0x3 (Z.shiftl 1 4)) (Z.shiftl 1 7).
Definition CODE_ACCESS_RIGHT : Z := Z.lor (Z.lor (Z.lor 0x3 (Z.shiftl 1 4)) (Z.shiftl 1 7)) (Z.shiftl 1 13).
Definition LDTR_ACCESS_RIGHT : Z := Z.lor 0x2 (Z.shiftl 1 7).
Definition TR_ACCESS_RIGHT : Z := Z.lor 0x3 (Z.shiftl 1 7).
Definition RFLAG_RESERVED : Z := Z.shiftl 1 1.

(** [RDMSR] into [uint64_t] variables: the instruction's macro stores 32 bits. *)
Definition store_low (old low : Z) : Z := Z.lor (Z.shiftl (Z.shiftr (u64 old) 32) 32) (u32 low).

Definition initialize_vmcs_guest_state : M vmm unit :=
  let! eax := gets uninitialised in
  let! edx := gets uninitialised in
  VMXWRITE GUEST_ES_SELECTOR 0x0 ;;;
  VMXWRITE GUEST_CS_SELECTOR 0x100 ;;;
  VMXWRITE GUEST_DS_SELECTOR 0x0 ;;;
  VMXWRITE GUEST_FS_SELECTOR 0x0 ;;;
  VMXWRITE GUEST_GS_SELECTOR 0x0 ;;;
  VMXWRITE GUEST_SS_SELECTOR 0x0 ;;;
  VMXWRITE GUEST_TR_SELECTOR 0x0 ;;;
  VMXWRITE GUEST_LDTR_SELECTOR 0x0 ;;;
  VMXWRITE GUEST_CS_BASE 0x0 ;;;
  VMXWRITE GUEST_DS_BASE 0x0 ;;;
  VMXWRITE GUEST_ES_BASE 0x0 ;;;
  VMXWRITE GUEST_FS_BASE 0x0 ;;;
  VMXWRITE GUEST_GS_BASE 0x0 ;;;
  VMXWRITE GUEST_SS_BASE 0x0 ;;;
  VMXWRITE GUEST_LDTR_BASE 0x0 ;;;
  VMXWRITE GUEST_IDTR_BASE 0x0 ;;;
  VMXWRITE GUEST_GDTR_BASE 0x0 ;;;
  VMXWRITE GUEST_TR_BASE 0x0 ;;;
  VMXWRITE GUEST_CS_LIMIT 0xffff ;;;
  VMXWRITE GUEST_DS_LIMIT 0xffff ;;;
  VMXWRITE GUEST_ES_LIMIT 0xffff ;;;
  VMXWRITE GUEST_FS_LIMIT 0xffff ;;;
  VMXWRITE GUEST_GS_LIMIT 0xffff ;;;
  VMXWRITE GUEST_SS_LIMIT 0xffff ;;;
  VMXWRITE GUEST_LDTR_LIMIT 0xffff ;;;
  VMXWRITE GUEST_TR_LIMIT 0xffff ;;;
  VMXWRITE GUEST_GDTR_LIMIT 0xffff ;;;
  VMXWRITE GUEST_IDTR_LIMIT 0xffff ;;;
  VMXWRITE GUEST_CS_ACCESS_RIGHT CODE_ACCESS_RIGHT ;;;
  VMXWRITE GUEST_DS_ACCESS_RIGHT DATA_ACCESS_RIGHT ;;;
  VMXWRITE GUEST_ES_ACCESS_RIGHT DATA_ACCESS_RIGHT ;;;
  VMXWRITE GUEST_FS_ACCESS_RIGHT DATA_ACCESS_RIGHT ;;;
  VMXWRITE GUEST_GS_ACCESS_RIGHT DATA_ACCESS_RIGHT ;;;
  VMXWRITE GUEST_SS_ACCESS_RIGHT DATA_ACCESS_RIGHT ;;;
  VMXWRITE GUEST_LDTR_ACCESS_RIGHT LDTR_ACCESS_RIGHT ;;;
  VMXWRITE GUEST_TR_ACCESS_RIGHT TR_ACCESS_RIGHT ;;;
  VMXWRITE GUEST_INTERRUPTIBILITY_STATE 0x0 ;;;
  VMXWRITE GUEST_ACTIVITY_STATE 0x0 ;;;
  let eax := store_low eax (fst (RDMSR IA32_VMX_CR0_FIXED0_MSR)) in
  let edx := store_low edx (snd (RDMSR IA32_VMX_CR0_FIXED0_MSR)) in
  let eax := Z.land eax (u64 (Z.lnot (Z.shiftl 1 0))) in
  let eax := Z.land eax (u64 (Z.lnot (s32 (Z.shiftl 1 31)))) in
  VMXWRITE GUEST_CR0 (Z.lor eax (u64 (Z.shiftl edx 32))) ;;;
  VMXWRITE GUEST_CR3 0x0 ;;;
  let eax := store_low eax (fst (RDMSR IA32_VMX_CR4_FIXED0_MSR)) in
  let edx := store_low edx (snd (RDMSR IA32_VMX_CR4_FIXED0_MSR)) in
  VMXWRITE GUEST_CR4 (Z.lor eax (u64 (Z.shiftl edx 32))) ;;;
  VMXWRITE GUEST_DR7 0x0 ;;;
  VMXWRITE GUEST_RSP 0x0 ;;;
  VMXWRITE GUEST_RIP 0x0 ;;;
  VMXWRITE GUEST_RFLAG RFLAG_RESERVED ;;;
  VMXWRITE GUEST_VMCS_LINK_POINTER_LOW 0xffffffff ;;;
  VMXWRITE GUEST_VMCS_LINK_POINTER_HIGH 0xffffffff ;;;
  VMXWRITE GUEST_IA32_EFER 0x0.

(** A control word adjusted to what the processor allows, checked and written. *)
Definition adjusted (wanted msr : Z) : Z :=
  fix_reserved_0_bits (fix_reserved_1_bits wanted (fst (RDMSR msr))) (snd (RDMSR msr)).
Definition write_control (encoding wanted msr : Z) : M vmm unit :=
  let ctls := adjusted wanted msr in
  assert (validate_vmx_capability ctls (fst (RDMSR msr)) (snd (RDMSR msr)) =? ERROR_OK) ;;;
  VMXWRITE encoding ctls.

Definition initialize_vmcs_pinbased_control : M vmm unit :=
  write_control CTLS_PIN_BASED_VM_EXECUTION 1 IA32_VMX_PINBASED_CTLS_MSR.

(** Bits or-ed one by one into a 32-bit word. *)
Definition bits (l : list Z) : Z := foldl (fun w n => Z.lor w (u32 (Z.shiftl 1 n))) 0 l.
Definition pri_procbase_ctls : Z := bits [2; 7; 9; 12; 15; 16; 24; 30; 31].
Definition sec_procbase_ctls : Z := bits [1; 5; 7].

Definition initialize_vmcs_procbased_control : M vmm unit :=
  let! v := get_vm in
  assert (truthy (Z.land (fst (RDMSR IA32_VMX_EPT_VPID_CAP_MSR)) 0x1)) ;;;
  write_control CTLS_PRI_PROC_BASED_VM_EXECUTION pri_procbase_ctls IA32_VMX_PRI_PROCBASED_CTLS_MSR ;;;
  write_control CTLS_SEC_PROC_BASED_VM_EXECUTION sec_procbase_ctls IA32_VMX_SEC_PROCBASED_CTLS_MSR ;;;
  VMXWRITE CTLS_EXCEPTION_BITMAP 0 ;;;
  VMXWRITE CTLS_IO_BITMAP_A (io_bitmap_region0 (regions v)) ;;;
  VMXWRITE CTLS_IO_BITMAP_B (io_bitmap_region1 (regions v)) ;;;
  VMXWRITE CTLS_CR3_TARGET_COUNT 0x0.

(** ** The I/O bitmaps *)
Definition IOPORT_TO_REGION (v : vmcs_blob) (port : Z) : Z :=
  if (0 <=? port) && (port <=? 0x7fff) then io_bitmap_region0 (regions v) else io_bitmap_region1 (regions v).
Definition io_port_offset (port : Z) : Z := u16 (if 0x8000 <=? port then port - 0x8000 else port).
Definition IOPORT_IS_SET (v : vmcs_blob) (m : memory) (port : Z) : bool :=
  let p := io_port_offset port in
  truthy (Z.land (rd8 m (IOPORT_TO_REGION v port + Z.shiftr p 3)) (Z.shiftl 1 (Z.land p 0x7))).
Definition SET_IOPORT (v : vmcs_blob) (m : memory) (port : Z) : memory :=
  let p := io_port_offset port in
  let byte := IOPORT_TO_REGION v port + Z.shiftr p 3 in
  wr8 m byte (Z.lor (rd8 m byte) (Z.shiftl 1 (Z.land p 0x7))).

Definition set_mem (f : memory -> memory) : M vmm unit :=
  modify (fun s => s <| kern ::= fun k => k <| k_mem ::= f |> |>).
Definition enable_port (v : vmcs_blob) (port : Z) : M vmm unit :=
  set_mem (fun m => SET_IOPORT v m port) ;;;
  let! b := gets (fun s => IOPORT_IS_SET v (k_mem (kern s)) port) in
  assert b.

Definition monitored_ports : list Z := [0x3f8; 0x3f9; 0x3fa; 0x3fb; 0x3fc; 0x3fd; 0x60; 0x64].
Definition initialize_vmcs_io_bitmap : M vmm unit :=
  let! v := get_vm in
  miter (enable_port v) monitored_ports.

Definition initialize_vmcs_execution_control : M vmm unit :=
  initialize_vmcs_pinbased_control ;;;
  initialize_vmcs_io_bitmap ;;;
  initialize_vmcs_procbased_control.

(** ** MSRs switched on exit and entry *)
(** [struct vmcs_msr_blob] at [p]. *)
Definition MSR_BLOB_SIZE : Z := 16.
Definition store_msr_blob (p msr : Z) : M vmm unit :=
  set_mem (fun m => store32 m p msr) ;;;
  set_mem (fun m => store32 m (p + 4) 0) ;;;
  set_mem (fun m => store32 m (p + 8) (fst (RDMSR msr))) ;;;
  set_mem (fun m => store32 m (p + 12) (snd (RDMSR msr))).
Fixpoint msr_loop (msrs : list Z) (index : Z) (r : vmcs_region) : M vmm unit :=
  match msrs with
  | [] => ret tt
  | msr :: msrs =>
      store_msr_blob (vm_exit_store_msr_region r + index * MSR_BLOB_SIZE) msr ;;;
      store_msr_blob (vm_exit_load_msr_region r + index * MSR_BLOB_SIZE) msr ;;;
      msr_loop msrs (index + 1) r
  end.
(** [uint32_t predefined_msrs[0]]: no MSR is switched. *)
Definition predefined_msrs : list Z := [].

Definition initialize_vmcs_vm_exit_msr : M vmm unit :=
  let! v := get_vm in
  memset_page (vm_exit_store_msr_region (regions v)) ;;;
  memset_page (vm_exit_load_msr_region (regions v)) ;;;
  let nr_msrs := Z.of_nat (length predefined_msrs) in
  set_regions (fun r => r <| vm_exit_load_msr_count := nr_msrs |>) ;;;
  set_regions (fun r => r <| vm_exit_store_msr_count := nr_msrs |>) ;;;
  let! v := get_vm in
  msr_loop predefined_msrs 0 (regions v) ;;;
  VMXWRITE CTLS_VM_EXIT_MSR_STORE_COUNT (vm_exit_store_msr_count (regions v)) ;;;
  VMXWRITE CTLS_VM_EXIT_MSR_LOAD_COUNT (vm_exit_load_msr_count (regions v)) ;;;
  VMXWRITE CTLS_VM_EXIT_MSR_LOAD (vm_exit_load_msr_region (regions v)) ;;;
  VMXWRITE CTLS_VM_EXIT_MSR_STORE (vm_exit_store_msr_region (regions v)).

Definition vm_exit_ctls : Z := bits [9; 15; 21].
Definition initialize_vmcs_vm_exit_control : M vmm unit :=
  write_control CTLS_VM_EXIT vm_exit_ctls IA32_VMX_VM_EXIT_CTLS_MSR ;;;
  initialize_vmcs_vm_exit_msr.

Definition initialize_vmcs_vm_entry_msr : M vmm unit :=
  let! v := get_vm in
  VMXWRITE CTLS_VM_ENTRY_MSR_LOAD_COUNT (vm_exit_store_msr_count (regions v)) ;;;
  VMXWRITE CTLS_VM_ENTRY_MSR_LOAD (vm_exit_store_msr_region (regions v)).

Definition vm_entry_ctls : Z := bits [15].
Definition initialize_vmcs_vm_entry_control : M vmm unit :=
  write_control CTLS_VM_ENTRY vm_entry_ctls IA32_VMX_VM_ENTRY_CTLS_MSR ;;;
  initialize_vmcs_vm_entry_msr ;;;
  VMXWRITE CTLS_VM_ENTRY_INTERRUPT_INFORMATION_FIELD 0x0.

(** ** Guest memory *)
Definition eptp_of (base : Z) : Z :=
  Z.lor (Z.lor (Z.lor base 6) (Z.shiftl (4 - 1) 3)) (Z.shiftl 1 6).
Definition initialize_vmcs_ept : M vmm unit :=
  let! base := in_kernel (setup_basic_physical_memory 0 (16 * 1024 * 1024)) in
  set_regions (fun r => r <| ept_pml4_base := base |>) ;;;
  VMXWRITE CTLS_EPTP (eptp_of base) ;;;
  let! v := get_vm in
  assert (truthy (vpid v)) ;;;
  VMXWRITE CTLS_VPID (vpid v).

Definition initialize_vmcs_ealy_state : M vmm unit :=
  assert (Z.land (Z.shiftr (snd (RDMSR IA32_VMX_BASIC_MSR)) (50 - 32)) 0xf =? 0x6).

Fixpoint image_loop (fuel : nat) (ept_base img_addr image_end guest_addr : Z) : M vmm unit :=
  match fuel with
  | O => stop OutOfFuel
  | S k =>
      if img_addr <? image_end then
        let! host_pa := gets (fun s => guestpa_to_hostpa (kern s) ept_base guest_addr) in
        let! q := gets (fun s => pa (kern s) host_pa) in
        assert (q =? host_pa) ;;;
        set_mem (fun m => memcpy m host_pa img_addr PAGE_SIZE_4K) ;;;
        image_loop k ept_base (u64 (img_addr + PAGE_SIZE_4K)) image_end (u64 (guest_addr + PAGE_SIZE_4K))
      else ret tt
  end.
(** The number of pages the image touches, and the final test. *)
Definition image_fuel : nat := S (Z.to_nat ((_guest64_end e - _guest64_start e + PAGE_SIZE_4K - 1) / PAGE_SIZE_4K)).
Definition initialize_vmcs_guest_image : M vmm unit :=
  let! v := get_vm in
  image_loop image_fuel (ept_pml4_base (regions v)) (_guest64_start e) (_guest64_end e) PAGE_SIZE_4K.

Definition initialize_vmcs_device : M vmm unit := Video.device_video_init.
Definition set_current_vm : M vmm unit := modify (fun s => s <| current_vm := true |>).

Definition initialize_vmcs : M vmm Z :=
  let! v := get_vm in
  let! revision := get_vmx_revision_id in
  set_mem (fun m => store32 m (guest_region (regions v)) revision) ;;;
  assert (vmx_load (guest_region (regions v)) =? ERROR_OK) ;;;
  initialize_vmcs_ealy_state ;;;
  initialize_vmcs_host_state ;;;
  initialize_vmcs_guest_state ;;;
  initialize_vmcs_execution_control ;;;
  initialize_vmcs_vm_exit_control ;;;
  initialize_vmcs_vm_entry_control ;;;
  initialize_vmcs_ept ;;;
  initialize_vmcs_guest_image ;;;
  initialize_vmcs_device ;;;
  set_current_vm ;;;
  vmx_launch ;;;
  ret ERROR_OK.

(** [init3] of [init/kernel_main.c], after [vm_monitor_init]. *)
Definition start_vm : M vmm Z :=
  let! _rc := pre_initialize_vmcs in
  set_vm (fun v => v <| vpid := 1 |>) ;;;
  initialize_vmcs.
End Bring_up.

(** * Control words in closed form *)

Lemma bit_mask_pow idx : 0 <= idx < 32 -> bit_mask idx = 2 ^ idx.
Proof.
  intros Hi. unfold bit_mask. rewrite Z.shiftl_1_l. apply wrap_small. split; [lia|].
  apply Z.pow_lt_mono_r; lia.
Qed.

Lemma land_bit_mask w idx : 0 <= idx < 32 -> truthy (Z.land w (bit_mask idx)) = Z.testbit w idx.
Proof. intros Hi. rewrite bit_mask_pow, <- Z.shiftl_1_l by done. apply truthy_bit. lia. Qed.

Lemma fix_1_bits n : forall idx t a, 0 <= idx -> idx + Z.of_nat n <= 32 -> forall j, 0 <= j ->
  Z.testbit (fix_1_loop n idx t a) j =
    Z.testbit t j || ((idx <=? j) && (j <? idx + Z.of_nat n) && Z.testbit a j).
Proof.
  induction n as [|n IH]; intros idx t a Hi Hn j Hj; cbn [fix_1_loop]; cbv zeta.
  - replace ((idx <=? j) && (j <? idx + Z.of_nat 0)) with false; [by rewrite orb_false_r|].
    symmetry. apply andb_false_iff. destruct (Z.leb_spec idx j); [right|by left]. apply Z.ltb_ge. lia.
  - rewrite !land_bit_mask, IH by lia.
    assert (E : Z.testbit (if Z.testbit a idx && negb (Z.testbit t idx) then Z.lor t (bit_mask idx) else t) j =
                Z.testbit t j || ((idx =? j) && Z.testbit a j)).
    { rewrite bit_mask_pow by lia. destruct (Z.eqb_spec idx j) as [->|Hne].
      - destruct (Z.testbit a j) eqn:Ea, (Z.testbit t j) eqn:Et; cbn [andb orb negb]; rewrite ?Z.lor_spec, ?Et; try done.
        rewrite Z.pow2_bits_true by lia. done.
      - cbn [andb]. rewrite orb_false_r. destruct (_ && _); [|done].
        rewrite Z.lor_spec, Z.pow2_bits_false by done. apply orb_false_r. }
    rewrite E, <- orb_assoc. f_equal. rewrite <- andb_orb_distrib_l. f_equal.
    destruct (Z.eqb_spec idx j), (Z.leb_spec (idx + 1) j), (Z.leb_spec idx j), (Z.ltb_spec j (idx + 1 + Z.of_nat n)),
      (Z.ltb_spec j (idx + Z.of_nat (S n))); try reflexivity; lia.
Qed.

Lemma fix_0_bits n : forall idx t a, 0 <= idx -> idx + Z.of_nat n <= 32 -> 0 <= t < 2 ^ 32 -> forall j, 0 <= j ->
  Z.testbit (fix_0_loop n idx t a) j =
    Z.testbit t j && (negb ((idx <=? j) && (j <? idx + Z.of_nat n)) || Z.testbit a j).
Proof.
  induction n as [|n IH]; intros idx t a Hi Hn Ht j Hj; cbn [fix_0_loop]; cbv zeta.
  - replace ((idx <=? j) && (j <? idx + Z.of_nat 0)) with false; [by rewrite andb_true_r|].
    symmetry. apply andb_false_iff. destruct (Z.leb_spec idx j); [right|by left]. apply Z.ltb_ge. lia.
  - rewrite !land_bit_mask by lia.
    set (t' := if negb (Z.testbit a idx) && Z.testbit t idx then Z.land t (u32 (Z.lnot (bit_mask idx))) else t).
    assert (E : forall j, 0 <= j -> Z.testbit t' j = Z.testbit t j && (negb (idx =? j) || Z.testbit a j)).
    { clear j Hj. intros j Hj. unfold t'. rewrite bit_mask_pow by lia. destruct (Z.eqb_spec idx j) as [->|Hne].
      - cbn [negb orb]. destruct (Z.testbit a j) eqn:Ea, (Z.testbit t j) eqn:Et; cbn [andb negb]; rewrite ?Et; try done.
        rewrite Z.land_spec. unfold u32, wrap. rewrite Z.mod_pow2_bits_low, Z.lnot_spec, Z.pow2_bits_true by lia.
        apply andb_false_r.
      - cbn [negb orb]. rewrite andb_true_r. destruct (_ && _); [|done]. rewrite Z.land_spec.
        destruct (Z.lt_ge_cases j 32) as [Hlt|Hge].
        + unfold u32, wrap. rewrite Z.mod_pow2_bits_low, Z.lnot_spec, Z.pow2_bits_false by lia. apply andb_true_r.
        + by rewrite (testbit_high t 32) by lia. }
    assert (Ht' : 0 <= t' < 2 ^ 32).
    { unfold t'. destruct (_ && _); [|done]. pose proof (wrap_range 32 (Z.lnot (bit_mask idx)) ltac:(lia)).
      apply land_lt_pow2; unfold u32; lia. }
    rewrite IH, E, <- andb_assoc by lia. f_equal. rewrite <- orb_andb_distrib_l. f_equal.
    destruct (Z.eqb_spec idx j), (Z.leb_spec (idx + 1) j), (Z.leb_spec idx j), (Z.ltb_spec j (idx + 1 + Z.of_nat n)),
      (Z.ltb_spec j (idx + Z.of_nat (S n))); try reflexivity; lia.
Qed.

Lemma fix_reserved_1_closed t a : 0 <= t < 2 ^ 32 -> 0 <= a < 2 ^ 32 -> fix_reserved_1_bits t a = Z.lor t a.
Proof.
  intros Ht Ha. apply Z.bits_inj'. intros j Hj. unfold fix_reserved_1_bits.
  rewrite fix_1_bits, Z.lor_spec by lia. f_equal.
  destruct (Z.leb_spec 0 j), (Z.ltb_spec j (0 + Z.of_nat 32)); try lia; [reflexivity|].
  by rewrite (testbit_high a 32) by lia.
Qed.

Lemma fix_reserved_0_closed t a : 0 <= t < 2 ^ 32 -> 0 <= a < 2 ^ 32 -> fix_reserved_0_bits t a = Z.land t a.
Proof.
  intros Ht Ha. apply Z.bits_inj'. intros j Hj. unfold fix_reserved_0_bits.
  rewrite fix_0_bits, Z.land_spec by lia.
  destruct (Z.leb_spec 0 j), (Z.ltb_spec j (0 + Z.of_nat 32)); try lia; [reflexivity|].
  by rewrite (testbit_high t 32) by lia.
Qed.

(** Bits [idx .. idx + n - 1] of the word obey the allowed settings. *)
Definition allowed (n : nat) (idx target allowed0 allowed1 : Z) : Prop :=
  forall j, idx <= j < idx + Z.of_nat n ->
    (Z.testbit allowed0 j = true -> Z.testbit target j = true) /\
    (Z.testbit target j = true -> Z.testbit allowed1 j = true).

Lemma validate_loop_spec n : forall idx t a0 a1, 0 <= idx -> idx + Z.of_nat n <= 32 ->
  (validate_loop n idx t a0 a1 = ERROR_OK /\ allowed n idx t a0 a1) \/
  (validate_loop n idx t a0 a1 = - ERROR_INVALID /\ ~ allowed n idx t a0 a1).
Proof.
  induction n as [|n IH]; intros idx t a0 a1 Hi Hn; cbn [validate_loop]; cbv zeta.
  { left. split; [done|]. intros j Hj. lia. }
  rewrite !land_bit_mask by lia.
  destruct (Z.testbit a0 idx && negb (Z.testbit t idx) || negb (Z.testbit a1 idx) && Z.testbit t idx) eqn:E.
  - right. split; [done|]. intros H. destruct (H idx ltac:(lia)) as [H1 H2].
    destruct (Z.testbit a0 idx), (Z.testbit t idx), (Z.testbit a1 idx); try discriminate E; naive_solver.
  - assert (Hidx : (Z.testbit a0 idx = true -> Z.testbit t idx = true) /\
                   (Z.testbit t idx = true -> Z.testbit a1 idx = true)).
    { destruct (Z.testbit a0 idx), (Z.testbit t idx), (Z.testbit a1 idx); try discriminate E; done. }
    destruct (IH (idx + 1) t a0 a1 ltac:(lia) ltac:(lia)) as [[-> H]|[-> H]].
    + left. split; [done|]. intros j Hj. destruct (Z.eq_dec j idx) as [->|Hne]; [done|]. apply H. lia.
    + right. split; [done|]. intros H'. apply H. intros j Hj. apply H'. lia.
Qed.

Section Adjust.
Context (wanted allowed0 allowed1 : Z).
Hypotheses (Hw : 0 <= wanted < 2 ^ 32) (H0 : 0 <= allowed0 < 2 ^ 32) (H1 : 0 <= allowed1 < 2 ^ 32).

Lemma adjust_closed :
  fix_reserved_0_bits (fix_reserved_1_bits wanted allowed0) allowed1 = Z.land (Z.lor wanted allowed0) allowed1.
Proof using Hw H0 H1.
  rewrite fix_reserved_1_closed, fix_reserved_0_closed; [done|by apply lor_range|done..].
Qed.

Lemma allowed_adjusted :
  allowed 32 0 (Z.land (Z.lor wanted allowed0) allowed1) allowed0 allowed1 <-> Z.land allowed0 allowed1 = allowed0.
Proof using H0.
  split.
  - intros H. apply Z.bits_inj'. intros j Hj. rewrite Z.land_spec.
    destruct (Z.lt_ge_cases j 32) as [Hlt|Hge]; [|by rewrite (testbit_high allowed0 32) by lia].
    destruct (H j ltac:(lia)) as [Ha Hb]. destruct (Z.testbit allowed0 j); [|done]. by rewrite Hb by (by apply Ha).
  - intros H j Hj. rewrite Z.land_spec, Z.lor_spec.
    apply (f_equal (fun z => Z.testbit z j)) in H. rewrite Z.land_spec in H.
    destruct (Z.testbit wanted j), (Z.testbit allowed0 j), (Z.testbit allowed1 j); done.
Qed.

Lemma validate_adjusted :
  validate_vmx_capability (fix_reserved_0_bits (fix_reserved_1_bits wanted allowed0) allowed1) allowed0 allowed1 =
    if Z.land allowed0 allowed1 =? allowed0 then ERROR_OK else - ERROR_INVALID.
Proof using Hw H0 H1.
  rewrite adjust_closed. unfold validate_vmx_capability.
  destruct (validate_loop_spec 32 0 (Z.land (Z.lor wanted allowed0) allowed1) allowed0 allowed1
    ltac:(lia) ltac:(lia)) as [[-> H]|[-> H]]; rewrite allowed_adjusted in H;
    [by rewrite (proj2 (Z.eqb_eq _ _) H)|by rewrite (proj2 (Z.eqb_neq _ _) H)].
Qed.
End Adjust.

(** C19 Control words: making the processor's must-be-one bits one and then its
    must-be-zero bits zero computes [(wanted | allowed0) & allowed1], so a bit is set
    exactly when it is wanted or required, and supported (a wanted bit the processor
    lacks is dropped); the check that follows accepts the word exactly when no bit is
    both required and unsupported. *)
Theorem controls_adjusted (wanted allowed0 allowed1 : Z) :
  0 <= wanted < 2 ^ 32 -> 0 <= allowed0 < 2 ^ 32 -> 0 <= allowed1 < 2 ^ 32 ->
  let ctls := fix_reserved_0_bits (fix_reserved_1_bits wanted allowed0) allowed1 in
  ctls = Z.land (Z.lor wanted allowed0) allowed1 /\
  validate_vmx_capability ctls allowed0 allowed1 =
    if Z.land allowed0 allowed1 =? allowed0 then ERROR_OK else - ERROR_INVALID.
Proof. intros Hw H0 H1. split; [by apply adjust_closed|by apply validate_adjusted]. Qed.

Lemma controls_adjusted_witness :
  fix_reserved_0_bits (fix_reserved_1_bits 0x8201 0x16) 0xff = 0x17 /\
  validate_vmx_capability 0x17 0x16 0xff = ERROR_OK.
Proof.
  destruct (controls_adjusted 0x8201 0x16 0xff ltac:(lia) ltac:(lia) ltac:(lia)) as [H1 H2]. cbv zeta in H2.
  rewrite H1 in H2. split; [exact H1|exact H2].
Defined.

(** * The VMCS in order *)

(** The value a field can hold, and the fields that can be written. *)
Definition field_size (encoding : Z) : Z := if field_high encoding then 32 else field_width encoding.
Definition field_ok (p : Z * Z) : Prop := field_readonly p.1 = false /\ 0 <= p.2 < 2 ^ field_size p.1.

Definition written (c : vmcs) (l : list (Z * Z)) : vmcs := foldl (fun c p => vmwrite c p.1 p.2) c l.
Definition put_fields (l : list (Z * Z)) (s : vmm) : vmm := s <| cur ::= fun c => written c l |>.

Lemma field_width_cases f : field_width f = 16 \/ field_width f = 32 \/ field_width f = 64.
Proof. unfold field_width. repeat case_match; lia. Qed.

Lemma vmread_written c f v : field_ok (f, v) -> vmread (vmwrite c f v) f = v.
Proof.
  intros [_ Hv]. unfold field_size in Hv. cbn [fst snd] in Hv. unfold vmread, vmwrite.
  rewrite lookup_insert_eq. change (default 0 (Some ?x)) with x. generalize (default 0 (c !! field_base f)). intros w.
  cbv zeta. destruct (field_high f).
  - rewrite Z.shiftr_lor, Z.shiftr_shiftl_l by lia.
    rewrite (Z.shiftr_div_pow2 (wrap 32 w)), Z.div_small by (try apply wrap_range; lia).
    rewrite Z.lor_0_l, Z.shiftl_0_r, wrap_wrap by lia. by apply wrap_small.
  - rewrite wrap_wrap by (destruct (field_width_cases f) as [->|[->| ->]]; lia). by apply wrap_small.
Qed.

Lemma VMXWRITE_run {B} f v (k : unit -> M vmm B) s : field_ok (f, v) ->
  bind (VMXWRITE f v) k s = k tt (put_fields [(f, v)] s).
Proof.
  intros Hok. pose proof (vmread_written (cur s) f v Hok) as Hv. destruct Hok as [Hr _]. cbn [fst] in Hr.
  assert (Hs : put_fields [(f, v)] s = s <| cur ::= fun c => vmwrite c f v |>) by (by destruct s).
  rewrite Hs. unfold VMXWRITE. rewrite bind_assoc, (bind_run _ _ _ _ _ (vmx_write_run f v s Hr)). cbv beta.
  rewrite bind_assoc, assert_run by reflexivity. unfold vmx_read. rewrite bind_assoc, bind_gets.
  change (cur (s <| cur ::= fun c => vmwrite c f v |>)) with (vmwrite (cur s) f v).
  rewrite Hv, Z.eqb_refl. cbn [assert]. by rewrite bind_ret.
Qed.

(** A sequence of writes, the last one in tail position. *)
Fixpoint write_all (l : list (Z * Z)) : M vmm unit :=
  match l with
  | [] => ret tt
  | [p] => VMXWRITE p.1 p.2
  | p :: l => VMXWRITE p.1 p.2 ;;; write_all l
  end.

Lemma put_fields_app l l' s : put_fields l' (put_fields l s) = put_fields (l ++ l') s.
Proof. unfold put_fields, written. destruct s. cbv [update]. cbn. by rewrite foldl_app. Qed.
Lemma put_fields_nil s : put_fields [] s = s.
Proof. by destruct s. Qed.

Lemma write_all_run l s : Forall field_ok l -> write_all l s = Ret (tt, put_fields l s).
Proof.
  intros Hl. revert s. induction Hl as [|[f v] l Hok Hl IH]; intros s; cbn [write_all].
  { by rewrite put_fields_nil. }
  destruct l as [|p l].
  - change (VMXWRITE f v s = Ret (tt, put_fields [(f, v)] s)). rewrite <- (bind_unit (VMXWRITE f v) s). by rewrite (VMXWRITE_run f v) by done.
  - change ((VMXWRITE f v ;;; write_all (p :: l)) s = Ret (tt, put_fields ((f, v) :: p :: l) s)).
    rewrite (VMXWRITE_run f v), IH by done. by rewrite put_fields_app.
Qed.

(** Reading back: a field written once among fields of other bases. *)
Lemma vmread_written_other c l f : Forall (fun p => field_base p.1 <> field_base f) l ->
  vmread (written c l) f = vmread c f.
Proof.
  revert c. induction l as [|p l IH]; intros c H; [done|]. apply Forall_cons in H as [Hp Hl].
  cbn [written foldl]. change (vmread (written (vmwrite c p.1 p.2) l) f = vmread c f).
  rewrite IH by done. by apply vmread_other.
Qed.

Lemma vmread_written_once c l1 l2 f v : field_ok (f, v) -> Forall (fun p => field_base p.1 <> field_base f) l2 ->
  vmread (written c (l1 ++ (f, v) :: l2)) f = v.
Proof.
  intros Hok H2. unfold written. rewrite foldl_app. cbn [foldl fst snd].
  change (vmread (written (vmwrite (written c l1) f v) l2) f = v).
  rewrite vmread_written_other by done. by apply vmread_written.
Qed.

Lemma vmread_all c l : Forall field_ok l -> NoDup (field_base ∘ fst <$> l) ->
  Forall (fun p => vmread (written c l) p.1 = p.2) l.
Proof.
  intros Hok Hnd. apply Forall_forall. intros [f v] Hin.
  apply list_elem_of_split in Hin as (l1 & l2 & ->).
  rewrite Forall_app, Forall_cons in Hok. apply vmread_written_once; [apply Hok|].
  rewrite fmap_app, fmap_cons, NoDup_app, NoDup_cons in Hnd. destruct Hnd as (_ & _ & Hnin & _).
  apply Forall_forall. intros p Hp E. apply Hnin.
  pose proof (list_elem_of_fmap_2 (field_base ∘ fst) l2 p Hp) as Hq. unfold compose in *. by rewrite E in Hq.
Qed.

(** * The fields as they are meant to be *)
Section Fields.
Context (e : host_env).

Definition in64 (v : Z) : Prop := 0 <= v < 2 ^ 64.
(** What the processor answers fits its registers. *)
Record env_ok : Prop := {
  eo_cr0 : in64 (cr0 e); eo_cr3 : in64 (cr3 e); eo_cr4 : in64 (cr4 e);
  eo_idtr : in64 (idtr_base e); eo_gdtr : in64 (gdtr_base e); eo_tss : in64 (tss_base e);
  eo_handler : in64 (vm_exit_handler e) }.

Definition lo32 (msr : Z) : Z := u32 (msr_eax e msr).
Definition hi32 (msr : Z) : Z := u32 (msr_edx e msr).
Definition whole (msr : Z) : Z := lo32 msr + 2 ^ 32 * hi32 msr.

Definition host_fields (v : vmcs_blob) : list (Z * Z) :=
  [ (HOST_CR0, Z.lor (lo32 IA32_VMX_CR0_FIXED0_MSR) (cr0 e)); (HOST_CR3, cr3 e);
    (HOST_CR4, Z.lor (lo32 IA32_VMX_CR4_FIXED0_MSR) (cr4 e));
    (HOST_ES_SELECTOR, KERNEL_DATA_SELECTOR); (HOST_CS_SELECTOR, KERNEL_CODE_SELECTOR);
    (HOST_SS_SELECTOR, KERNEL_DATA_SELECTOR); (HOST_DS_SELECTOR, KERNEL_DATA_SELECTOR);
    (HOST_FS_SELECTOR, KERNEL_DATA_SELECTOR); (HOST_GS_SELECTOR, KERNEL_DATA_SELECTOR);
    (HOST_TR_SELECTOR, TSS0_SELECTOR);
    (HOST_IA32_SYSENTER_CS, 0); (HOST_IA32_SYSENTER_ESP, 0); (HOST_IA32_SYSENTER_EIP, 0);
    (HOST_IDTR_BASE, idtr_base e); (HOST_GDTR_BASE, gdtr_base e);
    (HOST_FS_BASE, whole FSBASE_MSR); (HOST_GS_BASE, whole GSBASE_MSR); (HOST_TR_BASE, tss_base e);
    (HOST_RSP, host_stack v); (HOST_RIP, vm_exit_handler e); (HOST_IA32_EFER, whole IA32_EFER_MSR) ].

(** A guest in real mode at address 0: flat segments, paging and protection off. *)
Definition guest_segments : list (Z * Z) :=
  [ (GUEST_ES_SELECTOR, 0); (GUEST_CS_SELECTOR, 0x100); (GUEST_DS_SELECTOR, 0); (GUEST_FS_SELECTOR, 0);
    (GUEST_GS_SELECTOR, 0); (GUEST_SS_SELECTOR, 0); (GUEST_TR_SELECTOR, 0); (GUEST_LDTR_SELECTOR, 0);
    (GUEST_CS_BASE, 0); (GUEST_DS_BASE, 0); (GUEST_ES_BASE, 0); (GUEST_FS_BASE, 0); (GUEST_GS_BASE, 0);
    (GUEST_SS_BASE, 0); (GUEST_LDTR_BASE, 0); (GUEST_IDTR_BASE, 0); (GUEST_GDTR_BASE, 0); (GUEST_TR_BASE, 0);
    (GUEST_CS_LIMIT, 0xffff); (GUEST_DS_LIMIT, 0xffff); (GUEST_ES_LIMIT, 0xffff); (GUEST_FS_LIMIT, 0xffff);
    (GUEST_GS_LIMIT, 0xffff); (GUEST_SS_LIMIT, 0xffff); (GUEST_LDTR_LIMIT, 0xffff); (GUEST_TR_LIMIT, 0xffff);
    (GUEST_GDTR_LIMIT, 0xffff); (GUEST_IDTR_LIMIT, 0xffff);
    (GUEST_CS_ACCESS_RIGHT, 0x2093); (GUEST_DS_ACCESS_RIGHT, 0x93); (GUEST_ES_ACCESS_RIGHT, 0x93);
    (GUEST_FS_ACCESS_RIGHT, 0x93); (GUEST_GS_ACCESS_RIGHT, 0x93); (GUEST_SS_ACCESS_RIGHT, 0x93);
    (GUEST_LDTR_ACCESS_RIGHT, 0x82); (GUEST_TR_ACCESS_RIGHT, 0x83);
    (GUEST_INTERRUPTIBILITY_STATE, 0); (GUEST_ACTIVITY_STATE, 0) ].

(** The variables the MSRs are read into are 64 bits wide and only their low halves
    are assigned; the masks and the shift drop what the high halves held. *)
Definition guest_cr0 : Z := Z.land (lo32 IA32_VMX_CR0_FIXED0_MSR) 0x7ffffffe + 2 ^ 32 * hi32 IA32_VMX_CR0_FIXED0_MSR.
Definition guest_registers : list (Z * Z) :=
  [ (GUEST_CR0, guest_cr0); (GUEST_CR3, 0); (GUEST_CR4, whole IA32_VMX_CR4_FIXED0_MSR); (GUEST_DR7, 0);
    (GUEST_RSP, 0); (GUEST_RIP, 0); (GUEST_RFLAG, 2) ].
Definition link_pointer : list (Z * Z) :=
  [ (GUEST_VMCS_LINK_POINTER_LOW, 0xffffffff); (GUEST_VMCS_LINK_POINTER_HIGH, 0xffffffff) ].

(** Wanted or required, and supported. *)
Definition control (wanted msr : Z) : Z := Z.land (Z.lor wanted (lo32 msr)) (hi32 msr).
Definition processor_controls (v : vmcs_blob) : list (Z * Z) :=
  [ (CTLS_PRI_PROC_BASED_VM_EXECUTION, control pri_procbase_ctls IA32_VMX_PRI_PROCBASED_CTLS_MSR);
    (CTLS_SEC_PROC_BASED_VM_EXECUTION, control sec_procbase_ctls IA32_VMX_SEC_PROCBASED_CTLS_MSR);
    (CTLS_EXCEPTION_BITMAP, 0);
    (CTLS_IO_BITMAP_A, io_bitmap_region0 (regions v)); (CTLS_IO_BITMAP_B, io_bitmap_region1 (regions v));
    (CTLS_CR3_TARGET_COUNT, 0) ].

Lemma msr64_whole msr : msr64 e msr = whole msr.
Proof.
  unfold msr64, whole, RDMSR, lo32, hi32. cbn [fst snd].
  rewrite Z.lor_comm, lor_add_low by (try apply wrap_range; lia). lia.
Qed.

Lemma lo32_range msr : 0 <= lo32 msr < 2 ^ 32.
Proof. apply wrap_range. lia. Qed.
Lemma hi32_range msr : 0 <= hi32 msr < 2 ^ 32.
Proof. apply wrap_range. lia. Qed.
Lemma whole_range msr : in64 (whole msr).
Proof. pose proof (lo32_range msr). pose proof (hi32_range msr). unfold in64, whole. lia. Qed.
Lemma control_range wanted msr : 0 <= wanted < 2 ^ 32 -> 0 <= control wanted msr < 2 ^ 32.
Proof.
  intros Hw. apply land_lt_pow2; [lia| |apply hi32_range]. apply lor_range; [done|apply lo32_range].
Qed.

(** *** The commands write these fields *)
Lemma store_low_value old low : store_low old low = Z.lor (Z.shiftl (u64 old / 2 ^ 32) 32) (u32 low).
Proof. unfold store_low. by rewrite Z.shiftr_div_pow2 by lia. Qed.

Lemma masked_low old low : 0 <= low < 2 ^ 32 ->
  Z.land (Z.land (store_low old low) (u64 (Z.lnot (Z.shiftl 1 0)))) (u64 (Z.lnot (s32 (Z.shiftl 1 31)))) =
  Z.land low 0x7ffffffe.
Proof.
  intros Hl. rewrite <- Z.land_assoc, store_low_value.
  change (Z.land (u64 (Z.lnot (Z.shiftl 1 0))) (u64 (Z.lnot (s32 (Z.shiftl 1 31))))) with 0x7ffffffe.
  rewrite Z.land_lor_distr_l, (land_shiftl_low _ 0x7ffffffe 32) by lia. rewrite Z.lor_0_l.
  f_equal. by apply wrap_small.
Qed.

Lemma store_low_shifted old low : 0 <= low < 2 ^ 32 -> u64 (Z.shiftl (store_low old low) 32) = Z.shiftl low 32.
Proof.
  intros Hl. rewrite store_low_value, (lor_add_low _ (u32 low) 32) by (try apply wrap_range; lia).
  unfold u32. rewrite (wrap_small 32 low), !Z.shiftl_mul_pow2 by lia.
  unfold u64, wrap. rewrite Z.mul_add_distr_r, <- Z.mul_assoc, <- Z.pow_add_r, Z.add_comm by lia.
  change (32 + 32) with 64. rewrite Z_mod_plus_full. apply Z.mod_small. lia.
Qed.

Lemma small_u64_div x : 0 <= x < 2 ^ 32 -> u64 x / 2 ^ 32 = 0.
Proof. intros Hx. rewrite u64_small by lia. by apply Z.div_small. Qed.

Lemma cr0_written u : let m := IA32_VMX_CR0_FIXED0_MSR in
  Z.lor (Z.land (Z.land (store_low u (lo32 m)) (u64 (Z.lnot (Z.shiftl 1 0)))) (u64 (Z.lnot (s32 (Z.shiftl 1 31)))))
        (u64 (Z.shiftl (store_low u (hi32 m)) 32)) = guest_cr0.
Proof.
  intros m. rewrite masked_low, store_low_shifted by (apply lo32_range || apply hi32_range).
  pose proof (land_lt_pow2 (lo32 m) 0x7ffffffe 32 ltac:(lia) (lo32_range m) ltac:(lia)).
  rewrite Z.lor_comm, lor_add_low by lia. unfold guest_cr0, m. lia.
Qed.

Lemma cr4_written u v low : 0 <= low < 2 ^ 32 -> let m := IA32_VMX_CR4_FIXED0_MSR in
  Z.lor (store_low (Z.land low 0x7ffffffe) (lo32 m)) (u64 (Z.shiftl (store_low (store_low u v) (hi32 m)) 32)) =
  whole m.
Proof.
  intros Hl m. rewrite store_low_shifted by apply hi32_range. rewrite store_low_value, small_u64_div.
  - rewrite Z.shiftl_0_l, Z.lor_0_l. unfold u32. rewrite wrap_small by apply lo32_range.
    rewrite Z.lor_comm, lor_add_low by (try apply lo32_range; lia). unfold whole. lia.
  - apply land_lt_pow2; lia.
Qed.

(** Each field of a list fits. *)
Ltac fields_ok := repeat (apply Forall_cons_2; [split; [reflexivity|]; unfold in64 in *|]); try apply Forall_nil_2.

Lemma host_fields_ok v : env_ok -> in64 (host_stack v) -> Forall field_ok (host_fields v).
Proof.
  intros [] Hs. pose proof (whole_range FSBASE_MSR). pose proof (whole_range GSBASE_MSR).
  pose proof (whole_range IA32_EFER_MSR). unfold host_fields. fields_ok.
  all: match goal with |- _ <= _.2 < 2 ^ field_size ?f => let n := eval vm_compute in (field_size f) in
         change (field_size f) with n end; cbn [snd].
  all: try (unfold KERNEL_DATA_SELECTOR, KERNEL_CODE_SELECTOR, TSS0_SELECTOR; lia).
  all: apply lor_range; [pose proof (lo32_range IA32_VMX_CR0_FIXED0_MSR); pose proof (lo32_range IA32_VMX_CR4_FIXED0_MSR); lia|lia].
Qed.

Lemma host_state_run s : env_ok -> in64 (host_stack (vm s)) ->
  initialize_vmcs_host_state e s = Ret (tt, put_fields (host_fields (vm s)) s).
Proof.
  intros He Hs. rewrite <- (write_all_run (host_fields (vm s)) s) by (by apply host_fields_ok).
  unfold initialize_vmcs_host_state, get_fs_base, get_gs_base, get_efer, get_vm. rewrite bind_gets, !msr64_whole.
  reflexivity.
Qed.

Definition guest_fields : list (Z * Z) :=
  guest_segments ++ guest_registers ++ link_pointer ++ [(GUEST_IA32_EFER, 0)].

Lemma guest_fields_ok : Forall field_ok guest_fields.
Proof.
  assert (Hc0 : in64 guest_cr0).
  { pose proof (land_lt_pow2 (lo32 IA32_VMX_CR0_FIXED0_MSR) 0x7ffffffe 32 ltac:(lia) (lo32_range _) ltac:(lia)).
    pose proof (hi32_range IA32_VMX_CR0_FIXED0_MSR). unfold in64, guest_cr0. lia. }
  pose proof (whole_range IA32_VMX_CR4_FIXED0_MSR).
  unfold guest_fields, guest_segments, guest_registers, link_pointer. cbn [app]. fields_ok.
  all: match goal with |- _ <= _.2 < 2 ^ field_size ?f => let n := eval vm_compute in (field_size f) in
         change (field_size f) with n end; cbn [snd]; lia.
Qed.

Lemma guest_state_run s : initialize_vmcs_guest_state e s = Ret (tt, put_fields guest_fields s).
Proof.
  rewrite <- (write_all_run guest_fields s) by exact guest_fields_ok.
  unfold initialize_vmcs_guest_state. rewrite !bind_gets. cbv zeta. cbn [fst snd RDMSR].
  set (u := uninitialised s).
  change (u32 (msr_eax e IA32_VMX_CR0_FIXED0_MSR)) with (lo32 IA32_VMX_CR0_FIXED0_MSR).
  change (u32 (msr_edx e IA32_VMX_CR0_FIXED0_MSR)) with (hi32 IA32_VMX_CR0_FIXED0_MSR).
  change (u32 (msr_eax e IA32_VMX_CR4_FIXED0_MSR)) with (lo32 IA32_VMX_CR4_FIXED0_MSR).
  change (u32 (msr_edx e IA32_VMX_CR4_FIXED0_MSR)) with (hi32 IA32_VMX_CR4_FIXED0_MSR).
  rewrite cr0_written, masked_low, cr4_written by apply lo32_range. reflexivity.
Qed.

(** Control words. *)
Definition controls_ok (msr : Z) : Prop := Z.land (lo32 msr) (hi32 msr) = lo32 msr.

Lemma write_control_run {B} f wanted msr (k : unit -> M vmm B) s : controls_ok msr -> 0 <= wanted < 2 ^ 32 ->
  field_readonly f = false -> field_size f = 32 ->
  bind (write_control e f wanted msr) k s = k tt (put_fields [(f, control wanted msr)] s).
Proof.
  intros Hc Hw Hr Hs. unfold write_control, adjusted. cbv zeta. cbn [fst snd RDMSR].
  change (u32 (msr_eax e msr)) with (lo32 msr). change (u32 (msr_edx e msr)) with (hi32 msr).
  pose proof (lo32_range msr) as H0. pose proof (hi32_range msr) as H1.
  rewrite validate_adjusted, Hc, Z.eqb_refl, adjust_closed, bind_assoc, assert_run by done.
  apply VMXWRITE_run. split; [done|]. cbn [fst snd]. rewrite Hs. by apply control_range.
Qed.
End Fields.

(** * The I/O bitmaps *)
Section Io_bitmap.
Context (v : vmcs_blob).
Definition bitmaps_apart : Prop :=
  let r := regions v in
  io_bitmap_region0 r + PAGE_SIZE_4K <= io_bitmap_region1 r \/ io_bitmap_region1 r + PAGE_SIZE_4K <= io_bitmap_region0 r.
Definition is_port (p : Z) : Prop := 0 <= p < 2 ^ 16.

(** The byte and the bit of a port. *)
Definition port_byte (p : Z) : Z := IOPORT_TO_REGION v p + (p mod 2 ^ 15) / 8.

Lemma io_port_offset_mod p : is_port p -> io_port_offset p = p mod 2 ^ 15.
Proof.
  unfold is_port, io_port_offset. intros Hp. unfold u16.
  destruct (Z.leb_spec 0x8000 p); rewrite wrap_small by lia; zdiv.
Qed.

Lemma port_byte_spec p : is_port p ->
  IOPORT_TO_REGION v p + Z.shiftr (io_port_offset p) 3 = port_byte p /\ Z.land (io_port_offset p) 0x7 = p mod 8.
Proof.
  intros Hp. rewrite io_port_offset_mod by done. rewrite Z.shiftr_div_pow2 by lia.
  change 0x7 with (Z.ones 3). rewrite Z.land_ones by lia. split; [done|zdiv].
Qed.

Lemma port_byte_inj p q : bitmaps_apart -> is_port p -> is_port q ->
  port_byte p = port_byte q -> p mod 8 = q mod 8 -> p = q.
Proof.
  unfold bitmaps_apart, is_port, port_byte, IOPORT_TO_REGION, PAGE_SIZE_4K. intros Ha Hp Hq.
  destruct (Z.leb_spec 0 p), (Z.leb_spec 0 q), (Z.leb_spec p 0x7fff), (Z.leb_spec q 0x7fff); cbn [andb]; intros; zdiv.
Qed.

Lemma port_is_set m p : is_port p -> IOPORT_IS_SET v m p = Z.testbit (rd8 m (port_byte p)) (p mod 8).
Proof.
  intros Hp. destruct (port_byte_spec p Hp) as [E1 E2]. unfold IOPORT_IS_SET. rewrite E1, E2.
  apply truthy_bit. apply Z.mod_pos_bound. lia.
Qed.

Lemma set_port_byte m p b : is_port p ->
  rd8 (SET_IOPORT v m p) b = if decide (b = port_byte p) then Z.lor (rd8 m b) (2 ^ (p mod 8)) else rd8 m b.
Proof.
  intros Hp. destruct (port_byte_spec p Hp) as [E1 E2]. unfold SET_IOPORT. rewrite E1, E2, rd8_wr8.
  case_decide; [subst b; rewrite decide_True by done|by rewrite decide_False by done].
  rewrite Z.shiftl_1_l. apply wrap_small. apply (lor_range _ _ 8); [apply rd8_range|].
  pose proof (Z.mod_pos_bound p 8 ltac:(lia)). split; [lia|]. apply Z.pow_lt_mono_r; lia.
Qed.

Lemma set_port_sets m p q : bitmaps_apart -> is_port p -> is_port q ->
  IOPORT_IS_SET v (SET_IOPORT v m p) q = (q =? p) || IOPORT_IS_SET v m q.
Proof.
  intros Ha Hp Hq. rewrite !port_is_set, set_port_byte by done. case_decide as Hb.
  - rewrite Z.lor_spec, Z.pow2_bits_eqb by (apply Z.mod_pos_bound; lia). rewrite orb_comm. f_equal.
    apply eq_true_iff_eq. rewrite !Z.eqb_eq. split; [|by intros ->]. intros Hm. symmetry. by apply port_byte_inj.
  - destruct (Z.eqb_spec q p) as [->|]; done.
Qed.

Lemma enable_ports_run ports : forall s, bitmaps_apart -> Forall is_port ports -> exists m,
  miter (enable_port v) ports s = Ret (tt, with_mem s m) /\
  (forall q, is_port q -> IOPORT_IS_SET v m q = bool_decide (q ∈ ports) || IOPORT_IS_SET v (k_mem (kern s)) q) /\
  (forall b, (forall q, is_port q -> b <> port_byte q) -> rd8 m b = rd8 (k_mem (kern s)) b).
Proof.
  induction ports as [|p ports IH]; intros s Ha Hl; cbn [miter].
  { exists (k_mem (kern s)). split; [by destruct s as [[]]|]. done. }
  apply Forall_cons in Hl as [Hp Hl]. set (m1 := SET_IOPORT v (k_mem (kern s)) p).
  destruct (IH (with_mem s m1) Ha Hl) as (m & Hr & Hs & Hf). exists m. split; [|split].
  - assert (Hone : enable_port v p s = Ret (tt, with_mem s m1)).
    { unfold enable_port, set_mem. rewrite bind_modify, bind_gets.
      change (k_mem (kern (s <| kern ::= fun k => k <| k_mem ::= fun m => SET_IOPORT v m p |> |>))) with m1.
      unfold m1 at 1. rewrite set_port_sets, Z.eqb_refl by done. by destruct s as [[]]. }
    run_with Hone. rewrite Hr. by destruct s as [[]].
  - intros q Hq. rewrite Hs by done. change (k_mem (kern (with_mem s m1))) with m1. unfold m1.
    rewrite set_port_sets by done. rewrite orb_assoc. f_equal. apply eq_true_iff_eq.
    rewrite orb_true_iff, Z.eqb_eq, !bool_decide_eq_true, elem_of_cons. tauto.
  - intros b Hb. rewrite Hf by done. change (k_mem (kern (with_mem s m1))) with m1. unfold m1.
    rewrite set_port_byte, decide_False by (try done; by apply Hb). done.
Qed.

Lemma monitored_are_ports : Forall is_port monitored_ports.
Proof. by apply (bool_decide_unpack _). Qed.
End Io_bitmap.

(** The I/O bitmaps: the ports of the serial line and the keyboard, and of the two
    bitmaps' 65536 ports no others, become set; every check succeeds and no byte
    outside the two pages changes. *)
Theorem io_bitmap_ports (s : vmm) : bitmaps_apart (vm s) ->
  (forall p, is_port p -> IOPORT_IS_SET (vm s) (k_mem (kern s)) p = false) ->
  exists m, initialize_vmcs_io_bitmap s = Ret (tt, with_mem s m) /\
    (forall p, is_port p -> IOPORT_IS_SET (vm s) m p = true <-> p ∈ monitored_ports) /\
    forall b, ~ (io_bitmap_region0 (regions (vm s)) <= b < io_bitmap_region0 (regions (vm s)) + PAGE_SIZE_4K) ->
      ~ (io_bitmap_region1 (regions (vm s)) <= b < io_bitmap_region1 (regions (vm s)) + PAGE_SIZE_4K) ->
      rd8 m b = rd8 (k_mem (kern s)) b.
Proof.
  intros Ha Hz. destruct (enable_ports_run (vm s) monitored_ports s Ha monitored_are_ports) as (m & Hr & Hs & Hf).
  exists m. split; [exact Hr|]. split.
  - intros p Hp. by rewrite Hs, Hz, orb_false_r, bool_decide_eq_true by done.
  - intros b H0 H1. apply Hf. intros q Hq ->. unfold port_byte, IOPORT_TO_REGION, is_port, PAGE_SIZE_4K in *.
    destruct ((0 <=? q) && (q <=? 0x7fff)); [apply H0|apply H1]; zdiv.
Qed.

(** Two empty bitmap pages. *)
Definition sample_bitmaps : vmm :=
  sample_vmm <| vm ::= fun v => v <| regions ::= fun r =>
    r <| io_bitmap_region0 := 0x720000 |> <| io_bitmap_region1 := 0x721000 |> |> |>.

Lemma io_bitmap_ports_witness : exists m,
  initialize_vmcs_io_bitmap sample_bitmaps = Ret (tt, with_mem sample_bitmaps m) /\
  IOPORT_IS_SET (vm sample_bitmaps) m 0x60 = true.
Proof.
  destruct (io_bitmap_ports sample_bitmaps) as (m & Hr & Hs & _).
  - left. vm_compute. congruence.
  - intros p Hp. rewrite port_is_set by exact Hp.
    change (k_mem (kern sample_bitmaps)) with (∅ : memory). unfold rd8. rewrite lookup_empty. apply Z.bits_0.
  - exists m. split; [exact Hr|]. apply Hs; [unfold is_port; lia|]. by apply (bool_decide_unpack _).
Defined.
