(* ===== verification/BringUp.v ===== *)
(** * BringUp: bringing up a VM, from the booted kernel to the running guest.

    The theorems compose the allocator, the page tables, the VMCS writes, the
    guest's memory, the guest image and the video page: [start_vm] completes, and
    what the guest starts with is what the fields and pages are meant to hold. *)
From Stdlib Require Import ZArith Lia.
From stdpp Require Import base tactics list numbers gmap.
From S2P Require Import Prelude Memory PhysicalMemory Radix Paging PagingInit Ept.
From S2P Require Import Ring SortSearch Vmm Registry Devices Event Schedule Decode Exit Vmcs.
Local Open Scope Z_scope.

(** ** Pages from the low segment *)

(** The kernel after [n] pages were handed out and memory became [m]. *)
Definition advance (n : Z) (m : memory) (k : kernel) : kernel :=
  Kernel m ((k_phys k) <| current_avail_page := next_page k + PAGE_SIZE_4K * n |>) (pml4_base k).

Lemma advance_0 k : advance 0 (k_mem k) k = k.
Proof. destruct k as [m [] b]. unfold advance, next_page. cbn. by rewrite Z.add_0_r. Qed.

Lemma advance_ok n r m k : kernel_ok k -> ept_room r k -> 0 <= n <= r ->
  kernel_ok (advance n m k) /\ ept_room (r - n) (advance n m k).
Proof.
  unfold kernel_ok, phys_ok, ept_room, advance, next_page, INITIAL_VA_CEILING. cbv [update]. cbn.
  unfold_consts. intros. split_and!; try lia. zdiv.
Qed.

Lemma pages_run n i r m k : kernel_ok k -> ept_room r k -> 0 <= i -> 1 <= n < 2 ^ 19 -> i + n <= r ->
  get_physical_pages n (advance i m k) = Ret (next_page k + PAGE_SIZE_4K * i, advance (i + n) m k).
Proof.
  intros Hok (R1 & R2 & R3) Hi Hn Hr. unfold kernel_ok, phys_ok, next_page, INITIAL_VA_CEILING in *.
  assert (Hv : forall a, addr_low4G (k_phys k) <= a < addr_low4G (k_phys k) + length_low4G (k_phys k) ->
            PHYSICAL_PAGE_VALID (k_phys (advance i m k)) a = true).
  { intros a Ha. apply page_valid_spec; [|by left]. destruct (advance_ok i r m k) as [H _]; try done.
    lia. }
  set (k' := advance i m k) in *.
  assert (Hcur : current_avail_page (k_phys k') = current_avail_page (k_phys k) + PAGE_SIZE_4K * i) by reflexivity.
  unfold get_physical_pages. mstep. cbv zeta. rewrite Hcur, !s32_small by (unfold_consts; lia).
  unfold phys_ok in Hok. rewrite !u64_small by (unfold_consts; lia).
  rewrite (proj2 (Z.ltb_lt 0 n)), !Hv by (unfold_consts; lia). cbn [negb orb andb].
  f_equal. f_equal. unfold k', advance, next_page. cbv [update]. cbn. f_equal. f_equal. lia.
Qed.

(** ** The state of the monitor while a VM is prepared *)
Definition at_ (s : vmm) (k : kernel) (v : vmcs_blob) (c : vmcs) : vmm :=
  s <| kern := k |> <| vm := v |> <| cur := c |>.

Lemma at_self s : at_ s (kern s) (vm s) (cur s) = s.
Proof. by destruct s. Qed.

Section Steps.
Context {B : Type} (s : vmm) (k : kernel) (v : vmcs_blob) (c : vmcs).

Lemma in_kernel_at {A} (f : Prelude.M kernel A) (K : A -> M vmm B) a k' : f k = Ret (a, k') ->
  bind (in_kernel f) K (at_ s k v c) = K a (at_ s k' v c).
Proof. intros H. unfold bind, in_kernel. change (kern (at_ s k v c)) with k. rewrite H. by destruct s. Qed.

Lemma set_vm_at f (K : unit -> M vmm B) : bind (set_vm f) K (at_ s k v c) = K tt (at_ s k (f v) c).
Proof. by destruct s. Qed.
Lemma set_regions_at f (K : unit -> M vmm B) :
  bind (set_regions f) K (at_ s k v c) = K tt (at_ s k (v <| regions ::= f |>) c).
Proof. by destruct s. Qed.
Lemma set_pic_at f (K : unit -> M vmm B) :
  bind (set_pic f) K (at_ s k v c) = K tt (at_ s k (v <| pic ::= f |>) c).
Proof. by destruct s. Qed.
Lemma get_vm_at (K : vmcs_blob -> M vmm B) : bind get_vm K (at_ s k v c) = K v (at_ s k v c).
Proof. reflexivity. Qed.
Lemma set_mem_at f (K : unit -> M vmm B) :
  bind (set_mem f) K (at_ s k v c) = K tt (at_ s (k <| k_mem ::= f |>) v c).
Proof. by destruct s. Qed.
Lemma memset_page_at p (K : unit -> M vmm B) :
  bind (memset_page p) K (at_ s k v c) = K tt (at_ s (k <| k_mem ::= fun m => memset m p 0 PAGE_SIZE_4K |>) v c).
Proof. by destruct s, k. Qed.
Lemma put_fields_at l : put_fields l (at_ s k v c) = at_ s k v (written c l).
Proof. by destruct s. Qed.
End Steps.

Lemma set_mem_advance n m k f : (advance n m k) <| k_mem ::= f |> = advance n (f m) k.
Proof. reflexivity. Qed.

(** ** The pages of a VM *)
Local Opaque memset memcpy.
Abbreviation P := PAGE_SIZE_4K.

(** The VM as [pre_initialize_vmcs] leaves it, with its pages from [q] on. *)
Definition fresh_vm (q : Z) : vmcs_blob :=
  Vm (Regions q (q + P) (q + 2 * P) 0 0 0 (q + 3 * P) (q + 4 * P) 0 (q + 14 * P)) (q + 5 * P) 0 0 zero_cpu
    (q + 13 * P) 0 (Pic 0 0 0xff 0xff 0 0 0 0 0 0) (Pit 0 0 0 0)
    (Ring SCANCODE_BUFFER_LENGTH 0 0 (replicate 50 0)).
(** The page of each region and the first of the host stack are zeroed. *)
Definition zeroed_pages (q : Z) : list Z :=
  [q; q + P; q + 2 * P; q + 3 * P; q + 4 * P; q + 5 * P; q + 13 * P; q + 14 * P].
Definition zero_pages (m : memory) (l : list Z) : memory := foldl (fun m p => memset m p 0 P) m l.

(** A VM from its components. *)
Definition regions_of_vm (v : vmcs_blob) : vmcs_region := eta_regions (regions v).
Definition vm_of (v : vmcs_blob) : vmcs_blob :=
  Vm (regions_of_vm v) (host_stack v) (vpid v) (vcpu v) (cpu_state v) (serial_line_buffer v) (serial_line_iptr v)
    (pic v) (pit v) (kbd v).

Section Boot.
Context (k0 : kernel) (Tk : gmap Z (Z * Z)) (R : Z).
Hypotheses (Hk : paging_inv k0 Tk) (Hid : forall a, 0 <= a < INITIAL_VA_CEILING -> pa k0 a = a) (Hroom : ept_room R k0).

(** Memory the allocator had handed out is as it was. *)
Definition low_same (m : memory) : Prop := forall b, b < next_page k0 -> rd8 m b = rd8 (k_mem k0) b.

Lemma booted_advance n m : 0 <= n <= R -> low_same m ->
  paging_inv (advance n m k0) Tk /\ forall a, 0 <= a < INITIAL_VA_CEILING -> pa (advance n m k0) a = a.
Proof using Hk Hid Hroom.
  intros Hn Hm. destruct (advance_ok n R m k0 (pi_ok _ _ Hk) Hroom Hn) as [Hok _].
  destruct (kernel_frame k0 (advance n m k0) Tk Hk Hok) as [Hi Hpa].
  - change (next_page (advance n m k0)) with (next_page k0 + P * n). unfold_consts. lia.
  - reflexivity.
  - intros b (p & l & x & Hp & Hin). apply Hm. pose proof (pi_below _ _ Hk _ _ _ Hp). lia.
  - split; [done|]. intros a Ha. rewrite Hpa; [by apply Hid|]. unfold VA_LIMIT, INITIAL_VA_CEILING in *. lia.
Qed.

Lemma low_same_memset m p : low_same m -> next_page k0 <= p -> low_same (memset m p 0 P).
Proof. intros Hm Hp b Hb. rewrite rd8_memset, decide_False by (unfold_consts; lia). by apply Hm. Qed.
Lemma low_same_page m j : 0 <= j -> low_same m -> low_same (memset m (next_page k0 + P * j) 0 P).
Proof. intros Hj Hm. apply low_same_memset; [done|unfold_consts; lia]. Qed.
Lemma low_same_refl : low_same (k_mem k0).
Proof. by intros b Hb. Qed.
Lemma low_same_zero m l : low_same m -> Forall (fun p => next_page k0 <= p) l -> low_same (zero_pages m l).
Proof.
  revert m. induction l as [|p l IH]; intros m Hm Hl; [done|]. apply Forall_cons in Hl as [Hp Hl].
  cbn [zero_pages foldl]. apply IH; [by apply low_same_memset|done].
Qed.

Lemma first_page : P <= next_page k0 /\ next_page k0 mod P = 0 /\ next_page k0 + P * R + P <= INITIAL_VA_CEILING.
Proof using Hk Hroom.
  pose proof (pi_ok _ _ Hk) as Hok. destruct Hroom as (H1 & H2 & H3).
  unfold kernel_ok, phys_ok, next_page in *. unfold_consts. split_and!; try lia; zdiv.
Qed.

Section At.
Context (s : vmm) (v : vmcs_blob) (c : vmcs) {B : Type}.

Lemma page_at i (K : Z -> M vmm B) m : 0 <= i -> i + 1 <= R ->
  bind (in_kernel get_physical_page) K (at_ s (advance i m k0) v c) =
  K (next_page k0 + P * i) (at_ s (advance (i + 1) m k0) v c).
Proof using Hk Hroom. intros Hi Hr. apply in_kernel_at. apply (pages_run 1 i R); [apply Hk|done|lia|lia|lia]. Qed.
Lemma stack_at i (K : Z -> M vmm B) m : 0 <= i -> i + 8 <= R ->
  bind (in_kernel (get_physical_pages HOST_STACK_NR_PAGES)) K (at_ s (advance i m k0) v c) =
  K (next_page k0 + P * i) (at_ s (advance (i + 8) m k0) v c).
Proof using Hk Hroom. intros Hi Hr. apply in_kernel_at. apply (pages_run 8 i R); [apply Hk|done|lia|lia|lia]. Qed.

Lemma zero_at n m j (K : unit -> M vmm B) : 0 <= n <= R -> low_same m -> 0 <= j -> j + 1 <= n ->
  bind (zero_page (next_page k0 + P * j)) K (at_ s (advance n m k0) v c) =
  K tt (at_ s (advance n (memset m (next_page k0 + P * j) 0 P) k0) v c).
Proof using Hk Hid Hroom.
  intros Hn Hm Hj Hj'. destruct first_page as (F1 & F2 & F3). set (p := next_page k0 + P * j).
  assert (Hp : next_page k0 <= p /\ p + P <= next_page k0 + P * R) by (unfold p; unfold_consts; lia). clearbody p. destruct Hp as [Hp Hp2].
  unfold zero_page.
  rewrite bind_assoc, assert_run by (apply truthy_true; unfold_consts; lia).
  rewrite bind_assoc, memset_page_at. rewrite set_mem_advance, bind_assoc, bind_gets.
  change (kern (at_ s ?k v c)) with k.
  destruct (booted_advance n (memset m p 0 P) Hn ltac:(by apply low_same_memset)) as [_ Hpa].
  rewrite Hpa by (unfold_consts; lia). rewrite Z.eqb_refl. by destruct s.
Qed.
End At.

Lemma pre_initialize_run s : kern s = k0 -> 15 <= R ->
  pre_initialize_vmcs s = Ret (ERROR_OK,
    at_ s (advance 15 (zero_pages (k_mem k0) (zeroed_pages (next_page k0))) k0) (fresh_vm (next_page k0)) (cur s)).
Proof using Hk Hid Hroom.
  intros E HR. rewrite <- (at_self s) at 1. rewrite E. rewrite <- (advance_0 k0) at 1.
  unfold pre_initialize_vmcs. rewrite set_vm_at.
  do 5 (rewrite page_at by lia; rewrite set_regions_at).
  rewrite stack_at by lia; rewrite set_vm_at.
  rewrite page_at by lia; rewrite set_vm_at. rewrite page_at by lia; rewrite set_regions_at.
  rewrite get_vm_at. match goal with |- context [at_ s _ ?v _] => set (v0 := v) end. set (q := next_page k0).
  change (0 + 1 + 1 + 1 + 1 + 1 + 8 + 1 + 1) with 15.
  change (guest_region (regions v0)) with (next_page k0 + P * 0). change (io_bitmap_region0 (regions v0)) with (next_page k0 + P * 1).
  change (io_bitmap_region1 (regions v0)) with (next_page k0 + P * 2).
  change (vm_exit_store_msr_region (regions v0)) with (next_page k0 + P * 3).
  change (vm_exit_load_msr_region (regions v0)) with (next_page k0 + P * 4). change (host_stack v0) with (next_page k0 + P * 5).
  change (serial_line_buffer v0) with (next_page k0 + P * 13). change (video_buffer (regions v0)) with (next_page k0 + P * 14).
  pose proof low_same_refl as L0.
  do 8 (rewrite zero_at; [|lia|repeat (apply low_same_page; [lia|]); exact L0|lia|lia]).
  rewrite set_vm_at, !set_pic_at, set_vm_at. match goal with |- context [at_ s _ ?v (cur s)] => set (v1 := v) end.
  assert (Ev : v1 = fresh_vm q).
  { transitivity (vm_of v1); [by destruct v1 as [[] ? ? ? ? ? ? ? ? ?]|].
    assert (Er : regions_of_vm v1 = Regions (q + P * 0) (q + P * 1) (q + P * 2) 0 0 0 (q + P * 3) (q + P * 4) 0 (q + P * 14))
      by reflexivity.
    unfold vm_of. rewrite Er. unfold fresh_vm. unfold_consts.
    change (serial_line_buffer v1) with (q + 4096 * 13). change (host_stack v1) with (q + 4096 * 5).
    repeat (f_equal; try lia). }
  assert (Ez : zeroed_pages q = [q + P * 0; q + P * 1; q + P * 2; q + P * 3; q + P * 4; q + P * 5; q + P * 13; q + P * 14]).
  { unfold zeroed_pages. unfold_consts. repeat (f_equal; try lia). }
  rewrite Ev, Ez. reflexivity.
Qed.
End Boot.

(** ** The commands of [initialize_vmcs] one by one *)

(** What the bring-up asks of the processor. *)
Record processor_ok (e : host_env) : Prop := {
  po_env : env_ok e;
  po_revision : truthy (Z.land (lo32 e IA32_VMX_BASIC_MSR) 0x80000000) = false;
  po_writeback : Z.land (Z.shiftr (hi32 e IA32_VMX_BASIC_MSR) (50 - 32)) 0xf = 6;
  po_vmptrld : truthy (Z.land (vmptrld_rflag e) RFLAG_FLAG_CARRY) = false /\
               truthy (Z.land (vmptrld_rflag e) RFLAG_FLAG_ZERO) = false;
  po_ept : truthy (Z.land (lo32 e IA32_VMX_EPT_VPID_CAP_MSR) 1) = true;
  po_pin : controls_ok e IA32_VMX_PINBASED_CTLS_MSR;
  po_pri : controls_ok e IA32_VMX_PRI_PROCBASED_CTLS_MSR;
  po_sec : controls_ok e IA32_VMX_SEC_PROCBASED_CTLS_MSR;
  po_exit : controls_ok e IA32_VMX_VM_EXIT_CTLS_MSR;
  po_entry : controls_ok e IA32_VMX_VM_ENTRY_CTLS_MSR;
  po_launch : vmlaunch_enters e = true }.

(** The addresses of a VM fit, its bitmaps are two pages and no MSR is switched. *)
Record vm_ok (v : vmcs_blob) : Prop := {
  vo_stack : in64 (host_stack v); vo_bitmap0 : in64 (io_bitmap_region0 (regions v));
  vo_bitmap1 : in64 (io_bitmap_region1 (regions v)); vo_apart : bitmaps_apart v;
  vo_store : in64 (vm_exit_store_msr_region (regions v)); vo_load : in64 (vm_exit_load_msr_region (regions v));
  vo_store_count : vm_exit_store_msr_count (regions v) = 0; vo_load_count : vm_exit_load_msr_count (regions v) = 0;
  vo_vpid : vpid v = 1 }.

Definition pin_fields (e : host_env) : list (Z * Z) :=
  [(CTLS_PIN_BASED_VM_EXECUTION, control e 1 IA32_VMX_PINBASED_CTLS_MSR)].
Definition exit_fields (e : host_env) (v : vmcs_blob) : list (Z * Z) :=
  [ (CTLS_VM_EXIT, control e vm_exit_ctls IA32_VMX_VM_EXIT_CTLS_MSR);
    (CTLS_VM_EXIT_MSR_STORE_COUNT, 0); (CTLS_VM_EXIT_MSR_LOAD_COUNT, 0);
    (CTLS_VM_EXIT_MSR_LOAD, vm_exit_load_msr_region (regions v));
    (CTLS_VM_EXIT_MSR_STORE, vm_exit_store_msr_region (regions v)) ].
Definition entry_fields (e : host_env) (v : vmcs_blob) : list (Z * Z) :=
  [ (CTLS_VM_ENTRY, control e vm_entry_ctls IA32_VMX_VM_ENTRY_CTLS_MSR);
    (CTLS_VM_ENTRY_MSR_LOAD_COUNT, 0); (CTLS_VM_ENTRY_MSR_LOAD, vm_exit_store_msr_region (regions v));
    (CTLS_VM_ENTRY_INTERRUPT_INFORMATION_FIELD, 0) ].

Lemma written_app c l l' : written (written c l) l' = written c (l ++ l').
Proof. unfold written. by rewrite foldl_app. Qed.

Section Commands.
Context (e : host_env) (He : processor_ok e) {B : Type} (K : unit -> M vmm B).
Context (s : vmm) (k : kernel) (v : vmcs_blob) (c : vmcs).
Hypothesis Hv : vm_ok v.

Lemma run_at (f : M vmm unit) k' v' c' : f (at_ s k v c) = Ret (tt, at_ s k' v' c') ->
  bind f K (at_ s k v c) = K tt (at_ s k' v' c').
Proof. apply bind_run. Qed.

Lemma host_at : bind (initialize_vmcs_host_state e) K (at_ s k v c) =
  K tt (at_ s k v (written c (host_fields e v))).
Proof using He Hv.
  apply run_at. rewrite (host_state_run e) by (apply He || apply Hv). by rewrite put_fields_at.
Qed.
Lemma guest_at : bind (initialize_vmcs_guest_state e) K (at_ s k v c) =
  K tt (at_ s k v (written c (guest_fields e))).
Proof. apply run_at. rewrite (guest_state_run e). by rewrite put_fields_at. Qed.

(** One more write. *)
Ltac write_at := rewrite ?bind_assoc, VMXWRITE_run by (split; [reflexivity|cbn [fst snd]; first
  [apply Hv | rewrite ?(vo_store_count v Hv), ?(vo_load_count v Hv), ?(vo_vpid v Hv); by split]]);
  rewrite put_fields_at, ?written_app.
Ltac control_at H := rewrite ?bind_assoc, write_control_run by (apply H || reflexivity || by split);
  rewrite put_fields_at, ?written_app.

Lemma pin_at : bind (initialize_vmcs_pinbased_control e) K (at_ s k v c) =
  K tt (at_ s k v (written c (pin_fields e))).
Proof using He. unfold initialize_vmcs_pinbased_control. by control_at (po_pin e He). Qed.

Lemma proc_at : bind (initialize_vmcs_procbased_control e) K (at_ s k v c) =
  K tt (at_ s k v (written c (processor_controls e v))).
Proof using He Hv.
  unfold initialize_vmcs_procbased_control. rewrite bind_assoc, get_vm_at.
  rewrite bind_assoc, assert_run by apply He.
  control_at (po_pri e He). control_at (po_sec e He). do 4 write_at. reflexivity.
Qed.

Lemma exit_at : let clear p k := k <| k_mem ::= fun m => memset m p 0 P |> in
  bind (initialize_vmcs_vm_exit_control e) K (at_ s k v c) =
  K tt (at_ s (clear (vm_exit_load_msr_region (regions v)) (clear (vm_exit_store_msr_region (regions v)) k)) v
          (written c (exit_fields e v))).
Proof using He Hv.
  intros clear. unfold initialize_vmcs_vm_exit_control. control_at (po_exit e He).
  unfold initialize_vmcs_vm_exit_msr. rewrite bind_assoc, get_vm_at.
  rewrite bind_assoc, memset_page_at, bind_assoc, memset_page_at. cbv zeta.
  rewrite bind_assoc, set_regions_at, bind_assoc, set_regions_at, bind_assoc, get_vm_at.
  assert (Ev : v <| regions ::= fun r => r <| vm_exit_load_msr_count := 0 |> |>
                 <| regions ::= fun r => r <| vm_exit_store_msr_count := 0 |> |> = v).
  { destruct Hv. destruct v as [[] ? ? ? ? ? ? ? ? ?]. cbn in *. by subst. }
  change (Z.of_nat (length predefined_msrs)) with 0. rewrite Ev. cbn [predefined_msrs msr_loop].
  rewrite bind_assoc, bind_ret. do 4 write_at. unfold exit_fields. rewrite (vo_store_count v Hv), (vo_load_count v Hv).
  reflexivity.
Qed.

Lemma entry_at : bind (initialize_vmcs_vm_entry_control e) K (at_ s k v c) =
  K tt (at_ s k v (written c (entry_fields e v))).
Proof using He Hv.
  unfold initialize_vmcs_vm_entry_control. control_at (po_entry e He).
  unfold initialize_vmcs_vm_entry_msr. rewrite !bind_assoc, get_vm_at. do 3 write_at.
  unfold entry_fields. by rewrite (vo_store_count v Hv).
Qed.
End Commands.

(** ** Guest memory after the tables are built *)

(** Guest page [i] is host page [hs !! i]: whole pages at or above [n0], outside both
    page tables; no other guest page is accessible. *)
Record guest_pages (k : kernel) (base : Z) (Tk Te : gmap Z (Z * Z)) (n0 : Z) (hs : list Z) : Prop := {
  gp_inv : ept_inv k base Tk Te;
  gp_n0 : 0 <= n0;
  gp_below : forall p y, Tk !! p = Some y -> p + P <= n0;
  gp_tables : forall p y, Te !! p = Some y -> n0 <= p;
  gp_page : forall i h, hs !! i = Some h ->
    h mod P = 0 /\ n0 <= h /\ h + P <= next_page k /\ h + P <= INITIAL_VA_CEILING /\ Te !! h = None;
  gp_distinct : NoDup hs;
  gp_map : forall g, 0 <= g < VA_LIMIT ->
    guest_page (k_mem k) base g = ram_entry <$> (if g <? P * Z.of_nat (length hs) then hs !! Z.to_nat (g / P) else None) }.

Lemma guest_pages_of_memory k base Tk Te n0 n1 hs : guest_memory k base Tk Te n0 0 hs -> 0 <= n1 <= n0 ->
  (forall p y, Tk !! p = Some y -> p + P <= n1) -> (forall p y, Te !! p = Some y -> n1 <= p) -> guest_pages k base Tk Te n1 hs.
Proof.
  intros Hgm Hn Hb Ht. split.
  - apply Hgm.
  - lia.
  - exact Hb.
  - exact Ht.
  - intros i h Hh. destruct (gm_page _ _ _ _ _ _ _ Hgm i h Hh) as (H1 & H2 & H3 & H4 & H5 & _). split_and!; try done. lia.
  - apply NoDup_alt. intros i j h Hi Hj. destruct (Nat.lt_trichotomy i j) as [H|[H|H]]; [|exact H|].
    + pose proof (gm_sorted _ _ _ _ _ _ _ Hgm _ _ _ _ H Hi Hj). lia.
    + pose proof (gm_sorted _ _ _ _ _ _ _ Hgm _ _ _ _ H Hj Hi). lia.
  - intros g Hg. rewrite (gm_map _ _ _ _ _ _ _ Hgm g Hg). rewrite Z.add_0_l, Z.sub_0_r.
    rewrite (proj2 (Z.leb_le 0 g)) by lia. cbn [andb]. by destruct (g <? _).
Qed.

Lemma translate_ram k base g h : 0 <= g < VA_LIMIT -> guest_page (k_mem k) base g = Some (ram_entry h) ->
  0 <= h -> h + P <= INITIAL_VA_CEILING -> h mod P = 0 -> guestpa_to_hostpa k base g = h + g mod P.
Proof.
  intros Hg Hm H0 H1 H4. rewrite guestpa_walk by lia. unfold guest_page in Hm.
  destruct (epte (k_mem k) base g) as [w|]; [|done]. destruct (accessible w); [|done].
  injection Hm as ->. apply host_address_ram; [|exact H4]. unfold INITIAL_VA_CEILING in *. unfold_consts. lia.
Qed.

Lemma guest_page_at k base Tk Te n0 hs i h x : guest_pages k base Tk Te n0 hs ->
  hs !! i = Some h -> 0 <= x < P -> P * Z.of_nat (length hs) <= VA_LIMIT ->
  0 <= P * Z.of_nat i + x < P * Z.of_nat (length hs) /\ (P * Z.of_nat i + x) mod P = x /\
  guest_page (k_mem k) base (P * Z.of_nat i + x) = Some (ram_entry h).
Proof.
  intros Hgp Hh Hx Hlen. pose proof (lookup_lt_Some _ _ _ Hh) as Hlt.
  assert (Hg : 0 <= P * Z.of_nat i + x < P * Z.of_nat (length hs)) by (unfold_consts; nia).
  split; [exact Hg|]. split; [unfold_consts; zdiv|].
  rewrite (gp_map _ _ _ _ _ _ Hgp) by lia. rewrite (proj2 (Z.ltb_lt _ _)) by lia.
  assert (Ei : Z.to_nat ((P * Z.of_nat i + x) / P) = i) by (unfold_consts; zdiv). by rewrite Ei, Hh.
Qed.

Lemma guest_pages_translate k base Tk Te n0 hs i h x : guest_pages k base Tk Te n0 hs ->
  hs !! i = Some h -> 0 <= x < P -> P * Z.of_nat (length hs) <= VA_LIMIT ->
  guestpa_to_hostpa k base (P * Z.of_nat i + x) = h + x.
Proof.
  intros Hgp Hh Hx Hlen. destruct (guest_page_at _ _ _ _ _ _ _ _ _ Hgp Hh Hx Hlen) as (Hg & Ex & Hm).
  destruct (gp_page _ _ _ _ _ _ Hgp _ _ Hh) as (H1 & H2 & _ & H4 & _). pose proof (gp_n0 _ _ _ _ _ _ Hgp).
  rewrite (translate_ram k base _ h) by (lia || done). by rewrite Ex.
Qed.

Definition with_kmem (k : kernel) (m : memory) : kernel := k <| k_mem := m |>.

(** Writing to guest pages disturbs no translation. *)
Lemma guest_pages_write k base Tk Te n0 hs m : guest_pages k base Tk Te n0 hs ->
  (forall b, (forall i h, hs !! i = Some h -> ~ (h <= b < h + P)) -> rd8 m b = rd8 (k_mem k) b) ->
  guest_pages (with_kmem k m) base Tk Te n0 hs.
Proof.
  intros Hgp Hm. pose proof (gp_inv _ _ _ _ _ _ Hgp) as Hi. pose proof (pi_ok _ _ (ei_kernel _ _ _ _ Hi)) as Hok.
  assert (Hlow : forall b, b < n0 -> rd8 m b = rd8 (k_mem k) b).
  { intros b Hb. apply Hm. intros i h Hh Hin. destruct (gp_page _ _ _ _ _ _ Hgp i h Hh) as (_ & H & _). lia. }
  destruct (kernel_frame k (with_kmem k m) Tk (ei_kernel _ _ _ _ Hi)) as [Hk1 Hpa]; [exact Hok|apply Z.le_refl|done| |].
  { intros b (p & l & x & Hp & Hin). apply Hlow. pose proof (gp_below _ _ _ _ _ _ Hgp _ _ Hp). lia. }
  destruct (tree_frame elink (k_mem k) m base Te (ei_tree _ _ _ _ Hi)) as [Ht1 Hs1].
  { intros p l x b Hp Hin. apply Hm. intros i h Hh Hin'. destruct (gp_page _ _ _ _ _ _ Hgp i h Hh) as (H4 & _ & _ & _ & Hn).
    destruct (tree_page _ _ _ _ (ei_tree _ _ _ _ Hi) _ _ _ Hp) as [Hp4 _].
    assert (p = h) as -> by (clear - Hp4 H4 Hin Hin'; unfold_consts; zdiv). congruence. }
  split; try apply Hgp.
  - split; [exact Hk1| |exact Ht1|apply Hi|apply Hi].
    intros a Ha. rewrite Hpa; [by apply Hi|]. unfold VA_LIMIT, INITIAL_VA_CEILING in *. lia.
  - intros g Hg. rewrite <- (gp_map _ _ _ _ _ _ Hgp g Hg). unfold guest_page, epte.
    destruct (Hs1 g 3%nat Hg ltac:(lia)) as [E L]. change (k_mem (with_kmem k m)) with m. rewrite E.
    destruct (slot elink (k_mem k) base g 3) as [en|]; [|reflexivity]. by rewrite (L en eq_refl).
Qed.

(** ** The guest image *)
Section Image.
Context (base : Z) (Tk Te : gmap Z (Z * Z)) (n0 : Z) (hs : list Z) (image_end : Z).
Hypothesis Hsize : P * Z.of_nat (length hs) <= VA_LIMIT.

(** [n] pages from [img] on hold what is left of the image. *)
Definition image_pages (img : Z) (n : nat) : Prop :=
  image_end <= img + P * Z.of_nat n /\ (n <> O -> img + P * (Z.of_nat n - 1) < image_end).
(** The [n] guest pages from [i] on. *)
Definition on_pages (i n : nat) (b : Z) : Prop := exists t h, (t < n)%nat /\ hs !! (i + t)%nat = Some h /\ h <= b < h + P.

Lemma on_pages_0 i b : ~ on_pages i 0 b.
Proof. intros (t & h & Ht & _). lia. Qed.

Lemma guest_page_apart k i j h h' b : guest_pages k base Tk Te n0 hs -> hs !! i = Some h -> hs !! j = Some h' ->
  h <= b < h + P -> h' <= b < h' + P -> i = j.
Proof.
  intros Hgp Hi Hj Hb Hb'. destruct (gp_page _ _ _ _ _ _ Hgp _ _ Hi) as (A & _).
  destruct (gp_page _ _ _ _ _ _ Hgp _ _ Hj) as (A' & _).
  assert (h = h') as <- by (clear - A A' Hb Hb'; unfold_consts; zdiv).
  by apply (NoDup_lookup hs i j h (gp_distinct _ _ _ _ _ _ Hgp)).
Qed.

Lemma image_loop_run n : forall fuel img i s k v c, (n < fuel)%nat -> guest_pages k base Tk Te n0 hs ->
  (i + n <= length hs)%nat -> 0 <= img -> img + P * Z.of_nat n <= n0 -> image_pages img n ->
  exists m, image_loop fuel base img image_end (P * Z.of_nat i) (at_ s k v c) = Ret (tt, at_ s (with_kmem k m) v c) /\
    guest_pages (with_kmem k m) base Tk Te n0 hs /\
    (forall t h x, (t < n)%nat -> hs !! (i + t)%nat = Some h -> 0 <= x < P ->
       rd8 m (h + x) = rd8 (k_mem k) (img + P * Z.of_nat t + x)) /\
    (forall b, ~ on_pages i n b -> rd8 m b = rd8 (k_mem k) b).
Proof using Hsize.
  induction n as [|n IH]; intros fuel img i s k v c Hf Hgp Hlen Himg Hn0 [Hend Hlast];
    destruct fuel as [|fuel]; try lia; cbn [image_loop].
  { destruct (Z.ltb_spec img image_end); [lia|]. exists (k_mem k).
    assert (E : with_kmem k (k_mem k) = k) by (by destruct k). rewrite E.
    split; [reflexivity|]. split; [done|]. split; [intros; lia|done]. }
  specialize (Hlast ltac:(lia)). destruct (Z.ltb_spec img image_end); [|unfold_consts; lia].
  destruct (lookup_lt_is_Some_2 hs i ltac:(lia)) as [h Hh].
  destruct (gp_page _ _ _ _ _ _ Hgp i h Hh) as (H4 & Hhn & _ & Hc & _).
  assert (Htr : guestpa_to_hostpa k base (P * Z.of_nat i) = h).
  { rewrite <- (Z.add_0_r h), <- (Z.add_0_r (P * Z.of_nat i)).
    apply (guest_pages_translate k base Tk Te n0 hs); [done|done|unfold_consts; lia|done]. }
  assert (Hpa : pa k h = h).
  { apply (ei_identity _ _ _ _ (gp_inv _ _ _ _ _ _ Hgp)). pose proof (gp_n0 _ _ _ _ _ _ Hgp).
    unfold INITIAL_VA_CEILING in *. unfold_consts. lia. }
  set (m1 := memcpy (k_mem k) h img P).
  assert (Hm1 : forall b, rd8 m1 b = if decide (h <= b < h + P) then rd8 (k_mem k) (img + (b - h)) else rd8 (k_mem k) b).
  { intros b. apply rd8_memcpy; unfold_consts; lia. }
  assert (Hgp1 : guest_pages (with_kmem k m1) base Tk Te n0 hs).
  { apply guest_pages_write; [done|]. intros b Hb. rewrite Hm1, decide_False; [done|]. by apply (Hb i h). }
  destruct (IH fuel (img + P) (S i) s (with_kmem k m1) v c) as (m & Hr & Hgp2 & Hin & Hout);
    [lia|done|lia|unfold_consts; lia|unfold_consts; lia|split; unfold_consts; lia|].
  exists m. split; [|split; [exact Hgp2|split]].
  - rewrite bind_gets. change (kern (at_ s k v c)) with k. rewrite Htr, bind_gets.
    change (kern (at_ s k v c)) with k. rewrite Hpa, Z.eqb_refl, assert_run by done. rewrite set_mem_at.
    change (k <| k_mem ::= fun m => memcpy m h img P |>) with (with_kmem k m1).
    unfold INITIAL_VA_CEILING, VA_LIMIT in *. rewrite !u64_small by (unfold_consts; lia).
    replace (P * Z.of_nat i + P) with (P * Z.of_nat (S i)) by lia. exact Hr.
  - intros t h' x Ht Hh' Hx. destruct t as [|t].
    + rewrite Nat.add_0_r in Hh'. assert (h' = h) as -> by congruence. rewrite Hout.
      * change (k_mem (with_kmem k m1)) with m1. rewrite Hm1, decide_True by lia. f_equal. lia.
      * intros (t & h' & Ht' & Ht2 & Hin'). pose proof (guest_page_apart k i (S i + t) h h' (h + x) Hgp Hh Ht2). lia.
    + assert (Hh2 : hs !! (S i + t)%nat = Some h') by (by replace (S i + t)%nat with (i + S t)%nat by lia).
      rewrite (Hin t h' x) by (lia || done).
      change (k_mem (with_kmem k m1)) with m1. rewrite Hm1, decide_False by (unfold_consts; lia). f_equal. unfold_consts. lia.
  - intros b Hb. rewrite Hout.
    + change (k_mem (with_kmem k m1)) with m1. rewrite Hm1, decide_False; [done|]. intros Hin'. apply Hb.
      exists 0%nat, h. rewrite Nat.add_0_r. split; [lia|done].
    + intros (t & h' & Ht & Hh' & Hin'). apply Hb. exists (S t), h'. split; [lia|].
      by replace (i + S t)%nat with (S i + t)%nat by lia.
Qed.
End Image.

(** The pages the image takes. *)
Definition image_count (e : host_env) : nat :=
  Z.to_nat ((_guest64_end e - _guest64_start e + PAGE_SIZE_4K - 1) / PAGE_SIZE_4K).

Lemma image_count_pages e : _guest64_start e <= _guest64_end e ->
  image_pages (_guest64_end e) (_guest64_start e) (image_count e).
Proof. intros H. unfold image_pages, image_count. unfold_consts. split; [|intros _]; zdiv. Qed.

Lemma image_at {B} e (K : unit -> M vmm B) Tk Te n0 hs s k v c : let base := ept_pml4_base (regions v) in
  guest_pages k base Tk Te n0 hs -> P * Z.of_nat (length hs) <= VA_LIMIT ->
  0 <= _guest64_start e <= _guest64_end e -> _guest64_start e + P * Z.of_nat (image_count e) <= n0 ->
  (image_count e < length hs)%nat ->
  exists m, bind (initialize_vmcs_guest_image e) K (at_ s k v c) = K tt (at_ s (with_kmem k m) v c) /\
    guest_pages (with_kmem k m) base Tk Te n0 hs /\
    forall t h x, (t < image_count e)%nat -> hs !! S t = Some h -> 0 <= x < P ->
      rd8 m (h + x) = rd8 (k_mem k) (_guest64_start e + P * Z.of_nat t + x).
Proof.
  intros base Hgp Hs Hi Hn Hl.
  destruct (image_loop_run base Tk Te n0 hs (_guest64_end e) Hs (image_count e) (image_fuel e) (_guest64_start e) 1 s k v c)
    as (m & Hr & Hgp' & Hin & Hout); [|done|lia|lia|done|apply image_count_pages; lia|].
  { unfold image_fuel, image_count. lia. }
  exists m. split; [|split; [exact Hgp'|]].
  - unfold initialize_vmcs_guest_image. rewrite bind_assoc, get_vm_at. fold base.
    rewrite Z.mul_1_r in Hr. by run_with Hr.
  - intros t h x Ht Hh Hx. by apply Hin.
Qed.

(** ** The video page *)
Lemma video_page_set_up {B} (K : unit -> M vmm B) Tk Te n0 hs s k v c : let base := ept_pml4_base (regions v) in
  guest_pages k base Tk Te n0 hs -> ept_room 3 k -> (0 < length hs)%nat ->
  P * Z.of_nat (length hs) <= Video.VIDEO_BUFFER_PAGE_FRAME ->
  mmio_ok s -> nr_mmio_ops s = 0 ->
  exists k' Te' ops, let s' := s <| mmio_ops := ops |> <| nr_mmio_ops := 1 |> in
    bind initialize_vmcs_device K (at_ s k v c) = K tt (at_ s' k' v c) /\
    ept_inv k' base Tk Te' /\
    (forall g, 0 <= g < VA_LIMIT -> guest_page (k_mem k') base g =
       if decide (same_page P g Video.VIDEO_BUFFER_PAGE_FRAME) then Some io_entry else guest_page (k_mem k) base g) /\
    (forall b, b < n0 \/ (exists i h, hs !! i = Some h /\ h <= b < h + P) -> rd8 (k_mem k') b = rd8 (k_mem k) b) /\
    mmio_ok s' /\ regions_of s' = [video_mmio].
Proof.
  intros base Hgp Hr Hpos Hlen Hok Hn. pose proof (gp_inv _ _ _ _ _ _ Hgp) as Hi.
  assert (Hno : guest_page (k_mem k) base Video.VIDEO_BUFFER_PAGE_FRAME = None).
  { rewrite (gp_map _ _ _ _ _ _ Hgp) by (unfold Video.VIDEO_BUFFER_PAGE_FRAME, VA_LIMIT; lia).
    by rewrite (proj2 (Z.ltb_ge _ _)) by lia. }
  destruct (map_ept_page_run k base Tk Te Video.VIDEO_BUFFER_PAGE_FRAME 0x0 PAGE_SYSTEM_IOMEMORY 3 Hi Hr ltac:(lia)
    ltac:(unfold Video.VIDEO_BUFFER_PAGE_FRAME, VA_LIMIT; lia) ltac:(by right))
    as (rc & k' & Te' & Hrun & Hi' & _ & _ & Ht & Hfr & H).
  destruct H as [(_ & Hbad & _)|(-> & _ & Hpg)]; [by destruct Hbad|].
  assert (Hio : setup_io_memory base Video.VIDEO_BUFFER_PAGE_FRAME k = Ret (tt, k')).
  { unfold setup_io_memory. by run_with Hrun. }
  assert (Hr0 : regions_of s = []) by (by rewrite Hn).
  destruct (register_mmio_run (at_ s k' v c) video_mmio) as (ops & Hreg & Hok' & Hperm).
  { by destruct Hok. }
  { unfold region_ok, video_mmio, Video.VIDEO_BUFFER_PAGE_FRAME. cbn. unfold_consts. lia. }
  { change (nr_mmio_ops (at_ s k' v c)) with (nr_mmio_ops s). rewrite Hn. done. }
  { change (regions_of (at_ s k' v c)) with (regions_of s). rewrite Hr0. constructor. }
  change (nr_mmio_ops (at_ s k' v c)) with (nr_mmio_ops s) in Hreg, Hok', Hperm. rewrite Hn in Hreg, Hok', Hperm.
  exists k', Te', ops. cbv zeta. split; [|split; [exact Hi'|split; [exact Hpg|split; [|split]]]].
  - unfold initialize_vmcs_device, Video.device_video_init. rewrite bind_assoc, get_vm_at. fold base.
    rewrite bind_assoc, (in_kernel_at _ _ _ _ _ _ _ _ Hio).
    change (MmioOp _ _ _ _) with video_mmio. run_with Hreg.
    by destruct s.
  - intros b Hb. destruct Hb as [Hb|(i & h & Hh & Hb)].
    + apply Hfr.
      * destruct (lookup_lt_is_Some_2 hs 0) as [h Hh]; [lia|].
        destruct (gp_page _ _ _ _ _ _ Hgp _ _ Hh) as (_ & H1 & H2 & _). unfold_consts. lia.
      * intros (p & l & x & Hp & Hin). pose proof (gp_tables _ _ _ _ _ _ Hgp _ _ Hp). lia.
    + destruct (gp_page _ _ _ _ _ _ Hgp _ _ Hh) as (H4 & _ & Hnx & _ & Hte). apply Hfr; [lia|].
      intros (p & l & x & Hp & Hin). destruct (tree_page _ _ _ _ (ei_tree _ _ _ _ Hi) _ _ _ Hp) as [Hp4 _].
      assert (p = h) as -> by (clear - Hp4 H4 Hin Hb; unfold_consts; zdiv).
      congruence.
  - by destruct Hok'.
  - apply Permutation_singleton_r. exact Hperm.
Qed.

(** ** From the pages to the launch *)
Lemma io_at {B} (K : unit -> M vmm B) s k v c : bitmaps_apart v -> exists m,
  bind initialize_vmcs_io_bitmap K (at_ s k v c) = K tt (at_ s (with_kmem k m) v c) /\
  (forall b, (forall q, is_port q -> b <> port_byte v q) -> rd8 m b = rd8 (k_mem k) b).
Proof.
  intros Ha. destruct (enable_ports_run v monitored_ports (at_ s k v c) Ha monitored_are_ports) as (m & Hr & _ & Hf).
  exists m. split; [|exact Hf]. unfold initialize_vmcs_io_bitmap. rewrite bind_assoc, get_vm_at. run_with Hr.
  by destruct s, k.
Qed.

(** The VMCS of a VM whose guest memory is described by [base]. *)
Definition ept_fields (v : vmcs_blob) (base : Z) : list (Z * Z) := [(CTLS_EPTP, eptp_of base); (CTLS_VPID, vpid v)].
Definition state_fields (e : host_env) (v : vmcs_blob) : list (Z * Z) :=
  host_fields e v ++ guest_fields e ++ pin_fields e ++ processor_controls e v ++ exit_fields e v ++ entry_fields e v.

Section Boot2.
Context (k0 : kernel) (Tk : gmap Z (Z * Z)) (R : Z) (e : host_env).
Hypotheses (Hk : paging_inv k0 Tk) (Hid : forall a, 0 <= a < INITIAL_VA_CEILING -> pa k0 a = a) (Hroom : ept_room R k0).
Hypotheses (He : processor_ok e) (HR : 15 <= R).

Definition new_vm : vmcs_blob := (fresh_vm (next_page k0)) <| vpid := 1 |>.

Lemma new_vm_ok : vm_ok new_vm.
Proof using Hk Hroom HR.
  pose proof (first_page k0 Tk R Hk Hroom) as (F1 & F2 & F3). unfold INITIAL_VA_CEILING in *.
  split; try reflexivity; unfold in64, bitmaps_apart, new_vm, fresh_vm; cbv [update]; cbn; unfold_consts; lia.
Qed.

Lemma low_same_store32 m a x : low_same k0 m -> next_page k0 <= a -> low_same k0 (store32 m a x).
Proof. intros Hm Ha b Hb. unfold store32. rewrite rd8_store_out by lia. by apply Hm. Qed.

Lemma port_byte_high q : is_port q -> next_page k0 <= port_byte new_vm q.
Proof.
  intros Hq. unfold port_byte, IOPORT_TO_REGION, is_port in *.
  change (io_bitmap_region0 (regions new_vm)) with (next_page k0 + P).
  change (io_bitmap_region1 (regions new_vm)) with (next_page k0 + 2 * P).
  destruct ((0 <=? q) && (q <=? 0x7fff)); unfold_consts; zdiv.
Qed.

(** The state of host and guest is in the VMCS; only the VM's pages were written. *)
Lemma state_run s m0 c (K : unit -> M vmm Z) : low_same k0 m0 ->
  exists m, low_same k0 m /\
  (let! v := get_vm in
   let! revision := get_vmx_revision_id e in
   set_mem (fun m => store32 m (guest_region (regions v)) revision) ;;;
   assert (vmx_load e (guest_region (regions v)) =? ERROR_OK) ;;;
   initialize_vmcs_ealy_state e ;;;
   initialize_vmcs_host_state e ;;;
   initialize_vmcs_guest_state e ;;;
   initialize_vmcs_execution_control e ;;;
   initialize_vmcs_vm_exit_control e ;;;
   initialize_vmcs_vm_entry_control e ;;;
   K tt) (at_ s (advance 15 m0 k0) new_vm c) =
  K tt (at_ s (advance 15 m k0) new_vm (written c (state_fields e new_vm))).
Proof using Hk Hid Hroom He HR.
  intros Hm0. pose proof new_vm_ok as Hv. pose proof (pi_ok _ _ Hk) as Hok.
  set (m1 := store32 m0 (next_page k0) (lo32 e IA32_VMX_BASIC_MSR)).
  destruct (io_at (fun _ => (initialize_vmcs_procbased_control e ;;; initialize_vmcs_vm_exit_control e ;;;
    initialize_vmcs_vm_entry_control e ;;; K tt)) s (advance 15 m1 k0) new_vm
    (written c (host_fields e new_vm ++ guest_fields e ++ pin_fields e)) (vo_apart _ Hv)) as (m2 & Hio & Hf).
  exists (memset (memset m2 (vm_exit_store_msr_region (regions new_vm)) 0 P) (vm_exit_load_msr_region (regions new_vm)) 0 P).
  split.
  { change (vm_exit_store_msr_region (regions new_vm)) with (next_page k0 + 3 * P).
    change (vm_exit_load_msr_region (regions new_vm)) with (next_page k0 + 4 * P).
    apply low_same_memset; [apply low_same_memset|]; try (unfold_consts; lia).
    intros b Hb. rewrite Hf; [by apply low_same_store32|]. intros q Hq ->. pose proof (port_byte_high q Hq). lia. }
  rewrite get_vm_at. unfold get_vmx_revision_id. cbv zeta. cbn [fst RDMSR].
  change (u32 (msr_eax e IA32_VMX_BASIC_MSR)) with (lo32 e IA32_VMX_BASIC_MSR).
  rewrite (po_revision e He). cbn [negb]. rewrite bind_assoc, assert_run, bind_ret by done.
  rewrite set_mem_at, set_mem_advance. change (guest_region (regions new_vm)) with (next_page k0). fold m1.
  unfold vmx_load. destruct (po_vmptrld e He) as [-> ->]. cbn [orb]. rewrite assert_run by done.
  unfold initialize_vmcs_ealy_state. cbn [snd RDMSR].
  change (u32 (msr_edx e IA32_VMX_BASIC_MSR)) with (hi32 e IA32_VMX_BASIC_MSR).
  rewrite assert_run by (apply Z.eqb_eq; apply (po_writeback e He)).
  rewrite (host_at e He _ _ _ _ _ Hv), guest_at. unfold initialize_vmcs_execution_control.
  rewrite bind_assoc, (pin_at e He), bind_assoc, !written_app, Hio.
  rewrite (proc_at e He _ _ _ _ _ Hv), (exit_at e He _ _ _ _ _ Hv), (entry_at e He _ _ _ _ _ Hv), !written_app.
  unfold state_fields. rewrite <- !app_assoc. reflexivity.
Qed.

(** The guest's memory: 4097 pages from address 0, three tables a page at most, the
    root, and three tables for the video page. *)
Definition GUEST_PAGES : nat := 4097.
Definition BRING_UP_PAGES : Z := 15 + (4 * 4097 + 3 + 1).

Definition tail_commands : M vmm Z :=
  initialize_vmcs_ept ;;; initialize_vmcs_guest_image e ;;; initialize_vmcs_device ;;;
  set_current_vm ;;; vmx_launch e ;;; ret ERROR_OK.

Definition ept_base : Z := next_page k0 + 15 * P.
Definition mapped_vm : vmcs_blob := new_vm <| regions ::= fun r => r <| ept_pml4_base := ept_base |> |>.

Lemma eptp_in64 : in64 (eptp_of ept_base).
Proof using Hk Hroom HR.
  pose proof (first_page k0 Tk R Hk Hroom) as (F1 & F2 & F3). unfold INITIAL_VA_CEILING in *.
  assert (Hb : 0 <= ept_base < 2 ^ 31) by (unfold ept_base; unfold_consts; lia).
  unfold in64, eptp_of. change (Z.shiftl (4 - 1) 3) with 24. change (Z.shiftl 1 6) with 64.
  enough (0 <= Z.lor (Z.lor (Z.lor ept_base 6) 24) 64 < 2 ^ 31) by lia.
  repeat (apply lor_range; [|lia]). lia.
Qed.

Lemma ept_at {B} s m c (K : unit -> M vmm B) : BRING_UP_PAGES <= R -> low_same k0 m -> exists k1 Te hs,
  bind initialize_vmcs_ept K (at_ s (advance 15 m k0) new_vm c) =
    K tt (at_ s k1 mapped_vm (written c (ept_fields mapped_vm ept_base))) /\
  length hs = GUEST_PAGES /\ guest_pages k1 ept_base Tk Te (next_page k0) hs /\ ept_room 3 k1 /\
  (forall b, b < next_page k0 -> rd8 (k_mem k1) b = rd8 (k_mem k0) b).
Proof using Hk Hid Hroom HR.
  intros Hbig Hm. unfold BRING_UP_PAGES in Hbig.
  destruct (booted_advance k0 Tk R Hk Hid Hroom 15 m ltac:(lia) Hm) as [Hk1 Hid1].
  destruct (advance_ok 15 R m k0 (pi_ok _ _ Hk) Hroom ltac:(lia)) as [_ Hr1].
  assert (Hp : ept_pages 0 (16 * 1024 * 1024) = GUEST_PAGES) by (vm_compute; reflexivity).
  destruct (setup_basic_run (advance 15 m k0) Tk 0 (16 * 1024 * 1024) 3 Hk1 Hid1) as (k1 & Te & hs & Hrun & Hlen & Hgm & Hr3 & Ht & Hf).
  - lia.
  - done.
  - unfold VA_LIMIT. unfold_consts. lia.
  - lia.
  - rewrite Hp. destruct Hr1 as (A1 & A2 & A3). unfold ept_room. unfold GUEST_PAGES. split_and!; [exact A1| |exact A3].
    unfold_consts. lia.
  - assert (Hb : next_page (advance 15 m k0) = ept_base).
    { change (next_page k0 + P * 15 = ept_base). unfold ept_base. lia. }
    rewrite Hb in *. exists k1, Te, hs. split; [|split; [by rewrite Hlen, Hp|split; [|split; [exact Hr3|]]]].
    + unfold initialize_vmcs_ept. rewrite bind_assoc, (in_kernel_at _ _ _ _ _ _ _ _ Hrun), bind_assoc, set_regions_at.
      change (new_vm <| regions ::= _ |>) with mapped_vm.
      rewrite bind_assoc, VMXWRITE_run by (split; [reflexivity|exact eptp_in64]). rewrite put_fields_at.
      rewrite bind_assoc, get_vm_at, bind_assoc, assert_run by reflexivity.
      rewrite VMXWRITE_run by (split; [reflexivity|by split]). by rewrite put_fields_at, written_app.
    + pose proof (first_page k0 Tk R Hk Hroom) as (F1 & F2 & F3).
      apply (guest_pages_of_memory k1 ept_base Tk Te (ept_base + P)); [exact Hgm| | |].
      * unfold ept_base. unfold_consts. lia.
      * intros p [l x] Hpx. by apply (pi_below _ _ Hk p l x).
      * intros p y Hpy. pose proof (Ht p y Hpy) as Hle. unfold ept_base in *. unfold_consts. lia.
    + intros b Hlt. rewrite Hf by (unfold ept_base; unfold_consts; lia). by apply Hm.
Qed.
End Boot2.

(** ** What the VMCS holds at launch *)

(** Every field but the link pointer. *)
Definition head_fields (e : host_env) (v : vmcs_blob) : list (Z * Z) :=
  host_fields e v ++ guest_segments ++ guest_registers e.
Definition rest_fields (e : host_env) (v : vmcs_blob) : list (Z * Z) :=
  [(GUEST_IA32_EFER, 0)] ++ pin_fields e ++ processor_controls e v ++ exit_fields e v ++ entry_fields e v ++
  ept_fields v (ept_pml4_base (regions v)).
Definition vm_fields (e : host_env) (v : vmcs_blob) : list (Z * Z) := head_fields e v ++ rest_fields e v.

Lemma state_fields_split e v : state_fields e v ++ ept_fields v (ept_pml4_base (regions v)) =
  head_fields e v ++ link_pointer ++ rest_fields e v.
Proof. unfold state_fields, guest_fields, head_fields, rest_fields. by rewrite <- !app_assoc. Qed.

Lemma vmread_around c l1 x l2 : Forall field_ok (l1 ++ l2) -> NoDup (field_base ∘ fst <$> l1 ++ l2) ->
  Forall (fun p => field_base p.1 ∉ (field_base ∘ fst <$> l1 ++ l2)) x ->
  Forall (fun p => vmread (written c (l1 ++ x ++ l2)) p.1 = p.2) (l1 ++ l2).
Proof.
  intros Hok Hnd Hx. apply Forall_forall. intros [f v] Hin.
  assert (Hf : field_ok (f, v)) by (by eapply Forall_forall in Hok).
  assert (Hne : Forall (fun p => field_base p.1 <> field_base f) x).
  { eapply Forall_impl; [exact Hx|]. intros p Hp E. cbn beta in Hp. apply Hp. rewrite E.
    apply (list_elem_of_fmap_2 (field_base ∘ fst) _ (f, v)). exact Hin. }
  assert (Hsame : forall r a : list (Z * Z), (forall p, p ∈ a -> p ∈ r) -> field_base f ∉ (field_base ∘ fst <$> r) ->
    Forall (fun p => field_base p.1 <> field_base f) a).
  { intros r a Hsub Hni. apply Forall_forall. intros p Hp E. apply Hni. rewrite <- E.
    apply (list_elem_of_fmap_2 (field_base ∘ fst)). by apply Hsub. }
  pose proof Hin as Hin'. apply elem_of_app in Hin' as [H|H]; apply list_elem_of_split in H as (a & b & ->).
  - rewrite <- app_assoc. cbn [app]. apply vmread_written_once; [exact Hf|].
    rewrite <- app_assoc in Hnd. cbn [app] in Hnd. rewrite fmap_app, fmap_cons, NoDup_app, NoDup_cons in Hnd.
    destruct Hnd as (_ & _ & Hni & _). rewrite !Forall_app. split_and!; [|exact Hne|].
    + apply (Hsame (b ++ l2)); [|exact Hni]. intros p Hp. apply elem_of_app. by left.
    + apply (Hsame (b ++ l2)); [|exact Hni]. intros p Hp. apply elem_of_app. by right.
  - replace (l1 ++ x ++ a ++ (f, v) :: b) with ((l1 ++ x ++ a) ++ (f, v) :: b) by (by rewrite <- !app_assoc).
    apply vmread_written_once; [exact Hf|].
    rewrite app_assoc in Hnd. rewrite fmap_app, fmap_cons, NoDup_app, NoDup_cons in Hnd.
    destruct Hnd as (_ & _ & Hni & _). by apply (Hsame b).
Qed.

Definition sample_env : host_env := HostEnv (fun _ => 0) (fun _ => 0) 0 0 0 0 0 0 0 0 0 0 true.
Definition field_bases : list Z := Eval vm_compute in (field_base ∘ fst <$> vm_fields sample_env zero_blob).
Lemma vm_fields_bases e v : field_base ∘ fst <$> vm_fields e v = field_bases.
Proof. reflexivity. Qed.
Lemma field_bases_NoDup : NoDup field_bases.
Proof. apply (bool_decide_unpack _). vm_compute. exact I. Qed.

Lemma rest_fields_ok e v : vm_ok v -> in64 (eptp_of (ept_pml4_base (regions v))) -> Forall field_ok (rest_fields e v).
Proof.
  intros [] Hb. unfold rest_fields, pin_fields, processor_controls, exit_fields, entry_fields, ept_fields. cbn [app].
  repeat (apply Forall_cons_2; [split; [reflexivity|]|]); try apply Forall_nil_2.
  all: match goal with |- _ <= _.2 < 2 ^ field_size ?f => let n := eval vm_compute in (field_size f) in
         change (field_size f) with n end; cbn [snd].
  all: first [apply control_range; by split|assumption|by split|rewrite vo_vpid0; by split].
Qed.

Lemma vm_fields_ok e v : env_ok e -> vm_ok v -> in64 (eptp_of (ept_pml4_base (regions v))) ->
  Forall field_ok (vm_fields e v).
Proof.
  intros He Hv Hb. unfold vm_fields, head_fields. rewrite !Forall_app. pose proof (guest_fields_ok e) as Hg.
  unfold guest_fields in Hg. rewrite !Forall_app in Hg. destruct Hg as (H1 & H2 & _).
  split_and!; [apply host_fields_ok; [done|apply Hv]|done|done|by apply rest_fields_ok].
Qed.

(** Reading the VMCS back; the two halves of the link pointer are all ones. *)
Lemma vmcs_readback e v c : env_ok e -> vm_ok v -> in64 (eptp_of (ept_pml4_base (regions v))) ->
  let c' := written c (state_fields e v ++ ept_fields v (ept_pml4_base (regions v))) in
  Forall (fun p => vmread c' p.1 = p.2) (vm_fields e v) /\
  vmread c' GUEST_VMCS_LINK_POINTER_LOW = 2 ^ 64 - 1.
Proof.
  intros He Hv Hb c'. unfold c'. rewrite state_fields_split. split.
  - apply vmread_around.
    + by apply vm_fields_ok.
    + change (NoDup (field_base ∘ fst <$> vm_fields e v)). rewrite vm_fields_bases. exact field_bases_NoDup.
    + change (head_fields e v ++ rest_fields e v) with (vm_fields e v). rewrite vm_fields_bases.
      apply Forall_forall. intros p Hp. unfold link_pointer in Hp.
      assert (field_base p.1 = field_base GUEST_VMCS_LINK_POINTER_LOW) as ->.
      { apply elem_of_cons in Hp as [->|Hp]; [done|]. apply elem_of_cons in Hp as [->|Hp]; [done|]. by apply elem_of_nil in Hp. }
      apply (bool_decide_unpack _). vm_compute. exact I.
  - rewrite <- (written_app c (head_fields e v)), <- (written_app _ link_pointer).
    generalize (written c (head_fields e v)). intros w.
    rewrite vmread_written_other.
    + set (w1 := vmwrite w GUEST_VMCS_LINK_POINTER_LOW 0xffffffff).
      assert (Hw1 : w1 !! 0x2800 = Some 0xffffffff) by (apply lookup_insert_eq).
      change (written w link_pointer) with (vmwrite w1 GUEST_VMCS_LINK_POINTER_HIGH 0xffffffff).
      assert (Hw2 : vmwrite w1 GUEST_VMCS_LINK_POINTER_HIGH 0xffffffff !! 0x2800 = Some (2 ^ 64 - 1)).
      { unfold vmwrite. change (field_base GUEST_VMCS_LINK_POINTER_HIGH) with 0x2800. rewrite Hw1. apply lookup_insert_eq. }
      unfold vmread. change (field_base GUEST_VMCS_LINK_POINTER_LOW) with 0x2800. by rewrite Hw2.
    + apply Forall_forall. intros p Hp E.
      assert (Hni : field_base GUEST_VMCS_LINK_POINTER_LOW ∉ (field_base ∘ fst <$> rest_fields e v)).
      { replace (field_base ∘ fst <$> rest_fields e v) with (field_base ∘ fst <$> rest_fields sample_env zero_blob) by reflexivity.
        apply (bool_decide_unpack _). vm_compute. exact I. }
      apply Hni. rewrite <- E. by apply (list_elem_of_fmap_2 (field_base ∘ fst)).
Qed.

(** ** A running VM *)

(** A booted machine: the low 2 GiB are mapped one to one, the allocator's low
    segment has room, and no MMIO region is registered. *)
Record booted (s : vmm) (Tk : gmap Z (Z * Z)) : Prop := {
  bo_tables : paging_inv (kern s) Tk;
  bo_identity : forall a, 0 <= a < INITIAL_VA_CEILING -> pa (kern s) a = a;
  bo_room : ept_room BRING_UP_PAGES (kern s);
  bo_screen : Video.VIDEO_BUFFER_BASE + P <= next_page (kern s);
  bo_mmio : mmio_ok s;
  bo_no_mmio : nr_mmio_ops s = 0 }.

(** The image is in memory the allocator does not hand out and fits the guest. *)
Record image_ok (e : host_env) (s : vmm) : Prop := {
  im_order : 0 <= _guest64_start e <= _guest64_end e;
  im_below : _guest64_start e + P * Z.of_nat (image_count e) <= next_page (kern s);
  im_fits : (image_count e < GUEST_PAGES)%nat }.

(** The guest is launched on [hs], with memory before the bring-up [m0]. *)
Record vm_running (e : host_env) (m0 : memory) (lowest : Z) (s : vmm) (hs : list Z) : Prop := {
  vr_current : current_vm s = true;
  vr_fields : Forall (fun p => vmread (cur s) p.1 = p.2) (vm_fields e (vm s));
  vr_link : vmread (cur s) GUEST_VMCS_LINK_POINTER_LOW = 2 ^ 64 - 1;
  vr_count : length hs = GUEST_PAGES;
  vr_fresh : NoDup hs /\ Forall (fun h => lowest <= h /\ h mod P = 0) hs;
  vr_memory : forall i h x, hs !! i = Some h -> 0 <= x < P ->
    guestpa_to_hostpa (kern s) (ept_pml4_base (regions (vm s))) (P * Z.of_nat i + x) = h + x;
  vr_outside : forall g, P * Z.of_nat GUEST_PAGES <= g < VA_LIMIT -> ~ same_page P g Video.VIDEO_BUFFER_PAGE_FRAME ->
    guest_page (k_mem (kern s)) (ept_pml4_base (regions (vm s))) g = None;
  vr_image : forall x, 0 <= x < P * Z.of_nat (image_count e) ->
    rd8 (k_mem (kern s)) (guestpa_to_hostpa (kern s) (ept_pml4_base (regions (vm s))) (P + x)) =
    rd8 m0 (_guest64_start e + x);
  vr_video : video_machine s }.

Lemma tail_run (s : vmm) k0 Tk e m c : booted s Tk -> kern s = k0 -> processor_ok e -> image_ok e s ->
  low_same k0 m -> exists k Te hs ops, let v := mapped_vm k0 in
  let s' := s <| mmio_ops := ops |> <| nr_mmio_ops := 1 |> in
  tail_commands e (at_ s (advance 15 m k0) (new_vm k0) c) =
    Ret (ERROR_OK, (at_ s' k v (written c (ept_fields v (ept_base k0)))) <| current_vm := true |>) /\
  length hs = GUEST_PAGES /\ NoDup hs /\ Forall (fun h => next_page k0 <= h /\ h mod P = 0) hs /\
  ept_inv k (ept_base k0) Tk Te /\
  (forall i h x, hs !! i = Some h -> 0 <= x < P -> guestpa_to_hostpa k (ept_base k0) (P * Z.of_nat i + x) = h + x) /\
  (forall g, P * Z.of_nat GUEST_PAGES <= g < VA_LIMIT -> ~ same_page P g Video.VIDEO_BUFFER_PAGE_FRAME ->
     guest_page (k_mem k) (ept_base k0) g = None) /\
  (forall t h x, (t < image_count e)%nat -> hs !! S t = Some h -> 0 <= x < P ->
     rd8 (k_mem k) (h + x) = rd8 (k_mem k0) (_guest64_start e + P * Z.of_nat t + x)) /\
  mmio_ok s' /\ regions_of s' = [video_mmio].
Proof.
  intros [Hk Hid Hr Hs Hm Hn] <- He [I1 I2 I3] Hlow. set (k0 := kern s) in *. unfold tail_commands.
  destruct (ept_at k0 Tk BRING_UP_PAGES Hk Hid Hr ltac:(unfold BRING_UP_PAGES; lia) s m c
    (fun _ => (initialize_vmcs_guest_image e ;;; initialize_vmcs_device ;;; set_current_vm ;;; vmx_launch e ;;; ret ERROR_OK))
    ltac:(lia) Hlow) as (k1 & Te & hs & Hrun & Hlen & Hgp & Hr3 & Hf).
  assert (Hsize : P * Z.of_nat (length hs) = 16781312) by (rewrite Hlen; unfold GUEST_PAGES; unfold_consts; lia).
  set (c1 := written c (ept_fields (mapped_vm k0) (ept_base k0))) in *.
  destruct (image_at e (fun _ => (initialize_vmcs_device ;;; set_current_vm ;;; vmx_launch e ;;; ret ERROR_OK)) Tk Te
    (next_page k0) hs s k1 (mapped_vm k0) c1 Hgp) as (m2 & Hrun2 & Hgp2 & Himg); [unfold VA_LIMIT; lia|done|done|lia|].
  destruct (video_page_set_up (fun _ => (set_current_vm ;;; vmx_launch e ;;; ret ERROR_OK)) Tk Te (next_page k0) hs s
    (with_kmem k1 m2) (mapped_vm k0) c1 Hgp2 Hr3) as (k2 & Te' & ops & Hrun3 & Hi3 & Hpg & Hsame & Hmm & Hreg);
    [rewrite Hlen; unfold GUEST_PAGES; lia|unfold Video.VIDEO_BUFFER_PAGE_FRAME; lia|done|done|].
  exists k2, Te', hs, ops. cbv zeta in *. split_and!; try done.
  - rewrite Hrun, Hrun2, Hrun3. unfold set_current_vm. rewrite bind_modify. unfold vmx_launch.
    rewrite assert_run by apply He. reflexivity.
  - apply (gp_distinct _ _ _ _ _ _ Hgp2).
  - apply Forall_forall. intros h Hh. apply list_elem_of_lookup in Hh as [i Hh].
    destruct (gp_page _ _ _ _ _ _ Hgp2 _ _ Hh) as (A & A2 & _). done.
  - intros i h x Hh Hx. destruct (guest_page_at _ _ _ _ _ _ _ _ _ Hgp2 Hh Hx) as (Hg & Ex & Hgm); [unfold VA_LIMIT; lia|].
    destruct (gp_page _ _ _ _ _ _ Hgp2 _ _ Hh) as (H1 & H2 & _ & H4 & _). pose proof (gp_n0 _ _ _ _ _ _ Hgp2).
    rewrite (translate_ram k2 (ept_base k0) _ h); [by rewrite Ex|unfold VA_LIMIT; lia| |lia|lia|done].
    change (ept_pml4_base (regions (mapped_vm k0))) with (ept_base k0) in Hpg.
    rewrite Hpg by (unfold VA_LIMIT; lia). rewrite decide_False; [exact Hgm|].
    unfold same_page, Video.VIDEO_BUFFER_PAGE_FRAME. rewrite Hsize in Hg. clear - Hg. unfold_consts. zdiv.
  - intros g Hg Hnv. change (ept_pml4_base (regions (mapped_vm k0))) with (ept_base k0) in Hpg.
    rewrite Hpg, decide_False by (try done; unfold_consts; lia). rewrite (gp_map _ _ _ _ _ _ Hgp2) by (unfold_consts; lia).
    rewrite Hlen. by rewrite (proj2 (Z.ltb_ge _ _)) by lia.
  - intros t h x Ht Hh Hx. rewrite Hsame by (right; exists (S t), h; split; [done|lia]).
    change (k_mem (with_kmem k1 m2)) with m2. rewrite (Himg t h x) by done. apply Hf. unfold_consts. nia.
Qed.

Lemma start_vm_runs (e : host_env) (s : vmm) (Tk : gmap Z (Z * Z)) :
  booted s Tk -> processor_ok e -> image_ok e s ->
  exists s' hs, start_vm e s = Ret (ERROR_OK, s') /\
    vm_running e (k_mem (kern s)) (next_page (kern s)) s' hs.
Proof.
  intros Hb He Hi. pose proof Hb as [Hk Hid Hr Hsc _ _]. set (k0 := kern s) in *.
  assert (HR : 15 <= BRING_UP_PAGES) by (unfold BRING_UP_PAGES; lia).
  pose proof (pre_initialize_run k0 Tk BRING_UP_PAGES Hk Hid Hr s eq_refl HR) as Hpre.
  set (m0 := zero_pages (k_mem k0) (zeroed_pages (next_page k0))) in *.
  assert (Hm0 : low_same k0 m0).
  { apply (low_same_zero k0); [apply low_same_refl|]. unfold zeroed_pages. repeat (apply Forall_cons_2; [unfold_consts; lia|]).
    apply Forall_nil_2. }
  destruct (state_run k0 Tk BRING_UP_PAGES e Hk Hid Hr He HR s m0 (cur s) (fun _ => tail_commands e) Hm0) as (m & Hm & Hst).
  set (c := written (cur s) (state_fields e (new_vm k0))) in *.
  destruct (tail_run s k0 Tk e m c Hb eq_refl He Hi Hm)
    as (k & Te & hs & ops & Hrun & Hlen & Hnd & Hfr & Hinv & Htr & Hout & Himg & Hmm & Hreg).
  eexists _, hs. split.
  - unfold start_vm. run_with Hpre. rewrite set_vm_at. change ((fresh_vm (next_page k0)) <| vpid := 1 |>) with (new_vm k0).
    unfold initialize_vmcs. etransitivity; [exact Hst|exact Hrun].
  - assert (Hv : vm_ok (mapped_vm k0)) by (by destruct (new_vm_ok k0 Tk BRING_UP_PAGES Hk Hr HR)).
    destruct (vmcs_readback e (mapped_vm k0) (cur s) (po_env e He) Hv (eptp_in64 k0 Tk BRING_UP_PAGES Hk Hr HR)) as [Hf Hl].
    assert (Ec : written c (ept_fields (mapped_vm k0) (ept_base k0)) =
      written (cur s) (state_fields e (mapped_vm k0) ++ ept_fields (mapped_vm k0) (ept_base k0))) by (apply written_app).
    cbv zeta in Hf, Hl. change (ept_pml4_base (regions (mapped_vm k0))) with (ept_base k0) in Hf, Hl. rewrite <- Ec in Hf, Hl.
    split; [reflexivity|exact Hf|exact Hl|exact Hlen|exact (conj Hnd Hfr)|exact Htr|exact Hout| |].
    + intros x Hx. change (ept_pml4_base (regions (mapped_vm k0))) with (ept_base k0).
      assert (Hx1 : x = P * Z.of_nat (Z.to_nat (x / P)) + x mod P) by (clear - Hx; unfold_consts; zdiv).
      set (t := Z.to_nat (x / P)) in *. set (y := x mod P) in *.
      assert (Hy : 0 <= y < P) by (apply Z.mod_pos_bound; unfold_consts; lia).
      assert (Ht : (t < image_count e)%nat) by (clear - Hx Hx1 Hy; unfold_consts; nia).
      destruct (lookup_lt_is_Some_2 hs (S t)) as [h Hh]; [pose proof (im_fits _ _ Hi); lia|].
      replace (P + x) with (P * Z.of_nat (S t) + y) by (clear - Hx1; unfold_consts; lia).
      etransitivity; [exact (f_equal (rd8 (k_mem k)) (Htr (S t) h y Hh Hy))|].
      rewrite (Himg t h y Ht Hh Hy). f_equal. lia.
    + pose proof (mmio_lookup _ 0 Hmm (conj (Z.le_refl 0) eq_refl)) as H0. rewrite Hreg in H0. injection H0 as H0.
      destruct Hmm as [A1 A2 A3 A4]. split; [constructor; [exact A1|exact A2|exact A3|exact A4]| |].
      * exists 0. split; [exact (conj (Z.le_refl 0) eq_refl)|]. symmetry. exact H0.
      * right. change (video_buffer (regions _)) with (next_page k0 + 14 * P). unfold_consts. lia.
Qed.

(** C1 Bringing up a VM: on a booted machine whose processor offers the features the
    monitor checks for, [start_vm] completes and launches the guest. Every field of
    the VMCS reads back what it is meant to hold (the host's state, a guest in real
    mode, control words adjusted to the processor, the extended page table); guest
    addresses from 0 to 16 MiB translate to 4097 distinct pages never handed out
    before and no other address is accessible; the image is in guest memory from the
    second page on; and the video page traps to the monitor's callbacks. *)
Theorem vm_brought_up (e : host_env) (s : vmm) (Tk : gmap Z (Z * Z)) :
  booted s Tk -> processor_ok e -> image_ok e s ->
  exists s' hs, start_vm e s = Ret (ERROR_OK, s') /\
    vm_running e (k_mem (kern s)) (next_page (kern s)) s' hs.
Proof. apply start_vm_runs. Qed.

(** A processor with every control bit available, and an image of three pages. *)
Definition sample_host : host_env :=
  HostEnv (fun msr => if msr =? IA32_VMX_EPT_VPID_CAP_MSR then 1 else 0)
    (fun msr => if msr =? IA32_VMX_BASIC_MSR then 0x180000 else 0xffffffff)
    0x80000031 0x601000 0x2020 0x1000 0x2000 0x3000 0x104000 0x200000 0x202800 2 true.

Lemma vm_brought_up_witness : exists s s' hs,
  start_vm sample_host s = Ret (ERROR_OK, s') /\ length hs = GUEST_PAGES /\
  guestpa_to_hostpa (kern s') (ept_pml4_base (regions (vm s'))) 0x1000 ∈ hs.
Proof.
  destruct sample_boot as (k0 & T & _ & Hi & Hid & Hp).
  destruct (vm_brought_up sample_host (sample_vmm <| kern := k0 |>) T) as (s' & hs & Hr & [_ _ _ Hlen _ Hm _ _ _]).
  - split; [exact Hi|exact Hid| | | |reflexivity].
    + unfold ept_room. change (kern _) with k0. rewrite Hp. by_compute.
    + unfold next_page. change (kern _) with k0. rewrite Hp. by_compute.
    + constructor; [by_compute|reflexivity|constructor|constructor].
  - constructor; try reflexivity; [constructor; split; by_compute|split; reflexivity].
  - split; [by_compute| |apply Nat.ltb_lt; vm_compute; reflexivity]. unfold next_page. change (kern _) with k0. rewrite Hp. by_compute.
  - exists (sample_vmm <| kern := k0 |>), s', hs. split; [exact Hr|]. split; [exact Hlen|].
    destruct (lookup_lt_is_Some_2 hs 1) as [h Hh]; [rewrite Hlen; unfold GUEST_PAGES; lia|].
    pose proof (Hm 1%nat h 0 Hh ltac:(unfold PAGE_SIZE_4K; lia)) as E.
    change (P * Z.of_nat 1 + 0) with 0x1000 in E. rewrite E, Z.add_0_r. by eapply list_elem_of_lookup_2.
Defined.
