(* ===== verification/Drivers.v ===== *)
(** * Drivers: the guest's device drivers ([guest/serial.c], [guest/printk.c],
    [guest/interrupt.c], [guest/pit.c]) and their meeting with the monitor.

    The drivers are written against an interface, [Ports]: what an [outb] and an
    [inb] do. [PortsSpec] says what the drivers rely on; their theorems are proved
    from it. The monitor's exit handler is an instance: a port instruction of the
    guest loads AL, exits, and is emulated. *)
From Stdlib Require Import ZArith Lia String.
From stdpp Require Import base tactics list numbers gmap.
From S2P Require Import Prelude Memory Format PhysicalMemory Radix Paging PagingInit Ept Ring SortSearch.
From S2P Require Import Vmm Registry Devices Event Schedule Decode Exit.
Local Open Scope Z_scope.

(** ** Port instructions *)
Class Ports (St : Type) := {
  outb : Z -> Z -> M St unit;
  inb : Z -> M St Z }.

(** ** The drivers *)
Definition COM1_PORT : Z := 0x3f8.
Definition PIC_MASTER_COMMAND_PORT : Z := 0x20.
Definition PIC_MASTER_DATA_PORT : Z := 0x21.
Definition PIC_SLAVE_COMMAND_PORT : Z := 0xa0.
Definition PIC_SLAVE_DATA_PORT : Z := 0xa1.
Definition PIT_CHANNEL0_PORT : Z := 0x40.
Definition PIT_CONTROL_PORT : Z := 0x43.
Definition KEYBOARD_DATA_PORT : Z := 0x60.
Definition OSCILLATPR_CHIP_FREQUENCY : Z := 1193182.
Definition TIMER_RESOLUTION_HZ : Z := 100.

Section Drivers.
Context {St : Type} `{Ports St} (ram : St -> memory).

Definition is_transmit_empty : M St Z :=
  let! status := inb (COM1_PORT + 5) in
  ret (Z.land status 0x20).
(** [while (is_transmit_empty() == 0);] *)
Fixpoint wait_transmit (fuel : nat) : M St unit :=
  match fuel with
  | O => stop OutOfFuel
  | S k => let! e := is_transmit_empty in if e =? 0 then wait_transmit k else ret tt
  end.
Definition write_serial (fuel : nat) (a : Z) : M St unit :=
  wait_transmit fuel ;;; outb COM1_PORT (u8 a).

Fixpoint print_string (fuel : nat) (content : list Z) : M St unit :=
  match content with
  | [] => ret tt
  | c :: rest => if c =? 0 then ret tt else write_serial fuel c ;;; print_string fuel rest
  end.

(** [printk]: the same walk over the format as the kernel's. *)
Definition printk_mp_raw (fuel sfuel : nat) (fmt : Z -> Z) (args : list Z) : M St unit :=
  format_loop (write_serial fuel) ram sfuel sfuel fmt 0 args.
Definition printk (fuel : nat) (fmt : list Z) (args : list Z) : M St unit :=
  printk_mp_raw fuel (Z.to_nat PAGE_SIZE_4K) (literal fmt) args.

Definition pic_remap : M St unit :=
  outb PIC_MASTER_DATA_PORT 0xff ;;;
  outb PIC_SLAVE_DATA_PORT 0xff ;;;
  outb PIC_MASTER_COMMAND_PORT 0x11 ;;;
  outb PIC_SLAVE_COMMAND_PORT 0x11 ;;;
  outb PIC_MASTER_DATA_PORT 0x20 ;;;
  outb PIC_SLAVE_DATA_PORT 0x28 ;;;
  outb PIC_MASTER_DATA_PORT 0x04 ;;;
  outb PIC_SLAVE_DATA_PORT 0x02 ;;;
  outb PIC_MASTER_DATA_PORT 0x01 ;;;
  outb PIC_SLAVE_DATA_PORT 0x01 ;;;
  outb PIC_MASTER_DATA_PORT 0x00 ;;;
  outb PIC_SLAVE_DATA_PORT 0x00.

Definition refresh_pit_channel0 : M St unit :=
  let divisor := OSCILLATPR_CHIP_FREQUENCY / TIMER_RESOLUTION_HZ in
  outb PIT_CONTROL_PORT (Z.lor 0x6 0x30) ;;;
  outb PIT_CHANNEL0_PORT (Z.land divisor 0xff) ;;;
  outb PIT_CHANNEL0_PORT (Z.land (Z.shiftr divisor 8) 0xff).

Definition pit_init (fuel : nat) : M St unit :=
  refresh_pit_channel0 ;;;
  print_string fuel (chars "finish pit initlization" ++ [10]).

(** The end of [interrupt_init]: the controllers and the message. *)
Definition interrupt_init_ports (fuel : nat) : M St unit :=
  pic_remap ;;;
  print_string fuel (chars "Finishing guest interrupt initialization" ++ [10]).

Definition acknowledge (vector : Z) : M St unit :=
  (if 40 <=? vector then outb PIC_SLAVE_COMMAND_PORT 0x20 else ret tt) ;;;
  outb PIC_MASTER_COMMAND_PORT 0x20.

Definition unrecognized : list Z := chars "unrecoginzed guest interrupt request:%d" ++ [10].
(** [handlers[vector]], or the message when there is none; then the
    acknowledgement. *)
Definition interrupt_handler (fuel : nat) (handlers : Z -> option (M St unit)) (vector : Z) : M St unit :=
  match handlers vector with
  | Some handler => handler
  | None => printk fuel unrecognized [vector]
  end ;;;
  acknowledge vector.

(** The port traffic of [guest_kernel_main], in its order. *)
Definition guest_kernel_main_ports (fuel : nat) : M St unit :=
  print_string fuel (chars "Finishing guest paging." ++ [10]) ;;;
  interrupt_init_ports fuel ;;;
  pit_init fuel ;;;
  print_string fuel (chars "finish keyboard initialization" ++ [10]) ;;;
  print_string fuel (chars "finished timer initialization" ++ [10]).
End Drivers.

(** ** What the drivers rely on *)

(** The machine behind the ports, as a driver sees it: the bytes sent on the
    serial line and the registers of the controllers and the timer. *)
Record view := View { sent : list Z; pics : pic8259_blob; timer : pit8253_blob }.
#[export] Instance eta_view : Eta view := fun v => View (sent v) (pics v) (timer v).

Definition pic_port (a : pic_access) : Z :=
  match a with
  | PicAccess true d _ => if d then PIC_MASTER_DATA_PORT else PIC_MASTER_COMMAND_PORT
  | PicAccess false d _ => if d then PIC_SLAVE_DATA_PORT else PIC_SLAVE_COMMAND_PORT
  end.
Definition pic_byte (a : pic_access) : Z := match a with PicAccess _ _ b => b end.

Class PortsSpec (St : Type) `{Ports St} (shows : St -> view -> Prop) := {
  serial_status s v : shows s v ->
    runs (inb (COM1_PORT + 5)) s (fun b s' => Z.land b 0x20 <> 0 /\ shows s' v);
  serial_data s v b : is_byte b -> shows s v ->
    runs (outb COM1_PORT b) s (fun _ s' => shows s' (v <| sent ::= fun l => l ++ [b] |>));
  pic_data s v a : is_byte (pic_byte a) -> shows s v ->
    runs (outb (pic_port a) (pic_byte a)) s (fun _ s' => shows s' (v <| pics ::= pic_write a |>));
  pit_data s v port b p : is_byte b -> port = PIT_CONTROL_PORT \/ port = PIT_CHANNEL0_PORT ->
    pit_write port b (timer v) = Ret p -> shows s v ->
    runs (outb port b) s (fun _ s' => shows s' (v <| timer := p |>));
  keyboard_data s v : shows s v ->
    runs (inb KEYBOARD_DATA_PORT) s (fun b s' => is_byte b /\ shows s' v) }.

Section Spec.
Context {St : Type} `{PortsSpec St shows} (ram : St -> memory).

Lemma write_serial_runs fuel a s v :
  (0 < fuel)%nat -> shows s v ->
  runs (write_serial fuel a) s (fun _ s' => shows s' (v <| sent ::= fun l => l ++ [u8 a] |>)).
Proof.
  intros Hf Hs. destruct fuel as [|k]; [lia|]. unfold write_serial. cbn [wait_transmit].
  apply runs_bind, runs_bind, runs_bind.
  eapply runs_mono; [by apply serial_status|]. intros b s1 [Hb H1]. apply runs_ret.
  rewrite (proj2 (Z.eqb_neq _ 0) Hb). apply runs_ret.
  apply serial_data; [|done]. apply u8_range.
Qed.

Lemma sent_app v l l' :
  (v <| sent ::= fun x => x ++ l |>) <| sent ::= fun x => x ++ l' |> = v <| sent ::= fun x => x ++ l ++ l' |>.
Proof. destruct v. unfold update. cbn. by rewrite app_assoc. Qed.

(** A stream of characters, sent one by one. *)
Lemma write_all_runs fuel l s v :
  (0 < fuel)%nat -> shows s v ->
  runs (miter (write_serial fuel) l) s (fun _ s' => shows s' (v <| sent ::= fun x => x ++ (u8 <$> l) |>)).
Proof.
  intros Hf. revert s v. induction l as [|c l IH]; intros s v Hs; cbn [miter].
  - apply runs_ret. destruct v. unfold update. cbn. by rewrite app_nil_r.
  - apply runs_bind. eapply runs_mono; [by apply write_serial_runs|]. intros [] s1 H1. cbv beta in H1.
    eapply runs_mono; [by apply IH|]. intros [] s2 H2. cbv beta in H2. by rewrite sent_app in H2.
Qed.

Lemma print_string_writes fuel l s :
  Forall (fun c => c <> 0) l -> print_string fuel l s = miter (write_serial fuel) l s.
Proof.
  intros Hl. revert s. induction Hl as [|c l Hc _ IH]; intros s; [done|].
  cbn [print_string miter]. rewrite (proj2 (Z.eqb_neq c 0) Hc). unfold bind.
  destruct (write_serial fuel c s) as [[[] s1]|]; [apply IH|done].
Qed.

(** A text without control characters. *)
Definition plain (l : list Z) : bool := forallb (fun c => (0 <? c) && (c <? 256)) l.
Lemma plain_spec l : plain l = true -> Forall (fun c => c <> 0) l /\ u8 <$> l = l.
Proof.
  induction l as [|c l IH]; [by split|]. cbn [plain forallb]. rewrite !andb_true_iff, !Z.ltb_lt.
  intros [[H1 H2] Hl]. destruct (IH Hl) as [Hf Hm]. split; [constructor; [lia|done]|].
  cbn. rewrite u8_small by lia. by f_equal.
Qed.

Lemma print_string_runs fuel l s v :
  (0 < fuel)%nat -> plain l = true -> shows s v ->
  runs (print_string fuel l) s (fun _ s' => shows s' (v <| sent ::= fun x => x ++ l |>)).
Proof.
  intros Hf Hl Hs. destruct (plain_spec l Hl) as [Hnz Hm]. unfold runs.
  rewrite print_string_writes by done. pose proof (write_all_runs fuel l s v Hf Hs) as Hr.
  by rewrite Hm in Hr.
Qed.

(** *** The controllers and the timer *)
Definition remap_accesses : list pic_access :=
  [PicAccess true true 0xff; PicAccess false true 0xff; PicAccess true false 0x11; PicAccess false false 0x11;
   PicAccess true true 0x20; PicAccess false true 0x28; PicAccess true true 0x04; PicAccess false true 0x02;
   PicAccess true true 0x01; PicAccess false true 0x01; PicAccess true true 0x00; PicAccess false true 0x00].

Lemma pic_accesses_run l s v :
  Forall (fun a => is_byte (pic_byte a)) l -> shows s v ->
  runs (miter (fun a => outb (pic_port a) (pic_byte a)) l) s
    (fun _ s' => shows s' (v <| pics ::= pic_writes l |>)).
Proof.
  intros Hl. revert s v. induction Hl as [|a l Ha _ IH]; intros s v Hs; cbn [miter].
  - apply runs_ret. by destruct v.
  - apply runs_bind. eapply runs_mono; [by apply pic_data|]. intros [] s1 H1. cbv beta in H1.
    eapply runs_mono; [by apply IH|]. intros [] s2 H2. by destruct v.
Qed.

Lemma pic_remap_list s : pic_remap s = miter (fun a => outb (pic_port a) (pic_byte a)) remap_accesses s.
Proof.
  unfold pic_remap, remap_accesses. cbn [miter pic_port pic_byte].
  repeat (apply bind_ext; intros [] ?). symmetry. apply bind_unit.
Qed.

(** Both controllers remapped and unmasked, whatever they held. *)
Definition remapped (p : pic8259_blob) : Prop :=
  master_pic_offset p = 0x20 /\ slave_pic_offset p = 0x28 /\
  master_pic_data p = 0 /\ slave_pic_data p = 0 /\
  is_master_pic_initializing p = 0 /\ is_slave_pic_initializing p = 0.
Lemma pic_writes_remapped p :
  remapped (pic_writes remap_accesses p) /\
  interrupt_delivery_pending (pic_writes remap_accesses p) = interrupt_delivery_pending p.
Proof.
  destruct p as [mc sc md sd [|mi|mi] [|si|si] mo so dp dv]; vm_compute; repeat split.
Qed.

Lemma pic_remap_runs s v :
  shows s v -> runs pic_remap s (fun _ s' => shows s' (v <| pics ::= pic_writes remap_accesses |>)).
Proof.
  intros Hs. unfold runs. rewrite pic_remap_list. apply pic_accesses_run; [|done].
  repeat constructor; vm_compute; congruence.
Qed.

(** A hundred ticks a second: the divisor 11931, and ten milliseconds a tick. *)
Lemma refresh_pit_channel0_runs s v :
  shows s v -> runs refresh_pit_channel0 s (fun _ s' =>
    shows s' (v <| timer := Vmm.Pit 2 11931 10 (last_tsc (timer v)) |>)).
Proof.
  intros Hs. unfold refresh_pit_channel0. cbv zeta. destruct v as [l p [ic dv th lt]].
  apply runs_bind. eapply runs_mono; [exact (pit_data s (View l p (Vmm.Pit ic dv th lt)) PIT_CONTROL_PORT 0x36
    (Vmm.Pit 0 0 th lt) ltac:(unfold is_byte; lia) ltac:(by left) eq_refl Hs)|]. intros [] s1 H1.
  apply runs_bind. eapply runs_mono; [exact (pit_data s1 (View l p (Vmm.Pit 0 0 th lt)) PIT_CHANNEL0_PORT 0x9b
    (Vmm.Pit 1 0x9b th lt) ltac:(unfold is_byte; lia) ltac:(by right) eq_refl H1)|]. intros [] s2 H2.
  exact (pit_data s2 (View l p (Vmm.Pit 1 0x9b th lt)) PIT_CHANNEL0_PORT 0x2e
    (Vmm.Pit 2 11931 10 lt) ltac:(unfold is_byte; lia) ltac:(by right) eq_refl H2).
Qed.

(** What the guest has printed when its initialisation ends. *)
Definition boot_text : list Z :=
  (chars "Finishing guest paging." ++ [10]) ++
  (chars "Finishing guest interrupt initialization" ++ [10]) ++
  (chars "finish pit initlization" ++ [10]) ++
  (chars "finish keyboard initialization" ++ [10]) ++
  (chars "finished timer initialization" ++ [10]).

Definition booted (v v' : view) : Prop :=
  sent v' = sent v ++ boot_text /\ remapped (pics v') /\
  interrupt_delivery_pending (pics v') = interrupt_delivery_pending (pics v) /\
  timer v' = Vmm.Pit 2 11931 10 (last_tsc (timer v)).

Lemma guest_kernel_main_runs fuel s v :
  (0 < fuel)%nat -> shows s v ->
  runs (guest_kernel_main_ports fuel) s (fun _ s' => exists v', shows s' v' /\ booted v v').
Proof.
  intros Hf Hs. unfold guest_kernel_main_ports, interrupt_init_ports, pit_init.
  apply runs_bind. eapply runs_mono; [by apply print_string_runs|]. intros [] s1 H1.
  apply runs_bind, runs_bind. eapply runs_mono; [by apply pic_remap_runs|]. intros [] s2 H2.
  eapply runs_mono; [by apply print_string_runs|]. intros [] s3 H3.
  apply runs_bind, runs_bind. eapply runs_mono; [by apply refresh_pit_channel0_runs|]. intros [] s4 H4.
  eapply runs_mono; [by apply print_string_runs|]. intros [] s5 H5.
  apply runs_bind. eapply runs_mono; [by apply print_string_runs|]. intros [] s6 H6.
  eapply runs_mono; [by apply print_string_runs|]. intros [] s7 H7.
  eexists. split; [exact H7|]. unfold booted. destruct v as [l p t]. cbv [update]. cbn [sent pics timer].
  split; [unfold boot_text; by rewrite <- !app_assoc|].
  destruct (pic_writes_remapped p) as [Hr Hp]. split; [exact Hr|]. split; [exact Hp|]. reflexivity.
Qed.

(** *** Interrupts *)
Lemma acknowledge_runs vector s v :
  shows s v -> runs (acknowledge vector) s (fun _ s' => exists v', shows s' v' /\
    interrupt_delivery_pending (pics v') = 0 /\ sent v' = sent v /\ timer v' = timer v).
Proof.
  intros Hs. unfold acknowledge. apply runs_bind.
  set (eoi := fun m => PicAccess m false 0x20).
  assert (Heoi : forall m s v, shows s v -> runs (outb (pic_port (eoi m)) 0x20) s
    (fun _ s' => shows s' (v <| pics ::= pic_write (eoi m) |>))).
  { intros m s' v' Hs'. apply (pic_data s' v' (eoi m)); [unfold eoi, is_byte; cbn; lia|done]. }
  eapply (runs_mono _ _ (fun _ s' => exists v', shows s' v' /\ sent v' = sent v /\ timer v' = timer v)).
  - destruct (40 <=? vector); [|apply runs_ret; by exists v].
    eapply runs_mono; [by apply (Heoi false)|]. intros [] s1 H1. eexists. by split.
  - intros [] s1 (v1 & H1 & E1 & E2). eapply runs_mono; [by apply (Heoi true)|]. intros [] s2 H2.
    eexists. split; [exact H2|]. by destruct v1.
Qed.

(** An interrupt without a handler is reported. *)
Definition report (vector : Z) : list Z :=
  chars "unrecoginzed guest interrupt request:" ++ decimal vector ++ [10].

(** [printk] sends the rendering of its format. *)
Lemma printk_runs fuel fmt args strs text s v :
  (0 < fuel)%nat -> (length fmt < Z.to_nat PAGE_SIZE_4K)%nat -> Forall (fun c => c <> 0) fmt ->
  (forall s, map_Forall (fun p l => string_at (ram s) p l /\ (length l < Z.to_nat PAGE_SIZE_4K)%nat) strs) ->
  render strs fmt args = Some text -> Forall (fun c => 0 <= c < 256) text -> shows s v ->
  runs (printk ram fuel fmt args) s (fun _ s' => shows s' (v <| sent ::= fun l => l ++ text |>)).
Proof.
  intros Hf Hlen Hnz Hstrs Hr Hd Hs.
  assert (Htext : u8 <$> text = text) by by apply u8_bytes.
  destruct (literal_lookup fmt Hnz) as [Hl He].
  assert (Hprint : printk ram fuel fmt args s = miter (write_serial fuel) text s).
  { unfold printk, printk_mp_raw.
    refine (format_loop_run (write_serial fuel) ram strs (Z.to_nat PAGE_SIZE_4K)
      (fun _ s => exists v, shows s v) _ _ fmt _ 0 _ text 0 _ s Hlen Hnz Hl He Hr _).
    - intros c n s' (v' & Hs'). destruct (write_serial_runs fuel c s' v' Hf Hs') as ([] & s1 & Hw & H1).
      exists s1. split; [exact Hw|]. eexists. exact H1.
    - intros n s' p l _ Hp. exact (Hstrs s' p l Hp).
    - by exists v. }
  unfold runs. rewrite Hprint. pose proof (write_all_runs fuel text s v Hf Hs) as Hw. by rewrite Htext in Hw.
Qed.

Lemma report_runs fuel vector s v :
  (0 < fuel)%nat -> 0 <= vector < 256 -> shows s v ->
  runs (printk ram fuel unrecognized [vector]) s
    (fun _ s' => shows s' (v <| sent ::= fun l => l ++ report vector |>)).
Proof.
  intros Hf Hv Hs. apply (printk_runs _ _ _ ∅); [done| | | | | |done].
  - apply Nat.ltb_lt. vm_compute. reflexivity.
  - by apply (bool_decide_unpack _).
  - intros s'. apply map_Forall_empty.
  - unfold report, unrecognized.
    assert (E : chars "unrecoginzed guest interrupt request:%d" ++ [10] =
      chars "unrecoginzed guest interrupt request:" ++ 37 :: 100 :: [10]) by (vm_compute; reflexivity).
    rewrite E, render_literal by reflexivity.
    rewrite render_directive, directive_small_decimal by (done || lia). reflexivity.
  - unfold report. apply Forall_app. split; [by apply (bool_decide_unpack _)|].
    apply Forall_app. split; [apply decimal_bytes; lia|]. repeat constructor; lia.
Qed.

(** It is acknowledged like any other. *)
Lemma unhandled_interrupt_runs fuel handlers vector s v :
  (0 < fuel)%nat -> 0 <= vector < 256 -> handlers vector = None -> shows s v ->
  runs (interrupt_handler ram fuel handlers vector) s (fun _ s' => exists v', shows s' v' /\
    interrupt_delivery_pending (pics v') = 0 /\ sent v' = sent v ++ report vector).
Proof.
  intros Hf Hv Hh Hs. unfold interrupt_handler. rewrite Hh. apply runs_bind.
  eapply runs_mono; [by apply report_runs|]. intros [] s1 H1.
  eapply runs_mono; [by apply acknowledge_runs|]. intros [] s2 (v2 & H2 & E1 & E2 & _).
  exists v2. split; [done|]. split; [done|]. rewrite E2. by destruct v.
Qed.
End Spec.

(** ** The monitor behind the ports

    A port instruction is one byte long, traps (the monitor asks for unconditional
    I/O exiting) and is emulated by the exit handler. *)
Definition port_exit (dir port : Z) : vmexit_info :=
  ExitInfo BASIC_VMEXIT_REASON_IO_INSTRUCTION (io_qualification 0 dir 0 port) 0 0 1 0.
Definition AL : bitfield := BitField 0 8.

#[export] Instance monitor_ports : Ports vmm := {|
  outb port val :=
    set_cpu (fun c => c <| rax ::= fun r => set_bits r AL val |>) ;;;
    let! _rsp := io_instruction_exit_sub_handler (port_exit 0 port) in
    ret tt;
  inb port :=
    let! _rsp := io_instruction_exit_sub_handler (port_exit 1 port) in
    let! c := get_cpu in
    ret (get_bits (rax c) AL) |}.

(** *** One port access *)
Definition with_al (s : vmm) (b : Z) : vmm :=
  s <| vm ::= fun v => v <| cpu_state ::= fun c => c <| rax ::= fun r => set_bits r AL b |> |> |>.

Lemma al_byte r b : is_byte b -> u8 (set_bits r AL b) = b.
Proof.
  intros Hb. pose proof (get_set_same r AL b ltac:(cbn; lia) ltac:(cbn; lia)) as H.
  rewrite get_bits_spec in H by (cbn; lia). cbn [bf_lo bf_len AL] in H.
  rewrite Z.pow_0_r, Z.div_1_r in H. unfold u8, wrap in *. rewrite H. apply Z.mod_small. exact Hb.
Qed.

Lemma ports_ok_same s s' :
  nr_ports s' = nr_ports s -> portio_ops s' = portio_ops s -> ports_ok s -> ports_ok s'.
Proof. intros E1 E2 []. split; rewrite ?E1, ?E2; assumption. Qed.

Lemma monitor_outb_run s port o cb b s' :
  ports_ok s -> 0 <= port < 2 ^ 16 -> port_map s !! port = Some o -> call_outb o = Some cb -> is_byte b ->
  run_outb cb port b (with_al s b) = Ret (tt, s') ->
  outb port b s = Ret (tt, advanced 1 s').
Proof.
  intros Hok Hp Ho Hcb Hb Hrun.
  change (outb port b s) with
    ((let! _rsp := io_instruction_exit_sub_handler (port_exit 0 port) in ret tt) (with_al s b)).
  unfold bind. rewrite (io_instruction_run (port_exit 0 port) (with_al s b) 0 0 0 port);
    [|lia|lia|lia|done|done|by apply (ports_ok_same s)].
  change (port_map (with_al s b)) with (port_map s). rewrite Ho.
  unfold port_access. cbn [Z.eqb negb]. rewrite Hcb. cbn [assert_some]. rewrite bind_ret. unfold get_cpu.
  rewrite bind_gets. cbv beta.
  change (rax (cpu_state (vm (with_al s b)))) with (set_bits (rax (cpu_state (vm s))) AL b).
  rewrite al_byte by done. by rewrite Hrun.
Qed.

Lemma monitor_inb_run s port o cb v s' :
  ports_ok s -> 0 <= port < 2 ^ 16 -> port_map s !! port = Some o -> call_inb o = Some cb ->
  run_inb cb port s = Ret (v, s') ->
  exists s'', inb port s = Ret (get_bits v AL, s'') /\
    s'' = advanced 1 (s' <| vm ::= fun vm => vm <| cpu_state ::= fun c => c <| rax := v |> |> |>).
Proof.
  intros Hok Hp Ho Hcb Hrun. eexists. split; [|reflexivity].
  change (inb port s) with
    ((let! _rsp := io_instruction_exit_sub_handler (port_exit 1 port) in
      let! c := get_cpu in ret (get_bits (rax c) AL)) s).
  unfold bind at 1. rewrite (io_instruction_run (port_exit 1 port) s 0 1 0 port); [|lia|lia|lia|done|done|done].
  rewrite Ho. unfold port_access. cbn [Z.eqb negb]. rewrite Hcb. cbn [assert_some]. rewrite bind_ret.
  unfold bind at 1. rewrite Hrun. cbn [set_cpu set_vm modify]. reflexivity.
Qed.

(** *** What a driver sees of the monitor

    [c0] is the console before the guest sent anything, [hd] the header the monitor
    puts before each of the guest's lines. *)
Record shows (c0 hd : list Z) (s : vmm) (v : view) : Prop := {
  sh_ports : ports_ok s;
  sh_map : port_map s = device_ports;
  sh_pics : pic (vm s) = pics v;
  sh_timer : pit (vm s) = timer v;
  sh_header : line_header s = hd;
  sh_bytes : Forall is_byte (sent v);
  sh_serial : serial_ok s (snd (serial_lines [] (sent v)));
  sh_console : console s = c0 ++ concat ((fun l => hd ++ until_zero l) <$> fst (serial_lines [] (sent v))) }.

(** A change of the VMCS, of the guest's registers or of the interrupt state of the
    monitor does not show. *)
Lemma shows_same c0 hd s s' v :
  nr_ports s' = nr_ports s -> portio_ops s' = portio_ops s -> pic (vm s') = pic (vm s) ->
  pit (vm s') = pit (vm s) -> vm_ptr s' = vm_ptr s -> vpid (vm s') = vpid (vm s) ->
  serial_line_iptr (vm s') = serial_line_iptr (vm s) ->
  serial_line_buffer (vm s') = serial_line_buffer (vm s) ->
  k_mem (kern s') = k_mem (kern s) -> console s' = console s ->
  shows c0 hd s v -> shows c0 hd s' v.
Proof.
  intros E1 E2 E3 E4 E5 E6 E7 E8 E9 E10 [H1 H2 H3 H4 H5 H6 [Q1 Q2 Q3 Q4 Q5] H8]. split.
  - by apply (ports_ok_same s).
  - unfold port_map. by rewrite E1, E2.
  - by rewrite E3.
  - by rewrite E4.
  - unfold line_header. rewrite E5, E6. exact H5.
  - done.
  - split; [by rewrite E7|done| |by rewrite E6|by rewrite E5].
    intros i Hi. rewrite E8, E9. by apply Q3.
  - by rewrite E10.
Qed.

Lemma shows_al c0 hd s v b : shows c0 hd s v -> shows c0 hd (with_al s b) v.
Proof. by apply shows_same. Qed.
Lemma shows_advanced c0 hd s v n : shows c0 hd s v -> shows c0 hd (advanced n s) v.
Proof. by apply shows_same. Qed.

Lemma serial_lines_snoc pending l b :
  serial_lines pending (l ++ [b]) =
    let '(ls, p) := serial_lines pending l in
    if flushes p b then (ls ++ [p ++ [b]], []) else (ls, p ++ [b]).
Proof.
  revert pending. induction l as [|c l IH]; intros pending; cbn [app serial_lines].
  - by destruct (flushes pending b).
  - destruct (flushes pending c); [|apply IH]. rewrite IH.
    destruct (serial_lines [] l) as [ls p]. by destruct (flushes p b).
Qed.

Lemma pending_bytes l : Forall is_byte l -> Forall is_byte (snd (serial_lines [] l)).
Proof.
  intros Hl. pose proof (serial_lines_bytes [] l) as H. destruct (serial_lines [] l) as [ls p].
  cbn [app snd] in *. rewrite <- H in Hl. by apply Forall_app in Hl as [_ ?].
Qed.

(** The registered device of a port. *)
Lemma device_at c0 hd s v port o :
  shows c0 hd s v -> device_ports !! port = Some o -> port_map s !! port = Some o.
Proof. intros H Ho. by rewrite (sh_map _ _ _ _ H). Qed.

Section Monitor.
Context (c0 hd : list Z).

Lemma monitor_serial_data s v b : is_byte b -> shows c0 hd s v ->
  runs (outb COM1_PORT b) s (fun _ s' => shows c0 hd s' (v <| sent ::= fun l => l ++ [b] |>)).
Proof.
  intros Hb Hs. pose proof (shows_al c0 hd s v b Hs) as Hs1.
  pose proof (pending_bytes (sent v) (sh_bytes _ _ _ _ Hs)) as Hpend.
  destruct (serial_outb_run (with_al s b) _ b COM1_PORT (sh_serial _ _ _ _ Hs1) Hpend Hb)
    as (m & i & c & Hrun & _ & Hafter).
  eexists tt, _. split.
  - eapply (monitor_outb_run s COM1_PORT (PortOp 0x3f8 (Some device_serial_inb_cb) (Some device_serial_outb_cb)));
      [apply Hs|unfold COM1_PORT; lia| |reflexivity|done|exact Hrun].
    by apply (device_at c0 hd s v).
  - apply shows_advanced. destruct Hs1 as [H1 H2 H3 H4 H5 H6 _ H8].
    pose proof (serial_lines_snoc [] (sent v) b) as Hsnoc.
    destruct (serial_lines [] (sent v)) as [ls p]. cbn [fst snd] in *.
    assert (Hser : serial_ok (serial_after (with_al s b) m i c) (snd (serial_lines [] (sent v ++ [b]))) /\
      c = c0 ++ concat ((fun l => hd ++ until_zero l) <$> fst (serial_lines [] (sent v ++ [b])))).
    { rewrite Hsnoc. destruct (flushes p b); cbn [fst snd]; destruct Hafter as [Hok ->]; (split; [exact Hok|]).
      - unfold flushed. rewrite fmap_app, concat_app, H5, H8, <- app_assoc. cbn. by rewrite app_nil_r.
      - exact H8. }
    destruct Hser as [Hser Hc]. split; try done.
    + by apply (ports_ok_same (with_al s b)).
    + apply Forall_app. split; [done|by constructor].
Qed.

Lemma monitor_serial_status s v : shows c0 hd s v ->
  runs (inb (COM1_PORT + 5)) s (fun b s' => Z.land b 0x20 <> 0 /\ shows c0 hd s' v).
Proof.
  intros Hs. destruct (monitor_inb_run s (COM1_PORT + 5) (PortOp 0x3fd (Some device_serial_inb_cb) (Some device_serial_outb_cb))
    device_serial_inb_cb 0x20 s) as (s'' & Hr & ->); [apply Hs|unfold COM1_PORT; lia| |done|reflexivity|].
  { by apply (device_at c0 hd s v). }
  eexists _, _. split; [exact Hr|]. split; [vm_compute; congruence|].
  apply shows_advanced. revert Hs. by apply shows_same.
Qed.

(** The keyboard port shows the oldest scancode of the ring. *)
Lemma monitor_keyboard s v : shows c0 hd s v ->
  runs (inb KEYBOARD_DATA_PORT) s (fun b s' => is_byte b /\ shows c0 hd s' v).
Proof.
  intros Hs. set (b := if negb (ring_empty (kbd (vm s))) then ring_peek (kbd (vm s)) else 0).
  destruct (monitor_inb_run s KEYBOARD_DATA_PORT (PortOp 0x60 (Some keyboard_data_inb_cb) None)
    keyboard_data_inb_cb b s) as (s'' & Hr & ->); [apply Hs|unfold KEYBOARD_DATA_PORT; lia| |done| |].
  { by apply (device_at c0 hd s v). }
  { unfold run_inb, Keyboard.keyboard_data_inb, get_vm, b. rewrite bind_gets, assert_run by reflexivity.
    by destruct (negb _). }
  eexists _, _. split; [exact Hr|]. split; [exact (get_bits_range b AL ltac:(cbn; lia))|].
  apply shows_advanced. revert Hs. by apply shows_same.
Qed.

Lemma monitor_pic s v a : is_byte (pic_byte a) -> shows c0 hd s v ->
  runs (outb (pic_port a) (pic_byte a)) s (fun _ s' => shows c0 hd s' (v <| pics ::= pic_write a |>)).
Proof.
  intros Hb Hs. set (s1 := with_al s (pic_byte a)).
  assert (Hcb : exists o cb, device_ports !! pic_port a = Some o /\ call_outb o = Some cb /\
    forall s, run_outb cb (pic_port a) (pic_byte a) s = pic_out a s).
  { destruct a as [[] [] b]; eexists _, _; (split; [vm_compute; reflexivity|]); by split. }
  destruct Hcb as (o & cb & Ho & Hcb & Hrun).
  eexists tt, _. split.
  - eapply monitor_outb_run; [apply Hs| |by apply (device_at c0 hd s v)|exact Hcb|done|].
    + destruct a as [[] [] b]; cbn; unfold PIC_MASTER_DATA_PORT, PIC_MASTER_COMMAND_PORT,
        PIC_SLAVE_DATA_PORT, PIC_SLAVE_COMMAND_PORT; lia.
    + rewrite Hrun. apply pic_out_run.
  - apply shows_advanced. apply (shows_al c0 hd s v (pic_byte a)) in Hs. fold s1 in Hs |- *.
    destruct Hs as [H1 H2 H3 H4 H5 H6 [] H8]. split; try done.
    + by apply (ports_ok_same s1).
    + change (pic_write a (pic (vm s1)) = pic_write a (pics v)). by rewrite H3.
Qed.

Lemma monitor_pit s v port b p : is_byte b -> port = PIT_CONTROL_PORT \/ port = PIT_CHANNEL0_PORT ->
  pit_write port b (timer v) = Ret p -> shows c0 hd s v ->
  runs (outb port b) s (fun _ s' => shows c0 hd s' (v <| timer := p |>)).
Proof.
  intros Hb Hport Hw Hs. set (s1 := with_al s b).
  assert (Hdev : device_ports !! port = Some (PortOp port None (Some pit_outb_cb)) /\ 0 <= port < 2 ^ 16)
    by (destruct Hport as [-> | ->]; (split; [vm_compute; reflexivity|];
        unfold PIT_CONTROL_PORT, PIT_CHANNEL0_PORT; lia)).
  destruct Hdev as [Ho Hp].
  eexists tt, _. split.
  - eapply (monitor_outb_run s port (PortOp port None (Some pit_outb_cb))); [apply Hs|exact Hp|by apply (device_at c0 hd s v)|reflexivity|done|].
    cbn [run_outb]. apply pit_outb_run. change (pit (vm (with_al s b))) with (pit (vm s)).
    rewrite (sh_timer _ _ _ _ Hs). exact Hw.
  - apply shows_advanced. apply (shows_al c0 hd s v b) in Hs. fold s1 in Hs |- *.
    destruct Hs as [H1 H2 H3 H4 H5 H6 [] H8]. split; try done.
    by apply (ports_ok_same s1).
Qed.

#[export] Instance monitor_spec : PortsSpec vmm (shows c0 hd) := {|
  serial_status := monitor_serial_status; serial_data := monitor_serial_data;
  pic_data := monitor_pic; pit_data := monitor_pit; keyboard_data := monitor_keyboard |}.
End Monitor.

(** ** The guest boots on the monitor *)
Lemma devices_ready s : serial_ok s [] ->
  exists s', (portio_preinit ;;; vm_monitor_init_devices) s = Ret (tt, s') /\
    shows (console s) (line_header s) s' (View [] (pic (vm s)) (pit (vm s))).
Proof.
  intros Hser. set (s0 := s <| nr_ports := 0 |> <| portio_ops := replicate 256 (PortOp 0 None None) |>).
  assert (H0 : portio_preinit s = Ret (tt, s0)) by reflexivity. run_with H0.
  assert (Hok : ports_ok s0) by (split; [cbn; lia|reflexivity|constructor|constructor]).
  destruct (register_all device_list s0 Hok) as (ops & n & Hr & Hok' & Hm).
  - repeat (apply Forall_cons_2; [unfold port_ok; cbn; lia|]). apply Forall_nil_2.
  - cbn. unfold MAX_PORTS_SUPPORTED. lia.
  - eexists. rewrite init_devices_list. split; [exact Hr|].
    split; [exact Hok'|rewrite Hm; reflexivity|reflexivity|reflexivity|reflexivity|constructor| |].
    + destruct Hser. split; assumption.
    + symmetry. apply app_nil_r.
Qed.

(** The five lines of the guest's boot, as the monitor's console shows them. *)
Definition boot_lines : list (list Z) :=
  (fun l => l ++ [10]) <$>
  [chars "Finishing guest paging."; chars "Finishing guest interrupt initialization";
   chars "finish pit initlization"; chars "finish keyboard initialization";
   chars "finished timer initialization"].

Lemma boot_text_lines : serial_lines [] boot_text = (boot_lines, []).
Proof. vm_compute. reflexivity. Qed.

(** C8 The guest's drivers on the monitor's devices: once the monitor has registered
    its devices, the port traffic of [guest_kernel_main], every access a VM exit,
    runs to its end; the interrupt controllers are remapped to 0x20 and 0x28 and
    unmasked, the timer is programmed to 100 Hz (a period of 10 ms), and the
    console shows the guest's five messages, one line each, behind the VM's header. *)
Theorem guest_boots_on_devices (fuel : nat) (s : vmm) :
  (0 < fuel)%nat -> serial_ok s [] ->
  exists s', (portio_preinit ;;; vm_monitor_init_devices ;;; guest_kernel_main_ports fuel) s = Ret (tt, s') /\
    remapped (pic (vm s')) /\
    interrupt_delivery_pending (pic (vm s')) = interrupt_delivery_pending (pic (vm s)) /\
    pit (vm s') = Vmm.Pit 2 11931 10 (last_tsc (pit (vm s))) /\
    console s' = console s ++ concat ((fun l => line_header s ++ l) <$> boot_lines) /\
    serial_ok s' [].
Proof.
  intros Hf Hser. destruct (devices_ready s Hser) as (s1 & Hr1 & Hs1).
  destruct (guest_kernel_main_runs fuel s1 _ Hf Hs1) as ([] & s2 & Hr2 & v & Hs2 & (Hsent & Hpic & Hpend & Hpit)).
  exists s2. split.
  { rewrite <- (bind_assoc portio_preinit (fun _ => vm_monitor_init_devices) (fun _ => guest_kernel_main_ports fuel)).
    run_with Hr1. exact Hr2. }
  destruct Hs2 as [_ _ Hp Ht _ _ Hok Hc]. cbn [sent app] in Hsent. rewrite Hsent in Hok, Hc.
  rewrite boot_text_lines in Hok, Hc. cbn [fst snd] in Hok, Hc.
  rewrite Hp, Ht. split; [exact Hpic|]. split; [exact Hpend|]. split; [exact Hpit|]. split; [|exact Hok].
  rewrite Hc. reflexivity.
Qed.

Lemma guest_boots_on_devices_witness : exists s',
  (portio_preinit ;;; vm_monitor_init_devices ;;; guest_kernel_main_ports 1) sample_vmm = Ret (tt, s') /\
  remapped (pic (vm s')) /\ threshold (pit (vm s')) = 10 /\
  console s' = concat ((fun l => chars "[vm:0x8000(vpid:1)] " ++ l) <$> boot_lines).
Proof.
  destruct (guest_boots_on_devices 1 sample_vmm ltac:(lia) sample_serial_ok)
    as (s' & Hr & Hpic & _ & Hpit & Hc & _).
  exists s'. split; [exact Hr|]. split; [exact Hpic|]. split; [rewrite Hpit; reflexivity|].
  rewrite Hc. vm_compute. reflexivity.
Defined.

(** An interrupt the guest has no handler for is reported on the serial line by
    its number and acknowledged: afterwards the controllers have no pending
    delivery, whichever controller the vector belongs to. *)
Theorem unhandled_interrupt_acknowledged (fuel : nat) (handlers : Z -> option (M vmm unit))
    (ram : vmm -> memory) (vector : Z) (c0 hd : list Z) (s : vmm) (v : view) :
  (0 < fuel)%nat -> 0 <= vector < 256 -> handlers vector = None -> shows c0 hd s v ->
  exists s' v', interrupt_handler ram fuel handlers vector s = Ret (tt, s') /\ shows c0 hd s' v' /\
    interrupt_delivery_pending (pic (vm s')) = 0 /\
    sent v' = sent v ++ chars "unrecoginzed guest interrupt request:" ++ decimal vector ++ [10].
Proof.
  intros Hf Hv Hh Hs.
  destruct (unhandled_interrupt_runs ram fuel handlers vector s v Hf Hv Hh Hs) as ([] & s' & Hr & v' & Hs' & Hp & Hsent).
  exists s', v'. split; [exact Hr|]. split; [exact Hs'|]. split; [|exact Hsent].
  by rewrite (sh_pics _ _ _ _ Hs').
Qed.

Lemma unhandled_interrupt_acknowledged_witness : exists s0 s' v',
  (portio_preinit ;;; vm_monitor_init_devices) sample_vmm = Ret (tt, s0) /\
  interrupt_handler (fun _ => ∅) 1 (fun _ => None) 46 s0 = Ret (tt, s') /\
  interrupt_delivery_pending (pic (vm s')) = 0 /\
  sent v' = chars "unrecoginzed guest interrupt request:46" ++ [10].
Proof.
  destruct (devices_ready sample_vmm sample_serial_ok) as (s0 & Hr0 & Hs0).
  destruct (unhandled_interrupt_acknowledged 1 (fun _ => None) (fun _ => ∅) 46 _ _ s0 _
    ltac:(lia) ltac:(lia) eq_refl Hs0) as (s' & v' & Hr & _ & Hp & Hsent).
  exists s0, s', v'. split; [exact Hr0|]. split; [exact Hr|]. split; [exact Hp|].
  rewrite Hsent. vm_compute. reflexivity.
Defined.
