(* ===== verification/Spinlock.v ===== *)
(** * Spinlock: [x86_64/spinlock.c] under any interleaving of the CPUs.

    Each CPU runs the instructions of [spinlock_acquire_raw] and
    [spinlock_release_raw] one memory access at a time; a step of the machine is a
    step of one CPU. The machine is sequentially consistent: [xchg] is locked and
    [barrier] keeps the compiler from moving the other accesses. *)
From Stdlib Require Import ZArith Lia.
From stdpp Require Import base tactics list numbers gmap relations.
From S2P Require Import Prelude.
Local Open Scope Z_scope.

(** ** The lock *)
Record spinlock := Spinlock { lock : Z; lock_cpu : Z; blob : Z }.
#[export] Instance eta_spinlock : Eta spinlock := fun l => Spinlock (lock l) (lock_cpu l) (blob l).

Definition spinlock_init : spinlock := (Spinlock 0 0 0) <| lock_cpu := 0xff |>.
(** [xchg32(&lock->lock, v)]: the old value, and the lock with the new one. *)
Definition xchg32 (v : Z) (l : spinlock) : Z * spinlock := (lock l, l <| lock := u32 v |>).

(** ** The CPUs

    Where a CPU stands in the two functions: [Spinning] in the loop of [acquire],
    [Owning] before the assignment of [lock->cpu], [Critical] between the two
    functions, then before the two reads of the first assertion, the assignment
    and the final exchange of [release]. *)
Inductive pc :=
| Idle | Spinning | Owning | Critical
| CheckCpu | CheckLock | Disowning | Releasing
| Panic.
#[export] Instance pc_eq_dec : EqDecision pc.
Proof. solve_decision. Defined.

Record machine := Machine { the_lock : spinlock; pcs : gmap Z pc }.
Definition pc_of (m : machine) (i : Z) : pc := default Idle (pcs m !! i).
Definition at_pc (i : Z) (p : pc) (l : spinlock) (m : machine) : machine := Machine l (<[i := p]> (pcs m)).

(** One access of CPU [i] ([cpu()] is its local APIC id). A CPU outside the two
    functions may call [acquire], one in its critical section may call [release]. *)
Definition step_cpu (i : Z) (m : machine) : machine :=
  let l := the_lock m in
  match pc_of m i with
  | Idle => at_pc i Spinning l m
  | Spinning =>
      let '(old, l) := xchg32 1 l in
      at_pc i (if old =? 0 then Owning else Spinning) l m
  | Owning => at_pc i Critical (l <| lock_cpu := u32 i |>) m
  | Critical => at_pc i CheckCpu l m
  | CheckCpu => at_pc i (if lock_cpu l =? u32 i then CheckLock else Panic) l m
  | CheckLock => at_pc i (if lock l =? 1 then Disowning else Panic) l m
  | Disowning => at_pc i Releasing (l <| lock_cpu := 0xff |>) m
  | Releasing =>
      let '(old, l) := xchg32 0 l in
      at_pc i (if old =? 1 then Idle else Panic) l m
  | Panic => m
  end.

(** A step of the machine: some CPU makes its next access. *)
Inductive step : machine -> machine -> Prop :=
| step_of (i : Z) (m : machine) : step m (step_cpu i m).

Definition boot : machine := Machine spinlock_init ∅.
Definition reachable (m : machine) : Prop := rtc step boot m.
(** A schedule: the CPUs in the order of their accesses. *)
Definition run (schedule : list Z) (m : machine) : machine := foldl (fun m i => step_cpu i m) m schedule.

(** ** The invariant *)
Definition holds (p : pc) : bool :=
  match p with Idle | Spinning | Panic => false | _ => true end.
(** The places where [lock->cpu] is the CPU's own id. *)
Definition named (p : pc) : bool :=
  match p with Critical | CheckCpu | CheckLock | Disowning => true | _ => false end.

Record lock_inv (m : machine) : Prop := {
  li_free : lock (the_lock m) = 0 -> forall i, holds (pc_of m i) = false;
  li_held : lock (the_lock m) <> 0 -> exists i, holds (pc_of m i) = true /\
    lock (the_lock m) = 1 /\
    (named (pc_of m i) = true -> lock_cpu (the_lock m) = u32 i) /\
    forall j, holds (pc_of m j) = true -> j = i;
  li_fine : forall i, pc_of m i <> Panic }.

Lemma pc_of_at i p l m j : pc_of (at_pc i p l m) j = if decide (i = j) then p else pc_of m j.
Proof. unfold pc_of, at_pc. cbn [pcs]. rewrite lookup_insert. by case_decide. Qed.
Lemma the_lock_at i p l m : the_lock (at_pc i p l m) = l.
Proof. reflexivity. Qed.

Lemma inv_boot : lock_inv boot.
Proof. split; done. Qed.

(** A CPU that does not touch the lock's word and keeps its status. *)
Lemma inv_local i p l m :
  lock_inv m -> holds p = holds (pc_of m i) -> p <> Panic -> lock l = lock (the_lock m) ->
  (named p = true -> lock_cpu l = u32 i) ->
  (holds p = false -> lock_cpu l = lock_cpu (the_lock m)) ->
  lock_inv (at_pc i p l m).
Proof.
  intros [Hf Hh Hp] Hst Hne Hl Hn Hfree. split; rewrite ?the_lock_at, ?Hl.
  - intros H0 j. rewrite pc_of_at. case_decide as E; [|by apply Hf]. subst. rewrite Hst. by apply Hf.
  - intros H0. destruct (Hh H0) as (o & Ho & H1 & Hname & Huniq). exists o.
    rewrite pc_of_at. split; [|split; [done|split]].
    + case_decide as E; [|done]. subst. by rewrite Hst.
    + case_decide as E; [subst; done|]. intros Hno.
      rewrite Hfree; [by apply Hname|]. rewrite Hst. destruct (holds (pc_of m i)) eqn:Ei; [|done].
      by rewrite (Huniq i Ei) in E.
    + intros j. rewrite pc_of_at. case_decide as E; [|by apply Huniq]. subst.
      rewrite Hst. apply Huniq.
  - intros j. rewrite pc_of_at. case_decide; [done|apply Hp].
Qed.

Lemma inv_holder m i : lock_inv m -> holds (pc_of m i) = true ->
  lock (the_lock m) = 1 /\ (named (pc_of m i) = true -> lock_cpu (the_lock m) = u32 i) /\
  forall j, holds (pc_of m j) = true -> j = i.
Proof.
  intros [Hf Hh _] Hi. destruct (Z.eq_dec (lock (the_lock m)) 0) as [H0|H0].
  { by rewrite (Hf H0 i) in Hi. }
  destruct (Hh H0) as (o & Ho & H1 & Hname & Huniq). assert (i = o) as -> by by apply Huniq.
  done.
Qed.

Lemma inv_step m m' : lock_inv m -> step m m' -> lock_inv m'.
Proof.
  intros Hm Hs. revert Hm. destruct Hs as [i m0]. intros Hm. unfold step_cpu. pose proof Hm as [Hf Hh Hp].
  destruct (pc_of m0 i) eqn:Ei; try (by apply inv_local; rewrite ?Ei).
  - (* the exchange of the loop *)
    cbn [xchg32]. destruct (Z.eqb_spec (lock (the_lock m0)) 0) as [H0|H0].
    + split; rewrite ?the_lock_at.
      * intros E. vm_compute in E. discriminate E.
      * intros _. exists i. rewrite pc_of_at, decide_True by done. split; [done|]. split; [done|]. split; [done|].
        intros j. rewrite pc_of_at. case_decide as E; [done|]. by rewrite (Hf H0).
      * intros j. rewrite pc_of_at. case_decide; [done|apply Hp].
    + destruct (Hh H0) as (o & _ & H1 & _).
      apply inv_local; rewrite ?Ei; try done.
  - apply inv_local; rewrite ?Ei; try done.
    intros _. apply (inv_holder m0 i Hm); by rewrite Ei.
  - destruct (inv_holder m0 i Hm) as (_ & Hn & _); [by rewrite Ei|].
    rewrite Hn by (by rewrite Ei). rewrite Z.eqb_refl. apply inv_local; rewrite ?Ei; try done.
    intros _. apply Hn. by rewrite Ei.
  - destruct (inv_holder m0 i Hm) as (H1 & Hn & _); [by rewrite Ei|].
    rewrite H1, Z.eqb_refl. apply inv_local; rewrite ?Ei; try done.
    intros _. apply Hn. by rewrite Ei.
  - (* the exchange of the release *)
    destruct (inv_holder m0 i Hm) as (H1 & _ & Huniq); [by rewrite Ei|].
    cbn [xchg32]. rewrite H1, Z.eqb_refl. split; rewrite ?the_lock_at; [|done|].
    + intros _ j. rewrite pc_of_at. case_decide as E; [done|].
      destruct (holds (pc_of m0 j)) eqn:Ej; [|done]. by rewrite (Huniq j Ej) in E.
    + intros j. rewrite pc_of_at. case_decide; [done|apply Hp].
  - exact Hm.
Qed.

Lemma steps_inv m m' : rtc step m m' -> lock_inv m -> lock_inv m'.
Proof. induction 1 as [|x y z Hxy _ IH]; [done|]. intros Hx. by apply IH, (inv_step x). Qed.
Lemma reachable_inv m : reachable m -> lock_inv m.
Proof. intros H. by apply (steps_inv boot), inv_boot. Qed.

Lemma run_steps schedule m : rtc step m (run schedule m).
Proof.
  revert m. induction schedule as [|i l IH]; intros m; [constructor|].
  cbn [run foldl]. eapply rtc_l; [apply step_of|]. apply IH.
Qed.

(** *** Progress *)

(** The number of accesses the holder still makes before it lets go. *)
Definition to_release (p : pc) : nat :=
  match p with
  | Owning => 6 | Critical => 5 | CheckCpu => 4 | CheckLock => 3 | Disowning => 2 | Releasing => 1
  | _ => 0
  end.

Lemma holder_step m i :
  lock_inv m -> holds (pc_of m i) = true ->
  lock_inv (step_cpu i m) /\ S (to_release (pc_of (step_cpu i m) i)) = to_release (pc_of m i) /\
  if holds (pc_of (step_cpu i m) i) then True
  else pc_of (step_cpu i m) i = Idle /\ lock (the_lock (step_cpu i m)) = 0.
Proof.
  intros Hm Hi. pose proof (inv_step m _ Hm (step_of i m)) as Hm'. split; [exact Hm'|].
  pose proof (li_fine _ Hm' i) as Hfine. revert Hfine.
  destruct (inv_holder m i Hm Hi) as (H1 & _ & _). unfold step_cpu.
  destruct (pc_of m i) eqn:Ei; try discriminate Hi; rewrite ?H1;
    rewrite ?pc_of_at, ?decide_True by done; try done.
  - by destruct (lock_cpu (the_lock m) =? u32 i).
  - cbn [xchg32]. rewrite H1. cbn [Z.eqb Pos.eqb]. by rewrite pc_of_at, decide_True by done.
Qed.

Lemma holder_releases n m i :
  lock_inv m -> to_release (pc_of m i) = n -> holds (pc_of m i) = true ->
  let m' := run (replicate n i) m in
  lock_inv m' /\ pc_of m' i = Idle /\ lock (the_lock m') = 0.
Proof.
  revert m. induction n as [|n IH]; intros m Hm Hn Hi.
  { by destruct (pc_of m i). }
  destruct (holder_step m i Hm Hi) as (Hm' & Hs & Hcase). cbn [replicate run foldl].
  destruct (holds (pc_of (step_cpu i m) i)) eqn:Eh.
  - apply IH; [done|lia|done].
  - destruct Hcase as [Hidle Hl]. rewrite Hidle in Hs. cbn in Hs. assert (n = 0)%nat as -> by lia.
    done.
Qed.

(** C10 Mutual exclusion: however the CPUs' accesses interleave, and however many
    CPUs there are, at most one CPU at a time is between the exchange that takes
    the lock and the one that gives it back; while one is, the lock's word is 1 and
    names that CPU in its critical section; neither assertion of
    [spinlock_release_raw] ever fails. *)
Theorem mutual_exclusion (m : machine) :
  reachable m ->
  (forall i j, holds (pc_of m i) = true -> holds (pc_of m j) = true -> i = j) /\
  (forall i, holds (pc_of m i) = true -> lock (the_lock m) = 1) /\
  (forall i, pc_of m i = Critical -> lock_cpu (the_lock m) = u32 i) /\
  (forall i, pc_of m i <> Panic).
Proof.
  intros Hm%reachable_inv. split; [|split; [|split]].
  - intros i j Hi Hj. destruct (inv_holder m j Hm Hj) as (_ & _ & H). by apply H.
  - intros i Hi. by apply (inv_holder m i Hm).
  - intros i Hi. apply (inv_holder m i Hm); by rewrite Hi.
  - apply Hm.
Qed.

Lemma mutual_exclusion_witness :
  let m := run [0; 1; 1; 0; 1; 0; 0; 1; 2; 2; 1; 1; 1; 2; 0] boot in
  reachable m /\ (forall i, pc_of m i <> Panic) /\ map (pc_of m) [0; 1; 2] = [Spinning; Releasing; Spinning].
Proof.
  intros m. assert (Hm : reachable m) by apply run_steps.
  split; [exact Hm|]. split; [apply (mutual_exclusion m Hm)|vm_compute; reflexivity].
Defined.

(** C40 The lock is never lost: from every reachable state a spinning CPU can enter
    its critical section within eight further accesses, six of the present
    holder, if there is one, and two of its own. *)
Theorem no_deadlock (m : machine) (i : Z) :
  reachable m -> pc_of m i = Spinning ->
  exists schedule, (List.length schedule <= 8)%nat /\ pc_of (run schedule m) i = Critical.
Proof.
  intros Hm%reachable_inv Hi.
  assert (Henter : forall m, lock (the_lock m) = 0 -> pc_of m i = Spinning -> pc_of (run [i; i] m) i = Critical).
  { intros m0 H0 Hs. cbn [run foldl]. unfold step_cpu at 2. rewrite Hs. cbn [xchg32]. rewrite H0, Z.eqb_refl.
    unfold step_cpu. rewrite pc_of_at, decide_True by done. by rewrite pc_of_at, decide_True by done. }
  destruct (Z.eq_dec (lock (the_lock m)) 0) as [H0|H0].
  { exists [i; i]. split; [cbn; lia|]. by apply Henter. }
  destruct (li_held _ Hm H0) as (o & Ho & _).
  exists (replicate (to_release (pc_of m o)) o ++ [i; i]). split.
  { rewrite length_app, length_replicate. cbn. destruct (pc_of m o); cbn; lia. }
  unfold run. rewrite foldl_app. fold (run (replicate (to_release (pc_of m o)) o) m).
  destruct (holder_releases _ m o Hm eq_refl Ho) as (_ & _ & Hl). apply Henter; [exact Hl|].
  clear -Hi Ho. generalize (to_release (pc_of m o)). assert (Hne : o <> i) by (intros ->; by rewrite Hi in Ho).
  clear Ho. intros n. revert m Hi. induction n as [|n IH]; intros m Hi; [done|]. cbn [replicate run foldl].
  apply IH. unfold step_cpu. destruct (pc_of m o); cbn [xchg32]; rewrite ?pc_of_at, ?decide_False by done; done.
Qed.

Lemma no_deadlock_witness :
  let m := run [0; 1; 1; 0; 1] boot in
  pc_of m 0 = Spinning /\
  exists schedule, (List.length schedule <= 8)%nat /\ pc_of (run schedule m) 0 = Critical.
Proof.
  intros m. assert (H0 : pc_of m 0 = Spinning) by (vm_compute; reflexivity).
  split; [exact H0|]. apply (no_deadlock m 0); [apply run_steps|exact H0].
Defined.
