(* ===== verification/Descriptors.v ===== *)
(** * Descriptors: segment, task and interrupt descriptors ([x86_64/gdt.c],
    [x86_64/tss.c], [x86_64/interrupt.c]; the guest's [interrupt.c] writes its gates
    the same way).

    The tables are bytes of memory at the addresses the linker gave them; a packed
    structure is a 64-bit word with bit-fields and a second word. [lgdt], [lidt] and
    [ltr] follow the architecture: [ltr] takes an available task descriptor and
    refuses anything else. *)
From Stdlib Require Import ZArith Lia.
From stdpp Require Import base tactics list numbers gmap.
From S2P Require Import Prelude Memory.
Local Open Scope Z_scope.

Definition MAX_NR_CPUS : Z := 64.
Definition KERNEL_CODE_SELECTOR : Z := 0x08.
Definition DPL_0 : Z := 0x0.

(** ** Layouts *)

(** The first word of [struct gdt_tss_entry]. *)
Definition gdt_tss_entry : list Z := [16; 16; 8; 4; 1; 2; 1; 4; 1; 2; 1; 8].
Definition limit_0_15 := nth_field gdt_tss_entry 0.
Definition base_0_15 := nth_field gdt_tss_entry 1.
Definition base_16_23 := nth_field gdt_tss_entry 2.
Definition segment_type := nth_field gdt_tss_entry 3.
Definition segmet_class := nth_field gdt_tss_entry 4.
Definition dpl := nth_field gdt_tss_entry 5.
Definition present := nth_field gdt_tss_entry 6.
Definition limit_16_19 := nth_field gdt_tss_entry 7.
Definition avail := nth_field gdt_tss_entry 8.
Definition granularity := nth_field gdt_tss_entry 10.
Definition base_24_31 := nth_field gdt_tss_entry 11.
Definition GDT_ENTRY_SIZE : Z := 8.
Definition GDT_TSS_ENTRY_SIZE : Z := 16.

(** [struct task_state_segment64]: its size and two members. *)
Definition task_state_segment64 : list Z := [4; 8; 8; 8; 8; 8; 8; 8; 8; 8; 8; 8; 8; 2; 2].
Definition TSS_SIZE : Z := layout_bits task_state_segment64.
Definition offset_of (layout : list Z) (i : nat) : Z := bf_lo (nth_field layout i).
Definition rsp0_offset : Z := offset_of task_state_segment64 1.
Definition iomap_base_offset : Z := offset_of task_state_segment64 14.

(** The first word of [struct interrupt_gate_descriptor]. *)
Definition interrupt_gate_descriptor : list Z := [16; 16; 3; 5; 4; 1; 2; 1; 16].
Definition offset_0_15 := nth_field interrupt_gate_descriptor 0.
Definition selector := nth_field interrupt_gate_descriptor 1.
Definition ist := nth_field interrupt_gate_descriptor 2.
Definition gate_type := nth_field interrupt_gate_descriptor 4.
Definition gate_dpl := nth_field interrupt_gate_descriptor 6.
Definition gate_present := nth_field interrupt_gate_descriptor 7.
Definition offset_16_31 := nth_field interrupt_gate_descriptor 8.
Definition GATE_SIZE : Z := 16.

(** ** The processor's tables *)
Record tables := Tables {
  t_mem : memory; gdtr : Z * Z; idtr : Z * Z; tr : Z; tr_base : Z;
  handlers : list Z; eois : Z }.
#[export] Instance eta_tables : Eta tables := fun t =>
  Tables (t_mem t) (gdtr t) (idtr t) (tr t) (tr_base t) (handlers t) (eois t).

Definition put (f : memory -> memory) : M tables unit := modify (fun t => t <| t_mem ::= f |>).

(** The base and the limit a task descriptor gives. *)
Definition tss_descriptor_base (m : memory) (p : Z) : Z :=
  fget m p base_0_15 + 2 ^ 16 * fget m p base_16_23 + 2 ^ 24 * fget m p base_24_31 +
  2 ^ 32 * load32 m (p + 8).
Definition tss_descriptor_limit (m : memory) (p : Z) : Z :=
  fget m p limit_0_15 + 2 ^ 16 * fget m p limit_16_19.

Definition lgdt (size offset : Z) : M tables unit := modify (fun t => t <| gdtr := (size, offset) |>).
Definition lidt (limit base : Z) : M tables unit := modify (fun t => t <| idtr := (limit, base) |>).
(** [ltr]: the descriptor must lie in the table, be present and describe an
    available 64-bit task state; it becomes busy. *)
Definition ltr (sel : Z) : M tables unit :=
  let! t := gets (fun t => t) in
  let p := snd (gdtr t) + 8 * Z.shiftr sel 3 in
  let m := t_mem t in
  if (Z.shiftr sel 3 * 8 + 15 <=? fst (gdtr t)) && (fget m p segment_type =? 0x9) &&
     (fget m p segmet_class =? 0) && (fget m p present =? 1)
  then
    put (fun m => fset m p segment_type 0xb) ;;;
    modify (fun t => t <| tr := sel |> <| tr_base := tss_descriptor_base m p |>)
  else stop ProtectionFault.

Section Link.
(** Where the linker put the arrays, and the entry of each vector. *)
Context (gdt_entries tss_base interrupt_desc_table : Z) (int_entry : Z -> Z).

(** ** [tss.c] *)
Definition tss_pre_init : M tables unit :=
  put (fun m => memset m tss_base 0x0 (TSS_SIZE * MAX_NR_CPUS)) ;;;
  mfor (Z.to_nat MAX_NR_CPUS) 0 (fun idx =>
    put (fun m => store16 m (tss_base + idx * TSS_SIZE + iomap_base_offset) 0x0068)).
Definition set_pl0_rsp (cpu rsp : Z) : M tables unit :=
  assert ((0 <=? cpu) && (cpu <? MAX_NR_CPUS)) ;;;
  put (fun m => store64 m (tss_base + cpu * TSS_SIZE + rsp0_offset) rsp).
Definition load_pl0_task (cpu : Z) : M tables unit :=
  assert ((0 <=? cpu) && (cpu <? MAX_NR_CPUS)) ;;;
  let selector_index := 5 + cpu in
  let selector := Z.shiftl selector_index 3 in
  ltr selector ;;;
  let! _selector := gets tr in
  assert (_selector =? selector).

(** ** [gdt.c] *)
Definition GDT_SIZE : Z := (5 + MAX_NR_CPUS * 2) * GDT_ENTRY_SIZE.
Definition load_gdt : M tables unit :=
  lgdt (GDT_SIZE - 1) gdt_entries ;;;
  let! _gdt := gets gdtr in
  assert (fst _gdt =? GDT_SIZE - 1) ;;;
  assert (snd _gdt =? gdt_entries).

(** The descriptor of one task state. *)
Definition tss_segment_entry (p tss_addr tss_limit : Z) : M tables unit :=
  put (fun m => memset m p 0x0 GDT_TSS_ENTRY_SIZE) ;;;
  put (fun m => fset m p limit_0_15 tss_limit) ;;;
  put (fun m => fset m p base_0_15 tss_addr) ;;;
  put (fun m => fset m p base_16_23 (Z.shiftr tss_addr 16)) ;;;
  put (fun m => fset m p segment_type 0x9) ;;;
  put (fun m => fset m p segmet_class 0) ;;;
  put (fun m => fset m p dpl DPL_0) ;;;
  put (fun m => fset m p present 1) ;;;
  put (fun m => fset m p limit_16_19 (Z.shiftr tss_limit 16)) ;;;
  put (fun m => fset m p avail 0) ;;;
  put (fun m => fset m p granularity 0) ;;;
  put (fun m => fset m p base_24_31 (Z.shiftr tss_addr 24)) ;;;
  put (fun m => store32 m (p + 8) (Z.shiftr tss_addr 32)).
Definition initialize_tss_entries : M tables unit :=
  mfor (Z.to_nat MAX_NR_CPUS) 0 (fun idx =>
    let tss_limit := TSS_SIZE - 1 in
    let tss_addr := tss_base + idx * TSS_SIZE in
    tss_segment_entry (idx * GDT_TSS_ENTRY_SIZE + 5 * GDT_ENTRY_SIZE + gdt_entries) tss_addr tss_limit).
Definition gdt64_init : M tables unit :=
  assert (layout_bits gdt_tss_entry =? GDT_ENTRY_SIZE * 8) ;;;
  assert (GDT_TSS_ENTRY_SIZE =? 16) ;;;
  initialize_tss_entries ;;;
  load_gdt.

(** ** [interrupt.c] *)
Definition set_pl0_interrupt_gate (vector isr_qword : Z) : M tables unit :=
  let p := interrupt_desc_table + vector * GATE_SIZE in
  put (fun m => memset m p 0x0 GATE_SIZE) ;;;
  put (fun m => fset m p selector KERNEL_CODE_SELECTOR) ;;;
  put (fun m => fset m p ist 0x0) ;;;
  put (fun m => fset m p gate_type 0xe) ;;;
  put (fun m => fset m p gate_dpl DPL_0) ;;;
  put (fun m => fset m p gate_present 1) ;;;
  put (fun m => fset m p offset_0_15 isr_qword) ;;;
  put (fun m => fset m p offset_16_31 (Z.shiftr isr_qword 16)) ;;;
  put (fun m => store32 m (p + 8) (Z.shiftr isr_qword 32)).
Definition load_idt : M tables unit :=
  lidt (256 * GATE_SIZE - 1) interrupt_desc_table ;;;
  let! __idt := gets idtr in
  assert (fst __idt =? 256 * GATE_SIZE - 1) ;;;
  assert (snd __idt =? interrupt_desc_table).
Definition interrupt_init : M tables unit :=
  modify (fun t => t <| handlers := replicate 256 0 |>) ;;;
  mfor 256 0 (fun v => set_pl0_interrupt_gate v (int_entry v)) ;;;
  load_idt.
Definition register_interrupt_handler (vector handler : Z) : M tables unit :=
  assert ((0 <=? vector) && (vector <? 256)) ;;;
  modify (fun t => t <| handlers ::= <[Z.to_nat vector := handler]> |>).

(** The code at a handler's address is a parameter: what it does to the machine
    and the stack pointer it returns. *)
Context (call : Z -> Z -> M tables Z).
Definition acknowledge_interrupt : M tables unit := modify (fun t => t <| eois ::= fun n => n + 1 |>).
Definition interrupt_handler (vector cpu : Z) : M tables Z :=
  let! hs := gets handlers in
  match (if 0 <=? vector then hs !! Z.to_nat vector else None) with
  | None => stop BadAccess
  | Some handler =>
      assert ((0 <=? vector) && (vector <? 256)) ;;;
      let! rsp := (if truthy handler then call handler cpu else ret cpu) in
      acknowledge_interrupt ;;;
      ret rsp
  end.
End Link.

(** ** What a descriptor says *)
Definition with_tmem (t : tables) (m : memory) : tables := t <| t_mem := m |>.

Record is_tss (m : memory) (p base limit : Z) : Prop := {
  it_type : fget m p segment_type = 0x9;
  it_class : fget m p segmet_class = 0;
  it_present : fget m p present = 1;
  it_base : tss_descriptor_base m p = base;
  it_limit : tss_descriptor_limit m p = limit;
  it_reserved : load32 m (p + 12) = 0 }.

Definition gate_offset (m : memory) (p : Z) : Z :=
  fget m p offset_0_15 + 2 ^ 16 * fget m p offset_16_31 + 2 ^ 32 * load32 m (p + 8).
Record is_gate (m : memory) (p isr : Z) : Prop := {
  ig_selector : fget m p selector = KERNEL_CODE_SELECTOR;
  ig_ist : fget m p ist = 0;
  ig_type : fget m p gate_type = 0xe;
  ig_dpl : fget m p gate_dpl = DPL_0;
  ig_present : fget m p gate_present = 1;
  ig_offset : gate_offset m p = isr }.

(** Memory is unchanged outside [n] bytes at [p]. *)
Definition only_at (p n : Z) (m m' : memory) : Prop :=
  forall b, b < p \/ p + n <= b -> rd8 m' b = rd8 m b.
Lemma only_at_trans p n m1 m2 m3 : only_at p n m1 m2 -> only_at p n m2 m3 -> only_at p n m1 m3.
Proof. intros H1 H2 b Hb. by rewrite H2, H1. Qed.
Lemma only_at_sub p n q k m m' : p <= q -> q + k <= p + n -> only_at q k m m' -> only_at p n m m'.
Proof. intros Hp Hq H b Hb. apply H. lia. Qed.

(** Descriptors that agree byte by byte say the same. *)
Lemma fget_same m m' p f : (forall b, p <= b < p + 8 -> rd8 m' b = rd8 m b) -> fget m' p f = fget m p f.
Proof. intros H. unfold fget, load64. f_equal. apply load_ext. intros b Hb. apply H. lia. Qed.
Lemma is_tss_same m m' p base limit :
  (forall b, p <= b < p + 16 -> rd8 m' b = rd8 m b) -> is_tss m p base limit -> is_tss m' p base limit.
Proof.
  intros H []. assert (Hf : forall f, fget m' p f = fget m p f) by (intros f; apply fget_same; intros; apply H; lia).
  assert (Hw : load32 m' (p + 8) = load32 m (p + 8)) by (apply load_ext; intros; apply H; lia).
  assert (Hr : load32 m' (p + 12) = load32 m (p + 12)) by (apply load_ext; intros; apply H; lia).
  split; unfold tss_descriptor_base, tss_descriptor_limit in *; rewrite ?Hf, ?Hw, ?Hr; done.
Qed.
Lemma is_gate_same m m' p isr :
  (forall b, p <= b < p + 16 -> rd8 m' b = rd8 m b) -> is_gate m p isr -> is_gate m' p isr.
Proof.
  intros H []. assert (Hf : forall f, fget m' p f = fget m p f) by (intros f; apply fget_same; intros; apply H; lia).
  assert (Hw : load32 m' (p + 8) = load32 m (p + 8)) by (apply load_ext; intros; apply H; lia).
  split; unfold gate_offset in *; rewrite ?Hf, ?Hw; done.
Qed.

(** The first word after a series of field updates, and the second word. *)
Lemma load64_store32_after m p v : load64 (store32 m (p + 8) v) p = load64 m p.
Proof. unfold load64, store32. apply load_store_out. lia. Qed.
Lemma load32_store32 m p v : load32 (store32 m p v) p = v mod 2 ^ 32.
Proof. apply (load_store 4). Qed.

Ltac descriptor_word :=
  unfold fget; rewrite load64_store32_after; rewrite !load64_fset by (repeat split; vm_compute; congruence);
  first [rewrite load64_memset_in by lia|idtac]; bits_simpl.

Lemma shifted a n : 0 <= n -> Z.shiftr a n = a / 2 ^ n.
Proof. apply Z.shiftr_div_pow2. Qed.

Lemma rd8_fields_out p f v m b : b < p \/ p + 16 <= b -> rd8 (fset m p f v) b = rd8 m b.
Proof. intros. apply rd8_fset_out. lia. Qed.
Lemma rd8_second_out p v m b : b < p \/ p + 16 <= b -> rd8 (store32 m (p + 8) v) b = rd8 m b.
Proof. intros. apply rd8_store_out. lia. Qed.

Lemma with_tmem_same t : with_tmem t (t_mem t) = t.
Proof. by destruct t. Qed.
Lemma put_run f t m : put f (with_tmem t m) = Ret (tt, with_tmem t (f m)).
Proof. by destruct t. Qed.
Lemma put_step {B} f (k : unit -> M tables B) t m : bind (put f) k (with_tmem t m) = k tt (with_tmem t (f m)).
Proof. by destruct t. Qed.
(** Run a series of memory updates. *)
Ltac run_puts :=
  match goal with |- ?c ?t = _ => rewrite <- (with_tmem_same t) at 1 end;
  repeat (rewrite put_step; cbv beta); apply put_run.

Lemma tss_segment_entry_run p addr limit t :
  0 <= addr < 2 ^ 64 -> 0 <= limit < 2 ^ 20 ->
  exists m, tss_segment_entry p addr limit t = Ret (tt, with_tmem t m) /\
    only_at p 16 (t_mem t) m /\ is_tss m p addr limit.
Proof.
  intros Ha Hl. unfold tss_segment_entry. eexists. split; [run_puts|]. split.
  - intros b Hb. rewrite rd8_second_out, !rd8_fields_out by done.
    rewrite rd8_memset by (unfold GDT_TSS_ENTRY_SIZE; lia). by rewrite decide_False by (unfold GDT_TSS_ENTRY_SIZE; lia).
  - change GDT_TSS_ENTRY_SIZE with 16. split.
    + descriptor_word. reflexivity.
    + descriptor_word. reflexivity.
    + descriptor_word. reflexivity.
    + unfold tss_descriptor_base. rewrite load32_store32. descriptor_word.
      rewrite !shifted by lia. unfold wrap. cbn [bf_len base_0_15 base_16_23 base_24_31 nth_field nth fields_at gdt_tss_entry].
      zdiv.
    + unfold tss_descriptor_limit. descriptor_word. rewrite !shifted by lia. unfold wrap.
      cbn [bf_len limit_0_15 limit_16_19 nth_field nth fields_at gdt_tss_entry]. zdiv.
    + unfold load32. rewrite (load_store_out 4 4) by lia. unfold fset, store64.
      rewrite !(load_store_out 4 8) by lia. apply load_memset_in; lia.
Qed.

(** A gate written over a cleared descriptor. *)
Definition gate_fields (m : memory) (p isr : Z) : memory :=
  store32 (fset (fset (fset (fset (fset (fset (fset m p selector KERNEL_CODE_SELECTOR) p ist 0x0) p gate_type 0xe)
    p gate_dpl DPL_0) p gate_present 1) p offset_0_15 isr) p offset_16_31 (Z.shiftr isr 16)) (p + 8) (Z.shiftr isr 32).

Lemma gate_fields_out m p isr b : b < p \/ p + 16 <= b -> rd8 (gate_fields m p isr) b = rd8 m b.
Proof. intros Hb. unfold gate_fields. by rewrite rd8_second_out, !rd8_fields_out. Qed.

Lemma gate_fields_gate m p isr : 0 <= isr < 2 ^ 64 -> load64 m p = 0 -> is_gate (gate_fields m p isr) p isr.
Proof.
  intros Ha Hz. unfold gate_fields. split.
  1-5: descriptor_word; rewrite ?Hz; reflexivity.
  unfold gate_offset. rewrite load32_store32. descriptor_word. rewrite !shifted by lia. unfold wrap.
  cbn [bf_len offset_0_15 offset_16_31 nth_field nth fields_at interrupt_gate_descriptor]. zdiv.
Qed.

Lemma set_pl0_interrupt_gate_run idt vector isr t :
  0 <= isr < 2 ^ 64 ->
  exists m, set_pl0_interrupt_gate idt vector isr t = Ret (tt, with_tmem t m) /\
    only_at (idt + vector * GATE_SIZE) 16 (t_mem t) m /\ is_gate m (idt + vector * GATE_SIZE) isr.
Proof.
  intros Ha. unfold set_pl0_interrupt_gate. generalize (idt + vector * GATE_SIZE). intros p.
  exists (gate_fields (memset (t_mem t) p 0x0 GATE_SIZE) p isr). split; [run_puts|]. split.
  - intros b Hb. rewrite gate_fields_out, rd8_memset by (done || unfold GATE_SIZE; lia).
    by rewrite decide_False by (unfold GATE_SIZE; lia).
  - apply gate_fields_gate; [done|]. apply load64_memset_in; unfold GATE_SIZE; lia.
Qed.

(** ** The task descriptors *)
Section Tasks.
Context (gdt_entries tss_base : Z).
Hypothesis (Htss : 0 <= tss_base /\ tss_base + TSS_SIZE * MAX_NR_CPUS <= 2 ^ 64).
Definition tss_descriptor (i : Z) : Z := i * GDT_TSS_ENTRY_SIZE + 5 * GDT_ENTRY_SIZE + gdt_entries.

Lemma initialize_tss_entries_run t :
  runs (initialize_tss_entries gdt_entries tss_base) t (fun _ t' => exists m, t' = with_tmem t m /\
    only_at (tss_descriptor 0) (16 * MAX_NR_CPUS) (t_mem t) m /\
    forall i, 0 <= i < MAX_NR_CPUS -> is_tss m (tss_descriptor i) (tss_base + i * TSS_SIZE) (TSS_SIZE - 1)).
Proof.
  eapply runs_mono; [apply (runs_mfor_counter _ (fun n t' => exists m, t' = with_tmem t m /\
    only_at (tss_descriptor 0) (16 * MAX_NR_CPUS) (t_mem t) m /\
    forall i, 0 <= i < n -> is_tss m (tss_descriptor i) (tss_base + i * TSS_SIZE) (TSS_SIZE - 1)))|].
  - intros n s Hn (m & -> & Hout & Hi). cbv zeta. change TSS_SIZE with 104 in *. change MAX_NR_CPUS with 64 in *.
    destruct (tss_segment_entry_run (tss_descriptor n) (tss_base + n * 104) (104 - 1) (with_tmem t m))
      as (m' & Hr & Ho & Ht); [lia|lia|].
    exists tt, (with_tmem (with_tmem t m) m'). split; [exact Hr|]. exists m'. split; [by destruct t|]. split.
    + eapply only_at_trans; [exact Hout|]. eapply only_at_sub; [| |exact Ho];
        unfold tss_descriptor, GDT_TSS_ENTRY_SIZE; lia.
    + intros i Hlt. destruct (decide (i = n)) as [->|Hne]; [exact Ht|].
      apply (is_tss_same m); [|apply Hi; lia]. intros b Hb. apply Ho.
      unfold tss_descriptor, GDT_TSS_ENTRY_SIZE in *. lia.
  - exists (t_mem t). split; [by destruct t|]. split; [by intros b|]. intros i Hi. lia.
  - intros [] t' H. exact H.
Qed.

Lemma gdt64_init_run t :
  runs (gdt64_init gdt_entries tss_base) t (fun _ t' => gdtr t' = (GDT_SIZE - 1, gdt_entries) /\
    handlers t' = handlers t /\ only_at (tss_descriptor 0) (16 * MAX_NR_CPUS) (t_mem t) (t_mem t') /\
    forall i, 0 <= i < MAX_NR_CPUS -> is_tss (t_mem t') (tss_descriptor i) (tss_base + i * TSS_SIZE) (TSS_SIZE - 1)).
Proof.
  unfold gdt64_init, runs. rewrite !assert_run by reflexivity. apply runs_bind.
  eapply runs_mono; [apply initialize_tss_entries_run|]. intros [] t1 (m & -> & Ho & Hi).
  unfold load_gdt. apply runs_bind, runs_modify, runs_bind, runs_gets.
  unfold runs. rewrite assert_run by reflexivity. cbn [snd]. rewrite Z.eqb_refl. by eexists tt, _.
Qed.

(** The words of the table: a task descriptor takes two. *)
Lemma upper_half_word m i base limit : is_tss m (tss_descriptor i) base limit ->
  load64 m (tss_descriptor i + 8) < 2 ^ 32.
Proof.
  intros [_ _ _ _ _ Hr]. pose proof (load_range 4 m (tss_descriptor i + 8)) as H4.
  change (256 ^ Z.of_nat 4) with (2 ^ 32) in H4.
  assert (E : load64 m (tss_descriptor i + 8) = load 4 m (tss_descriptor i + 8) + 2 ^ 32 * load 4 m (tss_descriptor i + 12)).
  { unfold load64. rewrite (load_split 4 4). change (256 ^ Z.of_nat 4) with (2 ^ 32). do 3 f_equal. lia. }
  unfold load32 in Hr. rewrite E, Hr. lia.
Qed.

Lemma load_pl0_task_run c t :
  gdtr t = (GDT_SIZE - 1, gdt_entries) ->
  (forall i, 0 <= i < MAX_NR_CPUS -> is_tss (t_mem t) (tss_descriptor i) (tss_base + i * TSS_SIZE) (TSS_SIZE - 1)) ->
  0 <= c < MAX_NR_CPUS ->
  if Z.even c then
    runs (load_pl0_task c) t (fun _ t' => (tr t' = 8 * (5 + c) /\ tr_base t' = tss_base + c / 2 * TSS_SIZE) /\
      only_at (tss_descriptor (c / 2)) 16 (t_mem t) (t_mem t') /\ gdtr t' = gdtr t /\ handlers t' = handlers t)
  else load_pl0_task c t = Stop ProtectionFault.
Proof.
  intros Hg Hi Hc. unfold load_pl0_task, runs.
  rewrite assert_run by (apply andb_true_iff; split; [apply Z.leb_le|apply Z.ltb_lt]; lia). cbv zeta.
  assert (Esel : Z.shiftl (5 + c) 3 = 8 * (5 + c)) by (rewrite Z.shiftl_mul_pow2; lia).
  assert (Eidx : Z.shiftr (8 * (5 + c)) 3 = 5 + c) by (rewrite shifted by lia; zdiv).
  assert (Hlim : (Z.shiftr (8 * (5 + c)) 3 * 8 + 15 <=? fst (gdtr t)) = true).
  { rewrite Hg, Eidx. apply Z.leb_le. change (fst (GDT_SIZE - 1, gdt_entries)) with 1063.
    unfold MAX_NR_CPUS in Hc. lia. }
  rewrite Esel. set (i := c / 2).
  assert (Hir : 0 <= i < MAX_NR_CPUS) by (unfold i, MAX_NR_CPUS in *; zdiv).
  pose proof (Hi i Hir) as Ht. pose proof Ht as [H1 H2 H3 H4 _ _].
  assert (Ep : snd (gdtr t) + 8 * Z.shiftr (8 * (5 + c)) 3 = tss_descriptor i + 8 * (c mod 2)).
  { rewrite Hg, Eidx. cbn [snd]. unfold tss_descriptor, GDT_TSS_ENTRY_SIZE, GDT_ENTRY_SIZE, i. zdiv. }
  destruct (Z.even c) eqn:Ev.
  - assert (E2 : c mod 2 = 0) by (rewrite Zmod_even, Ev; reflexivity). rewrite E2 in Ep. cbn in Ep. rewrite Z.add_0_r in Ep.
    apply runs_bind. unfold ltr. apply runs_bind, runs_gets. cbv zeta. rewrite Hlim, Ep, H1, H2, H3. cbn [andb Z.eqb Pos.eqb].
    apply runs_bind. unfold put. apply runs_modify, runs_modify. apply runs_bind, runs_gets.
    unfold runs. cbn [tr update]. eexists tt, _. split; [cbn; by rewrite Z.eqb_refl|]. split; [split; [reflexivity|exact H4]|].
    split; [|done]. intros b Hb. cbn [t_mem update]. apply rd8_fields_out. exact Hb.
  - assert (E2 : c mod 2 = 1) by (rewrite Zmod_even, Ev; reflexivity). rewrite E2 in Ep.
    unfold bind at 1, ltr. rewrite bind_gets. cbv zeta. rewrite Hlim, Ep.
    pose proof (upper_half_word _ i _ _ Ht) as Hw. pose proof (load64_range (t_mem t) (tss_descriptor i + 8)) as Hr.
    assert (Hz : fget (t_mem t) (tss_descriptor i + 8 * 1) segment_type = 0).
    { unfold fget. change (8 * 1) with 8. rewrite get_bits_spec by (vm_compute; congruence).
      change (bf_lo segment_type) with 40. change (bf_len segment_type) with 4.
      rewrite Z.div_small; [reflexivity|]. lia. }
    rewrite Hz. reflexivity.
Qed.
End Tasks.

(** ** The interrupt table *)
Section Gates.
Context (idt : Z) (int_entry : Z -> Z).
Hypothesis (Hentry : forall v, 0 <= v < 256 -> 0 <= int_entry v < 2 ^ 64).

Lemma interrupt_init_runs t :
  runs (interrupt_init idt int_entry) t (fun _ t' =>
    idtr t' = (256 * GATE_SIZE - 1, idt) /\ handlers t' = replicate 256 0 /\ eois t' = eois t /\
    only_at idt (256 * GATE_SIZE) (t_mem t) (t_mem t') /\
    (forall v, 0 <= v < 256 -> is_gate (t_mem t') (idt + v * GATE_SIZE) (int_entry v)) /\
    gdtr t' = gdtr t /\ tr t' = tr t /\ tr_base t' = tr_base t).
Proof.
  unfold interrupt_init. apply runs_bind, runs_modify, runs_bind.
  set (t0 := t <| handlers := replicate 256 0 |>).
  eapply runs_mono; [apply (runs_mfor_counter _ (fun n t' => exists m, t' = with_tmem t0 m /\
    only_at idt (256 * GATE_SIZE) (t_mem t) m /\
    forall v, 0 <= v < n -> is_gate m (idt + v * GATE_SIZE) (int_entry v)))|].
  - intros n s Hn (m & -> & Hout & Hi).
    destruct (set_pl0_interrupt_gate_run idt n (int_entry n) (with_tmem t0 m) (Hentry n ltac:(lia)))
      as (m' & Hr & Ho & Ht). change GATE_SIZE with 16 in *.
    exists tt, (with_tmem (with_tmem t0 m) m'). split; [exact Hr|]. exists m'. split; [reflexivity|]. split.
    + eapply only_at_trans; [exact Hout|]. eapply only_at_sub; [| |exact Ho]; lia.
    + intros v Hv. destruct (decide (v = n)) as [->|Hne]; [exact Ht|].
      apply (is_gate_same m); [|apply Hi; lia]. intros b Hb. apply Ho. lia.
  - exists (t_mem t). split; [by destruct t|]. split; [by intros b|]. intros i Hi. lia.
  - intros [] t' (m & -> & Ho & Hi). unfold load_idt. apply runs_bind, runs_modify, runs_bind, runs_gets.
    unfold runs. rewrite assert_run by reflexivity. cbn [snd]. rewrite Z.eqb_refl. eexists tt, _.
    do 4 (split; [reflexivity|]). by split_and!.
Qed.
End Gates.

(** What the dispatcher does for a vector of the table. *)
Lemma interrupt_handler_run call vector cpu t h :
  0 <= vector < 256 -> handlers t !! Z.to_nat vector = Some h ->
  interrupt_handler call vector cpu t =
    (let! rsp := (if truthy h then call h cpu else ret cpu) in acknowledge_interrupt ;;; ret rsp) t.
Proof.
  intros Hv Hh. unfold interrupt_handler. rewrite bind_gets.
  rewrite (proj2 (Z.leb_le 0 vector)) by lia. rewrite Hh. rewrite assert_run; [done|].
  apply andb_true_iff. split; [done|]. apply Z.ltb_lt. lia.
Qed.

(** ** Properties *)

(** C29 The task register: [gdt64_init] describes the task state of every CPU, but a
    descriptor takes two entries of the table and [load_pl0_task] counts one: CPU 0
    loads its own task state, CPU 2k loads that of CPU k, and an odd CPU is refused
    with a protection fault, for it selects the upper half of a descriptor. *)
Theorem task_register_of_cpu (gdt_entries tss_base c : Z) (t : tables) :
  0 <= tss_base -> tss_base + TSS_SIZE * MAX_NR_CPUS <= 2 ^ 64 -> 0 <= c < MAX_NR_CPUS ->
  exists t1, gdt64_init gdt_entries tss_base t = Ret (tt, t1) /\
    (forall i, 0 <= i < MAX_NR_CPUS ->
       is_tss (t_mem t1) (tss_descriptor gdt_entries i) (tss_base + i * TSS_SIZE) (TSS_SIZE - 1)) /\
    only_at (gdt_entries + 5 * GDT_ENTRY_SIZE) (16 * MAX_NR_CPUS) (t_mem t) (t_mem t1) /\
    if Z.even c then exists t2, load_pl0_task c t1 = Ret (tt, t2) /\ tr t2 = 8 * (5 + c) /\
                       tr_base t2 = tss_base + c / 2 * TSS_SIZE
    else load_pl0_task c t1 = Stop ProtectionFault.
Proof.
  intros H0 H1 Hc.
  destruct (gdt64_init_run gdt_entries tss_base (conj H0 H1) t) as ([] & t1 & Hr & Hg & _ & Ho & Hi).
  exists t1. split; [exact Hr|]. split; [exact Hi|]. split.
  { intros b Hb. apply Ho. unfold tss_descriptor. lia. }
  pose proof (load_pl0_task_run gdt_entries tss_base c t1 Hg Hi Hc) as Hl.
  destruct (Z.even c); [|exact Hl]. destruct Hl as ([] & t2 & Hr2 & [Htr Hb] & _). by exists t2.
Qed.

Definition sample_tables : tables := Tables ∅ (0, 0) (0, 0) 0 0 [] 0.
Lemma task_register_of_cpu_witness :
  (exists t2, (gdt64_init 0x1000 0x8000 ;;; load_pl0_task 6) sample_tables = Ret (tt, t2) /\
     tr_base t2 = 0x8000 + 3 * 104) /\
  (gdt64_init 0x1000 0x8000 ;;; load_pl0_task 1) sample_tables = Stop ProtectionFault.
Proof.
  assert (Hb : 0x8000 + TSS_SIZE * MAX_NR_CPUS <= 2 ^ 64) by (vm_compute; congruence).
  split.
  - destruct (task_register_of_cpu 0x1000 0x8000 6 sample_tables ltac:(lia) Hb ltac:(unfold MAX_NR_CPUS; lia))
      as (t1 & Hr & _ & _ & t2 & Hr2 & _ & Htr).
    exists t2. split; [run_with Hr; exact Hr2|exact Htr].
  - destruct (task_register_of_cpu 0x1000 0x8000 1 sample_tables ltac:(lia) Hb ltac:(unfold MAX_NR_CPUS; lia))
      as (t1 & Hr & _ & _ & Hl).
    run_with Hr. exact Hl.
Defined.

(** C23 Interrupt set-up and delivery: after [interrupt_init] and the registration of
    a handler, every vector's gate leads to its own entry, at ring 0 through the
    kernel's code segment, and no memory outside the table changed; the registered
    vector runs the handler, every other one runs none, and each interrupt is
    acknowledged exactly once. *)
Theorem interrupts_delivered (idt : Z) (int_entry : Z -> Z) (call : Z -> Z -> M tables Z)
    (vector handler : Z) (t : tables) :
  (forall v, 0 <= v < 256 -> 0 <= int_entry v < 2 ^ 64) -> 0 <= vector < 256 -> handler <> 0 ->
  exists t1, (interrupt_init idt int_entry ;;; register_interrupt_handler vector handler) t = Ret (tt, t1) /\
    only_at idt (256 * GATE_SIZE) (t_mem t) (t_mem t1) /\
    forall v, 0 <= v < 256 ->
      is_gate (t_mem t1) (idt + v * GATE_SIZE) (int_entry v) /\
      forall cpu, interrupt_handler call v cpu t1 =
        (let! rsp := (if decide (v = vector) then call handler cpu else ret cpu) in
         acknowledge_interrupt ;;; ret rsp) t1.
Proof.
  intros He Hv Hh. destruct (interrupt_init_runs idt int_entry He t) as ([] & t0 & Hr & _ & Hhs & _ & Ho & Hg & _).
  eexists. split.
  { run_with Hr. unfold register_interrupt_handler. rewrite assert_run; [reflexivity|].
    apply andb_true_iff. split; [apply Z.leb_le|apply Z.ltb_lt]; lia. }
  split; [exact Ho|]. intros v Hvr. split; [exact (Hg v Hvr)|]. intros cpu.
  set (t1 := t0 <| handlers ::= _ |>).
  assert (Hlk : handlers t1 !! Z.to_nat v = Some (if decide (v = vector) then handler else 0)).
  { change (handlers t1) with (<[Z.to_nat vector := handler]> (handlers t0)). rewrite Hhs.
    case_decide as E; [subst; rewrite list_lookup_insert_eq; [done|rewrite length_replicate; lia]|].
    rewrite list_lookup_insert_ne by lia. apply lookup_replicate_2. lia. }
  rewrite (interrupt_handler_run _ _ _ _ _ Hvr Hlk).
  destruct (decide (v = vector)) as [_|_]; [|reflexivity].
  by rewrite (proj2 (truthy_true handler) Hh).
Qed.

Lemma interrupts_delivered_witness :
  let call := fun h cpu : Z => ret (cpu + h) : M tables Z in
  exists t1, (interrupt_init 0x1000 (fun v => 0x100000 + 16 * v) ;;; register_interrupt_handler 0x21 7) sample_tables
      = Ret (tt, t1) /\
    observe eois (interrupt_handler call 0x21 100 t1) = Some (107, eois t1 + 1) /\
    observe eois (interrupt_handler call 0x20 100 t1) = Some (100, eois t1 + 1).
Proof.
  intros call.
  destruct (interrupts_delivered 0x1000 (fun v => 0x100000 + 16 * v) call 0x21 7 sample_tables
    ltac:(intros; lia) ltac:(lia) ltac:(lia)) as (t1 & Hr & _ & H).
  exists t1. split; [exact Hr|].
  destruct (H 0x21 ltac:(lia)) as [_ ->]. destruct (H 0x20 ltac:(lia)) as [_ ->]. by split.
Defined.
