(* ===== verification/Segments.v ===== *)
(** * Segments: the code and data descriptors the two programs are linked with
    ([x86_64/gdt.c], [guest/gdt64.c]) and what their selectors select.

    An initialiser of a packed structure is a list of field values, truncated to the
    fields; the tables are lists of 64-bit words. *)
From Stdlib Require Import ZArith Lia.
From stdpp Require Import base tactics list numbers gmap.
From S2P Require Import Prelude.
From S2P Require Import Memory.
From S2P Require Import Descriptors.
Local Open Scope Z_scope.

Definition gdt_entry : list Z := [16; 16; 8; 4; 1; 2; 1; 4; 1; 1; 1; 1; 8].
Definition KERNEL_DATA_SELECTOR : Z := 0x10.
Definition USER_CODE_SELECTOR : Z := 0x1b.
Definition USER_DATA_SELECTOR : Z := 0x23.
Definition NULL_SELECTOR : Z := 0x00.
Definition DPL_3 : Z := 0x3.
Definition _SEGMENT_BASE : Z := 0x0.
Definition _SEGMENT_LIMIT : Z := -1.
Definition _SEGMENT_TYPE_RW_DATA : Z := 0x2.
Definition _SEGMENT_TYPE_RX_CODE : Z := 0xa.

(** [{v0, v1, ...}] as a structure of bit-fields. *)
Definition aggregate (layout values : list Z) : Z :=
  foldl (fun w '(f, v) => set_bits w f v) 0 (zip (fields_at 0 layout) values).
Definition segment (type dpl long_mode : Z) : Z :=
  aggregate gdt_entry [_SEGMENT_LIMIT; _SEGMENT_BASE; _SEGMENT_BASE; type; 1; dpl; 1; _SEGMENT_LIMIT; 0; long_mode; 0; 1;
    _SEGMENT_BASE].

(** The initialised part of the kernel's table, and the guest's. *)
Definition gdt_entries : list Z :=
  [ aggregate gdt_entry [0];
    segment _SEGMENT_TYPE_RX_CODE DPL_0 1;
    segment _SEGMENT_TYPE_RW_DATA DPL_0 0;
    segment _SEGMENT_TYPE_RX_CODE DPL_3 1;
    segment _SEGMENT_TYPE_RW_DATA DPL_3 1 ].
Definition initial_gdt_entries : list Z :=
  [ aggregate gdt_entry [0];
    segment _SEGMENT_TYPE_RX_CODE DPL_0 1;
    segment _SEGMENT_TYPE_RW_DATA DPL_0 0 ].
(** [struct gdt_info]: the size and the address the register is loaded with. *)
Definition initial_gdt_info (entries : Z) : Z * Z := (8 * Z.of_nat (length initial_gdt_entries), entries).

(** ** Reloading the tables, on an application processor *)
Section Link.
Context (gdt_entries_ tss_base interrupt_desc_table : Z) (cpu : Z).
Definition get_tss_base : Z := tss_base.
(** [sgdt] and [sidt]. *)
Definition get_gdtr_base : M tables Z := let! _gdt := gets gdtr in ret (snd _gdt).
Definition get_idtr_base : M tables Z := let! _idt := gets idtr in ret (snd _idt).
Definition gdt64_ap_init : M tables unit := load_gdt gdt_entries_.
Definition interrupt_ap_init : M tables unit := load_idt interrupt_desc_table.
Definition task_register_init : M tables unit := load_pl0_task cpu.
End Link.

(** * Properties *)

(** What the processor finds for a selector: nothing for the null selector and for
    one beyond the limit, otherwise the descriptor's word. *)
Definition select (m : memory) (gdtr : Z * Z) (sel : Z) : option Z :=
  let i := Z.shiftr sel 3 in
  if (i =? 0) || (fst gdtr <? 8 * i + 7) then None else Some (load64 m (snd gdtr + 8 * i)).

(** A flat segment of 4 GiB, present, of a type and a privilege. *)
Record flat_segment (type dpl : Z) (w : Z) : Prop := {
  fs_base : get_bits w (nth_field gdt_entry 1) + 2 ^ 16 * get_bits w (nth_field gdt_entry 2) +
            2 ^ 24 * get_bits w (nth_field gdt_entry 12) = 0;
  fs_limit : get_bits w (nth_field gdt_entry 0) + 2 ^ 16 * get_bits w (nth_field gdt_entry 7) = 2 ^ 20 - 1;
  fs_pages : get_bits w (nth_field gdt_entry 11) = 1;
  fs_class : get_bits w (nth_field gdt_entry 4) = 1;
  fs_present : get_bits w (nth_field gdt_entry 6) = 1;
  fs_type : get_bits w (nth_field gdt_entry 3) = type;
  fs_dpl : get_bits w (nth_field gdt_entry 5) = dpl }.
(** 64-bit code: the long-mode bit without the operand-size bit. *)
Definition long_code (w : Z) : Prop := get_bits w (nth_field gdt_entry 9) = 1 /\ get_bits w (nth_field gdt_entry 10) = 0.

(** The words of a table in memory. *)
Definition holds_table (m : memory) (p : Z) (ws : list Z) : Prop :=
  forall i w, ws !! i = Some w -> load64 m (p + 8 * Z.of_nat i) = w.

Lemma select_word m p limit ws sel w : holds_table m p ws -> 0 < Z.shiftr sel 3 -> 8 * Z.shiftr sel 3 + 7 <= limit ->
  ws !! Z.to_nat (Z.shiftr sel 3) = Some w -> select m (limit, p) sel = Some w.
Proof.
  intros Ht H0 Hl Hw. unfold select. cbn [fst snd]. destruct (Z.eqb_spec (Z.shiftr sel 3) 0); [lia|].
  destruct (Z.ltb_spec limit (8 * Z.shiftr sel 3 + 7)); [lia|]. cbn [orb]. f_equal.
  rewrite <- (Ht _ _ Hw). by rewrite Z2Nat.id by lia.
Qed.

Definition selects (m : memory) (gdtr : Z * Z) (sel type : Z) : Prop :=
  exists w, select m gdtr sel = Some w /\ flat_segment type (Z.land sel 3) w /\
    (type = _SEGMENT_TYPE_RX_CODE -> long_code w).

(** After [gdt64_init], with the table as it was linked: every selector of the
    program selects a flat segment of its type whose privilege is the selector's
    own, the code segments are 64-bit code, and the null selector selects nothing. *)
Theorem segments_selected p tss_base t : 0 <= tss_base /\ tss_base + TSS_SIZE * MAX_NR_CPUS <= 2 ^ 64 ->
  holds_table (t_mem t) p gdt_entries ->
  runs (gdt64_init p tss_base) t (fun _ t' =>
    selects (t_mem t') (gdtr t') KERNEL_CODE_SELECTOR _SEGMENT_TYPE_RX_CODE /\
    selects (t_mem t') (gdtr t') KERNEL_DATA_SELECTOR _SEGMENT_TYPE_RW_DATA /\
    selects (t_mem t') (gdtr t') USER_CODE_SELECTOR _SEGMENT_TYPE_RX_CODE /\
    selects (t_mem t') (gdtr t') USER_DATA_SELECTOR _SEGMENT_TYPE_RW_DATA /\
    select (t_mem t') (gdtr t') NULL_SELECTOR = None).
Proof.
  intros Htb Ht. eapply runs_mono; [by apply gdt64_init_run|]. intros [] t' (-> & _ & Ho & _).
  assert (Ht' : holds_table (t_mem t') p gdt_entries).
  { intros i w Hw. rewrite <- (Ht i w Hw). apply load_ext. intros b Hb. apply Ho.
    pose proof (lookup_lt_Some _ _ _ Hw) as Hi. unfold tss_descriptor. cbn in Hi. unfold GDT_ENTRY_SIZE, GDT_TSS_ENTRY_SIZE. lia. }
  split_and!; [..|done]; (eexists; split; [eapply select_word; [exact Ht'|done|done|reflexivity]|split; [split; reflexivity|]]).
  all: intros He; first [done|split; reflexivity].
Qed.

Fixpoint store_table (m : memory) (p : Z) (ws : list Z) : memory :=
  match ws with [] => m | w :: ws => store_table (store64 m p w) (p + 8) ws end.
Lemma segments_selected_witness : exists t',
  gdt64_init 0x200000 0x210000 (Tables (store_table ∅ 0x200000 gdt_entries) (0, 0) (0, 0) 0 0 [] 0) = Ret (tt, t') /\
  selects (t_mem t') (gdtr t') USER_CODE_SELECTOR _SEGMENT_TYPE_RX_CODE.
Proof.
  destruct (segments_selected 0x200000 0x210000 (Tables (store_table ∅ 0x200000 gdt_entries) (0, 0) (0, 0) 0 0 [] 0))
    as ([] & t' & Hr & _ & _ & H & _).
  - by_compute.
  - intros i w Hw. do 5 (destruct i as [|i]; [injection Hw as <-; reflexivity|]). done.
  - exists t'. split; [exact Hr|exact H].
Defined.

(** The guest's table, loaded by its 32-bit entry: the two selectors it uses select
    64-bit code and data of privilege 0. [size] is the number of bytes, one more than
    the limit the register takes, but the byte too many admits no descriptor: every
    other selector selects nothing. *)
Theorem guest_segments_selected m p sel : 0 <= sel -> holds_table m p initial_gdt_entries ->
  let gdtr := initial_gdt_info p in
  selects m gdtr KERNEL_CODE_SELECTOR _SEGMENT_TYPE_RX_CODE /\
  selects m gdtr KERNEL_DATA_SELECTOR _SEGMENT_TYPE_RW_DATA /\
  (Z.shiftr sel 3 <> Z.shiftr KERNEL_CODE_SELECTOR 3 -> Z.shiftr sel 3 <> Z.shiftr KERNEL_DATA_SELECTOR 3 ->
   select m gdtr sel = None).
Proof.
  intros Hsel Ht gdtr. unfold gdtr, initial_gdt_info. split; [|split].
  1, 2: (eexists; split; [eapply select_word; [exact Ht|done|done|reflexivity]|split; [split; reflexivity|]];
    intros He; first [done|split; reflexivity]).
  change (Z.shiftr KERNEL_CODE_SELECTOR 3) with 1. change (Z.shiftr KERNEL_DATA_SELECTOR 3) with 2.
  pose proof (Z.shiftr_nonneg sel 3) as Hn. intros H1 H2. unfold select. cbn [fst].
  destruct (Z.eqb_spec (Z.shiftr sel 3) 0); [done|].
  destruct (Z.ltb_spec (8 * Z.of_nat (length initial_gdt_entries)) (8 * Z.shiftr sel 3 + 7)) as [_|Hle]; [done|].
  cbn [length initial_gdt_entries] in Hle. lia.
Qed.
