(* ===== verification/Percpu.v ===== *)
(** * Percpu: storage local to a processor ([x86_64/processor_local_storage.c],
    [x86_64/include/per_cpu.h]).

    Every processor's GS base is the offset of its area in [pls_blob]; the area
    begins with the processor's index. The processors run the same code over one
    memory, so an operation takes the processor that executes it. *)
From Stdlib Require Import ZArith Lia.
From stdpp Require Import base tactics list numbers gmap.
From S2P Require Import Prelude Memory Descriptors Apic.
Local Open Scope Z_scope.

Definition CPU_LOCAL_STORAGE_MAGIC : Z := 0xdeadbeef.
(** [struct cpu_local_area], packed and aligned to a page. *)
Definition CPU_LOCAL_AREA_SIZE : Z := 4096.
Definition processor_index_offset : Z := 0.
Definition magic_number_offset : Z := 2.

Record processors := Processors { p_mem : memory; gs_base : Z -> Z; kernel_gs_base : Z -> Z }.
#[export] Instance eta_processors : Eta processors := fun s =>
  Processors (p_mem s) (gs_base s) (kernel_gs_base s).

Section Code.
Context (pls_blob : Z) (CPUID : Z -> Z -> cpuid_regs).

(** [&pls_blob[i]]. *)
Definition area (i : Z) : Z := pls_blob + i * CPU_LOCAL_AREA_SIZE.

(** [cpu()] on processor [c]. *)
Definition cpu_on (c : Z) : Z := cpu (CPUID c).

Definition processor_local_storage_pre_init : M processors unit :=
  modify (fun s => s <| p_mem ::= fun m => memset m pls_blob 0x0 (MAX_NR_CPUS * CPU_LOCAL_AREA_SIZE) |>).

Definition processor_local_indicator_init (c : Z) : M processors unit :=
  let eax := u32 (cpu_on c * CPU_LOCAL_AREA_SIZE) in
  modify (fun s => s <| gs_base ::= set_at c eax |>) ;;;
  modify (fun s => s <| kernel_gs_base ::= set_at c eax |>).

Definition processor_local_storage_init (c : Z) : M processors unit :=
  processor_local_indicator_init c ;;;
  modify (fun s => s <| p_mem ::= fun m => store16 m (area (cpu_on c) + processor_index_offset) (cpu_on c) |>) ;;;
  modify (fun s => s <| p_mem ::= fun m =>
    store32 m (area (cpu_on c) + magic_number_offset) CPU_LOCAL_STORAGE_MAGIC |>).

(** The first half-word at GS:[pls_blob]. *)
Definition get_cpu_local_area (c : Z) : M processors Z :=
  let! processor_index := gets (fun s => load16 (p_mem s) (u64 (gs_base s c + pls_blob))) in
  assert (processor_index <? MAX_NR_CPUS) ;;;
  ret (area processor_index).

Definition cpuid (c : Z) : M processors Z :=
  let! _pls := get_cpu_local_area c in
  let! magic := gets (fun s => load32 (p_mem s) (_pls + magic_number_offset)) in
  if negb (magic =? CPU_LOCAL_STORAGE_MAGIC) then ret (cpu_on c)
  else
    let! _pls := get_cpu_local_area c in
    gets (fun s => load16 (p_mem s) (_pls + processor_index_offset)).

Definition processor_local_storage_ap_init (c : Z) : M processors unit :=
  processor_local_storage_init c ;;;
  let! _pls := get_cpu_local_area c in
  let! index := gets (fun s => load16 (p_mem s) (_pls + processor_index_offset)) in
  assert (index =? cpu_on c) ;;;
  assert (_pls =? area (cpu_on c)) ;;;
  let! _logged := cpuid c in
  ret tt.

(** [per_cpu.h]: the element of an array that belongs to a processor. *)
Definition PER_CPU (size name cpu : Z) : Z := cpu * size + name.
Definition THIS_CPU (size name c : Z) : M processors Z :=
  let! __this_cpu_id := cpuid c in
  ret (PER_CPU size name __this_cpu_id).
End Code.

(** ** What the areas hold

    [initialised l s]: the processors of [l] have run their initialisation. *)
Section Theory.
Context (pls_blob : Z) (CPUID : Z -> Z -> cpuid_regs).
Hypothesis Hblob : 0 <= pls_blob < 2 ^ 48.
(** The processors are numbered by their initial APIC identifiers. *)
Hypothesis Hcpu : forall c, 0 <= c < MAX_NR_CPUS -> cpu_on CPUID c = c.

Abbreviation area := (area pls_blob).

Record initialised (l : list Z) (s : processors) : Prop := {
  in_gs : forall c, 0 <= c < MAX_NR_CPUS -> gs_base s c = if decide (c ∈ l) then c * CPU_LOCAL_AREA_SIZE else 0;
  in_index : forall c, 0 <= c < MAX_NR_CPUS -> load16 (p_mem s) (area c) = if decide (c ∈ l) then c else 0;
  in_magic : forall c, 0 <= c < MAX_NR_CPUS ->
    load32 (p_mem s) (area c + magic_number_offset) = if decide (c ∈ l) then CPU_LOCAL_STORAGE_MAGIC else 0 }.

Lemma pre_initialised m g k : (forall c, g c = 0) ->
  runs (processor_local_storage_pre_init pls_blob) (Processors m g k) (fun _ => initialised []).
Proof using Hblob.
  intros Hg. apply runs_modify. unfold update. cbn. split; cbn [gs_base p_mem]; intros c Hc.
  - rewrite Hg. by rewrite decide_False by apply not_elem_of_nil.
  - rewrite decide_False by apply not_elem_of_nil. apply (load_memset_in 2); unfold Percpu.area, MAX_NR_CPUS, CPU_LOCAL_AREA_SIZE in *; lia.
  - rewrite decide_False by apply not_elem_of_nil.
    apply (load_memset_in 4); unfold Percpu.area, magic_number_offset, MAX_NR_CPUS, CPU_LOCAL_AREA_SIZE in *; lia.
Qed.

(** The offset of an area in the blob, and its base address. *)
Ltac areas := unfold Percpu.area, processor_index_offset, magic_number_offset, MAX_NR_CPUS, CPU_LOCAL_AREA_SIZE in *; lia.

Lemma in_last (l : list Z) c : c ∈ l ++ [c].
Proof. apply elem_of_app. right. by apply list_elem_of_singleton. Qed.

Lemma in_snoc {A : Type} (l : list Z) (c d : Z) (x y : A) :
  (if decide (d ∈ l ++ [c]) then x else y) = if decide (d = c) then x else if decide (d ∈ l) then x else y.
Proof.
  assert (d ∈ l ++ [c] <-> d = c \/ d ∈ l) by (rewrite elem_of_app, list_elem_of_singleton; tauto).
  repeat case_decide; tauto.
Qed.

Lemma processor_initialised l c s : 0 <= c < MAX_NR_CPUS -> initialised l s ->
  runs (processor_local_storage_init pls_blob CPUID c) s (fun _ s' => initialised (l ++ [c]) s' /\
    only_at (area c) 6 (p_mem s) (p_mem s')).
Proof using Hcpu Hblob.
  intros Hc [Hg Hi Hm]. unfold processor_local_storage_init, processor_local_indicator_init.
  rewrite !Hcpu by done. repeat (apply runs_bind || apply runs_modify).
  destruct s as [m g k]. cbv [update]. cbn [gs_base p_mem kernel_gs_base] in *.
  set (m1 := store16 m (area c + processor_index_offset) c).
  split; [|intros b Hb; unfold m1, store32, store16; rewrite !rd8_store_out; [done|areas..]].
  split; intros d Hd; rewrite in_snoc; cbn [gs_base p_mem].
  - unfold set_at. destruct (Z.eqb_spec d c) as [->|Hne].
    + rewrite decide_True by done. apply u32_small. areas.
    + rewrite decide_False by done. by apply Hg.
  - transitivity (load16 m1 (area d)); [apply load_store_out; destruct (decide (d = c)); subst; areas|].
    case_decide as E.
    + subst d. unfold m1. rewrite Z.add_0_r. unfold load16, store16. rewrite load_store.
      apply Z.mod_small. unfold MAX_NR_CPUS in Hc. lia.
    + rewrite <- Hi by done. apply load_store_out. areas.
  - case_decide as E.
    + subst d. unfold load32, store32. by rewrite load_store.
    + rewrite <- Hm by done. transitivity (load32 m1 (area d + magic_number_offset)); apply load_store_out; areas.
Qed.

Lemma area_in_memory c : 0 <= c < MAX_NR_CPUS -> u64 (c * CPU_LOCAL_AREA_SIZE + pls_blob) = area c.
Proof using Hblob. intros Hc. rewrite u64_small; areas. Qed.

(** Only the areas matter. *)
Lemma initialised_frame l m m' g k k' : (forall b, pls_blob <= b < pls_blob + MAX_NR_CPUS * CPU_LOCAL_AREA_SIZE -> rd8 m' b = rd8 m b) ->
  initialised l (Processors m g k) -> initialised l (Processors m' g k').
Proof using.
  intros Hm [Hg Hi Hma]. split; cbn [gs_base p_mem] in *; intros c Hc.
  - by apply Hg.
  - rewrite <- Hi by done. apply load_ext. intros b Hb. apply Hm. areas.
  - rewrite <- Hma by done. apply load_ext. intros b Hb. apply Hm. areas.
Qed.

(** The area a processor reaches through its GS base. *)
Lemma get_cpu_local_area_run l s c : 0 <= c < MAX_NR_CPUS -> initialised l s ->
  get_cpu_local_area pls_blob c s = Ret (area (if decide (c ∈ l) then c else 0), s).
Proof using Hblob.
  intros Hc [Hg Hi Hm]. unfold get_cpu_local_area. rewrite bind_gets, Hg by done.
  assert (E : load16 (p_mem s) (u64 ((if decide (c ∈ l) then c * CPU_LOCAL_AREA_SIZE else 0) + pls_blob)) =
    if decide (c ∈ l) then c else 0).
  { case_decide as Hin.
    - rewrite area_in_memory, Hi by done. by rewrite decide_True.
    - change 0 with (0 * CPU_LOCAL_AREA_SIZE) at 1. rewrite area_in_memory, Hi by done. by case_decide. }
  rewrite E. rewrite assert_run; [done|]. case_decide; [|done]. lia.
Qed.

(** What [cpuid] answers on every processor, initialised or not. *)
Definition cpuid_answer (l : list Z) (c : Z) : Z :=
  if decide (c ∈ l) then c else if decide (0 ∈ l) then 0 else c.

Lemma cpuid_run l s c : 0 <= c < MAX_NR_CPUS -> initialised l s ->
  cpuid pls_blob CPUID c s = Ret (cpuid_answer l c, s).
Proof using Hblob Hcpu.
  intros Hc Hin. unfold cpuid, cpuid_answer.
  run_with (get_cpu_local_area_run l s c Hc Hin). rewrite bind_gets.
  rewrite (in_magic l s Hin) by (case_decide; [lia|by_compute]).
  destruct (decide (c ∈ l)) as [E|E].
  - rewrite decide_True by done. rewrite Z.eqb_refl. cbn [negb].
    run_with (get_cpu_local_area_run l s c Hc Hin). rewrite decide_True by done.
    unfold gets. rewrite Z.add_0_r, (in_index l s Hin) by done. by rewrite decide_True.
  - destruct (decide (0 ∈ l)) as [E0|E0].
    + rewrite Z.eqb_refl. cbn [negb]. run_with (get_cpu_local_area_run l s c Hc Hin). rewrite decide_False by done.
      unfold gets. rewrite Z.add_0_r, (in_index l s Hin) by by_compute. by rewrite decide_True.
    + cbn [Z.eqb negb CPU_LOCAL_STORAGE_MAGIC]. rewrite Hcpu by done. done.
Qed.
Lemma ap_initialised l c s : 0 <= c < MAX_NR_CPUS -> initialised l s ->
  runs (processor_local_storage_ap_init pls_blob CPUID c) s (fun _ s' => initialised (l ++ [c]) s' /\
    only_at (area c) 6 (p_mem s) (p_mem s')).
Proof using Hblob Hcpu.
  intros Hc Hs. apply runs_bind. eapply runs_mono; [by apply processor_initialised|]. intros [] s1 [H1 Ho].
  apply runs_bind. exists (area c), s1. rewrite (get_cpu_local_area_run (l ++ [c]) s1 c Hc H1), decide_True by apply in_last.
  split; [done|]. apply runs_bind, runs_gets. rewrite Z.add_0_r, (in_index _ _ H1), decide_True, Hcpu by (done || apply in_last).
  rewrite !Z.eqb_refl. apply runs_bind, runs_ret, runs_bind, runs_ret, runs_bind.
  exists (cpuid_answer (l ++ [c]) c), s1. split; [by apply cpuid_run|]. apply runs_ret. by split.
Qed.

(** The start of a processor: [kernel_main]'s call or [kernel_ap_main]'s. *)
Definition start_storage (p : bool * Z) : M processors unit :=
  if fst p then processor_local_storage_ap_init pls_blob CPUID (snd p)
  else processor_local_storage_init pls_blob CPUID (snd p).

Lemma started_storage ps l s : Forall (fun p => 0 <= snd p < MAX_NR_CPUS) ps -> initialised l s ->
  runs (miter start_storage ps) s (fun _ => initialised (l ++ map snd ps)).
Proof using Hblob Hcpu.
  intros Hps. revert l s. induction Hps as [|[ap c] ps Hc _ IH]; intros l s Hs; cbn [miter map].
  - apply runs_ret. by rewrite app_nil_r.
  - apply runs_bind. apply (runs_mono _ _ (fun _ => initialised (l ++ [c]))).
    + unfold start_storage. cbn [fst snd] in *. destruct ap;
        (eapply runs_mono; [by (apply ap_initialised || apply processor_initialised)|by intros [] s' [H' _]]).
    + intros [] s1 H1. eapply runs_mono; [by apply IH|]. intros [] s2 H2. by rewrite <- app_assoc in H2.
Qed.

(** C27 Processor-local storage, for any processors that start in any order (the
    application processors' assertions included: none fails). A processor that has
    started reaches its own area and [cpuid] answers its number, so [THIS_CPU] is
    its own element of a per-processor array. One that has not started answers
    correctly, through CPUID, only while processor 0 has not started either:
    afterwards its GS base of zero leads to the area of processor 0, whose magic
    number is valid, and [cpuid] answers 0. *)
Theorem cpuid_answers ps m g k size name :
  (forall c, g c = 0) -> Forall (fun p => 0 <= snd p < MAX_NR_CPUS) ps ->
  runs (processor_local_storage_pre_init pls_blob ;;; miter start_storage ps) (Processors m g k)
    (fun _ s => forall c, 0 <= c < MAX_NR_CPUS ->
       (c ∈ map snd ps -> get_cpu_local_area pls_blob c s = Ret (area c, s) /\
          cpuid pls_blob CPUID c s = Ret (c, s) /\
          THIS_CPU pls_blob CPUID size name c s = Ret (c * size + name, s)) /\
       (c ∉ map snd ps ->
          cpuid pls_blob CPUID c s = Ret (if decide (0 ∈ map snd ps) then 0 else c, s))).
Proof using Hblob Hcpu.
  intros Hg Hps. apply runs_bind. eapply runs_mono; [by apply pre_initialised|]. intros [] s0 H0.
  eapply runs_mono; [by apply started_storage|]. intros [] s H c Hc. cbn [app] in H.
  pose proof (cpuid_run _ _ c Hc H) as Hr. unfold cpuid_answer in Hr. split; intros Hin.
  - rewrite decide_True in Hr by done. split; [|split; [exact Hr|]].
    + by rewrite (get_cpu_local_area_run _ _ c Hc H), decide_True.
    + unfold THIS_CPU. by run_with Hr.
  - by rewrite decide_False in Hr.
Qed.
End Theory.

(** Processors numbered by their identifiers; 0 and 1 have started, 2 has not. *)
Definition sample_cpuid (c leaf : Z) : cpuid_regs := CpuidRegs 0 (Z.shiftl c 24) 0 0.

Lemma cpuid_answers_witness :
  exists s, (processor_local_storage_pre_init 0x300000 ;;;
      miter (start_storage 0x300000 sample_cpuid) [(false, 0); (true, 1)])
      (Processors ∅ (fun _ => 0) (fun _ => 0)) = Ret (tt, s) /\
    cpuid 0x300000 sample_cpuid 1 s = Ret (1, s) /\ cpuid 0x300000 sample_cpuid 2 s = Ret (0, s).
Proof.
  destruct (cpuid_answers 0x300000 sample_cpuid ltac:(lia)) with (ps := [(false, 0); (true, 1)]) (m := ∅ : memory)
    (g := fun _ : Z => 0) (k := fun _ : Z => 0) (size := 4) (name := 0x200000) as ([] & s & Hr & H).
  - intros c Hc. unfold cpu_on, cpu, sample_cpuid, MAX_NR_CPUS in *. cbn [cpuid_ebx].
    rewrite u32_small by (rewrite Z.shiftl_mul_pow2 by lia; lia). rewrite Z.shiftr_shiftl_l by lia. apply Z.shiftl_0_r.
  - done.
  - rewrite !Forall_cons, Forall_nil. by_compute.
  - exists s. split; [exact Hr|]. clear Hr.
    destruct (H 1 ltac:(lia || done)) as [H1 _]. destruct (H 2 ltac:(lia || done)) as [_ H2]. clear H.
    destruct (H1 ltac:(right; left)) as (_ & E1 & _).
    specialize (H2 ltac:(cbn; rewrite !not_elem_of_cons; split_and!; [lia|lia|apply not_elem_of_nil])).
    rewrite decide_True in H2 by left. by split.
Defined.
