(* ===== verification/Panic.v ===== *)
(** * Panic: what a failing assertion reports ([lib64/logging.c],
    [x86_64/panic.c]).

    [__do_assertion] prints the message, the processor's registers and its
    backtrace on the console, then shows them on a purple screen. The state is the
    console with the memory the screen, the line buffer and the per-processor
    backtraces are part of; the registers it reads are parameters. *)
From Stdlib Require Import ZArith Lia String.
From stdpp Require Import base tactics list numbers gmap.
From S2P Require Import Prelude.
From S2P Require Import Memory.
From S2P Require Import Format.
From S2P Require Import Screen.
From S2P Require Import Descriptors.
From S2P Require Import Apic.
From S2P Require Import Percpu.
Local Open Scope Z_scope.

Definition LOG_INFO : Z := 2.
Definition LOG_ASSERT : Z := 5.
Definition MAX_FRAMES_TO_DUMP : nat := 32.
(** [struct backtrace_blob]: the frames, their number, padding. *)
Definition frames_offset (idx : Z) : Z := 8 * idx.
Definition nr_frames_offset : Z := 256.
Definition BLOB_SIZE : Z := 264.
Definition LINE_SIZE : Z := 128.

Record auxiliary_state64 := AuxiliaryState {
  aux_cpu : Z; aux_idt_base : Z; aux_idt_size : Z; TR : Z; aux_gdt_base : Z; aux_gdt_size : Z;
  GS_BASE_MSR : Z; FS_BASE_MSR : Z; EFER_MSR : Z; aux_cr4 : Z; aux_cr3 : Z; aux_cr2 : Z; aux_cr0 : Z }.

(** The processor that runs the code: its number, its registers ([str_rax] is what
    [rax] held before [str], which writes the low half-word only) and the frame
    pointer of [backtrace]. *)
Record processor := Processor {
  number : Z; cr0 : Z; cr2 : Z; cr3 : Z; cr4 : Z; efer : Z; fs_base : Z; gdtr : Z * Z; idtr : Z * Z;
  task_register : Z; str_rax : Z; frame_pointer : Z; gs_bases : Z -> Z; kernel_gs_bases : Z -> Z }.

(** The program as linked: its variables, the literals that are passed as pointers,
    the lines of the multi-line macro calls and the buffer [line] of
    [__do_assertion]'s frame. *)
Record program := Program {
  pls_blob : Z; bt_blob : Z; code_start : Z; code_end : Z; __log_level : Z;
  logging_file : Z; panic_file : Z; copyright : Z; url : Z; dump_line : Z -> Z; line : Z }.

Section Code.
Context (CPUID : Z -> Z -> cpuid_regs) (prog : program) (p : processor) (fuel sfuel : nat).

Definition on_memory {A} : M memory A -> M console_state A := zoom con_mem (fun m s => s <| con_mem := m |>).
Definition printk_mp_unsafe (fmt args : list Z) : M console_state unit := printk_mp_raw fuel sfuel (literal fmt) args.
Definition sprintf (buff : Z) (fmt args : list Z) : M memory unit :=
  fun m => match sprintf_raw fuel sfuel buff (literal fmt) args m with Ret m' => Ret (tt, m') | Stop f => Stop f end.

(** [LOG_INFO_MP_UNSAFE(format, ...)]. *)
Definition LOG_INFO_MP_UNSAFE (format : list Z) (file line_ : Z) (args : list Z) : M console_state unit :=
  if __log_level prog <=? LOG_INFO then printk_mp_unsafe (chars "[info] %s:%d " ++ format) (file :: line_ :: args)
  else ret tt.

Definition this_cpuid : M memory Z :=
  fun m => match cpuid (pls_blob prog) CPUID (number p) (Processors m (gs_bases p) (kernel_gs_bases p)) with
           | Ret (c, s) => Ret (c, p_mem s) | Stop f => Stop f end.

(** [RDMSR] and the recombination of its two halves. *)
Definition read_msr (v : Z) : Z :=
  let eax := u32 v in let edx := u32 (Z.shiftr v 32) in Z.lor eax (Z.shiftl (u64 edx) 32).

Definition read_auxiliary_state : M memory auxiliary_state64 :=
  let! cpu := this_cpuid in
  ret {| aux_cpu := cpu; aux_idt_base := snd (idtr p); aux_idt_size := fst (idtr p);
         TR := Z.lor (Z.ldiff (str_rax p) 0xffff) (task_register p);
         aux_gdt_base := snd (gdtr p); aux_gdt_size := fst (gdtr p);
         GS_BASE_MSR := read_msr (gs_bases p (number p)); FS_BASE_MSR := read_msr (fs_base p);
         EFER_MSR := read_msr (efer p);
         aux_cr4 := cr4 p; aux_cr3 := cr3 p; aux_cr2 := cr2 p; aux_cr0 := cr0 p |}.

Definition dump_auxiliary_state (stat : auxiliary_state64) : M console_state unit :=
  LOG_INFO_MP_UNSAFE (chars "cpu:%d, idt.base:0x%x idt.size:0x%x" ++ [10]) (panic_file prog) (dump_line prog 0)
    [aux_cpu stat; aux_idt_base stat; aux_idt_size stat] ;;;
  LOG_INFO_MP_UNSAFE (chars "tr:0x%x, gdt.base:0x%x gdt.size:0x%x" ++ [10]) (panic_file prog) (dump_line prog 1)
    [TR stat; aux_gdt_base stat; aux_gdt_size stat] ;;;
  LOG_INFO_MP_UNSAFE (chars "fs.base:0x%x, gs.base:0x%x efer:0x%x" ++ [10]) (panic_file prog) (dump_line prog 2)
    [FS_BASE_MSR stat; GS_BASE_MSR stat; EFER_MSR stat] ;;;
  LOG_INFO_MP_UNSAFE (chars "cr4:0x%x, cr3:0x%x, cr2:0x%x, cr0:0x%x" ++ [10]) (panic_file prog) (dump_line prog 3)
    [aux_cr4 stat; aux_cr3 stat; aux_cr2 stat; aux_cr0 stat].

(** [THIS_CPU(struct backtrace_blob, bt_blob)]. *)
Definition get_backtrace_blob : M memory Z :=
  let! __this_cpu_id := this_cpuid in ret (PER_CPU BLOB_SIZE (bt_blob prog) __this_cpu_id).

Fixpoint backtrace_loop (n : nat) (frame blob rbp : Z) : M console_state unit :=
  match n with
  | O => ret tt
  | S k =>
      let! rip := gets (fun s => load64 (con_mem s) (rbp + 8)) in
      if (rip <? code_start prog) || (code_end prog <? rip) then ret tt
      else
        let! nr_frames := gets (fun s => s32 (load32 (con_mem s) (blob + nr_frames_offset))) in
        on_memory (modify (fun m => store64 m (blob + frames_offset nr_frames) rip)) ;;;
        on_memory (modify (fun m => store32 m (blob + nr_frames_offset) (nr_frames + 1))) ;;;
        LOG_INFO_MP_UNSAFE (chars "    frame #%d <%x>" ++ [10]) (panic_file prog) 110 [frame; rip] ;;;
        let! rbp := gets (fun s => load64 (con_mem s) rbp) in
        backtrace_loop k (frame + 1) blob rbp
  end.
Definition backtrace : M console_state unit :=
  let! blob := on_memory get_backtrace_blob in
  on_memory (modify (fun m => store32 m (blob + nr_frames_offset) 0)) ;;;
  backtrace_loop MAX_FRAMES_TO_DUMP 0 blob (frame_pointer p).

(** ** The purple screen *)
Definition draw_psod_framework : M memory unit :=
  mfor (Z.to_nat VIDEO_BUFFER_COL) 0 (fun idx =>
    poke (CHAR_VIDEO_ADDR 0 idx) 61 ;;;
    poke (CHAR_VIDEO_ADDR (VIDEO_BUFFER_ROW - 1) idx) 61).

(** The message ends at its first newline. *)
Fixpoint truncate_line (fuel : nat) (ptr : Z) : M memory unit :=
  match fuel with
  | O => stop OutOfFuel
  | S k =>
      let! c := gets (fun m => rd8 m ptr) in
      if c =? 0 then ret tt
      else if c =? 10 then poke ptr 0
      else truncate_line k (ptr + 1)
  end.

Definition show_line (row : Z) (fmt args : list Z) : M memory unit :=
  sprintf (line prog) fmt args ;;; print_text sfuel row 0 (line prog).

(** [for(idx = 0; idx < blob->nr_frames; idx++)]. *)
Fixpoint show_frames (fuel : nat) (row_index idx blob : Z) : M memory unit :=
  match fuel with
  | O => stop OutOfFuel
  | S k =>
      let! nr_frames := gets (fun m => s32 (load32 m (blob + nr_frames_offset))) in
      if idx <? nr_frames then
        let! frame := gets (fun m => load64 m (blob + frames_offset idx)) in
        show_line row_index (chars "%s:%d frame #%d <%x>") [logging_file prog; 79; idx; frame] ;;;
        show_frames k (row_index + 1) (idx + 1) blob
      else ret tt
  end.

Definition show_screen (fmt args : list Z) (aux_stat : auxiliary_state64) : M memory unit :=
  reset_text ;;;
  set_font_color COLOR_PURPLE COLOR_WHITE ;;;
  draw_psod_framework ;;;
  print_text sfuel 1 0 (copyright prog) ;;;
  print_text sfuel 2 0 (url prog) ;;;
  sprintf (line prog) fmt args ;;;
  truncate_line sfuel (line prog) ;;;
  print_text sfuel 4 0 (line prog) ;;;
  show_line 5 (chars "%s:%d CPU:%d IDT.BASE:0x%x IDT.SIZE:0x%x")
    [logging_file prog; 56; aux_cpu aux_stat; aux_idt_base aux_stat; aux_idt_size aux_stat] ;;;
  show_line 6 (chars "%s:%d TR:0x%x, GDT.BASE:0x%x, GDT.SIZE:0x%x")
    [logging_file prog; 61; TR aux_stat; aux_gdt_base aux_stat; aux_gdt_size aux_stat] ;;;
  show_line 7 (chars "%s:%d FS.BASE:0x%x, GS.BASE:0x%x, EFER:0x%x")
    [logging_file prog; 66; FS_BASE_MSR aux_stat; GS_BASE_MSR aux_stat; EFER_MSR aux_stat] ;;;
  show_line 8 (chars "%s:%d CR4:0x%x, CR3:0x%x, CR2:0x%x, CR0:0x%x")
    [logging_file prog; 71; aux_cr4 aux_stat; aux_cr3 aux_stat; aux_cr2 aux_stat; aux_cr0 aux_stat] ;;;
  let! blob := get_backtrace_blob in
  show_frames (S MAX_FRAMES_TO_DUMP) 9 0 blob.

Definition __do_assertion (fmt args : list Z) : M console_state unit :=
  printk_mp_unsafe fmt args ;;;
  let! aux_stat := on_memory read_auxiliary_state in
  dump_auxiliary_state aux_stat ;;;
  backtrace ;;;
  on_memory (show_screen fmt args aux_stat).

(** [ASSERT(cond)]: the report, then the processor stays halted. *)
Definition ASSERT (cond : bool) (file line_ text : Z) : M console_state unit :=
  if __log_level prog <=? LOG_ASSERT then
    if negb cond then
      __do_assertion (chars "[assert] %s:%d assertion:%s failed" ++ [10]) [file; line_; text] ;;; stop Halted
    else ret tt
  else ret tt.
End Code.

(** * Properties *)

(** ** Formats as pieces: literal text and directives *)
Inductive piece := Lit (l : list Z) | Dir (c : Z).
Definition flatten (ps : list piece) : list Z :=
  concat (map (fun q => match q with Lit l => l | Dir c => [37; c] end) ps).
Definition piece_ok (q : piece) : bool :=
  match q with Lit l => forallb (fun c => negb (c =? 37)) l | Dir c => takes_argument c end.
Fixpoint pieces_text (strs : gmap Z (list Z)) (ps : list piece) (args : list Z) : option (list Z) :=
  match ps with
  | [] => Some []
  | Lit l :: ps => r ← pieces_text strs ps args; Some (l ++ r)
  | Dir c :: ps => t ← directive_text strs c (hd 0 args); r ← pieces_text strs ps (tl args); Some (t ++ r)
  end.

Lemma render_pieces strs ps args : forallb piece_ok ps = true ->
  render strs (flatten ps) args = pieces_text strs ps args.
Proof.
  revert args. induction ps as [|q ps IH]; intros args Hps; [done|].
  cbn [forallb] in Hps. apply andb_true_iff in Hps as [Hq Hps]. unfold flatten in *. destruct q as [l|c]; cbn in Hq |- *.
  - by rewrite render_literal, IH by done.
  - rewrite Hq. by rewrite IH.
Qed.

(** ** Texts: what [sprintf] leaves in [line] can be printed *)
Definition printable (c : Z) : Prop := 0 < c < 256.
Lemma printable_digits base ok len q l : (forall c, ok c -> 48 <= c <= 102) -> numeral base ok len q l -> Forall printable l.
Proof. intros Hok [_ Hd _ _]. eapply Forall_impl; [exact Hd|]. intros c Hc. unfold printable. apply Hok in Hc. lia. Qed.
Lemma printable_decimal q : 0 <= q < 2 ^ 64 -> Forall printable (decimal q).
Proof. intros Hq. eapply printable_digits; [|by apply decimal_numeral]. unfold is_decimal_digit. lia. Qed.
Lemma printable_hexadecimal q : Forall printable (hexadecimal true (u64 q)).
Proof. eapply printable_digits; [|apply hexadecimal_numeral, u64_range]. unfold is_hex_digit. lia. Qed.
Definition plain_text (l : list Z) : bool := forallb (fun c => (0 <? c) && (c <? 256)) l.
Lemma printable_plain l : plain_text l = true -> Forall printable l.
Proof.
  unfold plain_text. rewrite forallb_forall, Forall_forall. intros H c Hc. apply list_elem_of_In in Hc.
  specialize (H c Hc). unfold printable. apply andb_true_iff in H. lia.
Qed.
Lemma printable_bytes l : Forall printable l -> u8 <$> l = l.
Proof. intros H. apply u8_bytes. eapply Forall_impl; [exact H|]. unfold printable. intros c. cbv beta. lia. Qed.
Lemma decimal_length q : 0 <= q < 2 ^ 64 -> (List.length (decimal q) <= 20)%nat.
Proof. intros Hq. apply (num_length _ _ _ _ _ (decimal_numeral q Hq)). Qed.
Lemma hexadecimal_length q : (List.length (hexadecimal true (u64 q)) <= 16)%nat.
Proof. apply (num_length _ _ _ _ _ (hexadecimal_numeral _ true (u64_range q))). Qed.

(** A text made of literals and numerals is printable. *)
Ltac printable_text :=
  repeat apply Forall_app_2;
  first [apply printable_hexadecimal | apply printable_decimal; cbn; lia | apply printable_plain; vm_compute; reflexivity].

(** The texts of the report. *)
Definition LOGGING_FILE : list Z := chars "lib64/logging.c".
Definition PANIC_FILE : list Z := chars "x86_64/panic.c".
Definition hex (v : Z) : list Z := hexadecimal true (u64 v).
Definition at_line (file : list Z) (line_ : Z) (body : list Z) : list Z :=
  file ++ [58] ++ decimal line_ ++ [32] ++ body.
Definition info_text (line_ : Z) (body : list Z) : list Z := chars "[info] " ++ at_line PANIC_FILE line_ body.

Section Texts.
Context (st : auxiliary_state64) (dump_line : Z -> Z).
Definition cpu_dump : list Z := chars "cpu:" ++ decimal (aux_cpu st) ++ chars ", idt.base:0x" ++ hex (aux_idt_base st) ++
  chars " idt.size:0x" ++ hex (aux_idt_size st) ++ [10].
Definition task_dump : list Z := chars "tr:0x" ++ hex (TR st) ++ chars ", gdt.base:0x" ++ hex (aux_gdt_base st) ++
  chars " gdt.size:0x" ++ hex (aux_gdt_size st) ++ [10].
Definition msr_dump : list Z := chars "fs.base:0x" ++ hex (FS_BASE_MSR st) ++ chars ", gs.base:0x" ++ hex (GS_BASE_MSR st) ++
  chars " efer:0x" ++ hex (EFER_MSR st) ++ [10].
Definition control_dump : list Z := chars "cr4:0x" ++ hex (aux_cr4 st) ++ chars ", cr3:0x" ++ hex (aux_cr3 st) ++
  chars ", cr2:0x" ++ hex (aux_cr2 st) ++ chars ", cr0:0x" ++ hex (aux_cr0 st) ++ [10].
Definition dump_text : list Z :=
  info_text (dump_line 0) cpu_dump ++ info_text (dump_line 1) task_dump ++
  info_text (dump_line 2) msr_dump ++ info_text (dump_line 3) control_dump.

Definition register_lines : list (list Z) :=
  [ at_line LOGGING_FILE 56 (chars "CPU:" ++ decimal (aux_cpu st) ++ chars " IDT.BASE:0x" ++ hex (aux_idt_base st) ++
      chars " IDT.SIZE:0x" ++ hex (aux_idt_size st));
    at_line LOGGING_FILE 61 (chars "TR:0x" ++ hex (TR st) ++ chars ", GDT.BASE:0x" ++ hex (aux_gdt_base st) ++
      chars ", GDT.SIZE:0x" ++ hex (aux_gdt_size st));
    at_line LOGGING_FILE 66 (chars "FS.BASE:0x" ++ hex (FS_BASE_MSR st) ++ chars ", GS.BASE:0x" ++ hex (GS_BASE_MSR st) ++
      chars ", EFER:0x" ++ hex (EFER_MSR st));
    at_line LOGGING_FILE 71 (chars "CR4:0x" ++ hex (aux_cr4 st) ++ chars ", CR3:0x" ++ hex (aux_cr3 st) ++
      chars ", CR2:0x" ++ hex (aux_cr2 st) ++ chars ", CR0:0x" ++ hex (aux_cr0 st)) ].

Definition frame_body (idx rip : Z) (eol : list Z) : list Z :=
  chars "frame #" ++ decimal idx ++ chars " <" ++ hex rip ++ chars ">" ++ eol.
Definition frame_line (idx rip : Z) : list Z := at_line LOGGING_FILE 79 (frame_body idx rip []).
Fixpoint frame_lines (idx : Z) (fs : list Z) : list (list Z) :=
  match fs with [] => [] | rip :: fs => frame_line idx rip :: frame_lines (idx + 1) fs end.
Fixpoint frames_text (idx : Z) (fs : list Z) : list Z :=
  match fs with
  | [] => []
  | rip :: fs => info_text 110 (chars "    " ++ frame_body idx rip [10]) ++ frames_text (idx + 1) fs
  end.
End Texts.

(** The message up to its first newline. *)
Fixpoint first_line (l : list Z) : list Z :=
  match l with [] => [] | c :: l => if c =? 10 then [] else c :: first_line l end.

(** The return addresses in the kernel's code from a frame pointer on, and the frame
    pointers that are followed. *)
Section Chain.
Context (code_start code_end : Z) (m : memory).
Definition in_code (rip : Z) : bool := (code_start <=? rip) && (rip <=? code_end).
Fixpoint frames_of (n : nat) (rbp : Z) : list Z :=
  match n with
  | O => []
  | S k => let rip := load64 m (rbp + 8) in
           if in_code rip then rip :: frames_of k (load64 m rbp) else []
  end.
Fixpoint frame_pointers (n : nat) (rbp : Z) : list Z :=
  match n with
  | O => []
  | S k => rbp :: if in_code (load64 m (rbp + 8)) then frame_pointers k (load64 m rbp) else []
  end.
End Chain.

Lemma frames_of_length cs ce m n rbp : (List.length (frames_of cs ce m n rbp) <= n)%nat.
Proof. revert rbp. induction n as [|n IH]; intros rbp; cbn [frames_of]; [cbn; lia|].
  case_match; cbn [List.length]; [apply le_n_S, IH|lia]. Qed.

(** ** The layout the report relies on *)
Section Report.
Context (CPUID : Z -> Z -> cpuid_regs) (prog : program) (p : processor) (fuel sfuel : nat).
Context (started : list Z) (strs : gmap Z (list Z)).

Definition cpu_answer : Z := cpuid_answer started (number p).
Definition blob : Z := PER_CPU BLOB_SIZE (bt_blob prog) cpu_answer.

(** [n] bytes at [a] that the report does not write. *)
Definition away (a n : Z) : Prop :=
  (a + n <= VIDEO_BUFFER_BASE \/ WINDOW_END <= a) /\ (a + n <= line prog \/ line prog + LINE_SIZE <= a) /\
  (a + n <= blob \/ blob + BLOB_SIZE <= a).

(** The processor is one of 64, numbered by its identifier; its registers are 64
    bits wide; the variables, the stack buffer, the screen and the strings do not
    overlap. *)
Record sane : Prop := {
  sn_number : 0 <= number p < MAX_NR_CPUS;
  sn_cpuid : forall c, 0 <= c < MAX_NR_CPUS -> cpu_on CPUID c = c;
  sn_msr : 0 <= efer p < 2 ^ 64 /\ 0 <= fs_base p < 2 ^ 64 /\ 0 <= gs_bases p (number p) < 2 ^ 64;
  sn_lines : forall i, 0 <= i < 4 -> 0 <= dump_line prog i < 2 ^ 31;
  sn_pls : 0 <= pls_blob prog < 2 ^ 48;
  sn_pls_away : away (pls_blob prog) (MAX_NR_CPUS * CPU_LOCAL_AREA_SIZE);
  sn_line : line prog + LINE_SIZE <= VIDEO_BUFFER_BASE \/ WINDOW_END <= line prog;
  sn_blob : blob + BLOB_SIZE <= VIDEO_BUFFER_BASE \/ WINDOW_END <= blob;
  sn_blob_line : blob + BLOB_SIZE <= line prog \/ line prog + LINE_SIZE <= blob;
  sn_strings : map_Forall (fun a l => (List.length l < sfuel)%nat /\ away a (Z.of_nat (List.length l) + 1)) strs;
  sn_logging_file : strs !! logging_file prog = Some LOGGING_FILE;
  sn_panic_file : strs !! panic_file prog = Some PANIC_FILE;
  sn_copyright : strs !! copyright prog = Some (chars "Copyright (c) 2019 Jie Zheng");
  sn_url : strs !! url prog = Some (chars "https://github.com/chillancezen/ZeldaOS.x86_64");
  sn_fuel : (128 <= fuel)%nat /\ (128 <= sfuel)%nat }.
Hypothesis Hsane : sane.

(** What holds of a memory in which the program is loaded and runs. *)
Record loaded (m : memory) : Prop := {
  ld_strings : map_Forall (fun a l => string_at m a l) strs;
  ld_started : initialised (pls_blob prog) started (Processors m (gs_bases p) (kernel_gs_bases p)) }.

(** Memory is unchanged outside what the report writes. *)
Definition unreported (m m' : memory) : Prop := forall a, away a 1 -> rd8 m' a = rd8 m a.

Ltac regions := unfold away, LINE_SIZE, BLOB_SIZE, nr_frames_offset, frames_offset, WINDOW_END, VIDEO_BUFFER_BASE, CELLS in *; lia.

Lemma away_byte a n b : away a n -> a <= b < a + n -> away b 1.
Proof using. intros H Hb. regions. Qed.

Lemma loaded_frame m m' : unreported m m' -> loaded m -> loaded m'.
Proof using Hsane.
  intros Hm [Hs Hi]. split.
  - intros a l Hl. destruct (sn_strings Hsane a l Hl) as [_ Ha]. eapply string_at_frame; [|by apply Hs].
    intros b Hb. apply Hm. eapply away_byte; [exact Ha|lia].
  - eapply initialised_frame; [|exact Hi]. intros b Hb. apply Hm. eapply away_byte; [apply (sn_pls_away Hsane)|exact Hb].
Qed.
Lemma unreported_refl m : unreported m m.
Proof using. done. Qed.
Lemma unreported_trans m1 m2 m3 : unreported m1 m2 -> unreported m2 m3 -> unreported m1 m3.
Proof using. intros H1 H2 a Ha. by rewrite H2, H1. Qed.

Lemma this_cpuid_run m : loaded m -> this_cpuid CPUID prog p m = Ret (cpu_answer, m).
Proof using Hsane.
  intros [_ Hi]. unfold this_cpuid.
  by rewrite (cpuid_run _ CPUID (sn_pls Hsane) (sn_cpuid Hsane) started _ _ (sn_number Hsane) Hi).
Qed.
Lemma cpu_answer_range : 0 <= cpu_answer < MAX_NR_CPUS.
Proof using Hsane.
  pose proof (sn_number Hsane). unfold cpu_answer, cpuid_answer. repeat case_decide; unfold MAX_NR_CPUS in *; lia.
Qed.

Lemma read_msr_id v : 0 <= v < 2 ^ 64 -> read_msr v = v.
Proof using.
  intros Hv. unfold read_msr. assert (0 <= Z.shiftr v 32 < 2 ^ 32) by (rewrite Z.shiftr_div_pow2 by lia; zdiv).
  rewrite (u32_small (Z.shiftr v 32)), u64_small by lia. rewrite Z.lor_comm, lor_add_low by (try apply wrap_range; lia).
  rewrite Z.shiftr_div_pow2 by lia. unfold u32, wrap. zdiv.
Qed.

(** The registers as [read_auxiliary_state] stores them. *)
Definition registers : auxiliary_state64 := {|
  aux_cpu := cpu_answer; aux_idt_base := snd (idtr p); aux_idt_size := fst (idtr p);
  TR := Z.lor (Z.ldiff (str_rax p) 0xffff) (task_register p);
  aux_gdt_base := snd (gdtr p); aux_gdt_size := fst (gdtr p);
  GS_BASE_MSR := gs_bases p (number p); FS_BASE_MSR := fs_base p; EFER_MSR := efer p;
  aux_cr4 := cr4 p; aux_cr3 := cr3 p; aux_cr2 := cr2 p; aux_cr0 := cr0 p |}.

Lemma read_auxiliary_state_run m : loaded m -> read_auxiliary_state CPUID prog p m = Ret (registers, m).
Proof using Hsane.
  intros Hm. destruct (sn_msr Hsane) as (He & Hf & Hg). unfold read_auxiliary_state.
  run_with (this_cpuid_run m Hm). unfold ret. by rewrite !read_msr_id.
Qed.

(** ** The console *)
Definition info (t : list Z) : list Z := if __log_level prog <=? LOG_INFO then t else [].

(** The state after a text was logged. *)
Definition says (t : list Z) (s : console_state) : console_state := Console (con_mem s) (con_out s ++ info t).
Lemma says_app t1 t2 s : says t2 (says t1 s) = says (t1 ++ t2) s.
Proof using. unfold says, info. cbn [con_mem con_out]. case_match; by rewrite <- app_assoc. Qed.
Lemma says_nil s : says [] s = s.
Proof using. unfold says, info. destruct s. by case_match; rewrite app_nil_r. Qed.

Lemma strings_ready m : loaded m -> map_Forall (fun a l => string_at m a l /\ (List.length l < sfuel)%nat) strs.
Proof using Hsane. intros Hm a l Hl. split; [by apply (ld_strings m Hm)|by apply (sn_strings Hsane a l Hl)]. Qed.

Lemma log_info_run format ps line_ args t s :
  format = flatten ps -> forallb piece_ok ps = true -> (List.length format <= 100)%nat -> plain_text format = true ->
  0 <= line_ < 2 ^ 31 -> pieces_text strs ps args = Some t -> Forall printable t -> loaded (con_mem s) ->
  LOG_INFO_MP_UNSAFE prog fuel sfuel format (panic_file prog) line_ args s = Ret (tt, says (info_text line_ t) s).
Proof using Hsane.
  intros -> Hps Hlen Hplain Hline Ht Hp Hm. unfold LOG_INFO_MP_UNSAFE, says, info.
  case_match; [|by rewrite app_nil_r; destruct s].
  set (all := Lit (chars "[info] ") :: Dir 115 :: Lit [58] :: Dir 100 :: Lit [32] :: ps).
  change (chars "[info] %s:%d " ++ flatten ps) with (flatten all).
  assert (Hall : forallb piece_ok all = true) by exact Hps.
  assert (Hpl : plain_text (flatten all) = true) by exact Hplain.
  unfold printk_mp_unsafe. rewrite (printk_run _ _ (info_text line_ t) strs).
  - rewrite printable_bytes; [done|]. unfold info_text, at_line, PANIC_FILE.
    repeat apply Forall_app_2; try done; printable_text.
  - pose proof (sn_fuel Hsane). change (List.length (flatten all)) with (13 + List.length (flatten ps))%nat. lia.
  - eapply Forall_impl; [by apply printable_plain|]. unfold printable. intros c. cbv beta. lia.
  - by apply strings_ready.
  - rewrite render_pieces by done. unfold all. cbn [pieces_text hd tl].
    change (directive_text strs 115 (panic_file prog)) with (strs !! panic_file prog).
    rewrite (sn_panic_file Hsane), directive_small_decimal by done. cbn [mbind option_bind]. rewrite Ht. done.
Qed.

Lemma directive_hex v : directive_text strs 120 v = Some (hex v).
Proof using. done. Qed.
(** The text of a format given as pieces. *)
Ltac piece_texts :=
  cbn [pieces_text hd tl]; rewrite ?directive_hex, ?directive_small_decimal by (cbn; lia);
  cbn [mbind option_bind]; rewrite ?app_nil_r; reflexivity.


(** Log one line, its format given as pieces. *)
Ltac logs pieces :=
  apply log_info_run with (ps := pieces);
  [reflexivity|reflexivity|cbn; lia|reflexivity|first [apply sn_lines; [done|lia]|lia]|piece_texts|printable_text|done].
Ltac log_line text pieces := rewrite (bind_run _ _ _ tt (says text _)) by logs pieces; cbv beta.

Lemma dump_auxiliary_state_run s : loaded (con_mem s) ->
  dump_auxiliary_state prog fuel sfuel registers s = Ret (tt, says (dump_text registers (dump_line prog)) s).
Proof using Hsane.
  intros Hm. pose proof cpu_answer_range as Hc. unfold MAX_NR_CPUS in Hc.
  unfold dump_auxiliary_state, dump_text. rewrite <- !says_app.
  log_line (info_text (dump_line prog 0) (cpu_dump registers))
    [Lit (chars "cpu:"); Dir 100; Lit (chars ", idt.base:0x"); Dir 120; Lit (chars " idt.size:0x"); Dir 120; Lit [10]].
  log_line (info_text (dump_line prog 1) (task_dump registers))
    [Lit (chars "tr:0x"); Dir 120; Lit (chars ", gdt.base:0x"); Dir 120; Lit (chars " gdt.size:0x"); Dir 120; Lit [10]].
  log_line (info_text (dump_line prog 2) (msr_dump registers))
    [Lit (chars "fs.base:0x"); Dir 120; Lit (chars ", gs.base:0x"); Dir 120; Lit (chars " efer:0x"); Dir 120; Lit [10]].
  logs [Lit (chars "cr4:0x"); Dir 120; Lit (chars ", cr3:0x"); Dir 120; Lit (chars ", cr2:0x"); Dir 120;
        Lit (chars ", cr0:0x"); Dir 120; Lit [10]].
Qed.

(** ** The backtrace *)
Abbreviation frames := (frames_of (code_start prog) (code_end prog)).
Abbreviation pointers := (frame_pointers (code_start prog) (code_end prog)).

(** The two words of every frame that is followed lie outside the blob. *)
Definition readable (m : memory) (n : nat) (rbp : Z) : Prop :=
  Forall (fun f => f + 16 <= blob \/ blob + BLOB_SIZE <= f) (pointers m n rbp).

Lemma frame_words m m' f : only_at blob BLOB_SIZE m m' -> f + 16 <= blob \/ blob + BLOB_SIZE <= f ->
  load64 m' f = load64 m f /\ load64 m' (f + 8) = load64 m (f + 8).
Proof using. intros Hm Hf. split; apply load_ext; intros a Ha; apply Hm; lia. Qed.

Lemma frames_same m m' n rbp : only_at blob BLOB_SIZE m m' -> readable m n rbp ->
  frames m' n rbp = frames m n rbp /\ readable m' n rbp.
Proof using.
  intros Hm. unfold readable. revert rbp. induction n as [|n IH]; intros rbp Hr; [done|].
  cbn [frames_of frame_pointers] in *. apply Forall_cons in Hr as [Hf Hr].
  destruct (frame_words m m' rbp Hm Hf) as [-> ->].
  case_match; [|by split; [|constructor]]. destruct (IH _ Hr) as [-> Hr']. by split; [|constructor].
Qed.

(** Appending one frame to the blob. *)
Definition push_frame (m : memory) (i rip : Z) : memory :=
  store32 (store64 m (blob + frames_offset i) rip) (blob + nr_frames_offset) (i + 1).
Lemma push_frame_spec m i rip : 0 <= i < 32 -> 0 <= rip < 2 ^ 64 -> let m' := push_frame m i rip in
  only_at blob BLOB_SIZE m m' /\ load32 m' (blob + nr_frames_offset) = i + 1 /\
  load64 m' (blob + frames_offset i) = rip /\
  (forall j, 0 <= j < i -> load64 m' (blob + frames_offset j) = load64 m (blob + frames_offset j)).
Proof using.
  intros Hi Hrip m'. unfold m', push_frame, store32, store64, load32, load64. split; [|split; [|split]].
  - intros b Hb. rewrite !rd8_store_out; [done|regions..].
  - rewrite load_store. apply Z.mod_small. lia.
  - rewrite load_store_out by regions. rewrite load_store. by apply Z.mod_small.
  - intros j Hj. rewrite !load_store_out; [done|regions..].
Qed.

Lemma blob_frame m m' : only_at blob BLOB_SIZE m m' -> unreported m m'.
Proof using. intros H a Ha. apply H. regions. Qed.

(** What the blob holds after [i] frames and those of [fs]. *)
Record holds_frames (m m' : memory) (i : Z) (fs : list Z) : Prop := {
  hf_only : only_at blob BLOB_SIZE m m';
  hf_number : load32 m' (blob + nr_frames_offset) = i + Z.of_nat (List.length fs);
  hf_before : forall j, 0 <= j < i -> load64 m' (blob + frames_offset j) = load64 m (blob + frames_offset j);
  hf_frames : forall j x, fs !! j = Some x -> load64 m' (blob + frames_offset (i + Z.of_nat j)) = x }.

Lemma holds_frames_cons m m1 m' i rip fs : 0 <= i -> only_at blob BLOB_SIZE m m1 ->
  load64 m1 (blob + frames_offset i) = rip ->
  (forall j, 0 <= j < i -> load64 m1 (blob + frames_offset j) = load64 m (blob + frames_offset j)) ->
  holds_frames m1 m' (i + 1) fs -> holds_frames m m' i (rip :: fs).
Proof using.
  intros Hi0 Ho Hr Hb [Ho' Hn Hb' Hf]. split.
  - by eapply only_at_trans.
  - rewrite Hn. cbn [List.length]. lia.
  - intros j Hj. rewrite Hb' by lia. by apply Hb.
  - intros [|j] x Hx; cbn in Hx.
    + injection Hx as <-. rewrite Z.add_0_r, Hb' by lia. exact Hr.
    + rewrite <- (Hf j x Hx). f_equal. f_equal. f_equal. lia.
Qed.

Lemma backtrace_loop_run n : forall i rbp s, 0 <= i -> i + Z.of_nat n <= 32 -> loaded (con_mem s) ->
  readable (con_mem s) n rbp -> load32 (con_mem s) (blob + nr_frames_offset) = i ->
  exists m', backtrace_loop prog fuel sfuel n i blob rbp s =
      Ret (tt, says (frames_text i (frames (con_mem s) n rbp)) (Console m' (con_out s))) /\
    holds_frames (con_mem s) m' i (frames (con_mem s) n rbp).
Proof using Hsane.
  induction n as [|n IH]; intros i rbp s H0 Hn Hm Hr Hi; cbn [backtrace_loop frames_of].
  { exists (con_mem s). rewrite says_nil. destruct s. cbn in *. split; [done|]. split; [done|cbn; lia|done..]. }
  rewrite bind_gets. set (rip := load64 (con_mem s) (rbp + 8)).
  assert (E : (rip <? code_start prog) || (code_end prog <? rip) = negb (in_code (code_start prog) (code_end prog) rip)).
  { unfold in_code. rewrite negb_andb, !Z.leb_antisym, !negb_involutive. done. }
  rewrite E. destruct (in_code _ _ rip) eqn:Hc; cbn [negb].
  2: { exists (con_mem s). cbn [frames_text]. rewrite says_nil. destruct s. cbn in *. split; [done|]. split; [done|cbn; lia|done..]. }
  rewrite bind_gets, Hi, s32_small by lia.
  rewrite (bind_run _ _ _ tt (Console (store64 (con_mem s) (blob + frames_offset i) rip) (con_out s))) by reflexivity; cbv beta.
  rewrite (bind_run _ _ _ tt (Console (push_frame (con_mem s) i rip) (con_out s))) by reflexivity; cbv beta.
  destruct (push_frame_spec (con_mem s) i rip ltac:(lia) (load64_range _ _)) as (Ho & Hnum & Hrip & Hbef).
  set (m1 := push_frame (con_mem s) i rip) in *.
  assert (Hm1 : loaded m1) by (eapply loaded_frame; [by apply blob_frame|done]).
  log_line (info_text 110 (chars "    " ++ frame_body i rip [10]))
    [Lit (chars "    frame #"); Dir 100; Lit (chars " <"); Dir 120; Lit (chars ">" ++ [10])].
  rewrite bind_gets. unfold says at 1. cbn [con_mem].
  unfold readable in Hr. cbn [frame_pointers] in Hr. fold rip in Hr. rewrite Hc in Hr. apply Forall_cons in Hr as [Hf Hr].
  destruct (frame_words _ m1 rbp Ho Hf) as [-> _].
  destruct (frames_same _ m1 n _ Ho Hr) as [Efs Hr1].
  destruct (IH (i + 1) (load64 (con_mem s) rbp) (says (info_text 110 (chars "    " ++ frame_body i rip [10]))
    (Console m1 (con_out s)))) as (m' & Erun & Hh); [lia|lia|done|done|done|].
  cbn [says con_mem con_out] in Erun, Hh. rewrite Efs in Erun, Hh. exists m'. split.
  - rewrite Erun. cbn [frames_text]. rewrite <- says_app. done.
  - by eapply holds_frames_cons; [..|exact Hh].
Qed.

Lemma get_backtrace_blob_run m : loaded m -> get_backtrace_blob CPUID prog p m = Ret (blob, m).
Proof using Hsane. intros Hm. unfold get_backtrace_blob. by run_with (this_cpuid_run m Hm). Qed.

Lemma on_memory_run {A} (c : M memory A) (s : console_state) a m : c (con_mem s) = Ret (a, m) ->
  on_memory c s = Ret (a, Console m (con_out s)).
Proof using. intros H. unfold on_memory, zoom. by rewrite H. Qed.

Definition the_frames (m : memory) : list Z := frames m MAX_FRAMES_TO_DUMP (frame_pointer p).

Lemma backtrace_run s : loaded (con_mem s) -> readable (con_mem s) MAX_FRAMES_TO_DUMP (frame_pointer p) ->
  exists m', backtrace CPUID prog p fuel sfuel s =
      Ret (tt, says (frames_text 0 (the_frames (con_mem s))) (Console m' (con_out s))) /\
    holds_frames (con_mem s) m' 0 (the_frames (con_mem s)).
Proof using Hsane.
  intros Hm Hr. unfold backtrace, the_frames.
  rewrite (bind_run _ _ _ _ _ (on_memory_run _ _ _ _ (get_backtrace_blob_run _ Hm))); cbv beta. cbn [con_out].
  set (m1 := store32 (con_mem s) (blob + nr_frames_offset) 0).
  rewrite (bind_run _ _ _ tt (Console m1 (con_out s))) by reflexivity; cbv beta.
  assert (Ho : only_at blob BLOB_SIZE (con_mem s) m1).
  { intros b Hb. unfold m1, store32. rewrite rd8_store_out; [done|regions]. }
  destruct (frames_same _ m1 _ _ Ho Hr) as [Efs Hr1].
  destruct (backtrace_loop_run MAX_FRAMES_TO_DUMP 0 (frame_pointer p) (Console m1 (con_out s))) as (m' & Erun & Hh);
    [lia|done|by eapply loaded_frame; [apply blob_frame|]|done|by unfold m1, load32, store32; cbn [con_mem]; rewrite load_store|].
  cbn [con_mem con_out] in *. rewrite Efs in *. exists m'. split; [exact Erun|].
  destruct Hh as [Ho' Hn _ Hf]. split; [by eapply only_at_trans|exact Hn|lia|exact Hf].
Qed.

(** ** The screen *)
Definition off_line (a : Z) : Prop := a < line prog \/ line prog + LINE_SIZE <= a.

(** The screen shows [f] in [g], and only it and the line buffer changed. *)
Record screen (m0 : memory) (f g : Z -> Z) (m : memory) : Prop := {
  sc_shows : displays m f g m;
  sc_frame : forall a, a < VIDEO_BUFFER_BASE \/ WINDOW_END <= a -> off_line a -> rd8 m a = rd8 m0 a }.

Lemma screen_start m : screen m (text_cell m) (color_cell m) m.
Proof using. split; [apply displays_start|done]. Qed.

Lemma screen_unreported m0 f g m : screen m0 f g m -> unreported m0 m.
Proof using. intros [_ H] a Ha. apply H; unfold off_line; regions. Qed.

(** What changes the screen only. *)
Lemma screen_displays m0 f g f' g' m m' : screen m0 f g m -> displays m f' g' m' -> screen m0 f' g' m'.
Proof using.
  intros [_ Hf] [Ht Hc Ho]. split; [by split|]. intros a Ha Hl. rewrite Ho by done. by apply Hf.
Qed.
(** What changes the line buffer only. *)
Lemma screen_line m0 f g m m' : screen m0 f g m -> (forall a, off_line a -> rd8 m' a = rd8 m a) -> screen m0 f g m'.
Proof using Hsane.
  intros [[Ht Hc _] Hf] Hm. pose proof (sn_line Hsane) as Hl. split; [split; [..|done]|].
  - intros i Hi. rewrite <- Ht by done. apply Hm. unfold off_line. regions.
  - intros i Hi. rewrite <- Hc by done. apply Hm. unfold off_line. regions.
  - intros a Ha Hla. rewrite Hm by done. by apply Hf.
Qed.

Definition framework (f : Z -> Z) (i : Z) : Z :=
  if decide (0 <= i < VIDEO_BUFFER_COL \/
             (VIDEO_BUFFER_ROW - 1) * VIDEO_BUFFER_COL <= i < VIDEO_BUFFER_ROW * VIDEO_BUFFER_COL) then 61 else f i.

Lemma draw_psod_framework_displays m0 f g m : displays m0 f g m ->
  runs draw_psod_framework m (fun _ => displays m0 (framework f) g).
Proof using.
  intros Hd. set (I := fun k => displays m0 (fun i => if decide (0 <= i < k \/ 1920 <= i < 1920 + k) then 61 else f i) g).
  apply (runs_mono _ _ (fun _ => I 80)); [|by intros].
  apply (runs_mfor_counter _ I).
  - intros i m' Hi Hm. unfold I in *. apply runs_bind, runs_modify, runs_modify.
    replace (CHAR_VIDEO_ADDR 0 i) with (VIDEO_BUFFER_BASE + 2 * i) by cells.
    replace (CHAR_VIDEO_ADDR (VIDEO_BUFFER_ROW - 1) i) with (VIDEO_BUFFER_BASE + 2 * (1920 + i)) by cells.
    eapply displays_ext; [| |apply displays_char; [|apply displays_char; [|exact Hm]]]; [|done|cells|cells].
    intros j Hj. cbv beta. change (u8 61) with 61. repeat case_decide; (done || lia).
  - eapply displays_ext; [| |exact Hd]; [|done]. intros j Hj. cbv beta. by rewrite decide_False by lia.
Qed.

Lemma screen_loaded m0 f g m : screen m0 f g m -> loaded m0 -> loaded m.
Proof using Hsane. intros Hs. apply loaded_frame. by eapply screen_unreported. Qed.

(** A text that fits [line], its terminator included. *)
Definition fits (t : list Z) : Prop := Forall printable t /\ Z.of_nat (List.length t) < LINE_SIZE.

Definition line_holds (t : list Z) (m m' : memory) : Prop :=
  string_at m' (line prog) t /\ forall a, off_line a -> rd8 m' a = rd8 m a.

Lemma sprintf_line fmt args t m : plain_text fmt = true -> (List.length fmt < fuel)%nat ->
  render strs fmt args = Some t -> fits t -> loaded m ->
  runs (sprintf fuel sfuel (line prog) fmt args) m (fun _ => line_holds t m).
Proof using Hsane.
  intros Hfmt Hlen Hr [Hp Ht] Hm.
  destruct (sprintf_run fmt args t strs fuel sfuel (line prog) m) as (m' & Hrun & Hc & He & Hout); [done| | |done|].
  - eapply Forall_impl; [by apply printable_plain|]. unfold printable. intros c. cbv beta. lia.
  - intros a l Hl. destruct (sn_strings Hsane a l Hl) as [Hlen' Ha]. split; [by apply (ld_strings m Hm)|]. split; [done|regions].
  - exists tt, m'. unfold sprintf. rewrite Hrun. split; [done|]. split; [split; [|..|exact He]|].
    + intros i Hi. rewrite Hc by done. apply u8_small.
      pose proof (Forall_lookup_1 _ _ _ _ Hp (list_lookup_lookup_total_lt t i Hi)) as Hx. unfold printable in Hx. lia.
    + eapply Forall_impl; [exact Hp|]. unfold printable. intros c. cbv beta. lia.
    + intros a Ha. apply Hout. unfold off_line in Ha. lia.
Qed.

Lemma print_stored m0 f g m row a l : screen m0 f g m -> string_at m a l -> off_screen a l ->
  0 <= row <= 60 -> (List.length l < sfuel)%nat -> Z.of_nat (List.length l) < 160 ->
  runs (print_text sfuel row 0 a) m (fun _ => screen m0 (overlay (row * VIDEO_BUFFER_COL + 0) l f) g).
Proof using.
  intros Hs Ha Ho Hrow Hf Hl. eapply runs_mono; [apply (print_text_displays m f g m) with (l := l); try done|].
  - unfold VIDEO_BUFFER_COL. lia.
  - unfold VIDEO_BUFFER_COL, CELLS. lia.
  - destruct Hs as [[H1 H2 _] _]. by split.
  - intros [] m' Hm'. by eapply screen_displays.
Qed.

Lemma print_line m0 f g m m1 row l : screen m0 f g m -> line_holds l m m1 -> fits l -> 0 <= row <= 60 ->
  runs (print_text sfuel row 0 (line prog)) m1 (fun _ => screen m0 (overlay (row * VIDEO_BUFFER_COL + 0) l f) g).
Proof using Hsane.
  intros Hs [Hl Hm] [_ Hf] Hrow. unfold LINE_SIZE in Hf. pose proof (sn_fuel Hsane).
  apply print_stored; [by eapply screen_line|done| |done|lia|lia].
  pose proof (sn_line Hsane). unfold off_screen. regions.
Qed.

Lemma show_line_run m0 f g m row fmt args t : screen m0 f g m -> loaded m0 ->
  plain_text fmt = true -> (List.length fmt < fuel)%nat -> render strs fmt args = Some t -> fits t -> 0 <= row <= 60 ->
  runs (show_line prog fuel sfuel row fmt args) m (fun _ => screen m0 (overlay (row * VIDEO_BUFFER_COL + 0) t f) g).
Proof using Hsane.
  intros Hs Hm H1 H2 H3 H4 H5. apply runs_bind. eapply runs_mono; [apply (sprintf_line fmt args t); try done; by eapply screen_loaded|].
  intros [] m1 Hl. by eapply print_line.
Qed.

Lemma truncate_line_run m t : string_at m (line prog) t -> forall k i,
  (i <= List.length t)%nat -> (List.length t - i < k)%nat -> fits t ->
  runs (truncate_line k (line prog + Z.of_nat i)) m (fun _ => line_holds (take i t ++ first_line (drop i t)) m).
Proof using.
  intros [Hc Hnz He] k. induction k as [|k IH]; intros i Hi Hk Hf; [lia|].
  cbn [truncate_line]. apply runs_bind, runs_gets. destruct (decide (i = List.length t)) as [->|Hne].
  { rewrite He. cbn [Z.eqb]. apply runs_ret. rewrite drop_all, firstn_all. cbn [first_line]. rewrite app_nil_r. by split. }
  rewrite Hc by lia. assert (Hx : t !! i = Some (t !!! i)) by (apply list_lookup_lookup_total_lt; lia).
  destruct (Z.eqb_spec (t !!! i) 0) as [E|_]; [by destruct (Forall_lookup_1 _ _ _ _ Hnz Hx)|].
  rewrite (drop_S t _ i Hx). cbn [first_line]. destruct (Z.eqb_spec (t !!! i) 10) as [E|E].
  - apply runs_modify. rewrite app_nil_r.
    assert (Hlen : List.length (take i t) = i) by (rewrite length_take; lia). split; [split|].
    + intros j Hj. rewrite rd8_wr8_ne by lia. rewrite lookup_total_take_lt by lia. apply Hc. lia.
    + by apply Forall_take.
    + rewrite Hlen, rd8_wr8. by rewrite decide_True.
    + intros a Ha. apply rd8_wr8_ne. destruct Hf as [_ Hf]. unfold off_line in Ha. lia.
  - replace (line prog + Z.of_nat i + 1) with (line prog + Z.of_nat (S i)) by lia.
    eapply runs_mono; [apply IH; [lia|lia|done]|]. intros [] m' Hm'. rewrite (take_S_r t i _ Hx) in Hm'.
    by rewrite <- app_assoc in Hm'.
Qed.

Lemma first_line_prefix t : first_line t `prefix_of` t.
Proof using.
  induction t as [|c t IH]; cbn [first_line]; [done|]. case_match; [apply prefix_nil|by apply prefix_cons].
Qed.
Lemma first_line_fits t : fits t -> fits (first_line t).
Proof using.
  destruct (first_line_prefix t) as [r E]. rewrite E at 1. intros [Hp Hl]. rewrite length_app in Hl.
  apply Forall_app in Hp as [Hp _]. split; [done|lia].
Qed.

(** A line that begins with its place in the source. *)
Definition at_line_pieces (ps : list piece) : list piece := Dir 115 :: Lit [58] :: Dir 100 :: Lit [32] :: ps.
Lemma render_at_line ps line_ args t : forallb piece_ok ps = true -> 0 <= line_ < 2 ^ 31 -> pieces_text strs ps args = Some t ->
  render strs (flatten (at_line_pieces ps)) (logging_file prog :: line_ :: args) = Some (at_line LOGGING_FILE line_ t).
Proof using Hsane.
  intros Hps Hl Ht. rewrite render_pieces by done. unfold at_line_pieces. cbn [pieces_text hd tl].
  change (directive_text strs 115 (logging_file prog)) with (strs !! logging_file prog).
  rewrite (sn_logging_file Hsane), directive_small_decimal by done. cbn [mbind option_bind]. by rewrite Ht.
Qed.
Lemma at_line_fits line_ t : 0 <= line_ < 100 -> Forall printable t -> (List.length t <= 108)%nat -> fits (at_line LOGGING_FILE line_ t).
Proof using.
  intros Hl Hp Ht. split.
  - unfold at_line, LOGGING_FILE. repeat apply Forall_app_2; try done; printable_text.
  - unfold at_line. rewrite !length_app. change (List.length LOGGING_FILE) with 15%nat. cbn [List.length].
    unfold decimal. rewrite push_decimal_digits by lia.
    assert ((List.length (or_zero (push_digits 10 (fun d => 48 + d)%Z (Z.to_nat DEFAULT_RESOLVE_STACK) line_ [])) <= 2)%nat).
    { pose proof (push_digits_length 10 (fun d => 48 + d) ltac:(lia) (Z.to_nat DEFAULT_RESOLVE_STACK) line_ [] 2 ltac:(lia)) as H.
      destruct (push_digits _ _ _ _ _); cbn in *; lia. }
    unfold LINE_SIZE. lia.
Qed.

Lemma hex_length v : (List.length (hex v) <= 16)%nat.
Proof using. apply hexadecimal_length. Qed.

(** The length of a text made of literals and numerals. *)
Ltac text_length :=
  rewrite ?length_app;
  repeat match goal with
    |- context [List.length (hex ?v)] => generalize (hex_length v); generalize (List.length (hex v)); intros
    end;
  repeat match goal with
    |- context [List.length (decimal ?v)] => generalize (decimal_length v ltac:(cbn; lia)); generalize (List.length (decimal v)); intros
    end;
  cbn; lia.

Lemma show_at_line m0 f g m row fmt ps line_ args t : fmt = flatten (at_line_pieces ps) -> screen m0 f g m -> loaded m0 ->
  forallb piece_ok ps = true -> plain_text fmt = true -> (List.length fmt <= 100)%nat -> 0 <= line_ < 100 -> 0 <= row <= 60 ->
  pieces_text strs ps args = Some t -> Forall printable t -> (List.length t <= 108)%nat ->
  runs (show_line prog fuel sfuel row fmt (logging_file prog :: line_ :: args)) m
    (fun _ => screen m0 (overlay (row * VIDEO_BUFFER_COL + 0) (at_line LOGGING_FILE line_ t) f) g).
Proof using Hsane.
  intros -> Hs Hm Hps Hpl Hlen Hl Hrow Ht Hp Hlt. pose proof (sn_fuel Hsane).
  apply show_line_run; [done|done|done|lia|apply render_at_line; [done|lia|done]|by apply at_line_fits|done].
Qed.

(** The blob is neither on the screen nor in the line buffer. *)
Lemma screen_blob m0 f g m o n : screen m0 f g m -> 0 <= o -> o + Z.of_nat n <= BLOB_SIZE ->
  load n m (blob + o) = load n m0 (blob + o).
Proof using Hsane.
  intros [_ Hf] Ho Hn. apply load_ext. intros a Ha. pose proof (sn_blob Hsane). pose proof (sn_blob_line Hsane).
  apply Hf; unfold off_line; regions.
Qed.

Lemma frame_line_run m0 f g m row idx rip : screen m0 f g m -> loaded m0 -> 0 <= row <= 60 -> 0 <= idx < 32 ->
  runs (show_line prog fuel sfuel row (chars "%s:%d frame #%d <%x>") [logging_file prog; 79; idx; rip]) m
    (fun _ => screen m0 (overlay (row * VIDEO_BUFFER_COL + 0) (frame_line idx rip) f) g).
Proof using Hsane.
  intros Hs Hm Hrow Hidx.
  apply show_at_line with (ps := [Lit (chars "frame #"); Dir 100; Lit (chars " <"); Dir 120; Lit (chars ">")]);
    [reflexivity|done|done|reflexivity|reflexivity|cbn; lia|lia|done|piece_texts| |].
  - unfold frame_body. printable_text.
  - unfold frame_body. text_length.
Qed.

Lemma show_frames_run m0 g fs : loaded m0 -> forall k idx f m,
  0 <= idx -> idx + Z.of_nat (List.length fs) <= 32 -> (List.length fs < k)%nat ->
  load32 m0 (blob + nr_frames_offset) = idx + Z.of_nat (List.length fs) ->
  (forall j x, fs !! j = Some x -> load64 m0 (blob + frames_offset (idx + Z.of_nat j)) = x) ->
  screen m0 f g m ->
  runs (show_frames prog fuel sfuel k (9 + idx) idx blob) m
    (fun _ => screen m0 (overlay_rows (9 + idx) 0 (frame_lines idx fs) f) g).
Proof using Hsane.
  intros Hm. induction fs as [|rip fs IH]; intros [|k] idx f m H0 H32 Hk Hn Hf Hs; cbn [List.length] in *; try lia;
    cbn [show_frames]; apply runs_bind, runs_gets;
    (assert (E : load32 m (blob + nr_frames_offset) = load32 m0 (blob + nr_frames_offset));
     [apply (screen_blob m0 f g m _ 4 Hs); unfold nr_frames_offset, BLOB_SIZE; lia|rewrite E, Hn, s32_small by lia; clear E]).
  - rewrite Z.add_0_r, Z.ltb_irrefl. by apply runs_ret.
  - destruct (Z.ltb_spec idx (idx + Z.of_nat (S (List.length fs)))); [|lia].
    apply runs_bind, runs_gets.
    assert (E : load64 m (blob + frames_offset idx) = rip).
    { rewrite <- (Hf 0%nat rip eq_refl), Z.add_0_r. apply (screen_blob m0 f g m _ 8 Hs); unfold frames_offset, BLOB_SIZE; lia. }
    rewrite E. apply runs_bind. eapply runs_mono; [apply (frame_line_run m0 f g m (9 + idx) idx rip Hs Hm); lia|].
    intros [] m1 H1. replace (9 + idx + 1) with (9 + (idx + 1)) by lia.
    eapply runs_mono; [apply IH; [lia|lia|lia|lia| |exact H1]|].
    + intros j x Hx. rewrite <- (Hf (S j) x Hx). do 3 f_equal. lia.
    + intros [] m2 H2. cbn [frame_lines overlay_rows]. by replace (9 + idx + 1) with (9 + (idx + 1)) by lia.
Qed.

Definition PURPLE : Z := 0x5f.
Definition title (f : Z -> Z) : Z -> Z :=
  overlay (2 * VIDEO_BUFFER_COL + 0) (chars "https://github.com/chillancezen/ZeldaOS.x86_64")
    (overlay (1 * VIDEO_BUFFER_COL + 0) (chars "Copyright (c) 2019 Jie Zheng") (framework (on_25_rows 0 f))).
(** The characters on the purple screen, over those of [f]. *)
Definition psod (msg : list Z) (fs : list Z) (f : Z -> Z) : Z -> Z :=
  overlay_rows 4 0 (first_line msg :: register_lines registers ++ frame_lines 0 fs) (title f).

Lemma string_off_screen a l : strs !! a = Some l -> off_screen a l.
Proof using Hsane. intros Hl. destruct (sn_strings Hsane a l Hl) as [_ Ha]. unfold off_screen. regions. Qed.

Lemma print_literal m0 f g m row a l : screen m0 f g m -> loaded m0 -> strs !! a = Some l -> Z.of_nat (List.length l) < 128 ->
  0 <= row <= 60 -> runs (print_text sfuel row 0 a) m (fun _ => screen m0 (overlay (row * VIDEO_BUFFER_COL + 0) l f) g).
Proof using Hsane.
  intros Hs Hm Hl Hlen Hrow. pose proof (sn_fuel Hsane). apply print_stored; [done| |by apply string_off_screen|done|lia|lia].
  by apply (ld_strings m (screen_loaded _ _ _ _ Hs Hm)).
Qed.

Lemma title_run m0 f g m c Q : screen m0 f g m -> loaded m0 ->
  (forall m', screen m0 (title f) (on_25_rows PURPLE g) m' -> runs c m' Q) ->
  runs (reset_text ;;; set_font_color COLOR_PURPLE COLOR_WHITE ;;; draw_psod_framework ;;;
        print_text sfuel 1 0 (copyright prog) ;;; print_text sfuel 2 0 (url prog) ;;; c) m (Q : unit -> memory -> Prop).
Proof using Hsane.
  intros Hs Hm Hc. assert (Hd : displays m f g m) by (destruct Hs as [[H1 H2 _] _]; by split).
  apply runs_bind. eapply runs_mono; [by apply (reset_text_displays m)|]. intros [] m1 H1.
  apply runs_bind. eapply runs_mono; [by apply (set_font_color_displays m)|]. intros [] m2 H2.
  apply runs_bind. eapply runs_mono; [by apply (draw_psod_framework_displays m)|]. intros [] m3 H3.
  pose proof (screen_displays _ _ _ _ _ _ _ Hs H3) as Hs3.
  apply runs_bind. eapply runs_mono; [apply (print_literal _ _ _ _ 1 _ _ Hs3 Hm (sn_copyright Hsane)); cbn; lia|]. intros [] m4 H4.
  apply runs_bind. eapply runs_mono; [apply (print_literal _ _ _ _ 2 _ _ H4 Hm (sn_url Hsane)); cbn; lia|]. intros [] m5 H5.
  apply Hc. exact H5.
Qed.

Lemma message_run m0 f g m fmt args msg c Q : screen m0 f g m -> loaded m0 -> plain_text fmt = true -> (List.length fmt < fuel)%nat ->
  render strs fmt args = Some msg -> fits msg ->
  (forall m', screen m0 (overlay (4 * VIDEO_BUFFER_COL + 0) (first_line msg) f) g m' -> runs c m' Q) ->
  runs (sprintf fuel sfuel (line prog) fmt args ;;; truncate_line sfuel (line prog) ;;; print_text sfuel 4 0 (line prog) ;;; c) m
    (Q : unit -> memory -> Prop).
Proof using Hsane.
  intros Hs Hm H1 H2 H3 H4 Hc. pose proof (sn_fuel Hsane) as [_ Hf].
  apply runs_bind. eapply runs_mono; [apply (sprintf_line fmt args msg); try done; by eapply screen_loaded|]. intros [] m1 [L1 O1].
  apply runs_bind. pose proof (truncate_line_run m1 msg L1 sfuel 0) as Ht. rewrite Z.add_0_r in Ht.
  destruct H4 as [Hp Hl]. eapply runs_mono; [apply Ht; [lia|unfold LINE_SIZE in Hl; lia|done]|].
  intros [] m2 [L2 O2]. cbn [app take drop] in L2.
  assert (Hh : line_holds (first_line msg) m m2) by (split; [exact L2|intros a Ha; by rewrite O2, O1]).
  apply runs_bind. eapply runs_mono; [apply (print_line m0 f g m m2 4 _ Hs Hh); [by apply first_line_fits|lia]|]. exact (fun _ => Hc).
Qed.

Ltac show_line_with pieces :=
  apply runs_bind; eapply runs_mono;
  [apply show_at_line with (ps := pieces);
    [reflexivity|eassumption|eassumption|reflexivity|reflexivity|cbn; lia|lia|lia|piece_texts|printable_text|text_length]|].

Lemma show_screen_run m0 f g fmt args msg fs : screen m0 f g m0 -> loaded m0 -> plain_text fmt = true -> (List.length fmt < fuel)%nat ->
  render strs fmt args = Some msg -> fits msg -> (List.length fs <= MAX_FRAMES_TO_DUMP)%nat -> holds_frames m0 m0 0 fs ->
  runs (show_screen CPUID prog p fuel sfuel fmt args registers) m0 (fun _ => screen m0 (psod msg fs f) (on_25_rows PURPLE g)).
Proof using Hsane.
  intros Hs Hm H1 H2 H3 H4 Hfs [_ Hn _ Hf]. pose proof cpu_answer_range as Hc. unfold MAX_NR_CPUS, MAX_FRAMES_TO_DUMP in *.
  unfold show_screen. apply (title_run m0 f g m0); [done|done|]. intros m1 S1.
  apply (message_run _ _ _ _ _ _ msg _ _ S1); [done..|]. intros m2 S2.
  show_line_with [Lit (chars "CPU:"); Dir 100; Lit (chars " IDT.BASE:0x"); Dir 120; Lit (chars " IDT.SIZE:0x"); Dir 120].
  intros [] m3 S3.
  show_line_with [Lit (chars "TR:0x"); Dir 120; Lit (chars ", GDT.BASE:0x"); Dir 120; Lit (chars ", GDT.SIZE:0x"); Dir 120].
  intros [] m4 S4.
  show_line_with [Lit (chars "FS.BASE:0x"); Dir 120; Lit (chars ", GS.BASE:0x"); Dir 120; Lit (chars ", EFER:0x"); Dir 120].
  intros [] m5 S5.
  show_line_with [Lit (chars "CR4:0x"); Dir 120; Lit (chars ", CR3:0x"); Dir 120; Lit (chars ", CR2:0x"); Dir 120; Lit (chars ", CR0:0x"); Dir 120].
  intros [] m6 S6. unfold runs. rewrite (bind_run _ _ _ _ _ (get_backtrace_blob_run m6 (screen_loaded _ _ _ _ S6 Hm))).
  eapply runs_mono; [eapply (show_frames_run m0 _ fs Hm 33 0 _ m6); [lia|lia|lia|done|done|exact S6]|].
  intros [] m7 S7. exact S7.
Qed.

(** The whole report. *)
Record reported (m : memory) (msg : list Z) (fs : list Z) (m' : memory) : Prop := {
  rp_text : forall i, 0 <= i < CELLS -> text_cell m' i = psod msg fs (text_cell m) i;
  rp_color : forall i, 0 <= i < CELLS -> color_cell m' i = on_25_rows PURPLE (color_cell m) i;
  rp_number : load32 m' (blob + nr_frames_offset) = Z.of_nat (List.length fs);
  rp_frames : forall j x, fs !! j = Some x -> load64 m' (blob + frames_offset (Z.of_nat j)) = x;
  rp_frame : unreported m m' }.

Lemma blob_cells m m' : only_at blob BLOB_SIZE m m' -> screen m' (text_cell m) (color_cell m) m'.
Proof using Hsane.
  intros Ho. pose proof (sn_blob Hsane). split; [split; [..|done]|done]; intros i Hi; unfold text_cell, color_cell;
    apply Ho; regions.
Qed.

Lemma screen_reported m m1 msg fs m' : holds_frames m m1 0 fs -> (List.length fs <= MAX_FRAMES_TO_DUMP)%nat ->
  screen m1 (psod msg fs (text_cell m)) (on_25_rows PURPLE (color_cell m)) m' -> reported m msg fs m'.
Proof using Hsane.
  intros [Ho Hn _ Hf] Hlen Hs. unfold MAX_FRAMES_TO_DUMP in Hlen. split.
  - apply (dp_text _ _ _ _ (sc_shows _ _ _ _ Hs)).
  - apply (dp_color _ _ _ _ (sc_shows _ _ _ _ Hs)).
  - rewrite <- (Z.add_0_l (Z.of_nat _)), <- Hn. apply (screen_blob m1 _ _ m' _ 4 Hs); by_compute.
  - intros j x Hx. rewrite <- (Hf j x Hx). pose proof (lookup_lt_Some _ _ _ Hx).
    rewrite Z.add_0_l. apply (screen_blob m1 _ _ m' _ 8 Hs); unfold frames_offset, BLOB_SIZE; lia.
  - intros a Ha. rewrite (screen_unreported _ _ _ _ Hs a Ha). by apply (blob_frame _ _ Ho).
Qed.

Lemma do_assertion_run fmt args msg s :
  loaded (con_mem s) -> readable (con_mem s) MAX_FRAMES_TO_DUMP (frame_pointer p) ->
  plain_text fmt = true -> (List.length fmt < fuel)%nat -> render strs fmt args = Some msg -> fits msg ->
  let fs := the_frames (con_mem s) in
  runs (__do_assertion CPUID prog p fuel sfuel fmt args) s (fun _ s' =>
    con_out s' = con_out s ++ msg ++ info (dump_text registers (dump_line prog) ++ frames_text 0 fs) /\
    reported (con_mem s) msg fs (con_mem s') /\ (List.length fs <= MAX_FRAMES_TO_DUMP)%nat).
Proof using Hsane.
  intros Hm Hr H1 H2 H3 H4 fs. assert (Hlen : (List.length fs <= MAX_FRAMES_TO_DUMP)%nat) by apply frames_of_length.
  unfold __do_assertion, runs, printk_mp_unsafe.
  run_with (printk_run fmt args msg strs fuel sfuel s H2
    ltac:(eapply Forall_impl; [by apply printable_plain|unfold printable; cbv beta; lia]) (strings_ready _ Hm) H3).
  rewrite (printable_bytes msg) by apply H4. set (s1 := Console (con_mem s) (con_out s ++ msg)).
  run_with (on_memory_run _ s1 _ _ (read_auxiliary_state_run (con_mem s) Hm)). run_with (dump_auxiliary_state_run s1 Hm).
  destruct (backtrace_run (says (dump_text registers (dump_line prog)) s1) Hm Hr) as (m1 & Eb & Hh).
  cbn [says con_mem con_out] in Eb, Hh. run_with Eb.
  destruct (show_screen_run m1 (text_cell (con_mem s)) (color_cell (con_mem s)) fmt args msg fs) as ([] & m2 & Es & Hs2); try done.
  - apply blob_cells, Hh.
  - eapply loaded_frame; [apply blob_frame, Hh|done].
  - destruct Hh as [? ? ? ?]. by split.
  - eexists tt, _. split; [by apply on_memory_run|]. cbn [says con_mem con_out]. split; [|split; [|done]].
    + unfold info, s1. cbn [con_out con_mem]. destruct (__log_level prog <=? LOG_INFO); rewrite <- ?app_assoc, ?app_nil_r; reflexivity.
    + by eapply screen_reported.
Qed.

(** [ASSERT] is the [assert] of the other files: it does nothing when the condition
    holds and ends in a halted processor when it does not. *)
Lemma ASSERT_assert cond file line_ text ftext ttext s : __log_level prog <= LOG_ASSERT ->
  strs !! file = Some ftext -> strs !! text = Some ttext -> 0 <= line_ < 2 ^ 31 ->
  Forall printable ftext -> Forall printable ttext -> (List.length ftext + List.length ttext <= 70)%nat ->
  loaded (con_mem s) -> readable (con_mem s) MAX_FRAMES_TO_DUMP (frame_pointer p) ->
  ASSERT CPUID prog p fuel sfuel cond file line_ text s = assert cond s.
Proof using Hsane.
  intros Hlog Hf Ht Hl Hpf Hpt Hlen Hm Hr. unfold ASSERT. destruct (Z.leb_spec (__log_level prog) LOG_ASSERT); [|lia].
  destruct cond; [done|]. cbn [negb].
  set (msg := chars "[assert] " ++ ftext ++ [58] ++ decimal line_ ++ chars " assertion:" ++ ttext ++ chars " failed" ++ [10]).
  destruct (do_assertion_run (chars "[assert] %s:%d assertion:%s failed" ++ [10]) [file; line_; text] msg s Hm Hr)
    as ([] & s' & E & _); [reflexivity|cbn; pose proof (sn_fuel Hsane); lia| | |run_with E; reflexivity].
  - change (chars "[assert] %s:%d assertion:%s failed" ++ [10]) with (flatten [Lit (chars "[assert] "); Dir 115; Lit [58];
      Dir 100; Lit (chars " assertion:"); Dir 115; Lit (chars " failed" ++ [10])]).
    rewrite render_pieces by done. cbn [pieces_text hd tl].
    change (directive_text strs 115 file) with (strs !! file). change (directive_text strs 115 text) with (strs !! text).
    rewrite Hf, Ht, directive_small_decimal by done. reflexivity.
  - unfold msg. split; [repeat apply Forall_app_2; try done; printable_text|].
    rewrite !length_app. pose proof (decimal_length line_ ltac:(lia)). unfold LINE_SIZE. cbn. lia.
Qed.

(** C25 A failing assertion, for a message of at most 127 characters: the report
    finishes, whatever the frame pointers lead to. The console receives the message
    and, unless the log level silences them, the registers and one line per frame.
    The screen is purple and white, framed by rows of equals signs, and shows the
    message up to its first newline, the registers and the frames (from the sixteenth
    on, below the last row of the screen). The processor's blob holds the return
    addresses in the kernel's code that the frame pointers lead to, 32 at most.
    Nothing else changes but the 128 bytes of the line buffer. *)
Theorem assertion_report fmt args msg s :
  loaded (con_mem s) -> readable (con_mem s) MAX_FRAMES_TO_DUMP (frame_pointer p) ->
  plain_text fmt = true -> (List.length fmt < fuel)%nat -> render strs fmt args = Some msg -> fits msg ->
  let fs := the_frames (con_mem s) in
  runs (__do_assertion CPUID prog p fuel sfuel fmt args) s (fun _ s' =>
    con_out s' = con_out s ++ msg ++ info (dump_text registers (dump_line prog) ++ frames_text 0 fs) /\
    reported (con_mem s) msg fs (con_mem s') /\ (List.length fs <= MAX_FRAMES_TO_DUMP)%nat).
Proof using Hsane. apply do_assertion_run. Qed.
End Report.

(** ** A processor with two frames on its stack *)
Definition sample_program : program := {|
  pls_blob := 0x300000; bt_blob := 0x400000; code_start := 0x100000; code_end := 0x180000; __log_level := 1;
  logging_file := 0x200000; panic_file := 0x200100; copyright := 0x200200; url := 0x200300;
  dump_line := fun i => 58 + i; line := 0x500000 |}.
Definition sample_processor : processor := {|
  number := 0; cr0 := 0x80000011; cr2 := 0; cr3 := 0x12000; cr4 := 0x2020; efer := 0x500; fs_base := 0;
  gdtr := (0x427, 0x190000); idtr := (0xfff, 0x191000); task_register := 0x28; str_rax := 0x1234;
  frame_pointer := 0x600000; gs_bases := fun _ => 0; kernel_gs_bases := fun _ => 0 |}.
Definition sample_texts : list (Z * list Z) :=
  [(0x200000, LOGGING_FILE); (0x200100, PANIC_FILE); (0x200200, chars "Copyright (c) 2019 Jie Zheng");
   (0x200300, chars "https://github.com/chillancezen/ZeldaOS.x86_64")].
Definition sample_literals : gmap Z (list Z) := list_to_map sample_texts.
Definition sample_memory : memory :=
  let m := foldl (fun m q => store_text m (fst q) (snd q)) ∅ sample_texts in
  let m := foldl (fun m q => store64 m (fst q) (snd q)) m
    [(0x600000, 0x600100); (0x600008, 0x100100); (0x600100, 0); (0x600108, 0x100200)] in
  store32 m (0x300000 + magic_number_offset) CPU_LOCAL_STORAGE_MAGIC.

(** Closed inequalities and their disjunctions. *)
Ltac closed := vm_compute; repeat match goal with |- _ /\ _ => split end; first [left; congruence|right; congruence|congruence].

Lemma sample_sane : sane sample_cpuid sample_program sample_processor 200 200 [0] sample_literals.
Proof.
  split; [closed| |closed| |closed|closed|closed|closed|closed| |reflexivity..|lia].
  - intros c Hc. unfold cpu_on, cpu, sample_cpuid, MAX_NR_CPUS in *. cbn [cpuid_ebx].
    rewrite u32_small by (rewrite Z.shiftl_mul_pow2 by lia; lia). rewrite Z.shiftr_shiftl_l by lia. apply Z.shiftl_0_r.
  - intros i Hi. cbn [dump_line sample_program]. lia.
  - unfold sample_literals, sample_texts, list_to_map, foldr. cbn [fst snd uncurry].
    repeat apply map_Forall_insert_2; [..|apply map_Forall_empty]; (split; [cbn; lia|closed]).
Qed.

Definition storage_ok (c : Z) : bool :=
  (load16 sample_memory (area 0x300000 c) =? 0) &&
  (load32 sample_memory (area 0x300000 c + magic_number_offset) =? if c =? 0 then CPU_LOCAL_STORAGE_MAGIC else 0).
Lemma sample_program_loaded : loaded sample_program sample_processor [0] sample_literals sample_memory.
Proof.
  split.
  - unfold sample_literals, sample_texts, list_to_map, foldr. cbn [fst snd uncurry].
    repeat apply map_Forall_insert_2; [..|apply map_Forall_empty]; apply holds_text_sound; vm_compute; reflexivity.
  - assert (Hall : forallb storage_ok (seqZ 0 MAX_NR_CPUS) = true) by (vm_compute; reflexivity).
    rewrite forallb_forall in Hall.
    assert (Hin : forall c, c ∈ [0] <-> c = 0) by (intros c; apply list_elem_of_singleton).
    split; intros c Hc; cbn [gs_base p_mem gs_bases sample_processor pls_blob sample_program].
    + case_decide as E; [apply Hin in E; by subst|done].
    + specialize (Hall c ltac:(apply list_elem_of_In, elem_of_seqZ; lia)). apply andb_true_iff in Hall as [Hi _].
      apply Z.eqb_eq in Hi. rewrite Hi. case_decide as E; [apply Hin in E; by subst|done].
    + specialize (Hall c ltac:(apply list_elem_of_In, elem_of_seqZ; lia)). apply andb_true_iff in Hall as [_ Hm].
      apply Z.eqb_eq in Hm. rewrite Hm. destruct (Z.eqb_spec c 0) as [Ec|Hne].
      * by rewrite decide_True by by apply Hin.
      * rewrite decide_False; [done|]. by rewrite Hin.
Qed.

Lemma assertion_report_witness : exists s',
  __do_assertion sample_cpuid sample_program sample_processor 200 200 (chars "halt" ++ [10]) [] (Console sample_memory []) =
    Ret (tt, s') /\
  text_cell (con_mem s') 320 = 104 /\ text_cell (con_mem s') 324 = 0 /\ load32 (con_mem s') 0x400100 = 2.
Proof.
  destruct (assertion_report sample_cpuid sample_program sample_processor 200 200 [0] sample_literals sample_sane
    (chars "halt" ++ [10]) [] (chars "halt" ++ [10]) (Console sample_memory []) sample_program_loaded) as ([] & s' & Hr & _ & Hrep & _).
  - unfold readable.
    assert (E : frame_pointers 0x100000 0x180000 sample_memory MAX_FRAMES_TO_DUMP 0x600000 = [0x600000; 0x600100; 0])
      by (vm_compute; reflexivity).
    cbn [code_start code_end sample_program frame_pointer sample_processor con_mem]. rewrite E.
    repeat apply Forall_cons_2; [closed..|apply Forall_nil_2].
  - reflexivity.
  - cbn. lia.
  - reflexivity.
  - split; [apply printable_plain; reflexivity|closed].
  - exists s'. split; [exact Hr|]. clear Hr. split; [|split].
    + rewrite (rp_text _ _ _ _ _ _ _ Hrep) by (unfold CELLS; lia). vm_compute. reflexivity.
    + rewrite (rp_text _ _ _ _ _ _ _ Hrep) by (unfold CELLS; lia). vm_compute. reflexivity.
    + etransitivity; [exact (rp_number _ _ _ _ _ _ _ Hrep)|]. vm_compute. reflexivity.
Defined.
