(* ===== verification/Dump.v ===== *)
(** * Dump: [printk] under its lock ([lib64/printk.c], [x86_64/spinlock.c]) and the
    dump of an interrupted processor's registers ([x86_64/cpu_state.c]).

    One processor runs here, so the lock is the memory words it consists of; what
    several processors do with a lock is the subject of [Spinlock]. *)
From Stdlib Require Import ZArith Lia String.
From stdpp Require Import base tactics list numbers gmap.
From S2P Require Import Prelude.
From S2P Require Import Memory.
From S2P Require Import Format.
From S2P Require Import Descriptors.
From S2P Require Import Apic.
From S2P Require Import Percpu.
From S2P Require Import Panic.
Local Open Scope Z_scope.

(** [struct spinlock]: the lock, then its owner. *)
Definition lock_offset : Z := 0.
Definition cpu_offset : Z := 4.

(** ** [struct cpu_state64], the frame an interrupt leaves on the stack *)
Inductive cpu_register :=
| ds | es | fs | gs | r8 | r9 | r10 | r11 | r12 | r13 | r14 | r15
| rbp | rdi | rsi | rdx | rcx | rbx | rax | vector | error_code | rip | cs | rflags | rsp | ss.
#[export] Instance cpu_register_eq_dec : EqDecision cpu_register.
Proof. solve_decision. Defined.

Definition cpu_state64 : list cpu_register :=
  [ds; es; fs; gs; r8; r9; r10; r11; r12; r13; r14; r15;
   rbp; rdi; rsi; rdx; rcx; rbx; rax; vector; error_code; rip; cs; rflags; rsp; ss].
Definition register_offset (r : cpu_register) : Z :=
  match list_find (r =.) cpu_state64 with Some (i, _) => 8 * Z.of_nat i | None => 0 end.
(** [cpu->r]. *)
Definition cpu_field (m : memory) (cpu : Z) (r : cpu_register) : Z := load64 m (cpu + register_offset r).

Section Code.
Context (CPUID : Z -> Z -> cpuid_regs) (c : Z) (__print_lock : Z) (fuel sfuel : nat).

Definition xchg32 (dword_addr exchange_value : Z) : M memory Z :=
  let! old_value := gets (fun m => load32 m dword_addr) in
  modify (fun m => store32 m dword_addr exchange_value) ;;;
  ret old_value.

(** [while (xchg32(&lock->lock, 1) != 0);]. *)
Fixpoint acquire_loop (n : nat) (lock : Z) : M memory unit :=
  match n with
  | O => stop OutOfFuel
  | S k => let! old := xchg32 (lock + lock_offset) 1 in if old =? 0 then ret tt else acquire_loop k lock
  end.
Definition spinlock_acquire_raw (lock : Z) : M memory unit :=
  acquire_loop fuel lock ;;;
  modify (fun m => store32 m (lock + cpu_offset) (cpu_on CPUID c)).
Definition spinlock_release_raw (lock : Z) : M memory unit :=
  let! owner := gets (fun m => load32 m (lock + cpu_offset)) in
  let! held := gets (fun m => load32 m (lock + lock_offset)) in
  assert ((owner =? cpu_on CPUID c) && (held =? 1)) ;;;
  modify (fun m => store32 m (lock + cpu_offset) 0xff) ;;;
  let! old := xchg32 (lock + lock_offset) 0 in
  assert (old =? 1).

Definition printk (fmt args : list Z) : M console_state unit :=
  on_memory (spinlock_acquire_raw __print_lock) ;;;
  printk_mp_raw fuel sfuel (literal fmt) args ;;;
  on_memory (spinlock_release_raw __print_lock).

(** The eight lines, with [printk] or [printk_mp_unsafe]. *)
Definition dump_lines (print : list Z -> list Z -> M console_state unit) (cpu : Z) : M console_state unit :=
  let print_fields fmt regs := let! m := gets con_mem in print fmt (cpu_field m cpu <$> regs) in
  print (chars "[DUMP] cpu state at frame:0x%x" ++ [10]) [cpu] ;;;
  print_fields (chars "   ss:0x%x rsp:0x%x rflags:0x%x" ++ [10]) [ss; rsp; rflags] ;;;
  print_fields (chars "   cs:0x%x rip:0x%x vector:0x%x(%d) error_code:0x%x" ++ [10]) [cs; rip; vector; vector; error_code] ;;;
  print_fields (chars "   rax:0x%x, rbx:0x%x, rcx:0x%x, rdx:0x%x" ++ [10]) [rax; rbx; rcx; rdx] ;;;
  print_fields (chars "   rsi:0x%x, rdi:0x%x, rbp:0x%x" ++ [10]) [rsi; rdi; rbp] ;;;
  print_fields (chars "   r8:0x%x r9:0x%x r10:0x%x r11:0x%x" ++ [10]) [r8; r9; r10; r11] ;;;
  print_fields (chars "   r12:0x%x, r13:0x%x, r14:0x%x, r15:0x%x" ++ [10]) [r12; r13; r14; r15] ;;;
  print_fields (chars "   ds:0x%x, es:0x%x, fs:0x%x, gs:0x%x" ++ [10]) [ds; es; fs; gs].
Definition dump_cpu_state (cpu mp_safe : Z) : M console_state unit :=
  if truthy mp_safe then dump_lines printk cpu else dump_lines (printk_mp_unsafe fuel sfuel) cpu.
End Code.

(** * Properties *)

(** ** Rows of labelled numbers

    A row lists labels, the directive after each and what it shows, and ends in
    [eol]; [val] is the number to show. *)
Definition item (V : Type) : Type := string * Z * V.
Definition number_text (d v : Z) : list Z := default [] (directive_text ∅ d v).
Lemma number_directive strs d v : (d =? 120) || (d =? 100) = true -> directive_text strs d v = Some (number_text d v).
Proof. intros [->%Z.eqb_eq| ->%Z.eqb_eq]%orb_true_iff; done. Qed.

Section Rows.
Context {V : Type} (val : V -> Z) (eol : list Z).
Definition row_text (row : list (item V)) : list Z :=
  concat (map (fun '(l, d, r) => chars l ++ number_text d (val r)) row) ++ eol.
Definition row_pieces (row : list (item V)) : list piece :=
  concat (map (fun '(l, d, _) => [Lit (chars l); Dir d]) row) ++ [Lit eol].
Definition item_ok (i : item V) : bool :=
  let '(l, d, _) := i in forallb (fun c => negb (c =? 37)) (chars l) && ((d =? 120) || (d =? 100)).

Definition plain_eol : bool := forallb (fun c => negb (c =? 37)) eol.
Lemma row_pieces_ok row : plain_eol = true -> forallb item_ok row = true -> forallb piece_ok (row_pieces row) = true.
Proof.
  intros He. unfold row_pieces. induction row as [|[[l d] r] row IH]; [by cbn; rewrite andb_true_r|]. cbn [forallb item_ok].
  intros [[Hl Hd]%andb_true_iff Hrow]%andb_true_iff. cbn. rewrite Hl. cbn. rewrite IH by done.
  rewrite andb_true_r. by apply orb_true_iff in Hd as [->%Z.eqb_eq| ->%Z.eqb_eq].
Qed.
Lemma row_pieces_text strs row : forallb item_ok row = true ->
  pieces_text strs (row_pieces row) (val <$> map snd row) = Some (row_text row).
Proof.
  unfold row_pieces, row_text. induction row as [|[[l d] r] row IH]; [by cbn; rewrite app_nil_r|]. cbn [forallb item_ok].
  intros [[Hl Hd]%andb_true_iff Hrow]%andb_true_iff.
  cbn [map concat app snd]. rewrite fmap_cons. cbn [pieces_text hd tl]. rewrite number_directive by done.
  cbn [mbind option_bind]. rewrite (IH Hrow). cbn [mbind option_bind]. by rewrite <- !app_assoc.
Qed.
Lemma row_render strs row : plain_eol = true -> forallb item_ok row = true ->
  render strs (flatten (row_pieces row)) (val <$> map snd row) = Some (row_text row).
Proof. intros He H. rewrite render_pieces by by apply row_pieces_ok. by apply row_pieces_text. Qed.
End Rows.

(** ** The text of a frame *)
Definition rows : list (list (item cpu_register)) := [
  [("   ss:0x"%string, 120, ss); (" rsp:0x"%string, 120, rsp); (" rflags:0x"%string, 120, rflags)];
  [("   cs:0x"%string, 120, cs); (" rip:0x"%string, 120, rip); (" vector:0x"%string, 120, vector);
   ("("%string, 100, vector); (") error_code:0x"%string, 120, error_code)];
  [("   rax:0x"%string, 120, rax); (", rbx:0x"%string, 120, rbx); (", rcx:0x"%string, 120, rcx); (", rdx:0x"%string, 120, rdx)];
  [("   rsi:0x"%string, 120, rsi); (", rdi:0x"%string, 120, rdi); (", rbp:0x"%string, 120, rbp)];
  [("   r8:0x"%string, 120, r8); (" r9:0x"%string, 120, r9); (" r10:0x"%string, 120, r10); (" r11:0x"%string, 120, r11)];
  [("   r12:0x"%string, 120, r12); (", r13:0x"%string, 120, r13); (", r14:0x"%string, 120, r14); (", r15:0x"%string, 120, r15)];
  [("   ds:0x"%string, 120, ds); (", es:0x"%string, 120, es); (", fs:0x"%string, 120, fs); (", gs:0x"%string, 120, gs)] ].

Definition frame_text (m : memory) (cpu : Z) : list Z :=
  (chars "[DUMP] cpu state at frame:0x" ++ number_text 120 cpu ++ [10]) ++ concat (map (row_text (cpu_field m cpu) [10]) rows).

Lemma register_offset_range r : 0 <= register_offset r <= 200.
Proof. destruct r; by_compute. Qed.

(** ** The lock *)
Section Theory.
Context (CPUID : Z -> Z -> cpuid_regs) (c : Z) (lock : Z) (fuel sfuel : nat).

Definition lock_free (m : memory) : Prop := load32 m lock = 0.
(** The eight bytes of the lock are what may differ. *)
Abbreviation quiet := (only_at lock 8).

Lemma xchg32_run a v m : xchg32 a v m = Ret (load32 m a, store32 m a v).
Proof using. done. Qed.

Lemma acquire_held n m : load32 m lock <> 0 -> acquire_loop n lock m = Stop OutOfFuel.
Proof using.
  revert m. induction n as [|n IH]; intros m Hm; [done|]. cbn [acquire_loop].
  unfold lock_offset. rewrite Z.add_0_r. run_with (xchg32_run lock 1 m).
  destruct (Z.eqb_spec (load32 m lock) 0); [done|]. apply IH.
  unfold load32, store32. rewrite load_store. done.
Qed.

Lemma cpu_on_range : 0 <= cpu_on CPUID c < 2 ^ 32.
Proof using.
  unfold cpu_on, cpu. pose proof (wrap_range 32 (cpuid_ebx (CPUID c 0x1)) ltac:(lia)) as H. fold (u32 (cpuid_ebx (CPUID c 0x1))) in H.
  rewrite Z.shiftr_div_pow2 by lia. zdiv.
Qed.

Definition locked (m : memory) : memory := store32 (store32 m lock 1) (lock + cpu_offset) (cpu_on CPUID c).
Definition unlocked (m : memory) : memory := store32 (store32 m (lock + cpu_offset) 0xff) lock 0.

Lemma locked_spec m : quiet m (locked m) /\ load32 (locked m) lock = 1 /\ load32 (locked m) (lock + cpu_offset) = cpu_on CPUID c.
Proof using.
  unfold locked, load32, store32, cpu_offset. split; [|split].
  - intros b Hb. rewrite !rd8_store_out by lia. done.
  - rewrite load_store_out, load_store by lia. done.
  - rewrite load_store. apply Z.mod_small, cpu_on_range.
Qed.
Lemma unlocked_spec m : quiet m (unlocked m) /\ lock_free (unlocked m).
Proof using.
  unfold unlocked, lock_free, load32, store32, cpu_offset. split.
  - intros b Hb. rewrite !rd8_store_out by lia. done.
  - by rewrite load_store.
Qed.

Lemma release_run m : load32 m lock = 1 -> load32 m (lock + cpu_offset) = cpu_on CPUID c ->
  spinlock_release_raw CPUID c lock m = Ret (tt, unlocked m).
Proof using.
  intros Hl Hc. unfold spinlock_release_raw, lock_offset. rewrite Z.add_0_r, !bind_gets, Hl, Hc, Z.eqb_refl.
  rewrite assert_run by done. rewrite bind_modify. run_with (xchg32_run lock 0 (store32 m (lock + cpu_offset) 0xff)).
  unfold load32, store32. rewrite load_store_out by (unfold cpu_offset; lia).
  unfold load32 in Hl. by rewrite Hl.
Qed.

(** ** What a printing function promises: the text on the console, and nothing else
    but the lock *)
Definition prints (print : list Z -> list Z -> M console_state unit) (ready : memory -> Prop) : Prop :=
  forall fmt args out s, plain_text fmt = true -> (List.length fmt <= 100)%nat -> render ∅ fmt args = Some out ->
  ready (con_mem s) ->
  exists m', print fmt args s = Ret (tt, Console m' (con_out s ++ (u8 <$> out))) /\ quiet (con_mem s) m' /\ ready m'.

(** ** The dump *)
Definition frame_away (cpu : Z) : Prop := cpu + 208 <= lock \/ lock + 8 <= cpu.

Lemma cpu_field_quiet m m' cpu r : frame_away cpu -> quiet m m' -> cpu_field m' cpu r = cpu_field m cpu r.
Proof using.
  intros Ha Hq. apply load_ext. intros a Hin. apply Hq. pose proof (register_offset_range r) as Hr.
  unfold frame_away in Ha. clear - Ha Hin Hr. lia.
Qed.
Lemma row_text_quiet m m' cpu row : frame_away cpu -> quiet m m' -> row_text (cpu_field m' cpu) [10] row = row_text (cpu_field m cpu) [10] row.
Proof using.
  intros Ha Hq. unfold row_text. f_equal. f_equal. apply map_ext. intros [[l d] r]. by rewrite (cpu_field_quiet m m').
Qed.

(** One row, with what follows it. *)
Lemma print_row print ready m0 cpu fmt row k s (Q : unit -> console_state -> Prop) :
  prints print ready -> frame_away cpu -> fmt = flatten (row_pieces [10] row) -> forallb item_ok row = true ->
  plain_text fmt = true -> (List.length fmt <= 100)%nat -> ready (con_mem s) -> quiet m0 (con_mem s) ->
  (forall m, ready m -> quiet m0 m -> runs k (Console m (con_out s ++ (u8 <$> row_text (cpu_field m0 cpu) [10] row))) Q) ->
  runs ((let! m := gets con_mem in print fmt (cpu_field m cpu <$> map snd row)) ;;; k) s Q.
Proof using.
  intros Hp Ha -> Hok H1 H2 Hr Hq Hk. apply runs_bind, runs_bind, runs_gets.
  destruct (Hp _ _ (row_text (cpu_field (con_mem s) cpu) [10] row) s H1 H2 ltac:(by apply row_render) Hr) as (m & E & Q1 & R1).
  exists tt. eexists. split; [exact E|]. rewrite (row_text_quiet m0 _ cpu row Ha Hq). apply Hk; [done|by eapply only_at_trans].
Qed.
(** The [i]th row. *)
Ltac next_row i :=
  eapply print_row with (row := nth i rows []);
  [eassumption|eassumption|reflexivity|reflexivity|reflexivity|cbn; lia|eassumption|eassumption|]; intros ? ? ?.

(** The rows of the dump, whatever prints them. *)
Lemma dump_lines_run print ready m0 cpu s : prints print ready -> frame_away cpu -> ready (con_mem s) -> m0 = con_mem s ->
  runs (dump_lines print cpu) s (fun _ s' =>
    con_out s' = con_out s ++ (u8 <$> frame_text m0 cpu) /\ ready (con_mem s') /\ quiet m0 (con_mem s')).
Proof using.
  intros Hp Ha Hr ->. unfold dump_lines.
  destruct (Hp (chars "[DUMP] cpu state at frame:0x%x" ++ [10]) [cpu] (chars "[DUMP] cpu state at frame:0x" ++ number_text 120 cpu ++ [10])
    s eq_refl ltac:(cbn; lia) eq_refl Hr) as (m & E & Q0 & R0).
  apply runs_bind. exists tt. eexists. split; [exact E|]. clear E.
  cbv zeta.
  next_row 0%nat. next_row 1%nat. next_row 2%nat. next_row 3%nat. next_row 4%nat. next_row 5%nat.
  unfold runs at 1. rewrite <- bind_unit. next_row 6%nat. apply runs_ret. split; [|by split].
  cbn [con_out]. unfold frame_text. rewrite !fmap_app. cbn [rows map concat nth]. rewrite !fmap_app, <- !app_assoc, app_nil_r. reflexivity.
Qed.
(** [printk] while this processor holds the lock, as in an interrupt that arrives
    during a message, never comes back: no number of exchanges is enough. *)
Theorem printk_reentered fmt args s : load32 (con_mem s) lock <> 0 ->
  printk CPUID c lock fuel sfuel fmt args s = Stop OutOfFuel.
Proof using.
  intros Hl. unfold printk, on_memory, zoom, bind, spinlock_acquire_raw, bind. by rewrite acquire_held.
Qed.

(** Room for the formats, and for one exchange. *)
Hypothesis Hfuel : (100 < fuel)%nat.
Lemma acquire_run m : lock_free m -> spinlock_acquire_raw CPUID c fuel lock m = Ret (tt, locked m).
Proof using Hfuel.
  intros Hm. unfold spinlock_acquire_raw. destruct fuel as [|k]; [lia|]. cbn [acquire_loop].
  unfold lock_offset. rewrite Z.add_0_r, bind_assoc. run_with (xchg32_run lock 1 m). by rewrite Hm.
Qed.

Lemma raw_print fmt args out s : plain_text fmt = true -> (List.length fmt <= 100)%nat -> render ∅ fmt args = Some out ->
  printk_mp_raw fuel sfuel (literal fmt) args s = Ret (tt, Console (con_mem s) (con_out s ++ (u8 <$> out))).
Proof using Hfuel.
  intros Hp Hl Hr. apply (printk_run fmt args out ∅); [lia| |apply map_Forall_empty|done].
  eapply Forall_impl; [by apply printable_plain|]. unfold printable. intros x. cbv beta. lia.
Qed.

Lemma unsafe_prints m0 : prints (printk_mp_unsafe fuel sfuel) (fun m => m = m0).
Proof using Hfuel.
  intros fmt args out s H1 H2 H3 H4. exists (con_mem s). split; [by apply raw_print|]. by split.
Qed.

Lemma printk_prints : prints (printk CPUID c lock fuel sfuel) lock_free.
Proof using Hfuel.
  intros fmt args out s H1 H2 H3 H4. destruct (locked_spec (con_mem s)) as (Q1 & L1 & C1).
  destruct (unlocked_spec (locked (con_mem s))) as [Q2 F2]. exists (unlocked (locked (con_mem s))). split; [|split; [|done]].
  - unfold printk. run_with (on_memory_run _ s _ _ (acquire_run _ H4)).
    run_with (raw_print fmt args out (Console (locked (con_mem s)) (con_out s)) H1 H2 H3).
    by apply on_memory_run, release_run.
  - by eapply only_at_trans.
Qed.

(** The dump of a frame away from the lock, in either mode: the console receives
    the frame's address and the registers saved in it; with [mp_safe] the lock must
    be free and is free again, without it memory is not written at all. *)
Theorem dump_cpu_state_text cpu mp_safe s : frame_away cpu -> (mp_safe <> 0 -> lock_free (con_mem s)) ->
  runs (dump_cpu_state CPUID c lock fuel sfuel cpu mp_safe) s (fun _ s' =>
    con_out s' = con_out s ++ (u8 <$> frame_text (con_mem s) cpu) /\ quiet (con_mem s) (con_mem s') /\
    if truthy mp_safe then lock_free (con_mem s') else con_mem s' = con_mem s).
Proof using Hfuel.
  intros Ha Hl. unfold dump_cpu_state. destruct (truthy mp_safe) eqn:E.
  - eapply runs_mono; [apply (dump_lines_run _ lock_free (con_mem s)); [apply printk_prints|done|by apply Hl, truthy_true|done]|].
    intros [] s' (H1 & H2 & H3). done.
  - eapply runs_mono; [apply (dump_lines_run _ (fun m => m = con_mem s) (con_mem s)); [apply unsafe_prints|done..]|].
    intros [] s' (H1 & H2 & H3). done.
Qed.
End Theory.

(** A frame at 0x5000, the lock at 0x9000. *)
Definition sample_frame : memory := store64 (store64 ∅ (0x5000 + register_offset rip) 0x100200) (0x5000 + register_offset vector) 33.

Lemma dump_cpu_state_text_witness : exists s',
  dump_cpu_state sample_cpuid 0 0x9000 200 10 0x5000 1 (Console sample_frame []) = Ret (tt, s') /\
  load32 (con_mem s') 0x9000 = 0 /\ take 34 (con_out s') = chars "[DUMP] cpu state at frame:0x5000" ++ [10; 32].
Proof.
  destruct (dump_cpu_state_text sample_cpuid 0 0x9000 200 10 ltac:(lia) 0x5000 1 (Console sample_frame []))
    as ([] & s' & Hr & Ho & _ & Hl).
  - by_compute.
  - intros _. reflexivity.
  - exists s'. split; [exact Hr|]. clear Hr. split; [exact Hl|]. rewrite Ho. vm_compute. reflexivity.
Defined.
