(* ===== verification/VmDump.v ===== *)
(** * VmDump: the dump of a virtual machine ([dump_vm], [vm_monitor/vmx_vmcs.c]),
    the first half of [PANIC_EXIT].

    The processor's VMCS is the VM's own, so the guest's registers are fields of the
    state. As in the other files of the monitor a message goes to the console
    without the steps of the lock. *)
From Stdlib Require Import ZArith Lia String.
From stdpp Require Import base tactics list numbers gmap.
From S2P Require Import Prelude.
From S2P Require Import Memory.
From S2P Require Import Format.
From S2P Require Import PhysicalMemory.
From S2P Require Import Screen.
From S2P Require Import Panic.
From S2P Require Import Dump.
From S2P Require Import Vmcs.
From S2P Require Import Vmm.
Local Open Scope Z_scope.

Definition LOG_DEBUG_LEVEL : Z := 1.
Definition VM_FILE : list Z := chars "vm_monitor/vmx_vmcs.c".

Section Code.
(** The log level, the literal [__FILE__] and the lines of the macro calls. *)
Context (__log_level file : Z) (dump_line : Z -> Z).

Definition LOG_DEBUG (format : list Z) (line_ : Z) (args : list Z) : M vmm unit :=
  if __log_level <=? LOG_DEBUG_LEVEL then vmm_printk (chars "[debug] %s:%d " ++ format) (file :: line_ :: args)
  else ret tt.
(** A message whose arguments are read from the state. *)
Definition log_values (format : list Z) (line_ : Z) (values : list (vmm -> Z)) : M vmm unit :=
  let! s := gets (fun s => s) in LOG_DEBUG format line_ ((fun f => f s) <$> values).

Definition gpr (r : guest_cpu_state -> Z) (s : vmm) : Z := r (cpu_state (vm s)).
Definition field (encoding : Z) (s : vmm) : Z := vmread (cur s) encoding.

Definition get_current_vm : M vmm Z := gets (fun s => if current_vm s then vm_ptr s else 0).

(** The line of a segment register. *)
Definition log_segment (format : string) (line_ sel base limit right : Z) : M vmm unit :=
  log_values (chars format ++ [10]) line_ [field sel; field base; field limit; field right].

Definition dump_vm (vm_ : Z) : M vmm unit :=
  let! current := get_current_vm in
  assert (current =? vm_) ;;;
  log_values (chars "dump vm:0x%x(vpid:%d)" ++ [10]) (dump_line 0) [fun _ => vm_; fun s => vpid (vm s)] ;;;
  log_values (chars "   RAX:0x%x RBX:0x%x RCX:0x%x RDX:0x%x" ++ [10]) (dump_line 1) [gpr rax; gpr rbx; gpr rcx; gpr rdx] ;;;
  log_values (chars "   R15:0x%x R14:0x%x R13:0x%x, R12:0x%x" ++ [10]) (dump_line 2) [gpr r15; gpr r14; gpr r13; gpr r12] ;;;
  log_values (chars "   R11:0x%x R10:0x%x R9:0x%x R8:0x%x" ++ [10]) (dump_line 3) [gpr r11; gpr r10; gpr r9; gpr r8] ;;;
  log_values (chars "   RSI:0x%x RDI:0x%x RBP:0x%x RSP:0x%x" ++ [10]) (dump_line 4) [gpr rsi; gpr rdi; gpr rbp; field GUEST_RSP] ;;;
  log_values (chars "   CR0:0x%x CR2:0x%x CR3:0x%x CR4:0x%x" ++ [10]) (dump_line 5)
    [field GUEST_CR0; gpr cr2; field GUEST_CR3; field GUEST_CR4] ;;;
  log_values (chars "   RIP:0x%x RFLAGS:0x%x EFER:0x%x" ++ [10]) (dump_line 6)
    [field GUEST_RIP; field GUEST_RFLAG; field GUEST_IA32_EFER] ;;;
  log_segment "   CS  SELECTOR:0x%x BASE:0x%x, LIMIT:0x%x, ACCESS-RIGHT:0x%x" (dump_line 7)
    GUEST_CS_SELECTOR GUEST_CS_BASE GUEST_CS_LIMIT GUEST_CS_ACCESS_RIGHT ;;;
  log_segment "   DS  SELECTOR:0x%x BASE:0x%x, LIMIT:0x%x, ACCESS-RIGHT:0x%x" (dump_line 8)
    GUEST_DS_SELECTOR GUEST_DS_BASE GUEST_DS_LIMIT GUEST_DS_ACCESS_RIGHT ;;;
  log_segment "   ES  SELECTOR:0x%x BASE:0x%x, LIMIT:0x%x, ACCESS-RIGHT:0x%x" (dump_line 9)
    GUEST_ES_SELECTOR GUEST_ES_BASE GUEST_ES_LIMIT GUEST_ES_ACCESS_RIGHT ;;;
  log_segment "   FS  SELECTOR:0x%x BASE:0x%x, LIMIT:0x%x, ACCESS-RIGHT:0x%x" (dump_line 10)
    GUEST_FS_SELECTOR GUEST_FS_BASE GUEST_FS_LIMIT GUEST_FS_ACCESS_RIGHT ;;;
  log_segment "   GS  SELECTOR:0x%x BASE:0x%x, LIMIT:0x%x, ACCESS-RIGHT:0x%x" (dump_line 11)
    GUEST_GS_SELECTOR GUEST_GS_BASE GUEST_GS_LIMIT GUEST_GS_ACCESS_RIGHT ;;;
  log_segment "   SS  SELECTOR:0x%x BASE:0x%x, LIMIT:0x%x, ACCESS-RIGHT:0x%x" (dump_line 12)
    GUEST_SS_SELECTOR GUEST_SS_BASE GUEST_SS_LIMIT GUEST_SS_ACCESS_RIGHT ;;;
  log_segment "   LDTR SELECTOR:0x%x BASE:0x%x, LIMIT:0x%x, ACCESS-RIGHT:0x%x" (dump_line 13)
    GUEST_LDTR_SELECTOR GUEST_LDTR_BASE GUEST_LDTR_LIMIT GUEST_LDTR_ACCESS_RIGHT ;;;
  log_values (chars "   GDTR SELECTOR:NA BASE:0x%x, LIMIT:0x%x, ACCESS-RIGHT:NA" ++ [10]) (dump_line 14)
    [field GUEST_GDTR_BASE; field GUEST_GDTR_LIMIT] ;;;
  log_segment "   TR SELECTOR:0x%x BASE:0x%x, LIMIT:0x%x, ACCESS-RIGHT:0x%x" (dump_line 15)
    GUEST_TR_SELECTOR GUEST_TR_BASE GUEST_TR_LIMIT GUEST_TR_ACCESS_RIGHT ;;;
  log_values (chars "   IDTR SELECTOR:NA base:0x%x, LIMIT:0x%x, ACCESS-RIGHT:NA" ++ [10]) (dump_line 16)
    [field GUEST_IDTR_BASE; field GUEST_IDTR_LIMIT].

(** [PANIC_EXIT(exit)]: the dump, then an assertion that fails. *)
Definition PANIC_EXIT (vm_ : Z) : M vmm unit := dump_vm vm_ ;;; stop Halted.
End Code.

(** * Properties *)

(** ** The text of the dump *)
Abbreviation vm_item := (item (vmm -> Z)).
Definition segment_row (name : string) (sel base limit right : Z) : list vm_item * list Z :=
  ([((name ++ " SELECTOR:0x")%string, 120, field sel); (" BASE:0x"%string, 120, field base);
    (", LIMIT:0x"%string, 120, field limit); (", ACCESS-RIGHT:0x"%string, 120, field right)], [10]).
Definition table_row (name : string) (base limit : Z) : list vm_item * list Z :=
  ([((name ++ ":0x")%string, 120, field base); (", LIMIT:0x"%string, 120, field limit)], chars ", ACCESS-RIGHT:NA" ++ [10]).

Definition vm_rows (vm_ : Z) : list (list vm_item * list Z) := [
  ([("dump vm:0x"%string, 120, fun _ => vm_); ("(vpid:"%string, 100, fun s => vpid (vm s))], chars ")" ++ [10]);
  ([("   RAX:0x"%string, 120, gpr rax); (" RBX:0x"%string, 120, gpr rbx); (" RCX:0x"%string, 120, gpr rcx); (" RDX:0x"%string, 120, gpr rdx)], [10]);
  ([("   R15:0x"%string, 120, gpr r15); (" R14:0x"%string, 120, gpr r14); (" R13:0x"%string, 120, gpr r13); (", R12:0x"%string, 120, gpr r12)], [10]);
  ([("   R11:0x"%string, 120, gpr r11); (" R10:0x"%string, 120, gpr r10); (" R9:0x"%string, 120, gpr r9); (" R8:0x"%string, 120, gpr r8)], [10]);
  ([("   RSI:0x"%string, 120, gpr rsi); (" RDI:0x"%string, 120, gpr rdi); (" RBP:0x"%string, 120, gpr rbp); (" RSP:0x"%string, 120, field GUEST_RSP)], [10]);
  ([("   CR0:0x"%string, 120, field GUEST_CR0); (" CR2:0x"%string, 120, gpr cr2); (" CR3:0x"%string, 120, field GUEST_CR3);
    (" CR4:0x"%string, 120, field GUEST_CR4)], [10]);
  ([("   RIP:0x"%string, 120, field GUEST_RIP); (" RFLAGS:0x"%string, 120, field GUEST_RFLAG); (" EFER:0x"%string, 120, field GUEST_IA32_EFER)], [10]);
  segment_row "   CS " GUEST_CS_SELECTOR GUEST_CS_BASE GUEST_CS_LIMIT GUEST_CS_ACCESS_RIGHT;
  segment_row "   DS " GUEST_DS_SELECTOR GUEST_DS_BASE GUEST_DS_LIMIT GUEST_DS_ACCESS_RIGHT;
  segment_row "   ES " GUEST_ES_SELECTOR GUEST_ES_BASE GUEST_ES_LIMIT GUEST_ES_ACCESS_RIGHT;
  segment_row "   FS " GUEST_FS_SELECTOR GUEST_FS_BASE GUEST_FS_LIMIT GUEST_FS_ACCESS_RIGHT;
  segment_row "   GS " GUEST_GS_SELECTOR GUEST_GS_BASE GUEST_GS_LIMIT GUEST_GS_ACCESS_RIGHT;
  segment_row "   SS " GUEST_SS_SELECTOR GUEST_SS_BASE GUEST_SS_LIMIT GUEST_SS_ACCESS_RIGHT;
  segment_row "   LDTR" GUEST_LDTR_SELECTOR GUEST_LDTR_BASE GUEST_LDTR_LIMIT GUEST_LDTR_ACCESS_RIGHT;
  table_row "   GDTR SELECTOR:NA BASE" GUEST_GDTR_BASE GUEST_GDTR_LIMIT;
  segment_row "   TR" GUEST_TR_SELECTOR GUEST_TR_BASE GUEST_TR_LIMIT GUEST_TR_ACCESS_RIGHT;
  table_row "   IDTR SELECTOR:NA base" GUEST_IDTR_BASE GUEST_IDTR_LIMIT ].

Definition debug_text (line_ : Z) (body : list Z) : list Z :=
  chars "[debug] " ++ VM_FILE ++ [58] ++ decimal line_ ++ [32] ++ body.
(** Row [i] on, row [i] logged by the macro call in line [dump_line i]. *)
Fixpoint rows_text (dump_line : Z -> Z) (s : vmm) (i : Z) (rows : list (list vm_item * list Z)) : list Z :=
  match rows with
  | [] => []
  | (row, eol) :: rows => debug_text (dump_line i) (row_text (fun f => f s) eol row) ++ rows_text dump_line s (i + 1) rows
  end.
Definition vm_text (dump_line : Z -> Z) (vm_ : Z) (s : vmm) : list Z := rows_text dump_line s 0 (vm_rows vm_).

(** ** Logging *)
Section Theory.
Context (__log_level file : Z) (dump_line : Z -> Z) (s0 : vmm).
(** The state in which [t] was logged since [s0]. *)
Definition logged (t : list Z) : vmm :=
  s0 <| console ::= fun c => c ++ (if __log_level <=? LOG_DEBUG_LEVEL then u8 <$> t else []) |>.

Lemma logged_nil : logged [] = s0.
Proof using.
  unfold logged. assert (E : (if __log_level <=? LOG_DEBUG_LEVEL then u8 <$> [] else []) = []) by by case_match.
  rewrite E. destruct s0. cbv [update]. cbn. by rewrite app_nil_r.
Qed.

Definition silent (i : vm_item) : Prop := forall t, snd i (logged t) = snd i s0.

Lemma silent_values row t : Forall silent row -> (fun f => f (logged t)) <$> map snd row = (fun f => f s0) <$> map snd row.
Proof using. induction 1 as [|i row Hi _ IH]; [done|]. cbn [map]. rewrite !fmap_cons, IH. by rewrite Hi. Qed.

Hypothesis Hfile : string_at (k_mem (kern s0)) file VM_FILE.
Hypothesis Hlines : forall i, 0 <= dump_line i < 2 ^ 31.

Lemma log_row format eol row i t : format = flatten (row_pieces eol row) -> plain_eol eol = true -> forallb item_ok row = true ->
  plain_text format = true -> Forall silent row ->
  log_values __log_level file format (dump_line i) (map snd row) (logged t) =
    Ret (tt, logged (t ++ debug_text (dump_line i) (row_text (fun f => f s0) eol row))).
Proof using Hfile Hlines.
  intros -> He Hok Hp Hs. unfold log_values. rewrite bind_gets, silent_values by done. unfold LOG_DEBUG, logged at 2.
  destruct (__log_level <=? LOG_DEBUG_LEVEL) eqn:El; [|unfold logged; by rewrite El].
  set (all := Lit (chars "[debug] ") :: Dir 115 :: Lit [58] :: Dir 100 :: Lit [32] :: row_pieces eol row).
  change (chars "[debug] %s:%d " ++ flatten (row_pieces eol row)) with (flatten all).
  unfold vmm_printk. change (k_mem (kern (logged t))) with (k_mem (kern s0)).
  rewrite (printk_run (flatten all) _ (debug_text (dump_line i) (row_text (fun f => f s0) eol row)) {[file := VM_FILE]}).
  - unfold logged. rewrite El. cbv [update]. cbn [con_out console]. by rewrite fmap_app, <- app_assoc.
  - lia.
  - eapply Forall_impl; [apply printable_plain; exact Hp|]. unfold printable. intros x. cbv beta. lia.
  - apply map_Forall_singleton. split; [exact Hfile|]. unfold_consts. cbn. lia.
  - rewrite render_pieces by exact (row_pieces_ok eol row He Hok). unfold all. cbn [pieces_text hd tl].
    change (directive_text {[file := VM_FILE]} 115 file) with (({[file := VM_FILE]} : gmap Z (list Z)) !! file).
    rewrite lookup_singleton_eq, directive_small_decimal by done. cbn [mbind option_bind].
    by rewrite row_pieces_text.
Qed.

(** A sequence of rows. *)
Definition log_one (i : Z) (x : list vm_item * list Z) : M vmm unit :=
  log_values __log_level file (flatten (row_pieces (snd x) (fst x))) (dump_line i) (map snd (fst x)).
Fixpoint log_rows (i : Z) (x : list vm_item * list Z) (rows : list (list vm_item * list Z)) : M vmm unit :=
  match rows with
  | [] => log_one i x
  | y :: rows => log_one i x ;;; log_rows (i + 1) y rows
  end.
Definition row_ok (x : list vm_item * list Z) : bool :=
  plain_eol (snd x) && forallb item_ok (fst x) && plain_text (flatten (row_pieces (snd x) (fst x))).

Lemma log_one_run i x t : row_ok x = true -> Forall silent (fst x) ->
  log_one i x (logged t) = Ret (tt, logged (t ++ debug_text (dump_line i) (row_text (fun f => f s0) (snd x) (fst x)))).
Proof using Hfile Hlines.
  unfold row_ok. rewrite !andb_true_iff. intros [[H1 H2] H3] Hs. unfold log_one. apply (log_row _ (snd x) (fst x)); [reflexivity|exact H1|exact H2|exact H3|exact Hs].
Qed.

Lemma log_rows_run rows : forall i x t, forallb row_ok (x :: rows) = true -> Forall (fun x => Forall silent (fst x)) (x :: rows) ->
  log_rows i x rows (logged t) = Ret (tt, logged (t ++ rows_text dump_line s0 i (x :: rows))).
Proof using Hfile Hlines.
  induction rows as [|y rows IH]; intros i x t Hok Hs; cbn [forallb] in Hok; apply andb_true_iff in Hok as [Hx Hok];
    apply Forall_cons in Hs as [Hsx Hs]; cbn [log_rows].
  - rewrite log_one_run by done. destruct x as [row eol]. cbn [rows_text fst snd]. by rewrite app_nil_r.
  - run_with (log_one_run i x t Hx Hsx). rewrite IH by done. destruct x as [row eol]. cbn [rows_text fst snd].
    by rewrite <- app_assoc.
Qed.
End Theory.

Lemma rows_silent lvl s vm_ : Forall (fun x => Forall (silent lvl s) (fst x)) (vm_rows vm_).
Proof.
  unfold vm_rows.
  repeat (apply Forall_cons_2; [repeat (apply Forall_cons_2; [intros t; reflexivity|]); apply Forall_nil_2|]).
  apply Forall_nil_2.
Qed.

(** The code is the table of rows. *)
Lemma dump_vm_rows lvl file dump_line vm_ :
  dump_vm lvl file dump_line vm_ =
  (let! current := get_current_vm in
   assert (current =? vm_) ;;; log_rows lvl file dump_line 0 (hd ([], []) (vm_rows vm_)) (tl (vm_rows vm_))).
Proof. reflexivity. Qed.

(** The dump of the current VM writes its registers to the console, one line per
    row, and changes nothing else; [vm_] must be the current VM, or the monitor
    halts. *)
Theorem dump_vm_text lvl file dump_line vm_ s : string_at (k_mem (kern s)) file VM_FILE ->
  (forall i, 0 <= dump_line i < 2 ^ 31) ->
  dump_vm lvl file dump_line vm_ s =
    if (if current_vm s then vm_ptr s else 0) =? vm_ then
      Ret (tt, s <| console ::= fun c => c ++ (if lvl <=? LOG_DEBUG_LEVEL then u8 <$> vm_text dump_line vm_ s else []) |>)
    else Stop Halted.
Proof.
  intros Hf Hl. rewrite dump_vm_rows. unfold get_current_vm. rewrite bind_gets.
  destruct (_ =? vm_); [|done]. rewrite assert_run by done. rewrite <- (logged_nil lvl s) at 1.
  rewrite (log_rows_run lvl file dump_line s Hf Hl); [reflexivity|reflexivity|].
  apply rows_silent.
Qed.

(** [PANIC_EXIT] as the handlers of [Exit] have it: whatever the state, its
    expansion ends in a halted processor. *)
Theorem PANIC_EXIT_halts lvl file dump_line vm_ s : string_at (k_mem (kern s)) file VM_FILE ->
  (forall i, 0 <= dump_line i < 2 ^ 31) -> PANIC_EXIT lvl file dump_line vm_ s = Vmm.PANIC_EXIT s.
Proof.
  intros Hf Hl. unfold PANIC_EXIT, bind. rewrite dump_vm_text by done. by destruct (_ =? vm_).
Qed.
