(* ===== verification/Boot.v ===== *)
(** * Boot: the kernel from its loader to the monitor ([init/kernel_main.c],
    [init/lapic_timer.c], [x86_64/cpuid.c], [vm_monitor/vmx_misc.c], and the
    registration of [device/keyboard.c]).

    The parts of the kernel, each with its own state, meet in one processor over one
    memory. The main result follows [kernel_main] from the state its constructors
    leave to the point where a virtual machine can be brought up. *)
From Stdlib Require Import ZArith Lia.
From stdpp Require Import base tactics list numbers gmap.
From S2P Require Import Prelude Memory PhysicalMemory Radix Paging PagingInit Ept.
From S2P Require Import Ring SortSearch Vmm Registry Devices Event Schedule Decode Exit Vmcs BringUp.
From S2P Require Import Apic Descriptors Percpu.
Local Open Scope Z_scope.

(** ** The processor

    [mon] holds the monitor's state and, in it, the kernel's: memory, allocator and
    page table. The other parts see that memory when their code runs. *)
Record vmx_state := VmxState { feature_control : Z * Z; control0 : Z; control4 : Z; root_operation : bool }.
#[export] Instance eta_vmx_state : Eta vmx_state := fun v =>
  VmxState (feature_control v) (control0 v) (control4 v) (root_operation v).

Record host (St : Type) := Host {
  mon : vmm; desc : tables; cpus : processors; board : St; host_cr3 : Z; vmx : vmx_state }.
Arguments Host {St} mon desc cpus board host_cr3 vmx.
Arguments mon {St} _.
Arguments desc {St} _.
Arguments cpus {St} _.
Arguments board {St} _.
Arguments host_cr3 {St} _.
Arguments vmx {St} _.

Definition hkern {St} (s : host St) : kernel := kern (mon s).
Definition hmem {St} (s : host St) : memory := k_mem (hkern s).
Definition set_kern {St} (k : kernel) (s : host St) : host St :=
  Host ((mon s) <| kern := k |>) (desc s) (cpus s) (board s) (host_cr3 s) (vmx s).
Definition set_hmem {St} (m : memory) (s : host St) : host St :=
  set_kern (Kernel m (k_phys (hkern s)) (pml4_base (hkern s))) s.

(** Where the linker put the kernel's arrays and functions. *)
Record symbols := Symbols {
  gdt_entries : Z; tss_array : Z; interrupt_desc_table : Z; int_entry : Z -> Z;
  pls_blob : Z; image_end : Z; local_apic_timer : Z; keyboard_device_interrupt_handler : Z }.

Definition CPUID_FEAT_EDX_MSR : Z := Z.shiftl 1 5.
Definition CPUID_FEAT_EDX_APIC : Z := Z.shiftl 1 9.
Definition CPUID_FEAT_ECX_VMX : Z := Z.shiftl 1 5.
Definition IRQ_KEYBOARD_VECTOR : Z := 33.
Definition VMXON_LOCK_FLAG : Z := 0x1.
Definition VMXON_ENABLE_FLAG : Z := 0x4.
Definition VMX_ENABLE_FLAG : Z := Z.shiftl 1 13.

Section Kernel.
Context {St : Type} `{Chips St} (sym : symbols) (CPUID : Z -> Z -> cpuid_regs) (e : host_env) (fuel : nat).

Definition on_mon {A} (c : M vmm A) : M (host St) A :=
  zoom mon (fun v s => Host v (desc s) (cpus s) (board s) (host_cr3 s) (vmx s)) c.
Definition on_kern {A} (c : M kernel A) : M (host St) A := zoom hkern set_kern c.
Definition on_desc {A} (c : M tables A) : M (host St) A :=
  zoom (fun s => with_tmem (desc s) (hmem s))
    (fun t s => let s := set_hmem (t_mem t) s in Host (mon s) t (cpus s) (board s) (host_cr3 s) (vmx s)) c.
Definition on_cpus {A} (c : M processors A) : M (host St) A :=
  zoom (fun s => (cpus s) <| p_mem := hmem s |>)
    (fun p s => let s := set_hmem (p_mem p) s in Host (mon s) (desc s) p (board s) (host_cr3 s) (vmx s)) c.
Definition on_platform {A} (c : M (platform St) A) : M (host St) A :=
  zoom (fun s => Platform (hkern s) (board s))
    (fun p s => let s := set_kern (pk p) s in Host (mon s) (desc s) (cpus s) (chips p) (host_cr3 s) (vmx s)) c.
Definition on_board {A} (c : M St A) : M (host St) A :=
  zoom board (fun b s => Host (mon s) (desc s) (cpus s) b (host_cr3 s) (vmx s)) c.
Definition on_vmx {A} (c : M vmx_state A) : M (host St) A :=
  zoom vmx (fun v s => Host (mon s) (desc s) (cpus s) (board s) (host_cr3 s) v) c.

(** ** [cpuid.c]: without both features the kernel stops. *)
Definition check_basic_cpu_features (c : Z) : M (host St) unit :=
  (if truthy (Z.land (u32 (cpuid_edx (CPUID c 1))) CPUID_FEAT_EDX_MSR) then ret tt else stop Halted) ;;;
  (if truthy (Z.land (u32 (cpuid_edx (CPUID c 1))) CPUID_FEAT_EDX_APIC) then ret tt else stop Halted).

(** ** [kernel_main.c], on processor [c] *)

(** [pre_init]: the functions whose addresses lie between two symbols. *)
Definition pre_init (code : Z -> M (host St) unit) (start_addr end_addr : Z) : M (host St) unit :=
  mfor (Z.to_nat ((end_addr - start_addr + 7) / 8)) 0 (fun i =>
    let! m := gets hmem in
    code (load64 m (start_addr + 8 * i))).

(** [ap_paging_init], and the end of [paging_init]. *)
Definition load_cr3 : M (host St) unit :=
  modify (fun s => Host (mon s) (desc s) (cpus s) (board s) (pml4_base (hkern s)) (vmx s)).

Definition init0 (c : Z) : M (host St) unit :=
  on_desc (gdt64_init (gdt_entries sym) (tss_array sym)) ;;;
  on_desc (load_pl0_task (cpu (CPUID c))) ;;;
  on_kern (physical_memory_init (image_end sym)) ;;;
  on_kern paging_init ;;;
  load_cr3.

(** [check_x2apic_mode] only records a flag that nothing reads. *)
Definition init1 (c : Z) : M (host St) unit :=
  check_basic_cpu_features c ;;;
  on_platform local_apic_init ;;;
  on_platform io_apic_init ;;;
  on_desc (interrupt_init (interrupt_desc_table sym) (int_entry sym)) ;;;
  on_board (start_other_processors fuel) ;;;
  on_cpus (processor_local_storage_init (pls_blob sym) CPUID c).

(** [lapic_timer.c] and the end of [device/keyboard.c]. *)
Definition lapic_timer_init : M (host St) unit :=
  on_desc (register_interrupt_handler (IRQ_BASE + IRQ_TIMER) (local_apic_timer sym)).
Definition keyboard_init : M (host St) unit :=
  on_desc (register_interrupt_handler IRQ_KEYBOARD_VECTOR (keyboard_device_interrupt_handler sym)) ;;;
  on_board (ioapic_redirect_entry 1 0).
Definition init2 : M (host St) unit :=
  lapic_timer_init ;;;
  keyboard_init.

(** ** [vmx_misc.c] *)
Definition is_vmx_support (c : Z) : bool := truthy (Z.land (u32 (cpuid_ecx (CPUID c 1))) CPUID_FEAT_ECX_VMX).

(** [IA32_FEATURE_CONTROL]: once locked it cannot be written. *)
Definition enable_vmxon : M vmx_state unit :=
  let! fc := gets feature_control in
  (if truthy (Z.land (fst fc) VMXON_LOCK_FLAG) then assert (truthy (Z.land (fst fc) VMXON_ENABLE_FLAG))
   else modify (fun v => v <| feature_control :=
     (Z.lor (Z.lor (fst fc) VMXON_LOCK_FLAG) VMXON_ENABLE_FLAG, snd fc) |>)) ;;;
  let! fc := gets feature_control in
  assert (truthy (Z.land (fst fc) VMXON_ENABLE_FLAG)).

Definition set_control_bits : M vmx_state unit :=
  modify (fun v => v <| control0 ::= fun x => Z.lor x 0x20 |>) ;;;
  modify (fun v => v <| control4 ::= fun x => Z.lor x VMX_ENABLE_FLAG |>).

(** The [vmxon] instruction: it faults unless [CR4.VMXE], [CR0.NE] and both bits of
    the feature control are set, fails in VMX operation and on a region that is not
    a page with the processor's revision, and answers whether it succeeded. *)
Definition vmxon (region : Z) : M (host St) bool := fun s =>
  let v := vmx s in
  if negb (Z.testbit (control4 v) 13 && Z.testbit (control0 v) 5 && Z.testbit (fst (feature_control v)) 0 &&
           Z.testbit (fst (feature_control v)) 2) then Stop ProtectionFault
  else if negb (root_operation v) && (region mod PAGE_SIZE_4K =? 0) &&
          (load32 (hmem s) region =? Z.land (lo32 e IA32_VMX_BASIC_MSR) 0x7fffffff)
  then on_vmx (modify (fun v => v <| root_operation := true |>) ;;; ret true) s
  else Ret (false, s).

Definition enter_vmx_operation : M (host St) unit :=
  let! revision_id := on_mon (get_vmx_revision_id e) in
  let! vmxon_region := on_kern get_physical_page in
  let! vmxon_region_pa := on_kern (gets (fun k => pa k vmxon_region)) in
  assert (truthy vmxon_region) ;;;
  on_kern (modify (fun k => k <| k_mem ::= fun m => memset m vmxon_region 0x0 PAGE_SIZE_4K |>)) ;;;
  on_kern (modify (fun k => k <| k_mem ::= fun m => store32 m vmxon_region revision_id |>)) ;;;
  let! successfull := vmxon vmxon_region_pa in
  assert successfull.

Definition vm_monitor_init (c : Z) : M (host St) unit :=
  if negb (is_vmx_support c) then ret tt else
  on_vmx enable_vmxon ;;;
  on_vmx set_control_bits ;;;
  enter_vmx_operation ;;;
  on_mon vm_monitor_init_devices.

(** What the monitor reads of the processor: the registers and tables as the kernel
    has loaded them. *)
Definition processor_now (s : host St) : host_env :=
  HostEnv (msr_eax e) (msr_edx e) (control0 (vmx s)) (host_cr3 s) (control4 (vmx s)) (snd (idtr (desc s)))
    (snd (gdtr (desc s))) (tss_array sym) (vm_exit_handler e) (_guest64_start e) (_guest64_end e)
    (vmptrld_rflag e) (vmlaunch_enters e).

(** [init3] launches the guest, or stops: what follows it in [kernel_main] is never
    reached. *)
Definition init3 (c : Z) : M (host St) Z :=
  vm_monitor_init c ;;;
  let! e := gets processor_now in
  on_mon (start_vm e).
Definition kernel_main (c : Z) (code : Z -> M (host St) unit) (start_addr end_addr : Z) : M (host St) Z :=
  pre_init code start_addr end_addr ;;;
  init0 c ;;;
  init1 c ;;;
  init2 ;;;
  init3 c.

Definition kernel_ap_main (c : Z) : M (host St) unit :=
  on_desc (load_gdt (gdt_entries sym)) ;;;
  load_cr3 ;;;
  on_platform local_apic_ap_init ;;;
  on_desc (load_idt (interrupt_desc_table sym)) ;;;
  on_cpus (processor_local_storage_ap_init (pls_blob sym) CPUID c).
End Kernel.

(** ** The kernel's memory in order *)

(** The first page the allocator hands out: the image, the bitmap and one page. *)
Definition first_page (sym : symbols) : Z := image_end sym + 2 ^ 21 + PAGE_SIZE_4K.
Definition GDT_BYTES : Z := 5 * GDT_ENTRY_SIZE + GDT_TSS_ENTRY_SIZE * MAX_NR_CPUS.
Definition IDT_BYTES : Z := 256 * GATE_SIZE.
Definition PLS_BYTES : Z := MAX_NR_CPUS * CPU_LOCAL_AREA_SIZE.

Definition apart (a n b k : Z) : Prop := a + n <= b \/ b + k <= a.
(** The arrays are in the image, which starts at 1 MiB, and do not meet. *)
Record layout_ok (sym : symbols) : Prop := {
  ly_end : image_end sym mod PAGE_SIZE_4K = 0 /\ image_end sym <= 2 ^ 30;
  ly_gdt : 0x100000 <= gdt_entries sym /\ gdt_entries sym + GDT_BYTES <= image_end sym;
  ly_idt : 0x100000 <= interrupt_desc_table sym /\ interrupt_desc_table sym + IDT_BYTES <= image_end sym;
  ly_pls : 0x100000 <= pls_blob sym /\ pls_blob sym + PLS_BYTES <= image_end sym;
  ly_tss : 0x100000 <= tss_array sym /\ tss_array sym + TSS_SIZE * MAX_NR_CPUS <= image_end sym;
  ly_gdt_idt : apart (gdt_entries sym) GDT_BYTES (interrupt_desc_table sym) IDT_BYTES;
  ly_gdt_pls : apart (gdt_entries sym) GDT_BYTES (pls_blob sym) PLS_BYTES;
  ly_idt_pls : apart (interrupt_desc_table sym) IDT_BYTES (pls_blob sym) PLS_BYTES;
  ly_entries : forall v, 0 <= v < 256 -> 0 <= int_entry sym v < 2 ^ 64 }.

(** A change of memory below the tables, or in pages not handed out yet, leaves the
    address space as it is. *)
Lemma kernel_write low k k' : tables_above low k -> kernel_ok k' -> next_page k <= next_page k' ->
  pml4_base k' = pml4_base k ->
  (forall b, low <= b < next_page k -> rd8 (k_mem k') b = rd8 (k_mem k) b) ->
  tables_above low k' /\ forall b, 0 <= b < VA_LIMIT -> kleaf k' b = kleaf k b.
Proof.
  intros [(T & Hi & Ha) Hl] Hok Hn Hb Hm.
  destruct (tables_frame k k' T Hi Hok Hn Hb) as [Hi' Hleaf].
  { intros b (p & l & x & Hp & Hin). apply Hm. pose proof (Ha p _ Hp). pose proof (pi_below _ _ Hi _ _ _ Hp). lia. }
  split; [|done]. split; [by exists T|lia].
Qed.

Lemma segments_same n m m' p : (forall b, p <= b < p + SEGMENT_SIZE * (Z.of_nat n + 1) -> rd8 m' b = rd8 m b) ->
  memory_list n m p -> memory_list n m' p /\ segments n m' p = segments n m p.
Proof.
  assert (Hseg : forall p, (forall b, p <= b < p + SEGMENT_SIZE -> rd8 m' b = rd8 m b) ->
    read_segment m' p = read_segment m p).
  { intros q Hq. unfold SEGMENT_SIZE in Hq. unfold read_segment, load64, load32.
    f_equal; apply load_ext; intros b Hb; apply Hq; lia. }
  revert p. induction n as [|n IH]; intros p Hm; cbn [memory_list segments].
  - intros Hl. rewrite Hseg; [done|]. intros b Hb. apply Hm. lia.
  - intros [Hz Hl]. rewrite Hseg by (intros b Hb; apply Hm; unfold SEGMENT_SIZE in *; lia).
    destruct (IH (p + SEGMENT_SIZE)) as [Hl' ->]; [intros b Hb; apply Hm; unfold SEGMENT_SIZE in *; lia|done|].
    done.
Qed.

(** A sequence that runs, and what comes after it. *)
Lemma runs_sequence {S A} (c0 c1 c2 c3 : M S unit) (k : M S A) s (I : S -> Prop) (Q : A -> S -> Prop) :
  runs (c0 ;;; c1 ;;; c2 ;;; c3) s (fun _ => I) -> (forall s', I s' -> runs k s' Q) ->
  runs (c0 ;;; c1 ;;; c2 ;;; c3 ;;; k) s Q.
Proof.
  intros (u & s' & E & HI) Hk. apply bind_Ret in E as ([] & s1 & E0 & E). apply bind_Ret in E as ([] & s2 & E1 & E).
  apply bind_Ret in E as ([] & s3 & E2 & E3). destruct (Hk _ HI) as (a & s4 & E4 & HQ).
  exists a, s4. unfold bind. by rewrite E0, E1, E2, E3 by done.
Qed.

Lemma in_take_next {A} (l : list A) (i : nat) a b : l !! i = Some a -> b ∈ take (S i) l -> b = a \/ b ∈ take i l.
Proof. intros Ha. rewrite (take_S_r _ _ a Ha), elem_of_app, list_elem_of_singleton. tauto. Qed.

Section Theory.
Context {St : Type} {delay : nat} {shows : St -> chipset -> Prop} `{Hspec : ChipsSpec St delay shows}.
Context (sym : symbols) (CPUID : Z -> Z -> cpuid_regs) (e : host_env) (fuel : nat).
Hypothesis Hlay : layout_ok sym.
Hypothesis Hcpu : forall c, 0 <= c < MAX_NR_CPUS -> cpu_on CPUID c = c.

Abbreviation host := (host St).
Abbreviation low := (first_page sym).

(** *** Running a part of the machine

    [at_] spells out a machine: the rest of the monitor, the kernel, the tables, the
    local storage, the chips, [cr3] and the virtualisation state. *)
Definition at_ (v : vmm) (k : kernel) (t : tables) (p : processors) (b : St) (r : Z) (x : vmx_state) : host :=
  Host (v <| kern := k |>) t p b r x.
Definition over (k : kernel) (m : memory) : kernel := Kernel m (k_phys k) (pml4_base k).

Lemma at_start (s : host) : s = at_ (mon s) (hkern s) (desc s) (cpus s) (board s) (host_cr3 s) (vmx s).
Proof using. by destruct s as [[]]. Qed.

Lemma on_desc_runs {A} (c : M tables A) v k t p b r x (Q : A -> host -> Prop) :
  runs c (with_tmem t (k_mem k)) (fun a t' => Q a (at_ v (over k (t_mem t')) t' p b r x)) ->
  runs (on_desc c) (at_ v k t p b r x) Q.
Proof using. intros E. apply runs_zoom. destruct v. exact E. Qed.

Lemma on_cpus_runs {A} (c : M processors A) v k t p b r x (Q : A -> host -> Prop) :
  runs c (p <| p_mem := k_mem k |>) (fun a p' => Q a (at_ v (over k (p_mem p')) t p' b r x)) ->
  runs (on_cpus c) (at_ v k t p b r x) Q.
Proof using. intros E. apply runs_zoom. destruct v. exact E. Qed.

Lemma on_kern_runs {A} (c : M kernel A) v k t p b r x (Q : A -> host -> Prop) :
  runs c k (fun a k' => Q a (at_ v k' t p b r x)) -> runs (on_kern c) (at_ v k t p b r x) Q.
Proof using. intros E. apply runs_zoom. destruct v. exact E. Qed.

Lemma on_platform_runs {A} (c : M (platform St) A) v k t p b r x (Q : A -> host -> Prop) :
  runs c (Platform k b) (fun a q => Q a (at_ v (pk q) t p (chips q) r x)) ->
  runs (on_platform c) (at_ v k t p b r x) Q.
Proof using. intros E. apply runs_zoom. destruct v. exact E. Qed.

Lemma on_board_runs {A} (c : M St A) v k t p b r x (Q : A -> host -> Prop) :
  runs c b (fun a b' => Q a (at_ v k t p b' r x)) -> runs (on_board c) (at_ v k t p b r x) Q.
Proof using. intros E. apply runs_zoom. exact E. Qed.

Lemma load_cr3_runs v k t p b r x (Q : unit -> host -> Prop) :
  Q tt (at_ v k t p b (pml4_base k) x) -> runs load_cr3 (at_ v k t p b r x) Q.
Proof using. intros E. apply runs_modify. destruct v. exact E. Qed.

(** *** [init0] *)
Definition detected (n : nat) (k : kernel) : phys_state :=
  fold_left (fun p seg => detect_segment seg p) (segments n (k_mem k) MEMORY_LIST_LONG_MODE_BASE) (k_phys k).

(** The boot loader's list describes a low segment with enough pages above the image:
    eleven for the kernel, and those of a VM. *)
Definition KERNEL_PAGES : Z := 4 + 6 + 1.
Record memory_ok (n : nat) (k : kernel) : Prop := {
  me_list : memory_list n (k_mem k) MEMORY_LIST_LONG_MODE_BASE;
  me_length : (n <= 171)%nat;
  me_phys : phys_ok ((detected n k) <| current_avail_page := low |>);
  me_low : addr_low4G (detected n k) <= low;
  me_room : low + (KERNEL_PAGES + BRING_UP_PAGES + 1) * PAGE_SIZE_4K <= addr_low4G (detected n k) + length_low4G (detected n k);
  me_ceiling : addr_low4G (detected n k) + length_low4G (detected n k) <= INITIAL_VA_CEILING }.

(** The task registers and descriptors; descriptor 0 has become busy. *)
Record task_ok (m : memory) (t : tables) : Prop := {
  ta_register : tr t = 0x28 /\ tr_base t = tss_array sym;
  ta_table : gdtr t = (GDT_SIZE - 1, gdt_entries sym);
  ta_descriptors : forall i, 1 <= i < MAX_NR_CPUS ->
    is_tss m (tss_descriptor (gdt_entries sym) i) (tss_array sym + i * TSS_SIZE) (TSS_SIZE - 1) }.

Definition outside_gdt (b : Z) : Prop := apart (gdt_entries sym) GDT_BYTES b 1.
(** The bytes of the image the kernel does not write while it starts. *)
Definition untouched (b : Z) : Prop :=
  b < image_end sym /\ outside_gdt b /\ apart (interrupt_desc_table sym) IDT_BYTES b 1 /\ apart (pls_blob sym) PLS_BYTES b 1.

Record after_init0 (n : nat) (k k' : kernel) (t' : tables) : Prop := {
  i0_tables : tables_above low k';
  i0_root : pml4_base k' = low;
  i0_phys : k_phys k' = (detected n k) <| current_avail_page := low + 4 * PAGE_SIZE_4K |>;
  i0_high : forall va, INITIAL_VA_CEILING <= va < VA_LIMIT -> kleaf k' va = Unmapped;
  i0_pa : forall va, 0 <= va < VA_LIMIT -> pa k' va = if va <? INITIAL_VA_CEILING then va else translation_error;
  i0_task : task_ok (k_mem k') t';
  i0_memory : forall b, b < image_end sym -> outside_gdt b -> rd8 (k_mem k') b = rd8 (k_mem k) b }.

Ltac layout := unfold outside_gdt, apart, GDT_BYTES, IDT_BYTES, PLS_BYTES, CPU_LOCAL_AREA_SIZE, GATE_SIZE, MAX_NR_CPUS,
  tss_descriptor, GDT_TSS_ENTRY_SIZE, GDT_ENTRY_SIZE in *; change TSS_SIZE with 104 in *; lia.

(** The task descriptors and the register of processor 0. *)
Lemma segments_loaded c v k t p b r x (Q : unit -> host -> Prop) :
  (forall m t', task_ok m t' -> (forall b, outside_gdt b -> rd8 m b = rd8 (k_mem k) b) ->
     runs c (at_ v (over k m) t' p b r x) Q) ->
  runs (on_desc (gdt64_init (gdt_entries sym) (tss_array sym)) ;;; on_desc (load_pl0_task (cpu (CPUID 0))) ;;; c)
    (at_ v k t p b r x) Q.
Proof using Hlay Hcpu.
  intros HQ. destruct Hlay as [[_ L1] L2 _ _ L5 _ _ _ _]. apply runs_bind, on_desc_runs.
  eapply runs_mono; [apply (gdt64_init_run (gdt_entries sym) (tss_array sym)); layout|].
  intros [] t1 (G1 & _ & O1 & T1). apply runs_bind, on_desc_runs. cbn [over k_mem]. rewrite with_tmem_same.
  change (cpu (CPUID 0)) with (cpu_on CPUID 0). rewrite Hcpu by by_compute.
  pose proof (load_pl0_task_run (gdt_entries sym) (tss_array sym) 0 t1 G1 T1 ltac:(by_compute)) as H2.
  eapply runs_mono; [exact H2|]. intros [] t2 ([R1 R2] & O2 & G2 & _). change (0 / 2) with 0 in *.
  apply (HQ (t_mem t2) t2).
  - split; [split; [exact R1|rewrite R2; lia]|congruence|]. intros i Hi.
    apply (is_tss_same (t_mem t1)); [|apply T1; lia]. intros b' Hb. apply O2. layout.
  - intros b' Hb. rewrite O2, O1 by layout. by destruct t.
Qed.
Lemma task_ok_frame m m' t : (forall b, gdt_entries sym <= b < gdt_entries sym + GDT_BYTES -> rd8 m' b = rd8 m b) ->
  task_ok m t -> task_ok m' t.
Proof using.
  intros Hm [R G D]. split; [done|done|]. intros i Hi. apply (is_tss_same m); [|by apply D].
  intros b Hb. apply Hm. layout.
Qed.

Lemma init0_runs n v k t p b r x : memory_ok n k ->
  runs (init0 sym CPUID 0) (at_ v k t p b r x) (fun _ s' => exists k' t',
    s' = at_ v k' t' p b (pml4_base k') x /\ after_init0 n k k' t').
Proof using Hlay Hcpu.
  intros [Hl Hn Hok Hlo Hhi _]. pose proof Hlay as [[L1 L1'] L2 _ _ _ _ _ _ _].
  unfold init0. apply segments_loaded. intros m t' Ht Hm.
  assert (Hlist : forall b, MEMORY_LIST_LONG_MODE_BASE <= b < MEMORY_LIST_LONG_MODE_BASE + SEGMENT_SIZE * (Z.of_nat n + 1) ->
    rd8 m b = rd8 (k_mem k) b).
  { intros b' Hb. apply Hm. unfold MEMORY_LIST_LONG_MODE_BASE, MEMORY_LIST_BASE, SEGMENT_SIZE in Hb. layout. }
  destruct (segments_same n _ _ _ Hlist Hl) as [Hl' Hseg].
  destruct (physical_memory_init_run n (image_end sym) (over k m) Hl' Hn ltac:(layout) L1) as (m2 & Hr2 & _ & Hout).
  apply runs_bind, on_kern_runs. eexists tt, _. split; [exact Hr2|].
  cbn [over k_mem k_phys pml4_base]. rewrite Hseg. fold (detected n k). fold low.
  set (k2 := Kernel m2 _ _).
  destruct (paging_init_run k2 Hok Hlo ltac:(unfold KERNEL_PAGES, BRING_UP_PAGES in Hhi; cbn; unfold_consts; lia)) as (k3 & T & Hr3 & Hi & Hb & Hnx & Hph & Hab & Hmem & Hun & Hpa).
  apply runs_bind, on_kern_runs. eexists tt, _. split; [exact Hr3|].
  apply load_cr3_runs. exists k3, t'. split; [done|]. 
  assert (Hm3 : forall b, b < image_end sym -> rd8 (k_mem k3) b = rd8 m b).
  { intros b' Hb'. rewrite Hmem, Hout; [done|by left|]. cbn. unfold first_page. unfold_consts. lia. }
  split.
  - split; [by exists T|]. rewrite Hnx. cbn. unfold_consts. lia.
  - exact Hb.
  - exact Hph.
  - exact Hun.
  - exact Hpa.
  - apply (task_ok_frame m); [|done]. intros b' Hb'. apply Hm3. layout.
  - intros b' Hb' Ho. by rewrite Hm3, Hm.
Qed.

(** *** The kernel after [init0]

    [boot_space]: the first 2 GiB and the two device pages, each mapped to itself. *)
Definition identity_2G (a : Z) : option Z := if a <? INITIAL_VA_CEILING then Some a else None.
Definition boot_space : Z -> option Z :=
  map_page (map_page identity_2G PAGE_SIZE_4K APIC_BASE APIC_BASE) PAGE_SIZE_4K IOAPIC_BASE IOAPIC_BASE.

(** The kernel's memory [used] pages later. *)
Record kernel_at (n : nat) (used : Z) (k0 k : kernel) : Prop := {
  ka_tables : tables_above low k;
  ka_phys : k_phys k = (detected n k0) <| current_avail_page := next_page k |>;
  ka_used : next_page k <= low + used * PAGE_SIZE_4K;
  ka_space : forall a, 0 <= a < VA_LIMIT -> aspace k a = boot_space a;
  ka_device : kleaf k APIC_BASE = Small (table_entry APIC_BASE) }.

(** Writing below the tables or above the allocator's mark keeps it. *)
Lemma kernel_at_write n used used' k0 k k' : kernel_at n used k0 k -> kernel_ok k' ->
  pml4_base k' = pml4_base k -> next_page k <= next_page k' <= low + used' * PAGE_SIZE_4K ->
  k_phys k' = (detected n k0) <| current_avail_page := next_page k' |> ->
  (forall b, low <= b < next_page k -> rd8 (k_mem k') b = rd8 (k_mem k) b) -> kernel_at n used' k0 k'.
Proof using.
  intros [K1 K2 K3 K4 K5] Hok Hr Hn Hp Hm.
  destruct (kernel_write low k k' K1 Hok (proj1 Hn) Hr Hm) as [Ht Hl].
  split; [done|done|lia| |].
  - intros a Ha. rewrite <- K4 by done. by rewrite !aspace_leaf, Hl.
  - by rewrite Hl by by_compute.
Qed.

Lemma kernel_ok_at n used k0 k : kernel_at n used k0 k -> kernel_ok k.
Proof using. intros [[(T & Hi & _) _] _ _ _ _]. apply Hi. Qed.

Lemma kernel_at_over n used k0 k m : kernel_at n used k0 k ->
  (forall b, low <= b -> rd8 m b = rd8 (k_mem k) b) -> kernel_at n used k0 (over k m).
Proof using.
  intros K Hm. apply (kernel_at_write n used used k0 k); [done|exact (kernel_ok_at _ _ _ _ K)|done|..].
  - destruct K as [_ _ K _ _]. change (next_page (over k m)) with (next_page k). lia.
  - apply K.
  - intros b Hb. apply Hm. lia.
Qed.

(** What the kernel built below its first page. *)
Record built (m : memory) (t : tables) (p : processors) : Prop := {
  bu_task : task_ok m t;
  bu_idt : idtr t = (IDT_BYTES - 1, interrupt_desc_table sym);
  bu_gates : forall i, 0 <= i < 256 -> is_gate m (interrupt_desc_table sym + i * GATE_SIZE) (int_entry sym i);
  bu_storage : initialised (pls_blob sym) [0] (p <| p_mem := m |>) }.

Lemma built_frame m m' t p : built m t p -> (forall b, b < low -> rd8 m' b = rd8 m b) -> built m' t p.
Proof using Hlay.
  pose proof Hlay as [_ L2 L3 L4 _ _ _ _ _]. intros [B1 B2 B3 B4] Hm.
  assert (Hle : image_end sym <= low) by (unfold first_page; unfold_consts; lia).
  split; [|done| |].
  - apply (task_ok_frame m); [|done]. intros b Hb. apply Hm. layout.
  - intros i Hi. apply (is_gate_same m); [|by apply B3]. intros b Hb. apply Hm. layout.
  - apply (initialised_frame _ [0] m m' (gs_base p) (kernel_gs_base p) (kernel_gs_base p)); [|exact B4].
    intros b Hb. apply Hm. layout.
Qed.

(** *** [init1] *)
Lemma on_platform_seq (c d : M (platform St) unit) (k : M host unit) (s : host) :
  (on_platform c ;;; on_platform d ;;; k) s = (on_platform (c ;;; d) ;;; k) s.
Proof using.
  unfold on_platform, zoom, bind. destruct s as [[] t p b r x]. cbn.
  destruct (c _) as [[[] [k1 b1]]|]; [|done]. cbn. by destruct (d _) as [[[] [k2 b2]]|].
Qed.

Definition features_ok : Prop :=
  truthy (Z.land (u32 (cpuid_edx (CPUID 0 1))) CPUID_FEAT_EDX_MSR) = true /\
  truthy (Z.land (u32 (cpuid_edx (CPUID 0 1))) CPUID_FEAT_EDX_APIC) = true.

Lemma check_basic_cpu_features_runs s (Q : unit -> host -> Prop) : features_ok -> Q tt s ->
  runs (check_basic_cpu_features CPUID 0) s Q.
Proof using. intros [F1 F2] HQ. unfold check_basic_cpu_features. rewrite F1, F2. by apply runs_bind, runs_ret, runs_ret. Qed.

(** The two requests that start the other processors. *)
Definition startup_ipis (target target' : Z) : list (Z * Z) :=
  [(target, Z.lor (Z.lor (Z.lor APIC_ICR_SHORTHAND_OTHER APIC_ICR_DELIVERY_INIT) APIC_ICR_TRIGGER_LEVEL)
              APIC_ICR_LEVEL_ASSERT);
   (target', Z.lor (Z.lor APIC_ICR_SHORTHAND_OTHER APIC_ICR_DELIVERY_STARTUP) (Z.shiftr AP_BOOT_BASE 12))].

(** The chips after both controllers are on. *)
Definition chips_ready (c0 c : chipset) : Prop :=
  apic_ready c0 c /\ max_entry c = max_entry c0 /\ forall i, 0 <= i <= max_entry c0 -> masked_entry c i.

Lemma controllers_runs n k0 v k t p b r x c0 (c : M host unit) (Q : unit -> host -> Prop) :
  memory_ok n k0 -> after_init0 n k0 k t -> located c0 -> shows b c0 ->
  (forall k' b' c', kernel_at n 10 k0 k' -> (forall a, a < low -> rd8 (k_mem k') a = rd8 (k_mem k) a) ->
     pml4_base k' = pml4_base k -> shows b' c' -> chips_ready c0 c' -> ipis c' = ipis c0 ->
     runs c (at_ v k' t p b' r x) Q) ->
  runs (on_platform local_apic_init ;;; on_platform io_apic_init ;;; c) (at_ v k t p b r x) Q.
Proof using Hspec.
  intros Hme [A1 _ A2 A3 A4 A5 A6] Hl Hs HQ. eapply runs_eq; [apply on_platform_seq|].
  assert (Hn : next_page k = low + 4 * PAGE_SIZE_4K) by (unfold next_page; by rewrite A2).
  apply runs_bind, on_platform_runs. eapply runs_mono; [apply (both_controllers_runs low (Platform k b) c0 A1)|].
  - apply A3. by_compute.
  - apply A3. by_compute.
  - destruct Hme as [_ _ _ M1 M2 _]. unfold room_for. cbn [pk]. rewrite Hn, A2. unfold KERNEL_PAGES, BRING_UP_PAGES in M2.
    cbn. unfold_consts. lia.
  - done.
  - done.
  - intros [] [k' b'] (T & [S1 S2] & [P1 P2] & Hsp & Hd & c' & Hc & Hr & Hi & Hm & He). cbn [pk chips] in *.
    apply HQ with c'; [|done|done|done|by split_and!|done]. split; [done| |rewrite Hn in P2; unfold_consts; lia| |exact Hd].
    + by rewrite P1, A2.
    + intros a Ha. rewrite Hsp by done. unfold boot_space, map_page. repeat case_decide; try done.
      unfold aspace, identity_2G. rewrite A4 by done. destruct (a <? INITIAL_VA_CEILING); [|done].
      rewrite decide_False; [done|]. change translation_error with (2 ^ 64 - 1). unfold VA_LIMIT in Ha. lia.
Qed.

(** The tables after [interrupt_init], over memory where only they changed. *)
Lemma gates_runs v k t p b r x (Q : unit -> host -> Prop) :
  (forall m t', only_at (interrupt_desc_table sym) IDT_BYTES (k_mem k) m -> idtr t' = (IDT_BYTES - 1, interrupt_desc_table sym) ->
     handlers t' = replicate 256 0 -> gdtr t' = gdtr t -> tr t' = tr t /\ tr_base t' = tr_base t ->
     (forall i, 0 <= i < 256 -> is_gate m (interrupt_desc_table sym + i * GATE_SIZE) (int_entry sym i)) ->
     Q tt (at_ v (over k m) t' p b r x)) ->
  runs (on_desc (interrupt_init (interrupt_desc_table sym) (int_entry sym))) (at_ v k t p b r x) Q.
Proof using Hlay.
  intros HQ. apply on_desc_runs.
  eapply runs_mono; [apply (interrupt_init_runs (interrupt_desc_table sym) (int_entry sym)); apply Hlay|].
  intros [] t' (I1 & I2 & _ & I4 & I5 & I6 & I7 & I8). apply HQ; try done.
Qed.

Lemma init1_runs n k0 v k t p b r x c0 :
  memory_ok n k0 -> after_init0 n k0 k t -> features_ok -> (delay < fuel)%nat ->
  initialised (pls_blob sym) [] (p <| p_mem := k_mem k |>) -> located c0 -> shows b c0 ->
  runs (init1 sym CPUID fuel 0) (at_ v k t p b r x) (fun _ s' => exists k' t' p' b' c' target target',
    s' = at_ v k' t' p' b' r x /\ kernel_at n 10 k0 k' /\ pml4_base k' = pml4_base k /\ built (k_mem k') t' p' /\
    (forall a, untouched a -> rd8 (k_mem k') a = rd8 (k_mem k) a) /\
    handlers t' = replicate 256 0 /\ shows b' c' /\ chips_ready c0 c' /\
    Z.land target 0xff000000 = 0 /\ Z.land target' 0xff000000 = 0 /\ ipis c' = ipis c0 ++ startup_ipis target target').
Proof using Hlay Hcpu Hspec.
  intros Hme A Hf Hfu Hst Hl Hs. pose proof Hlay as [[_ L1] L2 L3 L4 _ L6 L7 L8 _].
  pose proof (i0_task _ _ _ _ A) as Htask.
  assert (Hle : image_end sym <= low) by (unfold first_page; unfold_consts; lia).
  unfold init1. apply runs_bind, check_basic_cpu_features_runs; [done|]. eapply controllers_runs; try done.
  intros k1 b1 c1 K1 Hm1 Hr1 H1 Hc1 Hi1. apply runs_bind, gates_runs.
  intros m t' Hm Hidt Hh Hg Htr Hgates.
  assert (Hlow : forall a, a < low -> ~ (interrupt_desc_table sym <= a < interrupt_desc_table sym + IDT_BYTES) -> rd8 m a = rd8 (k_mem k) a).
  { intros a Ha Hn. rewrite Hm by lia. by apply Hm1. }
  apply runs_bind, on_board_runs.
  eapply runs_mono; [apply (start_other_processors_runs fuel b1 c1); [done|apply Hc1|done]|].
  intros [] b2 (c2 & target & target' & T1 & T2 & H2 & Hc2).
  apply on_cpus_runs. cbn [over k_mem].
  eapply runs_mono; [apply (processor_initialised (pls_blob sym) CPUID ltac:(layout) Hcpu [] 0)|].
  - by_compute.
  - eapply (initialised_frame _ _ (k_mem k)); [|exact Hst]. intros a Ha. apply Hlow; layout.
  - intros [] p' [Hin Hp']. cbn [p_mem update] in Hp'. unfold area in Hp'.
    exists (over k1 (p_mem p')), t', p', b2, c2, target, target'.
    assert (Hhigh : forall a, low <= a -> rd8 (p_mem p') a = rd8 (k_mem k1) a).
    { intros a Ha. rewrite Hp', Hm; [done|layout..]. }
    split_and!; [done|by apply kernel_at_over|done| | |done|done| |done|done|].
    + split; [|done| |by destruct p'].
      * destruct Htask as [R G D]. apply (task_ok_frame (k_mem k)); [|split; [|congruence|done]].
        { intros a Ha. rewrite Hp', Hlow; [done|layout..]. }
        by destruct Htr as [-> ->].
      * intros i Hi. apply (is_gate_same m); [|by apply Hgates]. intros a Ha. apply Hp'. layout.
    + intros a (U1 & _ & U3 & U4). cbn [over k_mem]. rewrite Hp', Hlow; [done|layout..].
    + destruct Hc1 as (A1 & X1 & E1). destruct (ready_commanded _ _ _ _ A1 Hc2) as [A2 I2].
      split; [done|]. unfold max_entry, masked_entry, red_low, red_high in *. by rewrite I2.
    + destruct Hc2 as (_ & -> & _). by rewrite Hi1.
Qed.

(** *** [kernel_ap_main]: an application processor with its own chips *)
Lemma load_gdt_runs v k t p b r x (Q : unit -> host -> Prop) :
  (forall t', gdtr t' = (GDT_SIZE - 1, gdt_entries sym) -> Q tt (at_ v k t' p b r x)) ->
  runs (on_desc (load_gdt (gdt_entries sym))) (at_ v k t p b r x) Q.
Proof using.
  intros HQ. apply on_desc_runs. unfold load_gdt. apply runs_bind, runs_modify, runs_bind, runs_gets. unfold runs.
  rewrite assert_run by reflexivity. cbn [snd]. rewrite Z.eqb_refl. eexists tt, _. split; [reflexivity|]. destruct k, t. by apply HQ.
Qed.
Lemma load_idt_runs v k t p b r x (Q : unit -> host -> Prop) :
  (forall t', idtr t' = (IDT_BYTES - 1, interrupt_desc_table sym) -> gdtr t' = gdtr t -> Q tt (at_ v k t' p b r x)) ->
  runs (on_desc (load_idt (interrupt_desc_table sym))) (at_ v k t p b r x) Q.
Proof using.
  intros HQ. apply on_desc_runs. unfold load_idt. apply runs_bind, runs_modify, runs_bind, runs_gets. unfold runs.
  rewrite assert_run by reflexivity. cbn [snd]. rewrite Z.eqb_refl. eexists tt, _. split; [reflexivity|]. destruct k, t. by apply HQ.
Qed.

(** What an application processor has done when it halts. *)
Record ap_started (n : nat) (used : Z) (k0 : kernel) (l : list Z) (c : Z) (c0 : chipset) (s s' : host) : Prop := {
  as_kernel : kernel_at n (used + 3) k0 (hkern s');
  as_cr3 : host_cr3 s' = pml4_base (hkern s) /\ pml4_base (hkern s') = pml4_base (hkern s);
  as_tables : gdtr (desc s') = (GDT_SIZE - 1, gdt_entries sym) /\ idtr (desc s') = (IDT_BYTES - 1, interrupt_desc_table sym);
  as_storage : initialised (pls_blob sym) (l ++ [c]) ((cpus s') <| p_mem := hmem s' |>);
  as_chips : shows (board s') (switched_on (pics_off c0));
  as_memory : forall a, a < low -> apart (area (pls_blob sym) c) CPU_LOCAL_AREA_SIZE a 1 -> rd8 (hmem s') a = rd8 (hmem s) a }.

Lemma ap_main_runs n used k0 l c c0 (s : host) :
  memory_ok n k0 -> kernel_at n used k0 (hkern s) -> used + 3 <= KERNEL_PAGES + BRING_UP_PAGES ->
  0 <= c < MAX_NR_CPUS -> initialised (pls_blob sym) l ((cpus s) <| p_mem := hmem s |>) -> located c0 -> shows (board s) c0 ->
  runs (kernel_ap_main sym CPUID c) s (fun _ => ap_started n used k0 l c c0 s).
Proof using Hlay Hcpu Hspec.
  intros [_ _ _ M1 M2 _] K Hu Hc Hst Hl Hs. pose proof Hlay as [[_ L1] L2 _ L4 _ _ _ _ _].
  assert (Hle : image_end sym <= low) by (unfold first_page; unfold_consts; lia).
  pose proof K as [K1 K2 K3 K4 K5].
  rewrite (at_start s) at 1. unfold kernel_ap_main. apply runs_bind, load_gdt_runs. intros t1 T1.
  apply runs_bind, load_cr3_runs. apply runs_bind, on_platform_runs.
  eapply runs_mono; [apply (local_apic_ap_init_runs low (Platform (hkern s) (board s)) c0 (table_entry APIC_BASE)); try done|].
  { pose proof (ta_low _ _ K1). unfold room_for. cbn [pk]. rewrite K2. cbn. change PAGE_SIZE_4K with 4096 in *. lia. }
  intros [] [k' b'] (I1 & [S1 S2] & [P1 P2] & Hk & Hsh). cbn [pk chips] in *.
  apply runs_bind, load_idt_runs. intros t2 T2 G2. apply on_cpus_runs.
  eapply runs_mono; [apply (ap_initialised (pls_blob sym) CPUID ltac:(layout) Hcpu l c); [done|]|].
  { eapply initialised_frame; [|exact Hst]. intros a Ha. apply S2. layout. }
  intros [] p' [Hin Hp]. cbn [p_mem update] in Hp.
  assert (Hm : forall a, low <= a -> rd8 (p_mem p') a = rd8 (k_mem k') a).
  { intros a Ha. apply Hp. unfold area. layout. }
  assert (Kk : kernel_at n (used + 3) k0 k').
  { split; [exact I1|by rewrite P1, K2|change PAGE_SIZE_4K with 4096 in *; lia| |by rewrite Hk by by_compute].
    intros a Ha. rewrite <- K4 by done. by rewrite !aspace_leaf, Hk. }
  split.
  - exact (kernel_at_over _ _ _ k' (p_mem p') Kk Hm).
  - by split.
  - split; [exact (eq_trans G2 T1)|exact T2].
  - by destruct p'.
  - exact Hsh.
  - intros a Ha Ho. change (rd8 (p_mem p') a = rd8 (hmem s) a). rewrite Hp by layout. by apply S2.
Qed.

(** *** [init2] *)
Lemma register_handler_runs vector handler v k t p b r x (Q : unit -> host -> Prop) : 0 <= vector < 256 ->
  (forall t', tr t' = tr t -> tr_base t' = tr_base t -> gdtr t' = gdtr t -> idtr t' = idtr t ->
     handlers t' = <[Z.to_nat vector := handler]> (handlers t) -> Q tt (at_ v k t' p b r x)) ->
  runs (on_desc (register_interrupt_handler vector handler)) (at_ v k t p b r x) Q.
Proof using.
  intros Hv HQ. apply on_desc_runs. unfold register_interrupt_handler, runs. rewrite assert_run by lia.
  apply runs_modify. destruct k, t. by apply HQ.
Qed.

Lemma built_tables m t t' p : built m t p -> tr t' = tr t -> tr_base t' = tr_base t -> gdtr t' = gdtr t -> idtr t' = idtr t ->
  built m t' p.
Proof using. intros [[[R1 R2] G D] B2 B3 B4] E1 E2 E3 E4. split; [split; [split|..]|..]; congruence || done. Qed.

(** The chips at the end: only the keyboard's interrupt is let through. *)
Definition chips_final (c0 c : chipset) : Prop :=
  apic_ready c0 c /\ red_low c 1 = IRQ_KEYBOARD_VECTOR /\ red_high c 1 = 0 /\
  forall i, 0 <= i <= max_entry c0 -> i <> 1 -> masked_entry c i.

Lemma init2_runs v k t p b r x c0 c : 1 <= max_entry c0 -> built (k_mem k) t p -> length (handlers t) = 256%nat ->
  shows b c -> chips_ready c0 c ->
  runs (init2 sym) (at_ v k t p b r x) (fun _ s' => exists t' b' c', s' = at_ v k t' p b' r x /\ built (k_mem k) t' p /\
    handlers t' = <[33%nat := keyboard_device_interrupt_handler sym]> (<[32%nat := local_apic_timer sym]> (handlers t)) /\
    shows b' c' /\ chips_final c0 c' /\ ipis c' = ipis c).
Proof using Hspec.
  intros Hme Hb Hlen Hs (A & X & E). unfold init2, lapic_timer_init, keyboard_init.
  apply runs_bind, register_handler_runs; [by_compute|]. intros t1 R1 R2 R3 R4 R5.
  apply runs_bind, register_handler_runs; [by_compute|]. intros t2 R1' R2' R3' R4' R5'.
  apply on_board_runs. eapply runs_mono; [apply (ioapic_redirect_entry_runs b c 1 0); [rewrite X; lia|done]|].
  intros [] b' (c' & H' & S' & L' & U' & O'). exists t2, b', c'. pose proof (same_local_fields _ _ S') as (_ & _ & _ & Ei & _).
  split_and!; [done| |by rewrite R5', R5|done| |done].
  - apply (built_tables _ t1); [apply (built_tables _ t)|..]; done.
  - split; [by apply (ready_local c0 c)|]. split; [exact L'|]. split; [exact U'|]. intros i Hi Hn.
    destruct (O' i Hn) as [O1 O2]. unfold masked_entry. rewrite O1, O2. by apply E.
Qed.

(** *** [vm_monitor_init] *)

(** A processor with virtualisation, whose feature control firmware left unlocked, or
    locked with the feature on. *)
Record vmx_ready (x : vmx_state) : Prop := {
  vx_support : is_vmx_support CPUID 0 = true;
  vx_control : Z.testbit (fst (feature_control x)) 0 = true -> Z.testbit (fst (feature_control x)) 2 = true;
  vx_outside : root_operation x = false }.

(** In VMX operation; nothing a locked feature control held has changed. *)
Record vmx_on (x x' : vmx_state) : Prop := {
  vo_root : root_operation x' = true;
  vo_lock : Z.testbit (fst (feature_control x')) 0 = true /\ Z.testbit (fst (feature_control x')) 2 = true;
  vo_locked : Z.testbit (fst (feature_control x)) 0 = true -> feature_control x' = feature_control x;
  vo_controls : control0 x' = Z.lor (control0 x) 0x20 /\ control4 x' = Z.lor (control4 x) VMX_ENABLE_FLAG }.

Lemma on_vmx_runs {A} (c : M vmx_state A) v k t p b r x (Q : A -> host -> Prop) :
  runs c x (fun a x' => Q a (at_ v k t p b r x')) -> runs (on_vmx c) (at_ v k t p b r x) Q.
Proof using. intros E. apply runs_zoom. exact E. Qed.
Lemma on_mon_runs {A} (c : M vmm A) v k t p b r x (Q : A -> host -> Prop) :
  runs c (v <| kern := k |>) (fun a v' => Q a (at_ v' (kern v') t p b r x)) -> runs (on_mon c) (at_ v k t p b r x) Q.
Proof using. intros E. apply runs_zoom. eapply runs_mono; [exact E|]. intros a v' Hq. by destruct v'. Qed.

Lemma virtualisation_on v k t p b r x (c : M host unit) (Q : unit -> host -> Prop) : vmx_ready x ->
  (forall x', vmx_on x (x' <| root_operation := true |>) -> root_operation x' = false ->
     Z.testbit (control0 x') 5 = true -> Z.testbit (control4 x') 13 = true -> runs c (at_ v k t p b r x') Q) ->
  runs (on_vmx enable_vmxon ;;; on_vmx set_control_bits ;;; c) (at_ v k t p b r x) Q.
Proof using.
  intros [_ Hc Hr] HQ. set (fc := feature_control x) in *.
  set (fc' := if Z.testbit (fst fc) 0 then fc else (Z.lor (Z.lor (fst fc) VMXON_LOCK_FLAG) VMXON_ENABLE_FLAG, snd fc)).
  assert (H0 : Z.testbit (fst fc') 0 = true).
  { unfold fc'. destruct (Z.testbit (fst fc) 0) eqn:E; [done|]. cbn [fst]. rewrite !Z.lor_spec.
    change (Z.testbit VMXON_LOCK_FLAG 0) with true. by rewrite orb_true_r. }
  assert (H2 : Z.testbit (fst fc') 2 = true).
  { unfold fc'. destruct (Z.testbit (fst fc) 0) eqn:E; [by apply Hc|]. cbn [fst]. rewrite !Z.lor_spec.
    change (Z.testbit VMXON_ENABLE_FLAG 2) with true. apply orb_true_r. }
  apply runs_bind, on_vmx_runs. unfold enable_vmxon. apply runs_bind, runs_gets, runs_bind.
  change VMXON_LOCK_FLAG with (Z.shiftl 1 0) at 1. rewrite truthy_bit by lia. fold fc.
  apply (runs_mono _ _ (fun _ x' => x' = x <| feature_control := fc' |>)).
  - unfold fc'. destruct (Z.testbit (fst fc) 0) eqn:E.
    + unfold runs. change VMXON_ENABLE_FLAG with (Z.shiftl 1 2). rewrite truthy_bit by lia. rewrite Hc by done.
      exists tt, x. split; [done|]. by destruct x.
    + by apply runs_modify.
  - intros [] ? ->. apply runs_bind, runs_gets. change (feature_control _) with fc' at 1.
    change VMXON_ENABLE_FLAG with (Z.shiftl 1 2). rewrite truthy_bit by lia. rewrite H2.
    apply runs_ret, runs_bind, on_vmx_runs, runs_bind, runs_modify, runs_modify. apply HQ.
    + split; [done|by split| |done]. intros Hl. cbn. unfold fc', fc in *. by rewrite Hl.
    + done.
    + cbn -[Z.lor Z.testbit]. rewrite Z.lor_spec. change (Z.testbit 32 5) with true. apply orb_true_r.
    + cbn -[Z.lor Z.testbit VMX_ENABLE_FLAG]. rewrite Z.lor_spec. change (Z.testbit VMX_ENABLE_FLAG 13) with true. apply orb_true_r.
Qed.

Lemma boot_space_low a : 0 <= a < INITIAL_VA_CEILING -> boot_space a = Some a.
Proof using.
  intros Ha. assert (Hn : forall d, 0x80000000 <= d -> ~ same_page PAGE_SIZE_4K a d).
  { intros d Hd Hm. unfold same_page, INITIAL_VA_CEILING in *. change PAGE_SIZE_4K with 4096 in *. zdiv. }
  unfold boot_space, map_page. rewrite !decide_False by (apply Hn; by_compute).
  unfold identity_2G. by rewrite (proj2 (Z.ltb_lt _ _)) by lia.
Qed.
Lemma kernel_at_pa n used k0 k a : kernel_at n used k0 k -> 0 <= a < INITIAL_VA_CEILING -> pa k a = a.
Proof using.
  intros K Ha. pose proof (ka_space _ _ _ _ K a ltac:(unfold VA_LIMIT, INITIAL_VA_CEILING in *; lia)) as E.
  rewrite boot_space_low in E by done. unfold aspace in E. case_decide; [done|]. congruence.
Qed.

Lemma write_runs f v k t p b r x (Q : unit -> host -> Prop) : Q tt (at_ v (over k (f (k_mem k))) t p b r x) ->
  runs (on_kern (modify (fun k => k <| k_mem ::= f |>))) (at_ v k t p b r x) Q.
Proof using. intros HQ. apply on_kern_runs, runs_modify. by destruct k. Qed.

Lemma vmxon_runs region v k t p b r x (Q : bool -> host -> Prop) :
  Z.testbit (fst (feature_control x)) 0 = true -> Z.testbit (fst (feature_control x)) 2 = true ->
  Z.testbit (control0 x) 5 = true -> Z.testbit (control4 x) 13 = true -> root_operation x = false ->
  region mod PAGE_SIZE_4K = 0 -> load32 (k_mem k) region = Z.land (lo32 e IA32_VMX_BASIC_MSR) 0x7fffffff ->
  Q true (at_ v k t p b r (x <| root_operation := true |>)) -> runs (vmxon e region) (at_ v k t p b r x) Q.
Proof using.
  intros F0 F2 C0 C4 R Hal Hl HQ. unfold runs, vmxon. change (hmem (at_ v k t p b r x)) with (k_mem k).
  change (vmx (at_ v k t p b r x)) with x. rewrite F0, F2, C0, C4, R, Hal, Hl. cbn [negb andb Z.eqb]. rewrite Z.eqb_refl.
  exists true, (at_ v k t p b r (x <| root_operation := true |>)). by split.
Qed.

Lemma revision_bits rev : 0 <= rev < 2 ^ 32 -> truthy (Z.land rev 0x80000000) = false ->
  rev mod 2 ^ 32 = Z.land rev 0x7fffffff.
Proof using.
  intros Hr Hrev. change 0x7fffffff with (2 ^ 31 - 1). rewrite land_mask_mod by lia.
  change 0x80000000 with (Z.shiftl 1 31) in Hrev. rewrite truthy_bit in Hrev by lia.
  apply Z.testbit_false in Hrev; [|lia]. zdiv.
Qed.

(** A page is zeroed and begins with the revision; the processor enters VMX operation. *)
Lemma enter_vmx_runs n k0 v k t p b r x : memory_ok n k0 -> kernel_at n 10 k0 k ->
  truthy (Z.land (lo32 e IA32_VMX_BASIC_MSR) 0x80000000) = false -> root_operation x = false ->
  Z.testbit (fst (feature_control x)) 0 = true /\ Z.testbit (fst (feature_control x)) 2 = true ->
  Z.testbit (control0 x) 5 = true -> Z.testbit (control4 x) 13 = true ->
  runs (enter_vmx_operation e) (at_ v k t p b r x) (fun _ s' => exists k',
    s' = at_ v k' t p b r (x <| root_operation := true |>) /\ kernel_at n 11 k0 k' /\ pml4_base k' = pml4_base k /\
    forall a, a < next_page k -> rd8 (k_mem k') a = rd8 (k_mem k) a).
Proof using Hlay.
  intros [_ _ Hok M1 M2 M3] K Hrev Hroot [F0 F2] C0 C4. pose proof Hlay as [[L0 L1] L2 _ _ _ _ _ _ _].
  pose proof (kernel_ok_at _ _ _ _ K) as Hk. pose proof (ka_phys _ _ _ _ K) as Hp. pose proof (ka_used _ _ _ _ K) as Hu.
  pose proof (ta_low _ _ (ka_tables _ _ _ _ K)) as Hlo. set (q := next_page k) in *.
  assert (Hq : 0x100000 <= q) by (unfold first_page in Hlo; layout || (unfold_consts; layout)).
  unfold enter_vmx_operation. apply runs_bind, on_mon_runs. unfold get_vmx_revision_id, runs. unfold RDMSR. cbn [fst].
  fold (lo32 e IA32_VMX_BASIC_MSR). rewrite assert_run by by rewrite Hrev. eexists _, _. split; [reflexivity|].
  change (kern (v <| kern := k |>)) with k. change (at_ (v <| kern := k |>) k t p b r x) with (at_ v k t p b r x).
  set (rev := lo32 e IA32_VMX_BASIC_MSR) in *.
  assert (Hroom : addr_low4G (k_phys k) <= q /\ q + 2 * PAGE_SIZE_4K <= addr_low4G (k_phys k) + length_low4G (k_phys k)).
  { rewrite Hp. cbn. unfold KERNEL_PAGES, BRING_UP_PAGES in *. unfold_consts. lia. }
  apply runs_bind, on_kern_runs. eexists _, _. split; [apply get_physical_page_room; [exact Hk|apply Hroom..]|].
  change (current_avail_page (k_phys k)) with q. set (k1 := k <| k_phys ::= _ |>).
  assert (Hq2 : q mod PAGE_SIZE_4K = 0 /\ q + PAGE_SIZE_4K <= INITIAL_VA_CEILING).
  { split; [apply Hk|]. rewrite Hp in Hroom. cbn in Hroom. unfold_consts. lia. }
  assert (K1 : forall m, (forall a, a < q -> rd8 m a = rd8 (k_mem k) a) -> kernel_at n 11 k0 (over k1 m)).
  { intros m Hm. apply (kernel_at_write n 10 11 k0 k); [done| |done| | |intros a Ha; apply Hm, Ha].
    - unfold k1, over, kernel_ok, phys_ok, next_page, INITIAL_VA_CEILING in *. cbv [update]. cbn in *. unfold_consts. split_and!; try lia. zdiv.
    - change (next_page (over k1 m)) with (q + PAGE_SIZE_4K). fold q. unfold_consts. lia.
    - change (next_page (over k1 m)) with (q + PAGE_SIZE_4K).
      change (k_phys (over k1 m)) with ((k_phys k) <| current_avail_page := q + PAGE_SIZE_4K |>). by rewrite Hp. }
  apply runs_bind, on_kern_runs, runs_gets. rewrite (kernel_at_pa _ _ _ k1 q (K1 (k_mem k) ltac:(done))) by (unfold_consts; lia).
  apply runs_bind. rewrite (proj2 (truthy_true q)) by lia. apply runs_ret.
  assert (Hm3 : forall a, a < q -> rd8 (store32 (memset (k_mem k) q 0x0 PAGE_SIZE_4K) q rev) a = rd8 (k_mem k) a).
  { intros a Ha. unfold store32. rewrite rd8_store_out, rd8_memset, decide_False by (unfold_consts; lia). done. }
  apply runs_bind, write_runs, runs_bind, write_runs, runs_bind, vmxon_runs; [done..|apply Hq2| |].
  - cbn [over k_mem]. rewrite load32_store32. apply revision_bits; [apply lo32_range|done].
  - apply runs_ret. eexists. split; [reflexivity|]. split; [by apply (K1 _ Hm3)|]. split; [done|exact Hm3].
Qed.

(** No port is registered yet, and no region. *)
Definition registries_empty (v : vmm) : Prop :=
  ports_ok v /\ nr_ports v = 0 /\ mmio_ok v /\ nr_mmio_ops v = 0.

Lemma device_list_ok : Forall port_ok device_list.
Proof using. repeat (apply Forall_cons_2; [unfold port_ok; cbn; lia|]). apply Forall_nil_2. Qed.

Lemma vm_monitor_init_runs n k0 v k t p b r x : memory_ok n k0 -> kernel_at n 10 k0 k -> registries_empty v ->
  truthy (Z.land (lo32 e IA32_VMX_BASIC_MSR) 0x80000000) = false -> vmx_ready x ->
  runs (vm_monitor_init CPUID e 0) (at_ v k t p b r x) (fun _ s' => exists v' k' x',
    s' = at_ v' k' t p b r x' /\ kernel_at n 11 k0 k' /\ pml4_base k' = pml4_base k /\
    (forall a, a < low -> rd8 (k_mem k') a = rd8 (k_mem k) a) /\ vmx_on x x' /\
    ports_ok v' /\ port_map v' = device_ports /\ mmio_ok v' /\ nr_mmio_ops v' = 0 /\
    vm v' = vm v /\ cur v' = cur v /\ current_vm v' = current_vm v).
Proof using Hlay.
  intros Hme K (P1 & P2 & P3 & P4) Hrev Hx. unfold vm_monitor_init. rewrite (vx_support _ Hx). cbn [negb].
  apply virtualisation_on; [done|]. intros x1 Ho Hr C0 C4. apply runs_bind.
  eapply runs_mono; [apply (enter_vmx_runs n k0); try done; apply Ho|]. intros [] s1 (k1 & -> & K1 & R1 & M1).
  apply on_mon_runs.
  destruct (register_all device_list (v <| kern := k1 |>)) as (ops & nr & Hreg & Hok & Hmap).
  - by destruct P1.
  - apply device_list_ok.
  - change (nr_ports (v <| kern := k1 |>)) with (nr_ports v). rewrite P2. by_compute.
  - eexists tt, _. rewrite init_devices_list. split; [exact Hreg|].
    eexists _, k1, _. split; [reflexivity|]. split; [done|]. split; [done|]. split.
    { intros a Ha. apply M1. pose proof (ta_low _ _ (ka_tables _ _ _ _ K)). lia. }
    split; [exact Ho|]. split; [exact Hok|]. split; [|by destruct P3].
    rewrite Hmap. unfold port_map. change (nr_ports (v <| kern := k1 |>)) with (nr_ports v). by rewrite P2.
Qed.

(** *** The whole boot *)

(** The machine as [pre_init] leaves it: the loader's memory list, nothing
    registered, no processor's storage initialised, and chips in any state with the
    APIC at its address and an entry for the keyboard. *)
Record constructed (n : nat) (c0 : chipset) (s : host) : Prop := {
  co_memory : memory_ok n (hkern s);
  co_registries : registries_empty (mon s);
  co_storage : initialised (pls_blob sym) [] ((cpus s) <| p_mem := hmem s |>);
  co_chips : shows (board s) c0 /\ located c0 /\ 1 <= max_entry c0;
  co_vmx : vmx_ready (vmx s) }.

Record up (c0 : chipset) (s s' : host) : Prop := {
  up_monitor : exists T, booted (mon s') T;
  up_space : (host_cr3 s' = low /\ pml4_base (hkern s') = low) /\ forall a, 0 <= a < VA_LIMIT -> aspace (hkern s') a = boot_space a;
  up_pages : low <= next_page (hkern s') <= low + KERNEL_PAGES * PAGE_SIZE_4K;
  up_memory : forall a, untouched a -> rd8 (hmem s') a = rd8 (hmem s) a;
  up_built : built (hmem s') (desc s') (cpus s');
  up_handlers : handlers (desc s') =
    <[33%nat := keyboard_device_interrupt_handler sym]> (<[32%nat := local_apic_timer sym]> (replicate 256 0));
  up_chips : exists c target target', shows (board s') c /\ chips_final c0 c /\
    Z.land target 0xff000000 = 0 /\ Z.land target' 0xff000000 = 0 /\ ipis c = ipis c0 ++ startup_ipis target target';
  up_vmx : vmx_on (vmx s) (vmx s');
  up_devices : ports_ok (mon s') /\ port_map (mon s') = device_ports }.

Lemma untouched_low a : untouched a -> a < low.
Proof using. intros (U & _). unfold first_page. unfold_consts. lia. Qed.

(** The kernel at the end is what [start_vm] wants. *)
Lemma kernel_at_booted n k0 (k : kernel) v : memory_ok n k0 -> kernel_at n KERNEL_PAGES k0 k ->
  mmio_ok v -> nr_mmio_ops v = 0 -> exists T, booted (v <| kern := k |>) T.
Proof using Hlay.
  intros [_ _ _ M1 M2 M3] K Hm Hn. pose proof Hlay as [[L0 L1] L2 _ _ _ _ _ _ _].
  pose proof K as [[(T & Hi & _) Hlo] K2 K3 _ _]. exists T.
  assert (Hl : 0x100000 + 0x200000 <= low) by (unfold first_page; unfold_consts; layout).
  split; [exact Hi| | | |by destruct Hm|done].
  - intros a Ha. exact (kernel_at_pa _ _ _ _ a K Ha).
  - unfold ept_room. change (kern (v <| kern := k |>)) with k. rewrite K2. cbn. unfold next_page in *.
    unfold_consts. lia.
  - change (kern (v <| kern := k |>)) with k. unfold Video.VIDEO_BUFFER_BASE. unfold_consts. lia.
Qed.

Lemma kernel_up n c0 s : constructed n c0 s -> features_ok -> (delay < fuel)%nat ->
  truthy (Z.land (lo32 e IA32_VMX_BASIC_MSR) 0x80000000) = false ->
  runs (init0 sym CPUID 0 ;;; init1 sym CPUID fuel 0 ;;; init2 sym ;;; vm_monitor_init CPUID e 0) s (fun _ => up c0 s).
Proof using Hlay Hcpu Hspec.
  intros [Hme Hreg Hst (Hs & Hl & He1) Hvx] Hf Hfu Hrev.
  rewrite (at_start s) at 1. apply runs_bind. eapply runs_mono; [by apply (init0_runs n)|].
  intros [] s1 (k1 & t1 & -> & A). pose proof (i0_memory _ _ _ _ A) as F1.
  apply runs_bind. eapply runs_mono; [apply (init1_runs n (hkern s) _ k1 t1 _ _ _ _ c0); try done|].
  { eapply (initialised_frame _ [] (hmem s)); [|exact Hst]. intros a Ha. pose proof Hlay. apply F1; destruct Hlay; layout. }
  intros [] s2 (k2 & t2 & p2 & b2 & c2 & g & g' & -> & K2 & R2 & B2 & F2 & H2 & S2 & C2 & G & G' & I2).
  apply runs_bind. eapply runs_mono; [apply (init2_runs _ _ _ _ _ _ _ c0 c2); try done; by rewrite H2|].
  intros [] s3 (t3 & b3 & c3 & -> & B3 & H3 & S3 & C3 & I3).
  eapply runs_mono; [by apply (vm_monitor_init_runs n (hkern s))|].
  intros [] s4 (v4 & k4 & x4 & -> & K4 & R4 & F4 & X4 & P4 & D4 & M4 & N4 & _).
  split.
  - by apply (kernel_at_booted n (hkern s)).
  - pose proof (i0_root _ _ _ _ A) as R1. split; [split; [exact R1|exact (eq_trans R4 (eq_trans R2 R1))]|]. apply K4.
  - split; [apply K4|]. exact (ka_used _ _ _ _ K4).
  - intros a Ha. change (rd8 (k_mem k4) a = rd8 (hmem s) a).
    rewrite F4, F2 by (done || by apply untouched_low). apply F1; apply Ha.
  - by apply (built_frame (k_mem k2)).
  - cbn [desc at_]. by rewrite H3, H2.
  - exists c3, g, g'. split_and!; [done|done|done|done|congruence].
  - exact X4.
  - split; [by destruct P4|exact D4].
Qed.

(** *** Into the guest *)
Lemma processor_now_ok c0 s0 s : processor_ok e -> in64 (control0 (vmx s0)) -> in64 (control4 (vmx s0)) -> up c0 s0 s ->
  processor_ok (processor_now sym e s).
Proof using Hlay.
  intros [[] P2 P3 P4 P5 P6 P7 P8 P9 P10 P11] H0 H4 [[T B] [[U1 _] _] U2 _ U4 _ _ U6 _].
  split; try done. pose proof Hlay as [[_ L1] L2 L3 _ L5 _ _ _ _]. pose proof (bo_tables _ _ B) as Hi.
  destruct (vo_controls _ _ U6) as [C0 C4]. split; cbn; try done.
  - rewrite C0. apply lor_range; [done|lia].
  - rewrite U1. unfold in64, first_page. unfold_consts. layout.
  - rewrite C4. apply lor_range; [done|by_compute].
  - rewrite (bu_idt _ _ _ U4). unfold in64. cbn. layout.
  - rewrite (ta_table _ _ (bu_task _ _ _ U4)). unfold in64. cbn. layout.
  - unfold in64. layout.
Qed.

(** *** The other processors *)
Definition on_chips_of (f : St) : M host unit :=
  modify (fun s => Host (mon s) (desc s) (cpus s) f (host_cr3 s) (vmx s)).
(** The application processors one after the other, each with its own chips. *)
Definition start_aps (boards : Z -> St) (cs : list Z) : M host unit :=
  miter (fun c => on_chips_of (boards c) ;;; kernel_ap_main sym CPUID c) cs.

Record processors_up (n : nat) (used : Z) (k0 : kernel) (l : list Z) (s : host) : Prop := {
  pu_kernel : kernel_at n used k0 (hkern s);
  pu_storage : initialised (pls_blob sym) l ((cpus s) <| p_mem := hmem s |>);
  pu_descriptors : forall i, 1 <= i < MAX_NR_CPUS ->
    is_tss (hmem s) (tss_descriptor (gdt_entries sym) i) (tss_array sym + i * TSS_SIZE) (TSS_SIZE - 1);
  pu_gates : forall i, 0 <= i < 256 -> is_gate (hmem s) (interrupt_desc_table sym + i * GATE_SIZE) (int_entry sym i);
  pu_tables : gdtr (desc s) = (GDT_SIZE - 1, gdt_entries sym) /\ idtr (desc s) = (IDT_BYTES - 1, interrupt_desc_table sym) }.

Lemma start_aps_runs n k0 (boards : Z -> St) cs used l s : memory_ok n k0 ->
  Forall (fun c => 0 <= c < MAX_NR_CPUS /\ exists c0, located c0 /\ shows (boards c) c0) cs ->
  used + 3 * Z.of_nat (length cs) <= KERNEL_PAGES + BRING_UP_PAGES -> processors_up n used k0 l s ->
  runs (start_aps boards cs) s (fun _ s' => processors_up n (used + 3 * Z.of_nat (length cs)) k0 (l ++ cs) s').
Proof using Hlay Hcpu Hspec.
  intros Hme Hcs. revert used l s.
  induction Hcs as [|c cs [Hc (c0 & Hl & Hs)] _ IH]; intros used l s Hu U; unfold start_aps; cbn [miter length] in *.
  { apply runs_ret. by rewrite Z.add_0_r, app_nil_r. }
  destruct U as [K I T G _]. apply runs_bind, runs_bind, runs_modify.
  eapply runs_mono; [apply (ap_main_runs n used k0 l c c0); try done; lia|].
  intros [] s' [K' _ T' I' _ M']. eapply runs_mono; [apply (IH (used + 3) (l ++ [c])); [lia|]|].
  - assert (Hm : forall b, b < image_end sym -> apart (pls_blob sym) PLS_BYTES b 1 -> rd8 (hmem s') b = rd8 (hmem s) b).
    { intros b Hb Ha. apply M'; [unfold first_page; unfold_consts; lia|]. unfold area. layout. }
    pose proof Hlay as [_ L2 L3 L4 _ _ L7 L8 _]. split; [done|done| | |done].
    + intros i Hi. apply (is_tss_same (hmem s)); [|by apply T]. intros b Hb. apply Hm; layout.
    + intros i Hi. apply (is_gate_same (hmem s)); [|by apply G]. intros b Hb. apply Hm; layout.
  - intros [] s2 U2. rewrite <- app_assoc in U2. by replace (used + 3 * Z.of_nat (S (length cs))) with (used + 3 + 3 * Z.of_nat (length cs)) by lia.
Qed.

(** C26 All processors start: after [init0] and [init1] of the bootstrap processor,
    any application processors may enter [kernel_ap_main] in any order, each with its
    own chips in any state, and none of their assertions fails, although the device
    page is mapped already ([ERROR_DUPLICATION]) and all share one memory. Afterwards
    every one of them is known to its storage, the descriptors and gates are
    intact, and the address space is still the one the bootstrap processor built. *)
Theorem all_processors_start n c0 (boards : Z -> St) cs s :
  constructed n c0 s -> features_ok -> (delay < fuel)%nat -> (length cs < 64)%nat ->
  Forall (fun c => 0 <= c < MAX_NR_CPUS /\ exists c1, located c1 /\ shows (boards c) c1) cs ->
  runs (init0 sym CPUID 0 ;;; init1 sym CPUID fuel 0 ;;; start_aps boards cs) s (fun _ s' =>
    processors_up n (10 + 3 * Z.of_nat (length cs)) (hkern s) (0 :: cs) s').
Proof using Hlay Hcpu Hspec.
  intros [Hme Hreg Hst (Hs & Hl & He1) Hvx] Hf Hfu Hlen Hcs.
  rewrite (at_start s) at 1. apply runs_bind. eapply runs_mono; [by apply (init0_runs n)|].
  intros [] s1 (k1 & t1 & -> & A). pose proof (i0_memory _ _ _ _ A) as F1.
  apply runs_bind. eapply runs_mono; [apply (init1_runs n (hkern s) _ k1 t1 _ _ _ _ c0); try done|].
  { eapply (initialised_frame _ [] (hmem s)); [|exact Hst]. intros a Ha. destruct Hlay. apply F1; layout. }
  intros [] s2 (k2 & t2 & p2 & b2 & c2 & g & g' & -> & K2 & R2 & [[B1 B1' B2] B3 B4 B5] & _).
  apply (start_aps_runs n (hkern s) boards cs 10 [0]); [done|done|unfold KERNEL_PAGES, BRING_UP_PAGES; lia|].
  by split.
Qed.

(** *** [pre_init]

    The linker's table [ctors] lists the addresses of the constructors, in some order:
    the port registry's, the local storage's, and others that leave alone what
    follows here (the processor's state, the registries, and the bytes of
    [kept] and of the local storage). *)
Context (code : Z -> M host unit) (start_addr : Z) (ctors : list Z) (pio pls : Z).
Definition guest_image (b : Z) : Prop :=
  _guest64_start e <= b < _guest64_start e + PAGE_SIZE_4K * Z.of_nat (image_count e).
Definition kept (b : Z) : Prop :=
  MEMORY_LIST_LONG_MODE_BASE <= b < MEMORY_LIST_LONG_MODE_BASE + SEGMENT_SIZE * 172 \/
  start_addr <= b < start_addr + 8 * Z.of_nat (length ctors) \/ guest_image b.

Record keeps (s s' : host) : Prop := {
  ks_memory : forall b, kept b \/ pls_blob sym <= b < pls_blob sym + PLS_BYTES -> rd8 (hmem s') b = rd8 (hmem s) b;
  ks_phys : k_phys (hkern s') = k_phys (hkern s);
  ks_ports : nr_ports (mon s') = nr_ports (mon s) /\ portio_ops (mon s') = portio_ops (mon s);
  ks_mmio : nr_mmio_ops (mon s') = nr_mmio_ops (mon s) /\ mmio_ops (mon s') = mmio_ops (mon s);
  ks_rest : gs_base (cpus s') = gs_base (cpus s) /\ board s' = board s /\ vmx s' = vmx s }.

Record constructors_ok : Prop := {
  cs_pio : pio ∈ ctors /\ code pio = on_mon portio_preinit;
  cs_pls : pls ∈ ctors /\ code pls = on_cpus (processor_local_storage_pre_init (pls_blob sym));
  cs_others : forall a s, a ∈ ctors -> a <> pio -> a <> pls -> runs (code a) s (fun _ => keeps s);
  cs_distinct : pio <> pls;
  cs_apart : forall b, kept b -> apart (pls_blob sym) PLS_BYTES b 1 }.

(** The machine when the loader enters the kernel. *)
Record loaded (n : nat) (c0 : chipset) (s : host) : Prop := {
  lo_memory : memory_ok n (hkern s);
  lo_mmio : mmio_ok (mon s) /\ nr_mmio_ops (mon s) = 0;
  lo_gs : forall c, gs_base (cpus s) c = 0;
  lo_chips : shows (board s) c0 /\ located c0 /\ 1 <= max_entry c0;
  lo_vmx : vmx_ready (vmx s);
  lo_table : forall i a, ctors !! i = Some a -> load64 (hmem s) (start_addr + 8 * Z.of_nat i) = a }.

(** After the first [i] constructors. *)
Record under_construction (s0 : host) (i : Z) (s : host) : Prop := {
  uc_memory : forall b, kept b -> rd8 (hmem s) b = rd8 (hmem s0) b;
  uc_phys : k_phys (hkern s) = k_phys (hkern s0);
  uc_mmio : nr_mmio_ops (mon s) = nr_mmio_ops (mon s0) /\ mmio_ops (mon s) = mmio_ops (mon s0);
  uc_rest : gs_base (cpus s) = gs_base (cpus s0) /\ board s = board s0 /\ vmx s = vmx s0;
  uc_ports : pio ∈ take (Z.to_nat i) ctors -> ports_ok (mon s) /\ nr_ports (mon s) = 0;
  uc_storage : pls ∈ take (Z.to_nat i) ctors -> initialised (pls_blob sym) [] ((cpus s) <| p_mem := hmem s |>) }.

Lemma portio_preinit_step s0 s i : constructors_ok -> ctors !! i = Some pio ->
  under_construction s0 (Z.of_nat i) s -> runs (code pio) s (fun _ => under_construction s0 (Z.of_nat (S i))).
Proof using.
  intros C Hi [U1 U2 U3 U4 U5 U6]. rewrite (proj2 (cs_pio C)). destruct s as [[] t p b r x].
  eexists tt, _. split; [reflexivity|]. split; [done..| |]; rewrite Nat2Z.id in *; intros Hin.
  - split; [split; [cbn; lia|reflexivity|constructor|constructor]|reflexivity].
  - apply in_take_next with (a := pio) in Hin as [E|Hin]; [by destruct (cs_distinct C)|by apply U6|done].
Qed.

Lemma local_storage_step s0 s i : constructors_ok -> ctors !! i = Some pls -> (forall c, gs_base (cpus s0) c = 0) ->
  under_construction s0 (Z.of_nat i) s -> runs (code pls) s (fun _ => under_construction s0 (Z.of_nat (S i))).
Proof using Hlay.
  intros C Hi Hg [U1 U2 U3 U4 U5 U6]. rewrite (proj2 (cs_pls C)). pose proof Hlay as [[_ L1] _ _ L4 _ _ _ _ _].
  rewrite (at_start s). apply on_cpus_runs.
  destruct (pre_initialised (pls_blob sym) ltac:(layout) (hmem s) (gs_base (cpus s)) (kernel_gs_base (cpus s)))
    as ([] & p' & Hr & Hp'); [intros c; by rewrite (proj1 U4)|].
  eexists tt, _. split; [exact Hr|].
  assert (E : p' = Processors (memset (hmem s) (pls_blob sym) 0x0 (MAX_NR_CPUS * CPU_LOCAL_AREA_SIZE)) (gs_base (cpus s))
    (kernel_gs_base (cpus s))) by (unfold processor_local_storage_pre_init, modify in Hr; by injection Hr as <-).
  subst p'. split; [|done|done|done| |].
  - intros b Hb. change (rd8 (memset (hmem s) (pls_blob sym) 0x0 (MAX_NR_CPUS * CPU_LOCAL_AREA_SIZE)) b = rd8 (hmem s0) b).
    pose proof (cs_apart C b Hb). rewrite rd8_memset, decide_False by layout. by apply U1.
  - rewrite Nat2Z.id in *. intros Hin.
    apply in_take_next with (a := pls) in Hin as [E|Hin]; [by destruct (cs_distinct C)| |done].
    destruct (U5 Hin) as [[P1 P2 P3 P4] P5]. split; [by split|done].
  - intros _. exact Hp'.
Qed.

Lemma constructor_step s0 s i a : constructors_ok -> ctors !! i = Some a -> (forall c, gs_base (cpus s0) c = 0) ->
  under_construction s0 (Z.of_nat i) s -> runs (code a) s (fun _ => under_construction s0 (Z.of_nat (S i))).
Proof using Hlay.
  intros C Hi Hg U. destruct (decide (a = pio)) as [->|Np]; [by apply portio_preinit_step|].
  destruct (decide (a = pls)) as [->|Nl]; [by apply local_storage_step|].
  eapply runs_mono; [apply (cs_others C a s); [by eapply list_elem_of_lookup_2|done..]|].
  intros [] s' [Q1 Q2 [Q3 Q3'] [Q4 Q4'] (Q5 & Q6 & Q7)]. destruct U as [U1 U2 [U3 U3'] (U4 & U5 & U6) U7 U8].
  rewrite Nat2Z.id in *. split; rewrite ?Nat2Z.id.
  - intros b Hb. rewrite Q1 by (by left). by apply U1.
  - congruence.
  - split; congruence.
  - split_and!; congruence.
  - intros Hin. apply in_take_next with (a := a) in Hin as [E|Hin]; [done| |done].
    destruct (U7 Hin) as [[P1 P2 P3 P4] P5]. split; [split|]; rewrite ?Q3, ?Q3'; done.
  - intros Hin. apply in_take_next with (a := a) in Hin as [E|Hin]; [done| |done].
    specialize (U8 Hin). unfold update in *. cbn in *. rewrite Q5.
    eapply initialised_frame; [|exact U8]. intros b Hb. apply Q1. right. layout.
Qed.

Lemma memory_ok_same n (k k' : kernel) : memory_ok n k -> k_phys k' = k_phys k ->
  (forall b, MEMORY_LIST_LONG_MODE_BASE <= b < MEMORY_LIST_LONG_MODE_BASE + SEGMENT_SIZE * 172 -> rd8 (k_mem k') b = rd8 (k_mem k) b) ->
  memory_ok n k'.
Proof using.
  intros [M1 M2 M3 M4 M5 M6] Hp Hm.
  destruct (segments_same n (k_mem k) (k_mem k') MEMORY_LIST_LONG_MODE_BASE) as [Hl Hs]; [|done|].
  { intros b Hb. apply Hm. unfold SEGMENT_SIZE in *. lia. }
  assert (E : detected n k' = detected n k) by (unfold detected; by rewrite Hs, Hp).
  split; rewrite ?E; done.
Qed.

Lemma pre_init_runs n c0 s : constructors_ok -> loaded n c0 s ->
  runs (pre_init code start_addr (start_addr + 8 * Z.of_nat (length ctors))) s (fun _ s' => constructed n c0 s' /\ vmx s' = vmx s /\
    forall b, guest_image b -> rd8 (hmem s') b = rd8 (hmem s) b).
Proof using Hlay.
  intros C [L1 [L2 L2'] L3 L4 L5 L6]. unfold pre_init.
  replace (Z.to_nat _) with (length ctors) by (f_equal; zdiv).
  eapply runs_mono; [apply (runs_mfor_counter _ (under_construction s))|].
  - intros i s1 Hi U. destruct (lookup_lt_is_Some_2 ctors (Z.to_nat i)) as [a Ha]; [lia|].
    assert (E : load64 (hmem s1) (start_addr + 8 * i) = a).
    { rewrite <- (L6 _ _ Ha), Z2Nat.id by lia. apply load_ext. intros b Hb. apply (uc_memory _ _ _ U). right. left. lia. }
    apply runs_bind, runs_gets. rewrite E. replace i with (Z.of_nat (Z.to_nat i)) in U by lia.
    replace (i + 1) with (Z.of_nat (S (Z.to_nat i))) by lia. by apply constructor_step.
  - split; try done; cbn; intros Hin; by apply not_elem_of_nil in Hin.
  - intros [] s' [U1 U2 [U3 U3'] (U4 & U5 & U6) U7 U8]. rewrite Z.add_0_l, Nat2Z.id, firstn_all in U7, U8.
    split; [|split; [done|intros b Hb; apply U1; by right; right]].
    destruct (U7 (proj1 (cs_pio C))) as [P1 P2]. specialize (U8 (proj1 (cs_pls C))).
    split; [|split; [exact P1|split; [exact P2|]]|exact U8| |].
    + apply (memory_ok_same n (hkern s)); [done|exact U2|]. intros b Hb. apply U1. by left.
    + split; [|congruence]. destruct L2 as [A1 A2 A3 A4]. unfold regions_of in *.
      split; unfold regions_of; rewrite ?U3, ?U3'; done.
    + by rewrite U5.
    + by rewrite U6.
Qed.


(** The guest's image is in the kernel's, apart from what the kernel writes. *)
Record guest_ok : Prop := {
  go_order : 0 <= _guest64_start e <= _guest64_end e;
  go_fits : (image_count e < GUEST_PAGES)%nat;
  go_image : _guest64_start e + PAGE_SIZE_4K * Z.of_nat (image_count e) <= image_end sym;
  go_untouched : forall b, guest_image b -> untouched b }.

(** C2 The whole start of the kernel ([kernel_main]), on the bootstrap processor of a
    machine with the features the kernel needs, from the moment the loader enters
    it: for constructors in any order and chips in any state, no assertion fails and
    the kernel reaches the guest. On the way ([up]) it has mapped the first 2 GiB and
    the two device pages and nothing else; task descriptors, all 256 gates and the
    processor's storage are intact in memory; the local APIC is configured, the other
    processors have been sent INIT and start-up, and of the I/O APIC's entries only
    the keyboard's is open; both handlers and every device port are registered and
    the processor is in VMX operation. The guest then runs ([vm_running]) with a VMCS
    whose host state is that of the tables just built, and its memory holds, from the
    second page on, the image as the loader left it. *)
Theorem kernel_main_starts_guest n c0 s :
  constructors_ok -> loaded n c0 s -> features_ok -> (delay < fuel)%nat -> guest_ok ->
  processor_ok e -> in64 (control0 (vmx s)) -> in64 (control4 (vmx s)) ->
  runs (kernel_main sym CPUID e fuel 0 code start_addr (start_addr + 8 * Z.of_nat (length ctors))) s (fun rc s' =>
    rc = ERROR_OK /\ exists s0 s1 hs, constructed n c0 s0 /\ up c0 s0 s1 /\
    s' = Host (mon s') (desc s1) (cpus s1) (board s1) (host_cr3 s1) (vmx s1) /\
    vm_running (processor_now sym e s1) (hmem s1) (next_page (hkern s1)) (mon s') hs /\
    forall x, 0 <= x < PAGE_SIZE_4K * Z.of_nat (image_count e) ->
      rd8 (hmem s') (guestpa_to_hostpa (hkern s') (ept_pml4_base (regions (vm (mon s')))) (PAGE_SIZE_4K + x)) =
      rd8 (hmem s) (_guest64_start e + x)).
Proof using Hlay Hcpu Hspec.
  intros C L Hf Hfu [G1 G2 G3 G4] He H0 H4. unfold kernel_main, init3.
  apply runs_bind. eapply runs_mono; [by apply (pre_init_runs n c0)|]. intros [] s0 (Co & Ev & M0).
  eapply runs_sequence; [apply (kernel_up n c0 s0); [done..|apply He]|]. intros s1 U.
  destruct (up_monitor _ _ _ U) as [T B].
  destruct (start_vm_runs (processor_now sym e s1) (mon s1) T B) as (v' & hs & Hr & V).
  { apply (processor_now_ok c0 s0); [done|by rewrite Ev..|done]. }
  { pose proof (up_pages _ _ _ U). unfold first_page in *. split; [done| |done].
    change (image_count (processor_now sym e s1)) with (image_count e). change (kern (mon s1)) with (hkern s1).
    change (_guest64_start _) with (_guest64_start e). change PAGE_SIZE_4K with 4096 in *. lia. }
  apply runs_bind, runs_gets. eexists ERROR_OK, _. split; [unfold on_mon, zoom; by rewrite Hr|]. split; [done|].
  exists s0, s1, hs. split_and!; [done|done|done|exact V|]. intros x Hx.
  assert (Hin : guest_image (_guest64_start e + x)) by (unfold guest_image; lia).
  etransitivity; [exact (vr_image _ _ _ _ _ V x Hx)|].
  etransitivity; [exact (up_memory _ _ _ U _ (G4 _ Hin))|exact (M0 _ Hin)].
Qed.
End Theory.

(** ** A machine that boots

    A low segment from 1 MiB to 2 GiB, an image up to 4 MiB with the arrays, the
    guest's image and a table of two constructors in it, chips after a reset. *)
Module SampleMachine.
#[local] Existing Instances SampleChips.chips_of_chipset SampleChips.sample_spec.
Definition sym : symbols :=
  Symbols 0x210000 0x230000 0x220000 (fun v => 0x110000 + 16 * v) 0x300000 0x400000 0x120000 0x121000.
Definition CPUID (c leaf : Z) : cpuid_regs := CpuidRegs 0 (Z.shiftl c 24) 0x20 0x220.
Definition memory_at_load : memory :=
  store64 (store64 (store_segment ∅ 0x10000 0x100000 0x7ff00000 1) 0x180000 1) 0x180008 2.
Definition machine : host chipset :=
  Host (sample_vmm <| kern := Kernel memory_at_load (Phys 0 0 0 0 0) 0 |>)
    (Tables ∅ (0, 0) (0, 0) 0 0 (replicate 256 0) 0) (Processors ∅ (fun _ => 0) (fun _ => 0))
    SampleChips.reset_chips 0 (VmxState (0, 0) 0x80000011 0x20 false).
Definition code (a : Z) : M (host chipset) unit :=
  if a =? 1 then on_mon portio_preinit else on_cpus (processor_local_storage_pre_init 0x300000).

Lemma symbols_laid_out : layout_ok sym.
Proof.
  split; [split; by_compute..|left; by_compute|left; by_compute|left; by_compute|].
  intros v Hv. cbn [int_entry sym]. lia.
Qed.

Lemma sample_cpus c : 0 <= c < MAX_NR_CPUS -> cpu_on CPUID c = c.
Proof.
  intros Hc. unfold cpu_on, cpu, CPUID, MAX_NR_CPUS in *. cbn [cpuid_ebx].
  rewrite u32_small by (rewrite Z.shiftl_mul_pow2 by lia; lia). rewrite Z.shiftr_shiftl_l by lia. apply Z.shiftl_0_r.
Qed.

Lemma sample_constructors : constructors_ok sym sample_host code 0x180000 [1; 2] 1 2.
Proof.
  split; [split; [left|reflexivity]|split; [right; left|reflexivity]| |done|].
  - intros a s Ha N1 N2. apply elem_of_cons in Ha as [->|Ha]; [done|]. by apply list_elem_of_singleton in Ha.
  - intros b Hb. right. assert (Hk : b + 1 <= 0x300000); [|exact Hk]. destruct Hb as [Hb|[Hb|Hb]].
    + unfold MEMORY_LIST_LONG_MODE_BASE, MEMORY_LIST_BASE, SEGMENT_SIZE in Hb. lia.
    + change (0x180000 <= b < 0x180000 + 16) in Hb. lia.
    + change (0x200000 <= b < 0x200000 + 4096 * 3) in Hb. lia.
Qed.

Lemma sample_loaded : loaded sym CPUID 0x180000 [1; 2] (shows := SampleChips.same_chips) 1 SampleChips.reset_chips machine.
Proof.
  split.
  - split; [split; by_compute|lia|by_compute..].
  - split; [|reflexivity]. constructor; [by_compute|reflexivity|constructor|constructor].
  - done.
  - split; [split; [done|split; by_compute]|split; by_compute].
  - split; [reflexivity|done|reflexivity].
  - intros [|[|i]] a Ha; [injection Ha as <-; reflexivity..|discriminate].
Qed.

Lemma sample_guest : guest_ok sym sample_host.
Proof.
  assert (Hc : image_count sample_host = 3%nat) by reflexivity.
  split; [by_compute|rewrite Hc; unfold GUEST_PAGES; lia|by_compute|].
  intros b Hb. change (0x200000 <= b < 0x200000 + 4096 * 3) in Hb.
  assert (b < 0x210000) by lia. assert (Ha : b + 1 <= 0x210000) by lia. split; [change (b < 0x400000); lia|].
  split; [|split]; right; [exact Ha|change (b + 1 <= 0x220000); lia|change (b + 1 <= 0x300000); lia].
Qed.

Lemma kernel_main_starts_guest_witness : exists s',
  kernel_main sym CPUID sample_host 3 0 code 0x180000 0x180010 machine = Ret (ERROR_OK, s') /\
  host_cr3 s' = 0x601000 /\ root_operation (vmx s') = true /\ masked_entry (board s') 23.
Proof.
  assert (Hp : processor_ok sample_host).
  { constructor; try reflexivity; [constructor; split; by_compute|split; reflexivity]. }
  destruct (kernel_main_starts_guest (delay := 2) (shows := SampleChips.same_chips) sym CPUID sample_host 3
    symbols_laid_out sample_cpus code 0x180000 [1; 2] 1 2 1 SampleChips.reset_chips machine sample_constructors
    sample_loaded (conj eq_refl eq_refl) ltac:(lia) sample_guest Hp ltac:(split; by_compute) ltac:(split; by_compute))
    as (rc & s' & Hr & -> & s0 & s1 & hs & _ & U & E & _).
  exists s'. split; [exact Hr|]. clear Hr. rewrite E. destruct U as [_ [[U1 _] _] _ _ _ _ U2 U3 _].
  destruct U2 as (c & _ & _ & [Es _] & (_ & _ & _ & Hm) & _).
  split; [exact U1|]. split; [apply (vo_root _ _ U3)|]. change (masked_entry (board s1) 23). rewrite Es.
  apply Hm; by_compute.
Defined.

Lemma all_processors_start_witness : exists s0 s',
  (init0 sym CPUID 0 ;;; init1 sym CPUID 3 0 ;;; start_aps sym CPUID (fun _ => SampleChips.reset_chips) [3; 1]) s0 = Ret (tt, s') /\
  gs_base (cpus s') 3 = 0x3000 /\ gs_base (cpus s') 2 = 0.
Proof.
  destruct (pre_init_runs (shows := SampleChips.same_chips) sym CPUID sample_host symbols_laid_out code 0x180000 [1; 2] 1 2
    1 SampleChips.reset_chips machine sample_constructors sample_loaded) as ([] & s0 & _ & Hc & _).
  destruct (all_processors_start (delay := 2) (shows := SampleChips.same_chips) sym CPUID 3 symbols_laid_out sample_cpus
    1 SampleChips.reset_chips (fun _ => SampleChips.reset_chips) [3; 1] s0 Hc (conj eq_refl eq_refl) ltac:(lia) ltac:(cbn; lia))
    as ([] & s' & Hr & [_ [Hg _ _] _ _ _]).
  - assert (Hb : exists c1, located c1 /\ SampleChips.same_chips SampleChips.reset_chips c1).
    { exists SampleChips.reset_chips. split; [done|]. split; [done|]. split; by_compute. }
    rewrite !Forall_cons, Forall_nil. split_and!; (exact Hb || by_compute || done).
  - exists s0, s'. split; [exact Hr|]. clear Hr. cbn [gs_base update] in Hg.
    pose proof (Hg 3 ltac:(by_compute)) as E3. pose proof (Hg 2 ltac:(by_compute)) as E2.
    rewrite decide_True in E3 by (right; left). rewrite decide_False in E2; [by split|].
    rewrite !not_elem_of_cons. split_and!; [lia..|apply not_elem_of_nil].
Defined.
End SampleMachine.
