(* ===== verification/Tetris.v ===== *)
(** * Tetris: the guest's program ([guest/tetris.c], [guest/video.c],
    [guest/keyboard.c], [guest/timer.c]).

    The game's variables are a record; the screen is guest memory at
    [VIDEO_BUFFER_BASE], the page the monitor traps. The time stamp counter and the
    keyboard port are input streams. A call of [printk] is recorded in the game's
    state, with its arguments; [GuestKernel] sends what was recorded on the serial
    line. The theory of the game is in [Grid] and [Game]. *)
From Stdlib Require Import ZArith Lia String Ascii.
From stdpp Require Import base tactics list numbers gmap.
From S2P Require Import Prelude Memory.
Local Open Scope Z_scope.

(** ** Geometry and colours *)
Definition GRID_WIDTH : Z := 16.
Definition GRID_HEIGHT : Z := 20.
Definition GRID_AXIS_X : Z := 62.
Definition GRID_ASIS_Y : Z := 4.
Definition MAKE_BYTE (hi lo : Z) : Z := Z.lor (Z.land (Z.shiftl hi 4) 0xf0) (Z.land lo 0xf).
Definition LOW_NIBBLE (by_ : Z) : Z := Z.land by_ 0xf.
Definition HIGH_NIBBLE (by_ : Z) : Z := Z.land (Z.shiftr by_ 4) 0xf.
Definition NR_SHAPE_TYPE : Z := 4.

Definition VIDEO_BUFFER_BASE : Z := 0x1000b8000.
Definition VIDEO_BUFFER_ROW : Z := 25.
Definition VIDEO_BUFFER_COL : Z := 80.
Definition COLOR_BLACK : Z := 0x0.
Definition COLOR_BLUE : Z := 0x1.
Definition COLOR_GREEN : Z := 0x2.
Definition COLOR_CYAN : Z := 0x3.
Definition COLOR_RED : Z := 0x4.
Definition COLOR_PURPLE : Z := 0x5.
Definition COLOR_BROWN : Z := 0x6.
Definition COLOR_GRAY : Z := 0x7.
Definition COLOR_YELLOW : Z := 0xe.
Definition COLOR_WHITE : Z := 0xf.
Definition CHAR_VIDEO_ADDR (row col : Z) : Z := VIDEO_BUFFER_BASE + 2 * (row * VIDEO_BUFFER_COL + col).

(** ** Shapes: nine of them in four groups of rotations *)
Inductive shape := shape0 | shape1 | shape2 | shape3 | shape4 | shape5 | shape6 | shape7 | shape8.
Inductive shape_group := grp0 | grp1 | grp2 | grp3.
#[export] Instance shape_eq_dec : EqDecision shape.
Proof. solve_decision. Defined.

Definition points (s : shape) : list Z :=
  match s with
  | shape0 => [MAKE_BYTE 0 0; MAKE_BYTE 0 1; MAKE_BYTE 1 1; MAKE_BYTE 1 2]
  | shape1 => [MAKE_BYTE 0 1; MAKE_BYTE 1 1; MAKE_BYTE 1 0; MAKE_BYTE 2 0]
  | shape2 => [MAKE_BYTE 0 0; MAKE_BYTE 1 0; MAKE_BYTE 2 0; MAKE_BYTE 3 0]
  | shape3 => [MAKE_BYTE 0 0; MAKE_BYTE 0 1; MAKE_BYTE 0 2; MAKE_BYTE 0 3]
  | shape4 => [MAKE_BYTE 0 1; MAKE_BYTE 1 0; MAKE_BYTE 1 1; MAKE_BYTE 1 2]
  | shape5 => [MAKE_BYTE 0 0; MAKE_BYTE 1 0; MAKE_BYTE 1 1; MAKE_BYTE 2 0]
  | shape6 => [MAKE_BYTE 0 0; MAKE_BYTE 0 1; MAKE_BYTE 0 2; MAKE_BYTE 1 1]
  | shape7 => [MAKE_BYTE 0 1; MAKE_BYTE 1 0; MAKE_BYTE 1 1; MAKE_BYTE 2 1]
  | shape8 => [MAKE_BYTE 0 0; MAKE_BYTE 0 1; MAKE_BYTE 1 0; MAKE_BYTE 1 1]
  end.
Definition shapes (g : shape_group) : list shape :=
  match g with
  | grp0 => [shape0; shape1]
  | grp1 => [shape2; shape3]
  | grp2 => [shape4; shape5; shape6; shape7]
  | grp3 => [shape8]
  end.
Definition shape_grps : list shape_group := [grp0; grp1; grp2; grp3].
Definition colors : list Z := [COLOR_RED; COLOR_PURPLE; COLOR_GRAY; COLOR_CYAN; COLOR_YELLOW; COLOR_BROWN].

(** ** The game *)
Record grid_elem := Cell { is_set : Z; color : Z }.
#[export] Instance eta_grid_elem : Eta grid_elem := fun c => Cell (is_set c) (color c).

(** A pointer to a shape or a group is [None] when it points to neither. *)
Record block := Block {
  plotted : Z; x_pos : Z; y_pos : Z; blk_color : Z; shp : option shape; grp : option shape_group }.
#[export] Instance eta_block : Eta block := fun b =>
  Block (plotted b) (x_pos b) (y_pos b) (blk_color b) (shp b) (grp b).

(** The arguments of [printk]: an integer, or a pointer to a string literal. *)
Inductive argument := Number (n : Z) | Literal (text : string).
Definition message : Type := list Z * list argument.

(** [tsc], [tsc_rcx]: what the n-th [rdtsc] leaves in EDX:EAX and in RCX; [kbd]:
    what the n-th read of the keyboard port gives; [stack_byte]: what the n-th
    call of the keyboard handler finds in its uninitialised [code]; [messages]: the
    calls of [printk], in order. *)
Record game := Game {
  grid : list (list grid_elem); blk : block;
  is_running : bool; started : bool; score : Z;
  mem : memory;
  tsc : nat -> Z; tsc_rcx : nat -> Z; tsc_reads : nat;
  kbd : nat -> Z; kbd_reads : nat; stack_byte : nat -> Z;
  ctrl_down : bool; tsc_last : Z; cpu_freq : Z; messages : list message }.
#[export] Instance eta_game : Eta game := fun g =>
  Game (grid g) (blk g) (is_running g) (started g) (score g) (mem g) (tsc g) (tsc_rcx g)
    (tsc_reads g) (kbd g) (kbd_reads g) (stack_byte g) (ctrl_down g) (tsc_last g) (cpu_freq g) (messages g).

Definition deref {A} (o : option A) : M game A :=
  match o with Some a => ret a | None => stop BadAccess end.
(** An element of an array, and its update. *)
Definition nth_of {A} (l : list A) (i : Z) : M game A :=
  deref (if 0 <=? i then l !! Z.to_nat i else None).
Definition get_cell (y x : Z) : M game grid_elem :=
  let! g := gets grid in
  let! row := nth_of g y in
  nth_of row x.
Definition put_cell (y x : Z) (f : grid_elem -> grid_elem) : M game unit :=
  let! _ := get_cell y x in
  modify (fun s => s <| grid ::= alter (alter f (Z.to_nat x)) (Z.to_nat y) |>).

(** ** [lib.h] *)
Definition rdtsc : M game Z := fun s => Ret (u64 (tsc s (tsc_reads s)), s <| tsc_reads ::= S |>).
Definition rand (range : Z) : M game Z :=
  let! t := rdtsc in
  if range =? 0 then stop DivideError else ret (s32 (t mod u64 range)).
Definition get_cpu_frequency : M game Z :=
  fun s => Ret (u64 (tsc_rcx s (tsc_reads s)), s <| tsc_reads ::= S |>).

(** ** [video.c] *)
Definition poke (ptr v : Z) : M game unit := modify (fun s => s <| mem ::= fun m => wr8 m ptr v |>).
Definition set_font_color (background_color front_color : Z) : M game unit :=
  mfor (Z.to_nat VIDEO_BUFFER_ROW) 0 (fun idx_row =>
    mfor (Z.to_nat VIDEO_BUFFER_COL) 0 (fun idx_col =>
      let ptr := VIDEO_BUFFER_BASE + idx_row * VIDEO_BUFFER_COL * 2 + idx_col * 2 in
      poke (ptr + 1) (Z.lor (Z.shiftl background_color 4) front_color))).
Definition reset_text : M game unit :=
  mfor (Z.to_nat VIDEO_BUFFER_ROW) 0 (fun idx_row =>
    mfor (Z.to_nat VIDEO_BUFFER_COL) 0 (fun idx_col =>
      let ptr := VIDEO_BUFFER_BASE + idx_row * VIDEO_BUFFER_COL * 2 + idx_col * 2 in
      poke ptr 0x0)).

(** A string literal's characters; the loops stop at its terminator. *)
Definition text_of (s : string) : list Z := map (fun c => Z.of_N (N_of_ascii c)) (list_ascii_of_string s).
Fixpoint print_chars (text : list Z) (ptr : Z) : M game unit :=
  match text with
  | [] => ret tt
  | c :: text_ptr => poke ptr c ;;; print_chars text_ptr (ptr + 2)
  end.
Definition print_text (idx_row idx_col : Z) (text : string) : M game unit :=
  print_chars (text_of text) (VIDEO_BUFFER_BASE + idx_row * VIDEO_BUFFER_COL * 2 + idx_col * 2).
Fixpoint print_chars_with_color (text : list Z) (ptr color : Z) : M game unit :=
  match text with
  | [] => ret tt
  | c :: text_ptr => poke ptr c ;;; poke (ptr + 1) color ;;;
      print_chars_with_color text_ptr (ptr + 2) color
  end.
Definition print_text_with_color (idx_row idx_col : Z) (text : string) (color : Z) : M game unit :=
  print_chars_with_color (text_of text)
    (VIDEO_BUFFER_BASE + idx_row * VIDEO_BUFFER_COL * 2 + idx_col * 2) color.

(** A call of the guest's [printk]. *)
Definition printk (fmt : list Z) (args : list argument) : M game unit :=
  modify (fun s => s <| messages ::= fun l => l ++ [(fmt, args)] |>).

Definition banner : list string := [
"________________________________________________";
"     ___                               __       ";
"        /          /       /         /    )     ";
"-------/-----__---/----__-/----__---/----/---__-";
"      /    /___) /   /   /   /   ) /    /   (_ `";
"____(_____(___ _/___(___/___(___(_(____/___(__)_";
"    /                                           ";
"(_ /   Copyright (c) 2019 Jie Zheng             ";
EmptyString;
"https://github.com/chillancezen/ZeldaOS.x86_64";
"================================================"]%string.
Fixpoint print_banner (idx : Z) (lines : list string) : M game unit :=
  match lines with
  | [] => ret tt
  | l :: ls => print_text idx 0 l ;;; print_banner (idx + 1) ls
  end.
Definition video_remap : M game unit :=
  set_font_color COLOR_BLACK COLOR_GREEN ;;;
  reset_text ;;;
  print_banner 0 banner ;;;
  print_text_with_color 15 2 "Instructions:" (MAKE_BYTE COLOR_BLACK COLOR_YELLOW) ;;;
  print_text_with_color 16 2 "  [ Enter ] suspend/resume the game" (MAKE_BYTE COLOR_BLACK COLOR_YELLOW) ;;;
  print_text_with_color 17 2 "  [ Ctrl+R] reset the game" (MAKE_BYTE COLOR_BLACK COLOR_YELLOW) ;;;
  print_text_with_color 18 2 "  [ blank]  rotate the shape" (MAKE_BYTE COLOR_BLACK COLOR_YELLOW) ;;;
  print_text_with_color 19 2 "  [ down arrow ]  adjust the axis Y position by +1" (MAKE_BYTE COLOR_BLACK COLOR_YELLOW) ;;;
  print_text_with_color 20 2 "  [ left arrow ]  adjust the axis X position by -1" (MAKE_BYTE COLOR_BLACK COLOR_YELLOW) ;;;
  print_text_with_color 21 2 "  [ right arrow]  adjust the axis X position by +1" (MAKE_BYTE COLOR_BLACK COLOR_YELLOW).

(** ** The block *)
Definition plot_shape (shp : shape) (color x_pos y_pos : Z) : M game unit :=
  let x_base := s32 (x_pos + GRID_AXIS_X) in
  let y_base := s32 (y_pos + GRID_ASIS_Y) in
  miter (fun p =>
    let ptr := CHAR_VIDEO_ADDR (y_base + HIGH_NIBBLE p) (x_base + LOW_NIBBLE p) in
    poke ptr 0x20 ;;;
    poke (ptr + 1) (MAKE_BYTE color COLOR_WHITE)) (points shp).
Definition unplot_shape (shp : shape) (x_pos y_pos : Z) : M game unit :=
  let x_base := s32 (x_pos + GRID_AXIS_X) in
  let y_base := s32 (y_pos + GRID_ASIS_Y) in
  miter (fun p =>
    let ptr := CHAR_VIDEO_ADDR (y_base + HIGH_NIBBLE p) (x_base + LOW_NIBBLE p) in
    poke ptr 0x2e ;;;
    poke (ptr + 1) (MAKE_BYTE COLOR_BLACK COLOR_BLUE)) (points shp).

Definition plot_block : M game unit :=
  let! b := gets blk in
  let! s := deref (shp b) in
  plot_shape s (blk_color b) (x_pos b) (y_pos b) ;;;
  modify (fun g => g <| blk ::= fun b => b <| plotted := 1 |> |>).
Definition unplot_block : M game unit :=
  let! b := gets blk in
  if negb (truthy (plotted b)) then ret tt else
  let! s := deref (shp b) in
  unplot_shape s (x_pos b) (y_pos b) ;;;
  modify (fun g => g <| blk ::= fun b => b <| plotted := 0 |> |>).

(** The first index of the group that holds the block's shape, or -1. *)
Fixpoint current_index (ss : list shape) (s : option shape) (idx : Z) : Z :=
  match ss with
  | [] => -1
  | s' :: ss => if bool_decide (s = Some s') then idx else current_index ss s (idx + 1)
  end.
Definition rotate_block (b : block) : M game block :=
  let! g := deref (grp b) in
  let ss := shapes g in
  let cur := current_index ss (shp b) 0 in
  let next_index := if cur <? 0 then 0 else (cur + 1) mod Z.of_nat (length ss) in
  let! s := nth_of ss next_index in
  ret (b <| shp := Some s |>).

Fixpoint clashing_loop (x_pos y_pos : Z) (ps : list Z) : M game bool :=
  match ps with
  | [] => ret false
  | p :: ps =>
      let x := s32 (x_pos + LOW_NIBBLE p) in
      let y := s32 (y_pos + HIGH_NIBBLE p) in
      if (x <? 0) || (GRID_WIDTH <=? x) || (y <? 0) || (GRID_HEIGHT <=? y) then ret true else
      let! c := get_cell y x in
      if truthy (is_set c) then ret true else clashing_loop x_pos y_pos ps
  end.
Definition is_block_clashing (b : block) : M game bool :=
  let! s := deref (shp b) in
  clashing_loop (x_pos b) (y_pos b) (points s).

Definition finalize_block (b : block) : M game unit :=
  let! s := deref (shp b) in
  miter (fun p =>
    let x := s32 (x_pos b + LOW_NIBBLE p) in
    let y := s32 (y_pos b + HIGH_NIBBLE p) in
    put_cell y x (fun c => c <| is_set := 1 |>) ;;;
    put_cell y x (fun c => c <| color := u8 (blk_color b) |>)) (points s).

(** ** Purging full rows *)

(** The inner loop of the scan: whether it ends without finding a free cell. *)
Fixpoint row_is_full (n : nat) (idx x : Z) : M game bool :=
  match n with
  | O => ret true
  | S n =>
      let! c := get_cell idx x in
      if truthy (is_set c) then row_is_full n idx (x + 1) else ret false
  end.
(** [for (idx = n - 1; idx >= 0; idx--)]: the rows left, in the order they are
    found, and the number of rows purged. *)
Fixpoint scan_rows (n : nat) (purged_count : Z) : M game (list Z * Z) :=
  match n with
  | O => ret ([], purged_count)
  | S k =>
      let idx := Z.of_nat k in
      let! full := row_is_full (Z.to_nat GRID_WIDTH) idx 0 in
      if full then scan_rows k (purged_count + 1) else
      let! rest := scan_rows k purged_count in
      ret (idx :: fst rest, snd rest)
  end.
Definition copy_row (target_row source_row : Z) : M game unit :=
  mfor (Z.to_nat GRID_WIDTH) 0 (fun x =>
    let! c := get_cell source_row x in
    put_cell target_row x (fun _ => c)).
Fixpoint copy_rows (rows_left : list Z) (target_row : Z) : M game Z :=
  match rows_left with
  | [] => ret target_row
  | source_row :: rows_left =>
      copy_row target_row source_row ;;;
      copy_rows rows_left (target_row - 1)
  end.
Definition clear_row (target_row : Z) : M game unit :=
  mfor (Z.to_nat GRID_WIDTH) 0 (fun x => put_cell target_row x (fun c => c <| is_set := 0 |>)).
(** [while (target_row >= 0)], with [n] the number of rounds. *)
Fixpoint clear_rows (n : nat) (target_row : Z) : M game unit :=
  match n with
  | O => ret tt
  | S n => clear_row target_row ;;; clear_rows n (target_row - 1)
  end.
Definition purge_grid : M game unit :=
  let! r := scan_rows (Z.to_nat GRID_HEIGHT) 0 in
  let '(rows_left, purged_count) := r in
  if purged_count =? 0 then ret tt else
  modify (fun s => s <| score ::= fun n => s32 (n + purged_count) |>) ;;;
  let! n := gets score in
  printk (text_of "current score:%d" ++ [10]) [Number n] ;;;
  let! target_row := copy_rows rows_left (GRID_HEIGHT - 1) in
  clear_rows (Z.to_nat (target_row + 1)) target_row.

(** ** A new block, the screen, the keys *)
Definition new_block : M game unit :=
  let! grp_index := rand NR_SHAPE_TYPE in
  let! g := nth_of shape_grps grp_index in
  let! shp_index := rand (Z.of_nat (length (shapes g))) in
  let! color_index := rand (Z.of_nat (length colors)) in
  let! s := nth_of (shapes g) shp_index in
  let! c := nth_of colors color_index in
  modify (fun st => st <| blk ::= fun b =>
    Block (plotted b) (GRID_WIDTH / 2) 0 c (Some s) (Some g) |>).

Definition init_grid (inner_frame_only : bool) : M game unit :=
  mfor (Z.to_nat GRID_HEIGHT) 0 (fun y =>
    mfor (Z.to_nat GRID_WIDTH) 0 (fun x =>
      let ptr := CHAR_VIDEO_ADDR (y + GRID_ASIS_Y) (x + GRID_AXIS_X) in
      let! c := get_cell y x in
      poke ptr (if truthy (is_set c) then 0x20 else 0x2e) ;;;
      poke (ptr + 1) (if truthy (is_set c) then MAKE_BYTE (color c) COLOR_BLUE
                      else MAKE_BYTE COLOR_BLACK COLOR_BLUE))) ;;;
  if inner_frame_only then ret tt else
  mfor (Z.to_nat (GRID_WIDTH + 2)) (GRID_AXIS_X - 1) (fun x =>
    let ptr := CHAR_VIDEO_ADDR 24 x in
    poke ptr 0x3d ;;;
    poke (ptr + 1) (MAKE_BYTE COLOR_BLACK COLOR_WHITE)) ;;;
  mfor (Z.to_nat GRID_HEIGHT) GRID_ASIS_Y (fun y =>
    let ptr := CHAR_VIDEO_ADDR y (GRID_AXIS_X - 1) in
    poke ptr 0x3d ;;;
    poke (ptr + 1) (MAKE_BYTE COLOR_BLACK COLOR_WHITE) ;;;
    let ptr := CHAR_VIDEO_ADDR y (GRID_AXIS_X + GRID_WIDTH) in
    poke ptr 0x3d ;;;
    poke (ptr + 1) (MAKE_BYTE COLOR_BLACK COLOR_WHITE)).

(** [tmp] has taken the block's place: erase, move, draw. *)
Definition redraw_as (f : block -> block) : M game unit :=
  unplot_block ;;; modify (fun g => g <| blk ::= f |>) ;;; plot_block.

(** [printk("teris running:%s\n", is_running ? "true" : "false")]. *)
Definition print_running : M game unit :=
  let! run := gets is_running in
  printk (text_of "teris running:%s" ++ [10]) [Literal (if run then "true" else "false")].

Definition on_key_blank : M game unit :=
  let! run := gets is_running in
  if negb run then ret tt else
  let! b := gets blk in
  let! tmp := rotate_block b in
  let! clash := is_block_clashing tmp in
  if clash then ret tt else
  unplot_block ;;;
  let! b := gets blk in
  let! b := rotate_block b in
  modify (fun g => g <| blk := b |>) ;;;
  plot_block.

Definition on_key_arrow_down : M game unit :=
  let! run := gets is_running in
  if negb run then ret tt else
  let! b := gets blk in
  let! clash := is_block_clashing (b <| y_pos ::= fun y => s32 (y + 1) |>) in
  if clash then
    finalize_block b ;;;
    purge_grid ;;;
    init_grid true ;;;
    new_block ;;;
    let! b := gets blk in
    let! clash := is_block_clashing b in
    if clash then modify (fun g => g <| is_running := false |>) ;;; print_running else plot_block
  else redraw_as (fun b => b <| y_pos ::= fun y => s32 (y + 1) |>).

Definition on_key_arrow_left : M game unit :=
  let! run := gets is_running in
  if negb run then ret tt else
  let! b := gets blk in
  let! clash := is_block_clashing (b <| x_pos ::= fun x => s32 (x - 1) |>) in
  if clash then ret tt else redraw_as (fun b => b <| x_pos ::= fun x => s32 (x - 1) |>).
Definition on_key_arrow_right : M game unit :=
  let! run := gets is_running in
  if negb run then ret tt else
  let! b := gets blk in
  let! clash := is_block_clashing (b <| x_pos ::= fun x => s32 (x + 1) |>) in
  if clash then ret tt else redraw_as (fun b => b <| x_pos ::= fun x => s32 (x + 1) |>).

(** [memset(grid, 0x0, sizeof(grid))]: the guest's [memset] takes a source
    pointer, so the cells get the bytes at address 0 and up. *)
Definition memset_grid (m : memory) : list (list grid_elem) :=
  map (fun y => map (fun x => let a := 2 * (y * GRID_WIDTH + x) in Cell (rd8 m a) (rd8 m (a + 1)))
                    (seqZ 0 GRID_WIDTH)) (seqZ 0 GRID_HEIGHT).

Definition tetris_start : M game unit :=
  let! st := gets started in
  (if st then ret tt else
   video_remap ;;; init_grid false ;;; new_block ;;;
   modify (fun g => g <| started := true |>)) ;;;
  modify (fun g => g <| is_running ::= negb |>) ;;;
  print_running.
Definition tetris_reset : M game unit :=
  let! st := gets started in
  if negb st then ret tt else
  modify (fun g => g <| grid := memset_grid (mem g) |>) ;;;
  init_grid false ;;;
  new_block ;;;
  modify (fun g => g <| is_running := true |>).

(** ** Keyboard and timer *)
Definition inb_keyboard : M game Z :=
  fun s => Ret (u8 (kbd s (kbd_reads s)), s <| kbd_reads ::= S |>).
(** The scan code, or nothing when the port gives 0. *)
Definition try_retrieve_scancode : M game (option Z) :=
  let! code := inb_keyboard in
  ret (if code =? 0 then None else Some code).
(** The [switch] of the handler. *)
Definition on_scancode (code : Z) : M game unit :=
  if code =? 0x1c then tetris_start
  else if code =? 0x13 then
    let! ctrl := gets ctrl_down in if ctrl then tetris_reset else ret tt
  else if code =? 0x1d then modify (fun g => g <| ctrl_down := true |>)
  else if code =? 0x9d then modify (fun g => g <| ctrl_down := false |>)
  else if code =? 0x50 then on_key_arrow_down
  else if code =? 0x4b then on_key_arrow_left
  else if code =? 0x4d then on_key_arrow_right
  else if code =? 0x39 then on_key_blank
  else ret tt.
Definition keyboard_interrupt_handler : M game unit :=
  let! n := gets kbd_reads in
  let! stack := gets stack_byte in
  let! r := try_retrieve_scancode in
  on_scancode (match r with Some c => c | None => u8 (stack n) end).

Definition timer_init : M game unit :=
  modify (fun g => g <| tsc_last := 0 |>) ;;;
  let! f := get_cpu_frequency in
  modify (fun g => g <| cpu_freq := f |>).
Definition timer_interrupt_handler : M game unit :=
  let! tsc_now := rdtsc in
  let! last := gets tsc_last in
  (if truthy last then ret tt else modify (fun g => g <| tsc_last := tsc_now |>)) ;;;
  let! last := gets tsc_last in
  let tsc_diff := u64 (tsc_now - last) in
  let! freq := gets cpu_freq in
  if freq =? 0 then stop DivideError else
  let msec := u64 (1000 * tsc_diff) / freq in
  if msec <? 500 then ret tt else
  modify (fun g => g <| tsc_last := tsc_now |>) ;;;
  on_key_arrow_down.

(** Where the linker put the shapes and the groups. *)
Section init.
  Context (shape_at : Z -> option shape) (group_at : Z -> option shape_group).

  (** [memset(&blk, 0x0, sizeof(blk))], with the same [memset]. *)
Definition memset_blk (m : memory) : block :=
    Block (s32 (load32 m 0)) (s32 (load32 m 4)) (s32 (load32 m 8)) (s32 (load32 m 12))
      (shape_at (load64 m 16)) (group_at (load64 m 24)).

Definition tetris_init : M game unit :=
    modify (fun g => g <| grid := memset_grid (mem g) |>) ;;;
    modify (fun g => g <| blk := memset_blk (mem g) |>) ;;;
    print_text_with_color 19 15 "Press [Enter] to start the Demo: {Game: TETRIS}"
      (MAKE_BYTE COLOR_BLACK COLOR_YELLOW) ;;;
    print_text_with_color 15 15 "VM STATE     :   READY" (MAKE_BYTE COLOR_BLACK COLOR_YELLOW) ;;;
    print_text_with_color 16 15 "Hypervisor   :   ZeldaOS" (MAKE_BYTE COLOR_BLACK COLOR_YELLOW) ;;;
    print_text_with_color 17 15 "Acrhitecture :   x86_64" (MAKE_BYTE COLOR_BLACK COLOR_YELLOW).
End init.

(** The interrupts the guest takes after its initialisation, one at a time
    (the gates keep interrupts off while a handler runs). *)
Inductive irq := Keyboard | Timer.
Definition interrupt (e : irq) : M game unit :=
  match e with Keyboard => keyboard_interrupt_handler | Timer => timer_interrupt_handler end.
