(* ===== verification/Grid.v ===== *)
(** * Grid: the screen, the grid and the block of the guest's game.

    What each helper of the game does to its state: drawing touches the screen
    only, clashing is the lack of free cells, landing sets the block's cells, and
    the in-place purge of full rows is a filter of the grid. *)
From Stdlib Require Import ZArith Lia String Ascii.
From stdpp Require Import base tactics list numbers gmap.
From S2P Require Import Prelude Memory Tetris.
Local Open Scope Z_scope.

(** ** Drawing

    A drawing command changes guest memory only, and only the screen. *)
Definition on_screen (a : Z) : Prop :=
  VIDEO_BUFFER_BASE <= a < VIDEO_BUFFER_BASE + 2 * VIDEO_BUFFER_ROW * VIDEO_BUFFER_COL.
Definition outside_screen (m m' : memory) : Prop :=
  forall a, ~ on_screen a -> rd8 m' a = rd8 m a.
Definition drawn (s s' : game) : Prop :=
  exists m, s' = s <| mem := m |> /\ outside_screen (mem s) m.
Definition draws (c : M game unit) (s : game) : Prop := runs c s (fun _ s' => drawn s s').

Lemma drawn_refl s : drawn s s.
Proof. exists (mem s). split; [by destruct s|by intros a]. Qed.
Lemma drawn_trans s1 s2 s3 : drawn s1 s2 -> drawn s2 s3 -> drawn s1 s3.
Proof.
  intros (m1 & -> & H1) (m2 & -> & H2). exists m2. split; [by destruct s1|].
  intros a Ha. rewrite (H2 a Ha). apply (H1 a Ha).
Qed.

Lemma draws_ret s : draws (ret tt) s.
Proof. apply runs_ret, drawn_refl. Qed.
Lemma draws_poke ptr v s : on_screen ptr -> draws (poke ptr v) s.
Proof.
  intros Hp. apply runs_modify. exists (wr8 (mem s) ptr v). split; [done|].
  intros a Ha. apply rd8_wr8_ne. by intros ->.
Qed.
Lemma draws_seq (c : M game unit) (k : unit -> M game unit) s :
  draws c s -> (forall s', drawn s s' -> draws (k tt) s') -> draws (bind c k) s.
Proof.
  intros Hc Hk. apply runs_bind. eapply runs_mono; [apply Hc|]. intros [] s1 H1. cbn.
  eapply runs_mono; [by apply Hk|]. intros [] s2 H2. by eapply drawn_trans.
Qed.
(** Loops whose body draws from every state that differs from the first one in
    its screen. *)
Lemma draws_mfor body n from s :
  (forall i s', from <= i < from + Z.of_nat n -> drawn s s' -> draws (body i) s') ->
  draws (mfor n from body) s.
Proof.
  intros Hb. apply (runs_mfor body (drawn s)); [|apply drawn_refl].
  intros i s1 Hi H1. eapply runs_mono; [by apply Hb|]. intros [] s2 H2. by eapply drawn_trans.
Qed.
Lemma draws_miter {A} (f : A -> M game unit) l s :
  (forall x s', x ∈ l -> draws (f x) s') -> draws (miter f l) s.
Proof.
  intros Hb. apply (runs_miter f l (drawn s)); [|apply drawn_refl].
  intros i s1 Hi H1. eapply runs_mono; [by apply Hb|]. intros [] s2 H2. by eapply drawn_trans.
Qed.

Lemma on_screen_at row col i :
  0 <= row < 25 -> 0 <= col < 80 -> 0 <= i < 2 -> on_screen (CHAR_VIDEO_ADDR row col + i).
Proof. unfold on_screen, CHAR_VIDEO_ADDR, VIDEO_BUFFER_BASE, VIDEO_BUFFER_ROW, VIDEO_BUFFER_COL. lia. Qed.

(** A command that touches one character cell of the screen. *)
Ltac screen :=
  unfold on_screen, CHAR_VIDEO_ADDR, VIDEO_BUFFER_BASE, VIDEO_BUFFER_ROW, VIDEO_BUFFER_COL,
    GRID_AXIS_X, GRID_ASIS_Y, GRID_WIDTH, GRID_HEIGHT in *; lia.

Lemma set_font_color_draws b f s : draws (set_font_color b f) s.
Proof.
  apply draws_mfor. intros row s1 Hr _. apply draws_mfor. intros col s2 Hc _.
  apply draws_poke. screen.
Qed.
Lemma reset_text_draws s : draws reset_text s.
Proof.
  apply draws_mfor. intros row s1 Hr _. apply draws_mfor. intros col s2 Hc _.
  apply draws_poke. screen.
Qed.

Lemma print_chars_draws text ptr s :
  VIDEO_BUFFER_BASE <= ptr ->
  ptr + 2 * Z.of_nat (List.length text) <= VIDEO_BUFFER_BASE + 4000 -> draws (print_chars text ptr) s.
Proof.
  revert ptr s. induction text as [|c text IH]; intros ptr s H1 H2; [apply draws_ret|].
  cbn [print_chars List.length] in *. apply draws_seq; [apply draws_poke; screen|].
  intros s' _. apply IH; lia.
Qed.
Lemma print_chars_with_color_draws text ptr c s :
  VIDEO_BUFFER_BASE <= ptr ->
  ptr + 2 * Z.of_nat (List.length text) <= VIDEO_BUFFER_BASE + 4000 ->
  draws (print_chars_with_color text ptr c) s.
Proof.
  revert ptr s. induction text as [|ch text IH]; intros ptr s H1 H2; [apply draws_ret|].
  cbn [print_chars_with_color List.length] in *. apply draws_seq; [apply draws_poke; screen|].
  intros s1 _. apply draws_seq; [apply draws_poke; screen|]. intros s' _. apply IH; lia.
Qed.

(** A text that fits the screen from its position on. *)
Definition text_fits (row col : Z) (t : string) : bool :=
  (0 <=? row * 160 + col * 2) &&
  (row * 160 + col * 2 + 2 * Z.of_nat (List.length (text_of t)) <=? 4000).
Lemma print_text_draws row col t s : text_fits row col t = true -> draws (print_text row col t) s.
Proof.
  unfold text_fits. rewrite andb_true_iff, !Z.leb_le. intros [H1 H2].
  apply print_chars_draws; unfold VIDEO_BUFFER_COL; lia.
Qed.
Lemma print_text_with_color_draws row col t c s :
  text_fits row col t = true -> draws (print_text_with_color row col t c) s.
Proof.
  unfold text_fits. rewrite andb_true_iff, !Z.leb_le. intros [H1 H2].
  apply print_chars_with_color_draws; unfold VIDEO_BUFFER_COL; lia.
Qed.

(** The lines of the banner, from row [idx] on. *)
Fixpoint lines_fit (idx : Z) (ls : list string) : bool :=
  match ls with [] => true | l :: ls => text_fits idx 0 l && lines_fit (idx + 1) ls end.
Lemma print_banner_draws idx ls s : lines_fit idx ls = true -> draws (print_banner idx ls) s.
Proof.
  revert idx s. induction ls as [|l ls IH]; intros idx s; cbn [lines_fit print_banner];
    [intros _; apply draws_ret|].
  rewrite andb_true_iff. intros [H1 H2].
  apply draws_seq; [by apply print_text_draws|]. intros s' _. by apply IH.
Qed.

#[local] Opaque set_font_color reset_text print_banner print_text_with_color.
Lemma video_remap_draws s : draws video_remap s.
Proof.
  unfold video_remap.
  apply draws_seq; [apply set_font_color_draws|intros ? _].
  apply draws_seq; [apply reset_text_draws|intros ? _].
  apply draws_seq; [apply print_banner_draws; vm_compute; reflexivity|intros ? _].
  do 6 (apply draws_seq; [apply print_text_with_color_draws; vm_compute; reflexivity|intros ? _]).
  apply print_text_with_color_draws; vm_compute; reflexivity.
Qed.
#[local] Transparent set_font_color reset_text print_banner print_text_with_color.

(** ** The grid *)
Definition cell (g : list (list grid_elem)) (y x : Z) : option grid_elem :=
  if (0 <=? y) && (0 <=? x) then g !! Z.to_nat y ≫= fun r => r !! Z.to_nat x else None.
Definition grid_ok (g : list (list grid_elem)) : Prop :=
  List.length g = Z.to_nat GRID_HEIGHT /\ Forall (fun r => List.length r = Z.to_nat GRID_WIDTH) g.
Definition inside (y x : Z) : Prop := 0 <= y < GRID_HEIGHT /\ 0 <= x < GRID_WIDTH.

Lemma get_cell_run y x s :
  get_cell y x s = match cell (grid s) y x with Some c => Ret (c, s) | None => Stop BadAccess end.
Proof.
  unfold get_cell, cell, nth_of, deref. cbv [bind gets].
  destruct (0 <=? y), (0 <=? x); cbn; destruct (grid s !! Z.to_nat y); cbn;
    try destruct (_ !! _); reflexivity.
Qed.

Lemma cell_inside g y x : grid_ok g -> inside y x -> is_Some (cell g y x).
Proof.
  intros [Hl Hf] [Hy Hx]. unfold cell.
  rewrite (proj2 (Z.leb_le 0 y)), (proj2 (Z.leb_le 0 x)) by lia. cbn.
  destruct (lookup_lt_is_Some_2 g (Z.to_nat y)) as [r Hr]; [lia|]. rewrite Hr. cbn.
  apply lookup_lt_is_Some_2. rewrite (Forall_lookup_1 _ _ _ _ Hf Hr). lia.
Qed.

Lemma get_cell_inside y x s :
  grid_ok (grid s) -> inside y x ->
  exists c, cell (grid s) y x = Some c /\ get_cell y x s = Ret (c, s).
Proof.
  intros Hg Hi. destruct (cell_inside _ _ _ Hg Hi) as [c Hc]. exists c.
  by rewrite get_cell_run, Hc.
Qed.

Lemma grid_ok_alter g f y x : grid_ok g -> grid_ok (alter (alter f x) y g).
Proof.
  intros [Hl Hf]. split; [by rewrite length_alter|].
  apply Forall_alter; [done|]. intros r _ Hr. by rewrite length_alter.
Qed.

Lemma put_cell_run y x f s :
  is_Some (cell (grid s) y x) ->
  put_cell y x f s = Ret (tt, s <| grid ::= alter (alter f (Z.to_nat x)) (Z.to_nat y) |>).
Proof.
  intros [c Hc]. unfold put_cell. unfold bind. rewrite get_cell_run, Hc. reflexivity.
Qed.

(** A grid cell lies on the screen. *)
Lemma on_screen_cell y x i :
  inside y x -> 0 <= i < 2 -> on_screen (CHAR_VIDEO_ADDR (y + GRID_ASIS_Y) (x + GRID_AXIS_X) + i).
Proof. unfold inside. intros. screen. Qed.

Lemma drawn_grid s s' : drawn s s' -> grid s' = grid s.
Proof. by intros (m & -> & _). Qed.

Lemma init_grid_draws inner s : grid_ok (grid s) -> draws (init_grid inner) s.
Proof.
  intros Hg. unfold init_grid. apply draws_seq.
  - apply draws_mfor. intros y s1 Hy H1. apply draws_mfor. intros x s2 Hx H2.
    assert (Hi : inside y x) by (unfold inside; screen).
    destruct (get_cell_inside y x s2) as (c & _ & Hc);
      [by rewrite (drawn_grid _ _ H2), (drawn_grid _ _ H1)|done|].
    unfold draws. apply runs_bind. exists c, s2. split; [done|].
    apply draws_seq; [|intros ? _]; apply draws_poke; [|by apply on_screen_cell].
    rewrite <- (Z.add_0_r (CHAR_VIDEO_ADDR _ _)). by apply on_screen_cell.
  - intros s1 _. destruct inner; [apply draws_ret|]. apply draws_seq.
    + apply draws_mfor. intros x s2 Hx _.
      apply draws_seq; [|intros ? _]; apply draws_poke; screen.
    + intros s2 _. apply draws_mfor. intros y s3 Hy _.
      repeat (apply draws_seq; [|intros ? _]); apply draws_poke; screen.
Qed.

(** ** The block in the grid *)
Definition int (z : Z) : Prop := - 2 ^ 31 <= z < 2 ^ 31.
(** All the points of a shape at a position lie inside the grid. *)
Definition fits (s : shape) (x y : Z) : Prop :=
  forall p, p ∈ points s -> inside (y + HIGH_NIBBLE p) (x + LOW_NIBBLE p).
(** They are all free. *)
Definition free (g : list (list grid_elem)) (s : shape) (x y : Z) : Prop :=
  forall p, p ∈ points s ->
    inside (y + HIGH_NIBBLE p) (x + LOW_NIBBLE p) /\
    exists c, cell g (y + HIGH_NIBBLE p) (x + LOW_NIBBLE p) = Some c /\ is_set c = 0.

Lemma s32_int z : int (s32 z).
Proof.
  unfold int, s32, signed, wrap.
  destruct (Z.ltb_spec (z mod 2 ^ 32) (2 ^ (32 - 1))); zdiv.
Qed.
(** A sum of an [int] and a small offset that wraps into a small range did not wrap. *)
Lemma s32_offset x o n :
  int x -> 0 <= o < 16 -> 0 <= n < 1000 -> 0 <= s32 (x + o) < n <-> 0 <= x + o < n.
Proof.
  intros Hx Ho Hn. unfold int in Hx. unfold s32, signed, wrap.
  destruct (Z.ltb_spec ((x + o) mod 2 ^ 32) (2 ^ (32 - 1))); split; zdiv.
Qed.
Lemma nibbles p : 0 <= LOW_NIBBLE p < 16 /\ 0 <= HIGH_NIBBLE p < 16.
Proof. unfold LOW_NIBBLE, HIGH_NIBBLE. change 0xf with (Z.ones 4). rewrite !Z.land_ones by lia. zdiv. Qed.
Lemma offsets s p : p ∈ points s -> 0 <= LOW_NIBBLE p < 4 /\ 0 <= HIGH_NIBBLE p < 4.
Proof.
  intros H. assert (Hb : Forall (fun p => (0 <= LOW_NIBBLE p < 4 /\ 0 <= HIGH_NIBBLE p < 4)) (points s)).
  { destruct s; repeat constructor; vm_compute; congruence. }
  by apply (Forall_forall _ _) with (x := p) in Hb.
Qed.
Lemma points_cons s : exists p, p ∈ points s.
Proof. destruct s; eexists; left. Qed.

Lemma fits_range s x y : fits s x y -> -16 < x < 16 /\ -16 < y < 20.
Proof.
  intros H. destruct (points_cons s) as [p Hp]. specialize (H p Hp).
  pose proof (nibbles p). unfold inside in H. screen.
Qed.
Lemma free_fits g s x y : free g s x y -> fits s x y.
Proof. intros H p Hp. by apply H. Qed.

Lemma clashing_loop_run st x y ps :
  grid_ok (grid st) -> int x -> int y ->
  exists r, clashing_loop x y ps st = Ret (r, st) /\
    (r = false <-> forall p, p ∈ ps ->
       inside (y + HIGH_NIBBLE p) (x + LOW_NIBBLE p) /\
       exists c, cell (grid st) (y + HIGH_NIBBLE p) (x + LOW_NIBBLE p) = Some c /\ is_set c = 0).
Proof.
  intros Hg Hx Hy. induction ps as [|p ps IH]; cbn [clashing_loop].
  { exists false. split; [done|]. split; [|done]. intros _ p Hp. by apply elem_of_nil in Hp. }
  destruct (nibbles p) as [Hl Hh].
  pose proof (s32_offset x (LOW_NIBBLE p) GRID_WIDTH Hx Hl ltac:(unfold GRID_WIDTH; lia)) as Ex.
  pose proof (s32_offset y (HIGH_NIBBLE p) GRID_HEIGHT Hy Hh ltac:(unfold GRID_HEIGHT; lia)) as Ey.
  destruct (_ || _) eqn:Ho; [rewrite !orb_true_iff in Ho|rewrite !orb_false_iff in Ho].
  - exists true. split; [done|]. split; [done|]. intros H.
    destruct (H p) as [[Hiy Hix] _]; [left|]. apply Ex in Hix. apply Ey in Hiy.
    rewrite !Z.ltb_lt, !Z.leb_le in Ho. lia.
  - rewrite !Z.ltb_ge, !Z.leb_gt in Ho.
    assert (Hix : 0 <= x + LOW_NIBBLE p < GRID_WIDTH) by (apply Ex; lia).
    assert (Hiy : 0 <= y + HIGH_NIBBLE p < GRID_HEIGHT) by (apply Ey; lia).
    rewrite !s32_small by screen.
    destruct (get_cell_inside _ _ st Hg (conj Hiy Hix)) as (c & Hc & Hget).
    run_with Hget. destruct (truthy (is_set c)) eqn:Ht.
    + exists true. split; [done|]. split; [done|]. intros H.
      destruct (H p) as [_ (c' & Hc' & H0)]; [left|]. apply truthy_true in Ht. congruence.
    + apply truthy_false in Ht. destruct IH as (r & Hr & Hiff). exists r. split; [done|].
      rewrite Hiff. split; [|intros H q Hq; apply H; by right].
      intros H q [->|Hq]%elem_of_cons; [|by apply H].
      split; [by split|by exists c].
Qed.

Lemma is_block_clashing_run b s st :
  grid_ok (grid st) -> shp b = Some s -> int (x_pos b) -> int (y_pos b) ->
  exists r, is_block_clashing b st = Ret (r, st) /\
    (r = false <-> free (grid st) s (x_pos b) (y_pos b)).
Proof.
  intros Hg Hs Hx Hy. unfold is_block_clashing. rewrite Hs. cbn [deref]. rewrite bind_ret.
  by apply clashing_loop_run.
Qed.

(** *** Drawing and moving *)
Definition set_plotted (v : Z) (b : block) : block := b <| plotted := v |>.
Definition with_block (st : game) (b : block) (m : memory) : game :=
  (st <| mem := m |>) <| blk := b |>.
(** The block is now [b], drawn; only the screen changed with it. *)
Definition redrawn (st : game) (b : block) (st' : game) : Prop :=
  exists m, st' = with_block st b m /\ outside_screen (mem st) m.

Lemma with_block_same st : with_block st (blk st) (mem st) = st.
Proof. by destruct st. Qed.
Lemma with_block_update st b m f : (with_block st b m) <| blk ::= f |> = with_block st (f b) m.
Proof. by destruct st. Qed.
Lemma drawn_block st st' : drawn st st' -> redrawn st (blk st) st'.
Proof. intros (m & -> & H). exists m. split; [by destruct st|done]. Qed.
Lemma redrawn_trans st b st' b' st'' :
  redrawn st b st' -> redrawn st' b' st'' -> redrawn st b' st''.
Proof.
  intros (m & -> & H) (m' & -> & H'). exists m'. split; [by destruct st|].
  intros a Ha. rewrite (H' a Ha). apply (H a Ha).
Qed.

(** A point of a fitting shape is a cell of the screen. *)
Lemma on_screen_point s x y p i :
  fits s x y -> p ∈ points s -> 0 <= i < 2 ->
  on_screen (CHAR_VIDEO_ADDR (s32 (y + GRID_ASIS_Y) + HIGH_NIBBLE p)
               (s32 (x + GRID_AXIS_X) + LOW_NIBBLE p) + i).
Proof.
  intros Hf Hp Hi. pose proof (fits_range _ _ _ Hf). destruct (Hf p Hp).
  rewrite !s32_small by screen. screen.
Qed.
Lemma plot_shape_draws s c x y st : fits s x y -> draws (plot_shape s c x y) st.
Proof.
  intros Hf. apply draws_miter. intros p st' Hp.
  apply draws_seq; [|intros ? _]; apply draws_poke; [|by apply (on_screen_point s)].
  rewrite <- (Z.add_0_r (CHAR_VIDEO_ADDR _ _)). by apply (on_screen_point s).
Qed.
Lemma unplot_shape_draws s x y st : fits s x y -> draws (unplot_shape s x y) st.
Proof.
  intros Hf. apply draws_miter. intros p st' Hp.
  apply draws_seq; [|intros ? _]; apply draws_poke; [|by apply (on_screen_point s)].
  rewrite <- (Z.add_0_r (CHAR_VIDEO_ADDR _ _)). by apply (on_screen_point s).
Qed.

(** The block has a shape and lies inside the grid. *)
Definition placed (b : block) : Prop := exists s, shp b = Some s /\ fits s (x_pos b) (y_pos b).

Lemma plot_block_runs st :
  placed (blk st) ->
  runs plot_block st (fun _ st' => redrawn st (set_plotted 1 (blk st)) st').
Proof.
  intros (s & Hs & Hf). unfold plot_block. apply runs_bind, runs_gets. rewrite Hs. cbn [deref].
  apply runs_bind, runs_ret, runs_bind.
  eapply runs_mono; [by apply plot_shape_draws|]. intros [] st1 (m & -> & Hm).
  apply runs_modify. exists m. split; [by destruct st|done].
Qed.

Lemma unplot_block_runs st :
  placed (blk st) ->
  runs unplot_block st (fun _ st' => redrawn st (set_plotted 0 (blk st)) st').
Proof.
  intros (s & Hs & Hf). unfold unplot_block. apply runs_bind, runs_gets.
  destruct (truthy (plotted (blk st))) eqn:Ht; cbn [negb].
  - rewrite Hs. cbn [deref]. apply runs_bind, runs_ret, runs_bind.
    eapply runs_mono; [by apply unplot_shape_draws|]. intros [] st1 (m & -> & Hm).
    apply runs_modify. exists m. split; [by destruct st|done].
  - apply truthy_false in Ht. apply runs_ret. exists (mem st). split; [|by intros a].
    destruct st as [g b]. cbn in *. destruct b. cbn in Ht. by subst.
Qed.

Lemma redraw_as_runs f st :
  placed (blk st) -> placed (f (set_plotted 0 (blk st))) ->
  runs (redraw_as f) st
    (fun _ st' => redrawn st (set_plotted 1 (f (set_plotted 0 (blk st)))) st').
Proof.
  intros Hb Hf. unfold redraw_as. apply runs_bind.
  eapply runs_mono; [by apply unplot_block_runs|]. intros [] st1 H1. cbv beta in H1.
  assert (Eb : blk st1 = set_plotted 0 (blk st)) by (by destruct H1 as (m & -> & _)).
  apply runs_bind, runs_modify.
  set (st2 := st1 <| blk ::= f |>).
  assert (E2 : blk st2 = f (set_plotted 0 (blk st))) by (cbn; by rewrite Eb).
  eapply runs_mono; [apply plot_block_runs; by rewrite E2|].
  intros [] st3 H3. cbv beta in H3. rewrite E2 in H3. eapply redrawn_trans; [|exact H3].
  destruct H1 as (m & -> & Hm). exists m. split; [|done]. apply with_block_update.
Qed.

(** *** Rotation *)
Definition next_shape (b : block) (g : shape_group) : Z :=
  let cur := current_index (shapes g) (shp b) 0 in
  if cur <? 0 then 0 else (cur + 1) mod Z.of_nat (List.length (shapes g)).

Lemma current_index_range ss s i : 0 <= i -> -1 <= current_index ss s i.
Proof.
  revert i. induction ss as [|s' ss IH]; intros i Hi; cbn [current_index]; [lia|].
  case_bool_decide; [lia|]. apply IH. lia.
Qed.
Lemma shapes_length g : 0 < Z.of_nat (List.length (shapes g)) <= 4.
Proof. destruct g; cbn; lia. Qed.

Lemma nth_of_run {A} (l : list A) i (st : game) :
  0 <= i < Z.of_nat (List.length l) -> exists a, l !! Z.to_nat i = Some a /\ nth_of l i st = Ret (a, st).
Proof.
  intros Hi. destruct (lookup_lt_is_Some_2 l (Z.to_nat i)) as [a Ha]; [lia|]. exists a.
  split; [done|]. unfold nth_of. rewrite (proj2 (Z.leb_le 0 i)) by lia. by rewrite Ha.
Qed.

Lemma rotate_block_run b g st :
  grp b = Some g ->
  exists s, shapes g !! Z.to_nat (next_shape b g) = Some s /\
    rotate_block b st = Ret (b <| shp := Some s |>, st).
Proof.
  intros Hg. unfold rotate_block. rewrite Hg. cbn [deref]. rewrite bind_ret. cbv zeta.
  fold (next_shape b g). destruct (nth_of_run (shapes g) (next_shape b g) st) as (s & Hs & Hr).
  - unfold next_shape. pose proof (current_index_range (shapes g) (shp b) 0 ltac:(lia)).
    pose proof (shapes_length g). destruct (Z.ltb_spec (current_index (shapes g) (shp b) 0) 0); [lia|].
    apply Z.mod_pos_bound. lia.
  - exists s. split; [done|]. unfold bind. by rewrite Hr.
Qed.

(** *** Landing *)
Definition covers (s : shape) (bx by_ y x : Z) : bool :=
  existsb (fun p => (y =? by_ + HIGH_NIBBLE p) && (x =? bx + LOW_NIBBLE p)) (points s).

Lemma cell_alter f Y X g y x :
  0 <= Y -> 0 <= X ->
  cell (alter (alter f (Z.to_nat X)) (Z.to_nat Y) g) y x =
  if (y =? Y) && (x =? X) then f <$> cell g y x else cell g y x.
Proof.
  intros HY HX. unfold cell. destruct (Z.leb_spec 0 y), (Z.leb_spec 0 x); cbn;
    try (destruct (_ && _); reflexivity).
  destruct (Z.eqb_spec y Y) as [->|Hy]; cbn.
  - rewrite list_lookup_alter_eq. destruct (g !! Z.to_nat Y) as [r|]; cbn; [|by destruct (x =? X)].
    destruct (Z.eqb_spec x X) as [->|Hx]; [by rewrite list_lookup_alter_eq|].
    rewrite list_lookup_alter_ne; [done|lia].
  - rewrite list_lookup_alter_ne by lia. done.
Qed.

Definition stamped (g : list (list grid_elem)) (ps : list Z) (bx by_ c : Z) (g' : list (list grid_elem)) : Prop :=
  forall y x, cell g' y x =
    if existsb (fun p => (y =? by_ + HIGH_NIBBLE p) && (x =? bx + LOW_NIBBLE p)) ps
    then (fun _ => Cell 1 c) <$> cell g y x else cell g y x.

Definition with_grid (st : game) (g : list (list grid_elem)) : game := st <| grid := g |>.

Lemma put_cell_step y x f st :
  grid_ok (grid st) -> inside y x ->
  runs (put_cell y x f) st (fun _ st' => exists g, st' = with_grid st g /\ grid_ok g /\
    forall y' x', cell g y' x' = if (y' =? y) && (x' =? x) then f <$> cell (grid st) y' x'
                                 else cell (grid st) y' x').
Proof.
  intros Hg Hi. exists tt. eexists. split; [apply put_cell_run; by apply cell_inside|].
  exists (alter (alter f (Z.to_nat x)) (Z.to_nat y) (grid st)).
  split; [by destruct st|]. split; [by apply grid_ok_alter|].
  intros y' x'. destruct Hi. apply cell_alter; lia.
Qed.

Lemma with_grid_trans st g g' : with_grid (with_grid st g) g' = with_grid st g'.
Proof. by destruct st. Qed.
Lemma with_grid_same st : with_grid st (grid st) = st.
Proof. by destruct st. Qed.

Lemma finalize_block_runs b s st :
  grid_ok (grid st) -> shp b = Some s -> fits s (x_pos b) (y_pos b) ->
  runs (finalize_block b) st (fun _ st' => exists g, st' = with_grid st g /\ grid_ok g /\
    stamped (grid st) (points s) (x_pos b) (y_pos b) (u8 (blk_color b)) g).
Proof.
  intros Hg Hs Hf. unfold finalize_block. rewrite Hs. cbn [deref].
  apply runs_bind, runs_ret. pose proof (fits_range _ _ _ Hf) as Hr.
  assert (Hp : forall p, p ∈ points s -> inside (y_pos b + HIGH_NIBBLE p) (x_pos b + LOW_NIBBLE p)) by done.
  clear Hs Hf. revert st Hg Hp. induction (points s) as [|p ps IH]; intros st Hg Hp; cbn [miter].
  { apply runs_ret. exists (grid st). rewrite with_grid_same. split; [done|]. split; [done|].
    intros y x. reflexivity. }
  assert (Hi := Hp p ltac:(left)). pose proof (nibbles p) as Hn.
  apply runs_bind. cbv zeta. rewrite !s32_small by screen. apply runs_bind.
  eapply runs_mono; [by apply put_cell_step|]. intros [] st1 (g1 & -> & Hg1 & H1).
  eapply runs_mono; [by apply put_cell_step|]. intros [] st2 (g2 & -> & Hg2 & H2).
  rewrite with_grid_trans. eapply runs_mono; [apply IH; [done|]|].
  { intros q Hq. apply Hp. by right. }
  intros [] st3 (g3 & -> & Hg3 & H3). exists g3. rewrite with_grid_trans.
  split; [done|]. split; [done|]. intros y x. rewrite (H3 y x). cbn [existsb].
  change (grid (with_grid st g2)) with g2. rewrite (H2 y x).
  change (grid (with_grid st g1)) with g1. rewrite (H1 y x).
  destruct (_ && _), (existsb _ _), (cell (grid st) y x); reflexivity.
Qed.

(** *** New blocks *)
Lemma rand_runs range st :
  0 < range < 2 ^ 31 ->
  runs (rand range) st (fun r st' => 0 <= r < range /\ exists n, st' = st <| tsc_reads := n |>).
Proof.
  intros Hr. exists (u64 (tsc st (tsc_reads st)) mod range). exists (st <| tsc_reads ::= S |>).
  split.
  - unfold rand, rdtsc. unfold bind. rewrite (proj2 (Z.eqb_neq range 0)) by lia. unfold ret.
    rewrite (u64_small range) by lia. pose proof (Z.mod_pos_bound (u64 (tsc st (tsc_reads st))) range ltac:(lia)).
    by rewrite s32_small by lia.
  - split; [apply Z.mod_pos_bound; lia|]. eexists. reflexivity.
Qed.

(** Any shape fits at the position of a new block. *)
Lemma new_fits s : fits s (GRID_WIDTH / 2) 0.
Proof.
  intros p Hp. pose proof (offsets s p Hp). change (GRID_WIDTH / 2) with 8. unfold inside. screen.
Qed.

Definition new_at (b b' : block) : Prop :=
  exists s g c, b' = Block (plotted b) (GRID_WIDTH / 2) 0 c (Some s) (Some g) /\
    s ∈ shapes g /\ c ∈ colors.

Lemma nth_of_runs {A} (l : list A) i (st : game) :
  0 <= i < Z.of_nat (List.length l) -> runs (nth_of l i) st (fun a st' => st' = st /\ a ∈ l).
Proof.
  intros Hi. destruct (nth_of_run l i st Hi) as (a & Ha & Hr). exists a, st. split; [done|].
  split; [done|]. by eapply list_elem_of_lookup_2.
Qed.

Lemma new_block_runs st :
  runs new_block st (fun _ st' => exists n b,
    st' = (st <| tsc_reads := n |>) <| blk := b |> /\ new_at (blk st) b).
Proof.
  unfold new_block. apply runs_bind.
  eapply runs_mono; [by apply rand_runs|]. intros i1 st1 (Hi1 & n1 & ->).
  apply runs_bind. eapply runs_mono; [by apply nth_of_runs|]. intros g st2 (-> & Hg).
  apply runs_bind. pose proof (shapes_length g).
  eapply runs_mono; [apply rand_runs; lia|]. intros i2 st3 (Hi2 & n2 & ->).
  apply runs_bind. eapply runs_mono; [by apply rand_runs|]. intros i3 st4 (Hi3 & n3 & ->).
  apply runs_bind. eapply runs_mono; [by apply nth_of_runs|]. intros s st5 (-> & Hs).
  apply runs_bind. eapply runs_mono; [by apply nth_of_runs|]. intros c st6 (-> & Hc).
  apply runs_modify. eexists n3, _. split; [by destruct st|]. by exists s, g, c.
Qed.

Lemma new_placed b b' : new_at b b' -> placed b' /\ is_Some (grp b').
Proof.
  intros (s & g & c & -> & _). split; [|by exists g]. exists s. split; [done|]. apply new_fits.
Qed.

(** ** Purging *)
Definition full (r : list grid_elem) : bool := forallb (fun c => truthy (is_set c)) r.
Definition clear (r : list grid_elem) : list grid_elem := map (fun c => c <| is_set := 0 |>) r.
Definition nr_full (g : list (list grid_elem)) : nat := List.length (List.filter full g).
(** The full rows are taken out; as many rows at the top are freed, and keep
    their colours. *)
Definition purged (g : list (list grid_elem)) : list (list grid_elem) :=
  map clear (take (nr_full g) g) ++ List.filter (fun r => negb (full r)) g.

Lemma get_cell_row y r x st :
  grid st !! y = Some r -> 0 <= x ->
  get_cell (Z.of_nat y) x st = match r !! Z.to_nat x with Some c => Ret (c, st) | None => Stop BadAccess end.
Proof.
  intros Hr Hx. rewrite get_cell_run. unfold cell.
  rewrite (proj2 (Z.leb_le 0 (Z.of_nat y))), (proj2 (Z.leb_le 0 x)) by lia. cbn.
  by rewrite Nat2Z.id, Hr.
Qed.

Lemma row_is_full_run n y r x st :
  grid st !! y = Some r -> 0 <= x -> (Z.to_nat x + n = List.length r)%nat ->
  row_is_full n (Z.of_nat y) x st = Ret (full (drop (Z.to_nat x) r), st).
Proof.
  intros Hr. revert x. induction n as [|n IH]; intros x Hx Hn; cbn [row_is_full].
  { rewrite drop_ge by lia. reflexivity. }
  destruct (lookup_lt_is_Some_2 r (Z.to_nat x)) as [c Hc]; [lia|].
  unfold bind. rewrite (get_cell_row _ _ _ _ Hr Hx), Hc.
  rewrite (drop_S _ _ _ Hc). cbn [full forallb]. destruct (truthy (is_set c)); [|done].
  rewrite IH by lia. replace (Z.to_nat (x + 1)) with (S (Z.to_nat x)) by lia. done.
Qed.

(** The indices of the rows that are not full, from the last one up. *)
Fixpoint left_rows (n : nat) (g : list (list grid_elem)) : list nat :=
  match n with
  | O => []
  | S k => match g !! k with
           | Some r => if full r then left_rows k g else k :: left_rows k g
           | None => left_rows k g
           end
  end.

Lemma scan_rows_run n p st :
  grid_ok (grid st) -> (n <= List.length (grid st))%nat ->
  scan_rows n p st =
    Ret ((map Z.of_nat (left_rows n (grid st)), p + Z.of_nat (nr_full (take n (grid st)))), st).
Proof.
  intros [Hl Hf]. revert p. induction n as [|k IH]; intros p Hn; cbn [scan_rows left_rows].
  { cbn. by rewrite Z.add_0_r. }
  destruct (lookup_lt_is_Some_2 (grid st) k) as [r Hr]; [lia|].
  assert (Hw : List.length r = Z.to_nat GRID_WIDTH) by (eapply Forall_lookup_1 in Hf; eauto).
  rewrite (take_S_r _ _ _ Hr). unfold nr_full. rewrite List.filter_app, List.length_app.
  fold (nr_full (take k (grid st))). cbv zeta. unfold bind.
  rewrite (row_is_full_run _ _ _ _ _ Hr) by (rewrite ?Hw; done). cbn [Z.to_nat]. rewrite drop_0, Hr.
  cbn [List.filter]. destruct (full r); rewrite IH by lia; cbn [List.length].
  - do 3 f_equal. lia.
  - cbv [ret]. cbn. do 3 f_equal. lia.
Qed.

(** A row rewritten cell by cell from [r] to [r']: the state after [x] cells. *)
Definition mixed (x : nat) (r r' : list grid_elem) : list grid_elem := firstn x r' ++ skipn x r.

Lemma mixed_lookup x y r r' :
  List.length r = List.length r' ->
  mixed x r r' !! y = if decide (y < x)%nat then r' !! y else r !! y.
Proof.
  intros Hl. unfold mixed. case_decide.
  - destruct (decide (y < List.length r')%nat).
    + rewrite lookup_app_l by (rewrite length_take; lia). by rewrite lookup_take_lt.
    + rewrite !lookup_ge_None_2; [done|lia|]. rewrite length_app, length_take, length_drop. lia.
  - destruct (decide (x <= List.length r')%nat).
    + rewrite lookup_app_r by (rewrite length_take; lia).
      rewrite length_take, lookup_drop. f_equal. lia.
    + rewrite !lookup_ge_None_2; [done|lia|]. rewrite length_app, length_take, length_drop. lia.
Qed.

Lemma mixed_step x r r' c f c0 :
  List.length r = List.length r' -> r' !! x = Some c -> r !! x = Some c0 -> f c0 = c ->
  alter f x (mixed x r r') = mixed (S x) r r'.
Proof.
  intros Hl Hc H0 Hf. apply list_eq. intros y. rewrite mixed_lookup by done.
  destruct (decide (x = y)) as [<-|Hne].
  - rewrite list_lookup_alter_eq, mixed_lookup by done. rewrite decide_False by lia.
    rewrite decide_True by lia. rewrite H0, Hc. cbn. by f_equal.
  - rewrite list_lookup_alter_ne, mixed_lookup by done.
    destruct (decide (y < x)%nat), (decide (y < S x)%nat); (done || lia).
Qed.

Lemma put_row g t r r' x c c0 f st :
  (t < List.length g)%nat -> List.length r = List.length r' ->
  r' !! x = Some c -> r !! x = Some c0 -> f c0 = c ->
  put_cell (Z.of_nat t) (Z.of_nat x) f (with_grid st (<[t := mixed x r r']> g)) =
  Ret (tt, with_grid st (<[t := mixed (S x) r r']> g)).
Proof.
  intros Ht Hl Hc H0 Hf. rewrite put_cell_run.
  - rewrite !Nat2Z.id. do 2 f_equal. destruct st. unfold with_grid. cbn. unfold update. cbn. f_equal.
    rewrite <- (mixed_step x r r' c f c0) by done. apply list_eq. intros i.
    destruct (decide (t = i)) as [<-|Hne].
    + rewrite list_lookup_alter_eq, !list_lookup_insert_eq by done. done.
    + rewrite list_lookup_alter_ne, !list_lookup_insert_ne by done. done.
  - change (grid (with_grid st ?g)) with g. unfold cell.
    rewrite (proj2 (Z.leb_le 0 (Z.of_nat t))), (proj2 (Z.leb_le 0 (Z.of_nat x))) by lia.
    cbn. rewrite !Nat2Z.id, list_lookup_insert_eq by done.
    cbn. rewrite mixed_lookup, decide_False by (done || lia). by exists c0.
Qed.

Lemma row_loop body g t r r' n x st :
  (x + n = List.length r')%nat -> List.length r = List.length r' ->
  (forall y c c0, r' !! y = Some c -> r !! y = Some c0 ->
     body (Z.of_nat y) (with_grid st (<[t := mixed y r r']> g)) =
     Ret (tt, with_grid st (<[t := mixed (S y) r r']> g))) ->
  mfor n (Z.of_nat x) body (with_grid st (<[t := mixed x r r']> g)) =
  Ret (tt, with_grid st (<[t := r']> g)).
Proof.
  intros Hn Hl Hb. revert x Hn. induction n as [|n IH]; intros x Hn; cbn [mfor].
  { unfold mixed. rewrite take_ge, drop_ge, app_nil_r by lia. reflexivity. }
  destruct (lookup_lt_is_Some_2 r' x) as [c Hc]; [lia|].
  destruct (lookup_lt_is_Some_2 r x) as [c0 H0]; [lia|].
  unfold bind. rewrite (Hb _ _ _ Hc H0). replace (Z.of_nat x + 1) with (Z.of_nat (S x)) by lia.
  apply IH. lia.
Qed.

Lemma mixed_0 r r' : mixed 0 r r' = r.
Proof. reflexivity. Qed.

Lemma copy_row_run g t s rt rs st :
  g !! t = Some rt -> g !! s = Some rs ->
  List.length rt = Z.to_nat GRID_WIDTH -> List.length rs = Z.to_nat GRID_WIDTH ->
  copy_row (Z.of_nat t) (Z.of_nat s) (with_grid st g) = Ret (tt, with_grid st (<[t := rs]> g)).
Proof.
  intros Ht Hs Hlt Hls. unfold copy_row. rewrite <- Hls.
  rewrite <- (list_insert_id _ _ _ Ht) at 1. change 0 with (Z.of_nat 0). rewrite <- (mixed_0 rt rs) at 1.
  apply (row_loop _ g t rt rs); [done|congruence|].
  intros y c c0 Hc H0. unfold bind.
  assert (Hrow : exists r, <[t := mixed y rt rs]> g !! s = Some r /\ r !! y = Some c).
  { destruct (decide (t = s)) as [->|Hne].
    - exists (mixed y rt rs). rewrite list_lookup_insert_eq by (by eapply lookup_lt_Some).
      split; [done|]. rewrite mixed_lookup, decide_False by (congruence || lia). congruence.
    - exists rs. by rewrite list_lookup_insert_ne by done. }
  destruct Hrow as (r & Hr & Hrc).
  rewrite (get_cell_row s r (Z.of_nat y) (with_grid st (<[t := mixed y rt rs]> g))) by (done || lia).
  rewrite Nat2Z.id, Hrc. apply (put_row g t rt rs y c c0); try done; try congruence.
  by eapply lookup_lt_Some.
Qed.

Lemma clear_row_run g t rt st :
  g !! t = Some rt -> List.length rt = Z.to_nat GRID_WIDTH ->
  clear_row (Z.of_nat t) (with_grid st g) = Ret (tt, with_grid st (<[t := clear rt]> g)).
Proof.
  intros Ht Hlt. unfold clear_row. rewrite <- Hlt.
  assert (El : List.length (clear rt) = List.length rt) by apply length_map.
  pose proof (list_insert_id g t (mixed 0 rt (clear rt)) Ht) as E0. rewrite <- E0 at 1.
  change 0 with (Z.of_nat 0) at 1.
  apply (row_loop _ g t rt (clear rt)); [lia|lia|].
  intros y c c0 Hc H0. apply (put_row g t rt (clear rt) y c c0); try done.
  - by eapply lookup_lt_Some.
  - unfold clear in Hc. rewrite list_lookup_fmap in Hc. rewrite H0 in Hc. by injection Hc.
Qed.

(** Descending lists of indices below [t]. *)
Fixpoint desc (t : nat) (l : list nat) : Prop :=
  match l with [] => True | s :: l => (s < t)%nat /\ desc s l end.
Lemma desc_le t t' l : (t <= t')%nat -> desc t l -> desc t' l.
Proof. destruct l; [done|]. cbn. intros ? [? ?]. split; [lia|done]. Qed.

Definition wide (g : list (list grid_elem)) : Prop :=
  Forall (fun r => List.length r = Z.to_nat GRID_WIDTH) g.
Lemma wide_lookup g i r : wide g -> g !! i = Some r -> List.length r = Z.to_nat GRID_WIDTH.
Proof. intros H. apply (Forall_lookup_1 _ _ _ _ H). Qed.

(** The rows copied so far lie below the target row; the rows above it are
    the original ones, and so are the sources still to be read. *)
Lemma copy_rows_run g l t below st :
  wide g -> wide below -> (t <= List.length g)%nat -> desc t l ->
  copy_rows (map Z.of_nat l) (Z.of_nat t - 1) (with_grid st (firstn t g ++ below)) =
  Ret (Z.of_nat (t - List.length l) - 1,
       with_grid st (firstn (t - List.length l) g ++ omap (fun i => g !! i) (rev l) ++ below)).
Proof.
  intros Hg. revert t below. induction l as [|s l IH]; intros t below Hb Ht Hd;
    cbn [map copy_rows List.length rev].
  { by rewrite Nat.sub_0_r. }
  destruct Hd as [Hs Hd]. destruct t as [|t]; [lia|].
  destruct (lookup_lt_is_Some_2 g s) as [rs Hrs]; [lia|].
  destruct (lookup_lt_is_Some_2 g t) as [rt Hrt]; [lia|].
  assert (Hlen : List.length (firstn (S t) g) = S t) by (rewrite length_take; lia).
  replace (Z.of_nat (S t) - 1) with (Z.of_nat t) by lia.
  assert (Hat : forall i, (i < S t)%nat -> (firstn (S t) g ++ below) !! i = g !! i).
  { intros i Hi. rewrite lookup_app_l by lia. by apply lookup_take_lt. }
  unfold bind. rewrite (copy_row_run _ t s rt rs);
    [|by rewrite Hat by lia|by rewrite Hat by lia|exact (wide_lookup _ _ _ Hg Hrt)|exact (wide_lookup _ _ _ Hg Hrs)].
  assert (E : <[t:=rs]> (firstn (S t) g ++ below) = firstn t g ++ rs :: below).
  { rewrite (take_S_r _ _ _ Hrt), <- app_assoc. cbn.
    rewrite insert_app_r_alt by (rewrite length_take; lia).
    rewrite length_take. replace (t - t `min` List.length g)%nat with O by lia. done. }
  rewrite E, IH; [|constructor; [exact (wide_lookup _ _ _ Hg Hrs)|done]|lia|by eapply desc_le; [|exact Hd]; lia].
  rewrite omap_app. cbn. rewrite Hrs. cbn. by rewrite <- app_assoc.
Qed.

Lemma clear_rows_run n a b st :
  wide a -> List.length a = n ->
  clear_rows n (Z.of_nat n - 1) (with_grid st (a ++ b)) = Ret (tt, with_grid st (map clear a ++ b)).
Proof.
  revert a b. induction n as [|n IH]; intros a b Ha Hn; cbn [clear_rows].
  { apply nil_length_inv in Hn as ->. reflexivity. }
  destruct a as [|r a' _] using rev_ind; [done|].
  rewrite length_app in Hn. cbn in Hn. assert (Hn' : List.length a' = n) by lia.
  apply Forall_app in Ha as [Ha Hr]. apply Forall_inv in Hr.
  replace (Z.of_nat (S n) - 1) with (Z.of_nat n) by lia. rewrite <- app_assoc.
  unfold bind. rewrite (clear_row_run _ n r); [|rewrite lookup_app_r, Hn', Nat.sub_diag by lia; reflexivity|exact Hr].
  rewrite insert_app_r_alt by lia. rewrite Hn', Nat.sub_diag. cbn.
  rewrite IH by done. by rewrite map_app, <- app_assoc.
Qed.

Lemma left_rows_spec g n :
  (n <= List.length g)%nat ->
  desc n (left_rows n g) /\
  (List.length (left_rows n g) + nr_full (firstn n g) = n)%nat /\
  omap (fun i => g !! i) (rev (left_rows n g)) = List.filter (fun r => negb (full r)) (firstn n g).
Proof.
  induction n as [|k IH]; intros Hn; cbn [left_rows]; [by vm_compute|].
  destruct (lookup_lt_is_Some_2 g k) as [r Hr]; [lia|].
  destruct IH as (Hd & Hc & Ho); [lia|].
  rewrite Hr, (take_S_r _ _ _ Hr). unfold nr_full in *. rewrite !List.filter_app, length_app.
  cbn [List.filter]. destruct (full r); cbn [negb].
  - split; [by eapply desc_le; [|exact Hd]; lia|]. split; [cbn [List.length]; lia|].
    by rewrite app_nil_r.
  - split; [split; [lia|done]|]. split; [cbn [List.length]; lia|].
    cbn [rev]. rewrite omap_app, Ho. cbn. by rewrite Hr.
Qed.

(** The two messages of the game. *)
Definition score_message (n : Z) : message := (text_of "current score:%d" ++ [10], [Number n]).
Definition running_message (run : bool) : message :=
  (text_of "teris running:%s" ++ [10], [Literal (if run then "true" else "false")]).
Definition said (l : list message) (st : game) : game := st <| messages ::= fun x => x ++ l |>.

(** What a purge does to the score and says about it. *)
Definition scored (st : game) (n : nat) : game :=
  said [score_message (s32 (score st + Z.of_nat n))] (st <| score := s32 (score st + Z.of_nat n) |>).

Lemma purge_grid_run st :
  grid_ok (grid st) ->
  purge_grid st =
    Ret (tt, if decide (nr_full (grid st) = O) then st
             else with_grid (scored st (nr_full (grid st))) (purged (grid st))).
Proof.
  intros Hg. pose proof Hg as [Hl Hf]. unfold purge_grid.
  run_with (scan_rows_run (Z.to_nat GRID_HEIGHT) 0 st Hg ltac:(lia)).
  rewrite <- Hl. rewrite firstn_all. cbv iota beta. rewrite Z.add_0_l.
  case_decide as Hk.
  { rewrite Hk. reflexivity. }
  rewrite (proj2 (Z.eqb_neq (Z.of_nat _) 0)) by lia. rewrite bind_modify. cbv beta.
  rewrite bind_gets. cbv beta.
  rewrite (bind_run _ _ _ tt (scored st (nr_full (grid st)))) by (by destruct st). cbv beta.
  set (st1 := scored st (nr_full (grid st))).
  destruct (left_rows_spec (grid st) (List.length (grid st)) ltac:(lia)) as (Hd & Hc & Ho).
  rewrite firstn_all in Hc, Ho.
  pose proof (copy_rows_run (grid st) (left_rows (List.length (grid st)) (grid st))
                (List.length (grid st)) [] st1 Hf ltac:(constructor) ltac:(lia) Hd) as Hcopy.
  rewrite firstn_all, !app_nil_r, Ho in Hcopy.
  replace (List.length (grid st) - List.length (left_rows (List.length (grid st)) (grid st)))%nat
    with (nr_full (grid st)) in Hcopy by lia.
  assert (E1 : with_grid st1 (grid st) = st1) by (unfold st1; by destruct st).
  rewrite E1 in Hcopy.
  assert (E2 : Z.of_nat (List.length (grid st)) = GRID_HEIGHT) by (rewrite Hl; reflexivity).
  rewrite E2 in Hcopy. run_with Hcopy.
  replace (Z.of_nat (nr_full (grid st)) - 1 + 1) with (Z.of_nat (nr_full (grid st))) by lia.
  rewrite Nat2Z.id. apply clear_rows_run; [by apply Forall_take|].
  rewrite length_take. lia.
Qed.

Lemma full_clear r : List.length r = Z.to_nat GRID_WIDTH -> full (clear r) = false.
Proof. destruct r; [done|]. reflexivity. Qed.

Lemma filter_length_split {A} (f : A -> bool) l :
  (List.length (List.filter f l) + List.length (List.filter (fun x => negb (f x)) l))%nat = List.length l.
Proof. induction l as [|a l IH]; [done|]. cbn. destruct (f a); cbn; lia. Qed.

Lemma purged_ok g : grid_ok g -> grid_ok (purged g) /\ nr_full (purged g) = O.
Proof.
  intros [Hl Hf]. pose proof (filter_length_split full g) as Hs. unfold purged. split; [split|].
  - rewrite length_app, length_map, length_take. unfold nr_full. lia.
  - apply Forall_app. split.
    + apply Forall_map, Forall_take. eapply Forall_impl; [exact Hf|]. intros r Hr. etransitivity; [apply length_map|exact Hr].
    + apply Forall_forall. intros r Hr. apply list_elem_of_In, filter_In in Hr as [Hr _].
      apply list_elem_of_In in Hr. by apply (proj1 (Forall_forall _ _) Hf).
  - unfold nr_full. rewrite List.filter_app, length_app.
    assert (E : forall l, Forall (fun r => full r = false) l -> List.filter full l = []).
    { induction 1 as [|r l Hr _ IH]; [done|]. cbn. by rewrite Hr. }
    rewrite !E; [done| |].
    + apply Forall_forall. intros r Hr. apply list_elem_of_In, filter_In in Hr as [_ Hr].
      by apply negb_true_iff.
    + apply Forall_map, Forall_take. eapply Forall_impl; [exact Hf|]. apply full_clear.
Qed.
