(* ===== verification/Game.v ===== *)
(** * Game: the handlers of the guest's game.

    The invariant of the game, what each key does, and the properties of the
    whole: no sequence of interrupts can crash it. *)
From Stdlib Require Import ZArith Lia String Ascii.
From stdpp Require Import base tactics list numbers gmap.
From S2P Require Import Prelude Memory Tetris Grid.
Local Open Scope Z_scope.

(** ** The keys *)
Definition game_ok (st : game) : Prop :=
  grid_ok (grid st) /\ cpu_freq st <> 0 /\
  (is_running st = true -> started st = true) /\
  (started st = true -> placed (blk st) /\ is_Some (grp (blk st))).

Lemma set_plotted_placed v b : placed b -> placed (set_plotted v b).
Proof. done. Qed.
Lemma placed_free g b s : shp b = Some s -> free g s (x_pos b) (y_pos b) -> placed b.
Proof. intros Hs Hf. exists s. split; [done|]. by eapply free_fits. Qed.

Lemma redrawn_ok st b st' :
  game_ok st -> placed b -> is_Some (grp b) -> redrawn st b st' ->
  game_ok st' /\ outside_screen (mem st) (mem st').
Proof. intros (Hg & Hc & Hr & Hs) Hp Hgrp (m & -> & Hm). by repeat split; try apply Hg. Qed.

(** How a key that moves the block may move it. *)
Record shifts (f : block -> block) : Prop := {
  shift_shp : forall b, shp (f b) = shp b;
  shift_grp : forall b, grp (f b) = grp b;
  shift_plotted : forall v b, f (set_plotted v b) = set_plotted v (f b);
  shift_x : forall b, int (x_pos b) -> int (x_pos (f b));
  shift_y : forall b, int (y_pos b) -> int (y_pos (f b)) }.

Lemma placed_int b : placed b -> int (x_pos b) /\ int (y_pos b).
Proof. intros (s & _ & Hf). apply fits_range in Hf. unfold int. lia. Qed.

Lemma redraw_shift_runs f s st :
  shifts f -> placed (blk st) -> shp (blk st) = Some s ->
  free (grid st) s (x_pos (f (blk st))) (y_pos (f (blk st))) ->
  runs (redraw_as f) st (fun _ st' => redrawn st (set_plotted 1 (f (blk st))) st').
Proof.
  intros Hf Hp Hs Hfree.
  assert (Hpf : placed (f (blk st))) by (apply (placed_free (grid st) _ s); [by rewrite (shift_shp f)|done]).
  assert (E : f (set_plotted 0 (blk st)) = set_plotted 0 (f (blk st))) by by rewrite (shift_plotted f).
  eapply runs_mono; [apply redraw_as_runs; [done|by rewrite E]|].
  intros [] st' H. cbv beta in H. by rewrite E in H.
Qed.

Lemma clashing_shift_run f st :
  shifts f -> grid_ok (grid st) -> placed (blk st) ->
  exists s r, shp (blk st) = Some s /\ is_block_clashing (f (blk st)) st = Ret (r, st) /\
    (r = false <-> free (grid st) s (x_pos (f (blk st))) (y_pos (f (blk st)))).
Proof.
  intros Hf Hg Hp. pose proof (placed_int _ Hp) as [Hx Hy]. destruct Hp as (s & Hs & _).
  destruct (is_block_clashing_run (f (blk st)) s st) as (r & Hr & Hiff); try done.
  - by rewrite (shift_shp f).
  - by apply (shift_x f).
  - by apply (shift_y f).
  - by exists s, r.
Qed.

(** Left and right: move when the place is free, else do nothing. *)
Definition shift (f : block -> block) : M game unit :=
  let! b := gets blk in
  let! clash := is_block_clashing (f b) in
  if clash then ret tt else redraw_as f.

Lemma shifts_left : shifts (fun b => b <| x_pos ::= fun x => s32 (x - 1) |>).
Proof. split; try done. intros b _. apply s32_int. Qed.
Lemma shifts_right : shifts (fun b => b <| x_pos ::= fun x => s32 (x + 1) |>).
Proof. split; try done. intros b _. apply s32_int. Qed.
Lemma shifts_down : shifts (fun b => b <| y_pos ::= fun y => s32 (y + 1) |>).
Proof. split; try done. intros b _. apply s32_int. Qed.

Lemma purged_none g : nr_full g = O -> purged g = g.
Proof.
  unfold purged. intros H. rewrite H, take_0. cbn [map app]. unfold nr_full in H. apply nil_length_inv in H.
  induction g as [|r g IH]; [done|]. cbn in *. destruct (full r); [done|]. cbn. f_equal. by apply IH.
Qed.

Definition score_after (st : game) (n : nat) : Z :=
  if decide (n = O) then score st else s32 (score st + Z.of_nat n).

Definition purge_messages (st : game) (n : nat) : list message :=
  if decide (n = O) then [] else [score_message (score_after st n)].

Lemma purge_grid_runs st :
  grid_ok (grid st) ->
  runs purge_grid st (fun _ st' => grid_ok (grid st') /\
    st' = with_grid (said (purge_messages st (nr_full (grid st)))
      (st <| score := score_after st (nr_full (grid st)) |>)) (purged (grid st))).
Proof.
  intros Hg. eexists tt, _. split; [by apply purge_grid_run|].
  unfold scored, purge_messages, score_after. case_decide as Hn.
  - split; [done|]. rewrite purged_none by done. destruct st. unfold said. cbv [update]. cbn. by rewrite app_nil_r.
  - split; [by apply purged_ok|done].
Qed.

(** The block has landed: its cells are set, the full rows are gone, and a new
    block waits at the top; the game goes on when there is room for it. *)
Definition landed (st : game) (s : shape) (st' : game) : Prop :=
  exists g1 s' gr c v,
    stamped (grid st) (points s) (x_pos (blk st)) (y_pos (blk st)) (u8 (blk_color (blk st))) g1 /\
    grid_ok g1 /\ grid st' = purged g1 /\ grid_ok (purged g1) /\ score st' = score_after st (nr_full g1) /\
    blk st' = Block v (GRID_WIDTH / 2) 0 c (Some s') (Some gr) /\ s' ∈ shapes gr /\
    (is_running st' = true <-> free (purged g1) s' (GRID_WIDTH / 2) 0) /\
    started st' = started st /\ cpu_freq st' = cpu_freq st /\ outside_screen (mem st) (mem st') /\
    messages st' = messages st ++ purge_messages st (nr_full g1) ++
      (if is_running st' then [] else [running_message false]).

(** The last part of a landing: the new block is drawn, or the game stops. *)
Definition settle : M game unit :=
  let! b := gets blk in
  let! clash := is_block_clashing b in
  if clash then modify (fun g => g <| is_running := false |>) ;;; print_running else plot_block.

Lemma settle_runs s st :
  grid_ok (grid st) -> shp (blk st) = Some s -> placed (blk st) -> is_running st = true ->
  runs settle st (fun _ st' => exists m v (r : bool),
    st' = said (if r then [] else [running_message false])
      ((with_block st (set_plotted v (blk st)) m) <| is_running := r |>) /\
    outside_screen (mem st) m /\
    (r = true <-> free (grid st) s (x_pos (blk st)) (y_pos (blk st)))).
Proof.
  intros Hg Hs Hp Hrun. pose proof (placed_int _ Hp) as [Hx Hy].
  destruct (is_block_clashing_run (blk st) s st Hg Hs Hx Hy) as (r & Hr & Hiff).
  unfold settle. apply runs_bind, runs_gets, runs_bind. exists r, st. split; [done|]. destruct r.
  - eexists tt, _. split; [reflexivity|]. exists (mem st), (plotted (blk st)), false.
    split; [destruct st as [? []]; reflexivity|]. split; [by intros a|]. split; [done|].
    intros Hf. by apply Hiff in Hf.
  - eapply runs_mono; [by apply plot_block_runs|]. intros [] st' (m & -> & Hm).
    exists m, 1, true.
    split; [destruct st; cbn in Hrun; subst; unfold said; cbv [update]; cbn; by rewrite app_nil_r|].
    split; [done|]. split; [|done]. intros _. by apply Hiff.
Qed.

Lemma land_runs s st :
  game_ok st -> is_running st = true -> shp (blk st) = Some s -> placed (blk st) ->
  runs (finalize_block (blk st) ;;; purge_grid ;;; init_grid true ;;; new_block ;;; settle) st
    (fun _ st' => landed st s st').
Proof.
  intros (Hg & _) Hrun Hs Hp.
  assert (Hf : fits s (x_pos (blk st)) (y_pos (blk st))) by (destruct Hp as (s' & Hs' & Hf); rewrite Hs in Hs'; by injection Hs' as ->).
  apply runs_bind. eapply runs_mono; [by apply finalize_block_runs|].
  intros [] st1 (g1 & -> & Hg1 & Hst).
  apply runs_bind. eapply runs_mono; [by apply purge_grid_runs|].
  intros [] st2 (Hg2 & ->). change (grid (with_grid ?s ?g)) with g in *.
  apply runs_bind. eapply runs_mono; [by apply init_grid_draws|]. intros [] st3 (m3 & -> & Hm3).
  apply runs_bind. eapply runs_mono; [apply new_block_runs|]. intros [] st4 (t & b & -> & Hb).
  destruct (new_placed _ _ Hb) as [Hbp _]. destruct Hb as (s' & gr & c & -> & Hs' & _).
  eapply runs_mono; [by apply (settle_runs s')|]. intros [] st5 (m5 & v & r & -> & Hm5 & Hr).
  exists g1, s', gr, c, v. split; [exact Hst|]. split; [exact Hg1|]. split; [done|]. split; [exact Hg2|].
  split; [done|]. split; [done|]. split; [exact Hs'|]. split; [exact Hr|]. split; [done|]. split; [done|].
  split; [|symmetry; apply app_assoc].
  intros a Ha. change (rd8 m5 a = rd8 (mem st) a). rewrite (Hm5 a Ha). apply (Hm3 a Ha).
Qed.

Lemma arrow_down_runs st :
  game_ok st -> is_running st = true ->
  runs on_key_arrow_down st (fun _ st' => exists s, shp (blk st) = Some s /\
    (free (grid st) s (x_pos (blk st)) (y_pos (blk st) + 1) /\
       redrawn st (set_plotted 1 ((blk st) <| y_pos ::= fun y => s32 (y + 1) |>)) st' \/
     ~ free (grid st) s (x_pos (blk st)) (y_pos (blk st) + 1) /\ landed st s st')).
Proof.
  intros Hok Hrun. pose proof Hok as (Hg & _ & Hr & Hs). destruct (Hs (Hr Hrun)) as [Hp _].
  destruct (clashing_shift_run _ st shifts_down Hg Hp) as (s & r & Hshp & Hclash & Hiff).
  pose proof Hp as (s0 & Hs0 & Hfit). apply fits_range in Hfit.
  assert (E : y_pos ((blk st) <| y_pos ::= fun y => s32 (y + 1) |>) = y_pos (blk st) + 1)
    by (change (s32 (y_pos (blk st) + 1) = y_pos (blk st) + 1); apply s32_small; lia).
  rewrite E in Hiff.
  unfold on_key_arrow_down. apply runs_bind, runs_gets. rewrite Hrun. cbn [negb].
  apply runs_bind, runs_gets, runs_bind. eexists r, st. split; [exact Hclash|]. destruct r.
  - eapply runs_mono; [by apply (land_runs s)|]. intros [] st' H. exists s. split; [done|].
    right. split; [|done]. intros Hf. apply Hiff in Hf. done.
  - eapply runs_mono; [apply (redraw_shift_runs _ s st shifts_down Hp Hshp)|].
    + rewrite E. by apply Hiff.
    + intros [] st' H. exists s. split; [done|]. left. split; [by apply Hiff|done].
Qed.

(** ** What the game says

    A change of the score is told, and then a change between running and suspended. *)
Definition announced (st st' : game) : list message :=
  (if decide (score st' = score st) then [] else [score_message (score st')]) ++
  (if Bool.eqb (is_running st') (is_running st) then [] else [running_message (is_running st')]).
Definition tells (st st' : game) : Prop := messages st' = messages st ++ announced st st'.
Definition silent (st st' : game) : Prop := messages st' = messages st.
(** Nothing happened that is told. *)
Definition quiet (st st' : game) : Prop :=
  score st' = score st /\ is_running st' = is_running st /\ messages st' = messages st.

Lemma quiet_tells st st' : quiet st st' -> tells st st'.
Proof.
  intros (E1 & E2 & E3). unfold tells, announced. rewrite decide_True by done. rewrite E2, E3, Bool.eqb_reflx.
  symmetry. apply app_nil_r.
Qed.
Lemma quiet_first st st1 st' : quiet st st1 -> tells st1 st' -> tells st st'.
Proof. intros (E1 & E2 & E3). unfold tells, announced. by rewrite E1, E2, E3. Qed.
Lemma redrawn_quiet st b st' : redrawn st b st' -> quiet st st'.
Proof. by intros (m & -> & _). Qed.
Lemma drawn_quiet st st' : drawn st st' -> quiet st st'.
Proof. by intros (m & -> & _). Qed.

Lemma nr_full_bound g : grid_ok g -> (nr_full g <= 20)%nat.
Proof.
  intros [Hl _]. change (Z.to_nat GRID_HEIGHT) with 20%nat in Hl. rewrite <- Hl.
  pose proof (filter_length_split full g). unfold nr_full. lia.
Qed.
Lemma score_moves st n : (0 < n <= 20)%nat -> score_after st n <> score st.
Proof.
  intros Hn. unfold score_after. rewrite decide_False by lia. unfold s32, signed, wrap.
  destruct (Z.ltb_spec ((score st + Z.of_nat n) mod 2 ^ 32) (2 ^ (32 - 1))); zdiv.
Qed.
Lemma landed_tells st s st' : is_running st = true -> landed st s st' -> tells st st'.
Proof.
  intros Hrun (g1 & s' & gr & c & v & _ & Hg & _ & _ & Hs & _ & _ & _ & _ & _ & _ & Hm).
  unfold tells, announced. rewrite Hm, Hrun, Hs. unfold purge_messages. pose proof (nr_full_bound g1 Hg) as Hn.
  destruct (decide (nr_full g1 = O)) as [E|E].
  - rewrite E. unfold score_after. rewrite !decide_True by done. by destruct (is_running st').
  - rewrite (decide_False (P := score_after st (nr_full g1) = score st)) by (apply score_moves; lia).
    by destruct (is_running st').
Qed.

(** ** Every interrupt keeps the game in order *)
Definition keeps (R : game -> game -> Prop) (c : M game unit) (st : game) : Prop :=
  runs c st (fun _ st' => game_ok st' /\ outside_screen (mem st) (mem st') /\ R st st').
Definition anything (st st' : game) : Prop := True.

Lemma keeps_mono (R R' : game -> game -> Prop) c st : (forall st', R st st' -> R' st st') -> keeps R c st -> keeps R' c st.
Proof. intros H Hc. eapply runs_mono; [exact Hc|]. intros [] st' (H1 & H2 & H3). by auto. Qed.
Lemma keeps_ret st : game_ok st -> keeps quiet (ret tt) st.
Proof. intros H. by apply runs_ret. Qed.
Lemma keeps_modify f st :
  game_ok (f st) -> mem (f st) = mem st -> quiet st (f st) -> keeps quiet (modify f) st.
Proof. intros H E Hq. apply runs_modify. split; [done|]. by rewrite E. Qed.
Lemma keeps_seq (R1 R2 R : game -> game -> Prop) (c : M game unit) (k : unit -> M game unit) st :
  keeps R1 c st -> (forall st', game_ok st' -> keeps R2 (k tt) st') ->
  (forall st1 st2, R1 st st1 -> R2 st1 st2 -> R st st2) -> keeps R (bind c k) st.
Proof.
  intros Hc Hk HR. apply runs_bind. eapply runs_mono; [exact Hc|]. intros [] st1 (H1 & Hm1 & R1').
  eapply runs_mono; [by apply Hk|]. intros [] st2 (H2 & Hm2 & R2'). split; [done|]. split; [|by eapply HR].
  intros a Ha. rewrite (Hm2 a Ha). by apply Hm1.
Qed.
Lemma keeps_drawn c st : game_ok st -> draws c st -> keeps quiet c st.
Proof.
  intros Hok Hc. eapply runs_mono; [exact Hc|]. intros [] st' H.
  pose proof (drawn_quiet _ _ H). by destruct H as (m & -> & Hm).
Qed.

Lemma arrow_down_keeps st : game_ok st -> keeps tells on_key_arrow_down st.
Proof.
  intros Hok. destruct (is_running st) eqn:Hrun.
  - eapply runs_mono; [by apply arrow_down_runs|]. pose proof Hok as (_ & Hc & Hr & Hs).
    destruct (Hs (Hr Hrun)) as [Hp [gr Hgr]].
    intros [] st' (s & Hshp & [[Hfree H]|[_ H]]).
    + pose proof (quiet_tells _ _ (redrawn_quiet _ _ _ H)) as Ht.
      apply (redrawn_ok st) in H as [H1 H2]; [done|done| |by exists gr].
      pose proof Hp as (s0 & Hs0 & Hfit). apply fits_range in Hfit.
      exists s. split; [done|]. apply free_fits in Hfree.
      change (fits s (x_pos (blk st)) (s32 (y_pos (blk st) + 1))). by rewrite s32_small by lia.
    + pose proof (landed_tells st s st' Hrun H) as Ht.
      destruct H as (g1 & s' & gr' & c & v & _ & _ & Hgrid & Hg1 & _ & Hb & _ & _ & Hst & Hcpu & Hm & _).
      split; [|done]. split; [by rewrite Hgrid|]. split; [by rewrite Hcpu|].
      split; [intros _; rewrite Hst; by apply Hr|]. intros _. rewrite Hb. split; [|by exists gr'].
      exists s'. split; [done|]. apply new_fits.
  - unfold on_key_arrow_down. apply runs_bind, runs_gets. rewrite Hrun.
    apply (keeps_mono quiet); [by apply quiet_tells|by apply keeps_ret].
Qed.

Lemma shift_runs f st :
  shifts f -> game_ok st -> started st = true ->
  keeps quiet (shift f) st.
Proof.
  intros Hf Hok Hst. pose proof Hok as (Hg & _ & _ & Hs). destruct (Hs Hst) as [Hp Hgrp].
  destruct (clashing_shift_run f st Hf Hg Hp) as (s & r & Hshp & Hr & Hiff).
  unfold shift. apply runs_bind, runs_gets, runs_bind. exists r, st. split; [done|].
  destruct r; [by apply keeps_ret|]. pose proof (proj1 Hiff eq_refl) as Hfree.
  eapply runs_mono; [by apply (redraw_shift_runs f s)|]. intros [] st' H.
  pose proof (redrawn_quiet _ _ _ H) as Hq. apply (redrawn_ok st) in H as [H1 H2]; [done|done| |].
  - apply (placed_free (grid st) _ s); [by rewrite <- Hshp; apply (shift_shp f)|done].
  - change (grp (set_plotted 1 (f (blk st)))) with (grp (f (blk st))). by rewrite (shift_grp f).
Qed.

Lemma shift_keeps f st :
  shifts f -> game_ok st ->
  keeps quiet (let! run := gets is_running in if negb run then ret tt else shift f) st.
Proof.
  intros Hf Hok. apply runs_bind, runs_gets. destruct (is_running st) eqn:Hrun; cbn [negb].
  - apply shift_runs; [done|done|]. by apply Hok.
  - by apply keeps_ret.
Qed.

Lemma blank_keeps st : game_ok st -> keeps quiet on_key_blank st.
Proof.
  intros Hok. pose proof Hok as (Hg & _ & Hr & Hs). unfold on_key_blank.
  apply runs_bind, runs_gets. destruct (is_running st) eqn:Hrun; cbn [negb]; [|by apply keeps_ret].
  destruct (Hs (Hr eq_refl)) as [Hp [gr Hgr]]. pose proof (placed_int _ Hp) as [Hx Hy].
  apply runs_bind, runs_gets, runs_bind.
  destruct (rotate_block_run (blk st) gr st Hgr) as (s & Hnext & Hrot). eexists _, st. split; [exact Hrot|].
  assert (Es : shp ((blk st) <| shp := Some s |>) = Some s) by reflexivity.
  destruct (is_block_clashing_run ((blk st) <| shp := Some s |>) s st Hg Es Hx Hy)
    as (r & Hclash & Hiff).
  apply runs_bind. exists r, st. split; [exact Hclash|]. destruct r; [by apply keeps_ret|].
  pose proof (proj1 Hiff eq_refl) as Hfree. apply runs_bind.
  eapply runs_mono; [by apply unplot_block_runs|]. intros [] st1 (m1 & -> & Hm1).
  apply runs_bind, runs_gets, runs_bind.
  set (st1 := with_block st (set_plotted 0 (blk st)) m1).
  destruct (rotate_block_run (blk st1) gr st1 Hgr) as (s' & Hnext' & Hrot').
  assert (s' = s) as ->.
  { change (next_shape (blk st1) gr) with (next_shape (blk st) gr) in Hnext'.
    rewrite Hnext in Hnext'. by injection Hnext'. }
  eexists _, st1. split; [exact Hrot'|]. apply runs_bind, runs_modify.
  assert (Hps : placed ((blk st1) <| shp := Some s |>)).
  { exists s. split; [done|]. exact (free_fits _ _ _ _ Hfree). }
  eapply runs_mono; [by apply plot_block_runs|]. intros [] st2 (m2 & -> & Hm2).
  split.
  - split; [done|]. split; [apply Hok|]. split; [by intros _; apply Hr|]. intros _.
    split; [exact Hps|]. by exists gr.
  - split; [|done]. intros a Ha. change (rd8 m2 a = rd8 (mem st) a). rewrite (Hm2 a Ha). apply (Hm1 a Ha).
Qed.

Lemma new_block_ok st f :
  grid_ok (grid st) -> cpu_freq st <> 0 ->
  (forall n b, let st' := (st <| tsc_reads := n |>) <| blk := b |> in
     grid (f st') = grid st' /\ cpu_freq (f st') = cpu_freq st' /\ started (f st') = true /\
     blk (f st') = blk st' /\ mem (f st') = mem st' /\ messages (f st') = messages st') ->
  keeps silent (new_block ;;; modify f) st.
Proof.
  intros Hg Hc Hf. apply runs_bind. eapply runs_mono; [apply new_block_runs|].
  intros [] st1 (n & b & -> & Hb). apply new_placed in Hb as [Hp Hgr].
  destruct (Hf n b) as (E1 & E2 & E3 & E4 & E5 & E6). apply runs_modify.
  split; [|split; [intros a _; by rewrite E5|exact E6]].
  split; [by rewrite E1|]. split; [by rewrite E2|]. split; [done|]. intros _. by rewrite E4.
Qed.

(** The first start draws the screen and makes a block, a later one does nothing
    before it switches between running and suspended. *)
Lemma first_start_runs st : game_ok st ->
  runs (if started st then ret tt else
    video_remap ;;; init_grid false ;;; new_block ;;; modify (fun g => g <| started := true |>)) st
    (fun _ st' => game_ok st' /\ started st' = true /\ outside_screen (mem st) (mem st') /\ quiet st st').
Proof.
  intros Hok. destruct (started st) eqn:Hst; [by apply runs_ret|].
  apply runs_bind. eapply runs_mono; [apply video_remap_draws|]. intros [] st1 (m1 & -> & Hm1).
  pose proof Hok as (Hg & Hc & _ & _).
  apply runs_bind. eapply runs_mono; [by apply init_grid_draws|]. intros [] st2 (m2 & -> & Hm2).
  apply runs_bind. eapply runs_mono; [apply new_block_runs|]. intros [] st3 (n & b & -> & Hb).
  apply new_placed in Hb as [Hp Hgr]. apply runs_modify. split; [by split|]. split; [done|]. split; [|done].
  intros a Ha. change (rd8 m2 a = rd8 (mem st) a). rewrite (Hm2 a Ha). apply (Hm1 a Ha).
Qed.

Lemma start_keeps st : game_ok st -> keeps tells tetris_start st.
Proof.
  intros Hok. unfold tetris_start. apply runs_bind, runs_gets, runs_bind.
  eapply runs_mono; [by apply first_start_runs|]. intros [] st1 ((Hg & Hc & _ & Hs) & Hst & Hm & E1 & E2 & E3).
  eexists tt, _. split; [reflexivity|]. split; [by split|]. split; [exact Hm|].
  unfold tells, announced. cbn. unfold update. cbn. rewrite E1, E2, E3, decide_True by done.
  by destruct (is_running st).
Qed.

Lemma memset_grid_ok m : grid_ok (memset_grid m).
Proof.
  unfold memset_grid. split.
  - by rewrite length_map, length_seqZ.
  - apply Forall_map, Forall_forall. intros y _. unfold compose. by rewrite length_map, length_seqZ.
Qed.

Lemma reset_keeps st : game_ok st -> keeps silent tetris_reset st.
Proof.
  intros Hok. unfold tetris_reset. apply runs_bind, runs_gets.
  destruct (started st) eqn:Hst; cbn [negb]; [|by apply (keeps_mono quiet); [intros ? (_ & _ & E)|apply keeps_ret]].
  apply runs_bind, runs_modify. pose proof Hok as (_ & Hc & _ & _).
  apply runs_bind. eapply runs_mono; [apply init_grid_draws, memset_grid_ok|].
  intros [] st1 (m1 & -> & Hm1).
  eapply runs_mono; [apply new_block_ok|].
  - apply memset_grid_ok.
  - exact Hc.
  - by intros n b.
  - intros [] st2 (H2 & Hm2 & E). split; [done|]. split; [|exact E].
    intros a Ha. rewrite (Hm2 a Ha). apply (Hm1 a Ha).
Qed.

(** A reset is not told. *)
Definition tells_on (code : Z) : game -> game -> Prop := if code =? 0x13 then silent else tells.

Lemma scancode_keeps code st : game_ok st -> keeps (tells_on code) (on_scancode code) st.
Proof.
  intros Hok. unfold on_scancode, tells_on.
  assert (Hq : forall c, keeps quiet c st -> keeps tells c st).
  { intros c. apply keeps_mono, quiet_tells. }
  destruct (Z.eqb_spec code 0x1c) as [->|]; [by apply start_keeps|].
  destruct (code =? 0x13).
  { apply runs_bind, runs_gets. destruct (ctrl_down st); [by apply reset_keeps|].
    apply (keeps_mono quiet); [by intros ? (_ & _ & E)|by apply keeps_ret]. }
  repeat match goal with |- keeps _ (if ?b then _ else _) _ => destruct b end;
    try (by apply Hq, keeps_ret); try (by apply Hq, keeps_modify).
  - by apply arrow_down_keeps.
  - by apply Hq, (shift_keeps _ _ shifts_left).
  - by apply Hq, (shift_keeps _ _ shifts_right).
  - by apply Hq, blank_keeps.
Qed.

Lemma keyboard_keeps st : game_ok st -> keeps anything keyboard_interrupt_handler st.
Proof.
  intros Hok. unfold keyboard_interrupt_handler. do 2 apply runs_bind, runs_gets.
  apply runs_bind. eexists _, (st <| kbd_reads ::= S |>). split; [reflexivity|].
  set (st1 := st <| kbd_reads ::= S |>). assert (Hok1 : game_ok st1) by exact Hok.
  eapply runs_mono; [exact (scancode_keeps _ st1 Hok1)|]. by intros [] st2 (H2 & Hm2 & _).
Qed.

Lemma timer_keeps st : game_ok st -> keeps tells timer_interrupt_handler st.
Proof.
  intros Hok. unfold timer_interrupt_handler. apply runs_bind.
  eexists _, (st <| tsc_reads ::= S |>). split; [reflexivity|].
  apply runs_bind, runs_gets. set (now := u64 _).
  match goal with |- runs ?c ?s _ => change (keeps tells c s) end. apply (keeps_seq quiet tells).
  - match goal with |- keeps _ (if ?b then _ else _) _ => destruct b end;
      [apply keeps_ret; exact Hok|apply keeps_modify; [exact Hok|reflexivity|done]].
  - intros st1 Hok1. do 2 apply runs_bind, runs_gets. cbv zeta.
    rewrite (proj2 (Z.eqb_neq (cpu_freq st1) 0)) by apply Hok1.
    match goal with |- runs (if ?b then _ else _) _ _ => destruct b end.
    { apply (keeps_mono quiet); [by apply quiet_tells|by apply keeps_ret]. }
    apply (keeps_seq quiet tells); [by apply keeps_modify|apply arrow_down_keeps|apply quiet_first].
  - apply quiet_first.
Qed.

Lemma interrupt_keeps e st : game_ok st -> keeps anything (interrupt e) st.
Proof.
  intros Hok. destruct e; [by apply keyboard_keeps|].
  by apply (keeps_mono tells); [|apply timer_keeps].
Qed.

Lemma interrupts_keep es st : game_ok st -> keeps anything (miter interrupt es) st.
Proof.
  revert st. induction es as [|e es IH]; intros st Hok; cbn [miter].
  - by apply (keeps_mono quiet); [|apply keeps_ret].
  - apply (keeps_seq anything anything); [by apply interrupt_keeps| |done]. intros st' Hok'. by apply IH.
Qed.

Lemma tetris_init_keeps shape_at group_at st :
  started st = false -> is_running st = false -> cpu_freq st <> 0 ->
  keeps quiet (tetris_init shape_at group_at) st.
Proof.
  intros Hst Hrun Hc. unfold tetris_init. do 2 apply runs_bind, runs_modify.
  match goal with |- runs ?c ?s _ => change (keeps quiet c s); set (st1 := s) end.
  assert (Hok : game_ok st1).
  { split; [apply memset_grid_ok|]. split; [done|].
    change (is_running st1) with (is_running st). change (started st1) with (started st).
    by rewrite Hst, Hrun. }
  clearbody st1. clear - Hok.
  apply keeps_drawn; [done|].
  do 3 (apply draws_seq; [apply print_text_with_color_draws; vm_compute; reflexivity|intros ? _]).
  apply print_text_with_color_draws; vm_compute; reflexivity.
Qed.

(** What [guest_kernel_main] does to the game's variables before it turns
    interrupts on. *)
Definition init_game (shape_at : Z -> option shape) (group_at : Z -> option shape_group) : M game unit :=
  timer_init ;;; tetris_init shape_at group_at.

(** ** Properties *)

(** C11 The game cannot crash: after [timer_init] and [tetris_init], whatever
    guest memory holds, every sequence of keyboard and timer interrupts (with
    any scan codes and any time stamps) runs to its end; no access leaves the
    grid or goes through a bad pointer, no division by zero occurs when the
    monitor reports a clock frequency, the block stays inside the grid, and only
    the screen's 4000 bytes of memory are written. *)
Theorem game_never_crashes shape_at group_at es st :
  started st = false -> is_running st = false -> u64 (tsc_rcx st (tsc_reads st)) <> 0 ->
  exists st', (init_game shape_at group_at ;;; miter interrupt es) st = Ret (tt, st') /\
    grid_ok (grid st') /\ (started st' = true -> placed (blk st')) /\
    outside_screen (mem st) (mem st').
Proof.
  intros Hst Hrun Hfreq. set (c := (_ ;;; _)).
  assert (H : runs c st (fun _ st' => game_ok st' /\ outside_screen (mem st) (mem st'))).
  { subst c. unfold init_game. do 2 apply runs_bind. apply runs_bind, runs_modify, runs_bind.
    eexists _, _. split; [reflexivity|]. apply runs_modify.
    eapply runs_mono; [by apply tetris_init_keeps|]. intros [] st1 (H1 & Hm1 & _).
    eapply runs_mono; [by apply interrupts_keep|]. intros [] st2 (H2 & Hm2 & _). split; [done|].
    intros a Ha. rewrite (Hm2 a Ha). apply (Hm1 a Ha). }
  destruct H as ([] & st' & Hr & (Hg & _ & _ & Hs) & Hm). exists st'. split; [done|].
  split; [done|]. split; [|done]. intros H. by apply Hs.
Qed.

(** The grid after [n] rows of a pattern, for the examples below. *)
Definition row_of (v : Z) : list grid_elem := replicate (Z.to_nat GRID_WIDTH) (Cell v 4).
Definition demo (rows : list (list grid_elem)) (b : block) (run : bool) : game :=
  Game rows b run run 7 ∅ (fun n => Z.of_nat n * 1000) (fun _ => 1000) 0
    (fun n => if decide (n = O) then 0x1c else if decide (n = 1%nat) then 0x50 else 0x39) 0
    (fun _ => 0) false 0 1000 [].

Lemma game_never_crashes_witness :
  let st := demo [] (Block 0 0 0 0 None None) false in
  (started st = false /\ is_running st = false /\ u64 (tsc_rcx st (tsc_reads st)) <> 0) /\
  exists st', (init_game (fun _ => None) (fun _ => None) ;;;
               miter interrupt [Keyboard; Timer; Keyboard; Timer; Keyboard]) st = Ret (tt, st') /\
    grid_ok (grid st') /\ (started st' = true -> placed (blk st')) /\
    outside_screen (mem st) (mem st').
Proof.
  intros st. split; [split; [reflexivity|split; [reflexivity|vm_compute; congruence]]|].
  apply (game_never_crashes (fun _ => None) (fun _ => None)
           [Keyboard; Timer; Keyboard; Timer; Keyboard] st);
    [reflexivity|reflexivity|vm_compute; congruence].
Defined.

(** C18 The in-place [purge_grid] is the functional one: the rows that are not
    full, in their order, with as many freed rows on top as were full; no full
    row remains, the score grows by their number and is told, and nothing else changes. *)
Theorem purge_grid_spec st :
  grid_ok (grid st) ->
  let k := nr_full (grid st) in
  exists st', purge_grid st = Ret (tt, st') /\
    grid st' = map clear (firstn k (grid st)) ++ List.filter (fun r => negb (full r)) (grid st) /\
    score st' = score_after st k /\ grid_ok (grid st') /\ nr_full (grid st') = O /\
    blk st' = blk st /\ mem st' = mem st /\ is_running st' = is_running st /\
    messages st' = messages st ++ if decide (k = O) then [] else [score_message (score st')].
Proof.
  intros Hg k. destruct (purge_grid_runs st Hg) as ([] & st' & Hr & Hg' & ->).
  eexists. split; [exact Hr|]. split; [reflexivity|]. split; [reflexivity|]. split; [done|].
  split; [by apply purged_ok|]. done.
Qed.

Lemma purge_grid_spec_witness :
  let g := replicate 17 (row_of 0) ++ [row_of 1; Cell 1 3 :: List.tl (row_of 0); row_of 1] in
  let st := demo g (Block 0 0 0 0 None None) true in
  grid_ok g /\
  exists st', purge_grid st = Ret (tt, st') /\ score st' = 9 /\
    grid st' = replicate 19 (row_of 0) ++ [Cell 1 3 :: List.tl (row_of 0)].
Proof.
  intros g st. assert (Hg : grid_ok g) by (split; [reflexivity|repeat constructor]).
  split; [exact Hg|].
  destruct (purge_grid_spec st Hg) as (st' & Hr & Hgrid & Hscore & _).
  exists st'. split; [exact Hr|]. split; [exact Hscore|exact Hgrid].
Defined.

(** The down key, which is also the timer's step: when the cells below the
    block are free the block moves there; otherwise its cells are set with its
    colour, the full rows are purged, a new block of some group, shape and colour
    waits at the top centre, and the game runs on exactly when that place is free. *)
Theorem arrow_down_spec st :
  game_ok st -> is_running st = true ->
  exists st' s, on_key_arrow_down st = Ret (tt, st') /\ shp (blk st) = Some s /\
    (free (grid st) s (x_pos (blk st)) (y_pos (blk st) + 1) /\
       redrawn st (set_plotted 1 ((blk st) <| y_pos ::= fun y => s32 (y + 1) |>)) st' \/
     ~ free (grid st) s (x_pos (blk st)) (y_pos (blk st) + 1) /\ landed st s st').
Proof.
  intros Hok Hrun. destruct (arrow_down_runs st Hok Hrun) as ([] & st' & Hr & s & Hs & H).
  by exists st', s.
Qed.

Lemma arrow_down_spec_witness :
  let st := demo (replicate 20 (row_of 0)) (Block 1 8 0 4 (Some shape8) (Some grp3)) true in
  (game_ok st /\ is_running st = true) /\
  exists st' s, on_key_arrow_down st = Ret (tt, st') /\ shp (blk st) = Some s /\
    (free (grid st) s 8 1 /\
       redrawn st (set_plotted 1 ((blk st) <| y_pos ::= fun y => s32 (y + 1) |>)) st' \/
     ~ free (grid st) s 8 1 /\ landed st s st').
Proof.
  intros st.
  assert (Hok : game_ok st).
  { split; [split; [reflexivity|repeat constructor]|]. split; [vm_compute; congruence|].
    split; [reflexivity|]. intros _. split; [exists shape8; split; [reflexivity|apply new_fits]|].
    exists grp3. reflexivity. }
  split; [split; [exact Hok|reflexivity]|].
  apply (arrow_down_spec st Hok). reflexivity.
Defined.
