(* ===== verification/GuestKernel.v ===== *)
(** * GuestKernel: the guest as a whole ([guest/init.c], [guest/init32.S],
    [guest/interrupt.c], the keyboard handler of [guest/keyboard.c], and the
    registrations of that file and of [guest/timer.c]).

    The parts of the guest, each with its own state, meet in one machine: page
    tables, gates, handlers and the screen are bytes of one memory, the drivers
    talk to whatever is behind the ports. The keyboard handler reads its port here,
    and the messages the game recorded ([messages] of [Tetris]) are sent over the
    serial line. The main result follows the guest from its entry through its
    initialisation and any sequence of interrupts, with every byte it prints. *)
From Stdlib Require Import ZArith Lia String.
From stdpp Require Import base tactics list numbers gmap.
From S2P Require Import Prelude Memory Format PhysicalMemory Radix Paging Ring Registry Exit.
From S2P Require Import Descriptors Vmm Devices Drivers GuestPaging Tetris Grid Game.
Local Open Scope Z_scope.

(** ** Descriptors: [guest/interrupt.h] *)
Definition interrupt_gate_descriptor : list Z := [16; 16; 3; 5; 4; 1; 2; 1; 16].
Definition offset_0_15 := nth_field interrupt_gate_descriptor 0.
Definition selector := nth_field interrupt_gate_descriptor 1.
Definition ist := nth_field interrupt_gate_descriptor 2.
Definition gate_type := nth_field interrupt_gate_descriptor 4.
Definition gate_dpl := nth_field interrupt_gate_descriptor 6.
Definition gate_present := nth_field interrupt_gate_descriptor 7.
Definition offset_16_31 := nth_field interrupt_gate_descriptor 8.
Definition GATE_SIZE : Z := 16.

(** ** The machine

    [pages] holds the guest's memory; the game's own copy of it is set when its
    code runs. *)
Record machine (St : Type) := Machine { pages : guest; idt : Z * Z; tetris : game; io : St }.
Arguments Machine {St} pages idt tetris io.
Arguments pages {St} _.
Arguments idt {St} _.
Arguments tetris {St} _.
Arguments io {St} _.
#[export] Instance eta_machine St : Eta (machine St) := fun s => Machine (pages s) (idt s) (tetris s) (io s).

Definition ram {St} (s : machine St) : memory := g_mem (pages s).
Definition set_ram {St} (m : memory) (s : machine St) : machine St :=
  Machine (Guest m (nr_used_base_pages (pages s)) (cr3 (pages s))) (idt s) (tetris s) (io s).

(** Where the linker put the guest's arrays and functions. *)
Record image := Image {
  pml4_base : Z; base_pages : Z; interrupt_desc_table : Z; handlers : Z;
  int_entry : Z -> Z; keyboard_isr : Z; timer_isr : Z;
  shape_at : Z -> option shape; group_at : Z -> option shape_group;
  literal_at : string -> Z }.

Section Kernel.
Context {St : Type} `{Ports St} (img : image) (fuel : nat).

Definition on_pages {A} (c : M guest A) : M (machine St) A :=
  zoom pages (fun p s => Machine p (idt s) (tetris s) (io s)) c.
Definition on_io {A} (c : M St A) : M (machine St) A :=
  zoom io (fun x s => Machine (pages s) (idt s) (tetris s) x) c.

(** Code of the game runs on the machine's memory, and what it says with [printk] is
    sent. The game itself accesses no port and does not write the string literals,
    so sending a message when the game's code returns is sending it when it calls
    [printk]. *)
Definition argument_value (a : argument) : Z :=
  match a with Number n => n | Literal text => literal_at img text end.
Definition say (m : memory) : list message -> M (machine St) unit :=
  miter (fun '(fmt, args) => on_io (Drivers.printk (fun _ => m) fuel fmt (argument_value <$> args))).
Definition on_game (c : M game unit) : M (machine St) unit :=
  zoom (fun s => ((tetris s) <| mem := ram s |>) <| messages := [] |>)
    (fun g s => Machine (Guest (mem g) (nr_used_base_pages (pages s)) (cr3 (pages s))) (idt s) g (io s)) c ;;;
  let! m := gets ram in
  let! l := gets (fun s => messages (tetris s)) in
  say m l.

(** ** [interrupt.c] *)
Definition register_interrupt_handler (vector handler : Z) : M (machine St) unit :=
  on_pages (put (fun m => store64 m (handlers img + 8 * vector) handler)).

Definition set_pl0_interrupt_gate (vector isr_qword : Z) : M guest unit :=
  let pdesc := interrupt_desc_table img + vector * GATE_SIZE in
  put (fun m => memset m pdesc 0x0 GATE_SIZE) ;;;
  put (fun m => fset m pdesc selector 0x8) ;;;
  put (fun m => fset m pdesc ist 0x0) ;;;
  put (fun m => fset m pdesc gate_type 0xe) ;;;
  put (fun m => fset m pdesc gate_dpl 0x0) ;;;
  put (fun m => fset m pdesc gate_present 1) ;;;
  put (fun m => fset m pdesc offset_0_15 isr_qword) ;;;
  put (fun m => fset m pdesc offset_16_31 (Z.shiftr isr_qword 16)) ;;;
  put (fun m => store32 m (pdesc + 8) (Z.shiftr isr_qword 32)).

Definition load_idt : M (machine St) unit :=
  modify (fun s => Machine (pages s) (256 * GATE_SIZE - 1, interrupt_desc_table img) (tetris s) (io s)).

Definition interrupt_init : M (machine St) unit :=
  on_pages (put (fun m => memset m (handlers img) 0x0 (256 * 8))) ;;;
  on_pages (mfor 256 0 (fun v => set_pl0_interrupt_gate v (int_entry img v))) ;;;
  load_idt ;;;
  on_io (interrupt_init_ports fuel).

(** ** [keyboard.c], with the port it reads; the game's state counts the calls. *)
Definition try_retrieve_scancode : M (machine St) (option Z) :=
  let! code := on_io (inb KEYBOARD_DATA_PORT) in
  ret (if code =? 0 then None else Some code).
Definition keyboard_interrupt_handler : M (machine St) unit :=
  let! g := gets tetris in
  let! r := try_retrieve_scancode in
  modify (fun s => Machine (pages s) (idt s) ((tetris s) <| kbd_reads ::= S |>) (io s)) ;;;
  on_game (on_scancode (match r with Some c => c | None => u8 (stack_byte g (kbd_reads g)) end)).

(** The code at the address of a handler; both return their argument. *)
Definition call (handler cpu : Z) : M (machine St) Z :=
  if handler =? keyboard_isr img then keyboard_interrupt_handler ;;; ret cpu
  else if handler =? timer_isr img then on_game timer_interrupt_handler ;;; ret cpu
  else stop BadAccess.

(** [cpu] is the address of the saved registers, [vector] the number saved there. *)
Definition interrupt_handler (vector cpu : Z) : M (machine St) Z :=
  let! m := gets ram in
  let handler := load64 m (handlers img + 8 * vector) in
  let! rsp := (if truthy handler then call handler cpu
               else on_io (Drivers.printk (fun _ => m) fuel unrecognized [vector]) ;;; ret cpu) in
  on_io (acknowledge vector) ;;;
  ret rsp.

(** ** Initialisation *)
Definition keyboard_init : M (machine St) unit :=
  register_interrupt_handler 0x21 (keyboard_isr img) ;;;
  on_io (print_string fuel (chars "finish keyboard initialization" ++ [10])).
Definition timer_init : M (machine St) unit :=
  on_game Tetris.timer_init ;;;
  register_interrupt_handler 0x20 (timer_isr img) ;;;
  on_io (print_string fuel (chars "finished timer initialization" ++ [10])).
Definition paging_init : M (machine St) unit :=
  on_pages (GuestPaging.paging_init (pml4_base img) (base_pages img)) ;;;
  on_io (print_string fuel (chars "Finishing guest paging." ++ [10])).

(** [video_init] does nothing. *)
Definition guest_kernel_main : M (machine St) unit :=
  paging_init ;;;
  interrupt_init ;;;
  on_io (pit_init fuel) ;;;
  keyboard_init ;;;
  timer_init ;;;
  on_game (tetris_init (shape_at img) (group_at img)).

(** [init32_entry]: the early page table, then the C code; interrupts are enabled
    when it returns. *)
Definition init32_entry : M (machine St) unit :=
  modify (fun s => set_ram (construct_early_page_table (pml4_base img) (ram s)) s) ;;;
  guest_kernel_main.
End Kernel.

(** ** The guest's memory in order *)
Definition apart (a n b k : Z) : Prop := a + n <= b \/ b + k <= a.

(** The string literals the game prints, and where they are. *)
Definition literals : list string := ["true"; "false"]%string.
Definition literals_at (img : image) (m : memory) : Prop :=
  forall t, t ∈ literals -> string_at m (literal_at img t) (chars t).
Definition in_literals (img : image) (b : Z) : Prop :=
  exists t, t ∈ literals /\ literal_at img t <= b <= literal_at img t + Z.of_nat (length (chars t)).

(** The arrays lie in the first GiB, above page 0, and do not meet. *)
Record layout_ok (img : image) : Prop := {
  lo_placed : GuestPaging.placed (pml4_base img) (base_pages img);
  lo_idt : 4096 <= interrupt_desc_table img /\ interrupt_desc_table img + 4096 <= 2 ^ 30;
  lo_handlers : 4096 <= handlers img /\ handlers img + 2048 <= 2 ^ 30;
  lo_apart : apart (interrupt_desc_table img) 4096 (handlers img) 2048 /\
    apart (interrupt_desc_table img) 4096 (pml4_base img) 12288 /\
    apart (interrupt_desc_table img) 4096 (base_pages img) 65536 /\
    apart (handlers img) 2048 (pml4_base img) 12288 /\ apart (handlers img) 2048 (base_pages img) 65536;
  lo_entries : forall v, 0 <= v < 256 -> 0 <= int_entry img v < 2 ^ 64;
  lo_literals : forall b, in_literals img b -> 4096 <= b < 2 ^ 30 /\
    ~ (interrupt_desc_table img <= b < interrupt_desc_table img + 4096) /\
    ~ (handlers img <= b < handlers img + 2048) /\
    ~ (pml4_base img <= b < pml4_base img + 12288) /\ ~ (base_pages img <= b < base_pages img + 65536);
  lo_isrs : 0 < keyboard_isr img < 2 ^ 64 /\ 0 < timer_isr img < 2 ^ 64 /\ keyboard_isr img <> timer_isr img }.

Definition handler_of (img : image) (v : Z) : Z :=
  if v =? 0x21 then keyboard_isr img else if v =? 0x20 then timer_isr img else 0.

Record memory_ok (img : image) (m : memory) : Prop := {
  mo_zero : zero_page m;
  mo_literals : literals_at img m;
  mo_tables : screen_tables (pml4_base img) (base_pages img) m;
  mo_gates : forall v, 0 <= v < 256 ->
    is_gate m (interrupt_desc_table img + v * GATE_SIZE) (int_entry img v);
  mo_handlers : forall v, 0 <= v < 256 -> load64 m (handlers img + 8 * v) = handler_of img v }.

Record guest_ok {St} (img : image) (s : machine St) : Prop := {
  go_memory : memory_ok img (ram s);
  go_cr3 : cr3 (pages s) = pml4_base img;
  go_idt : idt s = (4095, interrupt_desc_table img);
  go_game : game_ok (tetris s) }.

(** ** What the guest prints

    The text of the game's two messages, and what a change of the game makes it say. *)
Definition score_line (n : Z) : list Z :=
  chars "current score:" ++ default [] (directive_text ∅ 100 n) ++ [10].
Definition running_line (run : bool) : list Z :=
  chars "teris running:" ++ chars (if run then "true" else "false") ++ [10].
Definition told (g g' : game) : list Z :=
  (if decide (score g' = score g) then [] else score_line (score g')) ++
  (if Bool.eqb (is_running g') (is_running g) then [] else running_line (is_running g')).

Section Transcript.
Context {St : Type} `{Ports St} (img : image) (fuel : nat) (cpu : Z).

(** The scancode an interrupt finds: the port's, or the stack's when that is zero. *)
Definition scancode_read (s : machine St) : Z :=
  match inb KEYBOARD_DATA_PORT (io s) with
  | Ret (b, _) => if b =? 0 then u8 (stack_byte (tetris s) (kbd_reads (tetris s))) else b
  | Stop _ => 0
  end.
(** What an interrupt prints that leads from [s] to [s']: a report when it has no
    handler, nothing when a key resets the game, otherwise what changed. *)
Definition printed (v : Z) (s s' : machine St) : list Z :=
  if handler_of img v =? 0 then report v
  else if (v =? 0x21) && (scancode_read s =? 0x13) then []
  else told (tetris s) (tetris s').
Fixpoint transcript (vs : list Z) (s : machine St) : list Z :=
  match vs with
  | [] => []
  | v :: vs =>
      match interrupt_handler img fuel v cpu s with
      | Ret (_, s') => printed v s s' ++ transcript vs s'
      | Stop _ => []
      end
  end.
End Transcript.

Section Facts.
Context (img : image).
Hypothesis Hlay : layout_ok img.

Lemma literals_same m m' : (forall b, in_literals img b -> rd8 m' b = rd8 m b) -> literals_at img m -> literals_at img m'.
Proof using.
  intros Hs Hl t Ht. apply (string_at_frame m); [|by apply Hl]. intros b Hb. apply Hs. by exists t.
Qed.

(** Writes above the first GiB do not concern the tables. *)
Lemma memory_ok_frame m m' : (forall b, b < 2 ^ 30 -> rd8 m' b = rd8 m b) -> memory_ok img m -> memory_ok img m'.
Proof using Hlay.
  intros Hs [Hz Hl Ht Hg Hh]. pose proof (lo_idt _ Hlay). pose proof (lo_handlers _ Hlay). split.
  - intros c Hc. rewrite Hs by lia. by apply Hz.
  - apply (literals_same m); [|done]. intros b Hb. apply Hs. by apply (lo_literals _ Hlay).
  - apply (high_tables_frame _ _ (lo_placed _ Hlay) m); [|done]. intros b Hb _. apply Hs. lia.
  - intros v Hv. apply (is_gate_same m); [|by apply Hg]. intros b Hb. apply Hs. unfold GATE_SIZE in *. lia.
  - intros v Hv. rewrite <- Hh by done. apply load_ext. intros b Hb. apply Hs. lia.
Qed.

Lemma screen_high m m' b : outside_screen m m' -> b < 2 ^ 30 -> rd8 m' b = rd8 m b.
Proof using. intros H Hb. apply H. unfold on_screen, VIDEO_BUFFER_BASE. lia. Qed.

(** *** The gates *)
Lemma clear_words m d n a : zero_page m -> 4096 <= d -> 0 <= n <= 4096 -> d <= a -> a + 8 <= d + n ->
  load64 (memset m d 0 n) a = 0.
Proof using.
  intros Hz Hd Hn H1 H2. apply load64_zeros. intros b Hb. rewrite rd8_clear by done. by rewrite decide_True by lia.
Qed.

Lemma guest_gate_run v isr m n c : let p := interrupt_desc_table img + v * GATE_SIZE in
  set_pl0_interrupt_gate img v isr (Guest m n c) = Ret (tt, Guest (gate_fields (memset m p 0 16) p isr) n c).
Proof using. cbv zeta. unfold set_pl0_interrupt_gate. cbv zeta. rewrite !put_at. apply put_last. Qed.

Lemma gates_run m n c : zero_page m -> runs (mfor 256 0 (fun v => set_pl0_interrupt_gate img v (int_entry img v)))
  (Guest m n c) (fun _ s => exists m', s = Guest m' n c /\ only_at (interrupt_desc_table img) 4096 m m' /\
    forall v, 0 <= v < 256 -> is_gate m' (interrupt_desc_table img + v * GATE_SIZE) (int_entry img v)).
Proof using Hlay.
  intros Hz. pose proof (lo_idt _ Hlay) as [I1 I2]. set (t := interrupt_desc_table img) in *.
  eapply runs_mono; [apply (runs_mfor_counter _ (fun k s => exists m', s = Guest m' n c /\ only_at t 4096 m m' /\
    forall v, 0 <= v < k -> is_gate m' (t + v * GATE_SIZE) (int_entry img v)))|].
  - intros k s Hk (m1 & -> & Ho & Hg). unfold GATE_SIZE in *.
    assert (Hz1 : zero_page m1) by (apply (zero_page_same m); [done|]; intros b Hb; apply Ho; lia).
    set (p := t + k * 16). assert (Hp : 4096 <= p) by lia.
    exists tt, (Guest (gate_fields (memset m1 p 0 16) p (int_entry img k)) n c).
    split; [apply guest_gate_run|].
    assert (Hout : forall b, b < p \/ p + 16 <= b -> rd8 (gate_fields (memset m1 p 0 16) p (int_entry img k)) b = rd8 m1 b).
    { intros b Hb. rewrite gate_fields_out, rd8_clear by (done || lia). by rewrite decide_False by lia. }
    eexists. split; [reflexivity|]. split.
    + intros b Hb. rewrite Hout by lia. by apply Ho.
    + intros v Hv. destruct (decide (v = k)) as [->|Hne].
      * apply gate_fields_gate; [apply (lo_entries _ Hlay); lia|]. apply clear_words; done || lia.
      * apply (is_gate_same m1); [|apply Hg; lia]. intros b Hb. apply Hout. lia.
  - exists m. split; [done|]. split; [by intros b|]. intros v Hv. lia.
  - intros [] s (m' & -> & Ho & Hg). exists m'. done.
Qed.

(** *** Interrupts *)
Section Ports.
Context {St : Type} {Hports : Ports St} {sees : St -> view -> Prop} {Hspec : PortsSpec St sees}.

(** The guest in order, and its view of the machine behind the ports. *)
Definition guest_at (s : machine St) (v : view) : Prop := guest_ok img s /\ sees (io s) v.

Lemma int_text_bytes n : - 2 ^ 31 <= n < 2 ^ 31 -> Forall (fun c => 0 <= c < 256) (int_text n).
Proof using.
  intros Hn. unfold int_text. destruct (Z.ltb_spec n 0).
  - constructor; [lia|]. apply decimal_bytes. lia.
  - apply decimal_bytes. lia.
Qed.

Context (fuel : nat).
Hypothesis Hfuel : (0 < fuel)%nat.

(** *** Messages of the game *)
Definition spoken (m : memory) (l : list message) (t : list Z) : Prop :=
  forall s v, sees (io s) v -> runs (say img fuel m l) s (fun _ s' =>
    s' = Machine (pages s) (idt s) (tetris s) (io s') /\ sees (io s') (v <| sent ::= fun x => x ++ t |>)).

Lemma spoken_nil m : spoken m [] [].
Proof using Hfuel. intros s v Hs. apply runs_ret. split; [by destruct s|]. by destruct v; cbv [update]; cbn; rewrite app_nil_r. Qed.

Lemma spoken_cons m fmt args strs t l t' :
  (length fmt < Z.to_nat PAGE_SIZE_4K)%nat -> Forall (fun c => c <> 0) fmt ->
  map_Forall (fun p l => string_at m p l /\ (length l < Z.to_nat PAGE_SIZE_4K)%nat) strs ->
  render strs fmt (argument_value img <$> args) = Some t -> Forall (fun c => 0 <= c < 256) t ->
  spoken m l t' -> spoken m ((fmt, args) :: l) (t ++ t').
Proof using Hfuel Hspec.
  intros Hlen Hnz Hstrs Hr Ht Hl s v Hs. unfold say. cbn [miter]. apply runs_bind, runs_zoom.
  eapply runs_mono; [by apply (printk_runs (fun _ => m) fuel fmt _ strs t)|]. intros [] x Hx.
  eapply runs_mono; [by apply Hl|]. intros [] s' [E Hs']. split; [exact E|]. by rewrite sent_app in Hs'.
Qed.

Lemma spoken_score m n l t : spoken m l t -> spoken m (score_message n :: l) (score_line n ++ t).
Proof using Hlay Hfuel Hspec.
  apply (spoken_cons m _ _ ∅).
  - apply Nat.ltb_lt. vm_compute. reflexivity.
  - by apply (bool_decide_unpack _).
  - apply map_Forall_empty.
  - change (text_of "current score:%d" ++ [10]) with (chars "current score:" ++ 37 :: 100 :: [10]).
    rewrite render_literal by reflexivity. cbn [fmap list_fmap argument_value].
    rewrite render_directive by done. reflexivity.
  - unfold score_line. repeat (apply Forall_app; split); [by apply (bool_decide_unpack _)| |repeat constructor; lia].
    change (directive_text ∅ 100 n) with
      (Some (if s32 n =? - 2 ^ 31 then 45 :: decimal (2 ^ 64 - 2 ^ 31) else int_text (s32 n))).
    cbn [default]. pose proof (s32_range n). destruct (s32 n =? - 2 ^ 31); [|by apply int_text_bytes].
    constructor; [lia|]. apply decimal_bytes. lia.
Qed.

Lemma spoken_running m r l t : literals_at img m -> spoken m l t -> spoken m (running_message r :: l) (running_line r ++ t).
Proof using Hlay Hfuel Hspec.
  intros Hm. set (w := if r then "true"%string else "false"%string).
  apply (spoken_cons m _ _ {[literal_at img w := chars w]}).
  - apply Nat.ltb_lt. vm_compute. reflexivity.
  - by apply (bool_decide_unpack _).
  - apply map_Forall_singleton. split; [|by destruct r; apply Nat.ltb_lt; vm_compute].
    apply Hm. unfold literals. by destruct r; set_solver.
  - change (text_of "teris running:%s" ++ [10]) with (chars "teris running:" ++ 37 :: 115 :: [10]).
    rewrite render_literal by reflexivity. cbn [fmap list_fmap argument_value].
    rewrite render_directive by done.
    change (directive_text ?strs 115 ?p) with (strs !! p). by rewrite lookup_singleton_eq.
  - by destruct r; apply (bool_decide_unpack _).
Qed.

Lemma spoken_announced m g g' : memory_ok img m -> messages g = [] -> tells g g' -> spoken m (messages g') (told g g').
Proof using Hlay Hfuel Hspec.
  intros Hm Hg Ht. unfold tells in Ht. rewrite Hg in Ht. cbn [app] in Ht. rewrite Ht. unfold announced, told.
  assert (Hr : spoken m (if Bool.eqb (is_running g') (is_running g) then [] else [running_message (is_running g')])
    (if Bool.eqb (is_running g') (is_running g) then [] else running_line (is_running g'))).
  { destruct (Bool.eqb _ _); [apply spoken_nil|]. rewrite <- (app_nil_r (running_line _)).
    apply spoken_running; [apply (mo_literals _ _ Hm)|apply spoken_nil]. }
  case_decide; [exact Hr|]. by apply spoken_score.
Qed.

(** *** Code of the game in the machine *)
Lemma game_runs R T c (s : machine St) w (Q : unit -> machine St -> Prop) :
  game_ok (tetris s) -> memory_ok img (ram s) -> sees (io s) w ->
  (forall g, game_ok g -> keeps R c g) ->
  (forall g g' m, memory_ok img m -> messages g = [] -> R g g' -> spoken m (messages g') (T g g')) ->
  (forall g m x, game_ok g -> memory_ok img m ->
     sees x (w <| sent ::= fun l => l ++ T (((tetris s) <| mem := ram s |>) <| messages := [] |>) g |>) ->
     Q tt (Machine (Guest m (nr_used_base_pages (pages s)) (cr3 (pages s))) (idt s) g x)) ->
  runs (on_game img fuel c) s Q.
Proof using Hlay Hfuel Hspec.
  intros Hg Hm Hs Hk HT HQ. set (g0 := ((tetris s) <| mem := ram s |>) <| messages := [] |>).
  unfold on_game. apply runs_bind, runs_zoom. eapply runs_mono; [apply (Hk g0); exact Hg|].
  intros [] g (Hg' & Ho & HR). apply runs_bind, runs_gets, runs_bind, runs_gets.
  assert (Hm' : memory_ok img (mem g)).
  { apply (memory_ok_frame (ram s)); [|done]. intros b Hb. by apply (screen_high _ _ _ Ho). }
  eapply runs_mono; [by apply (HT g0 g (mem g) Hm' eq_refl HR)|]. intros [] s' [E Hs']. rewrite E. by apply HQ.
Qed.

Lemma keyboard_runs s w : guest_at s w ->
  runs (keyboard_interrupt_handler img fuel) s (fun _ s' => guest_at s' (w <| sent ::= fun l => l ++
    if scancode_read s =? 0x13 then [] else told (tetris s) (tetris s') |>)).
Proof using Hlay Hfuel Hspec.
  intros [[Hm Hc Hi Hg] Hs]. unfold keyboard_interrupt_handler, try_retrieve_scancode.
  apply runs_bind, runs_gets, runs_bind, runs_bind, runs_zoom.
  destruct (keyboard_data _ _ Hs) as (b & x & Hin & _ & Hx). exists b, x. split; [exact Hin|].
  apply runs_ret, runs_bind, runs_modify. set (code := match _ with Some c => c | None => _ end).
  assert (Ecode : scancode_read s = code).
  { unfold scancode_read, code. rewrite Hin. by destruct (b =? 0). }
  rewrite Ecode. clearbody code. cbn [pages idt tetris io].
  apply (game_runs (tells_on code) (fun g g' => if code =? 0x13 then [] else told g g') _ _ w); [done|done|exact Hx| | |].
  - intros g Hg'. by apply scancode_keeps.
  - intros g g' m Hm' Hnil. unfold tells_on. destruct (code =? 0x13).
    + unfold silent. rewrite Hnil. intros ->. apply spoken_nil.
    + by apply spoken_announced.
  - intros g m y Hg' Hm' Hy. split; [by split|exact Hy].
Qed.

Lemma call_runs v cpu s w : handler_of img v <> 0 -> guest_at s w ->
  runs (call img fuel (handler_of img v) cpu) s (fun rsp s' => rsp = cpu /\
    guest_at s' (w <| sent ::= fun l => l ++ printed img v s s' |>)).
Proof using Hlay Hfuel Hspec.
  intros Hh Hat. pose proof Hat as [[Hm Hc Hi Hg] Hs]. destruct (lo_isrs _ Hlay) as (K & T & KT).
  unfold call, printed. rewrite (proj2 (Z.eqb_neq _ _) Hh). unfold handler_of in *.
  destruct (Z.eqb_spec v 0x21) as [->|N1]; cbn [andb].
  - rewrite Z.eqb_refl. apply runs_bind. eapply runs_mono; [by apply keyboard_runs|].
    intros [] s' H'. by apply runs_ret.
  - destruct (Z.eqb_spec v 0x20) as [->|N2]; [|done].
    rewrite (proj2 (Z.eqb_neq (timer_isr img) (keyboard_isr img))), Z.eqb_refl by lia. apply runs_bind.
    apply (game_runs tells told _ _ w); [done|done|done|exact timer_keeps| |].
    + intros g g' m Hm' Hnil HR. by apply spoken_announced.
    + intros g m x Hg' Hm' Hx. apply runs_ret. split; [done|]. split; [by split|exact Hx].
Qed.

(** *** Before the guest is in order *)
Definition fresh_guest (s : machine St) : Prop :=
  zero_page (ram s) /\ literals_at img (ram s) /\ nr_used_base_pages (pages s) = 0 /\ started (tetris s) = false /\
  is_running (tetris s) = false /\ u64 (tsc_rcx (tetris s) (tsc_reads (tetris s))) <> 0.

(** Memory while the kernel initialises: no handler, or some of them. *)
Record booting (hs : Z -> Z) (m : memory) : Prop := {
  bt_zero : zero_page m;
  bt_literals : literals_at img m;
  bt_tables : screen_tables (pml4_base img) (base_pages img) m;
  bt_gates : forall v, 0 <= v < 256 -> is_gate m (interrupt_desc_table img + v * GATE_SIZE) (int_entry img v);
  bt_handlers : forall v, 0 <= v < 256 -> load64 m (handlers img + 8 * v) = hs v }.

Lemma tables_untouched m m' : screen_tables (pml4_base img) (base_pages img) m ->
  (forall b, pml4_base img <= b < pml4_base img + 12288 \/ base_pages img <= b < base_pages img + 65536 ->
     rd8 m' b = rd8 m b) -> screen_tables (pml4_base img) (base_pages img) m'.
Proof using Hlay Hfuel.
  intros Ht Hs. apply (high_tables_frame _ _ (lo_placed _ Hlay) m); [|done]. intros b _ Hb. apply Hs. lia.
Qed.

(** A registration is a store into the table. *)
Lemma register_runs hs vector h (s : machine St) (Q : unit -> machine St -> Prop) : booting hs (ram s) -> 0 <= vector < 256 -> 0 <= h < 2 ^ 64 ->
  (forall m, booting (fun v => if v =? vector then h else hs v) m ->
     Q tt (Machine (Guest m (nr_used_base_pages (pages s)) (cr3 (pages s))) (idt s) (tetris s) (io s))) ->
  runs (register_interrupt_handler img vector h) s Q.
Proof using Hlay Hfuel.
  intros [Hz Hl Ht Hg Hh] Hv Hr HQ. destruct s as [[m n c] i t x]. unfold ram in *. cbn [pages g_mem] in *.
  pose proof (lo_idt _ Hlay) as [I1 I2]. pose proof (lo_handlers _ Hlay) as [H1 H2].
  destruct (lo_apart _ Hlay) as (A1 & A2 & A3 & A4 & A5). unfold apart in *.
  set (p := handlers img + 8 * vector). set (m' := store64 m p h).
  assert (R : forall b, b < p \/ p + 8 <= b -> rd8 m' b = rd8 m b) by (intros b Hb; apply rd8_store_out; lia).
  apply runs_zoom. eexists tt, _. split; [reflexivity|]. apply HQ. split.
  - intros b Hb. rewrite R by lia. by apply Hz.
  - apply (literals_same m); [|done]. intros b Hb. apply R. destruct (lo_literals _ Hlay b Hb). lia.
  - apply (tables_untouched m); [done|]. intros b Hb. apply R. lia.
  - intros v Hv'. apply (is_gate_same m); [|by apply Hg]. intros b Hb. apply R. unfold GATE_SIZE in *. lia.
  - intros v Hv'. destruct (Z.eqb_spec v vector) as [->|Hne]; [by apply load64_store64|].
    rewrite <- Hh by done. apply load64_store64_ne. lia.
Qed.
Lemma interrupt_runs v cpu s w : 0 <= v < 256 -> guest_at s w ->
  runs (interrupt_handler img fuel v cpu) s (fun rsp s' => rsp = cpu /\ exists w', guest_at s' w' /\
    sent w' = sent w ++ printed img v s s' /\ timer w' = timer w /\ interrupt_delivery_pending (pics w') = 0).
Proof using Hlay Hfuel Hspec.
  intros Hv Hs. pose proof Hs as [[Hm Hc Hi Hg] Hsh]. unfold interrupt_handler. apply runs_bind, runs_gets.
  rewrite (mo_handlers _ _ Hm v Hv). apply runs_bind.
  apply (runs_mono _ _ (fun rsp s' => rsp = cpu /\ guest_at s' (w <| sent ::= fun l => l ++ printed img v s s' |>))).
  - unfold truthy. destruct (Z.eqb_spec (handler_of img v) 0) as [E|E]; cbn [negb].
    + apply runs_bind, runs_zoom. eapply runs_mono; [by apply report_runs|]. intros [] x Hx. apply runs_ret.
      split; [done|]. split; [by split|]. unfold printed. by rewrite E.
    + by apply call_runs.
  - intros rsp s1 [-> [Hg1 Hs1]]. apply runs_bind, runs_zoom.
    eapply runs_mono; [by apply acknowledge_runs|]. intros [] x (w2 & H2 & P2 & S2 & T2). apply runs_ret.
    split; [done|]. exists w2. rewrite S2, T2. split; [|by destruct w]. split; [|exact H2]. by destruct Hg1.
Qed.

Lemma interrupts_run vs cpu s w : Forall (fun v => 0 <= v < 256) vs -> guest_at s w ->
  runs (miter (fun v => interrupt_handler img fuel v cpu ;;; ret tt) vs) s (fun _ s' => exists w', guest_at s' w' /\
    sent w' = sent w ++ transcript img fuel cpu vs s /\ timer w' = timer w /\
    (vs <> [] \/ interrupt_delivery_pending (pics w) = 0 -> interrupt_delivery_pending (pics w') = 0)).
Proof using Hlay Hfuel Hspec.
  intros Hvs. revert s w. induction Hvs as [|v vs Hv _ IH]; intros s w Hs; cbn [miter transcript].
  - apply runs_ret. exists w. cbn. rewrite app_nil_r. split; [done|]. split; [done|]. split; [done|]. by intros [].
  - destruct (interrupt_runs v cpu s w Hv Hs) as (rsp & s1 & Hr & _ & w1 & H1 & E1 & T1 & P1). rewrite Hr.
    apply runs_bind, runs_bind. exists rsp, s1. split; [exact Hr|]. apply runs_ret.
    eapply runs_mono; [by apply IH|]. intros [] s2 (w2 & H2 & E2 & T2 & P2). exists w2.
    rewrite E2, E1, T2, T1, <- app_assoc. split; [done|]. split; [done|]. split; [done|]. intros _.
    apply P2. by right.
Qed.

(** After the page tables: the gates and the empty table of handlers. *)
Lemma guest_interrupt_init_runs s v :
  zero_page (ram s) -> literals_at img (ram s) -> screen_tables (pml4_base img) (base_pages img) (ram s) ->
  sees (io s) v -> runs (interrupt_init img fuel) s (fun _ s' => booting (fun _ => 0) (ram s') /\ cr3 (pages s') = cr3 (pages s) /\
    idt s' = (4095, interrupt_desc_table img) /\ tetris s' = tetris s /\
    sees (io s') ((v <| pics ::= pic_writes remap_accesses |>) <| sent ::= fun l =>
      l ++ chars "Finishing guest interrupt initialization" ++ [10] |>)).
Proof using Hlay Hfuel Hspec.
  intros Hz Hl Ht Hs. destruct s as [[m n c] i t x]. unfold ram in *. cbn [pages g_mem io] in *.
  pose proof (lo_idt _ Hlay) as [I1 I2]. pose proof (lo_handlers _ Hlay) as [H1 H2].
  destruct (lo_apart _ Hlay) as (A1 & A2 & A3 & A4 & A5). unfold apart in *.
  set (m1 := memset m (handlers img) 0 2048).
  assert (R1 : forall b, rd8 m1 b = if decide (handlers img <= b < handlers img + 2048) then 0 else rd8 m b)
    by (intros b; apply rd8_clear; done || lia).
  assert (Hz1 : zero_page m1) by (apply zero_page_clear; done || lia).
  unfold interrupt_init. apply runs_bind, runs_zoom. eexists tt, _. split; [reflexivity|].
  apply runs_bind, runs_zoom. cbn [pages put].
  eapply runs_mono; [exact (gates_run m1 n c Hz1)|]. intros [] s (m2 & -> & Ho & Hg).
  apply runs_bind, runs_modify. apply runs_zoom. cbn [io pages tetris Drivers.sent]. unfold interrupt_init_ports.
  apply runs_bind. eapply runs_mono; [by apply pic_remap_runs|]. intros [] x1 X1.
  eapply runs_mono; [apply print_string_runs; [done|reflexivity|exact X1]|]. intros [] x2 X2.
  unfold ram. cbn [pages g_mem cr3 idt tetris io]. split; [|done]. unfold only_at in Ho. split.
  - intros b Hb. rewrite Ho by lia. by apply Hz1.
  - apply (literals_same m); [|done]. intros b Hb. destruct (lo_literals _ Hlay b Hb).
    rewrite Ho, R1 by lia. apply decide_False. lia.
  - apply (tables_untouched m); [done|]. intros b Hb. rewrite Ho, R1 by lia. apply decide_False. lia.
  - exact Hg.
  - intros w Hw. apply load64_zeros. intros b Hb. rewrite Ho, R1 by lia. by rewrite decide_True by lia.
Qed.


Lemma print_runs l s v : plain l = true -> sees (io s) v ->
  runs (on_io (print_string fuel l)) s (fun _ s' =>
    pages s' = pages s /\ idt s' = idt s /\ tetris s' = tetris s /\ sees (io s') (v <| sent ::= fun x => x ++ l |>)).
Proof using Hfuel Hspec.
  intros Hl Hs. apply runs_zoom. eapply runs_mono; [by apply print_string_runs|]. intros [] x Hx. done.
Qed.

(** The guest's own initialisation, step by step: the page tables, *)
Lemma paging_runs s v : early (pml4_base img) (ram s) -> literals_at img (ram s) -> nr_used_base_pages (pages s) = 0 -> sees (io s) v ->
  runs (paging_init img fuel) s (fun _ s' =>
    zero_page (ram s') /\ literals_at img (ram s') /\ screen_tables (pml4_base img) (base_pages img) (ram s') /\
    cr3 (pages s') = pml4_base img /\ tetris s' = tetris s /\
    sees (io s') (v <| sent ::= fun x => x ++ chars "Finishing guest paging." ++ [10] |>)).
Proof using Hlay Hfuel Hspec.
  intros He Hl Hn Hs. destruct s as [[m n c] i t x]. unfold ram in *. cbn [pages g_mem io nr_used_base_pages] in *.
  subst n. destruct (guest_paging_init_run _ _ m c (lo_placed _ Hlay) He) as (m' & Hr & Ht & Ho).
  unfold paging_init. apply runs_bind, runs_zoom. cbn [pages]. exists tt, (Guest m' 0 (pml4_base img)).
  split; [exact Hr|]. eapply runs_mono; [apply (print_runs _ _ v); [reflexivity|exact Hs]|].
  intros [] s' (E1 & _ & E3 & Hs'). rewrite E1. cbn [pages g_mem cr3].
  destruct (pl_pml4 _ _ (lo_placed _ Hlay)), (pl_pool _ _ (lo_placed _ Hlay)).
  split; [apply (zero_page_same m); [apply He|]; intros b Hb; apply Ho; lia|]. split; [|done].
  apply (literals_same m); [|done]. intros b Hb. destruct (lo_literals _ Hlay b Hb). apply Ho; lia.
Qed.

(** the handlers, *)
Lemma inits_runs s v : booting (fun _ => 0) (ram s) -> sees (io s) v ->
  u64 (tsc_rcx (tetris s) (tsc_reads (tetris s))) <> 0 ->
  runs (keyboard_init img fuel ;;; timer_init img fuel) s (fun _ s' =>
    memory_ok img (ram s') /\ cr3 (pages s') = cr3 (pages s) /\ idt s' = idt s /\
    started (tetris s') = started (tetris s) /\ is_running (tetris s') = is_running (tetris s) /\
    cpu_freq (tetris s') <> 0 /\
    sees (io s') ((v <| sent ::= fun x => x ++ chars "finish keyboard initialization" ++ [10] |>)
      <| sent ::= fun x => x ++ chars "finished timer initialization" ++ [10] |>)).
Proof using Hlay Hfuel Hspec.
  intros Hb Hs Hf. destruct (lo_isrs _ Hlay) as (K & T & KT). unfold keyboard_init, timer_init.
  apply runs_bind, runs_bind. apply (register_runs _ _ _ _ _ Hb); [lia|lia|]. intros m1 B1.
  eapply runs_mono; [apply print_runs; [reflexivity|exact Hs]|]. intros [] s1 (E1 & E2 & E3 & Hs1).
  destruct s1 as [p1 i1 t1 x1]. cbn [pages idt tetris io] in *. subst p1 i1 t1.
  apply runs_bind. eexists tt, _. split; [reflexivity|]. cbn [pages idt tetris io nr_used_base_pages cr3].
  apply runs_bind. apply (register_runs (fun v => if v =? 0x21 then keyboard_isr img else 0)); [exact B1|lia|lia|].
  intros m2 [B2 BL B3 B4 B5]. eapply runs_mono; [apply print_runs; [reflexivity|exact Hs1]|].
  intros [] s2 (E1 & E2 & E3 & Hs2). destruct s2 as [p2 i2 t2 x2]. unfold ram. cbn [pages idt tetris io] in *. subst p2 i2 t2.
  cbn [pages g_mem cr3 idt tetris io]. split; [|split; [done|split; [done|split; [done|split; [done|split; [exact Hf|exact Hs2]]]]]].
  split; [exact B2|exact BL|exact B3|exact B4|]. intros w Hw. rewrite B5 by done. unfold handler_of.
  destruct (Z.eqb_spec w 0x20) as [->|]; [done|]. by destruct (w =? 0x21).
Qed.

(** and the whole. *)
Lemma init32_entry_runs s v : fresh_guest s -> sees (io s) v ->
  runs (init32_entry img fuel) s (fun _ s' => exists v', guest_at s' v' /\ booted v v').
Proof using Hlay Hfuel Hspec.
  intros (Hz & Hl & Hn & Hst & Hrun & Hf) Hs. unfold init32_entry, guest_kernel_main.
  apply runs_bind, runs_modify, runs_bind.
  eapply runs_mono; [apply (paging_runs _ v); [| |exact Hn|exact Hs]|].
  { apply (early_table _ _ (lo_placed _ Hlay)). exact Hz. }
  { apply (literals_same (ram s)); [|exact Hl]. intros b Hb. destruct (lo_literals _ Hlay b Hb).
    unfold set_ram, ram at 1. cbn [pages g_mem]. refine (early_table_outside _ _ b _). lia. }
  intros [] s1 (Z1 & L1 & T1 & C1 & G1 & S1). change (tetris (set_ram _ s)) with (tetris s) in G1.
  apply runs_bind. eapply runs_mono; [apply (guest_interrupt_init_runs s1); [exact Z1|exact L1|exact T1|exact S1]|].
  intros [] s2 (B2 & C2 & I2 & G2 & S2). apply runs_bind.
  apply (runs_zoom io). unfold pit_init. apply runs_bind.
  eapply runs_mono; [apply refresh_pit_channel0_runs; exact S2|]. intros [] x3 S3.
  eapply runs_mono; [apply print_string_runs; [done|reflexivity|exact S3]|]. intros [] x4 S4.
  set (s4 := Machine (pages s2) (idt s2) (tetris s2) x4).
  enough (H : runs ((keyboard_init img fuel ;;; timer_init img fuel) ;;;
    on_game img fuel (tetris_init (shape_at img) (group_at img))) s4 (fun _ s' => exists v', guest_at s' v' /\ booted v v'))
    by (destruct H as (a & s' & H & HQ); exists a, s'; split; [by rewrite bind_assoc in H|exact HQ]).
  apply runs_bind. eapply runs_mono; [apply (inits_runs s4); [exact B2|exact S4|]|].
  { change (tetris s4) with (tetris s2). by rewrite G2, G1. }
  intros [] s5 (M5 & C5 & I5 & St5 & R5 & F5 & S5).
  change (tetris s4) with (tetris s2) in *. rewrite G2, G1 in St5, R5. change (cr3 (pages s4)) with (cr3 (pages s2)) in C5.
  change (idt s4) with (idt s2) in I5. unfold on_game. apply runs_bind, runs_zoom.
  set (g5 := ((tetris s5) <| mem := ram s5 |>) <| messages := [] |>).
  eapply runs_mono; [apply (tetris_init_keeps _ _ g5); [by rewrite <- Hst|by rewrite <- Hrun|exact F5]|].
  intros [] g (Hg & Ho & _ & _ & Hq). apply runs_bind, runs_gets, runs_bind, runs_gets.
  cbn [tetris]. change (messages g5) with (@nil message) in Hq. rewrite Hq. apply runs_ret.
  eexists. split; [split; [|exact S5]|].
  - split; [|cbn; congruence|cbn; congruence|exact Hg]. apply (memory_ok_frame (ram s5)); [|done].
    intros b Hb. by apply (screen_high _ _ _ Ho).
  - destruct v as [l p t]. unfold booted. cbv [update]. cbn [sent pics timer].
    split; [unfold boot_text; by rewrite <- !app_assoc|].
    destruct (pic_writes_remapped p) as [Hr Hp]. done.
Qed.
End Ports.
End Facts.

(** ** The property *)

(** C6 The guest as a whole, on any machine that keeps the laws of the ports: entered
    with page 0 zero, it builds its tables, initialises and then takes any sequence
    of interrupts, each to its end. Whatever happens, no access goes astray: page 0
    stays zero, the first GiB and the screen stay mapped to themselves, every gate
    leads to its entry, the two handlers stay registered, the game stays well
    formed. The timer runs at 100 Hz, every interrupt is acknowledged, and the
    serial line carries the boot messages and then, interrupt by interrupt, a report
    of one that has no handler, and the new score and the change between running and
    suspended that the game made, unless a key reset it. *)
Theorem guest_runs {St : Type} {Hports : Ports St} {sees : St -> view -> Prop} {Hspec : PortsSpec St sees} (img : image) (fuel : nat) (vs : list Z) (cpu : Z)
    (s : machine St) (v : view) :
  layout_ok img -> (0 < fuel)%nat -> fresh_guest img s -> sees (io s) v -> Forall (fun vector => 0 <= vector < 256) vs ->
  exists s1 s' v', init32_entry img fuel s = Ret (tt, s1) /\
    miter (fun vector => interrupt_handler img fuel vector cpu ;;; ret tt) vs s1 = Ret (tt, s') /\
    guest_ok img s' /\ sees (io s') v' /\
    sent v' = sent v ++ boot_text ++ transcript img fuel cpu vs s1 /\
    timer v' = Vmm.Pit 2 11931 10 (last_tsc (timer v)) /\
    (vs <> [] -> interrupt_delivery_pending (pics v') = 0) /\
    forall a, 0 <= a < VA_LIMIT -> a / PAGE_SIZE_2M <> 0x8b8 ->
      walk (ram s') (cr3 (pages s')) a = guest_map (base_pages img) a.
Proof.
  intros Hlay Hf Hfr Hs Hvs.
  destruct (init32_entry_runs img Hlay fuel Hf s v Hfr Hs) as ([] & s1 & Hr1 & v1 & H1 & (E1 & _ & _ & T1)).
  destruct (interrupts_run img Hlay fuel Hf vs cpu s1 v1 Hvs H1) as ([] & s2 & Hr2 & v2 & [Hg Hs2] & E2 & T2 & P2).
  exists s1, s2, v2. split; [exact Hr1|]. split; [exact Hr2|]. split; [exact Hg|]. split; [exact Hs2|].
  split; [by rewrite E2, E1, <- app_assoc|]. split; [by rewrite T2|]. split; [intros Hne; apply P2; by left|].
  intros a Ha Hw. rewrite (go_cr3 _ _ Hg).
  apply (screen_walk _ _ _ _ (lo_placed _ Hlay)); [apply (mo_tables _ _ (go_memory _ _ Hg))|done|done].
Qed.

Definition sample_image : image :=
  Image 0x200000 0x210000 0x230000 0x240000 (fun v => 0x1000 + 16 * v) 0x5000 0x6000 (fun _ => None) (fun _ => None)
    (fun t => if String.eqb t "true" then 0x7000 else 0x7010).
Lemma sample_layout : layout_ok sample_image.
Proof.
  split; [exact sample_placed|split; by compute|split; by compute| |cbn; lia| |cbn; lia].
  - split_and!; (left; by compute) || (right; by compute).
  - intros b (t & Ht & Hb). assert (0x7000 <= b < 0x7020); [|cbn; lia].
    unfold literals in Ht. apply list_elem_of_In in Ht. destruct Ht as [<-|[<-|[]]]; cbn in Hb; lia.
Qed.

(** The image as it is loaded, and a monitor whose keyboard holds an Enter. *)
Definition sample_ram : memory := store_text (store_text ∅ 0x7000 (chars "true")) 0x7010 (chars "false").
Lemma sample_literals : literals_at sample_image sample_ram.
Proof.
  intros t Ht. apply list_elem_of_In in Ht.
  destruct Ht as [<-|[<-|[]]]; apply holds_text_sound; vm_compute; reflexivity.
Qed.
Definition enter_pressed : vmm := sample_vmm <| vm ::= fun v => v <| Vmm.kbd :=
  Ring SCANCODE_BUFFER_LENGTH 0 1 (0x1c :: replicate 49 0) |> |>.
Definition sample_guest (s : vmm) : machine vmm :=
  Machine (Guest sample_ram 0 0) (0, 0) (demo [] (Block 0 0 0 0 None None) false) s.

(** On the monitor's devices: Enter starts the game, the timer ticks, an unknown
    vector is reported, Enter suspends the game. *)
Lemma guest_runs_witness : exists (s0 : vmm) (s' : machine vmm) v',
  (init32_entry sample_image 1 ;;;
   miter (fun vector => interrupt_handler sample_image 1 vector 0x8000 ;;; ret tt) [0x21; 0x20; 0x2e; 0x21])
    (sample_guest s0) = Ret (tt, s') /\
  sent v' = boot_text ++ chars "teris running:true" ++ [10] ++
    chars "unrecoginzed guest interrupt request:46" ++ [10] ++ chars "teris running:false" ++ [10] /\
  walk (ram s') (cr3 (pages s')) 0x1000b8f9e = 0x1000b8f9e.
Proof.
  assert (Hser : serial_ok enter_pressed []) by (destruct sample_serial_ok; by split).
  destruct (devices_ready enter_pressed Hser) as (s0 & Hr0 & Hs0).
  destruct (guest_runs (Hspec := monitor_spec (console enter_pressed) (line_header enter_pressed)) sample_image 1
    [0x21; 0x20; 0x2e; 0x21] 0x8000 (sample_guest s0)
    (View [] (pic (vm enter_pressed)) (pit (vm enter_pressed))) sample_layout ltac:(lia))
    as (s1 & s' & v' & Hr1 & Hr2 & _ & _ & Hsent & _ & _ & Hw).
  - split; [intros b Hb|].
    { unfold ram, sample_guest, sample_ram, store_text. cbn -[Z.add rd8 wr8]. rewrite !rd8_wr8_ne by lia. reflexivity. }
    split; [exact sample_literals|]. repeat split. vm_compute. congruence.
  - exact Hs0.
  - repeat constructor; lia.
  - exists s0, s', v'. split; [run_with Hr1; exact Hr2|]. split.
    + rewrite Hsent.
      assert (E : match (portio_preinit ;;; vm_monitor_init_devices) enter_pressed with
        | Ret (_, s0) => match init32_entry sample_image 1 (sample_guest s0) with
            | Ret (_, s1) => transcript sample_image 1 0x8000 [0x21; 0x20; 0x2e; 0x21] s1
            | Stop _ => []
            end
        | Stop _ => [] end = chars "teris running:true" ++ [10] ++
          chars "unrecoginzed guest interrupt request:46" ++ [10] ++ chars "teris running:false" ++ [10])
        by (vm_compute; reflexivity).
      rewrite Hr0, Hr1 in E. rewrite E. reflexivity.
    + clear Hr0 Hr1 Hr2 Hsent Hs0. rewrite Hw; first [vm_compute; reflexivity|by_compute].
Defined.
